(* ===== verification/_CoqProject ===== *)
-Q . S2P
Prelude.v
GoHeap.v
ApiAlpha.v
ApiBeta.v
DeepCopyAlpha.v
DeepCopyBeta.v
Prog.v
GoLib.v
Kube.v
Types.v
ConfigTypes.v
Conversion.v
Client.v
Scheme.v
Wire.v
WireTypes.v
Shared.v
ConfigBuilder.v
TradeBotResources.v
TradeBotStatus.v
BotClient.v
Poller.v
Metrics.v
PollerSystem.v
PollerShutdown.v
TradeBot.v
TradeBotProofs.v
Convergence.v
Healthy.v
FreqUIResources.v
FreqUI.v
FreqUIProofs.v
Admission.v
BacktestResources.v
Backtest.v
BacktestProofs.v
Settled.v
Served.v
Ownership.v
AdmissionProofs.v
SpecControllers.v
Schema.v
SchemaDefaults.v
Store.v
CollectResults.v
Manager.v
ManagerSetup.v
Wiring.v
