(* ===== verification/Prelude.v ===== *)
(** * freqtrade-operator: a verification library

    freqtrade-operator is a Kubernetes operator, written in Go, that runs
    freqtrade trading bots.  Its custom resources are TradeBot (a bot),
    TradeBotConfig (what goes into the bot's config.json), Strategy (the
    Python strategy), FreqUI (a web UI for some bots) and Backtest (a one-shot
    run).  A reconciler per kind turns the resources into Secrets, ConfigMaps,
    PVCs, StatefulSets, Deployments, Jobs, Services, NetworkPolicies, Ingresses
    and HTTPRoutes; a poller reads every bot's REST API back into its status;
    webhooks validate the resources and convert them between v1alpha1 and
    v1beta1.

    ** How the program is modelled

    A reconciler is a sequential program that calls out and goes on with the
    answer, so effectful code is a [Prog] (Prog.v): a finite tree of calls
    whose branches are all possible answers.  [Call] (Client.v) lists the
    calls: the API server's operations per kind, events, metrics, the clock,
    random bytes and HTTP.  Nothing is assumed about the answers: a conflict,
    an error, an object that changed between two reads and an absent object
    are all branches, and a theorem [wp p h Q] holds in every one of them;
    [emits P p] says which calls a program can make at all.  [exec] runs a
    program in a concrete environment, for the examples.

    Pure code is a function with Go's cases: errors are [result], maps are
    [gmap], a Go pointer that may be nil is an [option], an [int64] wraps
    ([int64] of this file).  Objects are values, though in Go they are pointers
    the informer cache shares: what keeps their holders apart are the generated
    deep copies, and GoHeap.v, where a value lives on a heap, shows that they
    do ([copy_apart], and [cached_objects_apart] of Scheme.v).  Goroutines of the poller share state under a
    mutex, and their interleaving is the step relation of PollerSystem.v.

    Code that is not in the repository is an interface with its documented
    behaviour as laws: [KubeLib] (Kube.v) for apimachinery and
    controller-runtime helpers (conditions, finalizers, owner references),
    [WatchLib] (Wiring.v) for predicates and event handlers, [FlagLib]
    (ManagerSetup.v) for the parsing of numbers in flags, and [GoLib]
    (GoLib.v) for encoding/json, sha256, formatting; [GoRuntime] (GoHeap.v),
    [SchemeLib] (Scheme.v) and [JsonLib] (Wire.v) for allocation and the types
    of other packages: how they are copied, registered and marshalled.  Each
    has an instance, which the witnesses use.  What encoding/json does to
    strings that are not UTF-8 is written out ([coerce_utf8] of GoLib.v), and
    its laws are stated with it; [SchemeLib] allows for the kinds of metav1
    ([meta_kinds]) that scheme.Builder registers beside the operator's own.

    ** The files

    - Prelude: errors, strings and integers of Go, generic lemmas.
    - Prog: effect trees, [wp], [emits], [preserves], [run].
    - GoHeap: Go values on a heap, the types, and the statements of a generated
      deep copy with what they guarantee.
    - ApiAlpha, ApiBeta: every type of api/v1alpha1 and api/v1beta1 with the
      json tags of its fields.
    - DeepCopyAlpha, DeepCopyBeta: zz_generated.deepcopy.go of both versions,
      function by function; each is a deep copy of its type.
    - GoLib, Kube: the library interfaces and the Kubernetes object types.
    - Types, ConfigTypes: the custom resources (api/v1alpha1, api/v1beta1).
    - Conversion: ConvertTo and ConvertFrom of the four kinds that have two
      versions; round trips both ways with exactly what is lost, the rejected
      inputs (Job mode, plaintext credentials).
    - Client: the calls.
    - Scheme: groupversion_info.go, the init functions and the scheme of
      cmd/main.go: it is complete, and what the cache hands out is apart from
      what it keeps.
    - Wire: encoding/json driven by the types and tags of ApiAlpha and ApiBeta,
      and convertJSON as it is written: every call of it is lossless.
    - WireTypes: the convertJSON of Conversion, section by section, is that of
      Wire.
    - Shared: controllers/shared; PatchStatus (read, mutate, write if changed,
      retry on conflict) with its specification: it writes only an object just
      read with nothing but the status changed, and nothing when the status is
      the same.
    - ConfigBuilder: controllers/tradebotconfig/configbuilder, the render of
      config.json: which section comes from which field, the precedence of
      Secrets over plaintext, the JWT key's strength and its stability.
    - TradeBotResources: the six objects of a bot; the NetworkPolicy is
      default-deny with exactly the intended peers, the StatefulSet runs
      freqtrade trade unprivileged whatever the overrides.
    - TradeBotStatus: controllers/tradebot/status.go.
    - BotClient: botclient/client.go and the bot's credentials.
    - Poller: controllers/tradebot/poller.go: a poll only reads the bot; what
      it writes into the status, field by field what the responses of that
      poll say; the backoff and its bounds.
    - PollerSystem: scheduler and workers interleaved: in-flight marks are
      never lost, a bot is polled by one worker at a time, the channel never
      overflows, and the whole refines the life of a bot (untracked, idle,
      queued, polling).
    - Metrics: controllers/shared/metrics.go, the descriptors, and which series
      of a bot are exported: what a poll sets, what a deletion takes down, and
      the stale series it leaves.
    - PollerShutdown: BotPoller.Start around PollerSystem: p.mu guards the
      table and the channel, the goroutines at work always come to an end and
      never deadlock, and after a cancellation Start returns, the channel
      drained and every worker gone.
    - TradeBot: controllers/tradebot main.go, resources.go, finalizers.go: the
      whole of Reconcile.
    - TradeBotProofs: its theorems: the finalizer is removed only when the
      pods are stopped or the grace period is over, writes never lose
      spec.state, a Manual bot is not restarted by a config change, start and
      stop are called at most once and only when needed, resources are applied
      in order, a settled bot is left alone, the phase shows the outcome.
    - Convergence: what a reconcile applies, object by object, and that a
      second one applies the same - generated JWT key, config hash and pod
      template included.
    - Healthy: which configs can be rendered, and that in a cluster which
      serves what a bot needs a reconcile does succeed: the other theorems
      hold whatever is answered, and allow failure.
    - BacktestResources: controllers/backtest/resources, the objects of a run.
    - Backtest: controllers/backtest main.go, finalizers.go, resources.go and
      results.go: the whole of Reconcile.
    - BacktestProofs: a run is created once and never again when its Job was
      reaped, the outcome its WorkloadReady condition records survives, the
      results PVC is released from its owner before the Backtest goes (policy
      Retain), and a run touches only its own objects.
    - Settled: what Healthy shows of bots, for a run: in a cluster that serves
      what it needs a reconcile succeeds, creates all of the run or nothing,
      records the Job's outcome and the sidecar's results, and is repeated
      exactly while something is missing.
    - FreqUIResources: controllers/frequi/resources, the Deployment, Service,
      Ingress and HTTPRoutes of a web UI.
    - FreqUI: controllers/frequi/main.go: the whole of Reconcile, with the
      three exposures and the pruning of what another exposure left behind.
    - FreqUIProofs: at most one exposure is left, only owned objects are
      touched and deleted, the status reflects the Deployment and the routes,
      Ingress and HTTPRoutes route alike, and when the advertised URL is an
      origin the bots allow.
    - Served: what Healthy and Settled show, for a web UI: a reconcile succeeds,
      applies exactly the Deployment, the Service and the exposure, with a route
      to every bot that serves its API, and records how they stand.
    - Ownership: the three reconcilers that apply objects together: they keep
      to different objects, but for the pairs of names it lists.
    - Admission: the validating webhooks of api/v1alpha1 and api/v1beta1.
    - AdmissionProofs: exactly what is admitted; the flags the operator
      manages stay its own; a live bot has the credentials of a Secret; what
      a stopped bot's validator denies; what the plaintext annotation opens.
    - SpecControllers: controllers/strategy and controllers/tradebotconfig,
      and that the Strategy's status agrees with its webhook.
    - Schema: the validation markers of the API types as predicates;
      conversion keeps them, and routes are built within their own schema.
    - SchemaDefaults: the default markers; every default in the code is the
      schema's, so what the controllers do does not depend on defaulting.
    - Store: PatchStatus of Shared.v against an API server with
      resourceVersions, stale reads and other clients: it implements an
      atomic read-modify-write of the status.
    - CollectResults: controllers/backtest/collectresults, the sidecar that
      waits for the run, extracts its summary and writes the results
      ConfigMap: it writes last and only after the exit, its wait ends, and
      the reconciler reads back, field by field, what the entry of the
      strategy in the latest result file says.
    - Manager: cmd/main.go, the sidecar's command line and the detection of
      the own image; the container a Job is built with runs the sidecar of
      that very run, and the reconciler finds what it writes.
    - ManagerSetup: cmd/main.go's runManager, its flags, options and the order
      of the set-up; the manager only starts completely set up, with the
      options its flags ask for.
    - Wiring: controllers/*/setup.go, the watches; an edit of a FreqUI, a
      TradeBotConfig, a Strategy or an owned object reaches the bots whose
      rendering depends on it.

    ** Bounds and fuel

    Programs are finite trees, so a reconcile always terminates; the one loop
    with a budget in the code, retry.RetryOnConflict, has the steps of its
    DefaultBackoff ([DefaultBackoff_Steps] of Shared.v).  The sidecar's wait
    (CollectResults) is bounded by a deadline on the clock, not by a count, so
    it takes fuel: [wait_ends] shows that [wait_iterations] rounds are enough
    on any clock that advances by the poll interval.  No other fuel is used,
    [drive] of PollerSystem (an example) aside.
    time.Duration arithmetic is written with its wrap-around where a user
    value enters (the poll interval); [backoff_bounds] states the range in
    which it is exact.

    ** What is not modelled

    Logging; the end-to-end test utilities (test/utils, which only shell out to
    kubectl and kind); capacities of slices and aliasing between the objects of
    one reconcile beyond what GoHeap.v shows; the text of JSON beneath its tree
    (the laws of [GoLib]); the work queue of controller-runtime, which calls Reconcile at
    will, and its cache (a Get may answer anything; Store.v says what stale
    reads mean for PatchStatus).  Condition timestamps ([LastTransitionTime]) are
    left out (see Kube.v), and so are the schemas of the Kubernetes types
    embedded in a CRD (affinities, volumes, resources), the parentRefs and
    hostnames of a FreqUI's gateway aside (Schema.v).  Strings are bytes:
    case mapping and trimming are those of ASCII. *)

From Stdlib Require Export ZArith String Ascii List Bool Lia.
From Stdlib Require Export SpecFloat.
From Stdlib Require Export Eqdep_dec.
From stdpp Require Export base tactics option list gmap strings pretty sorting.
Export ListNotations.

#[export] Set Default Goal Selector "!".

(** ** Scopes and notations *)

Declare Scope go_scope.
Delimit Scope go_scope with go.

(** Go's string concatenation: [+:+] is stdpp's [String.append]. *)
Notation "s1 ^^ s2" := (String.append s1 s2)
  (at level 60, right associativity) : go_scope.
Open Scope go_scope.

(** ** Go errors

    A Go [error] value: what the code inspects of it is its text
    ([Error()]) and, through [errors.As]/[errors.Is] and the apimachinery
    predicates, the kind of the innermost error, so an [error] is a kind, a
    text, and the [%w]-wrapping done by [fmt.Errorf]. *)

Inductive error_kind :=
  | NotFound                (* apierrors.IsNotFound *)
  | Conflict                (* apierrors.IsConflict *)
  | AlreadyOwnedError       (* *controllerutil.AlreadyOwnedError *)
  | StatusError (code : Z)  (* *botclient.StatusError *)
  | DeadlineExceeded        (* context.DeadlineExceeded *)
  | TimeoutError            (* an error whose Timeout() is true *)
  | OtherError.             (* anything else *)

#[export] Instance error_kind_eq_dec : EqDecision error_kind.
Proof. solve_decision. Defined.

Inductive error :=
  | Leaf (kind : error_kind) (text : string)
  | Wrap (prefix : string) (inner : error).   (* fmt.Errorf("<prefix>: %w", inner) *)

#[export] Instance error_eq_dec : EqDecision error.
Proof. solve_decision. Defined.

(** [fmt.Errorf] without [%w]. *)
Definition Errorf (text : string) : error := Leaf OtherError text.

Fixpoint Error (e : error) : string :=
  match e with
  | Leaf _ text => text
  | Wrap prefix inner => prefix ^^ ": " ^^ Error inner
  end.

(** The kind that [errors.As] reaches by unwrapping. *)
Fixpoint kind_of (e : error) : error_kind :=
  match e with
  | Leaf k _ => k
  | Wrap _ inner => kind_of inner
  end.

Definition IsNotFound (e : error) : bool := bool_decide (kind_of e = NotFound).
Definition IsConflict (e : error) : bool := bool_decide (kind_of e = Conflict).
Definition IsAlreadyOwned (e : error) : bool := bool_decide (kind_of e = AlreadyOwnedError).

(** [client.IgnoreNotFound]. *)
Definition IgnoreNotFound (e : error) : option error :=
  if IsNotFound e then None else Some e.

(** A Go result pair [(value, err)] in which exactly one side is meaningful. *)
Inductive result (A : Type) :=
  | Ok (a : A)
  | Err (e : error).
Arguments Ok {A} a.
Arguments Err {A} e.

Definition is_ok {A} (r : result A) : bool :=
  match r with Ok _ => true | Err _ => false end.

#[export] Instance result_ret : MRet result := fun A a => Ok a.
#[export] Instance result_bind : MBind result := fun A B f r =>
  match r with Ok a => f a | Err e => Err e end.
#[export] Instance result_fmap : FMap result := fun A B f r =>
  match r with Ok a => Ok (f a) | Err e => Err e end.

(** [if err != nil { return fmt.Errorf("<prefix>: %w", err) }] *)
Definition wrap_err {A} (prefix : string) (r : result A) : result A :=
  match r with Ok a => Ok a | Err e => Err (Wrap prefix e) end.

Lemma result_bind_ok {A B} (r : result A) (f : A → result B) b :
  r ≫= f = Ok b ↔ ∃ a, r = Ok a ∧ f a = Ok b.
Proof.
  destruct r as [a|e]; cbn; split; [by eauto| |done|].
  - by intros (? & [= <-] & ?).
  - by intros (? & [=] & ?).
Qed.

Lemma wrap_err_ok {A} p (r : result A) a : wrap_err p r = Ok a ↔ r = Ok a.
Proof. by destruct r. Qed.

(** ** Integers *)

(** Two's-complement wrap-around of Go's [int64]. *)
Definition int64 (z : Z) : Z := ((z + 2 ^ 63) mod 2 ^ 64 - 2 ^ 63)%Z.

Lemma int64_small z : (- 2 ^ 63 <= z < 2 ^ 63)%Z → int64 z = z.
Proof. intros ?. unfold int64. rewrite Z.mod_small; lia. Qed.

(** [time.Duration] counts nanoseconds. *)
Definition Second : Z := 1000000000.
Definition Minute : Z := (60 * Second)%Z.

(** ** Strings: the parts of Go's [strings], [strconv], [fmt] and [sort] in use *)

Definition nl : string := String (ascii_of_nat 10) EmptyString.
Definition dquote : string := String (ascii_of_nat 34) EmptyString.
Definition backslash : ascii := ascii_of_nat 92.

Fixpoint HasPrefix (s p : string) {struct p} : bool :=
  match p, s with
  | EmptyString, _ => true
  | String a p', String b s' => Ascii.eqb a b && HasPrefix s' p'
  | String _ _, EmptyString => false
  end.

Lemma HasPrefix_spec s p : HasPrefix s p = true ↔ ∃ t, s = p ^^ t.
Proof.
  revert s; induction p as [|a p IH]; intros s; cbn; [split; eauto|].
  destruct s as [|b s]; [split; [done|by intros [? ?]]|].
  rewrite andb_true_iff, Ascii.eqb_eq, IH. split.
  - intros [-> [t ->]]. by exists t.
  - intros [t [= -> ->]]. eauto.
Qed.

Lemma HasPrefix_app p t : HasPrefix (p ^^ t) p = true.
Proof. apply HasPrefix_spec. by exists t. Qed.

Fixpoint HasSuffix (s p : string) : bool :=
  (s =? p)%string || match s with EmptyString => false | String _ s' => HasSuffix s' p end.

(** [strings.TrimSuffix]: removes one trailing [p], when there is one. *)
Fixpoint TrimSuffix (s p : string) : string :=
  if (s =? p)%string then EmptyString
  else match s with
       | EmptyString => EmptyString
       | String c s' => String c (TrimSuffix s' p)
       end.

Fixpoint Contains (s sub : string) : bool :=
  HasPrefix s sub || match s with EmptyString => false | String _ s' => Contains s' sub end.

Fixpoint bytes (s : string) : list ascii :=
  match s with EmptyString => [] | String c s' => c :: bytes s' end.

Definition ContainsAny (s chars : string) : bool :=
  existsb (fun c => existsb (Ascii.eqb c) (bytes chars)) (bytes s).

(** [strings.TrimSpace] on ASCII text: \t \n \v \f \r and space. *)
Definition is_space (c : ascii) : bool :=
  let n := nat_of_ascii c in ((9 <=? n) && (n <=? 13))%nat || (n =? 32)%nat.

Fixpoint TrimLeft (s : string) : string :=
  match s with
  | EmptyString => EmptyString
  | String c s' => if is_space c then TrimLeft s' else s
  end.

Fixpoint TrimRight (s : string) : string :=
  match s with
  | EmptyString => EmptyString
  | String c s' =>
      match TrimRight s' with
      | EmptyString => if is_space c then EmptyString else String c EmptyString
      | t => String c t
      end
  end.

Definition TrimSpace (s : string) : string := TrimRight (TrimLeft s).

(** [strings.ToLower] on ASCII text. *)
Definition lower (c : ascii) : ascii :=
  let n := nat_of_ascii c in
  if ((65 <=? n) && (n <=? 90))%nat then ascii_of_nat (n + 32) else c.

Fixpoint ToLower (s : string) : string :=
  match s with EmptyString => EmptyString | String c s' => String (lower c) (ToLower s') end.

Lemma chars_append (s t : string) :
  list_ascii_of_string (s ^^ t) = list_ascii_of_string s ++ list_ascii_of_string t.
Proof. induction s as [|c s IH]; [done|exact (f_equal (cons c) IH)]. Qed.

Lemma append_empty_r (s : string) : s ^^ "" = s.
Proof. induction s as [|c s IH]; [done|exact (f_equal (String c) IH)]. Qed.

Lemma string_length_append (s t : string) : String.length (s ^^ t) = (String.length s + String.length t)%nat.
Proof. induction s as [|c s IH]; [done|exact (f_equal S IH)]. Qed.

Lemma concat_cons s l : String.concat "" (s :: l) = s ^^ String.concat "" l.
Proof. destruct l; [exact (eq_sym (append_empty_r s))|done]. Qed.

Definition Join (l : list string) (sep : string) : string := String.concat sep l.

(** Go's string order is the byte order; [sort.Strings] sorts by it. *)
Definition string_le (s t : string) : Prop := String.leb s t = true.
#[export] Instance string_le_dec : RelDecision string_le.
Proof. intros s t. unfold string_le. apply _. Defined.

Lemma ascii_compare_nat a b : Ascii.compare a b = Nat.compare (nat_of_ascii a) (nat_of_ascii b).
Proof. unfold Ascii.compare, nat_of_ascii. by rewrite N2Nat.inj_compare. Qed.

#[export] Instance string_le_total : Total string_le.
Proof.
  intros s t. unfold string_le, String.leb.
  rewrite (String.compare_antisym s t). destruct (String.compare t s); cbn; auto.
Qed.

#[export] Instance string_le_trans : Transitive string_le.
Proof.
  intros s t u. unfold string_le, String.leb.
  revert t u; induction s as [|a s IH]; intros [|b t] [|c u]; cbn; try done.
  rewrite !ascii_compare_nat.
  destruct (Nat.compare_spec (nat_of_ascii a) (nat_of_ascii b)) as [Hab|Hab|Hab];
    destruct (Nat.compare_spec (nat_of_ascii b) (nat_of_ascii c)) as [Hbc|Hbc|Hbc];
    destruct (Nat.compare_spec (nat_of_ascii a) (nat_of_ascii c)) as [Hac|Hac|Hac];
    intros; try done; try lia. by eapply IH.
Qed.

Definition sort_Strings (l : list string) : list string := merge_sort string_le l.

Lemma sort_Strings_sorted l : Sorted string_le (sort_Strings l).
Proof. apply Sorted_merge_sort, _. Qed.

Lemma sort_Strings_perm l : sort_Strings l ≡ₚ l.
Proof. apply merge_sort_Permutation. Qed.

(** [%q]: a double-quoted Go string literal.  ASCII only: the escapes of the
    control characters are Go's, bytes above 127 are copied. *)
Definition hex_digit (n : nat) : ascii :=
  if (n <? 10)%nat then ascii_of_nat (48 + n) else ascii_of_nat (87 + n).

Definition quote_byte (c : ascii) : string :=
  let esc e := String backslash (String e EmptyString) in
  match nat_of_ascii c with
  | 7 => esc "a"%char | 8 => esc "b"%char | 9 => esc "t"%char | 10 => esc "n"%char
  | 11 => esc "v"%char | 12 => esc "f"%char | 13 => esc "r"%char
  | 34 => esc (ascii_of_nat 34) | 92 => esc backslash
  | n => if ((n <? 32) || (n =? 127))%nat
         then String backslash (String "x"%char
                (String (hex_digit (n / 16)) (String (hex_digit (n mod 16)) EmptyString)))
         else String c EmptyString
  end.

Definition Quote (s : string) : string :=
  dquote ^^ String.concat "" (map quote_byte (bytes s)) ^^ dquote.

(** [%d]. *)
Definition Itoa (z : Z) : string := pretty z.

(** [%v] of a [[]string]. *)
Definition fmt_strings (l : list string) : string := "[" ^^ Join l " " ^^ "]".

(** ** Lists and options *)

(** Append to [l] unless already present: the [map[string]struct{}]-guarded
    append of the sources. *)
Definition append_new (l : list string) (x : string) : list string :=
  if decide (x ∈ l) then l else l ++ [x].

Lemma append_new_NoDup l x : NoDup l → NoDup (append_new l x).
Proof.
  intros. unfold append_new. case_decide; [done|].
  apply NoDup_app; split_and!; [done| |by repeat constructor; set_solver].
  set_solver.
Qed.

Lemma elem_of_append_new l x y : y ∈ append_new l x ↔ y ∈ l ∨ y = x.
Proof. unfold append_new. case_decide; set_solver. Qed.

Lemma foldl_append_new_NoDup l xs : NoDup l → NoDup (foldl append_new l xs).
Proof. revert l; induction xs as [|x xs IH]; intros l Hl; cbn; auto using append_new_NoDup. Qed.

Lemma elem_of_foldl_append_new l xs y : y ∈ foldl append_new l xs ↔ y ∈ l ∨ y ∈ xs.
Proof.
  revert l; induction xs as [|x xs IH]; intros l; cbn; [set_solver|].
  rewrite IH, elem_of_append_new. set_solver.
Qed.

#[export] Hint Resolve append_new_NoDup foldl_append_new_NoDup : core.

Lemma existsb_iff {A} (f : A → bool) l : existsb f l = true ↔ ∃ x, x ∈ l ∧ f x = true.
Proof. rewrite existsb_exists. by setoid_rewrite list_elem_of_In. Qed.

Lemma existsb_false_iff {A} (f : A → bool) l : existsb f l = false ↔ ∀ x, x ∈ l → f x = false.
Proof.
  split.
  - intros Hf x Hin. apply not_true_iff_false. intros Hx. by rewrite (proj2 (existsb_iff f l)) in Hf; [|exists x].
  - intros Hall. apply not_true_iff_false. intros (x & Hin & Hx)%existsb_iff. by rewrite Hall in Hx.
Qed.

Lemma forallb_iff {A} (f : A → bool) l : forallb f l = true ↔ ∀ x, x ∈ l → f x = true.
Proof. rewrite forallb_forall. by setoid_rewrite list_elem_of_In. Qed.

Lemma forallb_false_iff {A} (f : A → bool) l : forallb f l = false ↔ ∃ x, x ∈ l ∧ f x = false.
Proof.
  induction l as [|y l IH]; [split; [done|by intros (x & ?%elem_of_nil & _)]|]. cbn. rewrite andb_false_iff, IH. split.
  - intros [Hy|(x & Hin & Hx)]; [exists y; split; [by left|done]|exists x; split; [by right|done]].
  - intros (x & [->|Hin]%elem_of_cons & Hx); [by left|right; eauto].
Qed.

(** [p != nil && *p] on a nil-able pointer to a boolean. *)
Definition is_true_ptr (p : option bool) : bool :=
  match p with Some b => b | None => false end.

Definition nonempty (s : string) : bool := negb (s =? "")%string.

Lemma nonempty_spec s : nonempty s = true ↔ s ≠ "".
Proof. unfold nonempty. rewrite negb_true_iff, String.eqb_neq. done. Qed.

(** An invariant of the steps is an invariant of the reachable states. *)
Lemma rtc_invariant {A} (R : relation A) (I : A → Prop) :
  (∀ x y, R x y → I x → I y) → ∀ x y, rtc R x y → I x → I y.
Proof. intros HI x y Hr. induction Hr; eauto. Qed.
