(* ===== verification/GoHeap.v ===== *)
(** * Go values, the heap, and copies

    The rest of the development passes objects around as values.  In Go they
    are pointers into a heap that the informer cache, a reconciler and a
    webhook may share; what keeps them apart are the deep copies of
    zz_generated.deepcopy.go.  This file has what those are made of: Go values
    with references, a heap, types, the statements controller-gen emits, and
    what makes a function a deep copy ([Copies]): it succeeds, leaves the heap
    it found alone, yields a value of equal content, and no reference of the
    result leads into that heap.  [copy_apart] shows what that is good for: whoever
    holds one of the two never touches the other.

    Not modelled: capacities of slices, and zero-sized values. *)

From S2P Require Import Prelude.

(** ** Values, cells and heaps *)

Abbreviation loc := positive.

(** A value without references: numbers, booleans and strings, and structs of
    such from other packages, kept as one. *)
Inductive atom :=
  | AZ (z : Z)
  | AB (b : bool)
  | AS (s : string)
  | AF (f : spec_float).

(** A slice is a window of an array; [GNil] is the nil pointer, slice and
    map. *)
Inductive gval :=
  | GAtom (a : atom)
  | GNil
  | GPtr (l : loc)
  | GSlice (l : loc) (off len : nat)
  | GMap (l : loc)
  | GStruct (fields : list (string * gval)).

(** What is allocated: a variable, an array, or a map (all keys here are
    strings). *)
Inductive cell :=
  | CVar (v : gval)
  | CArr (vs : list gval)
  | CMap (m : gmap string gval).

Abbreviation heap := (gmap loc cell).

(** The references in a value and in a cell. *)
Fixpoint refs (v : gval) : list loc :=
  match v with
  | GAtom _ | GNil => []
  | GPtr l | GSlice l _ _ | GMap l => [l]
  | GStruct fs => (fix go fs := match fs with [] => [] | f :: fs => refs f.2 ++ go fs end) fs
  end.

Definition refs_cell (c : cell) (r : loc) : Prop :=
  match c with
  | CVar v => r ∈ refs v
  | CArr vs => ∃ v, v ∈ vs ∧ r ∈ refs v
  | CMap m => ∃ k v, m !! k = Some v ∧ r ∈ refs v
  end.

Lemma refs_struct fs r : r ∈ refs (GStruct fs) ↔ ∃ f, f ∈ fs ∧ r ∈ refs f.2.
Proof.
  induction fs as [|f fs IH]; cbn; [set_solver|]. rewrite elem_of_app, IH. set_solver.
Qed.

(** ** Types

    A field has its name, its json tag and its type. *)

Inductive ty :=
  | TAtom (name : string)          (* a type of values without references *)
  | TExt (name : string)           (* a type of another package that has references *)
  | TPtr (t : ty)
  | TSlice (t : ty)
  | TMap (t : ty)
  | TStruct (fields : list (string * string * ty)).

Definition bool_ : ty := TAtom "bool".
Definition int : ty := TAtom "int".
Definition int32 : ty := TAtom "int32".
Definition int64 : ty := TAtom "int64".
Definition float64 : ty := TAtom "float64".
Definition string_ : ty := TAtom "string".

(** Induction through the fields. *)
Lemma ty_rect' (P : ty → Prop) :
  (∀ n, P (TAtom n)) → (∀ n, P (TExt n)) → (∀ t, P t → P (TPtr t)) → (∀ t, P t → P (TSlice t)) →
  (∀ t, P t → P (TMap t)) → (∀ fs, Forall (fun f => P f.2) fs → P (TStruct fs)) → ∀ t, P t.
Proof.
  intros HA HE HP HS HM HT. fix IH 1. intros [n|n|t|t|t|fs].
  { apply HA. } { apply HE. } { apply HP, IH. } { apply HS, IH. } { apply HM, IH. }
  apply HT. induction fs as [|f fs IHfs]; constructor; [apply IH|exact IHfs].
Qed.

Definition ty_eq_dec : ∀ t1 t2 : ty, {t1 = t2} + {t1 ≠ t2}.
Proof.
  fix IH 1. intros [n|n|t|t|t|fs] [n'|n'|t'|t'|t'|fs']; try (right; discriminate).
  1-2: destruct (decide (n = n')); [left|right]; congruence.
  1-3: destruct (IH t t'); [left|right]; congruence.
  enough ({fs = fs'} + {fs ≠ fs'}) as [|] by (left + right; congruence).
  revert fs'. induction fs as [|[[n j] t] fs IHfs]; intros [|[[n' j'] t'] fs']; try (left + right; done).
  destruct (decide (n = n')), (decide (j = j')), (IH t t'), (IHfs fs'); try (right; congruence). left; congruence.
Defined.
#[export] Instance ty_eq_decision : EqDecision ty := ty_eq_dec.

(** No references in a value of this type. *)
Fixpoint plain (t : ty) : bool :=
  match t with
  | TAtom _ => true
  | TStruct fs => (fix go fs := match fs with [] => true | f :: fs => plain f.2 && go fs end) fs
  | _ => false
  end.

(** The content of a value. *)
Inductive content :=
  | CtAtom (a : atom)
  | CtExt (s : string)
  | CtNil
  | CtPtr (x : content)
  | CtSlice (xs : list content)
  | CtMap (m : gmap string content)
  | CtStruct (xs : list (string * content)).

(** ** Structs *)

Fixpoint get_field (F : string) (vs : list (string * gval)) : option gval :=
  match vs with
  | [] => None
  | (G, v) :: vs => if decide (G = F) then Some v else get_field F vs
  end.

Definition set_field (F : string) (w : gval) (vs : list (string * gval)) : list (string * gval) :=
  map (fun kv => if decide (kv.1 = F) then (F, w) else kv) vs.

Lemma set_field_names F w vs : (set_field F w vs).*1 = vs.*1.
Proof. induction vs as [|[G v] vs IH]; cbn; [done|]. rewrite <- IH. by case_decide; cbn; subst. Qed.

Lemma get_set_eq F w vs : F ∈ vs.*1 → get_field F (set_field F w vs) = Some w.
Proof.
  induction vs as [|[G v] vs IH]; cbn; [set_solver|]. intros Hin.
  case_decide as HG; cbn; [by rewrite decide_True|]. rewrite decide_False by done. apply IH. set_solver.
Qed.

Lemma get_set_ne F G w vs : F ≠ G → get_field F (set_field G w vs) = get_field F vs.
Proof.
  intros Hne. induction vs as [|[K v] vs IH]; cbn; [done|].
  destruct (decide (K = G)) as [->|]; cbn; [by rewrite !decide_False by done|]. by case_decide.
Qed.

Lemma get_field_elem F v vs : get_field F vs = Some v → (F, v) ∈ vs.
Proof.
  induction vs as [|[G w] vs IH]; cbn; [done|]. case_decide; [intros [= ->]; subst; by left|]. right. by apply IH.
Qed.

Lemma elem_get_field F v vs : NoDup vs.*1 → (F, v) ∈ vs → get_field F vs = Some v.
Proof.
  induction vs as [|[G w] vs IH]; cbn; [set_solver|]. intros [Hn Hnd]%NoDup_cons [[= -> ->]|Hin]%elem_of_cons.
  - by rewrite decide_True.
  - rewrite decide_False; [by apply IH|]. intros ->. apply Hn. apply list_elem_of_fmap. by exists (F, v).
Qed.

(** ** Programs on the heap

    [None] is a panic: a nil dereference or a value of the wrong type. *)

Definition H (A : Type) : Type := heap → option (A * heap).

#[export] Instance H_ret : MRet H := fun A a h => Some (a, h).
#[export] Instance H_bind : MBind H := fun A B f p h => match p h with Some (a, h') => f a h' | None => None end.

Definition panic {A} : H A := fun _ => None.

(** What the language and other packages do: where an allocation goes, in
    which order a map is ranged over, and the types of other packages, read
    and copied by their own functions. *)
Class GoRuntime := {
  new_loc : heap → loc;
  map_range : heap → gmap string gval → list (string * gval);
  ext_read : string → heap → gval → option string;
  ext_copy : string → gval → H gval;

  new_loc_fresh h : h !! new_loc h = None;
  map_range_entries h m : map_range h m ≡ₚ map_to_list m;
  (* only what can be reached is read *)
  ext_read_local n (P : loc → Prop) h h' v s :
    (∀ l c, P l → h !! l = Some c → h' !! l = Some c) → (∀ l c r, P l → h !! l = Some c → refs_cell c r → P r) →
    (∀ r, r ∈ refs v → P r) → ext_read n h v = Some s → ext_read n h' v = Some s;
  (* [ext_copies]: a deep copy, in the terms below written out *)
  ext_copies n h v s : ext_read n h v = Some s →
    ∃ v' h', ext_copy n v h = Some (v', h') ∧ h ⊆ h' ∧
      (∀ l c r, h' !! l = Some c → h !! l = None → refs_cell c r → h !! r = None) ∧
      ext_read n h' v' = Some s ∧ (∀ r, r ∈ refs v' → h !! r = None)
}.

Lemma H_bind_some {A B} (p : H A) (f : A → H B) h a h' : p h = Some (a, h') → (p ≫= f) h = f a h'.
Proof. intros Hp. unfold mbind, H_bind. by rewrite Hp. Qed.

Section Copies.
Context `{GoRuntime}.

(** *** Reading

    The content of a value of a type, if it is one. *)
Fixpoint read (t : ty) (h : heap) (v : gval) : option content :=
  match t, v with
  | TAtom _, GAtom a => Some (CtAtom a)
  | TExt n, v => CtExt <$> ext_read n h v
  | (TPtr _ | TSlice _ | TMap _), GNil => Some CtNil
  | TPtr t, GPtr l => match h !! l with Some (CVar w) => CtPtr <$> read t h w | _ => None end
  | TSlice t, GSlice l off len =>
      match h !! l with
      | Some (CArr vs) =>
          if decide (off + len ≤ length vs) then CtSlice <$> mapM (read t h) (take len (drop off vs)) else None
      | _ => None
      end
  | TMap t, GMap l =>
      match h !! l with
      | Some (CMap m) =>
          if decide (map_Forall (fun _ w => is_Some (read t h w)) m) then Some (CtMap (omap (read t h) m)) else None
      | _ => None
      end
  | TStruct fs, GStruct vs =>
      if decide (vs.*1 = map (fun f => f.1.1) fs ∧ NoDup vs.*1) then
        CtStruct <$> mapM (fun f => w ← get_field f.1.1 vs; x ← read f.2 h w; Some (f.1.1, x)) fs
      else None
  | _, _ => None
  end.

Lemma mapM_read_mono {A B} (f g : A → option B) (l : list A) xs :
  Forall (fun a => ∀ x, f a = Some x → g a = Some x) l → mapM f l = Some xs → mapM g l = Some xs.
Proof.
  intros Hl. revert xs. induction Hl as [|a l Ha _ IH]; intros xs; cbn; [done|].
  destruct (f a) as [x|] eqn:Hx; cbn; [|done]. rewrite (Ha _ eq_refl). cbn.
  destruct (mapM f l) as [ys|]; cbn; [|done]. by rewrite (IH ys).
Qed.

Definition closed_in (P : loc → Prop) (h : heap) : Prop := ∀ l c r, P l → h !! l = Some c → refs_cell c r → P r.

(** What is read in a region with no way out does not depend on the rest of
    the heap. *)
Lemma read_local t (P : loc → Prop) h h' v x :
  (∀ l c, P l → h !! l = Some c → h' !! l = Some c) → closed_in P h → (∀ r, r ∈ refs v → P r) →
  read t h v = Some x → read t h' v = Some x.
Proof.
  intros Hh Hcl. revert v x. induction t as [n|n|t IH|t IH|t IH|fs IH] using ty_rect'; intros v x Hv; destruct v; cbn; try done.
  all: try (rewrite !fmap_Some; intros (s & Hs & ->); exists s; split; [by eapply ext_read_local|done]).
  - assert (P l) as Hl by (apply Hv; by left). destruct (h !! l) as [[w| |]|] eqn:E; try done. rewrite (Hh l _ Hl E).
    rewrite !fmap_Some. intros (y & Hy & ->). exists y. split; [|done]. apply IH; [|done]. intros r Hr. by eapply (Hcl l).
  - assert (P l) as Hl by (apply Hv; by left). destruct (h !! l) as [[|vs|]|] eqn:E; try done. rewrite (Hh l _ Hl E).
    case_decide; [|done]. rewrite !fmap_Some. intros (y & Hy & ->). exists y. split; [|done].
    eapply mapM_read_mono; [|exact Hy]. apply Forall_forall. intros w Hw z. apply IH. intros r Hr. eapply (Hcl l); [done|exact E|].
    exists w. split; [|done]. by eapply subseteq_drop, subseteq_take.
  - assert (P l) as Hl by (apply Hv; by left). destruct (h !! l) as [[| |m]|] eqn:E; try done. rewrite (Hh l _ Hl E).
    case_decide as Hm; [|done]. intros [= <-].
    assert (∀ k w z, m !! k = Some w → read t h w = Some z → read t h' w = Some z) as Hw.
    { intros k w z Hk. apply IH. intros r Hr. eapply (Hcl l); [done|exact E|]. by exists k, w. }
    rewrite decide_True; [f_equal; f_equal|].
    + apply map_eq. intros k. rewrite !lookup_omap. destruct (m !! k) as [w|] eqn:Hk; [|done]. cbn.
      destruct (Hm k w Hk) as [z Hz]. rewrite Hz. by eapply Hw.
    + intros k w Hk. destruct (Hm k w Hk) as [z Hz]. exists z. by eapply Hw.
  - case_decide; [|done]. rewrite !fmap_Some. intros (y & Hy & ->). exists y. split; [|done].
    eapply mapM_read_mono; [|exact Hy]. eapply Forall_impl; [exact IH|]. intros f Hf z.
    destruct (get_field _ _) as [w|] eqn:Hw; cbn; [|done]. destruct (read f.2 h w) as [u|] eqn:Hu; cbn; [|done].
    rewrite (Hf w u); [done| |done]. intros r Hr. apply Hv. apply refs_struct. exists (f.1.1, w).
    split; [by apply get_field_elem|done].
Qed.

(** What is read stays as the heap grows. *)
Lemma read_mono t h h' v x : h ⊆ h' → read t h v = Some x → read t h' v = Some x.
Proof. intros Hh. apply (read_local t (fun _ => True)); try done. intros l c _ Hc. by eapply lookup_weaken. Qed.

Lemma plain_struct fs : plain (TStruct fs) = forallb (fun f => plain f.2) fs.
Proof. induction fs as [|f fs IH]; cbn in *; [done|]. by rewrite IH. Qed.

(** A readable struct, field by field. *)
Lemma read_struct fs h v x :
  read (TStruct fs) h v = Some x → ∃ vs, v = GStruct vs ∧ vs.*1 = map (fun f => f.1.1) fs ∧ NoDup vs.*1 ∧
    ∀ f, f ∈ fs → ∃ w y, get_field f.1.1 vs = Some w ∧ read f.2 h w = Some y.
Proof.
  destruct v as [| | | | |vs]; try done. cbn. case_decide as Hn; [|done]. destruct Hn as [Hn Hnd].
  intros (xs & Hxs & ->)%fmap_Some. exists vs. split_and!; [done..|]. intros f Hf.
  apply mapM_Some in Hxs. apply list_elem_of_lookup in Hf as [i Hi].
  eapply Forall2_lookup_l in Hxs as (y & _ & Hy); [|exact Hi].
  destruct (get_field _ _) as [w|]; cbn in Hy; [|done]. destruct (read f.2 h w) as [u|] eqn:Hu; [|done]. by exists w, u.
Qed.

(** A value of a plain type has no references. *)
Lemma plain_refs t h v x r : plain t = true → read t h v = Some x → r ∉ refs v.
Proof.
  revert v x. induction t as [n|n|t IH|t IH|t IH|fs IH] using ty_rect'; intros v x Hp; try done.
  { destruct v; try done. intros _. set_solver. }
  intros (vs & -> & Hn & Hnd & Hall)%read_struct. rewrite plain_struct, forallb_forall in Hp.
  intros ([F w] & Hf & Hr)%refs_struct. cbn in Hr.
  assert (F ∈ map (fun f => f.1.1) fs) as ([[G j] t] & -> & Hin)%list_elem_of_fmap.
  { rewrite <- Hn. apply list_elem_of_fmap. by exists (F, w). }
  destruct (Hall _ Hin) as (w' & y & Hw & Hy). cbn in Hw, Hy. rewrite (elem_get_field _ w) in Hw by done. injection Hw as <-.
  rewrite Forall_forall in IH. eapply (IH _ Hin); [|exact Hy|exact Hr]. apply (Hp _ (proj1 (list_elem_of_In _ _) Hin)).
Qed.

(** *** What makes a deep copy *)

(** Old cells stay, and new ones have no reference to them. *)
Definition grows (h h' : heap) : Prop :=
  h ⊆ h' ∧ ∀ l c r, h' !! l = Some c → h !! l = None → refs_cell c r → h !! r = None.

Definition new_refs (h : heap) (v : gval) : Prop := ∀ r, r ∈ refs v → h !! r = None.

Class Copies (t : ty) (c : gval → H gval) : Prop :=
  copies h v x : read t h v = Some x →
    ∃ v' h', c v h = Some (v', h') ∧ grows h h' ∧ read t h' v' = Some x ∧ new_refs h v'.

(** The same of values that are not nil. *)
Class CopiesSet (t : ty) (c : gval → H gval) : Prop :=
  copies_set h v x : v ≠ GNil → read t h v = Some x →
    ∃ v' h', c v h = Some (v', h') ∧ grows h h' ∧ read t h' v' = Some x ∧ new_refs h v'.

Lemma grows_refl h : grows h h.
Proof. split; [done|]. intros l c r Hc Hn. by rewrite Hn in Hc. Qed.

Lemma grows_trans h1 h2 h3 : grows h1 h2 → grows h2 h3 → grows h1 h3.
Proof.
  intros [Hs1 Hr1] [Hs2 Hr2]. split; [by etrans|]. intros l c r Hc Hn Hr.
  destruct (h2 !! l) as [c2|] eqn:E.
  - eapply (Hr1 l c2 r); [exact E|exact Hn|]. apply (lookup_weaken _ _ _ _ E) in Hs2. rewrite Hs2 in Hc. by injection Hc as ->.
  - apply (lookup_weaken_None _ h2); [|done]. by eapply Hr2.
Qed.

Lemma new_refs_weaken h h' v : h ⊆ h' → new_refs h' v → new_refs h v.
Proof. intros Hs Hn r Hr. eapply lookup_weaken_None; [by apply Hn|done]. Qed.

(** *** The statements of the generated functions

    A cell is allocated here when its content is complete; the source
    allocates it first and fills it in. *)

Definition alloc (c : cell) : H loc := fun h => Some (new_loc h, <[new_loc h := c]> h).
Definition load_var (l : loc) : H gval := fun h => match h !! l with Some (CVar v) => Some (v, h) | _ => None end.
Definition load_arr (l : loc) : H (list gval) := fun h => match h !! l with Some (CArr vs) => Some (vs, h) | _ => None end.
Definition load_map (l : loc) : H (list (string * gval)) :=
  fun h => match h !! l with Some (CMap m) => Some (map_range h m, h) | _ => None end.

(** [if in.F != nil { ... }]; the shallow copy has left a nil there. *)
Definition unless_nil (c : gval → H gval) (v : gval) : H gval :=
  match v with GNil => mret GNil | _ => c v end.

(** [out.F = in.F] *)
Definition assign (v : gval) : H gval := mret v.

(** [*out = new(T); ( *in).DeepCopyInto( *out)] *)
Definition new_into (c : gval → H gval) (v : gval) : H gval :=
  match v with
  | GPtr l => w ← load_var l; w' ← c w; l' ← alloc (CVar w'); mret (GPtr l')
  | _ => panic
  end.

(** [*out = new(T); **out = **in] *)
Definition new_value : gval → H gval := new_into assign.

(** [*out = make([]T, len( *in)); for i := range *in { ... }] *)
Definition make_each (c : gval → H gval) (v : gval) : H gval :=
  match v with
  | GSlice l off len =>
      vs ← load_arr l;
      ws ← mapM c (take len (drop off vs));
      l' ← alloc (CArr ws);
      mret (GSlice l' 0 (length ws))
  | _ => panic
  end.

(** [*out = make([]T, len( *in)); copy( *out, *in)] *)
Definition make_copy : gval → H gval := make_each assign.

(** [*out = make(map[string]T, len( *in)); for key, val := range *in { ... }] *)
Definition make_map_each (c : gval → H gval) (v : gval) : H gval :=
  match v with
  | GMap l =>
      es ← load_map l;
      ws ← mapM (fun e => w ← c e.2; mret (e.1, w)) es;
      l' ← alloc (CMap (list_to_map ws));
      mret (GMap l')
  | _ => panic
  end.

Definition make_map : gval → H gval := make_map_each assign.

(** [*out = *in], then a copier for each of these fields. *)
Definition stmt : Type := (string * (gval → H gval))%type.

Fixpoint run_stmts (ss : list stmt) (vin out : list (string * gval)) : H (list (string * gval)) :=
  match ss with
  | [] => mret out
  | (F, c) :: ss =>
      match get_field F vin with
      | Some v => w ← c v; run_stmts ss vin (set_field F w out)
      | None => panic
      end
  end.

Definition into (ss : list stmt) (v : gval) : H gval :=
  match v with
  | GStruct vs => ws ← run_stmts ss vs vs; mret (GStruct ws)
  | _ => panic
  end.

(** [DeepCopy]: [if in == nil { return nil }; out := new(T); in.DeepCopyInto(out)] *)
Definition DeepCopy (c : gval → H gval) : gval → H gval := unless_nil (new_into c).

(** [DeepCopyObject]: [if c := in.DeepCopy(); c != nil { return c }; return nil] *)
Definition DeepCopyObject (dc : gval → H gval) (v : gval) : H gval :=
  c ← dc v;
  match c with GNil => mret GNil | _ => mret c end.

(** *** ... are deep copies *)

#[local] Instance copies_copies_set t c : Copies t c → CopiesSet t c.
Proof. intros Hc h v x _. apply Hc. Qed.

Definition nilable (t : ty) : bool := match t with TPtr _ | TSlice _ | TMap _ => true | _ => false end.

Lemma unless_nil_copies t c : nilable t = true → CopiesSet t c → Copies t (unless_nil c).
Proof.
  intros Ht Hc h v x Hx. destruct v; try (apply Hc; [done|exact Hx]).
  exists GNil, h. split; [done|]. split; [apply grows_refl|]. split; [exact Hx|]. intros r. set_solver.
Qed.

Lemma assign_copies t : plain t = true → Copies t assign.
Proof.
  intros Hp h v x Hx. exists v, h. split; [done|]. split; [apply grows_refl|]. split; [exact Hx|].
  intros r Hr. by destruct (plain_refs t h v x r Hp Hx).
Qed.

Lemma ext_copies_ext n : Copies (TExt n) (ext_copy n).
Proof.
  intros h v x. cbn. intros (s & Hs & ->)%fmap_Some. destruct (ext_copies n h v s Hs) as (v' & h' & Hc & Hsub & Hnew & Hr & Hn).
  exists v', h'. split; [done|]. split; [by split|]. split; [by rewrite Hr|done].
Qed.

(** A cell of new references is put into the heap. *)
Lemma alloc_grows h h' c :
  grows h h' → (∀ r, refs_cell c r → h !! r = None) →
  alloc c h' = Some (new_loc h', <[new_loc h' := c]> h') ∧ grows h (<[new_loc h' := c]> h') ∧
  h' ⊆ <[new_loc h' := c]> h' ∧ h !! new_loc h' = None.
Proof.
  intros [Hs Hr] Hc. pose proof (new_loc_fresh h') as Hf. split_and!; [done| |by apply insert_subseteq|by eapply lookup_weaken_None].
  split; [by apply insert_subseteq_r; [eapply lookup_weaken_None|]|].
  intros l c0 r. destruct (decide (l = new_loc h')) as [->|Hne].
  - rewrite lookup_insert_eq. intros [= <-] _. apply Hc.
  - rewrite lookup_insert_ne by done. apply Hr.
Qed.

(** One copy after others, from the heap [h0] they started with. *)
Lemma copies_from t c h0 h v x :
  Copies t c → grows h0 h → read t h v = Some x →
  ∃ v' h', c v h = Some (v', h') ∧ grows h0 h' ∧ h ⊆ h' ∧ read t h' v' = Some x ∧ new_refs h0 v'.
Proof.
  intros Hc Hg Hx. destruct (Hc h v x Hx) as (v' & h' & He & Hg' & Hr & Hn). exists v', h'.
  split_and!; [done|by eapply grows_trans|apply Hg'|done|]. eapply new_refs_weaken; [apply Hg|done].
Qed.

(** A new variable, array or map of copies. *)
Lemma alloc_copies {A} (g : loc → A) h0 h c :
  grows h0 h → (∀ r, refs_cell c r → h0 !! r = None) →
  ∃ l h', (l ← alloc c; mret (g l)) h = Some (g l, h') ∧ grows h0 h' ∧ h ⊆ h' ∧ h' !! l = Some c ∧ h0 !! l = None.
Proof.
  intros Hg Hc. destruct (alloc_grows h0 h c Hg Hc) as (_ & Hg' & Hs & Hn).
  exists (new_loc h), (<[new_loc h := c]> h). split_and!; [done..|apply lookup_insert_eq|done].
Qed.

Lemma new_into_copies t c : Copies t c → CopiesSet (TPtr t) (new_into c).
Proof.
  intros Hc h v x Hv. destruct v as [|  |l| | |]; try done. cbn. destruct (h !! l) as [[w| |]|] eqn:E; try done.
  intros (y & Hy & ->)%fmap_Some. unfold load_var, mbind, H_bind. rewrite E.
  destruct (copies_from t c h h w y Hc (grows_refl h) Hy) as (w' & h' & -> & Hg & _ & Hw & Hn).
  destruct (alloc_copies GPtr h h' (CVar w') Hg Hn) as (l' & h2 & Hal & Hg2 & Hs & Hl & Hl0).
  exists (GPtr l'), h2. split; [exact Hal|]. split; [exact Hg2|]. split; [|intros r Hr; apply list_elem_of_singleton in Hr; by subst].
  cbn. rewrite Hl, fmap_Some. exists y. split; [by eapply read_mono|done].
Qed.

Lemma new_value_copies t : plain t = true → CopiesSet (TPtr t) new_value.
Proof. intros Hp. by apply new_into_copies, assign_copies. Qed.

Lemma mapM_copies t c vs h0 h xs :
  Copies t c → grows h0 h → mapM (read t h) vs = Some xs →
  ∃ ws h', mapM c vs h = Some (ws, h') ∧ grows h0 h' ∧ h ⊆ h' ∧ mapM (read t h') ws = Some xs ∧
    length ws = length xs ∧ Forall (new_refs h0) ws.
Proof.
  intros Hc. revert h xs. induction vs as [|v vs IH]; intros h xs Hg; cbn.
  { intros [= <-]. by exists [], h. }
  destruct (read t h v) as [x|] eqn:Hx; cbn; [|done]. destruct (mapM (read t h) vs) as [ys|] eqn:Hys; cbn; [|done]. intros [= <-].
  destruct (copies_from t c h0 h v x Hc Hg Hx) as (w & h1 & Hw & Hg1 & Hs1 & Hr1 & Hn1).
  destruct (IH h1 ys) as (ws & h2 & Hws & Hg2 & Hs2 & Hr2 & Hlen & Hn2); [done| |].
  { eapply mapM_read_mono; [|exact Hys]. apply Forall_forall. intros u _ z. by apply read_mono. }
  exists (w :: ws), h2. rewrite (H_bind_some _ _ _ _ _ Hw), (H_bind_some _ _ _ _ _ Hws). split_and!; [done|done|by etrans| |cbn; congruence|by constructor].
  cbn. rewrite (read_mono t h1 h2 w x) by done. cbn. by rewrite Hr2.
Qed.

Lemma make_each_copies t c : Copies t c → CopiesSet (TSlice t) (make_each c).
Proof.
  intros Hc h v x Hv. destruct v as [| | |l off len| |]; try done. cbn. destruct (h !! l) as [[|vs|]|] eqn:E; try done.
  case_decide as Hlen; [|done]. intros (xs & Hxs & ->)%fmap_Some.
  erewrite H_bind_some by (unfold load_arr; by rewrite E).
  destruct (mapM_copies t c _ h h xs Hc (grows_refl h) Hxs) as (ws & h' & Hm & Hg & _ & Hws & Hl & Hn).
  destruct (alloc_copies (fun l => GSlice l 0 (length ws)) h h' (CArr ws) Hg) as (l' & h2 & Hal & Hg2 & Hs & Hl2 & Hl0).
  { intros r (w & Hw & Hr). rewrite Forall_forall in Hn. by eapply Hn. }
  rewrite (H_bind_some _ _ _ _ _ Hm). exists (GSlice l' 0 (length ws)), h2. split; [exact Hal|]. split; [exact Hg2|].
  split; [|intros r Hr; apply list_elem_of_singleton in Hr; by subst].
  cbn. rewrite Hl2, decide_True by lia. rewrite drop_0, take_ge by lia. rewrite fmap_Some. exists xs. split; [|done].
  eapply mapM_read_mono; [|exact Hws]. apply Forall_forall. intros u _ z. by apply read_mono.
Qed.

Lemma make_copy_copies t : plain t = true → CopiesSet (TSlice t) make_copy.
Proof. intros Hp. by apply make_each_copies, assign_copies. Qed.

(** The entries of a map, in whatever order they come. *)
Lemma entries_copies t c (es : list (string * gval)) h0 h :
  Copies t c → grows h0 h → Forall (fun e => is_Some (read t h e.2)) es →
  ∃ ws h', mapM (fun e => w ← c e.2; mret (e.1, w)) es h = Some (ws, h') ∧ grows h0 h' ∧ h ⊆ h' ∧
    Forall2 (fun e w => w.1 = e.1 ∧ read t h' w.2 = read t h e.2 ∧ new_refs h0 w.2) es ws.
Proof.
  intros Hc. revert h. induction es as [|[k v] es IH]; intros h Hg Hes; cbn.
  { by exists [], h. }
  apply Forall_cons in Hes as [[x Hx] Hes]. cbn in Hx.
  destruct (copies_from t c h0 h v x Hc Hg Hx) as (w & h1 & Hw & Hg1 & Hs1 & Hr1 & Hn1).
  destruct (IH h1) as (ws & h2 & Hws & Hg2 & Hs2 & Hall); [done| |].
  { eapply Forall_impl; [exact Hes|]. intros e [z Hz]. exists z. by eapply read_mono. }
  exists ((k, w) :: ws), h2. erewrite H_bind_some by (by rewrite (H_bind_some _ _ _ _ _ Hw)).
  rewrite (H_bind_some _ _ _ _ _ Hws). split_and!; [done|done|by etrans|].
  constructor.
  - cbn. split_and!; [done| |done]. rewrite Hx. by eapply read_mono.
  - clear -Hall Hes Hs1. induction Hall as [|e u es ws (He & Hr & Hn) _ IH]; [constructor|].
    apply Forall_cons in Hes as [[z Hz] Hes]. constructor; [|by apply IH].
    split_and!; [done| |done]. rewrite Hr, Hz. by eapply read_mono.
Qed.

Lemma make_map_each_copies t c : Copies t c → CopiesSet (TMap t) (make_map_each c).
Proof.
  intros Hc h v x Hv. destruct v as [| | | |l|]; try done. cbn. destruct (h !! l) as [[| |m]|] eqn:E; try done.
  case_decide as Hm; [|done]. intros [= <-]. erewrite H_bind_some by (unfold load_map; by rewrite E).
  pose proof (map_range_entries h m) as Hperm.
  destruct (entries_copies t c (map_range h m) h h Hc (grows_refl h)) as (ws & h' & Hws & Hg & _ & Hall).
  { rewrite Hperm, Forall_forall. intros [k w] Hin%elem_of_map_to_list. by apply (Hm k w). }
  rewrite (H_bind_some _ _ _ _ _ Hws). clear Hws.
  assert (ws.*1 = (map_range h m).*1) as Hkeys.
  { clear -Hall. revert Hall. generalize (map_range h m) as es. intros es Hall.
    induction Hall as [|e u es us (He & _) _ IH]; cbn; [done|by rewrite IH, He]. }
  assert (NoDup ws.*1) as Hnd by (rewrite Hkeys, Hperm; apply NoDup_fst_map_to_list).
  assert (∀ k w, list_to_map (M := gmap string gval) ws !! k = Some w →
    ∃ v, m !! k = Some v ∧ read t h' w = read t h v ∧ new_refs h w) as Hto.
  { intros k w Hin%elem_of_list_to_map; [|done]. apply list_elem_of_lookup in Hin as [i Hi].
    eapply Forall2_lookup_r in Hall as ([k' v] & Hv' & Hk & Hr & Hn); [|exact Hi]. cbn in Hk, Hr, Hn. subst k'.
    exists v. split; [|done]. apply elem_of_map_to_list. rewrite <- Hperm. by eapply list_elem_of_lookup_2. }
  assert (∀ k, list_to_map (M := gmap string gval) ws !! k = None → m !! k = None) as Hno.
  { intros k Hn%not_elem_of_list_to_map_2. destruct (m !! k) as [v|] eqn:Hk; [|done]. destruct Hn. rewrite Hkeys, Hperm.
    apply elem_of_map_to_list in Hk. apply list_elem_of_fmap. by exists (k, v). }
  destruct (alloc_copies GMap h h' (CMap (list_to_map ws)) Hg) as (l' & h2 & Hal & Hg2 & Hs & Hl2 & Hl0).
  { intros r (k & w & Hw & Hr). destruct (Hto _ _ Hw) as (_ & _ & _ & Hn). by apply Hn. }
  exists (GMap l'), h2. split; [exact Hal|]. split; [exact Hg2|].
  split; [|intros r Hr; apply list_elem_of_singleton in Hr; by subst].
  cbn. rewrite Hl2, decide_True; [f_equal; f_equal|].
  - apply map_eq. intros k. rewrite !lookup_omap. destruct (list_to_map ws !! k) as [w|] eqn:Hw.
    + destruct (Hto _ _ Hw) as (v & Hk & Hr & _). rewrite Hk. cbn. destruct (Hm k v Hk) as [z Hz].
      rewrite Hz in Hr |- *. by eapply read_mono.
    + by rewrite (Hno k Hw).
  - intros k w Hw. destruct (Hto _ _ Hw) as (v & Hk & Hr & _). destruct (Hm k v Hk) as [z Hz]. exists z.
    eapply read_mono; [done|]. by rewrite Hr.
Qed.

Lemma make_map_copies t : plain t = true → CopiesSet (TMap t) make_map.
Proof. intros Hp. by apply make_map_each_copies, assign_copies. Qed.

(** *** Structs

    Field by field: done, or still what the shallow copy left. *)
Definition field_done (h0 h : heap) (t : ty) (v w : gval) : Prop :=
  (∃ x, read t h0 v = Some x ∧ read t h w = Some x) ∧ new_refs h0 w.

Definition stmts_state (fs : list (string * string * ty)) (D : list string) (h0 h : heap)
    (vin out : list (string * gval)) : Prop :=
  out.*1 = vin.*1 ∧ ∀ f v, f ∈ fs → get_field f.1.1 vin = Some v → ∃ w, get_field f.1.1 out = Some w ∧
    (if decide (f.1.1 ∈ D) then field_done h0 h f.2 v w else w = v).

Lemma NoDup_map_inj {A B} (g : A → B) (l : list A) x y : NoDup (map g l) → x ∈ l → y ∈ l → g x = g y → x = y.
Proof.
  induction l as [|a l IH]; cbn; [set_solver|]. intros [Hn Hnd]%NoDup_cons Hx Hy E.
  apply elem_of_cons in Hx as [->|Hx]; apply elem_of_cons in Hy as [->|Hy]; [done| | |by apply IH];
    destruct Hn; apply list_elem_of_fmap; eauto.
Qed.

Lemma stmts_state_step fs D h0 h h1 vin out f v w :
  NoDup (map (fun f => f.1.1) fs) → vin.*1 = map (fun f => f.1.1) fs → h ⊆ h1 →
  f ∈ fs → get_field f.1.1 vin = Some v → field_done h0 h1 f.2 v w →
  stmts_state fs D h0 h vin out → stmts_state fs (f.1.1 :: D) h0 h1 vin (set_field f.1.1 w out).
Proof.
  intros Hnd Hn Hs Hf Hv Hw [Hout Hall]. split; [by rewrite set_field_names|]. intros g u Hg Hu.
  destruct (decide (g.1.1 = f.1.1)) as [E|Hne].
  - assert (g = f) as -> by (by eapply (NoDup_map_inj (fun f => f.1.1))). assert (u = v) as -> by congruence.
    exists w. rewrite get_set_eq.
    + split; [done|]. rewrite decide_True; [done|by left].
    + rewrite Hout, Hn. by apply (list_elem_of_fmap_2 (fun f => f.1.1)).
  - destruct (Hall g u Hg Hu) as (z & Hz & Hd). exists z. rewrite get_set_ne by done. split; [done|].
    destruct (decide (g.1.1 ∈ D)) as [Hin|Hin].
    + rewrite decide_True by (by right). destruct Hd as [(x & Hx & Hzx) Hzn]. split; [|done]. exists x. split; [done|]. by eapply read_mono.
    + rewrite decide_False; [done|]. rewrite elem_of_cons. tauto.
Qed.

Definition stmt_ok (fs : list (string * string * ty)) (s : stmt) : Prop :=
  ∃ f, f ∈ fs ∧ f.1.1 = s.1 ∧ Copies f.2 s.2.

Lemma run_stmts_spec fs ss D h0 h vin out :
  NoDup (map (fun f => f.1.1) fs) → vin.*1 = map (fun f => f.1.1) fs →
  (∀ f, f ∈ fs → ∃ v x, get_field f.1.1 vin = Some v ∧ read f.2 h0 v = Some x) →
  Forall (stmt_ok fs) ss → grows h0 h → stmts_state fs D h0 h vin out →
  ∃ out' h', run_stmts ss vin out h = Some (out', h') ∧ grows h0 h' ∧ stmts_state fs (rev ss.*1 ++ D) h0 h' vin out'.
Proof.
  intros Hnd Hn Hread Hss. revert D h out. induction Hss as [|[F c] ss (f & Hf & E & Hc) _ IH]; intros D h out Hg Hst.
  { by exists out, h. }
  cbn in E, Hc. subst F. destruct (Hread f Hf) as (v & x & Hv & Hx). cbn [run_stmts]. rewrite Hv.
  destruct (copies_from f.2 c h0 h v x Hc Hg) as (w & h1 & Hw & Hg1 & Hs1 & Hr1 & Hn1); [by eapply read_mono; [apply Hg|]|].
  rewrite (H_bind_some _ _ _ _ _ Hw). cbn [fmap list_fmap fst rev]. rewrite <- app_assoc. apply IH; [done|].
  eapply stmts_state_step; try done. split; [|done]. by exists x.
Qed.

(** A struct is copied deeply if every field that has references has a
    statement, and every statement suits its field. *)
Definition covered (fs : list (string * string * ty)) (ss : list stmt) : bool :=
  forallb (fun f => bool_decide (f.1.1 ∈ ss.*1) || plain f.2) fs.

Theorem into_copies fs ss : covered fs ss = true → Forall (stmt_ok fs) ss → Copies (TStruct fs) (into ss).
Proof.
  intros Hcov Hss h v x Hx. pose proof Hx as (vs & -> & Hn & Hnd & Hall)%read_struct.
  assert (NoDup (map (fun f => f.1.1) fs)) as Hfs by (by rewrite <- Hn).
  destruct (run_stmts_spec fs ss [] h h vs vs Hfs Hn) as (ws & h' & Hrun & Hg & Hst); [done|done|apply grows_refl| |].
  { split; [done|]. intros f v _ Hv. exists v. by rewrite decide_False by set_solver. }
  cbn [into]. rewrite (H_bind_some _ _ _ _ _ Hrun). exists (GStruct ws), h'. split; [done|]. split; [exact Hg|].
  destruct Hst as [Hws Hst]. unfold covered in Hcov. rewrite forallb_forall in Hcov.
  assert (∀ f w, f ∈ fs → get_field f.1.1 vs = Some w → ∃ w', get_field f.1.1 ws = Some w' ∧ field_done h h' f.2 w w') as Hdone.
  { intros f w Hf Hw. destruct (Hst f w Hf Hw) as (w' & Hw' & Hd). exists w'. split; [done|]. rewrite app_nil_r in Hd.
    destruct (Hall f Hf) as (w0 & y & Hw0 & Hy). assert (w0 = w) as -> by congruence.
    case_decide as Hin; [done|]. subst w'. specialize (Hcov f (proj1 (list_elem_of_In _ _) Hf)).
    apply orb_true_iff in Hcov as [Hcov%bool_decide_eq_true|Hp].
    - destruct Hin. rewrite list_elem_of_In, <- in_rev, <- list_elem_of_In. done.
    - split; [exists y; split; [done|by eapply read_mono; [apply Hg|]]|]. intros r Hr. by destruct (plain_refs f.2 h w y r Hp Hy). }
  split.
  - revert Hx. cbn. rewrite Hws, !decide_True by done. rewrite !fmap_Some. intros (xs & Hxs & ->). exists xs. split; [|done].
    eapply mapM_read_mono; [|exact Hxs]. apply Forall_forall. intros f Hf z. destruct (Hall f Hf) as (w & y & Hw & Hy).
    destruct (Hdone f w Hf Hw) as (w' & Hw' & (y' & Hy1 & Hy2) & _). rewrite Hw, Hw'. cbn. rewrite Hy1, Hy2. done.
  - intros r ([F w'] & Hin & Hr)%refs_struct. cbn in Hr.
    assert (F ∈ map (fun f => f.1.1) fs) as (f & -> & Hf)%list_elem_of_fmap.
    { rewrite <- Hn, <- Hws. apply list_elem_of_fmap. by exists (F, w'). }
    destruct (Hall f Hf) as (w & y & Hw & Hy). destruct (Hdone f w Hf Hw) as (w2 & Hw2 & _ & Hnew).
    rewrite (elem_get_field _ w') in Hw2 by (done || by rewrite Hws). injection Hw2 as <-. by apply Hnew.
Qed.

(** The statements of a function, each checked against the type of its
    field. *)
Fixpoint field_type (F : string) (fs : list (string * string * ty)) : option ty :=
  match fs with
  | [] => None
  | f :: fs => if (f.1.1 =? F)%string then Some f.2 else field_type F fs
  end.

Fixpoint stmts_ok (fs : list (string * string * ty)) (ss : list stmt) : Prop :=
  match ss with
  | [] => True
  | s :: ss => match field_type s.1 fs with Some t => Copies t s.2 | None => False end ∧ stmts_ok fs ss
  end.

Lemma field_type_elem F fs t : field_type F fs = Some t → ∃ f, f ∈ fs ∧ f.1.1 = F ∧ f.2 = t.
Proof.
  induction fs as [|f fs IH]; cbn; [done|]. destruct (String.eqb_spec f.1.1 F) as [E|_].
  - intros [= <-]. exists f. split; [by left|done].
  - intros Ht. destruct (IH Ht) as (g & Hg & E). exists g. split; [by right|done].
Qed.

Lemma struct_copies fs ss : covered fs ss = true → stmts_ok fs ss → Copies (TStruct fs) (into ss).
Proof.
  intros Hcov Hss. apply into_copies; [done|]. clear Hcov. induction ss as [|s ss IH]; [constructor|].
  destruct Hss as [Hs Hss]. constructor; [|by apply IH]. destruct (field_type s.1 fs) as [t|] eqn:Ht; [|done].
  apply field_type_elem in Ht as (f & Hf & E & <-). by exists f.
Qed.

Lemma DeepCopy_copies t c : Copies t c → Copies (TPtr t) (DeepCopy c).
Proof. intros Hc. apply unless_nil_copies; [done|]. by apply new_into_copies. Qed.

Lemma DeepCopyObject_copies t dc : Copies t dc → Copies t (DeepCopyObject dc).
Proof.
  intros Hc h v x Hx. destruct (Hc h v x Hx) as (v' & h' & He & Hr). exists v', h'. split; [|exact Hr].
  unfold DeepCopyObject. rewrite (H_bind_some _ _ _ _ _ He). by destruct v'.
Qed.
End Copies.

(** ** Two parties

    A program can only use what it holds, and only gets hold of what it loads
    from there or allocates. *)

Section Parties.
Context `{GoRuntime}.

Inductive party_step : gset loc * heap → gset loc * heap → Prop :=
  | step_load held h l c r : l ∈ held → h !! l = Some c → refs_cell c r → party_step (held, h) ({[r]} ∪ held, h)
  | step_store held h l c :
      l ∈ held → is_Some (h !! l) → (∀ r, refs_cell c r → r ∈ held) → party_step (held, h) (held, <[l := c]> h)
  | step_alloc held h l c :
      h !! l = None → (∀ r, refs_cell c r → r ∈ held) → party_step (held, h) ({[l]} ∪ held, <[l := c]> h).

(** From a region that has no way out, nothing outside is touched. *)
Lemma region_frame (P : loc → Prop) `{∀ l, Decision (P l)} held h held' h' :
  (∀ l, l ∈ held → P l) → closed_in P h → rtc party_step (held, h) (held', h') →
  ∀ l, ¬ P l → is_Some (h !! l) → h' !! l = h !! l.
Proof.
  intros Hheld Hcl Hsteps. set (Q l := P l ∨ h !! l = None).
  set (inv (s : gset loc * heap) := (∀ l, l ∈ s.1 → Q l) ∧ closed_in Q s.2 ∧ ∀ l, ¬ Q l → s.2 !! l = h !! l).
  enough (inv (held', h')) as (_ & _ & Hfr).
  { intros l Hl [c Hc]. apply Hfr. intros [?|Hn]; [done|]. by rewrite Hn in Hc. }
  refine (rtc_invariant party_step inv _ _ _ Hsteps _); clear Hsteps.
  - clear -H1. intros s1 s2 Hs (Hh & Hc & Hf). destruct Hs as [held h1 l c r Hl Hlc Hr|held h1 l c Hl _ Hr|held h1 l c Hl Hr]; cbn in *.
    + split; [|done]. cbn. intros l' [->%elem_of_singleton|Hl']%elem_of_union; [by eapply Hc; [apply Hh| |]|by apply Hh].
    + split; [done|]. cbn. split.
      * intros l' c' r Hl' Hlc Hrc. destruct (decide (l' = l)) as [->|Hne].
        { rewrite lookup_insert_eq in Hlc. injection Hlc as ->. by apply Hh, Hr. }
        rewrite lookup_insert_ne in Hlc by done. by eapply Hc.
      * intros l' Hl'. rewrite lookup_insert_ne; [by apply Hf|]. intros ->. by apply Hl', Hh.
    + assert (Q l) as HQ.
      { destruct (decide (P l)) as [|HP]; [by left|]. destruct (h !! l) as [c0|] eqn:E; [|by right].
        rewrite (Hf l) in Hl; [congruence|]. intros [?|?]; [done|congruence]. }
      split; [|split]; cbn.
      * intros l' [->%elem_of_singleton|Hl']%elem_of_union; [done|by apply Hh].
      * intros l' c' r Hl' Hlc Hrc. destruct (decide (l' = l)) as [->|Hne].
        { rewrite lookup_insert_eq in Hlc. injection Hlc as ->. by apply Hh, Hr. }
        rewrite lookup_insert_ne in Hlc by done. by eapply Hc.
      * intros l' Hl'. rewrite lookup_insert_ne; [by apply Hf|]. by intros ->.
  - split; [|split; [|done]]; cbn.
    + intros l Hl. left. by apply Hheld.
    + intros l c r [Hl|Hl] Hlc Hr; [left; by eapply Hcl|congruence].
Qed.

(** A deep copy and its original are apart: the party that holds the one
    never changes the content of the other, whatever it does. *)
Theorem copy_apart t c h v x v' h' :
  Copies t c → read t h v = Some x → closed_in (fun l => is_Some (h !! l)) h → c v h = Some (v', h') →
  read t h' v' = Some x ∧
  (∀ held h2, rtc party_step (list_to_set (refs v'), h') (held, h2) → read t h2 v = Some x) ∧
  (∀ held h2, rtc party_step (dom h, h') (held, h2) → read t h2 v' = Some x).
Proof.
  intros Hc Hx Hcl Hrun. destruct (Hc h v x Hx) as (v2 & h2 & Hrun' & [Hs Hnew] & Hr & Hn).
  rewrite Hrun in Hrun'. injection Hrun' as <- <-. split; [done|]. split.
  - intros held h2 Hsteps. eapply read_mono; [|exact Hx]. apply map_subseteq_spec. intros l c0 Hl.
    rewrite <- (lookup_weaken h h' l c0 Hl Hs).
    apply (region_frame (fun l => h !! l = None) (list_to_set (refs v')) h' held h2); [| |done|congruence|].
    + intros r Hr'%elem_of_list_to_set. by apply Hn.
    + intros l0 c1 r Hl0 Hc1 Hr1. by eapply Hnew.
    + exists c0. by eapply lookup_weaken.
  - intros held h2 Hsteps. eapply (read_local t (fun l => h !! l = None)); [|exact (λ l c0 r Hl Hc0, Hnew l c0 r Hc0 Hl)|exact Hn|exact Hr].
    intros l c0 Hl Hc0. rewrite <- Hc0.
    apply (region_frame (fun l => is_Some (h !! l)) (dom h) h' held h2); [| |done|rewrite Hl; by intros [? ?]|by eexists].
    + intros r. by rewrite elem_of_dom.
    + intros l0 c1 r [c2 Hc2] Hc1 Hr1. eapply (Hcl l0 c2); [by eexists|done|].
      apply (lookup_weaken _ h') in Hc2; [|done]. rewrite Hc2 in Hc1. by injection Hc1 as ->.
Qed.
End Parties.

(** The copiers of the statements, by their shape; those of named types are
    looked up by name. *)
Create HintDb copies discriminated.
#[export] Hint Constants Opaque : copies.

Ltac copier :=
  lazymatch goal with
  | |- Copies _ (unless_nil _) => apply unless_nil_copies; [reflexivity|copier]
  | |- Copies _ assign => apply assign_copies; vm_compute; reflexivity
  | |- Copies _ (ext_copy _) => apply ext_copies_ext
  | |- CopiesSet _ new_value => apply new_value_copies; vm_compute; reflexivity
  | |- CopiesSet _ make_copy => apply make_copy_copies; vm_compute; reflexivity
  | |- CopiesSet _ make_map => apply make_map_copies; vm_compute; reflexivity
  | |- CopiesSet _ (new_into _) => apply new_into_copies; copier
  | |- CopiesSet _ (make_each _) => apply make_each_copies; copier
  | |- CopiesSet _ (make_map_each _) => apply make_map_each_copies; copier
  | |- Copies _ _ => solve [auto 1 with copies]
  end.

Ltac copies_struct :=
  lazymatch goal with |- Copies ?t ?c => unfold t, c end;
  apply struct_copies;
  [vm_compute; reflexivity
  |cbn [stmts_ok field_type fst snd String.eqb Ascii.eqb Bool.eqb]; repeat split; copier].

(** ** A concrete runtime

    Maps are ranged over in one order; a value of another package is a string
    or a pointer to one. *)
Module RuntimeImpl.
Definition new (h : heap) : loc := fresh (dom h : gset loc).

Definition ext_read (_ : string) (h : heap) (v : gval) : option string :=
  match v with
  | GAtom (AS s) => Some s
  | GPtr l => match h !! l with Some (CVar (GAtom (AS s))) => Some s | _ => None end
  | _ => None
  end.

Definition ext_copy (_ : string) (v : gval) : H gval :=
  fun h => match v with
           | GPtr l => match h !! l with Some c => Some (GPtr (new h), <[new h := c]> h) | None => None end
           | _ => Some (v, h)
           end.

Lemma new_fresh h : h !! new h = None.
Proof. apply not_elem_of_dom. unfold new. apply is_fresh. Qed.

Lemma ext_copy_copies n h v s : ext_read n h v = Some s →
  ∃ v' h', ext_copy n v h = Some (v', h') ∧ h ⊆ h' ∧
    (∀ l c r, h' !! l = Some c → h !! l = None → refs_cell c r → h !! r = None) ∧
    ext_read n h' v' = Some s ∧ (∀ r, r ∈ refs v' → h !! r = None).
Proof.
  intros Hs. destruct v as [a| |l| | |]; try done.
  { exists (GAtom a), h. split_and!; [done|done| |exact Hs|set_solver]. intros l c r Hc Hn. congruence. }
  cbn in Hs. destruct (h !! l) as [[[[| |u|]| | | | |]| |]|] eqn:E; try done.
  exists (GPtr (new h)), (<[new h := CVar (GAtom (AS u))]> h). cbn. rewrite E.
  split_and!; [done|apply insert_subseteq, new_fresh| |by rewrite lookup_insert_eq|].
  - intros k c r. destruct (decide (k = new h)) as [->|]; [|rewrite lookup_insert_ne by done; congruence].
    rewrite lookup_insert_eq. intros [= <-] _. cbn. set_solver.
  - intros r ->%list_elem_of_singleton. apply new_fresh.
Qed.
End RuntimeImpl.

#[export] Program Instance runtime_instance : GoRuntime := {|
  new_loc := RuntimeImpl.new; map_range _ m := map_to_list m;
  ext_read := RuntimeImpl.ext_read; ext_copy := RuntimeImpl.ext_copy;
  new_loc_fresh := RuntimeImpl.new_fresh; ext_copies := RuntimeImpl.ext_copy_copies
|}.
Next Obligation. done. Qed.
Next Obligation.
  intros n P h h' v s Hh _ Hv. destruct v as [| |l| | |]; try done. cbn.
  destruct (h !! l) as [c|] eqn:E; [|done]. by rewrite (Hh l c) by (done || apply Hv; by left).
Qed.
