(* ===== verification/ApiAlpha.v ===== *)
(** * The Go types of api/v1alpha1

    Every type declaration of the package, with the json tags of its fields.
    A type of another package is [TAtom] if its documented fields hold no
    pointer, slice or map (metav1.TypeMeta, corev1.LocalObjectReference,
    metav1.Duration and named strings), [TExt] otherwise. *)

From S2P Require Import Prelude GoHeap.

Definition t_IntrospectionSpec : ty := TStruct
  [ ("Enabled", "enabled,omitempty", TPtr bool_);
    ("Interval", "interval,omitempty", TAtom "metav1.Duration") ].

Definition t_DataCacheSpec : ty := TStruct
  [ ("PVCName", "pvcName,omitempty", string_);
    ("DownloadArgs", "downloadArgs,omitempty", TSlice string_);
    ("DownloadPolicy", "downloadPolicy,omitempty", string_) ].

Definition t_TBNetworkPolicySpec : ty := TStruct
  [ ("ExtraPeers", "extraPeers,omitempty", TSlice (TExt "networkingv1.NetworkPolicyPeer")) ].

Definition t_PodSpec : ty := TStruct
  [ ("Image", "image,omitempty", string_);
    ("Resources", "resources,omitempty", TExt "corev1.ResourceRequirements");
    ("Env", "env,omitempty", TSlice (TExt "corev1.EnvVar"));
    ("VolumeMounts", "volumeMounts,omitempty", TSlice (TExt "corev1.VolumeMount"));
    ("Volumes", "volumes,omitempty", TSlice (TExt "corev1.Volume"));
    ("SecurityContext", "securityContext,omitempty", TPtr (TExt "corev1.PodSecurityContext"));
    ("InitContainers", "initContainers,omitempty", TSlice (TExt "corev1.Container"));
    ("ServiceName", "serviceName,omitempty", string_);
    ("ImagePullSecrets", "imagePullSecrets,omitempty", TSlice (TAtom "corev1.LocalObjectReference"));
    ("LivenessProbe", "livenessProbe,omitempty", TPtr (TExt "corev1.Probe"));
    ("ReadinessProbe", "readinessProbe,omitempty", TPtr (TExt "corev1.Probe"));
    ("Affinity", "affinity,omitempty", TPtr (TExt "corev1.Affinity"));
    ("AntiAffinity", "antiAffinity,omitempty", TPtr (TExt "corev1.PodAntiAffinity"));
    ("NodeSelector", "nodeSelector,omitempty", TMap string_);
    ("Tolerations", "tolerations,omitempty", TSlice (TExt "corev1.Toleration"));
    ("TopologySpreadConstraints", "topologySpreadConstraints,omitempty", TSlice (TExt "corev1.TopologySpreadConstraint")) ].

Definition t_ServiceSpec : ty := TStruct
  [ ("Type", "type,omitempty", TAtom "corev1.ServiceType");
    ("Ports", "ports,omitempty", TSlice (TExt "corev1.ServicePort"));
    ("Selector", "selector,omitempty", TMap string_);
    ("Annotations", "annotations,omitempty", TMap string_) ].

Definition t_PVCSpec : ty := TStruct
  [ ("AccessModes", "accessModes,omitempty", TSlice (TAtom "corev1.PersistentVolumeAccessMode"));
    ("StorageSize", "storageSize,omitempty", TPtr (TExt "resource.Quantity"));
    ("StorageClassName", "storageClassName,omitempty", string_);
    ("VolumeName", "volumeName,omitempty", string_);
    ("Annotations", "annotations,omitempty", TMap string_);
    ("Labels", "labels,omitempty", TMap string_);
    ("FixVolumePermissions", "fixVolumePermissions,omitempty", TPtr bool_) ].

Definition t_TBAppConfig : ty := TStruct
  [ ("PodSpec", "pod,omitempty", TPtr t_PodSpec);
    ("ServiceSpec", "service,omitempty", TPtr t_ServiceSpec);
    ("PVCSpec", "pvc,omitempty", TPtr t_PVCSpec);
    ("NetworkPolicySpec", "networkPolicy,omitempty", TPtr t_TBNetworkPolicySpec) ].

Definition t_TradeBotSpec : ty := TStruct
  [ ("FreqtradeCommand", "freqtrade_command,omitempty", string_);
    ("FreqtradeArguments", "freqtrade_arguments,omitempty", TSlice string_);
    ("Config", "config", string_);
    ("Strategy", "strategy", string_);
    ("App", "app,omitempty", TPtr t_TBAppConfig);
    ("Data", "data,omitempty", TPtr t_DataCacheSpec);
    ("UpdateStrategy", "updateStrategy,omitempty", string_);
    ("Introspection", "introspection,omitempty", TPtr t_IntrospectionSpec) ].

Definition t_BotStatus : ty := TStruct
  [ ("State", "state,omitempty", string_);
    ("Version", "version,omitempty", string_);
    ("DryRun", "dryRun,omitempty", TPtr bool_);
    ("OpenTrades", "openTrades,omitempty", TPtr int);
    ("MaxOpenTrades", "maxOpenTrades,omitempty", TPtr int);
    ("TotalProfitAbs", "totalProfitAbs,omitempty", string_);
    ("TotalProfitPct", "totalProfitPct,omitempty", string_);
    ("LastPollTime", "lastPollTime,omitempty", TPtr (TExt "metav1.Time"));
    ("LastPollError", "lastPollError,omitempty", string_) ].

Definition t_TradeBotStatus : ty := TStruct
  [ ("Phase", "phase,omitempty", string_);
    ("Message", "message,omitempty", string_);
    ("Conditions", "conditions,omitempty", TSlice (TExt "metav1.Condition"));
    ("ObservedGeneration", "observedGeneration,omitempty", int64);
    ("AppliedConfigHash", "appliedConfigHash,omitempty", string_);
    ("ResolvedImage", "resolvedImage,omitempty", string_);
    ("Bot", "bot,omitempty", TPtr t_BotStatus) ].

Definition t_TradeBot : ty := TStruct
  [ ("TypeMeta", ",inline", TAtom "metav1.TypeMeta");
    ("ObjectMeta", "metadata,omitempty", TExt "metav1.ObjectMeta");
    ("Spec", "spec,omitempty", t_TradeBotSpec);
    ("Status", "status,omitempty", t_TradeBotStatus) ].

Definition t_TradeBotList : ty := TStruct
  [ ("TypeMeta", ",inline", TAtom "metav1.TypeMeta");
    ("ListMeta", "metadata,omitempty", TExt "metav1.ListMeta");
    ("Items", "items", TSlice t_TradeBot) ].

Definition t_StrategySpec : ty := TStruct
  [ ("Name", "name", string_);
    ("Script", "script,omitempty", string_) ].

Definition t_StrategyStatus : ty := TStruct
  [ ("Phase", "phase,omitempty", string_);
    ("Message", "message,omitempty", string_);
    ("Conditions", "conditions,omitempty", TSlice (TExt "metav1.Condition"));
    ("ObservedGeneration", "observedGeneration,omitempty", int64) ].

Definition t_Strategy : ty := TStruct
  [ ("TypeMeta", ",inline", TAtom "metav1.TypeMeta");
    ("ObjectMeta", "metadata,omitempty", TExt "metav1.ObjectMeta");
    ("Spec", "spec,omitempty", t_StrategySpec);
    ("Status", "status,omitempty", t_StrategyStatus) ].

Definition t_StrategyList : ty := TStruct
  [ ("TypeMeta", ",inline", TAtom "metav1.TypeMeta");
    ("ListMeta", "metadata,omitempty", TExt "metav1.ListMeta");
    ("Items", "items", TSlice t_Strategy) ].

Definition t_FUExposureType : ty := string_.

Definition t_FUGatewaySpec : ty := TStruct
  [ ("ParentRefs", "parentRefs", TSlice (TExt "gatewayv1.ParentReference"));
    ("Hostnames", "hostnames,omitempty", TSlice (TAtom "gatewayv1.Hostname"));
    ("Annotations", "annotations,omitempty", TMap string_);
    ("Labels", "labels,omitempty", TMap string_) ].

Definition t_FUPodSpec : ty := TStruct
  [ ("Image", "image,omitempty", string_);
    ("Resources", "resources,omitempty", TExt "corev1.ResourceRequirements");
    ("Env", "env,omitempty", TSlice (TExt "corev1.EnvVar"));
    ("VolumeMounts", "volumeMounts,omitempty", TSlice (TExt "corev1.VolumeMount"));
    ("Volumes", "volumes,omitempty", TSlice (TExt "corev1.Volume"));
    ("SecurityContext", "securityContext,omitempty", TPtr (TExt "corev1.PodSecurityContext"));
    ("InitContainers", "initContainers,omitempty", TSlice (TExt "corev1.Container"));
    ("ImagePullSecrets", "imagePullSecrets,omitempty", TSlice (TAtom "corev1.LocalObjectReference"));
    ("LivenessProbe", "livenessProbe,omitempty", TPtr (TExt "corev1.Probe"));
    ("ReadinessProbe", "readinessProbe,omitempty", TPtr (TExt "corev1.Probe"));
    ("Affinity", "affinity,omitempty", TPtr (TExt "corev1.Affinity"));
    ("AntiAffinity", "antiAffinity,omitempty", TPtr (TExt "corev1.PodAntiAffinity"));
    ("NodeSelector", "nodeSelector,omitempty", TMap string_);
    ("Tolerations", "tolerations,omitempty", TSlice (TExt "corev1.Toleration"));
    ("TopologySpreadConstraints", "topologySpreadConstraints,omitempty", TSlice (TExt "corev1.TopologySpreadConstraint"));
    ("Replicas", "replicas,omitempty", TPtr int32) ].

Definition t_FUServiceSpec : ty := TStruct
  [ ("Type", "type,omitempty", TAtom "corev1.ServiceType");
    ("Ports", "ports,omitempty", TSlice (TExt "corev1.ServicePort"));
    ("Selector", "selector,omitempty", TMap string_);
    ("Annotations", "annotations,omitempty", TMap string_);
    ("LoadBalancerSourceRanges", "loadBalancerSourceRanges,omitempty", TSlice string_);
    ("ExternalTrafficPolicy", "externalTrafficPolicy,omitempty", TAtom "corev1.ServiceExternalTrafficPolicy");
    ("SessionAffinity", "sessionAffinity,omitempty", TAtom "corev1.ServiceAffinity") ].

Definition t_FUIngressSpec : ty := TStruct
  [ ("IngressClassName", "ingressClassName,omitempty", TPtr string_);
    ("Rules", "rules,omitempty", TSlice (TExt "networkingv1.IngressRule"));
    ("TLS", "tls,omitempty", TSlice (TExt "networkingv1.IngressTLS"));
    ("DefaultBackend", "defaultBackend,omitempty", TPtr (TExt "networkingv1.IngressBackend"));
    ("Annotations", "annotations,omitempty", TMap string_) ].

Definition t_FUAppConfig : ty := TStruct
  [ ("PodSpec", "pod,omitempty", TPtr t_FUPodSpec);
    ("ServiceSpec", "service,omitempty", TPtr t_FUServiceSpec);
    ("IngressSpec", "ingress,omitempty", TPtr t_FUIngressSpec) ].

Definition t_FreqUISpec : ty := TStruct
  [ ("Host", "host,omitempty", string_);
    ("TLS", "tls,omitempty", TSlice (TExt "networkingv1.IngressTLS"));
    ("IngressAnnotations", "ingressAnnotations,omitempty", TMap string_);
    ("App", "app,omitempty", TPtr t_FUAppConfig);
    ("TradeBotRefs", "tradeBotRefs,omitempty", TSlice string_);
    ("Exposure", "exposure,omitempty", t_FUExposureType);
    ("Gateway", "gateway,omitempty", TPtr t_FUGatewaySpec) ].

Definition t_FreqUIStatus : ty := TStruct
  [ ("Phase", "phase,omitempty", string_);
    ("Message", "message,omitempty", string_);
    ("URL", "url,omitempty", string_);
    ("Conditions", "conditions,omitempty", TSlice (TExt "metav1.Condition"));
    ("ObservedGeneration", "observedGeneration,omitempty", int64) ].

Definition t_FreqUI : ty := TStruct
  [ ("TypeMeta", ",inline", TAtom "metav1.TypeMeta");
    ("ObjectMeta", "metadata,omitempty", TExt "metav1.ObjectMeta");
    ("Spec", "spec,omitempty", t_FreqUISpec);
    ("Status", "status,omitempty", t_FreqUIStatus) ].

Definition t_FreqUIList : ty := TStruct
  [ ("TypeMeta", ",inline", TAtom "metav1.TypeMeta");
    ("ListMeta", "metadata,omitempty", TExt "metav1.ListMeta");
    ("Items", "items", TSlice t_FreqUI) ].

Definition t_BotConfig : ty := TStruct
  [ ("BotName", "bot_name,omitempty", string_);
    ("TradingMode", "trading_mode,omitempty", string_);
    ("DryRun", "dry_run,omitempty", TPtr bool_);
    ("DryRunWallet", "dry_run_wallet,omitempty", TPtr float64);
    ("StakeCurrency", "stake_currency,omitempty", string_);
    ("StakeAmount", "stake_amount,omitempty", string_);
    ("MaxOpenTrades", "max_open_trades,omitempty", TPtr int);
    ("FiatDisplayCurrency", "fiat_display_currency,omitempty", string_);
    ("DBUrl", "db_url,omitempty", string_);
    ("Export", "export,omitempty", string_);
    ("DisableParamExport", "disable_param_export,omitempty", TPtr bool_);
    ("DisableDataframeChecks", "disable_dataframe_checks,omitempty", TPtr bool_) ].

Definition t_SVMParams : ty := TStruct
  [ ("Shuffle", "shuffle,omitempty", TPtr bool_);
    ("Nu", "nu,omitempty", TPtr float64) ].

Definition t_FeatureParameters : ty := TStruct
  [ ("IncludeCorrPairlist", "include_corr_pairlist,omitempty", TSlice string_);
    ("IncludeTimeframes", "include_timeframes,omitempty", TSlice string_);
    ("LabelPeriodCandles", "label_period_candles,omitempty", TPtr int);
    ("IncludeShiftedCandles", "include_shifted_candles,omitempty", TPtr int);
    ("DIThreshold", "di_threshold,omitempty", TPtr float64);
    ("WeightFactor", "weight_factor,omitempty", TPtr float64);
    ("PrincipalComponentAnalysis", "principal_component_analysis,omitempty", TPtr bool_);
    ("IndicatorPeriodsCandles", "indicator_periods_candles,omitempty", TSlice int);
    ("UseSVMToRemoveOutliers", "use_svm_to_remove_outliers,omitempty", TPtr bool_);
    ("PlotFeatureImportances", "plot_feature_importances,omitempty", TPtr int);
    ("SVMParams", "svm_params,omitempty", TPtr t_SVMParams);
    ("ShuffleAfterSplit", "shuffle_after_split,omitempty", TPtr bool_);
    ("BufferTrainDataCandles", "buffer_train_data_candles,omitempty", TPtr int) ].

Definition t_DataSplitParameters : ty := TStruct
  [ ("TestSize", "test_size,omitempty", TPtr float64);
    ("RandomState", "random_state,omitempty", TPtr int);
    ("Shuffle", "shuffle,omitempty", TPtr bool_) ].

Definition t_ModelTrainingParameters : ty := TStruct [].

Definition t_ModelRewardParameters : ty := TStruct
  [ ("RR", "rr,omitempty", TPtr float64);
    ("ProfitAim", "profit_aim,omitempty", TPtr float64) ].

Definition t_RLConfig : ty := TStruct
  [ ("DropOHLCFromFeatures", "drop_ohlc_from_features,omitempty", TPtr bool_);
    ("TrainCycles", "train_cycles,omitempty", TPtr int);
    ("MaxTradeDurationCandles", "max_trade_duration_candles,omitempty", TPtr int);
    ("AddStateInfo", "add_state_info,omitempty", TPtr bool_);
    ("MaxTrainingDrawdownPct", "max_training_drawdown_pct,omitempty", TPtr float64);
    ("CPUCount", "cpu_count,omitempty", TPtr int);
    ("ModelType", "model_type,omitempty", string_);
    ("PolicyType", "policy_type,omitempty", string_);
    ("NetArch", "net_arch,omitempty", TSlice int);
    ("RandomizeStartingPosition", "randomize_starting_position,omitempty", TPtr bool_);
    ("ProgressBar", "progress_bar,omitempty", TPtr bool_);
    ("ModelRewardParameters", "model_reward_parameters,omitempty", TPtr t_ModelRewardParameters) ].

Definition t_AIConfig : ty := TStruct
  [ ("Enabled", "enabled,omitempty", TPtr bool_);
    ("Identifier", "identifier,omitempty", string_);
    ("WriteMetricsToDisk", "write_metrics_to_disk,omitempty", TPtr bool_);
    ("PurgeOldModels", "purge_old_models,omitempty", TPtr int);
    ("ConvWidth", "conv_width,omitempty", TPtr int);
    ("TrainPeriodDays", "train_period_days,omitempty", TPtr int);
    ("BacktestPeriodDays", "backtest_period_days,omitempty", TPtr int);
    ("LiveRetrainHours", "live_retrain_hours,omitempty", TPtr int);
    ("ExpirationHours", "expiration_hours,omitempty", TPtr int);
    ("SaveBacktestModels", "save_backtest_models,omitempty", TPtr bool_);
    ("FitLivePredictionsCandles", "fit_live_predictions_candles,omitempty", TPtr int);
    ("DataKitchenThreadCount", "data_kitchen_thread_count,omitempty", TPtr int);
    ("ActivateTensorboard", "activate_tensorboard,omitempty", TPtr bool_);
    ("WaitForTrainingIterationOnReload", "wait_for_training_iteration_on_reload,omitempty", TPtr bool_);
    ("ContinueLearning", "continue_learning,omitempty", TPtr bool_);
    ("Keras", "keras,omitempty", TPtr bool_);
    ("FeatureParameters", "feature_parameters,omitempty", TPtr t_FeatureParameters);
    ("DataSplitParameters", "data_split_parameters,omitempty", TPtr t_DataSplitParameters);
    ("ModelTrainingParameters", "model_training_parameters,omitempty", TPtr t_ModelTrainingParameters);
    ("RLConfig", "rl_config,omitempty", TPtr t_RLConfig) ].

Definition t_DataConfig : ty := TStruct
  [ ("DataformatOHLCV", "dataformat_ohlcv,omitempty", string_);
    ("DataformatTrades", "dataformat_trades,omitempty", string_);
    ("PositionAdjustment", "position_adjustment,omitempty", string_);
    ("NewPairsDaysAgo", "new_pairs_days_ago,omitempty", TPtr int);
    ("DownloadTrades", "download_trades,omitempty", TPtr bool_);
    ("MaxEntryPositionAdjustment", "max_entry_position_adjustment,omitempty", TPtr float64);
    ("AvailableCapital", "available_capital,omitempty", TPtr float64);
    ("AmendLastStakeAmount", "amend_last_stake_amount,omitempty", TPtr bool_);
    ("LastStakeAmountMinRatio", "last_stake_amount_min_ratio,omitempty", TPtr float64);
    ("ProcessOnlyNewCandles", "process_only_new_candles,omitempty", TPtr bool_);
    ("AmountReservePercent", "amount_reserve_percent,omitempty", TPtr float64);
    ("ReduceDfFootprint", "reduce_df_footprint,omitempty", TPtr bool_);
    ("CustomPriceMaxDistanceRatio", "custom_price_max_distance_ratio,omitempty", TPtr float64) ].

Definition t_AdvancedConfig : ty := TStruct
  [ ("TradableBalanceRatio", "tradable_balance_ratio,omitempty", TPtr float64);
    ("CancelOpenOrdersOnExit", "cancel_open_orders_on_exit,omitempty", TPtr bool_);
    ("MarginMode", "margin_mode,omitempty", string_);
    ("InitialState", "initial_state,omitempty", string_);
    ("ForceEntryEnable", "force_entry_enable,omitempty", TPtr bool_) ].

Definition t_UnfilledTimeoutConfig : ty := TStruct
  [ ("Entry", "entry,omitempty", TPtr int);
    ("Exit", "exit,omitempty", TPtr int);
    ("ExitTimeoutCount", "exit_timeout_count,omitempty", TPtr int);
    ("Unit", "unit,omitempty", string_) ].

Definition t_InternalsConfig : ty := TStruct
  [ ("ProcessThrottleSecs", "process_throttle_secs,omitempty", TPtr int);
    ("Interval", "interval,omitempty", TPtr int);
    ("SdNotify", "sd_notify,omitempty", TPtr bool_) ].

Definition t_PairListSpec : ty := TStruct
  [ ("Pairs", "pairs,omitempty", TSlice string_) ].

Definition t_PairlistMethod : ty := string_.

Definition t_PairlistConfig : ty := TStruct
  [ ("Method", "method", t_PairlistMethod);
    ("NumberAssets", "number_assets,omitempty", TPtr int);
    ("RefreshPeriod", "refresh_period,omitempty", TPtr int64);
    ("AllowInactive", "allow_inactive,omitempty", bool_);
    ("SortKey", "sort_key,omitempty", string_);
    ("LookbackTimeframe", "lookback_timeframe,omitempty", string_);
    ("LookbackPeriod", "lookback_period,omitempty", TPtr int);
    ("LookbackDays", "lookback_days,omitempty", TPtr int);
    ("MinChangeRate", "min_change_rate,omitempty", TPtr float64);
    ("ProducerName", "producer_name,omitempty", string_);
    ("Mode", "mode,omitempty", string_);
    ("ProcessingMode", "processing_mode,omitempty", string_);
    ("PairlistURL", "pairlist_url,omitempty", string_);
    ("KeepPairlistOnFailure", "keep_pairlist_on_failure,omitempty", TPtr bool_);
    ("ReadTimeout", "read_timeout,omitempty", TPtr int);
    ("BearerToken", "bearer_token,omitempty", string_);
    ("SaveToFile", "save_to_file,omitempty", string_);
    ("MaxRank", "max_rank,omitempty", TPtr int);
    ("Categories", "categories,omitempty", TSlice string_);
    ("MinDaysListed", "min_days_listed,omitempty", TPtr int);
    ("MaxDaysListed", "max_days_listed,omitempty", TPtr int);
    ("MinPrice", "min_price,omitempty", TPtr float64);
    ("MaxPrice", "max_price,omitempty", TPtr float64);
    ("MaxSpreadRatio", "max_spread_ratio,omitempty", TPtr float64);
    ("LookbackDaysRange", "lookback_days_range,omitempty", TPtr int);
    ("MinRateOfChange", "min_rate_of_change,omitempty", TPtr float64);
    ("MaxRateOfChange", "max_rate_of_change,omitempty", TPtr float64);
    ("LookbackDaysVolatility", "lookback_days_volatility,omitempty", TPtr int);
    ("MinVolatility", "min_volatility,omitempty", TPtr float64);
    ("MaxVolatility", "max_volatility,omitempty", TPtr float64);
    ("Offset", "offset,omitempty", TPtr int);
    ("ShuffleFrequency", "shuffle_frequency,omitempty", string_);
    ("Seed", "seed,omitempty", TPtr int);
    ("Minutes", "minutes,omitempty", TPtr int);
    ("MinProfit", "min_profit,omitempty", TPtr float64) ].

Definition t_PairlistMethodsSpec : ty := TStruct
  [ ("Methods", "methods", TSlice t_PairlistConfig) ].

Definition t_PricingCheckDepthOfMarket : ty := TStruct
  [ ("Enabled", "enabled,omitempty", TPtr bool_);
    ("BidsToAskDelta", "bids_to_ask_delta,omitempty", TPtr float64) ].

Definition t_PricingSpec : ty := TStruct
  [ ("PriceSide", "price_side,omitempty", string_);
    ("PriceLastBalance", "price_last_balance,omitempty", TPtr float64);
    ("UseOrderBook", "use_order_book,omitempty", TPtr bool_);
    ("OrderBookTop", "order_book_top,omitempty", TPtr int);
    ("CheckDepthOfMarket", "check_depth_of_market,omitempty", TPtr t_PricingCheckDepthOfMarket) ].

Definition t_ExchangeSpec : ty := TStruct
  [ ("Name", "name", string_);
    ("Key", "key,omitempty", string_);
    ("Secret", "secret,omitempty", string_);
    ("Password", "password,omitempty", string_);
    ("UID", "uid,omitempty", string_);
    ("AccountID", "account_id,omitempty", string_);
    ("WalletAddress", "wallet_address,omitempty", string_);
    ("PrivateKey", "private_key,omitempty", string_);
    ("SecretRef", "secretRef,omitempty", string_);
    ("CcxtConfig", "ccxt_config,omitempty", TExt "apiextensionsv1.JSON");
    ("CcxtAsyncConfig", "ccxt_async_config,omitempty", TExt "apiextensionsv1.JSON");
    ("CcxtSyncConfig", "ccxt_sync_config,omitempty", TExt "apiextensionsv1.JSON");
    ("Whitelist", "whitelist,omitempty", TPtr t_PairListSpec);
    ("Blacklist", "blacklist,omitempty", TPtr t_PairListSpec);
    ("LogResponses", "log_responses,omitempty", TPtr bool_);
    ("EnableWS", "enable_ws,omitempty", TPtr bool_);
    ("UnkownFeeRate", "unkown_fee_rate,omitempty", TPtr bool_);
    ("OutdatedOffset", "outdated_offset,omitempty", TPtr int);
    ("MarketRefreshInterval", "market_refresh_interval,omitempty", TPtr int) ].

Definition t_Types : ty := TStruct
  [ ("Entry", "entry,omitempty", string_);
    ("Exit", "exit,omitempty", string_);
    ("EmergencyExit", "emergency_exit,omitempty", string_);
    ("ForceEntry", "force_entry,omitempty", string_);
    ("ForceExit", "force_exit,omitempty", string_);
    ("Stoploss", "stoploss,omitempty", string_);
    ("StoplossOnExchange", "stoploss_on_exchange,omitempty", TPtr bool_);
    ("StoplossOnExchangeInterval", "stoploss_on_exchange_interval,omitempty", TPtr int);
    ("StoplossOnExchangeLimitRatio", "stoploss_on_exchange_limit_ratio,omitempty", TPtr float64) ].

Definition t_TimeInForce : ty := TStruct
  [ ("Entry", "entry,omitempty", string_);
    ("Exit", "exit,omitempty", string_) ].

Definition t_Flow : ty := TStruct
  [ ("CacheSize", "cache_size,omitempty", TPtr int);
    ("MaxCandles", "max_candles,omitempty", TPtr int);
    ("Scale", "scale,omitempty", TPtr float64);
    ("StackedImbalanceRange", "stacked_imbalance_range,omitempty", TPtr int);
    ("ImbalanceVolume", "imbalance_volume,omitempty", TPtr int);
    ("ImbalanceRatio", "imbalance_ratio,omitempty", TPtr float64) ].

Definition t_OrderSpec : ty := TStruct
  [ ("Types", "types,omitempty", TPtr t_Types);
    ("TimeInForce", "time_in_force,omitempty", TPtr t_TimeInForce);
    ("Flow", "flow,omitempty", TPtr t_Flow) ].

Definition t_RiskManagementSpec : ty := TStruct
  [ ("MinimalROI", "minimal_roi,omitempty", TMap (TPtr float64));
    ("Stoploss", "stoploss,omitempty", TPtr float64);
    ("TrailingStop", "trailing_stop,omitempty", bool_);
    ("TrailingStopPositive", "trailing_stop_positive,omitempty", TPtr float64);
    ("TrailingStopPositiveOffset", "trailing_stop_positive_offset,omitempty", TPtr float64);
    ("TrailingOnlyOffsetIsReached", "trailing_only_offset_is_reached,omitempty", bool_);
    ("UseExitSignal", "use_exit_signal,omitempty", bool_);
    ("ExitProfitOnly", "exit_profit_only,omitempty", bool_);
    ("ExitProfitOffset", "exit_profit_offset,omitempty", TPtr float64);
    ("Fee", "fee,omitempty", TPtr float64);
    ("IgnoreRoiIfEntrySignal", "ignore_roi_if_entry_signal,omitempty", bool_);
    ("IgnoreBuyingExpiredCandleAfter", "ignore_buying_expired_candle_after,omitempty", TPtr int);
    ("MinimumTradeAmount", "minimum_trade_amount,omitempty", TPtr int);
    ("TargetedTradeAmount", "targeted_trade_amount,omitempty", TPtr int);
    ("LookaheadAnalysisExportFilename", "lookahead_analysis_export_filename,omitempty", string_);
    ("StartupCandle", "startup_candle,omitempty", TPtr (TSlice int));
    ("LiquidationBuffer", "liquidation_buffer,omitempty", TPtr float64);
    ("BacktestBreakdown", "backtest_breakdown,omitempty", TSlice string_) ].

Definition t_APIServerConfig : ty := TStruct
  [ ("Enabled", "enabled,omitempty", TPtr bool_);
    ("ListenIP", "listen_ip_address,omitempty", string_);
    ("ListenPort", "listen_port,omitempty", TPtr int);
    ("Verbosity", "verbosity,omitempty", string_);
    ("EnableOpenAPI", "enable_openapi,omitempty", TPtr bool_);
    ("Username", "username,omitempty", string_);
    ("Password", "password,omitempty", string_);
    ("JWTSecretKey", "jwtSecretKey,omitempty", string_);
    ("SecretRef", "secretRef,omitempty", string_);
    ("CORSOrigins", "cors_origins,omitempty", TSlice string_) ].

Definition t_ExperimentalConfig : ty := TStruct
  [ ("BlockBadExchanges", "block_bad_exchanges,omitempty", TPtr bool_) ].

Definition t_LoggingConfig : ty := TStruct
  [ ("Version", "version,omitempty", TPtr int) ].

Definition t_NotificationTelegramSettings : ty := TStruct
  [ ("Status", "status,omitempty", string_);
    ("Warning", "warning,omitempty", string_);
    ("Startup", "startup,omitempty", string_);
    ("Entry", "entry,omitempty", string_);
    ("EntryFill", "entry_fill,omitempty", string_);
    ("EntryCancel", "entry_cancel,omitempty", string_);
    ("Exit", "exit,omitempty", string_);
    ("ExitFill", "exit_fill,omitempty", string_);
    ("ExitCancel", "exit_cancel,omitempty", string_);
    ("ProtectionTrigger", "protection_trigger,omitempty", string_);
    ("ProtectionTriggerGlobal", "protection_trigger_global,omitempty", string_) ].

Definition t_NotificationTelegram : ty := TStruct
  [ ("Enabled", "enabled,omitempty", TPtr bool_);
    ("Token", "token,omitempty", string_);
    ("SecretRef", "secretRef,omitempty", string_);
    ("BalanceDustLevel", "balance_dust_level,omitempty", TPtr float64);
    ("Reload", "reload,omitempty", TPtr bool_);
    ("AllowCustomMessages", "allow_custom_messages,omitempty", TPtr bool_);
    ("ChatID", "chat_id,omitempty", string_);
    ("TopicID", "topic_id,omitempty", string_);
    ("AuthorizedUsers", "authorized_users,omitempty", TSlice string_);
    ("Settings", "settings,omitempty", TPtr t_NotificationTelegramSettings) ].

Definition t_NotificationWebhook : ty := TStruct
  [ ("Enabled", "enabled,omitempty", TPtr bool_);
    ("URL", "url,omitempty", string_);
    ("Entry", "entry,omitempty", string_);
    ("EntryCancel", "entry_cancel,omitempty", string_);
    ("EntryFill", "entry_fill,omitempty", string_);
    ("Exit", "exit,omitempty", string_);
    ("ExitCancel", "exit_cancel,omitempty", string_);
    ("ExitFill", "exit_fill,omitempty", string_);
    ("Status", "status,omitempty", string_);
    ("AllowCustomMessages", "allow_custom_messages,omitempty", TPtr bool_) ].

Definition t_NotificationDiscord : ty := TStruct
  [ ("Enabled", "enabled,omitempty", TPtr bool_);
    ("WebhookURL", "webhook_url,omitempty", string_);
    ("ExitFill", "exit_fill,omitempty", TSlice (TMap string_));
    ("EntryFill", "entry_fill,omitempty", TSlice (TMap string_)) ].

Definition t_NotificationSpec : ty := TStruct
  [ ("Telegram", "telegram,omitempty", TPtr t_NotificationTelegram);
    ("Webhook", "webhook,omitempty", TPtr t_NotificationWebhook);
    ("Discord", "discord,omitempty", TPtr t_NotificationDiscord) ].

Definition t_TradeBotConfigSpec : ty := TStruct
  [ ("Bot", "bot", TPtr t_BotConfig);
    ("AI", "ai,omitempty", TPtr t_AIConfig);
    ("Data", "data,omitempty", TPtr t_DataConfig);
    ("Advanced", "advanced,omitempty", TPtr t_AdvancedConfig);
    ("Timeout", "timeout,omitempty", TPtr t_UnfilledTimeoutConfig);
    ("Internals", "internals,omitempty", TPtr t_InternalsConfig);
    ("Exchange", "exchange,omitempty", TPtr t_ExchangeSpec);
    ("Pairlist", "pairlist,omitempty", TPtr t_PairListSpec);
    ("PairlistMethod", "pairlist_method,omitempty", TPtr t_PairlistMethodsSpec);
    ("EntryPricing", "entry_pricing,omitempty", TPtr t_PricingSpec);
    ("ExitPricing", "exit_pricing,omitempty", TPtr t_PricingSpec);
    ("Order", "order,omitempty", TPtr t_OrderSpec);
    ("RiskManagement", "risk_management,omitempty", TPtr t_RiskManagementSpec);
    ("Notification", "notification,omitempty", TPtr t_NotificationSpec);
    ("APIServer", "apiServer,omitempty", TPtr t_APIServerConfig);
    ("Experimental", "experimental,omitempty", TPtr t_ExperimentalConfig);
    ("Logging", "logging,omitempty", TPtr t_LoggingConfig) ].

Definition t_TradeBotConfigStatus : ty := TStruct
  [ ("Phase", "phase,omitempty", string_);
    ("Message", "message,omitempty", string_);
    ("Conditions", "conditions,omitempty", TSlice (TExt "metav1.Condition"));
    ("ObservedGeneration", "observedGeneration,omitempty", int64) ].

Definition t_TradeBotConfig : ty := TStruct
  [ ("TypeMeta", ",inline", TAtom "metav1.TypeMeta");
    ("ObjectMeta", "metadata,omitempty", TExt "metav1.ObjectMeta");
    ("Spec", "spec,omitempty", t_TradeBotConfigSpec);
    ("Status", "status,omitempty", t_TradeBotConfigStatus) ].

Definition t_TradeBotConfigList : ty := TStruct
  [ ("TypeMeta", ",inline", TAtom "metav1.TypeMeta");
    ("ListMeta", "metadata,omitempty", TExt "metav1.ListMeta");
    ("Items", "items", TSlice t_TradeBotConfig) ].
