(* ===== verification/DeepCopyBeta.v ===== *)
(** * api/v1beta1/zz_generated.deepcopy.go

    The deep copies of the types of ApiBeta.v, function by function, and that
    each of them is one. *)

From S2P Require Import Prelude GoHeap ApiBeta.

Section DeepCopies.
Context `{GoRuntime}.

(** ** The functions *)

Definition DataSplitParameters_DeepCopyInto : gval → H gval := into
  [ ("TestSize", unless_nil new_value);
    ("RandomState", unless_nil new_value);
    ("Shuffle", unless_nil new_value) ].
Definition DataSplitParameters_DeepCopy : gval → H gval := DeepCopy DataSplitParameters_DeepCopyInto.

Definition SVMParams_DeepCopyInto : gval → H gval := into
  [ ("Shuffle", unless_nil new_value);
    ("Nu", unless_nil new_value) ].
Definition SVMParams_DeepCopy : gval → H gval := DeepCopy SVMParams_DeepCopyInto.

Definition FeatureParameters_DeepCopyInto : gval → H gval := into
  [ ("IncludeCorrPairlist", unless_nil make_copy);
    ("IncludeTimeframes", unless_nil make_copy);
    ("LabelPeriodCandles", unless_nil new_value);
    ("IncludeShiftedCandles", unless_nil new_value);
    ("DIThreshold", unless_nil new_value);
    ("WeightFactor", unless_nil new_value);
    ("PrincipalComponentAnalysis", unless_nil new_value);
    ("IndicatorPeriodsCandles", unless_nil make_copy);
    ("UseSVMToRemoveOutliers", unless_nil new_value);
    ("PlotFeatureImportances", unless_nil new_value);
    ("SVMParams", unless_nil (new_into SVMParams_DeepCopyInto));
    ("ShuffleAfterSplit", unless_nil new_value);
    ("BufferTrainDataCandles", unless_nil new_value) ].
Definition FeatureParameters_DeepCopy : gval → H gval := DeepCopy FeatureParameters_DeepCopyInto.

Definition ModelRewardParameters_DeepCopyInto : gval → H gval := into
  [ ("RR", unless_nil new_value);
    ("ProfitAim", unless_nil new_value) ].
Definition ModelRewardParameters_DeepCopy : gval → H gval := DeepCopy ModelRewardParameters_DeepCopyInto.

Definition RLConfig_DeepCopyInto : gval → H gval := into
  [ ("DropOHLCFromFeatures", unless_nil new_value);
    ("TrainCycles", unless_nil new_value);
    ("MaxTradeDurationCandles", unless_nil new_value);
    ("AddStateInfo", unless_nil new_value);
    ("MaxTrainingDrawdownPct", unless_nil new_value);
    ("CPUCount", unless_nil new_value);
    ("NetArch", unless_nil make_copy);
    ("RandomizeStartingPosition", unless_nil new_value);
    ("ProgressBar", unless_nil new_value);
    ("ModelRewardParameters", unless_nil (new_into ModelRewardParameters_DeepCopyInto)) ].
Definition RLConfig_DeepCopy : gval → H gval := DeepCopy RLConfig_DeepCopyInto.

Definition AIConfig_DeepCopyInto : gval → H gval := into
  [ ("Enabled", unless_nil new_value);
    ("WriteMetricsToDisk", unless_nil new_value);
    ("PurgeOldModels", unless_nil new_value);
    ("ConvWidth", unless_nil new_value);
    ("TrainPeriodDays", unless_nil new_value);
    ("BacktestPeriodDays", unless_nil new_value);
    ("LiveRetrainHours", unless_nil new_value);
    ("ExpirationHours", unless_nil new_value);
    ("SaveBacktestModels", unless_nil new_value);
    ("FitLivePredictionsCandles", unless_nil new_value);
    ("DataKitchenThreadCount", unless_nil new_value);
    ("ActivateTensorboard", unless_nil new_value);
    ("WaitForTrainingIterationOnReload", unless_nil new_value);
    ("ContinueLearning", unless_nil new_value);
    ("Keras", unless_nil new_value);
    ("FeatureParameters", unless_nil (new_into FeatureParameters_DeepCopyInto));
    ("DataSplitParameters", unless_nil (new_into DataSplitParameters_DeepCopyInto));
    ("ModelTrainingParameters", unless_nil new_value);
    ("RLConfig", unless_nil (new_into RLConfig_DeepCopyInto)) ].
Definition AIConfig_DeepCopy : gval → H gval := DeepCopy AIConfig_DeepCopyInto.

Definition APIServerConfig_DeepCopyInto : gval → H gval := into
  [ ("Enabled", unless_nil new_value);
    ("ListenPort", unless_nil new_value);
    ("EnableOpenAPI", unless_nil new_value);
    ("SecretRef", assign);
    ("CORSOrigins", unless_nil make_copy) ].
Definition APIServerConfig_DeepCopy : gval → H gval := DeepCopy APIServerConfig_DeepCopyInto.

Definition AdvancedConfig_DeepCopyInto : gval → H gval := into
  [ ("TradableBalanceRatio", unless_nil new_value);
    ("CancelOpenOrdersOnExit", unless_nil new_value);
    ("ForceEntryEnable", unless_nil new_value) ].
Definition AdvancedConfig_DeepCopy : gval → H gval := DeepCopy AdvancedConfig_DeepCopyInto.

Definition DataSourceSpec_DeepCopyInto : gval → H gval := into
  [ ("DownloadArgs", unless_nil make_copy) ].
Definition DataSourceSpec_DeepCopy : gval → H gval := DeepCopy DataSourceSpec_DeepCopyInto.

Definition PodSpec_DeepCopyInto : gval → H gval := into
  [ ("Resources", ext_copy "corev1.ResourceRequirements");
    ("Env", unless_nil (make_each (ext_copy "corev1.EnvVar")));
    ("VolumeMounts", unless_nil (make_each (ext_copy "corev1.VolumeMount")));
    ("Volumes", unless_nil (make_each (ext_copy "corev1.Volume")));
    ("SecurityContext", unless_nil (new_into (ext_copy "corev1.PodSecurityContext")));
    ("InitContainers", unless_nil (make_each (ext_copy "corev1.Container")));
    ("ImagePullSecrets", unless_nil make_copy);
    ("Affinity", unless_nil (new_into (ext_copy "corev1.Affinity")));
    ("NodeSelector", unless_nil make_map);
    ("Tolerations", unless_nil (make_each (ext_copy "corev1.Toleration")));
    ("TopologySpreadConstraints", unless_nil (make_each (ext_copy "corev1.TopologySpreadConstraint"))) ].
Definition PodSpec_DeepCopy : gval → H gval := DeepCopy PodSpec_DeepCopyInto.

Definition ResultsSpec_DeepCopyInto : gval → H gval := into
  [ ("Size", ext_copy "resource.Quantity");
    ("StorageClassName", unless_nil new_value) ].
Definition ResultsSpec_DeepCopy : gval → H gval := DeepCopy ResultsSpec_DeepCopyInto.

Definition RunSpec_DeepCopyInto : gval → H gval := into
  [ ("ConfigRef", assign);
    ("StrategyRef", assign);
    ("Pairs", unless_nil make_copy);
    ("Data", unless_nil (new_into DataSourceSpec_DeepCopyInto));
    ("Results", unless_nil (new_into ResultsSpec_DeepCopyInto));
    ("Pod", unless_nil (new_into PodSpec_DeepCopyInto));
    ("TTLSecondsAfterFinished", unless_nil new_value);
    ("ExtraArgs", unless_nil make_copy) ].
Definition RunSpec_DeepCopy : gval → H gval := DeepCopy RunSpec_DeepCopyInto.

Definition BacktestSpec_DeepCopyInto : gval → H gval := into
  [ ("RunSpec", RunSpec_DeepCopyInto);
    ("MaxOpenTrades", unless_nil new_value);
    ("DryRunWallet", unless_nil (new_into (ext_copy "resource.Quantity")));
    ("Fee", unless_nil new_value);
    ("EnableProtections", unless_nil new_value);
    ("Breakdown", unless_nil make_copy) ].
Definition BacktestSpec_DeepCopy : gval → H gval := DeepCopy BacktestSpec_DeepCopyInto.

Definition BacktestStatus_DeepCopyInto : gval → H gval := into
  [ ("Conditions", unless_nil (make_each (ext_copy "metav1.Condition")));
    ("StartTime", unless_nil (new_into (ext_copy "metav1.Time")));
    ("CompletionTime", unless_nil (new_into (ext_copy "metav1.Time")));
    ("Results", unless_nil new_value) ].
Definition BacktestStatus_DeepCopy : gval → H gval := DeepCopy BacktestStatus_DeepCopyInto.

Definition Backtest_DeepCopyInto : gval → H gval := into
  [ ("TypeMeta", assign);
    ("ObjectMeta", ext_copy "metav1.ObjectMeta");
    ("Spec", BacktestSpec_DeepCopyInto);
    ("Status", BacktestStatus_DeepCopyInto) ].
Definition Backtest_DeepCopy : gval → H gval := DeepCopy Backtest_DeepCopyInto.
Definition Backtest_DeepCopyObject : gval → H gval := DeepCopyObject Backtest_DeepCopy.

Definition BacktestList_DeepCopyInto : gval → H gval := into
  [ ("TypeMeta", assign);
    ("ListMeta", ext_copy "metav1.ListMeta");
    ("Items", unless_nil (make_each Backtest_DeepCopyInto)) ].
Definition BacktestList_DeepCopy : gval → H gval := DeepCopy BacktestList_DeepCopyInto.
Definition BacktestList_DeepCopyObject : gval → H gval := DeepCopyObject BacktestList_DeepCopy.

Definition BacktestResults_DeepCopyInto : gval → H gval := into [].
Definition BacktestResults_DeepCopy : gval → H gval := DeepCopy BacktestResults_DeepCopyInto.

Definition BotConfig_DeepCopyInto : gval → H gval := into
  [ ("DryRun", unless_nil new_value);
    ("DryRunWallet", unless_nil new_value);
    ("MaxOpenTrades", unless_nil new_value);
    ("DisableParamExport", unless_nil new_value);
    ("DisableDataframeChecks", unless_nil new_value) ].
Definition BotConfig_DeepCopy : gval → H gval := DeepCopy BotConfig_DeepCopyInto.

Definition BotStatus_DeepCopyInto : gval → H gval := into
  [ ("DryRun", unless_nil new_value);
    ("OpenTrades", unless_nil new_value);
    ("MaxOpenTrades", unless_nil new_value);
    ("LastPollTime", unless_nil (new_into (ext_copy "metav1.Time"))) ].
Definition BotStatus_DeepCopy : gval → H gval := DeepCopy BotStatus_DeepCopyInto.

Definition DataConfig_DeepCopyInto : gval → H gval := into
  [ ("NewPairsDaysAgo", unless_nil new_value);
    ("DownloadTrades", unless_nil new_value);
    ("MaxEntryPositionAdjustment", unless_nil new_value);
    ("AvailableCapital", unless_nil new_value);
    ("AmendLastStakeAmount", unless_nil new_value);
    ("LastStakeAmountMinRatio", unless_nil new_value);
    ("ProcessOnlyNewCandles", unless_nil new_value);
    ("AmountReservePercent", unless_nil new_value);
    ("ReduceDfFootprint", unless_nil new_value);
    ("CustomPriceMaxDistanceRatio", unless_nil new_value) ].
Definition DataConfig_DeepCopy : gval → H gval := DeepCopy DataConfig_DeepCopyInto.

Definition PairListSpec_DeepCopyInto : gval → H gval := into
  [ ("Pairs", unless_nil make_copy) ].
Definition PairListSpec_DeepCopy : gval → H gval := DeepCopy PairListSpec_DeepCopyInto.

Definition ExchangeSpec_DeepCopyInto : gval → H gval := into
  [ ("SecretRef", assign);
    ("CcxtConfig", ext_copy "apiextensionsv1.JSON");
    ("CcxtAsyncConfig", ext_copy "apiextensionsv1.JSON");
    ("CcxtSyncConfig", ext_copy "apiextensionsv1.JSON");
    ("Whitelist", unless_nil (new_into PairListSpec_DeepCopyInto));
    ("Blacklist", unless_nil (new_into PairListSpec_DeepCopyInto));
    ("LogResponses", unless_nil new_value);
    ("EnableWS", unless_nil new_value);
    ("UnknownFeeRate", unless_nil new_value);
    ("OutdatedOffset", unless_nil new_value);
    ("MarketRefreshInterval", unless_nil new_value) ].
Definition ExchangeSpec_DeepCopy : gval → H gval := DeepCopy ExchangeSpec_DeepCopyInto.

Definition ExperimentalConfig_DeepCopyInto : gval → H gval := into
  [ ("BlockBadExchanges", unless_nil new_value) ].
Definition ExperimentalConfig_DeepCopy : gval → H gval := DeepCopy ExperimentalConfig_DeepCopyInto.

Definition FUIngressSpec_DeepCopyInto : gval → H gval := into
  [ ("IngressClassName", unless_nil new_value);
    ("Rules", unless_nil (make_each (ext_copy "networkingv1.IngressRule")));
    ("TLS", unless_nil (make_each (ext_copy "networkingv1.IngressTLS")));
    ("DefaultBackend", unless_nil (new_into (ext_copy "networkingv1.IngressBackend")));
    ("Annotations", unless_nil make_map) ].
Definition FUIngressSpec_DeepCopy : gval → H gval := DeepCopy FUIngressSpec_DeepCopyInto.

Definition FUPodSpec_DeepCopyInto : gval → H gval := into
  [ ("Resources", ext_copy "corev1.ResourceRequirements");
    ("Env", unless_nil (make_each (ext_copy "corev1.EnvVar")));
    ("VolumeMounts", unless_nil (make_each (ext_copy "corev1.VolumeMount")));
    ("Volumes", unless_nil (make_each (ext_copy "corev1.Volume")));
    ("SecurityContext", unless_nil (new_into (ext_copy "corev1.PodSecurityContext")));
    ("InitContainers", unless_nil (make_each (ext_copy "corev1.Container")));
    ("ImagePullSecrets", unless_nil make_copy);
    ("LivenessProbe", unless_nil (new_into (ext_copy "corev1.Probe")));
    ("ReadinessProbe", unless_nil (new_into (ext_copy "corev1.Probe")));
    ("Affinity", unless_nil (new_into (ext_copy "corev1.Affinity")));
    ("AntiAffinity", unless_nil (new_into (ext_copy "corev1.PodAntiAffinity")));
    ("NodeSelector", unless_nil make_map);
    ("Tolerations", unless_nil (make_each (ext_copy "corev1.Toleration")));
    ("TopologySpreadConstraints", unless_nil (make_each (ext_copy "corev1.TopologySpreadConstraint")));
    ("Replicas", unless_nil new_value) ].
Definition FUPodSpec_DeepCopy : gval → H gval := DeepCopy FUPodSpec_DeepCopyInto.

Definition FUServiceSpec_DeepCopyInto : gval → H gval := into
  [ ("Ports", unless_nil (make_each (ext_copy "corev1.ServicePort")));
    ("Selector", unless_nil make_map);
    ("Annotations", unless_nil make_map);
    ("LoadBalancerSourceRanges", unless_nil make_copy) ].
Definition FUServiceSpec_DeepCopy : gval → H gval := DeepCopy FUServiceSpec_DeepCopyInto.

Definition FUAppConfig_DeepCopyInto : gval → H gval := into
  [ ("PodSpec", unless_nil (new_into FUPodSpec_DeepCopyInto));
    ("ServiceSpec", unless_nil (new_into FUServiceSpec_DeepCopyInto));
    ("IngressSpec", unless_nil (new_into FUIngressSpec_DeepCopyInto)) ].
Definition FUAppConfig_DeepCopy : gval → H gval := DeepCopy FUAppConfig_DeepCopyInto.

Definition FUGatewaySpec_DeepCopyInto : gval → H gval := into
  [ ("ParentRefs", unless_nil (make_each (ext_copy "gatewayv1.ParentReference")));
    ("Hostnames", unless_nil make_copy);
    ("Annotations", unless_nil make_map);
    ("Labels", unless_nil make_map) ].
Definition FUGatewaySpec_DeepCopy : gval → H gval := DeepCopy FUGatewaySpec_DeepCopyInto.

Definition Flow_DeepCopyInto : gval → H gval := into
  [ ("CacheSize", unless_nil new_value);
    ("MaxCandles", unless_nil new_value);
    ("Scale", unless_nil new_value);
    ("StackedImbalanceRange", unless_nil new_value);
    ("ImbalanceVolume", unless_nil new_value);
    ("ImbalanceRatio", unless_nil new_value) ].
Definition Flow_DeepCopy : gval → H gval := DeepCopy Flow_DeepCopyInto.

Definition FreqUISpec_DeepCopyInto : gval → H gval := into
  [ ("TLS", unless_nil (make_each (ext_copy "networkingv1.IngressTLS")));
    ("IngressAnnotations", unless_nil make_map);
    ("App", unless_nil (new_into FUAppConfig_DeepCopyInto));
    ("TradeBotRefs", unless_nil make_copy);
    ("Gateway", unless_nil (new_into FUGatewaySpec_DeepCopyInto)) ].
Definition FreqUISpec_DeepCopy : gval → H gval := DeepCopy FreqUISpec_DeepCopyInto.

Definition FreqUIStatus_DeepCopyInto : gval → H gval := into
  [ ("Conditions", unless_nil (make_each (ext_copy "metav1.Condition"))) ].
Definition FreqUIStatus_DeepCopy : gval → H gval := DeepCopy FreqUIStatus_DeepCopyInto.

Definition FreqUI_DeepCopyInto : gval → H gval := into
  [ ("TypeMeta", assign);
    ("ObjectMeta", ext_copy "metav1.ObjectMeta");
    ("Spec", FreqUISpec_DeepCopyInto);
    ("Status", FreqUIStatus_DeepCopyInto) ].
Definition FreqUI_DeepCopy : gval → H gval := DeepCopy FreqUI_DeepCopyInto.
Definition FreqUI_DeepCopyObject : gval → H gval := DeepCopyObject FreqUI_DeepCopy.

Definition FreqUIList_DeepCopyInto : gval → H gval := into
  [ ("TypeMeta", assign);
    ("ListMeta", ext_copy "metav1.ListMeta");
    ("Items", unless_nil (make_each FreqUI_DeepCopyInto)) ].
Definition FreqUIList_DeepCopy : gval → H gval := DeepCopy FreqUIList_DeepCopyInto.
Definition FreqUIList_DeepCopyObject : gval → H gval := DeepCopyObject FreqUIList_DeepCopy.

Definition InternalsConfig_DeepCopyInto : gval → H gval := into
  [ ("ProcessThrottleSecs", unless_nil new_value);
    ("Interval", unless_nil new_value);
    ("SdNotify", unless_nil new_value) ].
Definition InternalsConfig_DeepCopy : gval → H gval := DeepCopy InternalsConfig_DeepCopyInto.

Definition IntrospectionSpec_DeepCopyInto : gval → H gval := into
  [ ("Enabled", unless_nil new_value);
    ("Interval", assign) ].
Definition IntrospectionSpec_DeepCopy : gval → H gval := DeepCopy IntrospectionSpec_DeepCopyInto.

Definition LoggingConfig_DeepCopyInto : gval → H gval := into
  [ ("Version", unless_nil new_value) ].
Definition LoggingConfig_DeepCopy : gval → H gval := DeepCopy LoggingConfig_DeepCopyInto.

Definition ModelTrainingParameters_DeepCopyInto : gval → H gval := into [].
Definition ModelTrainingParameters_DeepCopy : gval → H gval := DeepCopy ModelTrainingParameters_DeepCopyInto.

Definition NotificationDiscord_DeepCopyInto : gval → H gval := into
  [ ("Enabled", unless_nil new_value);
    ("ExitFill", unless_nil (make_each (unless_nil make_map)));
    ("EntryFill", unless_nil (make_each (unless_nil make_map))) ].
Definition NotificationDiscord_DeepCopy : gval → H gval := DeepCopy NotificationDiscord_DeepCopyInto.

Definition NotificationTelegram_DeepCopyInto : gval → H gval := into
  [ ("Enabled", unless_nil new_value);
    ("SecretRef", assign);
    ("BalanceDustLevel", unless_nil new_value);
    ("Reload", unless_nil new_value);
    ("AllowCustomMessages", unless_nil new_value);
    ("AuthorizedUsers", unless_nil make_copy);
    ("Settings", unless_nil new_value) ].
Definition NotificationTelegram_DeepCopy : gval → H gval := DeepCopy NotificationTelegram_DeepCopyInto.

Definition NotificationWebhook_DeepCopyInto : gval → H gval := into
  [ ("Enabled", unless_nil new_value);
    ("AllowCustomMessages", unless_nil new_value) ].
Definition NotificationWebhook_DeepCopy : gval → H gval := DeepCopy NotificationWebhook_DeepCopyInto.

Definition NotificationSpec_DeepCopyInto : gval → H gval := into
  [ ("Telegram", unless_nil (new_into NotificationTelegram_DeepCopyInto));
    ("Webhook", unless_nil (new_into NotificationWebhook_DeepCopyInto));
    ("Discord", unless_nil (new_into NotificationDiscord_DeepCopyInto)) ].
Definition NotificationSpec_DeepCopy : gval → H gval := DeepCopy NotificationSpec_DeepCopyInto.

Definition NotificationTelegramSettings_DeepCopyInto : gval → H gval := into [].
Definition NotificationTelegramSettings_DeepCopy : gval → H gval := DeepCopy NotificationTelegramSettings_DeepCopyInto.

Definition Types_DeepCopyInto : gval → H gval := into
  [ ("StoplossOnExchange", unless_nil new_value);
    ("StoplossOnExchangeInterval", unless_nil new_value);
    ("StoplossOnExchangeLimitRatio", unless_nil new_value) ].
Definition Types_DeepCopy : gval → H gval := DeepCopy Types_DeepCopyInto.

Definition OrderSpec_DeepCopyInto : gval → H gval := into
  [ ("Types", unless_nil (new_into Types_DeepCopyInto));
    ("TimeInForce", unless_nil new_value);
    ("Flow", unless_nil (new_into Flow_DeepCopyInto)) ].
Definition OrderSpec_DeepCopy : gval → H gval := DeepCopy OrderSpec_DeepCopyInto.

Definition PVCSpec_DeepCopyInto : gval → H gval := into
  [ ("AccessModes", unless_nil make_copy);
    ("StorageSize", unless_nil (new_into (ext_copy "resource.Quantity")));
    ("Annotations", unless_nil make_map);
    ("Labels", unless_nil make_map);
    ("FixVolumePermissions", unless_nil new_value) ].
Definition PVCSpec_DeepCopy : gval → H gval := DeepCopy PVCSpec_DeepCopyInto.

Definition PairlistConfig_DeepCopyInto : gval → H gval := into
  [ ("NumberAssets", unless_nil new_value);
    ("RefreshPeriod", unless_nil new_value);
    ("LookbackPeriod", unless_nil new_value);
    ("LookbackDays", unless_nil new_value);
    ("MinChangeRate", unless_nil new_value);
    ("KeepPairlistOnFailure", unless_nil new_value);
    ("ReadTimeout", unless_nil new_value);
    ("MaxRank", unless_nil new_value);
    ("Categories", unless_nil make_copy);
    ("MinDaysListed", unless_nil new_value);
    ("MaxDaysListed", unless_nil new_value);
    ("MinPrice", unless_nil new_value);
    ("MaxPrice", unless_nil new_value);
    ("MaxSpreadRatio", unless_nil new_value);
    ("LookbackDaysRange", unless_nil new_value);
    ("MinRateOfChange", unless_nil new_value);
    ("MaxRateOfChange", unless_nil new_value);
    ("LookbackDaysVolatility", unless_nil new_value);
    ("MinVolatility", unless_nil new_value);
    ("MaxVolatility", unless_nil new_value);
    ("Offset", unless_nil new_value);
    ("Seed", unless_nil new_value);
    ("Minutes", unless_nil new_value);
    ("MinProfit", unless_nil new_value) ].
Definition PairlistConfig_DeepCopy : gval → H gval := DeepCopy PairlistConfig_DeepCopyInto.

Definition PairlistMethodsSpec_DeepCopyInto : gval → H gval := into
  [ ("Methods", unless_nil (make_each PairlistConfig_DeepCopyInto)) ].
Definition PairlistMethodsSpec_DeepCopy : gval → H gval := DeepCopy PairlistMethodsSpec_DeepCopyInto.

Definition PricingCheckDepthOfMarket_DeepCopyInto : gval → H gval := into
  [ ("Enabled", unless_nil new_value);
    ("BidsToAskDelta", unless_nil new_value) ].
Definition PricingCheckDepthOfMarket_DeepCopy : gval → H gval := DeepCopy PricingCheckDepthOfMarket_DeepCopyInto.

Definition PricingSpec_DeepCopyInto : gval → H gval := into
  [ ("PriceLastBalance", unless_nil new_value);
    ("UseOrderBook", unless_nil new_value);
    ("OrderBookTop", unless_nil new_value);
    ("CheckDepthOfMarket", unless_nil (new_into PricingCheckDepthOfMarket_DeepCopyInto)) ].
Definition PricingSpec_DeepCopy : gval → H gval := DeepCopy PricingSpec_DeepCopyInto.

Definition RiskManagementSpec_DeepCopyInto : gval → H gval := into
  [ ("MinimalROI", unless_nil (make_map_each (unless_nil new_value)));
    ("Stoploss", unless_nil new_value);
    ("TrailingStopPositive", unless_nil new_value);
    ("TrailingStopPositiveOffset", unless_nil new_value);
    ("ExitProfitOffset", unless_nil new_value);
    ("Fee", unless_nil new_value);
    ("IgnoreBuyingExpiredCandleAfter", unless_nil new_value);
    ("MinimumTradeAmount", unless_nil new_value);
    ("TargetedTradeAmount", unless_nil new_value);
    ("StartupCandle", unless_nil (new_into (unless_nil make_copy)));
    ("LiquidationBuffer", unless_nil new_value);
    ("BacktestBreakdown", unless_nil make_copy) ].
Definition RiskManagementSpec_DeepCopy : gval → H gval := DeepCopy RiskManagementSpec_DeepCopyInto.

Definition ServiceSpec_DeepCopyInto : gval → H gval := into
  [ ("Ports", unless_nil (make_each (ext_copy "corev1.ServicePort")));
    ("Selector", unless_nil make_map);
    ("Annotations", unless_nil make_map) ].
Definition ServiceSpec_DeepCopy : gval → H gval := DeepCopy ServiceSpec_DeepCopyInto.

Definition StrategyStatus_DeepCopyInto : gval → H gval := into
  [ ("Conditions", unless_nil (make_each (ext_copy "metav1.Condition"))) ].
Definition StrategyStatus_DeepCopy : gval → H gval := DeepCopy StrategyStatus_DeepCopyInto.

Definition Strategy_DeepCopyInto : gval → H gval := into
  [ ("TypeMeta", assign);
    ("ObjectMeta", ext_copy "metav1.ObjectMeta");
    ("Spec", assign);
    ("Status", StrategyStatus_DeepCopyInto) ].
Definition Strategy_DeepCopy : gval → H gval := DeepCopy Strategy_DeepCopyInto.
Definition Strategy_DeepCopyObject : gval → H gval := DeepCopyObject Strategy_DeepCopy.

Definition StrategyList_DeepCopyInto : gval → H gval := into
  [ ("TypeMeta", assign);
    ("ListMeta", ext_copy "metav1.ListMeta");
    ("Items", unless_nil (make_each Strategy_DeepCopyInto)) ].
Definition StrategyList_DeepCopy : gval → H gval := DeepCopy StrategyList_DeepCopyInto.
Definition StrategyList_DeepCopyObject : gval → H gval := DeepCopyObject StrategyList_DeepCopy.

Definition StrategySpec_DeepCopyInto : gval → H gval := into [].
Definition StrategySpec_DeepCopy : gval → H gval := DeepCopy StrategySpec_DeepCopyInto.

Definition TBNetworkPolicySpec_DeepCopyInto : gval → H gval := into
  [ ("ExtraPeers", unless_nil (make_each (ext_copy "networkingv1.NetworkPolicyPeer"))) ].
Definition TBNetworkPolicySpec_DeepCopy : gval → H gval := DeepCopy TBNetworkPolicySpec_DeepCopyInto.

Definition TradeBotPodSpec_DeepCopyInto : gval → H gval := into
  [ ("Resources", ext_copy "corev1.ResourceRequirements");
    ("Env", unless_nil (make_each (ext_copy "corev1.EnvVar")));
    ("VolumeMounts", unless_nil (make_each (ext_copy "corev1.VolumeMount")));
    ("Volumes", unless_nil (make_each (ext_copy "corev1.Volume")));
    ("SecurityContext", unless_nil (new_into (ext_copy "corev1.PodSecurityContext")));
    ("InitContainers", unless_nil (make_each (ext_copy "corev1.Container")));
    ("ImagePullSecrets", unless_nil make_copy);
    ("LivenessProbe", unless_nil (new_into (ext_copy "corev1.Probe")));
    ("ReadinessProbe", unless_nil (new_into (ext_copy "corev1.Probe")));
    ("Affinity", unless_nil (new_into (ext_copy "corev1.Affinity")));
    ("AntiAffinity", unless_nil (new_into (ext_copy "corev1.PodAntiAffinity")));
    ("NodeSelector", unless_nil make_map);
    ("Tolerations", unless_nil (make_each (ext_copy "corev1.Toleration")));
    ("TopologySpreadConstraints", unless_nil (make_each (ext_copy "corev1.TopologySpreadConstraint"))) ].
Definition TradeBotPodSpec_DeepCopy : gval → H gval := DeepCopy TradeBotPodSpec_DeepCopyInto.

Definition TBAppConfig_DeepCopyInto : gval → H gval := into
  [ ("PodSpec", unless_nil (new_into TradeBotPodSpec_DeepCopyInto));
    ("ServiceSpec", unless_nil (new_into ServiceSpec_DeepCopyInto));
    ("PVCSpec", unless_nil (new_into PVCSpec_DeepCopyInto));
    ("NetworkPolicySpec", unless_nil (new_into TBNetworkPolicySpec_DeepCopyInto)) ].
Definition TBAppConfig_DeepCopy : gval → H gval := DeepCopy TBAppConfig_DeepCopyInto.

Definition TimeInForce_DeepCopyInto : gval → H gval := into [].
Definition TimeInForce_DeepCopy : gval → H gval := DeepCopy TimeInForce_DeepCopyInto.

Definition TradeBotSpec_DeepCopyInto : gval → H gval := into
  [ ("ConfigRef", assign);
    ("StrategyRef", assign);
    ("App", unless_nil (new_into TBAppConfig_DeepCopyInto));
    ("Introspection", unless_nil (new_into IntrospectionSpec_DeepCopyInto)) ].
Definition TradeBotSpec_DeepCopy : gval → H gval := DeepCopy TradeBotSpec_DeepCopyInto.

Definition TradeBotStatus_DeepCopyInto : gval → H gval := into
  [ ("Conditions", unless_nil (make_each (ext_copy "metav1.Condition")));
    ("Bot", unless_nil (new_into BotStatus_DeepCopyInto)) ].
Definition TradeBotStatus_DeepCopy : gval → H gval := DeepCopy TradeBotStatus_DeepCopyInto.

Definition TradeBot_DeepCopyInto : gval → H gval := into
  [ ("TypeMeta", assign);
    ("ObjectMeta", ext_copy "metav1.ObjectMeta");
    ("Spec", TradeBotSpec_DeepCopyInto);
    ("Status", TradeBotStatus_DeepCopyInto) ].
Definition TradeBot_DeepCopy : gval → H gval := DeepCopy TradeBot_DeepCopyInto.
Definition TradeBot_DeepCopyObject : gval → H gval := DeepCopyObject TradeBot_DeepCopy.

Definition UnfilledTimeoutConfig_DeepCopyInto : gval → H gval := into
  [ ("Entry", unless_nil new_value);
    ("Exit", unless_nil new_value);
    ("ExitTimeoutCount", unless_nil new_value) ].
Definition UnfilledTimeoutConfig_DeepCopy : gval → H gval := DeepCopy UnfilledTimeoutConfig_DeepCopyInto.

Definition TradeBotConfigSpec_DeepCopyInto : gval → H gval := into
  [ ("Bot", unless_nil (new_into BotConfig_DeepCopyInto));
    ("AI", unless_nil (new_into AIConfig_DeepCopyInto));
    ("Data", unless_nil (new_into DataConfig_DeepCopyInto));
    ("Advanced", unless_nil (new_into AdvancedConfig_DeepCopyInto));
    ("Timeout", unless_nil (new_into UnfilledTimeoutConfig_DeepCopyInto));
    ("Internals", unless_nil (new_into InternalsConfig_DeepCopyInto));
    ("Exchange", unless_nil (new_into ExchangeSpec_DeepCopyInto));
    ("Pairlist", unless_nil (new_into PairListSpec_DeepCopyInto));
    ("PairlistMethod", unless_nil (new_into PairlistMethodsSpec_DeepCopyInto));
    ("EntryPricing", unless_nil (new_into PricingSpec_DeepCopyInto));
    ("ExitPricing", unless_nil (new_into PricingSpec_DeepCopyInto));
    ("Order", unless_nil (new_into OrderSpec_DeepCopyInto));
    ("RiskManagement", unless_nil (new_into RiskManagementSpec_DeepCopyInto));
    ("Notification", unless_nil (new_into NotificationSpec_DeepCopyInto));
    ("APIServer", unless_nil (new_into APIServerConfig_DeepCopyInto));
    ("Experimental", unless_nil (new_into ExperimentalConfig_DeepCopyInto));
    ("Logging", unless_nil (new_into LoggingConfig_DeepCopyInto)) ].
Definition TradeBotConfigSpec_DeepCopy : gval → H gval := DeepCopy TradeBotConfigSpec_DeepCopyInto.

Definition TradeBotConfigStatus_DeepCopyInto : gval → H gval := into
  [ ("Conditions", unless_nil (make_each (ext_copy "metav1.Condition"))) ].
Definition TradeBotConfigStatus_DeepCopy : gval → H gval := DeepCopy TradeBotConfigStatus_DeepCopyInto.

Definition TradeBotConfig_DeepCopyInto : gval → H gval := into
  [ ("TypeMeta", assign);
    ("ObjectMeta", ext_copy "metav1.ObjectMeta");
    ("Spec", TradeBotConfigSpec_DeepCopyInto);
    ("Status", TradeBotConfigStatus_DeepCopyInto) ].
Definition TradeBotConfig_DeepCopy : gval → H gval := DeepCopy TradeBotConfig_DeepCopyInto.
Definition TradeBotConfig_DeepCopyObject : gval → H gval := DeepCopyObject TradeBotConfig_DeepCopy.

Definition TradeBotConfigList_DeepCopyInto : gval → H gval := into
  [ ("TypeMeta", assign);
    ("ListMeta", ext_copy "metav1.ListMeta");
    ("Items", unless_nil (make_each TradeBotConfig_DeepCopyInto)) ].
Definition TradeBotConfigList_DeepCopy : gval → H gval := DeepCopy TradeBotConfigList_DeepCopyInto.
Definition TradeBotConfigList_DeepCopyObject : gval → H gval := DeepCopyObject TradeBotConfigList_DeepCopy.

Definition TradeBotList_DeepCopyInto : gval → H gval := into
  [ ("TypeMeta", assign);
    ("ListMeta", ext_copy "metav1.ListMeta");
    ("Items", unless_nil (make_each TradeBot_DeepCopyInto)) ].
Definition TradeBotList_DeepCopy : gval → H gval := DeepCopy TradeBotList_DeepCopyInto.
Definition TradeBotList_DeepCopyObject : gval → H gval := DeepCopyObject TradeBotList_DeepCopy.

(** ** Each is a deep copy *)

Lemma copies_beta_DataSplitParameters : Copies t_DataSplitParameters DataSplitParameters_DeepCopyInto.
Proof. copies_struct. Qed.
#[local] Hint Resolve copies_beta_DataSplitParameters : copies.

Lemma copies_beta_SVMParams : Copies t_SVMParams SVMParams_DeepCopyInto.
Proof. copies_struct. Qed.
#[local] Hint Resolve copies_beta_SVMParams : copies.

Lemma copies_beta_FeatureParameters : Copies t_FeatureParameters FeatureParameters_DeepCopyInto.
Proof. copies_struct. Qed.
#[local] Hint Resolve copies_beta_FeatureParameters : copies.

Lemma copies_beta_ModelRewardParameters : Copies t_ModelRewardParameters ModelRewardParameters_DeepCopyInto.
Proof. copies_struct. Qed.
#[local] Hint Resolve copies_beta_ModelRewardParameters : copies.

Lemma copies_beta_RLConfig : Copies t_RLConfig RLConfig_DeepCopyInto.
Proof. copies_struct. Qed.
#[local] Hint Resolve copies_beta_RLConfig : copies.

Lemma copies_beta_AIConfig : Copies t_AIConfig AIConfig_DeepCopyInto.
Proof. copies_struct. Qed.
#[local] Hint Resolve copies_beta_AIConfig : copies.

Lemma copies_beta_APIServerConfig : Copies t_APIServerConfig APIServerConfig_DeepCopyInto.
Proof. copies_struct. Qed.
#[local] Hint Resolve copies_beta_APIServerConfig : copies.

Lemma copies_beta_AdvancedConfig : Copies t_AdvancedConfig AdvancedConfig_DeepCopyInto.
Proof. copies_struct. Qed.
#[local] Hint Resolve copies_beta_AdvancedConfig : copies.

Lemma copies_beta_DataSourceSpec : Copies t_DataSourceSpec DataSourceSpec_DeepCopyInto.
Proof. copies_struct. Qed.
#[local] Hint Resolve copies_beta_DataSourceSpec : copies.

Lemma copies_beta_PodSpec : Copies t_PodSpec PodSpec_DeepCopyInto.
Proof. copies_struct. Qed.
#[local] Hint Resolve copies_beta_PodSpec : copies.

Lemma copies_beta_ResultsSpec : Copies t_ResultsSpec ResultsSpec_DeepCopyInto.
Proof. copies_struct. Qed.
#[local] Hint Resolve copies_beta_ResultsSpec : copies.

Lemma copies_beta_RunSpec : Copies t_RunSpec RunSpec_DeepCopyInto.
Proof. copies_struct. Qed.
#[local] Hint Resolve copies_beta_RunSpec : copies.

Lemma copies_beta_BacktestSpec : Copies t_BacktestSpec BacktestSpec_DeepCopyInto.
Proof. copies_struct. Qed.
#[local] Hint Resolve copies_beta_BacktestSpec : copies.

Lemma copies_beta_BacktestStatus : Copies t_BacktestStatus BacktestStatus_DeepCopyInto.
Proof. copies_struct. Qed.
#[local] Hint Resolve copies_beta_BacktestStatus : copies.

Lemma copies_beta_Backtest : Copies t_Backtest Backtest_DeepCopyInto.
Proof. copies_struct. Qed.
#[local] Hint Resolve copies_beta_Backtest : copies.

Lemma copies_beta_BacktestList : Copies t_BacktestList BacktestList_DeepCopyInto.
Proof. copies_struct. Qed.
#[local] Hint Resolve copies_beta_BacktestList : copies.

Lemma copies_beta_BacktestResults : Copies t_BacktestResults BacktestResults_DeepCopyInto.
Proof. copies_struct. Qed.
#[local] Hint Resolve copies_beta_BacktestResults : copies.

Lemma copies_beta_BotConfig : Copies t_BotConfig BotConfig_DeepCopyInto.
Proof. copies_struct. Qed.
#[local] Hint Resolve copies_beta_BotConfig : copies.

Lemma copies_beta_BotStatus : Copies t_BotStatus BotStatus_DeepCopyInto.
Proof. copies_struct. Qed.
#[local] Hint Resolve copies_beta_BotStatus : copies.

Lemma copies_beta_DataConfig : Copies t_DataConfig DataConfig_DeepCopyInto.
Proof. copies_struct. Qed.
#[local] Hint Resolve copies_beta_DataConfig : copies.

Lemma copies_beta_PairListSpec : Copies t_PairListSpec PairListSpec_DeepCopyInto.
Proof. copies_struct. Qed.
#[local] Hint Resolve copies_beta_PairListSpec : copies.

Lemma copies_beta_ExchangeSpec : Copies t_ExchangeSpec ExchangeSpec_DeepCopyInto.
Proof. copies_struct. Qed.
#[local] Hint Resolve copies_beta_ExchangeSpec : copies.

Lemma copies_beta_ExperimentalConfig : Copies t_ExperimentalConfig ExperimentalConfig_DeepCopyInto.
Proof. copies_struct. Qed.
#[local] Hint Resolve copies_beta_ExperimentalConfig : copies.

Lemma copies_beta_FUIngressSpec : Copies t_FUIngressSpec FUIngressSpec_DeepCopyInto.
Proof. copies_struct. Qed.
#[local] Hint Resolve copies_beta_FUIngressSpec : copies.

Lemma copies_beta_FUPodSpec : Copies t_FUPodSpec FUPodSpec_DeepCopyInto.
Proof. copies_struct. Qed.
#[local] Hint Resolve copies_beta_FUPodSpec : copies.

Lemma copies_beta_FUServiceSpec : Copies t_FUServiceSpec FUServiceSpec_DeepCopyInto.
Proof. copies_struct. Qed.
#[local] Hint Resolve copies_beta_FUServiceSpec : copies.

Lemma copies_beta_FUAppConfig : Copies t_FUAppConfig FUAppConfig_DeepCopyInto.
Proof. copies_struct. Qed.
#[local] Hint Resolve copies_beta_FUAppConfig : copies.

Lemma copies_beta_FUGatewaySpec : Copies t_FUGatewaySpec FUGatewaySpec_DeepCopyInto.
Proof. copies_struct. Qed.
#[local] Hint Resolve copies_beta_FUGatewaySpec : copies.

Lemma copies_beta_Flow : Copies t_Flow Flow_DeepCopyInto.
Proof. copies_struct. Qed.
#[local] Hint Resolve copies_beta_Flow : copies.

Lemma copies_beta_FreqUISpec : Copies t_FreqUISpec FreqUISpec_DeepCopyInto.
Proof. copies_struct. Qed.
#[local] Hint Resolve copies_beta_FreqUISpec : copies.

Lemma copies_beta_FreqUIStatus : Copies t_FreqUIStatus FreqUIStatus_DeepCopyInto.
Proof. copies_struct. Qed.
#[local] Hint Resolve copies_beta_FreqUIStatus : copies.

Lemma copies_beta_FreqUI : Copies t_FreqUI FreqUI_DeepCopyInto.
Proof. copies_struct. Qed.
#[local] Hint Resolve copies_beta_FreqUI : copies.

Lemma copies_beta_FreqUIList : Copies t_FreqUIList FreqUIList_DeepCopyInto.
Proof. copies_struct. Qed.
#[local] Hint Resolve copies_beta_FreqUIList : copies.

Lemma copies_beta_InternalsConfig : Copies t_InternalsConfig InternalsConfig_DeepCopyInto.
Proof. copies_struct. Qed.
#[local] Hint Resolve copies_beta_InternalsConfig : copies.

Lemma copies_beta_IntrospectionSpec : Copies t_IntrospectionSpec IntrospectionSpec_DeepCopyInto.
Proof. copies_struct. Qed.
#[local] Hint Resolve copies_beta_IntrospectionSpec : copies.

Lemma copies_beta_LoggingConfig : Copies t_LoggingConfig LoggingConfig_DeepCopyInto.
Proof. copies_struct. Qed.
#[local] Hint Resolve copies_beta_LoggingConfig : copies.

Lemma copies_beta_ModelTrainingParameters : Copies t_ModelTrainingParameters ModelTrainingParameters_DeepCopyInto.
Proof. copies_struct. Qed.
#[local] Hint Resolve copies_beta_ModelTrainingParameters : copies.

Lemma copies_beta_NotificationDiscord : Copies t_NotificationDiscord NotificationDiscord_DeepCopyInto.
Proof. copies_struct. Qed.
#[local] Hint Resolve copies_beta_NotificationDiscord : copies.

Lemma copies_beta_NotificationTelegram : Copies t_NotificationTelegram NotificationTelegram_DeepCopyInto.
Proof. copies_struct. Qed.
#[local] Hint Resolve copies_beta_NotificationTelegram : copies.

Lemma copies_beta_NotificationWebhook : Copies t_NotificationWebhook NotificationWebhook_DeepCopyInto.
Proof. copies_struct. Qed.
#[local] Hint Resolve copies_beta_NotificationWebhook : copies.

Lemma copies_beta_NotificationSpec : Copies t_NotificationSpec NotificationSpec_DeepCopyInto.
Proof. copies_struct. Qed.
#[local] Hint Resolve copies_beta_NotificationSpec : copies.

Lemma copies_beta_NotificationTelegramSettings : Copies t_NotificationTelegramSettings NotificationTelegramSettings_DeepCopyInto.
Proof. copies_struct. Qed.
#[local] Hint Resolve copies_beta_NotificationTelegramSettings : copies.

Lemma copies_beta_Types : Copies t_Types Types_DeepCopyInto.
Proof. copies_struct. Qed.
#[local] Hint Resolve copies_beta_Types : copies.

Lemma copies_beta_OrderSpec : Copies t_OrderSpec OrderSpec_DeepCopyInto.
Proof. copies_struct. Qed.
#[local] Hint Resolve copies_beta_OrderSpec : copies.

Lemma copies_beta_PVCSpec : Copies t_PVCSpec PVCSpec_DeepCopyInto.
Proof. copies_struct. Qed.
#[local] Hint Resolve copies_beta_PVCSpec : copies.

Lemma copies_beta_PairlistConfig : Copies t_PairlistConfig PairlistConfig_DeepCopyInto.
Proof. copies_struct. Qed.
#[local] Hint Resolve copies_beta_PairlistConfig : copies.

Lemma copies_beta_PairlistMethodsSpec : Copies t_PairlistMethodsSpec PairlistMethodsSpec_DeepCopyInto.
Proof. copies_struct. Qed.
#[local] Hint Resolve copies_beta_PairlistMethodsSpec : copies.

Lemma copies_beta_PricingCheckDepthOfMarket : Copies t_PricingCheckDepthOfMarket PricingCheckDepthOfMarket_DeepCopyInto.
Proof. copies_struct. Qed.
#[local] Hint Resolve copies_beta_PricingCheckDepthOfMarket : copies.

Lemma copies_beta_PricingSpec : Copies t_PricingSpec PricingSpec_DeepCopyInto.
Proof. copies_struct. Qed.
#[local] Hint Resolve copies_beta_PricingSpec : copies.

Lemma copies_beta_RiskManagementSpec : Copies t_RiskManagementSpec RiskManagementSpec_DeepCopyInto.
Proof. copies_struct. Qed.
#[local] Hint Resolve copies_beta_RiskManagementSpec : copies.

Lemma copies_beta_ServiceSpec : Copies t_ServiceSpec ServiceSpec_DeepCopyInto.
Proof. copies_struct. Qed.
#[local] Hint Resolve copies_beta_ServiceSpec : copies.

Lemma copies_beta_StrategyStatus : Copies t_StrategyStatus StrategyStatus_DeepCopyInto.
Proof. copies_struct. Qed.
#[local] Hint Resolve copies_beta_StrategyStatus : copies.

Lemma copies_beta_Strategy : Copies t_Strategy Strategy_DeepCopyInto.
Proof. copies_struct. Qed.
#[local] Hint Resolve copies_beta_Strategy : copies.

Lemma copies_beta_StrategyList : Copies t_StrategyList StrategyList_DeepCopyInto.
Proof. copies_struct. Qed.
#[local] Hint Resolve copies_beta_StrategyList : copies.

Lemma copies_beta_StrategySpec : Copies t_StrategySpec StrategySpec_DeepCopyInto.
Proof. copies_struct. Qed.
#[local] Hint Resolve copies_beta_StrategySpec : copies.

Lemma copies_beta_TBNetworkPolicySpec : Copies t_TBNetworkPolicySpec TBNetworkPolicySpec_DeepCopyInto.
Proof. copies_struct. Qed.
#[local] Hint Resolve copies_beta_TBNetworkPolicySpec : copies.

Lemma copies_beta_TradeBotPodSpec : Copies t_TradeBotPodSpec TradeBotPodSpec_DeepCopyInto.
Proof. copies_struct. Qed.
#[local] Hint Resolve copies_beta_TradeBotPodSpec : copies.

Lemma copies_beta_TBAppConfig : Copies t_TBAppConfig TBAppConfig_DeepCopyInto.
Proof. copies_struct. Qed.
#[local] Hint Resolve copies_beta_TBAppConfig : copies.

Lemma copies_beta_TimeInForce : Copies t_TimeInForce TimeInForce_DeepCopyInto.
Proof. copies_struct. Qed.
#[local] Hint Resolve copies_beta_TimeInForce : copies.

Lemma copies_beta_TradeBotSpec : Copies t_TradeBotSpec TradeBotSpec_DeepCopyInto.
Proof. copies_struct. Qed.
#[local] Hint Resolve copies_beta_TradeBotSpec : copies.

Lemma copies_beta_TradeBotStatus : Copies t_TradeBotStatus TradeBotStatus_DeepCopyInto.
Proof. copies_struct. Qed.
#[local] Hint Resolve copies_beta_TradeBotStatus : copies.

Lemma copies_beta_TradeBot : Copies t_TradeBot TradeBot_DeepCopyInto.
Proof. copies_struct. Qed.
#[local] Hint Resolve copies_beta_TradeBot : copies.

Lemma copies_beta_UnfilledTimeoutConfig : Copies t_UnfilledTimeoutConfig UnfilledTimeoutConfig_DeepCopyInto.
Proof. copies_struct. Qed.
#[local] Hint Resolve copies_beta_UnfilledTimeoutConfig : copies.

Lemma copies_beta_TradeBotConfigSpec : Copies t_TradeBotConfigSpec TradeBotConfigSpec_DeepCopyInto.
Proof. copies_struct. Qed.
#[local] Hint Resolve copies_beta_TradeBotConfigSpec : copies.

Lemma copies_beta_TradeBotConfigStatus : Copies t_TradeBotConfigStatus TradeBotConfigStatus_DeepCopyInto.
Proof. copies_struct. Qed.
#[local] Hint Resolve copies_beta_TradeBotConfigStatus : copies.

Lemma copies_beta_TradeBotConfig : Copies t_TradeBotConfig TradeBotConfig_DeepCopyInto.
Proof. copies_struct. Qed.
#[local] Hint Resolve copies_beta_TradeBotConfig : copies.

Lemma copies_beta_TradeBotConfigList : Copies t_TradeBotConfigList TradeBotConfigList_DeepCopyInto.
Proof. copies_struct. Qed.
#[local] Hint Resolve copies_beta_TradeBotConfigList : copies.

Lemma copies_beta_TradeBotList : Copies t_TradeBotList TradeBotList_DeepCopyInto.
Proof. copies_struct. Qed.
#[local] Hint Resolve copies_beta_TradeBotList : copies.

(** The objects of the scheme, by way of DeepCopyObject. *)
Lemma copies_beta_Backtest_object : Copies (TPtr t_Backtest) Backtest_DeepCopyObject.
Proof. apply DeepCopyObject_copies, DeepCopy_copies, copies_beta_Backtest. Qed.

Lemma copies_beta_BacktestList_object : Copies (TPtr t_BacktestList) BacktestList_DeepCopyObject.
Proof. apply DeepCopyObject_copies, DeepCopy_copies, copies_beta_BacktestList. Qed.

Lemma copies_beta_FreqUI_object : Copies (TPtr t_FreqUI) FreqUI_DeepCopyObject.
Proof. apply DeepCopyObject_copies, DeepCopy_copies, copies_beta_FreqUI. Qed.

Lemma copies_beta_FreqUIList_object : Copies (TPtr t_FreqUIList) FreqUIList_DeepCopyObject.
Proof. apply DeepCopyObject_copies, DeepCopy_copies, copies_beta_FreqUIList. Qed.

Lemma copies_beta_Strategy_object : Copies (TPtr t_Strategy) Strategy_DeepCopyObject.
Proof. apply DeepCopyObject_copies, DeepCopy_copies, copies_beta_Strategy. Qed.

Lemma copies_beta_StrategyList_object : Copies (TPtr t_StrategyList) StrategyList_DeepCopyObject.
Proof. apply DeepCopyObject_copies, DeepCopy_copies, copies_beta_StrategyList. Qed.

Lemma copies_beta_TradeBot_object : Copies (TPtr t_TradeBot) TradeBot_DeepCopyObject.
Proof. apply DeepCopyObject_copies, DeepCopy_copies, copies_beta_TradeBot. Qed.

Lemma copies_beta_TradeBotConfig_object : Copies (TPtr t_TradeBotConfig) TradeBotConfig_DeepCopyObject.
Proof. apply DeepCopyObject_copies, DeepCopy_copies, copies_beta_TradeBotConfig. Qed.

Lemma copies_beta_TradeBotConfigList_object : Copies (TPtr t_TradeBotConfigList) TradeBotConfigList_DeepCopyObject.
Proof. apply DeepCopyObject_copies, DeepCopy_copies, copies_beta_TradeBotConfigList. Qed.

Lemma copies_beta_TradeBotList_object : Copies (TPtr t_TradeBotList) TradeBotList_DeepCopyObject.
Proof. apply DeepCopyObject_copies, DeepCopy_copies, copies_beta_TradeBotList. Qed.

End DeepCopies.
