(* ===== verification/Prog.v ===== *)
(** * Effectful Go code as finite trees of calls

    A reconciler, a webhook or the poller is a sequential program that calls
    out - to the Kubernetes API server, to a bot's REST API, to the clock, to
    the file system - and goes on with the answer.  [Prog C A] is such a
    program: a tree whose nodes are the calls (of the signature [C], a call of
    type [C X] being answered by an [X]) and whose branches are all answers.
    Nothing is assumed about the environment: a theorem about a program
    quantifies over every answer to every call.

    - [wp p h Q]: every execution of [p] after the history [h] ends in a
      result and a history that satisfy [Q];
    - [emits P p]: every call [p] can make, whatever it is answered, is in [P];
    - [run handler p s]: execution against a concrete environment, used by the
      examples and witnesses; [wp_run] connects it with [wp]. *)

From S2P Require Import Prelude.

Inductive Prog (C : Type → Type) (A : Type) : Type :=
  | Ret (a : A)
  | Vis {X : Type} (c : C X) (k : X → Prog C A).
Arguments Ret {C A} a.
Arguments Vis {C A X} c k.

Fixpoint prog_bind {C A B} (f : A → Prog C B) (p : Prog C A) : Prog C B :=
  match p with
  | Ret a => f a
  | Vis c k => Vis c (fun x => prog_bind f (k x))
  end.

#[export] Instance prog_ret {C} : MRet (Prog C) := fun A a => Ret a.
#[export] Instance prog_mbind {C} : MBind (Prog C) := fun A B f p => prog_bind f p.

(** One call. *)
Definition trigger {C X} (c : C X) : Prog C X := Vis c Ret.

(** An answered call. *)
Inductive event (C : Type → Type) : Type := | Ev {X : Type} (c : C X) (x : X).
Arguments Ev {C X} c x.

Abbreviation history C := (list (event C)).

Section Logic.
Context {C : Type → Type}.

Fixpoint wp {A} (p : Prog C A) (h : history C) (Q : history C → A → Prop) : Prop :=
  match p with
  | Ret a => Q h a
  | Vis c k => ∀ x, wp (k x) (h ++ [Ev c x]) Q
  end.

Lemma wp_mono {A} (p : Prog C A) h (Q Q' : history C → A → Prop) :
  (∀ h' a, Q h' a → Q' h' a) → wp p h Q → wp p h Q'.
Proof. intros HQ; revert h; induction p as [a|X c k IH]; intros h Hp; cbn; [by apply HQ|eauto]. Qed.

Lemma wp_bind {A B} (p : Prog C A) (f : A → Prog C B) h Q :
  wp (p ≫= f) h Q ↔ wp p h (fun h' a => wp (f a) h' Q).
Proof.
  revert h; induction p as [a|X c k IH]; intros h; [done|].
  cbn. split; intros H x; by apply IH, H.
Qed.

(** The rule of consequence for a sequence: a specification of the first
    program, then the rest from any result that satisfies it. *)
Lemma wp_seq {A B} (p : Prog C A) (f : A → Prog C B) h R Q :
  wp p h R → (∀ h' a, R h' a → wp (f a) h' Q) → wp (p ≫= f) h Q.
Proof. intros Hp Hf. apply wp_bind. eapply wp_mono; [|done]. auto. Qed.

Lemma wp_conj {A} (p : Prog C A) h Q R :
  wp p h Q → wp p h R → wp p h (fun h' a => Q h' a ∧ R h' a).
Proof. revert h; induction p as [a|X c k IH]; cbn; eauto. Qed.

(** A conditional specification. *)
Lemma wp_pending {A} (P : Prop) (p : Prog C A) h Q :
  (P → wp p h Q) → wp p h (fun h' a => P → Q h' a).
Proof.
  revert h; induction p as [a|X c k IH]; intros h Hp; cbn; [exact Hp|].
  intros x. apply IH. intros HP. by apply (Hp HP).
Qed.

(** Executions only extend the history. *)
Lemma wp_extends {A} (p : Prog C A) h : wp p h (fun h' _ => h `prefix_of` h').
Proof.
  revert h; induction p as [a|X c k IH]; intros h; cbn; [done|].
  intros x. eapply wp_mono; [|apply IH]. intros h' a' Hp.
  by apply prefix_app_l in Hp.
Qed.

(** A program's executions do not depend on what happened before it. *)
Lemma wp_frame {A} (p : Prog C A) h Q :
  wp p [] (fun h' a => Q (h ++ h') a) ↔ wp p h Q.
Proof.
  enough (∀ h0, wp p h0 (fun h' a => Q (h ++ h') a) ↔ wp p (h ++ h0) Q) as Hg.
  { rewrite Hg. by rewrite app_nil_r. }
  induction p as [a|X c k IH]; intros h0; cbn; [done|].
  split; intros H x; specialize (H x); rewrite IH in *; by rewrite <- app_assoc in *.
Qed.

Fixpoint emits {A} (P : ∀ X, C X → Prop) (p : Prog C A) : Prop :=
  match p with
  | Ret _ => True
  | Vis c k => P _ c ∧ ∀ x, emits P (k x)
  end.

Lemma emits_bind {A B} P (p : Prog C A) (f : A → Prog C B) :
  emits P p → (∀ a, emits P (f a)) → emits P (p ≫= f).
Proof. intros Hp Hf; induction p as [a|X c k IH]; cbn; [done|]. destruct Hp; eauto. Qed.

Lemma emits_mono {A} (P P' : ∀ X, C X → Prop) (p : Prog C A) :
  (∀ X c, P X c → P' X c) → emits P p → emits P' p.
Proof. intros HP; induction p as [a|X c k IH]; cbn; [done|]. intros []; eauto. Qed.

Lemma emits_trigger P {X} (c : C X) : P X c → emits P (trigger c).
Proof. done. Qed.

(** [emits] speaks of the whole history of every execution. *)
Definition ev_sat (P : ∀ X, C X → Prop) (e : event C) : Prop :=
  match e with Ev c _ => P _ c end.

Lemma emits_wp {A} P (p : Prog C A) :
  emits P p → wp p [] (fun h _ => Forall (ev_sat P) h).
Proof.
  enough (∀ h, Forall (ev_sat P) h → emits P p → wp p h (fun h' _ => Forall (ev_sat P) h')) by auto.
  induction p as [a|X c k IH]; intros h Hh Hp; cbn; [done|].
  destruct Hp as [Hc Hk]. intros x. apply IH; [|done].
  apply Forall_app; split; [done|by constructor].
Qed.

Lemma emits_wp_app {A} P (p : Prog C A) h :
  emits P p → wp p h (fun h' _ => ∃ h1, h' = h ++ h1 ∧ Forall (ev_sat P) h1).
Proof. intros Hp. apply wp_frame. eapply wp_mono; [|by apply emits_wp]. intros h1 a Hh. by exists h1. Qed.

(** Every call a program can make, with the history it is made in. *)
Fixpoint emits_after {A} (P : history C → ∀ X, C X → Prop) (p : Prog C A) (h : history C) : Prop :=
  match p with
  | Ret _ => True
  | Vis c k => P h _ c ∧ ∀ x, emits_after P (k x) (h ++ [Ev c x])
  end.

Lemma emits_after_bind {A B} P (p : Prog C A) (f : A → Prog C B) h :
  emits_after P p h → wp p h (fun h' a => emits_after P (f a) h') → emits_after P (p ≫= f) h.
Proof.
  revert h; induction p as [a|X c k IH]; intros h Hp Hf; cbn; [done|]. destruct Hp as [Hc Hk].
  split; [done|]. intros x. by apply IH.
Qed.

(** ** Invariants of the history *)

Definition preserves {A} (I : history C → Prop) (p : Prog C A) : Prop := ∀ h, I h → wp p h (fun h' _ => I h').

Lemma preserves_bind {A B} I (p : Prog C A) (f : A → Prog C B) :
  preserves I p → (∀ a, preserves I (f a)) → preserves I (p ≫= f).
Proof. intros Hp Hf h Hh. apply wp_bind. eapply wp_mono; [|by apply Hp]. intros h' a Hh'. by apply Hf. Qed.

Lemma preserves_emits {A} (I : history C → Prop) (P : ∀ X, C X → Prop) (p : Prog C A) :
  (∀ X c (x : X) h, P _ c → I h → I (h ++ [Ev c x])) → emits P p → preserves I p.
Proof.
  intros HP. induction p as [a|X c k IH]; intros Hp h Hh; cbn; [done|].
  destruct Hp as [Hc Hk]. intros x. apply IH; auto.
Qed.

(** ** Execution *)

Section Run.
Context {S : Type} (handler : ∀ X, C X → S → X * S).

Fixpoint run {A} (p : Prog C A) (s : S) (h : history C) : A * S * history C :=
  match p with
  | Ret a => (a, s, h)
  | Vis c k => let '(x, s') := handler _ c s in run (k x) s' (h ++ [Ev c x])
  end.

Lemma wp_run {A} (p : Prog C A) s h Q :
  wp p h Q → Q (run p s h).2 (run p s h).1.1.
Proof.
  revert s h; induction p as [a|X c k IH]; intros s h Hp; cbn; [done|].
  destruct (handler X c s) as [x s']. apply IH, Hp.
Qed.
End Run.
End Logic.

(** ** Combinators of the error-returning style

    [f >>=? k] is [v, err := f(); if err != nil { return ..., err }]. *)

Definition bind_ok {C A B} (p : Prog C (result A)) (f : A → Prog C (result B)) : Prog C (result B) :=
  p ≫= fun r => match r with Ok a => f a | Err e => Ret (Err e) end.

Notation "x <-? p ; q" := (bind_ok p (fun x => q))
  (at level 100, p at level 60, q at level 200, right associativity) : go_scope.

(** [bind_ok] whose error is wrapped, [fmt.Errorf("<pre>: %w", err)]. *)
Definition wrapping {C A} (pre : string) (p : Prog C (result A)) : Prog C (result A) :=
  p ≫= fun r => Ret (wrap_err pre r).

Section BindOk.
Context {C : Type → Type}.

Lemma wp_bind_ok {A B} (p : Prog C (result A)) (f : A → Prog C (result B)) h Q :
  wp (bind_ok p f) h Q ↔
  wp p h (fun h' r => match r with Ok a => wp (f a) h' Q | Err e => Q h' (Err e) end).
Proof.
  unfold bind_ok. rewrite wp_bind.
  split; apply wp_mono; intros h' [a|e]; done.
Qed.

Lemma bind_ok_ret {A B} (a : A) (f : A → Prog C (result B)) : bind_ok (mret (Ok a)) f = f a.
Proof. done. Qed.

Lemma bind_err_ret {A B} e (f : A → Prog C (result B)) : bind_ok (mret (Err e)) f = mret (Err e).
Proof. done. Qed.

(** The rule for a sequence of fallible steps. *)
Lemma wp_seq_ok {A B} (p : Prog C (result A)) (f : A → Prog C (result B)) h R Q :
  wp p h R → (∀ h' a, h `prefix_of` h' → R h' (Ok a) → wp (f a) h' Q) →
  (∀ h' e, R h' (Err e) → Q h' (Err e)) → wp (bind_ok p f) h Q.
Proof.
  intros Hp Hf He. apply wp_bind_ok. eapply wp_mono; [|apply (wp_conj _ _ _ _ Hp (wp_extends p h))].
  cbn. intros h' [a|e] [HR Hpre]; [by apply Hf|by apply He].
Qed.

Lemma wp_wrapping {A} pre (p : Prog C (result A)) h Q :
  wp (wrapping pre p) h Q ↔ wp p h (fun h' r => Q h' (wrap_err pre r)).
Proof. unfold wrapping. by rewrite wp_bind. Qed.

Lemma emits_bind_ok {A B} P (p : Prog C (result A)) (f : A → Prog C (result B)) :
  emits P p → (∀ a, emits P (f a)) → emits P (bind_ok p f).
Proof. intros Hp Hf. apply emits_bind; [done|]. intros [a|e]; cbn; auto. Qed.

Lemma emits_wrapping {A} P pre (p : Prog C (result A)) : emits P p → emits P (wrapping pre p).
Proof. intros. apply emits_bind; done. Qed.
End BindOk.

Lemma preserves_bind_ok {C : Type → Type} {A B} I (p : Prog C (result A)) (f : A → Prog C (result B)) :
  preserves I p → (∀ a, preserves I (f a)) → preserves I (bind_ok p f).
Proof. intros Hp Hf. apply preserves_bind; [done|]. intros [a|e]; [apply Hf|by intros h]. Qed.

(** ** Programs in an environment that behaves

    [fine P p h Q]: [p], run after [h], ends in [Q] if the history it ends
    with is one of [P] - that the environment has behaved -, which holds of
    the prefixes of such a history as well. *)

Lemma asked {C : Type → Type} {X} (h : history C) (c : C X) x : Ev c x ∈ h ++ [Ev c x].
Proof. apply elem_of_app. right. by left. Qed.

Section Fine.
Context {C : Type → Type} (P : history C → Prop) (Hprefix : ∀ h h', h `prefix_of` h' → P h' → P h).

Definition fine {A} (p : Prog C A) (h : history C) (Q : history C → A → Prop) : Prop :=
  wp p h (fun h' a => P h' → Q h' a).

Lemma fine_mono {A} (p : Prog C A) h (Q R : history C → A → Prop) :
  (∀ h' a, h `prefix_of` h' → P h' → Q h' a → R h' a) → fine p h Q → fine p h R.
Proof.
  intros HQ Hp. eapply wp_mono; [|apply (wp_conj _ _ _ _ Hp (wp_extends p h))]. cbn. intros h' a [HQ' Hpre] HP. auto.
Qed.

Lemma fine_and {A} (p : Prog C A) h (Q R : history C → A → Prop) :
  wp p h Q → fine p h R → fine p h (fun h' a => Q h' a ∧ R h' a).
Proof. intros HQ HR. eapply wp_mono; [|exact (wp_conj _ _ _ _ HQ HR)]. cbn. intros h' a [Ha Hr] HP. auto. Qed.

Lemma fine_ret {A} (a : A) h (Q : history C → A → Prop) : (P h → Q h a) → fine (mret a) h Q.
Proof. done. Qed.

(** What a call is answered in such an environment. *)
Lemma fine_call {X} (c : C X) (R : X → Prop) h (Q : history C → X → Prop) :
  (∀ x, P (h ++ [Ev c x]) → R x) → (∀ x, R x → Q (h ++ [Ev c x]) x) → fine (trigger c) h Q.
Proof. intros HR HQ x HP. apply HQ, HR, HP. Qed.

Lemma fine_bind {A B} (p : Prog C A) (f : A → Prog C B) h R Q :
  fine p h R → (∀ h1 a, h `prefix_of` h1 → P h1 → R h1 a → fine (f a) h1 Q) → fine (p ≫= f) h Q.
Proof using Hprefix.
  intros Hp Hf. apply wp_bind. eapply wp_mono; [|apply (wp_conj _ _ _ _ Hp (wp_extends p h))]. cbn. intros h1 a [HR Hpre].
  eapply wp_mono; [|apply wp_conj; [apply wp_extends|apply (wp_pending (P h1)) with (Q := fun h2 b => P h2 → Q h2 b)]].
  - cbn. intros h2 b [Hpre2 HQ] HP2. apply HQ; [by eapply Hprefix|done].
  - intros HP. apply Hf; auto.
Qed.

(** A step that cannot fail in such an environment. *)
Definition succeeds {A} (Q : history C → A → Prop) (h : history C) (x : result A) : Prop := ∃ a, x = Ok a ∧ Q h a.

Lemma fine_bind_ok {A B} (p : Prog C (result A)) (f : A → Prog C (result B)) h R Q :
  fine p h (succeeds R) → (∀ h1 a, h `prefix_of` h1 → P h1 → R h1 a → fine (f a) h1 Q) → fine (bind_ok p f) h Q.
Proof using Hprefix. intros Hp Hf. eapply fine_bind; [exact Hp|]. intros h1 ? Hpre HP (a & -> & HR). by apply Hf. Qed.

Lemma fine_wrapping {A} pre (p : Prog C (result A)) h R : fine p h (succeeds R) → fine (wrapping pre p) h (succeeds R).
Proof.
  intros Hp. apply wp_wrapping. eapply wp_mono; [|exact Hp]. cbn. intros h' x Hx HP.
  destruct (Hx HP) as (a & -> & HR). by exists a.
Qed.

(** What cannot fail at all. *)
Lemma fine_any {A} (p : Prog C A) h : fine p h (fun _ _ => True).
Proof. eapply wp_mono; [|apply wp_extends]. done. Qed.

(** A read whose answer is known. *)
Lemma fine_read {X} (c : C (result X)) a h :
  (∀ x h, P h → Ev c x ∈ h → x = Ok a) → fine (trigger c) h (succeeds (fun _ b => b = a)).
Proof. intros Hc x HP. exists a. split; [|done]. eapply Hc; [exact HP|apply asked]. Qed.
End Fine.

(** [emits] goals follow the shape of the program. *)
Create HintDb prog.
#[export] Hint Resolve emits_trigger emits_wrapping : prog.

Ltac emits_step :=
  lazymatch goal with
  | |- emits _ (bind_ok _ _) => apply emits_bind_ok
  | |- emits _ (mbind _ _) => apply emits_bind
  | |- emits _ (wrapping _ _) => apply emits_wrapping
  | |- emits _ (match ?x with _ => _ end) => destruct x
  | |- emits _ (let '_ := ?x in _) => destruct x
  | |- emits _ (Ret _) => exact I
  | |- emits _ (mret _) => exact I
  | |- ∀ _, _ => intros ?
  end.

Ltac emits_tac := repeat (emits_step || (progress cbn beta iota zeta) || solve [eauto with prog]).
