(* ===== verification/GoLib.v ===== *)
(** * Go's standard library, as far as it is not modelled outright

    Numbers ([float64], JSON's number syntax), encoding/json's value tree, and
    the interface [GoLib]: strconv.ParseFloat and FormatFloat, net/url.Parse,
    crypto/sha256 and the JSON text format, which the operator only uses
    through the documented behaviour stated as laws.  [golib_instance] is a
    concrete implementation, used by witnesses. *)

From S2P Require Import Prelude.

(** ** float64 *)

Definition float64 : Type := spec_float.

(** NaN and the infinities, which encoding/json refuses to encode. *)
Definition is_finite (f : float64) : bool :=
  match f with S754_infinity _ | S754_nan => false | _ => true end.

(** [float64(z)] *)
Definition float_of_Z (z : Z) : float64 := SpecFloat.binary_normalize 53 1024 z 0 false.
Definition float_mul : float64 → float64 → float64 := SpecFloat.SFmul 53 1024.
Definition float_div : float64 → float64 → float64 := SpecFloat.SFdiv 53 1024.

(** math.Round: to the nearest integer, halves away from zero. *)
Definition Round (f : float64) : float64 :=
  match f with
  | S754_finite s m e =>
      if (0 <=? e)%Z then f
      else
        let q := ((Zpos m + 2 ^ (- e - 1)) / 2 ^ (- e))%Z in
        if (q =? 0)%Z then S754_zero s
        else SpecFloat.binary_normalize 53 1024 (if s then - q else q) 0 s
  | _ => f
  end.

Definition fmt_nonfinite (f : float64) : string :=
  match f with
  | S754_infinity false => "+Inf"
  | S754_infinity true => "-Inf"
  | _ => "NaN"
  end.

#[export] Instance spec_float_eq_dec : EqDecision spec_float.
Proof. solve_decision. Defined.

(** ** UTF-8

    A Go string is bytes; what encoding/json writes and reads of it is UTF-8,
    each byte that starts no rune (unicode/utf8's table of well-formed
    sequences) becoming U+FFFD. *)

Definition byte_in (lo hi : nat) (c : ascii) : bool := (lo <=? nat_of_ascii c) && (nat_of_ascii c <=? hi).
Definition cont : ascii → bool := byte_in 128 191.

(** First and second byte of a rune of three and of four bytes. *)
Definition lead3 (a b : ascii) : bool :=
  (byte_in 224 224 a && byte_in 160 191 b) || (byte_in 225 236 a && cont b) ||
  (byte_in 237 237 a && byte_in 128 159 b) || (byte_in 238 239 a && cont b).
Definition lead4 (a b : ascii) : bool :=
  (byte_in 240 240 a && byte_in 144 191 b) || (byte_in 241 243 a && cont b) || (byte_in 244 244 a && byte_in 128 143 b).

Definition RuneError (s : string) : string :=
  String (ascii_of_nat 239) (String (ascii_of_nat 191) (String (ascii_of_nat 189) s)).

Fixpoint coerce_utf8 (s : string) : string :=
  match s with
  | EmptyString => EmptyString
  | String a s1 =>
      if byte_in 0 127 a then String a (coerce_utf8 s1)
      else
        match s1 with
        | EmptyString => RuneError EmptyString
        | String b s2 =>
            if byte_in 194 223 a && cont b then String a (String b (coerce_utf8 s2))
            else
              match s2 with
              | EmptyString => RuneError (coerce_utf8 s1)
              | String c s3 =>
                  if lead3 a b && cont c then String a (String b (String c (coerce_utf8 s3)))
                  else
                    match s3 with
                    | EmptyString => RuneError (coerce_utf8 s1)
                    | String d s4 =>
                        if lead4 a b && cont c && cont d
                        then String a (String b (String c (String d (coerce_utf8 s4))))
                        else RuneError (coerce_utf8 s1)
                    end
              end
        end
  end.

(** Well-formed text. *)
Inductive utf8 : string → Prop :=
  | utf8_nil : utf8 EmptyString
  | utf8_1 a s : byte_in 0 127 a = true → utf8 s → utf8 (String a s)
  | utf8_2 a b s : byte_in 194 223 a && cont b = true → utf8 s → utf8 (String a (String b s))
  | utf8_3 a b c s : lead3 a b && cont c = true → utf8 s → utf8 (String a (String b (String c s)))
  | utf8_4 a b c d s :
      lead4 a b && cont c && cont d = true → utf8 s → utf8 (String a (String b (String c (String d s)))).

Lemma utf8_RuneError s : utf8 s → utf8 (RuneError s).
Proof. by apply utf8_3. Qed.

Lemma coerce_utf8_valid s : utf8 (coerce_utf8 s).
Proof.
  induction s as [s IH] using (induction_ltof1 _ String.length). unfold ltof in IH.
  destruct s as [|a s1]; [constructor|]. cbn [coerce_utf8].
  destruct (byte_in 0 127 a) eqn:H1; [apply utf8_1; [done|apply IH; cbn; lia]|].
  destruct s1 as [|b s2]; [apply utf8_RuneError; constructor|].
  assert (utf8 (RuneError (coerce_utf8 (String b s2)))) as Hbad by (apply utf8_RuneError, IH; cbn; lia).
  destruct (byte_in 194 223 a && cont b) eqn:H2; [apply utf8_2; [done|apply IH; cbn; lia]|].
  destruct s2 as [|c s3]; [exact Hbad|].
  destruct (lead3 a b && cont c) eqn:H3; [apply utf8_3; [done|apply IH; cbn; lia]|].
  destruct s3 as [|d s4]; [exact Hbad|].
  destruct (lead4 a b && cont c && cont d) eqn:H4; [apply utf8_4; [done|apply IH; cbn; lia]|exact Hbad].
Qed.

Lemma byte_in_spec lo hi c : byte_in lo hi c = true ↔ (lo <= nat_of_ascii c <= hi)%nat.
Proof. unfold byte_in. rewrite andb_true_iff, !Nat.leb_le. done. Qed.

Lemma byte_in_false lo hi c : byte_in lo hi c = false ↔ ¬ (lo <= nat_of_ascii c <= hi)%nat.
Proof. rewrite <- byte_in_spec. by destruct (byte_in lo hi c). Qed.

Lemma lead3_range a b : lead3 a b = true → (224 <= nat_of_ascii a <= 239)%nat.
Proof. unfold lead3. rewrite !orb_true_iff, !andb_true_iff, !byte_in_spec. lia. Qed.

Lemma lead4_range a b : lead4 a b = true → (240 <= nat_of_ascii a <= 244)%nat.
Proof. unfold lead4. rewrite !orb_true_iff, !andb_true_iff, !byte_in_spec. lia. Qed.

Lemma not_byte lo hi c n m : (n <= nat_of_ascii c <= m)%nat → (hi < n ∨ m < lo)%nat → byte_in lo hi c = false.
Proof. intros. apply byte_in_false. lia. Qed.

(** Well-formed text is written as it is. *)
Lemma coerce_utf8_fixed s : utf8 s → coerce_utf8 s = s.
Proof.
  induction 1 as [|a s Ha _ IH|a b s Hab _ IH|a b c s Habc _ IH|a b c d s Habcd _ IH]; [done|..]; cbn [coerce_utf8].
  - by rewrite Ha, IH.
  - pose proof Hab as [Ha%byte_in_spec _]%andb_true_iff.
    rewrite (not_byte 0 127 a 194 223) by lia. by rewrite Hab, IH.
  - pose proof Habc as [Ha%lead3_range _]%andb_true_iff.
    rewrite (not_byte 0 127 a 224 239), (not_byte 194 223 a 224 239) by lia. cbn [andb]. by rewrite Habc, IH.
  - pose proof Habcd as [[Ha%lead4_range _]%andb_true_iff _]%andb_true_iff.
    rewrite (not_byte 0 127 a 240 244), (not_byte 194 223 a 240 244) by lia. cbn [andb].
    destruct (lead3 a b) eqn:H3; [apply lead3_range in H3; lia|]. cbn [andb]. by rewrite Habcd, IH.
Qed.

Lemma coerce_utf8_idem s : coerce_utf8 (coerce_utf8 s) = coerce_utf8 s.
Proof. apply coerce_utf8_fixed, coerce_utf8_valid. Qed.

(** No text is lost. *)
Lemma coerce_utf8_length s : (String.length s <= String.length (coerce_utf8 s))%nat.
Proof.
  induction s as [s IH] using (induction_ltof1 _ String.length). unfold ltof in IH.
  destruct s as [|a s1]; [done|].
  assert (∀ t, (String.length t <= String.length s1)%nat → (String.length t <= String.length (coerce_utf8 t))%nat) as Ht.
  { intros t Hl. apply IH. cbn. lia. }
  cbn [coerce_utf8]. repeat case_match; cbn [String.length RuneError] in *;
    repeat match goal with
           | |- context [coerce_utf8 ?t] =>
               lazymatch goal with
               | _ : (String.length t <= String.length (coerce_utf8 t))%nat |- _ => fail
               | _ => pose proof (Ht t ltac:(cbn; lia))
               end
           end; cbn [String.length] in *; lia.
Qed.

(** ASCII. *)
Lemma utf8_ascii s : Forall (fun c => (nat_of_ascii c < 128)%nat) (bytes s) → utf8 s.
Proof.
  induction s as [|c s IH]; [constructor|]. intros [Hc Hs]%Forall_cons. apply utf8_1; [|by apply IH].
  apply byte_in_spec. lia.
Qed.

(** ** JSON values *)

(** What json.Marshal encodes: a Go [map[string]interface{}] holds strings,
    booleans, integers, floats, slices and maps.  An object's members are in
    the order they are written, for a Go map the order of its sorted keys. *)
Inductive json :=
  | JNull
  | JBool (b : bool)
  | JInt (z : Z)
  | JFloat (f : float64)
  | JString (s : string)
  | JList (l : list json)
  | JObj (members : list (string * json)).

Section JsonInd.
Context (P : json → Prop).
Context (Hnull : P JNull) (Hbool : ∀ b, P (JBool b)) (Hint : ∀ z, P (JInt z)) (Hfloat : ∀ f, P (JFloat f))
        (Hstring : ∀ s, P (JString s)) (Hlist : ∀ l, Forall P l → P (JList l))
        (Hobj : ∀ m, Forall (fun kv => P kv.2) m → P (JObj m)).

Fixpoint json_induction (j : json) : P j :=
  match j with
  | JNull => Hnull
  | JBool b => Hbool b
  | JInt z => Hint z
  | JFloat f => Hfloat f
  | JString s => Hstring s
  | JList l =>
      Hlist l ((fix go l : Forall P l :=
                  match l with
                  | [] => @List.Forall_nil _ P
                  | x :: l' => @List.Forall_cons _ P x l' (json_induction x) (go l')
                  end) l)
  | JObj m =>
      Hobj m ((fix go m : Forall (fun kv => P kv.2) m :=
                 match m with
                 | [] => @List.Forall_nil _ _
                 | kv :: m' => @List.Forall_cons _ _ kv m' (json_induction kv.2) (go m')
                 end) m)
  end.
End JsonInd.

(** The first non-finite float, in encoding order: what Marshal fails on. *)
Fixpoint json_bad_float (j : json) : option float64 :=
  match j with
  | JFloat f => if is_finite f then None else Some f
  | JList l => (fix go l := match l with
                            | [] => None
                            | x :: l' => match json_bad_float x with Some f => Some f | None => go l' end
                            end) l
  | JObj m => (fix go m := match m with
                           | [] => None
                           | kv :: m' => match json_bad_float kv.2 with Some f => Some f | None => go m' end
                           end) m
  | _ => None
  end.

(** The tree with every number replaced by 0: decoding into [interface{}]
    turns each number into a float64, and keeps everything else. *)
Fixpoint json_shape (j : json) : json :=
  match j with
  | JInt _ | JFloat _ => JInt 0
  | JList l => JList (map json_shape l)
  | JObj m => JObj (map (fun kv => (kv.1, json_shape kv.2)) m)
  | _ => j
  end.

(** Integers are written in decimal, so a tree without floats reads back
    exactly. *)
Fixpoint json_no_float (j : json) : bool :=
  match j with
  | JFloat _ => false
  | JList l => forallb json_no_float l
  | JObj m => forallb (fun kv => json_no_float kv.2) m
  | _ => true
  end.

(** The tree as it is written: strings and keys as UTF-8. *)
Fixpoint json_coerce (j : json) : json :=
  match j with
  | JString s => JString (coerce_utf8 s)
  | JList l => JList (map json_coerce l)
  | JObj m => JObj (map (fun kv => (coerce_utf8 kv.1, json_coerce kv.2)) m)
  | _ => j
  end.

Lemma json_coerce_idem j : json_coerce (json_coerce j) = json_coerce j.
Proof.
  induction j as [| | | |s|l Hl|m Hm] using json_induction; cbn; try done.
  - by rewrite coerce_utf8_idem.
  - f_equal. rewrite map_map. induction Hl as [|x l Hx _ IH]; cbn; by rewrite ?Hx, ?IH.
  - f_equal. rewrite map_map. induction Hm as [|[k v] m Hx _ IH]; cbn in *; by rewrite ?coerce_utf8_idem, ?Hx, ?IH.
Qed.

(** The parts of a coerced tree are coerced. *)
Lemma json_coerce_member m k v : json_coerce (JObj m) = JObj m → (k, v) ∈ m → coerce_utf8 k = k ∧ json_coerce v = v.
Proof.
  intros [= Hm] Hin. induction m as [|[k' v'] m IH]; [by apply elem_of_nil in Hin|]. cbn in Hm.
  injection Hm as Hk Hv Hm. apply elem_of_cons in Hin as [[= -> ->]|Hin]; [done|by apply IH].
Qed.

(** Member lookup: of a key written twice, Unmarshal keeps the last. *)
Definition json_member (j : json) (key : string) : option json :=
  match j with
  | JObj m => snd <$> List.find (fun kv => (kv.1 =? key)%string) (rev m)
  | _ => None
  end.

Lemma json_member_shape j key : json_member (json_shape j) key = json_shape <$> json_member j key.
Proof.
  destruct j; try done. cbn. rewrite <- map_rev.
  induction (rev members) as [|[k v] m IH]; cbn; [done|]. by destruct (k =? key)%string.
Qed.

(** ** Maps as objects *)

(** The entries of a Go map in the order of its sorted keys. *)
Definition sorted_entries {A} (m : gmap string A) : list (string * A) :=
  omap (fun k => (fun v => (k, v)) <$> m !! k) (sort_Strings (map fst (map_to_list m))).

Definition json_of_map (m : gmap string json) : json := JObj (sorted_entries m).

Lemma elem_of_sorted_entries {A} (m : gmap string A) k v : (k, v) ∈ sorted_entries m ↔ m !! k = Some v.
Proof.
  unfold sorted_entries. rewrite list_elem_of_omap. split.
  - intros (k' & _ & Hk). destruct (m !! k') eqn:E; cbn in Hk; congruence.
  - intros Hk. exists k. split; [|by rewrite Hk].
    rewrite sort_Strings_perm. apply list_elem_of_fmap. exists (k, v). split; [done|].
    by apply elem_of_map_to_list.
Qed.

Lemma NoDup_sorted_entries {A} (m : gmap string A) : NoDup (map fst (sorted_entries m)).
Proof.
  assert (NoDup (sort_Strings (map fst (map_to_list m)))) as Hnd.
  { rewrite sort_Strings_perm. apply NoDup_fst_map_to_list. }
  unfold sorted_entries. revert Hnd. generalize (sort_Strings (map fst (map_to_list m))) as ks.
  induction ks as [|k ks IH]; intros Hnd; cbn; [constructor|]. apply NoDup_cons in Hnd as [Hk Hnd].
  destruct (m !! k) as [v|]; cbn; [|by apply IH]. constructor; [|by apply IH].
  intros Hin. apply list_elem_of_In, in_map_iff in Hin as ([k' v'] & E & Hin). cbn in E; subst k'.
  apply list_elem_of_In, list_elem_of_omap in Hin as (k' & Hin & Hk').
  destruct (m !! k'); cbn in Hk'; [injection Hk' as -> ->|]; done.
Qed.

Lemma json_member_of_map m k : json_member (json_of_map m) k = m !! k.
Proof.
  unfold json_of_map, json_member.
  destruct (m !! k) as [v|] eqn:Hk.
  - apply elem_of_sorted_entries in Hk. pose proof (NoDup_sorted_entries m) as Hnd.
    rewrite <- (rev_involutive (sorted_entries m)) in Hnd, Hk.
    rewrite map_rev in Hnd. apply NoDup_ListNoDup, NoDup_rev, NoDup_ListNoDup in Hnd. rewrite rev_involutive in Hnd.
    rewrite <- list_elem_of_In, <- in_rev, list_elem_of_In in Hk || (apply list_elem_of_In, in_rev, list_elem_of_In in Hk).
    revert Hnd Hk. generalize (rev (sorted_entries m)) as l.
    induction l as [|[k' v'] l IH]; intros Hnd Hin; [by apply elem_of_nil in Hin|].
    cbn in Hnd. apply NoDup_cons in Hnd as [Hk' Hnd]. cbn.
    destruct (String.eqb_spec k' k) as [->|Hne].
    + apply elem_of_cons in Hin as [[= ->]|Hin]; [done|]. destruct Hk'.
      apply list_elem_of_In, in_map_iff. exists (k, v). by rewrite <- list_elem_of_In.
    + apply elem_of_cons in Hin as [[= ? ?]|Hin]; [done|]. by apply IH.
  - destruct (List.find _ _) as [[k' v']|] eqn:E; [|done]. apply List.find_some in E as [Hin E].
    apply String.eqb_eq in E; cbn in E; subst k'. apply in_rev, list_elem_of_In, elem_of_sorted_entries in Hin.
    congruence.
Qed.

(** ** The interface *)

Class GoLib := {
  ParseFloat : string → option float64;            (* strconv.ParseFloat(s, 64) *)
  FormatFloat : float64 → string;                  (* strconv.FormatFloat(f, 'f', -1, 64) *)
  url_Parse : string → option (string * string);   (* url.Parse: Scheme and Host *)
  sha256_hex : string → string;                    (* hex.EncodeToString of sha256.Sum256 *)
  FormatRFC3339 : Z → string;                      (* time.Time.Format(time.RFC3339) *)
  FormatDuration : Z → string;                     (* time.Duration.String *)
  filepath_Join : string → string → string;        (* filepath.Join(dir, file) *)
  filepath_Base : string → string;
  json_MarshalIndent : json → string;              (* the text, two-space indent *)
  json_Marshal : json → string;
  json_Unmarshal : string → option json;           (* the syntax tree; None: a syntax error *)

  (** The scheme is what precedes "://", lower-cased. *)
  url_Parse_http s sch host : HasPrefix s "http://" = true → url_Parse s = Some (sch, host) → sch = "http";
  url_Parse_https s sch host : HasPrefix s "https://" = true → url_Parse s = Some (sch, host) → sch = "https";
  sha256_hex_length s : String.length (sha256_hex s) = 64%nat;
  (** Digits, a sign, a point, or NaN and the infinities. *)
  FormatFloat_text f : utf8 (FormatFloat f);
  (** What is written reads back - the text of strings as UTF-8 -, numbers
      possibly as other number values; and what is read is UTF-8. *)
  unmarshal_indent j : json_bad_float j = None →
    ∃ j', json_Unmarshal (json_MarshalIndent j) = Some j' ∧ json_shape j' = json_shape (json_coerce j);
  unmarshal_marshal_exact j : json_no_float j = true → json_Unmarshal (json_Marshal j) = Some (json_coerce j);
  unmarshal_text s j : json_Unmarshal s = Some j → json_coerce j = j
}.

(** json.MarshalIndent with its error. *)
Definition MarshalIndent `{GoLib} (j : json) : result string :=
  match json_bad_float j with
  | Some f => Err (Errorf ("json: unsupported value: " ^^ fmt_nonfinite f))
  | None => Ok (json_MarshalIndent j)
  end.

Section Decode.
Context `{GoLib}.

(** ** json.Unmarshal into a struct

    Members are assigned in the order of the text, matched to a field by name
    up to letter case; null leaves the field; a value of another type is an
    error. *)
Definition decode_member {A} (dec : json → option A) (tag : string) (zero : A) (j : json) : option A :=
  match j with
  | JNull => Some zero
  | JObj m =>
      foldl (fun acc kv => a ← acc;
               if (ToLower kv.1 =? ToLower tag)%string
               then match kv.2 with JNull => Some a | v => dec v end
               else Some a) (Some zero) m
  | _ => None
  end.

Definition decode_string (j : json) : option string := match j with JString s => Some s | _ => None end.
Definition decode_bool (j : json) : option bool := match j with JBool b => Some b | _ => None end.
Definition decode_int (j : json) : option Z :=
  match j with JInt z => if decide (int64 z = z) then Some z else None | _ => None end.
Definition decode_float (j : json) : option float64 :=
  match j with JFloat f => Some f | JInt z => ParseFloat (Itoa z) | _ => None end.

Definition unmarshal {A} (dec : json → option A) (text : string) : result A :=
  match json_Unmarshal text ≫= dec with
  | Some a => Ok a
  | None => Err (Errorf "json: cannot unmarshal")
  end.
End Decode.

(** ** A concrete implementation

    The text format is a bit string of the tree, the digest a padding to 64
    characters, numbers are decimal integers: enough for the laws. *)

Module GoImpl.
Local Open Scope positive_scope.

#[local] Instance spec_float_countable : Countable spec_float.
Proof.
  refine (inj_countable'
    (fun f => match f with
              | S754_zero s => inl (inl s) | S754_infinity s => inl (inr s)
              | S754_nan => inr None | S754_finite s m e => inr (Some (s, m, e)) end)
    (fun x => match x with
              | inl (inl s) => S754_zero s | inl (inr s) => S754_infinity s
              | inr None => S754_nan | inr (Some (s, m, e)) => S754_finite s m e end) _).
  by intros [].
Defined.

Definition leaf : Type := (unit + bool) + (Z + (spec_float + string)).

Fixpoint to_tree (j : json) : gen_tree leaf :=
  match j with
  | JNull => GenLeaf (inl (inl tt))
  | JBool b => GenLeaf (inl (inr b))
  | JInt z => GenLeaf (inr (inl z))
  | JFloat f => GenLeaf (inr (inr (inl f)))
  | JString s => GenLeaf (inr (inr (inr s)))
  | JList l => GenNode 0 (map to_tree l)
  | JObj m => GenNode 1 (map (fun kv => GenNode 2 [GenLeaf (inr (inr (inr kv.1))); to_tree kv.2]) m)
  end.

Fixpoint of_tree (t : gen_tree leaf) : json :=
  match t with
  | GenLeaf (inl (inl _)) => JNull
  | GenLeaf (inl (inr b)) => JBool b
  | GenLeaf (inr (inl z)) => JInt z
  | GenLeaf (inr (inr (inl f))) => JFloat f
  | GenLeaf (inr (inr (inr s))) => JString s
  | GenNode 1 l =>
      JObj (map (fun t => match t with
                          | GenNode _ [GenLeaf (inr (inr (inr k))); v] => (k, of_tree v)
                          | _ => ("", JNull)
                          end) l)
  | GenNode _ l => JList (map of_tree l)
  end.

Lemma of_to_tree j : of_tree (to_tree j) = j.
Proof.
  induction j as [| | | | |l Hl|m Hm] using json_induction; try done.
  - cbn. f_equal. rewrite map_map. induction Hl as [|x l Hx Hl IH]; cbn; by rewrite ?Hx, ?IH.
  - cbn. f_equal. rewrite map_map. induction Hm as [|[k v] m Hx Hm IH]; cbn in *; by rewrite ?Hx, ?IH.
Qed.

Fixpoint bits (p : positive) : string :=
  match p with xH => EmptyString | xO p => String "0" (bits p) | xI p => String "1" (bits p) end.
Fixpoint unbits (s : string) : positive :=
  match s with
  | EmptyString => xH
  | String c s => if Ascii.eqb c "0" then xO (unbits s) else xI (unbits s)
  end.
Lemma unbits_bits p : unbits (bits p) = p.
Proof. induction p; cbn; congruence. Qed.

Definition print (j : json) : string := bits (encode (to_tree j)).
Definition parse (s : string) : option json := json_coerce ∘ of_tree <$> decode (unbits s).
Lemma parse_print j : parse (print j) = Some (json_coerce j).
Proof. unfold parse, print. by rewrite unbits_bits, decode_encode; cbn; rewrite of_to_tree. Qed.

Fixpoint zeros (n : nat) : string := match n with O => EmptyString | S n => String "0" (zeros n) end.
Fixpoint pad (n : nat) (s : string) : string :=
  match n, s with
  | O, _ => EmptyString
  | S n, EmptyString => String "0" (pad n EmptyString)
  | S n, String c s => String c (pad n s)
  end.
Lemma pad_length n s : String.length (pad n s) = n.
Proof. revert s; induction n as [|n IH]; intros []; cbn; by rewrite ?IH. Qed.

Definition url (s : string) : option (string * string) :=
  if HasPrefix s "http://" then Some ("http", substring 7 (String.length s) s)
  else if HasPrefix s "https://" then Some ("https", substring 8 (String.length s) s)
  else None.

Fixpoint digits (acc : Z) (s : string) : option Z :=
  match s with
  | EmptyString => Some acc
  | String c s =>
      let n := Z.of_nat (nat_of_ascii c) in
      if ((48 <=? n) && (n <=? 57))%Z then digits (10 * acc + (n - 48))%Z s else None
  end.
Definition parse_float (s : string) : option float64 :=
  if (s =? "")%string then None
  else (fun z => match z with Zpos p => S754_finite false p 0 | _ => S754_zero false end) <$> digits 0 s.
Definition format_float (f : float64) : string :=
  coerce_utf8 (match f with S754_finite false p 0 => Itoa (Zpos p) | S754_zero _ => "0" | _ => "NaN" end).
End GoImpl.

#[export] Program Instance golib_instance : GoLib := {|
  ParseFloat := GoImpl.parse_float; FormatFloat := GoImpl.format_float;
  url_Parse := GoImpl.url; sha256_hex := GoImpl.pad 64; FormatRFC3339 := Itoa; FormatDuration := Itoa;
  filepath_Join dir f := dir ^^ "/" ^^ f; filepath_Base p := p;
  json_MarshalIndent := GoImpl.print; json_Marshal := GoImpl.print; json_Unmarshal := GoImpl.parse
|}.
Next Obligation. intros s sch host Hp. unfold GoImpl.url. rewrite Hp. by intros [= <- _]. Qed.
Next Obligation.
  intros s sch host Hp. unfold GoImpl.url. rewrite Hp. destruct (HasPrefix s "http://") eqn:E.
  - exfalso. apply HasPrefix_spec in Hp as [t ->]. by cbn in E.
  - by intros [= <- _].
Qed.
Next Obligation. intros; apply GoImpl.pad_length. Qed.
Next Obligation. intros f. apply coerce_utf8_valid. Qed.
Next Obligation. intros j _. eexists. by rewrite GoImpl.parse_print. Qed.
Next Obligation. intros j _. by rewrite GoImpl.parse_print. Qed.
Next Obligation.
  intros s j. unfold GoImpl.parse. destruct (decode _) as [t|]; [|done]. intros [= <-]. apply json_coerce_idem.
Qed.
