(* ===== verification/Kube.v ===== *)
(** * Kubernetes API objects and library functions the operator relies on

    The object types of k8s.io/api and gateway-api, cut down to the fields
    the operator reads or writes, and [KubeLib], the interface of the
    apimachinery / controller-runtime / client-go functions it calls, with
    the documented behaviour the code relies on as laws.  [kubelib_instance]
    is a concrete implementation, used by witnesses.

    Data the operator only passes through (affinities, tolerations, volume
    sources given by a user, ...) is [Opaque]: its JSON text. *)

From S2P Require Import Prelude.

Definition Opaque : Type := string.
Definition Quantity : Type := string.   (* resource.Quantity, in canonical text form *)

(** ** Object metadata *)

Record OwnerReference := {
  or_Kind : string; or_Name : string; or_UID : string; or_Controller : bool
}.
#[export] Instance OwnerReference_eq_dec : EqDecision OwnerReference.
Proof. solve_decision. Defined.

Record ObjectMeta := {
  Name : string;
  Namespace : string;
  UID : string;
  Generation : Z;
  ResourceVersion : string;
  DeletionTimestamp : option Z;
  Finalizers : list string;
  Labels : gmap string string;
  Annotations : gmap string string;
  OwnerReferences : list OwnerReference
}.
#[export] Instance ObjectMeta_eq_dec : EqDecision ObjectMeta.
Proof. solve_decision. Defined.

(** The metadata of a freshly built object literal. *)
Definition NewMeta (name ns : string) (labels annotations : gmap string string) : ObjectMeta :=
  {| Name := name; Namespace := ns; UID := ""; Generation := 0; ResourceVersion := "";
     DeletionTimestamp := None; Finalizers := []; Labels := labels; Annotations := annotations; OwnerReferences := [] |}.

Definition with_Finalizers (m : ObjectMeta) (f : list string) : ObjectMeta :=
  {| Name := Name m; Namespace := Namespace m; UID := UID m; Generation := Generation m;
     ResourceVersion := ResourceVersion m; DeletionTimestamp := DeletionTimestamp m; Finalizers := f; Labels := Labels m;
     Annotations := Annotations m; OwnerReferences := OwnerReferences m |}.

Definition with_OwnerReferences (m : ObjectMeta) (o : list OwnerReference) : ObjectMeta :=
  {| Name := Name m; Namespace := Namespace m; UID := UID m; Generation := Generation m;
     ResourceVersion := ResourceVersion m; DeletionTimestamp := DeletionTimestamp m; Finalizers := Finalizers m; Labels := Labels m;
     Annotations := Annotations m; OwnerReferences := o |}.

Definition with_Annotations (m : ObjectMeta) (a : gmap string string) : ObjectMeta :=
  {| Name := Name m; Namespace := Namespace m; UID := UID m; Generation := Generation m;
     ResourceVersion := ResourceVersion m; DeletionTimestamp := DeletionTimestamp m; Finalizers := Finalizers m; Labels := Labels m;
     Annotations := a; OwnerReferences := OwnerReferences m |}.

Definition with_ResourceVersion (m : ObjectMeta) (v : string) : ObjectMeta :=
  {| Name := Name m; Namespace := Namespace m; UID := UID m; Generation := Generation m;
     ResourceVersion := v; DeletionTimestamp := DeletionTimestamp m; Finalizers := Finalizers m; Labels := Labels m;
     Annotations := Annotations m; OwnerReferences := OwnerReferences m |}.

(** types.NamespacedName / client.ObjectKey *)
Record NamespacedName := { nn_Namespace : string; nn_Name : string }.
#[export] Instance NamespacedName_eq_dec : EqDecision NamespacedName.
Proof. solve_decision. Defined.
#[export] Instance NamespacedName_countable : Countable NamespacedName.
Proof.
  apply (inj_countable' (fun k => (nn_Namespace k, nn_Name k))
           (fun p => {| nn_Namespace := p.1; nn_Name := p.2 |})).
  by intros [].
Defined.

(** [NamespacedName.String()] is "namespace/name". *)
Definition nn_String (k : NamespacedName) : string := nn_Namespace k ^^ "/" ^^ nn_Name k.

Definition ObjectKeyFromMeta (m : ObjectMeta) : NamespacedName :=
  {| nn_Namespace := Namespace m; nn_Name := Name m |}.

(** ** Status conditions

    [LastTransitionTime] is left out: meta.SetStatusCondition stamps it from
    the clock exactly when [Status] changes or the condition is new, so two
    condition lists that differ in it and nowhere else never meet in a
    comparison the operator makes. *)

Inductive ConditionStatus := ConditionTrue | ConditionFalse | ConditionUnknown.
#[export] Instance ConditionStatus_eq_dec : EqDecision ConditionStatus.
Proof. solve_decision. Defined.

Record Condition := {
  cType : string;
  cStatus : ConditionStatus;
  cReason : string;
  cMessage : string;
  cObservedGeneration : Z
}.
#[export] Instance Condition_eq_dec : EqDecision Condition.
Proof. solve_decision. Defined.

(** A [metav1.Condition] literal that does not set ObservedGeneration. *)
Definition Cond (ty : string) (st : ConditionStatus) (reason msg : string) : Condition :=
  {| cType := ty; cStatus := st; cReason := reason; cMessage := msg; cObservedGeneration := 0 |}.

(** ** Pods and workloads *)

Record EnvVar := { ev_Name : string; ev_Value : string; ev_FieldPath : string }.
Record VolumeMount := { vm_Name : string; vm_MountPath : string; vm_ReadOnly : bool }.

(** The sources of a projected volume; an item is a key or field path with
    the path it is projected to. *)
Inductive VolumeProjection :=
  | ProjectServiceAccountToken (path : string) (expirationSeconds : Z)
  | ProjectConfigMap (name : string) (items : list (string * string))
  | ProjectDownwardAPI (items : list (string * string)).

Inductive VolumeSource :=
  | VSSecret (name : string)
  | VSConfigMap (name : string)
  | VSPersistentVolumeClaim (claim : string)
  | VSEmptyDir
  | VSProjected (sources : list VolumeProjection)
  | VSOther (source : Opaque).
Record Volume := { v_Name : string; v_Source : VolumeSource }.

Record SecurityContext := {
  sc_RunAsUser : option Z; sc_RunAsGroup : option Z; sc_RunAsNonRoot : option bool;
  sc_AllowPrivilegeEscalation : option bool; sc_ReadOnlyRootFilesystem : option bool;
  sc_CapabilitiesDrop : list string; sc_SeccompProfile : string
}.
Record PodSecurityContext := {
  psc_RunAsUser : option Z; psc_RunAsGroup : option Z; psc_FSGroup : option Z
}.
Record ResourceRequirements := {
  rr_Limits : gmap string Quantity; rr_Requests : gmap string Quantity
}.
#[export] Instance ResourceRequirements_eq_dec : EqDecision ResourceRequirements.
Proof. solve_decision. Defined.
Definition NoResources : ResourceRequirements := {| rr_Limits := ∅; rr_Requests := ∅ |}.

Record Probe := {
  pr_Path : string; pr_Port : Z; pr_Scheme : string;
  pr_InitialDelaySeconds : Z; pr_PeriodSeconds : Z; pr_TimeoutSeconds : Z; pr_FailureThreshold : Z
}.
Record ContainerPort := { cp_ContainerPort : Z; cp_Protocol : string }.

Record Container := {
  c_Name : string;
  c_Image : string;
  c_ImagePullPolicy : string;
  c_Command : list string;
  c_Args : list string;
  c_Env : list EnvVar;
  c_Resources : ResourceRequirements;
  c_VolumeMounts : list VolumeMount;
  c_SecurityContext : option SecurityContext;
  c_Ports : list ContainerPort;
  c_LivenessProbe : option Probe;
  c_ReadinessProbe : option Probe;
  c_RestartPolicy : option string;
  c_TerminationMessagePath : string;
  c_TerminationMessagePolicy : string
}.

(** corev1.Affinity; node and pod affinity are passed through. *)
Record Affinity := { af_Rest : Opaque; af_PodAntiAffinity : option Opaque }.

Record PodSpec := {
  ps_SecurityContext : option PodSecurityContext;
  ps_ServiceAccountName : string;
  ps_AutomountServiceAccountToken : option bool;
  ps_RestartPolicy : string;
  ps_InitContainers : list Container;
  ps_Containers : list Container;
  ps_Volumes : list Volume;
  ps_ImagePullSecrets : list string;
  ps_Affinity : option Affinity;
  ps_NodeSelector : gmap string string;
  ps_Tolerations : list Opaque;
  ps_TopologySpreadConstraints : list Opaque;
  ps_TerminationGracePeriodSeconds : option Z;
  ps_DNSPolicy : string
}.

(** *** Overrides of a pod template: a zero value keeps the default *)

(** [Containers[0]]. *)
Definition map_first_container (f : Container → Container) (cs : list Container) : list Container :=
  match cs with c :: cs' => f c :: cs' | [] => [] end.

Definition override_list {A} (over def : list A) : list A := match over with [] => def | _ => over end.
Definition override_ptr {A} (over def : option A) : option A :=
  match over with Some _ => over | None => def end.

Record PodTemplateSpec := {
  pt_Labels : gmap string string; pt_Annotations : gmap string string; pt_Spec : PodSpec
}.

Record StatefulSet := {
  sts_Meta : ObjectMeta;
  sts_Replicas : option Z;
  sts_Selector : gmap string string;
  sts_ServiceName : string;
  sts_Template : PodTemplateSpec;
  sts_Status_Replicas : Z;
  sts_Status_ReadyReplicas : Z
}.

Definition with_Replicas (s : StatefulSet) (n : option Z) : StatefulSet :=
  {| sts_Meta := sts_Meta s; sts_Replicas := n; sts_Selector := sts_Selector s;
     sts_ServiceName := sts_ServiceName s; sts_Template := sts_Template s;
     sts_Status_Replicas := sts_Status_Replicas s;
     sts_Status_ReadyReplicas := sts_Status_ReadyReplicas s |}.

Record Job := {
  job_Meta : ObjectMeta;
  job_BackoffLimit : option Z;
  job_TTLSecondsAfterFinished : option Z;
  job_Template : PodTemplateSpec;
  job_Status_Active : Z;
  job_Status_Succeeded : Z;
  job_Status_Failed : Z;
  job_Status_StartTime : option Z;
  job_Status_CompletionTime : option Z
}.

Record Deployment := {
  dep_Meta : ObjectMeta;
  dep_Replicas : option Z;
  dep_Selector : gmap string string;
  dep_Template : PodTemplateSpec;
  dep_Status_Replicas : Z;
  dep_Status_AvailableReplicas : Z
}.

Record Secret := {
  secret_Meta : ObjectMeta;
  secret_Data : gmap string string;
  secret_StringData : gmap string string;
  secret_Type : string
}.
Record ConfigMap := { cm_Meta : ObjectMeta; cm_Data : gmap string string }.
Definition with_cm_Meta (c : ConfigMap) (m : ObjectMeta) : ConfigMap :=
  {| cm_Meta := m; cm_Data := cm_Data c |}.

Record PersistentVolumeClaim := {
  pvc_Meta : ObjectMeta;
  pvc_AccessModes : list string;
  pvc_Requests : gmap string Quantity;
  pvc_StorageClassName : option string;
  pvc_VolumeName : string
}.
Definition with_pvc_Meta (p : PersistentVolumeClaim) (m : ObjectMeta) : PersistentVolumeClaim :=
  {| pvc_Meta := m; pvc_AccessModes := pvc_AccessModes p; pvc_Requests := pvc_Requests p;
     pvc_StorageClassName := pvc_StorageClassName p; pvc_VolumeName := pvc_VolumeName p |}.

Record ServicePort := {
  sp_Name : string; sp_Port : Z; sp_TargetPort : Z; sp_Protocol : string
}.
Record Service := {
  svc_Meta : ObjectMeta;
  svc_Type : string;
  svc_Ports : list ServicePort;
  svc_Selector : gmap string string;
  svc_LoadBalancerSourceRanges : list string;
  svc_ExternalTrafficPolicy : string;
  svc_SessionAffinity : string
}.

(** A peer of a NetworkPolicy rule: by namespace labels, by pod labels in the
    policy's own namespace, or as supplied by the user. *)
Inductive NetworkPolicyPeer :=
  | PeerNamespaceSelector (labels : gmap string string)
  | PeerPodSelector (labels : gmap string string)
  | PeerOther (peer : Opaque).
Record NetworkPolicyIngressRule := {
  npr_Ports : list (string * Z); npr_From : list NetworkPolicyPeer
}.
Record NetworkPolicy := {
  np_Meta : ObjectMeta;
  np_PodSelector : gmap string string;
  np_PolicyTypes : list string;
  np_Ingress : list NetworkPolicyIngressRule
}.

(** networking.k8s.io/v1 Ingress; a backend that is not a Service with a
    numbered port is passed through. *)
Inductive IngressBackend :=
  | BackendService (name : string) (port : Z)
  | BackendOther (backend : Opaque).
Record HTTPIngressPath := { hip_Path : string; hip_PathType : string; hip_Backend : IngressBackend }.
Record IngressRule := { ir_Host : string; ir_Paths : list HTTPIngressPath }.
Record IngressTLS := { tls_Hosts : list string; tls_SecretName : string }.
Record Ingress := {
  ing_Meta : ObjectMeta;
  ing_IngressClassName : option string;
  ing_Rules : list IngressRule;
  ing_TLS : list IngressTLS;
  ing_DefaultBackend : option IngressBackend
}.

(** gateway.networking.k8s.io/v1 HTTPRoute.  Of a rule: its path match and its
    one backend, as the operator builds them; of a parent's status: its
    conditions. *)
Record ParentReference := {
  pref_Group : option string; pref_Kind : option string; pref_Namespace : option string; pref_Name : string;
  pref_SectionName : option string; pref_Port : option Z
}.
Record HTTPRouteRule := {
  hrr_PathType : string; hrr_PathValue : string; hrr_BackendName : string; hrr_BackendPort : Z
}.
Record RouteParentStatus := { rps_Conditions : list Condition }.
Record HTTPRoute := {
  hr_Meta : ObjectMeta;
  hr_ParentRefs : list ParentReference;
  hr_Hostnames : list string;
  hr_Rules : list HTTPRouteRule;
  hr_Status_Parents : list RouteParentStatus
}.

Record ServiceAccount := { sa_Meta : ObjectMeta }.
Record PolicyRule := { rule_APIGroups : list string; rule_Resources : list string; rule_Verbs : list string }.
Record Role := { role_Meta : ObjectMeta; role_Rules : list PolicyRule }.
Record RoleBinding := { rb_Meta : ObjectMeta; rb_RoleRef : string; rb_Subjects : list NamespacedName }.

(** ** The library functions

    - meta.SetStatusCondition / FindStatusCondition keep one condition per type;
    - controllerutil.ContainsFinalizer / AddFinalizer / RemoveFinalizer;
    - controllerutil.SetControllerReference fails, with AlreadyOwnedError,
      exactly on an object that already carries another controller
      reference; otherwise it adds the owner's;
    - metav1.GetControllerOf is the first controller reference, if any;
    - a DNS-1123 subdomain has at most 253 characters;
    - retry.DefaultBackoff allows a positive number of attempts (4). *)

Definition ControllerRef (kind name uid : string) : OwnerReference :=
  {| or_Kind := kind; or_Name := name; or_UID := uid; or_Controller := true |}.

Class KubeLib := {
  FindStatusCondition : list Condition → string → option Condition;
  SetStatusCondition : list Condition → Condition → list Condition;
  ContainsFinalizer : list string → string → bool;
  AddFinalizer : list string → string → list string;
  RemoveFinalizer : list string → string → list string;
  SetControllerReference : OwnerReference → list OwnerReference → result (list OwnerReference);
  GetControllerOf : list OwnerReference → option OwnerReference;   (* metav1.GetControllerOf *)
  IsDNS1123Subdomain : string → bool;              (* validation.IsDNS1123Subdomain finds no error *)
  DefaultBackoff_Steps : nat;
  Quantity_IsZero : Quantity → bool;               (* resource.Quantity.IsZero *)
  Quantity_AsDec : Quantity → string;              (* q.AsDec().String() *)

  find_set_eq cs c : FindStatusCondition (SetStatusCondition cs c) (cType c) = Some c;
  find_set_ne cs c ty :
    ty ≠ cType c → FindStatusCondition (SetStatusCondition cs c) ty = FindStatusCondition cs ty;
  set_found cs c : FindStatusCondition cs (cType c) = Some c → SetStatusCondition cs c = cs;
  find_nil ty : FindStatusCondition [] ty = None;
  contains_finalizer fs f : ContainsFinalizer fs f = true ↔ f ∈ fs;
  elem_of_add_finalizer fs f g : g ∈ AddFinalizer fs f ↔ g ∈ fs ∨ g = f;
  elem_of_remove_finalizer fs f g : g ∈ RemoveFinalizer fs f ↔ g ∈ fs ∧ g ≠ f;
  set_controller_fresh o refs :
    Forall (fun r => or_Controller r = false) refs →
    ∃ refs', SetControllerReference o refs = Ok refs' ∧ o ∈ refs';
  get_controller refs o : GetControllerOf refs = Some o → o ∈ refs ∧ or_Controller o = true;
  get_no_controller refs : GetControllerOf refs = None → Forall (fun r => or_Controller r = false) refs;
  subdomain_length s : IsDNS1123Subdomain s = true → (String.length s <= 253)%nat;
  backoff_steps_pos : DefaultBackoff_Steps ≠ 0
}.

(** meta.IsStatusConditionTrue / IsStatusConditionFalse. *)
Definition IsStatusConditionTrue `{KubeLib} (cs : list Condition) (ty : string) : bool :=
  match FindStatusCondition cs ty with
  | Some c => bool_decide (cStatus c = ConditionTrue)
  | None => false
  end.

Definition IsStatusConditionFalse `{KubeLib} (cs : list Condition) (ty : string) : bool :=
  match FindStatusCondition cs ty with
  | Some c => bool_decide (cStatus c = ConditionFalse)
  | None => false
  end.

(** ** A concrete implementation *)

Module KubeImpl.
Fixpoint find (cs : list Condition) (ty : string) : option Condition :=
  match cs with
  | [] => None
  | c :: cs' => if (cType c =? ty)%string then Some c else find cs' ty
  end.

Fixpoint set (cs : list Condition) (c : Condition) : list Condition :=
  match cs with
  | [] => [c]
  | c' :: cs' => if (cType c' =? cType c)%string then c :: cs' else c' :: set cs' c
  end.

Lemma find_set_eq cs c : find (set cs c) (cType c) = Some c.
Proof.
  induction cs as [|c' cs IH]; cbn; [by rewrite String.eqb_refl|].
  destruct (String.eqb_spec (cType c') (cType c)) as [E|E]; cbn.
  - by rewrite String.eqb_refl.
  - rewrite (proj2 (String.eqb_neq _ _)); done.
Qed.

Lemma find_set_ne cs c ty : ty ≠ cType c → find (set cs c) ty = find cs ty.
Proof.
  intros Hne. induction cs as [|c' cs IH]; cbn.
  - rewrite (proj2 (String.eqb_neq _ _)); done.
  - destruct (String.eqb_spec (cType c') (cType c)) as [E|E]; cbn; [|by rewrite IH].
    rewrite E. rewrite (proj2 (String.eqb_neq (cType c) ty)); done.
Qed.

Lemma set_found cs c : find cs (cType c) = Some c → set cs c = cs.
Proof.
  induction cs as [|c' cs IH]; cbn; [done|].
  destruct (String.eqb_spec (cType c') (cType c)); [congruence|].
  intros; by rewrite IH.
Qed.

Definition set_controller (o : OwnerReference) (refs : list OwnerReference)
    : result (list OwnerReference) :=
  if forallb (fun r => negb (or_Controller r) || (or_UID r =? or_UID o)%string) refs
  then Ok (List.filter (fun r => negb (or_UID r =? or_UID o)%string) refs ++ [o])
  else Err (Leaf AlreadyOwnedError "object is already owned by another controller").

Definition subdomain_char (c : ascii) : bool :=
  let n := nat_of_ascii c in
  ((97 <=? n) && (n <=? 122) || (48 <=? n) && (n <=? 57) || (n =? 45) || (n =? 46))%nat.

Definition subdomain (s : string) : bool :=
  nonempty s && (String.length s <=? 253)%nat && forallb subdomain_char (bytes s).
End KubeImpl.

#[export] Program Instance kubelib_instance : KubeLib := {|
  FindStatusCondition := KubeImpl.find;
  SetStatusCondition := KubeImpl.set;
  ContainsFinalizer fs f := bool_decide (f ∈ fs);
  AddFinalizer := append_new;
  RemoveFinalizer fs f := filter (.≠ f) fs;
  SetControllerReference := KubeImpl.set_controller;
  DefaultBackoff_Steps := 4;
  Quantity_IsZero q := (q =? "0")%string;
  Quantity_AsDec q := q;
  GetControllerOf := List.find or_Controller;
  IsDNS1123Subdomain := KubeImpl.subdomain;
  find_set_eq := KubeImpl.find_set_eq;
  find_set_ne := KubeImpl.find_set_ne;
  set_found := KubeImpl.set_found;
  elem_of_add_finalizer := elem_of_append_new
|}.
Next Obligation. done. Qed.
Next Obligation. intros. by rewrite bool_decide_eq_true. Qed.
Next Obligation. intros. rewrite list_elem_of_filter. tauto. Qed.
Next Obligation.
  intros o refs Hrefs. unfold KubeImpl.set_controller.
  rewrite (proj2 (List.forallb_forall _ _)).
  - eexists; split; [done|]. set_solver.
  - intros r Hr%list_elem_of_In. rewrite Forall_forall in Hrefs. by rewrite Hrefs.
Qed.
Next Obligation. by intros refs o [Hin%list_elem_of_In Hc]%List.find_some. Qed.
Next Obligation.
  intros refs Hn. apply Forall_forall. intros r Hr%list_elem_of_In. by apply (List.find_none or_Controller refs).
Qed.
Next Obligation. intros s [[_ Hl]%andb_true_iff _]%andb_true_iff. by apply Nat.leb_le. Qed.
Next Obligation. done. Qed.

(** ** Condition lemmas shared by the controllers *)

Section Conditions.
Context `{KubeLib}.

Lemma is_true_set_eq cs c :
  IsStatusConditionTrue (SetStatusCondition cs c) (cType c) = bool_decide (cStatus c = ConditionTrue).
Proof. unfold IsStatusConditionTrue. by rewrite find_set_eq. Qed.

Lemma is_true_set_ne cs c ty :
  ty ≠ cType c → IsStatusConditionTrue (SetStatusCondition cs c) ty = IsStatusConditionTrue cs ty.
Proof. intros. unfold IsStatusConditionTrue. by rewrite find_set_ne. Qed.

Lemma set_idem cs c : SetStatusCondition (SetStatusCondition cs c) c = SetStatusCondition cs c.
Proof. apply set_found, find_set_eq. Qed.
End Conditions.

(** Reads conditions back through a chain of updates of concrete types. *)
Ltac find_conditions :=
  repeat first
    [ rewrite find_set_eq
    | match goal with
      | |- context [FindStatusCondition (SetStatusCondition ?cs ?c) ?ty] =>
          first [ change ty with (cType c); rewrite (find_set_eq cs c)
                | rewrite (find_set_ne cs c ty) by (cbn; congruence) ]
      end ].
