(* ===== verification/Types.v ===== *)
(** * The custom resources: TradeBot, Strategy, Backtest and FreqUI

    The Go types of api/v1alpha1 and api/v1beta1 (TradeBotConfig, which is much
    larger, is in [ConfigTypes]).  A sub-struct that is field-for-field
    identical in the two versions is declared once and used by both; the
    structs that differ - TradeBotSpec, FreqUISpec - are declared per
    version, in the Modules [V1alpha1] and [V1beta1].

    Conventions: a pointer is an [option]; the code never tells a nil slice or
    map of these types from an empty one (it ranges over them or takes their
    length), so they are plain lists and maps; a
    [metav1.Time] is its number of seconds, the resolution it is stored with;
    a [metav1.Duration] is its number of nanoseconds. *)

From S2P Require Import Prelude Kube.

Record LocalObjectReference := { lor_Name : string }.
#[export] Instance LocalObjectReference_eq_dec : EqDecision LocalObjectReference.
Proof. solve_decision. Defined.

(** ** Sub-structs shared by the two versions *)

Record IntrospectionSpec := { in_Enabled : option bool; in_Interval : Z }.

Record TBNetworkPolicySpec := { tnp_ExtraPeers : list NetworkPolicyPeer }.

(** v1alpha1.PodSpec / v1beta1.TradeBotPodSpec *)
Record TradeBotPodSpec := {
  tps_Image : string;
  tps_Resources : ResourceRequirements;
  tps_Env : list EnvVar;
  tps_VolumeMounts : list VolumeMount;
  tps_Volumes : list Volume;
  tps_SecurityContext : option PodSecurityContext;
  tps_InitContainers : list Container;
  tps_ServiceName : string;
  tps_ImagePullSecrets : list string;
  tps_LivenessProbe : option Probe;
  tps_ReadinessProbe : option Probe;
  tps_Affinity : option Affinity;
  tps_AntiAffinity : option Opaque;
  tps_NodeSelector : gmap string string;
  tps_Tolerations : list Opaque;
  tps_TopologySpreadConstraints : list Opaque
}.

Record ServiceSpec := {
  ss_Type : string;
  ss_Ports : list ServicePort;
  ss_Selector : gmap string string;
  ss_Annotations : gmap string string
}.

Record PVCSpec := {
  pvs_AccessModes : list string;
  pvs_StorageSize : option Quantity;
  pvs_StorageClassName : string;
  pvs_VolumeName : string;
  pvs_Annotations : gmap string string;
  pvs_Labels : gmap string string;
  pvs_FixVolumePermissions : option bool
}.

Record TBAppConfig := {
  ta_PodSpec : option TradeBotPodSpec;
  ta_ServiceSpec : option ServiceSpec;
  ta_PVCSpec : option PVCSpec;
  ta_NetworkPolicySpec : option TBNetworkPolicySpec
}.

(** [DataCacheSpec] of v1alpha1, [DataSourceSpec] of v1beta1. *)
Record DataSourceSpec := {
  ds_PVCName : string;
  ds_DownloadArgs : list string;
  ds_DownloadPolicy : string
}.

Record BotStatus := {
  bs_State : string;
  bs_Version : string;
  bs_DryRun : option bool;
  bs_OpenTrades : option Z;
  bs_MaxOpenTrades : option Z;
  bs_TotalProfitAbs : string;
  bs_TotalProfitPct : string;
  bs_LastPollTime : option Z;
  bs_LastPollError : string
}.
#[export] Instance BotStatus_eq_dec : EqDecision BotStatus.
Proof. solve_decision. Defined.

Record TradeBotStatus := {
  tst_Phase : string;
  tst_Message : string;
  tst_Conditions : list Condition;
  tst_ObservedGeneration : Z;
  tst_AppliedConfigHash : string;
  tst_ResolvedImage : string;
  tst_Bot : option BotStatus
}.
#[export] Instance TradeBotStatus_eq_dec : EqDecision TradeBotStatus.
Proof. solve_decision. Defined.

Definition ZeroTradeBotStatus : TradeBotStatus :=
  {| tst_Phase := ""; tst_Message := ""; tst_Conditions := []; tst_ObservedGeneration := 0;
     tst_AppliedConfigHash := ""; tst_ResolvedImage := ""; tst_Bot := None |}.

Record StrategySpec := { sspec_Name : string; sspec_Script : string }.

Record StrategyStatus := {
  sst_Phase : string;
  sst_Message : string;
  sst_Conditions : list Condition;
  sst_ObservedGeneration : Z
}.
#[export] Instance StrategyStatus_eq_dec : EqDecision StrategyStatus.
Proof. solve_decision. Defined.

Record Strategy := {
  str_Meta : ObjectMeta; str_Spec : StrategySpec; str_Status : StrategyStatus
}.

(** ** FreqUI *)

Inductive FUExposureType := FUExposureUnset | FUExposureIngress | FUExposureGateway | FUExposureNone.
#[export] Instance FUExposureType_eq_dec : EqDecision FUExposureType.
Proof. solve_decision. Defined.

Record FUGatewaySpec := {
  fg_ParentRefs : list ParentReference;
  fg_Hostnames : list string;
  fg_Annotations : gmap string string;
  fg_Labels : gmap string string
}.

Record FUPodSpec := {
  fp_Image : string;
  fp_Resources : ResourceRequirements;
  fp_Env : list EnvVar;
  fp_VolumeMounts : list VolumeMount;
  fp_Volumes : list Volume;
  fp_SecurityContext : option PodSecurityContext;
  fp_InitContainers : list Container;
  fp_ImagePullSecrets : list string;
  fp_LivenessProbe : option Probe;
  fp_ReadinessProbe : option Probe;
  fp_Affinity : option Affinity;
  fp_AntiAffinity : option Opaque;
  fp_NodeSelector : gmap string string;
  fp_Tolerations : list Opaque;
  fp_TopologySpreadConstraints : list Opaque;
  fp_Replicas : option Z
}.

Record FUServiceSpec := {
  fs_Type : string;
  fs_Ports : list ServicePort;
  fs_Selector : gmap string string;
  fs_Annotations : gmap string string;
  fs_LoadBalancerSourceRanges : list string;
  fs_ExternalTrafficPolicy : string;
  fs_SessionAffinity : string
}.

Record FUIngressSpec := {
  fi_IngressClassName : option string;
  fi_Rules : list IngressRule;
  fi_TLS : list IngressTLS;
  fi_DefaultBackend : option IngressBackend;
  fi_Annotations : gmap string string
}.

Record FUAppConfig := {
  fa_PodSpec : option FUPodSpec;
  fa_ServiceSpec : option FUServiceSpec;
  fa_IngressSpec : option FUIngressSpec
}.

Record FreqUIStatus := {
  fst_Phase : string;
  fst_Message : string;
  fst_URL : string;
  fst_Conditions : list Condition;
  fst_ObservedGeneration : Z
}.
#[export] Instance FreqUIStatus_eq_dec : EqDecision FreqUIStatus.
Proof. solve_decision. Defined.

Definition ZeroFreqUIStatus : FreqUIStatus :=
  {| fst_Phase := ""; fst_Message := ""; fst_URL := ""; fst_Conditions := [];
     fst_ObservedGeneration := 0 |}.

(** ** The versions *)

Module V1alpha1.
Record TradeBotSpec := {
  FreqtradeCommand : string;
  FreqtradeArguments : list string;
  Config : string;
  StrategyName : string;                 (* the Go field is Strategy *)
  App : option TBAppConfig;
  Data : option DataSourceSpec;
  UpdateStrategy : string;
  Introspection : option IntrospectionSpec
}.

Record TradeBot := { Meta : ObjectMeta; Spec : TradeBotSpec; Status : TradeBotStatus }.

Definition with_Meta (t : TradeBot) (m : ObjectMeta) : TradeBot :=
  {| Meta := m; Spec := Spec t; Status := Status t |}.
Definition with_Status (t : TradeBot) (s : TradeBotStatus) : TradeBot :=
  {| Meta := Meta t; Spec := Spec t; Status := s |}.

(** An object variable before anything is decoded or converted into it. *)
Definition ZeroSpec : TradeBotSpec :=
  {| FreqtradeCommand := ""; FreqtradeArguments := []; Config := ""; StrategyName := "";
     App := None; Data := None; UpdateStrategy := ""; Introspection := None |}.

Record FreqUISpec := {
  Host : string;
  TLS : list IngressTLS;
  IngressAnnotations : gmap string string;
  FUApp : option FUAppConfig;            (* the Go field is App *)
  TradeBotRefs : list string;
  Exposure : FUExposureType;
  Gateway : option FUGatewaySpec
}.

Record FreqUI := { fu_Meta : ObjectMeta; fu_Spec : FreqUISpec; fu_Status : FreqUIStatus }.
End V1alpha1.

Module V1beta1.
Definition TradeBotStateRunning : string := "Running".
Definition TradeBotStateStopped : string := "Stopped".

Record TradeBotSpec := {
  ConfigRef : LocalObjectReference;
  StrategyRef : LocalObjectReference;
  App : option TBAppConfig;
  UpdateStrategy : string;
  Introspection : option IntrospectionSpec;
  State : string
}.

Record TradeBot := { Meta : ObjectMeta; Spec : TradeBotSpec; Status : TradeBotStatus }.

Definition with_Meta (t : TradeBot) (m : ObjectMeta) : TradeBot :=
  {| Meta := m; Spec := Spec t; Status := Status t |}.
Definition with_Status (t : TradeBot) (s : TradeBotStatus) : TradeBot :=
  {| Meta := Meta t; Spec := Spec t; Status := s |}.

Record FreqUISpec := {
  Host : string;
  TLS : list IngressTLS;
  IngressAnnotations : gmap string string;
  FUApp : option FUAppConfig;            (* the Go field is App *)
  TradeBotRefs : list LocalObjectReference;
  Exposure : FUExposureType;
  Gateway : option FUGatewaySpec
}.

Record FreqUI := { fu_Meta : ObjectMeta; fu_Spec : FreqUISpec; fu_Status : FreqUIStatus }.
End V1beta1.

(** ** Backtest (v1beta1 only) *)

Record ResultsSpec := {
  rs_Size : Quantity;
  rs_StorageClassName : option string;
  rs_RetentionPolicy : string
}.

(** v1beta1.PodSpec *)
Record BacktestPodSpec := {
  bp_Image : string;
  bp_Resources : ResourceRequirements;
  bp_Env : list EnvVar;
  bp_VolumeMounts : list VolumeMount;
  bp_Volumes : list Volume;
  bp_SecurityContext : option PodSecurityContext;
  bp_InitContainers : list Container;
  bp_ImagePullSecrets : list string;
  bp_Affinity : option Affinity;
  bp_NodeSelector : gmap string string;
  bp_Tolerations : list Opaque;
  bp_TopologySpreadConstraints : list Opaque
}.

Record RunSpec := {
  run_ConfigRef : LocalObjectReference;
  run_StrategyRef : LocalObjectReference;
  run_Timerange : string;
  run_Timeframe : string;
  run_Pairs : list string;
  run_Data : option DataSourceSpec;
  run_Results : option ResultsSpec;
  run_Pod : option BacktestPodSpec;
  run_TTLSecondsAfterFinished : option Z;
  run_ExtraArgs : list string
}.

Record BacktestSpec := {
  bt_RunSpec : RunSpec;
  bt_TimeframeDetail : string;
  bt_MaxOpenTrades : option Z;
  bt_StakeAmount : string;
  bt_DryRunWallet : option Quantity;
  bt_Fee : option string;
  bt_EnableProtections : option bool;
  bt_Breakdown : list string;
  bt_Cache : string
}.

Record BacktestResults := {
  br_TotalTrades : Z;
  br_ProfitAbs : string;
  br_ProfitPct : string;
  br_WinRatePct : string;
  br_MaxDrawdownPct : string;
  br_SharpeRatio : string;
  br_SortinoRatio : string;
  br_CAGRPct : string;
  br_BestPair : string;
  br_WorstPair : string;
  br_ResultFile : string
}.
#[export] Instance BacktestResults_eq_dec : EqDecision BacktestResults.
Proof. solve_decision. Defined.

Record BacktestStatus := {
  bst_Phase : string;
  bst_Message : string;
  bst_Conditions : list Condition;
  bst_ObservedGeneration : Z;
  bst_JobName : string;
  bst_ResultsPVCName : string;
  bst_StartTime : option Z;
  bst_CompletionTime : option Z;
  bst_Results : option BacktestResults
}.
#[export] Instance BacktestStatus_eq_dec : EqDecision BacktestStatus.
Proof. solve_decision. Defined.

Record Backtest := {
  bt_Meta : ObjectMeta; bt_Spec : BacktestSpec; bt_Status : BacktestStatus
}.

(** ** Condition types and reasons *)

Definition ConditionReady : string := "Ready".
Definition ConditionConfigResolved : string := "ConfigResolved".
Definition ConditionWorkloadReady : string := "WorkloadReady".
Definition ConditionWorkloadImmutable : string := "WorkloadImmutable".
Definition ConditionTradeBotRefsResolved : string := "TradeBotRefsResolved".
Definition ConditionConfigDrift : string := "ConfigDrift".
Definition ConditionBotReachable : string := "BotReachable".
Definition ConditionStateReconciled : string := "StateReconciled".
Definition ConditionExposureReady : string := "ExposureReady".
Definition ConditionResultsAvailable : string := "ResultsAvailable".

Definition ReasonReferenceNotFound : string := "ReferenceNotFound".
Definition ReasonConfigInvalid : string := "ConfigInvalid".
Definition ReasonSecretMissing : string := "SecretMissing".
Definition ReasonWorkloadProgressing : string := "WorkloadProgressing".
Definition ReasonWorkloadFailed : string := "WorkloadFailed".
Definition ReasonWorkloadSucceeded : string := "WorkloadSucceeded".
Definition ReasonReconcileError : string := "ReconcileError".
Definition ReasonJobModeRemoved : string := "JobModeRemoved".
Definition ReasonPendingRestart : string := "PendingRestart".
Definition ReasonUnresolvableTradeBotRefs : string := "UnresolvableTradeBotRefs".
Definition ReasonConnectionRefused : string := "ConnectionRefused".
Definition ReasonAuthFailed : string := "AuthFailed".
Definition ReasonTimeout : string := "Timeout".
Definition ReasonIntrospectionDisabled : string := "IntrospectionDisabled".
Definition ReasonBotUnreachable : string := "BotUnreachable".
Definition ReasonStateChangePending : string := "StateChangePending".
Definition ReasonStateChangeFailed : string := "StateChangeFailed".
Definition ReasonGatewayAPINotInstalled : string := "GatewayAPINotInstalled".
Definition ReasonRouteNameConflict : string := "RouteNameConflict".
Definition ReasonRoutePending : string := "RoutePending".
Definition ReasonRouteNotAccepted : string := "RouteNotAccepted".
Definition ReasonAsExpected : string := "AsExpected".
Definition ReasonExposureNone : string := "ExposureNone".
Definition ReasonWorkloadHealthy : string := "WorkloadHealthy".
Definition ReasonResultsUnavailable : string := "ResultsUnavailable".
