(* ===== verification/ConfigTypes.v ===== *)
(** * TradeBotConfig: the typed form of freqtrade's config.json

    The Go types of api/v1alpha1/tradebotconfig_types.go and their v1beta1
    counterparts.  Every section is field-for-field identical in the two
    versions except the three that hold credentials: [ExchangeSpec],
    [APIServerConfig] and [NotificationTelegram], declared per version in the
    Modules [ConfigV1alpha1] and [ConfigV1beta1].

    A slice or map that the code compares with nil - PairListSpec.Pairs,
    RiskManagementSpec.MinimalROI, .BacktestBreakdown and the pointer
    .StartupCandle - is an [option]; the others are plain lists, as only their
    elements and their length are used.  A float64 is a [spec_float] (which
    has the infinities and NaN).  An apiextensionsv1.JSON is its raw text,
    [""] when nil. *)

From S2P Require Import Prelude GoLib Kube Types.

(** ** Sections shared by the two versions *)

Record BotConfig := {
  bc_BotName : string;
  bc_TradingMode : string;
  bc_DryRun : option bool;
  bc_DryRunWallet : option float64;
  bc_StakeCurrency : string;
  bc_StakeAmount : string;
  bc_MaxOpenTrades : option Z;
  bc_FiatDisplayCurrency : string;
  bc_DBUrl : string;
  bc_Export : string;
  bc_DisableParamExport : option bool;
  bc_DisableDataframeChecks : option bool
}.

Record SVMParams := {
  svm_Shuffle : option bool;
  svm_Nu : option float64
}.

Record FeatureParameters := {
  fpar_IncludeCorrPairlist : list string;
  fpar_IncludeTimeframes : list string;
  fpar_LabelPeriodCandles : option Z;
  fpar_IncludeShiftedCandles : option Z;
  fpar_DIThreshold : option float64;
  fpar_WeightFactor : option float64;
  fpar_PrincipalComponentAnalysis : option bool;
  fpar_IndicatorPeriodsCandles : list Z;
  fpar_UseSVMToRemoveOutliers : option bool;
  fpar_PlotFeatureImportances : option Z;
  fpar_SVMParams : option SVMParams;
  fpar_ShuffleAfterSplit : option bool;
  fpar_BufferTrainDataCandles : option Z
}.

Record DataSplitParameters := {
  dsp_TestSize : option float64;
  dsp_RandomState : option Z;
  dsp_Shuffle : option bool
}.

(** A struct without fields, [{}] in JSON. *)
Inductive ModelTrainingParameters := ModelTrainingParameters_empty.

Record ModelRewardParameters := {
  mrp_RR : option float64;
  mrp_ProfitAim : option float64
}.

Record RLConfig := {
  rl_DropOHLCFromFeatures : option bool;
  rl_TrainCycles : option Z;
  rl_MaxTradeDurationCandles : option Z;
  rl_AddStateInfo : option bool;
  rl_MaxTrainingDrawdownPct : option float64;
  rl_CPUCount : option Z;
  rl_ModelType : string;
  rl_PolicyType : string;
  rl_NetArch : list Z;
  rl_RandomizeStartingPosition : option bool;
  rl_ProgressBar : option bool;
  rl_ModelRewardParameters : option ModelRewardParameters
}.

Record AIConfig := {
  ai_Enabled : option bool;
  ai_Identifier : string;
  ai_WriteMetricsToDisk : option bool;
  ai_PurgeOldModels : option Z;
  ai_ConvWidth : option Z;
  ai_TrainPeriodDays : option Z;
  ai_BacktestPeriodDays : option Z;
  ai_LiveRetrainHours : option Z;
  ai_ExpirationHours : option Z;
  ai_SaveBacktestModels : option bool;
  ai_FitLivePredictionsCandles : option Z;
  ai_DataKitchenThreadCount : option Z;
  ai_ActivateTensorboard : option bool;
  ai_WaitForTrainingIterationOnReload : option bool;
  ai_ContinueLearning : option bool;
  ai_Keras : option bool;
  ai_FeatureParameters : option FeatureParameters;
  ai_DataSplitParameters : option DataSplitParameters;
  ai_ModelTrainingParameters : option ModelTrainingParameters;
  ai_RLConfig : option RLConfig
}.

Record DataConfig := {
  dc_DataformatOHLCV : string;
  dc_DataformatTrades : string;
  dc_PositionAdjustment : string;
  dc_NewPairsDaysAgo : option Z;
  dc_DownloadTrades : option bool;
  dc_MaxEntryPositionAdjustment : option float64;
  dc_AvailableCapital : option float64;
  dc_AmendLastStakeAmount : option bool;
  dc_LastStakeAmountMinRatio : option float64;
  dc_ProcessOnlyNewCandles : option bool;
  dc_AmountReservePercent : option float64;
  dc_ReduceDfFootprint : option bool;
  dc_CustomPriceMaxDistanceRatio : option float64
}.

Record AdvancedConfig := {
  adv_TradableBalanceRatio : option float64;
  adv_CancelOpenOrdersOnExit : option bool;
  adv_MarginMode : string;
  adv_InitialState : string;
  adv_ForceEntryEnable : option bool
}.

Record UnfilledTimeoutConfig := {
  uto_Entry : option Z;
  uto_Exit : option Z;
  uto_ExitTimeoutCount : option Z;
  uto_Unit : string
}.

Record InternalsConfig := {
  int_ProcessThrottleSecs : option Z;
  int_Interval : option Z;
  int_SdNotify : option bool
}.

Record PairListSpec := {
  pl_Pairs : option (list string)
}.

(** The named constants of the string type PairlistMethod. *)
Definition StaticPairList : string := "StaticPairList".
Definition VolumePairList : string := "VolumePairList".
Definition PercentChangePairList : string := "PercentChangePairList".
Definition ProducerPairList : string := "ProducerPairList".
Definition RemotePairList : string := "RemotePairList".
Definition MarketCapPairList : string := "MarketCapPairList".
Definition AgeFilter : string := "AgeFilter".
Definition FullTradesFilter : string := "FullTradesFilter".
Definition OffsetFilter : string := "OffsetFilter".
Definition PerformanceFilter : string := "PerformanceFilter".
Definition PrecisionFilter : string := "PrecisionFilter".
Definition PriceFilter : string := "PriceFilter".
Definition ShuffleFilter : string := "ShuffleFilter".
Definition SpreadFilter : string := "SpreadFilter".
Definition RangeStabilityFilter : string := "RangeStabilityFilter".
Definition VolatilityFilter : string := "VolatilityFilter".

Record PairlistConfig := {
  pm_Method : string;
  pm_NumberAssets : option Z;
  pm_RefreshPeriod : option Z;
  pm_AllowInactive : bool;
  pm_SortKey : string;
  pm_LookbackTimeframe : string;
  pm_LookbackPeriod : option Z;
  pm_LookbackDays : option Z;
  pm_MinChangeRate : option float64;
  pm_ProducerName : string;
  pm_Mode : string;
  pm_ProcessingMode : string;
  pm_PairlistURL : string;
  pm_KeepPairlistOnFailure : option bool;
  pm_ReadTimeout : option Z;
  pm_BearerToken : string;
  pm_SaveToFile : string;
  pm_MaxRank : option Z;
  pm_Categories : list string;
  pm_MinDaysListed : option Z;
  pm_MaxDaysListed : option Z;
  pm_MinPrice : option float64;
  pm_MaxPrice : option float64;
  pm_MaxSpreadRatio : option float64;
  pm_LookbackDaysRange : option Z;
  pm_MinRateOfChange : option float64;
  pm_MaxRateOfChange : option float64;
  pm_LookbackDaysVolatility : option Z;
  pm_MinVolatility : option float64;
  pm_MaxVolatility : option float64;
  pm_Offset : option Z;
  pm_ShuffleFrequency : string;
  pm_Seed : option Z;
  pm_Minutes : option Z;
  pm_MinProfit : option float64
}.

Record PairlistMethodsSpec := {
  pms_Methods : list PairlistConfig
}.

Record PricingCheckDepthOfMarket := {
  dom_Enabled : option bool;
  dom_BidsToAskDelta : option float64
}.

Record PricingSpec := {
  pri_PriceSide : string;
  pri_PriceLastBalance : option float64;
  pri_UseOrderBook : option bool;
  pri_OrderBookTop : option Z;
  pri_CheckDepthOfMarket : option PricingCheckDepthOfMarket
}.

Record OrderTypes := {
  ot_Entry : string;
  ot_Exit : string;
  ot_EmergencyExit : string;
  ot_ForceEntry : string;
  ot_ForceExit : string;
  ot_Stoploss : string;
  ot_StoplossOnExchange : option bool;
  ot_StoplossOnExchangeInterval : option Z;
  ot_StoplossOnExchangeLimitRatio : option float64
}.

Record TimeInForce := {
  tif_Entry : string;
  tif_Exit : string
}.

Record Flow := {
  fl_CacheSize : option Z;
  fl_MaxCandles : option Z;
  fl_Scale : option float64;
  fl_StackedImbalanceRange : option Z;
  fl_ImbalanceVolume : option Z;
  fl_ImbalanceRatio : option float64
}.

Record OrderSpec := {
  ord_Types : option OrderTypes;
  ord_TimeInForce : option TimeInForce;
  ord_Flow : option Flow
}.

Record RiskManagementSpec := {
  rm_MinimalROI : option (gmap string (option float64));
  rm_Stoploss : option float64;
  rm_TrailingStop : bool;
  rm_TrailingStopPositive : option float64;
  rm_TrailingStopPositiveOffset : option float64;
  rm_TrailingOnlyOffsetIsReached : bool;
  rm_UseExitSignal : bool;
  rm_ExitProfitOnly : bool;
  rm_ExitProfitOffset : option float64;
  rm_Fee : option float64;
  rm_IgnoreRoiIfEntrySignal : bool;
  rm_IgnoreBuyingExpiredCandleAfter : option Z;
  rm_MinimumTradeAmount : option Z;
  rm_TargetedTradeAmount : option Z;
  rm_LookaheadAnalysisExportFilename : string;
  rm_StartupCandle : option (list Z);
  rm_LiquidationBuffer : option float64;
  rm_BacktestBreakdown : option (list string)
}.

Record ExperimentalConfig := {
  exp_BlockBadExchanges : option bool
}.

Record LoggingConfig := {
  log_Version : option Z
}.

Record NotificationTelegramSettings := {
  nts_Status : string;
  nts_Warning : string;
  nts_Startup : string;
  nts_Entry : string;
  nts_EntryFill : string;
  nts_EntryCancel : string;
  nts_Exit : string;
  nts_ExitFill : string;
  nts_ExitCancel : string;
  nts_ProtectionTrigger : string;
  nts_ProtectionTriggerGlobal : string
}.

Record NotificationWebhook := {
  nw_Enabled : option bool;
  nw_URL : string;
  nw_Entry : string;
  nw_EntryCancel : string;
  nw_EntryFill : string;
  nw_Exit : string;
  nw_ExitCancel : string;
  nw_ExitFill : string;
  nw_Status : string;
  nw_AllowCustomMessages : option bool
}.

Record NotificationDiscord := {
  nd_Enabled : option bool;
  nd_WebhookURL : string;
  nd_ExitFill : list (gmap string string);
  nd_EntryFill : list (gmap string string)
}.

Record TradeBotConfigStatus := {
  tcs_Phase : string;
  tcs_Message : string;
  tcs_Conditions : list Condition;
  tcs_ObservedGeneration : Z
}.
#[export] Instance TradeBotConfigStatus_eq_dec : EqDecision TradeBotConfigStatus.
Proof. solve_decision. Defined.

(** ** The versions *)

Module ConfigV1alpha1.
Record ExchangeSpec := {
  ex_Name : string;
  ex_Key : string;
  ex_Secret : string;
  ex_Password : string;
  ex_UID : string;
  ex_AccountID : string;
  ex_WalletAddress : string;
  ex_PrivateKey : string;
  ex_SecretRef : string;
  ex_CcxtConfig : string;
  ex_CcxtAsyncConfig : string;
  ex_CcxtSyncConfig : string;
  ex_Whitelist : option PairListSpec;
  ex_Blacklist : option PairListSpec;
  ex_LogResponses : option bool;
  ex_EnableWS : option bool;
  ex_UnkownFeeRate : option bool;
  ex_OutdatedOffset : option Z;
  ex_MarketRefreshInterval : option Z
}.

Record APIServerConfig := {
  api_Enabled : option bool;
  api_ListenIP : string;
  api_ListenPort : option Z;
  api_Verbosity : string;
  api_EnableOpenAPI : option bool;
  api_Username : string;
  api_Password : string;
  api_JWTSecretKey : string;
  api_SecretRef : string;
  api_CORSOrigins : list string
}.

Record NotificationTelegram := {
  nt_Enabled : option bool;
  nt_Token : string;
  nt_SecretRef : string;
  nt_BalanceDustLevel : option float64;
  nt_Reload : option bool;
  nt_AllowCustomMessages : option bool;
  nt_ChatID : string;
  nt_TopicID : string;
  nt_AuthorizedUsers : list string;
  nt_Settings : option NotificationTelegramSettings
}.

Record NotificationSpec := {
  no_Telegram : option NotificationTelegram;
  no_Webhook : option NotificationWebhook;
  no_Discord : option NotificationDiscord
}.

Record TradeBotConfigSpec := {
  tc_Bot : option BotConfig;
  tc_AI : option AIConfig;
  tc_Data : option DataConfig;
  tc_Advanced : option AdvancedConfig;
  tc_Timeout : option UnfilledTimeoutConfig;
  tc_Internals : option InternalsConfig;
  tc_Exchange : option ExchangeSpec;
  tc_Pairlist : option PairListSpec;
  tc_PairlistMethod : option PairlistMethodsSpec;
  tc_EntryPricing : option PricingSpec;
  tc_ExitPricing : option PricingSpec;
  tc_Order : option OrderSpec;
  tc_RiskManagement : option RiskManagementSpec;
  tc_Notification : option NotificationSpec;
  tc_APIServer : option APIServerConfig;
  tc_Experimental : option ExperimentalConfig;
  tc_Logging : option LoggingConfig
}.

Record TradeBotConfig := {
  Meta : ObjectMeta; Spec : TradeBotConfigSpec; Status : TradeBotConfigStatus
}.
End ConfigV1alpha1.

Module ConfigV1beta1.
Record ExchangeSpec := {
  ex_Name : string;
  ex_AccountID : string;
  ex_SecretRef : LocalObjectReference;
  ex_CcxtConfig : string;
  ex_CcxtAsyncConfig : string;
  ex_CcxtSyncConfig : string;
  ex_Whitelist : option PairListSpec;
  ex_Blacklist : option PairListSpec;
  ex_LogResponses : option bool;
  ex_EnableWS : option bool;
  ex_UnknownFeeRate : option bool;
  ex_OutdatedOffset : option Z;
  ex_MarketRefreshInterval : option Z
}.

Record APIServerConfig := {
  api_Enabled : option bool;
  api_ListenIP : string;
  api_ListenPort : option Z;
  api_Verbosity : string;
  api_EnableOpenAPI : option bool;
  api_Username : string;
  api_SecretRef : LocalObjectReference;
  api_CORSOrigins : list string
}.

Record NotificationTelegram := {
  nt_Enabled : option bool;
  nt_SecretRef : LocalObjectReference;
  nt_BalanceDustLevel : option float64;
  nt_Reload : option bool;
  nt_AllowCustomMessages : option bool;
  nt_ChatID : string;
  nt_TopicID : string;
  nt_AuthorizedUsers : list string;
  nt_Settings : option NotificationTelegramSettings
}.

Record NotificationSpec := {
  no_Telegram : option NotificationTelegram;
  no_Webhook : option NotificationWebhook;
  no_Discord : option NotificationDiscord
}.

Record TradeBotConfigSpec := {
  tc_Bot : option BotConfig;
  tc_AI : option AIConfig;
  tc_Data : option DataConfig;
  tc_Advanced : option AdvancedConfig;
  tc_Timeout : option UnfilledTimeoutConfig;
  tc_Internals : option InternalsConfig;
  tc_Exchange : option ExchangeSpec;
  tc_Pairlist : option PairListSpec;
  tc_PairlistMethod : option PairlistMethodsSpec;
  tc_EntryPricing : option PricingSpec;
  tc_ExitPricing : option PricingSpec;
  tc_Order : option OrderSpec;
  tc_RiskManagement : option RiskManagementSpec;
  tc_Notification : option NotificationSpec;
  tc_APIServer : option APIServerConfig;
  tc_Experimental : option ExperimentalConfig;
  tc_Logging : option LoggingConfig
}.

Record TradeBotConfig := {
  Meta : ObjectMeta; Spec : TradeBotConfigSpec; Status : TradeBotConfigStatus
}.
End ConfigV1beta1.
