(* ===== verification/Conversion.v ===== *)
(** * Conversion between the API versions

    api/v1alpha1/tradebot_conversion.go, tradebotconfig_conversion.go,
    strategy_conversion.go and frequi_conversion.go.  v1beta1 is the storage
    version (the hub); [ConvertTo] goes up to it and [ConvertFrom] down.  Both
    write into an existing destination object, as the Go methods do: a field
    they never assign keeps the destination's value. *)

From S2P Require Import Prelude GoLib Kube Types ConfigTypes.

(** ** convertJSON

    json.Marshal followed by json.Unmarshal between two structs with the same
    fields and json tags.  Two things happen to the value: Marshal refuses a
    non-finite float64 anywhere in it, and [omitempty] drops an empty (but
    non-nil) slice or map, which comes back nil.  [json_floats] lists the
    float64s of a value in encoding order, [json_norm] is the value after the
    trip.  WireTypes.v derives both from the types and their tags. *)

Class JsonRoundTrip (A : Type) := {
  json_floats : A → list float64;
  json_norm : A → A
}.
#[global] Arguments json_norm {A _} a : simpl never.

Definition convertJSON `{JsonRoundTrip A} (src : A) : result A :=
  match List.find (fun f => negb (is_finite f)) (json_floats src) with
  | Some f => Err (Wrap "marshaling for conversion"
                     (Errorf ("json: unsupported value: " ^^ fmt_nonfinite f)))
  | None => Ok (json_norm src)
  end.

(** [if src.F != nil { var v T; if err := convertJSON(src.F, &v); err != nil
    { return fmt.Errorf("<pre>: %w", err) }; dst.F = &v }] *)
Definition convert_field `{JsonRoundTrip A} (pre : string) (src dst : option A) : result (option A) :=
  match src with
  | None => Ok dst
  | Some a => Some <$> wrap_err pre (convertJSON a)
  end.

Section RoundTripLaws.
Context `{JsonRoundTrip A}.

Lemma convertJSON_ok (a b : A) :
  convertJSON a = Ok b ↔ Forall (fun f => is_finite f = true) (json_floats a) ∧ b = json_norm a.
Proof.
  unfold convertJSON. destruct (List.find _ _) as [f|] eqn:Hf.
  - apply List.find_some in Hf as [Hin%list_elem_of_In Hf]. split; [done|].
    intros [Hall _]. rewrite Forall_forall in Hall. apply Hall in Hin. by rewrite Hin in Hf.
  - split; [|by intros [_ ->]]. intros [= <-]. split; [|done].
    apply Forall_forall. intros f Hin%list_elem_of_In.
    apply (List.find_none _ _ Hf) in Hin. by apply negb_false_iff.
Qed.

Lemma convert_field_fresh pre src b :
  convert_field pre src None = Ok b ↔
  (∀ a, src = Some a → Forall (fun f => is_finite f = true) (json_floats a)) ∧
  b = json_norm <$> src.
Proof.
  destruct src as [a|]; cbn.
  - destruct (convertJSON a) as [a'|e] eqn:E; cbn.
    + apply convertJSON_ok in E as [Hf ->]. split.
      * intros [= <-]. split; [by intros ? [= <-]|done].
      * by intros [_ ->].
    + split; [done|]. intros [Hf _]. specialize (Hf _ eq_refl).
      by rewrite (proj2 (convertJSON_ok a _) (conj Hf eq_refl)) in E.
  - split; [intros [= <-]; split; [intros; congruence|done]|by intros [_ ->]].
Qed.

Lemma convert_field_nil pre (dst : option A) : convert_field pre None dst = Ok dst.
Proof. done. Qed.
End RoundTripLaws.

(** Structs without floats and without a slice or map the code tells nil from
    empty pass through unchanged. *)
Definition plain_round_trip {A} : JsonRoundTrip A := {| json_floats _ := []; json_norm a := a |}.

Definition opt_list {A} (o : option A) : list A := match o with Some a => [a] | None => [] end.
Definition opt_floats `{JsonRoundTrip A} (o : option A) : list float64 :=
  match o with Some a => json_floats a | None => [] end.

(** [omitempty] on a slice or map: the empty one is not encoded. *)
Definition omit_empty_list {A} (o : option (list A)) : option (list A) :=
  match o with Some [] => None | o => o end.
Definition omit_empty_map {A} (o : option (gmap string A)) : option (gmap string A) :=
  match o with Some m => if decide (m = ∅) then None else Some m | None => None end.

#[export] Instance TBAppConfig_json : JsonRoundTrip TBAppConfig := plain_round_trip.
#[export] Instance IntrospectionSpec_json : JsonRoundTrip IntrospectionSpec := plain_round_trip.
#[export] Instance BotStatus_json : JsonRoundTrip BotStatus := plain_round_trip.
#[export] Instance StrategySpec_json : JsonRoundTrip StrategySpec := plain_round_trip.
#[export] Instance FUAppConfig_json : JsonRoundTrip FUAppConfig := plain_round_trip.
#[export] Instance FUGatewaySpec_json : JsonRoundTrip FUGatewaySpec := plain_round_trip.
#[export] Instance UnfilledTimeoutConfig_json : JsonRoundTrip UnfilledTimeoutConfig := plain_round_trip.
#[export] Instance InternalsConfig_json : JsonRoundTrip InternalsConfig := plain_round_trip.
#[export] Instance ExperimentalConfig_json : JsonRoundTrip ExperimentalConfig := plain_round_trip.
#[export] Instance LoggingConfig_json : JsonRoundTrip LoggingConfig := plain_round_trip.
#[export] Instance NotificationTelegramSettings_json : JsonRoundTrip NotificationTelegramSettings := plain_round_trip.
#[export] Instance NotificationWebhook_json : JsonRoundTrip NotificationWebhook := plain_round_trip.
#[export] Instance NotificationDiscord_json : JsonRoundTrip NotificationDiscord := plain_round_trip.

#[export] Instance BotConfig_json : JsonRoundTrip BotConfig :=
  {| json_floats b := opt_list (bc_DryRunWallet b); json_norm b := b |}.
#[export] Instance SVMParams_json : JsonRoundTrip SVMParams :=
  {| json_floats s := opt_list (svm_Nu s); json_norm s := s |}.
#[export] Instance FeatureParameters_json : JsonRoundTrip FeatureParameters :=
  {| json_floats f := opt_list (fpar_DIThreshold f) ++ opt_list (fpar_WeightFactor f)
                      ++ opt_floats (fpar_SVMParams f);
     json_norm f := f |}.
#[export] Instance DataSplitParameters_json : JsonRoundTrip DataSplitParameters :=
  {| json_floats d := opt_list (dsp_TestSize d); json_norm d := d |}.
#[export] Instance ModelRewardParameters_json : JsonRoundTrip ModelRewardParameters :=
  {| json_floats m := opt_list (mrp_RR m) ++ opt_list (mrp_ProfitAim m); json_norm m := m |}.
#[export] Instance RLConfig_json : JsonRoundTrip RLConfig :=
  {| json_floats r := opt_list (rl_MaxTrainingDrawdownPct r) ++ opt_floats (rl_ModelRewardParameters r);
     json_norm r := r |}.
#[export] Instance AIConfig_json : JsonRoundTrip AIConfig :=
  {| json_floats a := opt_floats (ai_FeatureParameters a) ++ opt_floats (ai_DataSplitParameters a)
                      ++ opt_floats (ai_RLConfig a);
     json_norm a := a |}.
#[export] Instance DataConfig_json : JsonRoundTrip DataConfig :=
  {| json_floats d := opt_list (dc_MaxEntryPositionAdjustment d) ++ opt_list (dc_AvailableCapital d)
                      ++ opt_list (dc_LastStakeAmountMinRatio d) ++ opt_list (dc_AmountReservePercent d)
                      ++ opt_list (dc_CustomPriceMaxDistanceRatio d);
     json_norm d := d |}.
#[export] Instance AdvancedConfig_json : JsonRoundTrip AdvancedConfig :=
  {| json_floats a := opt_list (adv_TradableBalanceRatio a); json_norm a := a |}.
#[export] Instance PairListSpec_json : JsonRoundTrip PairListSpec :=
  {| json_floats _ := [];
     json_norm p := {| pl_Pairs := omit_empty_list (pl_Pairs p) |} |}.
#[export] Instance PairlistConfig_json : JsonRoundTrip PairlistConfig :=
  {| json_floats m := opt_list (pm_MinChangeRate m) ++ opt_list (pm_MinPrice m) ++ opt_list (pm_MaxPrice m)
                      ++ opt_list (pm_MaxSpreadRatio m) ++ opt_list (pm_MinRateOfChange m)
                      ++ opt_list (pm_MaxRateOfChange m) ++ opt_list (pm_MinVolatility m)
                      ++ opt_list (pm_MaxVolatility m) ++ opt_list (pm_MinProfit m);
     json_norm m := m |}.
#[export] Instance PairlistMethodsSpec_json : JsonRoundTrip PairlistMethodsSpec :=
  {| json_floats p := List.flat_map json_floats (pms_Methods p); json_norm p := p |}.
#[export] Instance PricingCheckDepthOfMarket_json : JsonRoundTrip PricingCheckDepthOfMarket :=
  {| json_floats d := opt_list (dom_BidsToAskDelta d); json_norm d := d |}.
#[export] Instance PricingSpec_json : JsonRoundTrip PricingSpec :=
  {| json_floats p := opt_list (pri_PriceLastBalance p) ++ opt_floats (pri_CheckDepthOfMarket p);
     json_norm p := p |}.
#[export] Instance OrderTypes_json : JsonRoundTrip OrderTypes :=
  {| json_floats t := opt_list (ot_StoplossOnExchangeLimitRatio t); json_norm t := t |}.
#[export] Instance Flow_json : JsonRoundTrip Flow :=
  {| json_floats f := opt_list (fl_Scale f) ++ opt_list (fl_ImbalanceRatio f); json_norm f := f |}.
#[export] Instance OrderSpec_json : JsonRoundTrip OrderSpec :=
  {| json_floats o := opt_floats (ord_Types o) ++ opt_floats (ord_Flow o); json_norm o := o |}.

#[export] Instance RiskManagementSpec_json : JsonRoundTrip RiskManagementSpec :=
  {| json_floats r :=
       match rm_MinimalROI r with
       | Some m => omap snd (sorted_entries m)
       | None => []
       end
       ++ opt_list (rm_Stoploss r) ++ opt_list (rm_TrailingStopPositive r)
       ++ opt_list (rm_TrailingStopPositiveOffset r) ++ opt_list (rm_ExitProfitOffset r)
       ++ opt_list (rm_Fee r) ++ opt_list (rm_LiquidationBuffer r);
     json_norm r :=
       {| rm_MinimalROI := omit_empty_map (rm_MinimalROI r);
          rm_Stoploss := rm_Stoploss r;
          rm_TrailingStop := rm_TrailingStop r;
          rm_TrailingStopPositive := rm_TrailingStopPositive r;
          rm_TrailingStopPositiveOffset := rm_TrailingStopPositiveOffset r;
          rm_TrailingOnlyOffsetIsReached := rm_TrailingOnlyOffsetIsReached r;
          rm_UseExitSignal := rm_UseExitSignal r;
          rm_ExitProfitOnly := rm_ExitProfitOnly r;
          rm_ExitProfitOffset := rm_ExitProfitOffset r;
          rm_Fee := rm_Fee r;
          rm_IgnoreRoiIfEntrySignal := rm_IgnoreRoiIfEntrySignal r;
          rm_IgnoreBuyingExpiredCandleAfter := rm_IgnoreBuyingExpiredCandleAfter r;
          rm_MinimumTradeAmount := rm_MinimumTradeAmount r;
          rm_TargetedTradeAmount := rm_TargetedTradeAmount r;
          rm_LookaheadAnalysisExportFilename := rm_LookaheadAnalysisExportFilename r;
          rm_StartupCandle := rm_StartupCandle r;
          rm_LiquidationBuffer := rm_LiquidationBuffer r;
          rm_BacktestBreakdown := omit_empty_list (rm_BacktestBreakdown r) |} |}.

(** A second trip changes nothing more. *)
Class JsonRoundTripLaws (A : Type) `{JsonRoundTrip A} := {
  json_norm_idem a : json_norm (json_norm a) = json_norm a;
  json_floats_norm a : json_floats (json_norm a) = json_floats a
}.

Lemma omit_empty_list_idem {A} (o : option (list A)) : omit_empty_list (omit_empty_list o) = omit_empty_list o.
Proof. by destruct o as [[]|]. Qed.

Lemma omit_empty_map_idem {A} (o : option (gmap string A)) : omit_empty_map (omit_empty_map o) = omit_empty_map o.
Proof. destruct o as [m|]; cbn; [|done]. case_decide; [done|]. cbn. by rewrite decide_False. Qed.

#[export] Instance plain_laws {A} : @JsonRoundTripLaws A plain_round_trip.
Proof. by split. Qed.
Ltac json_laws := split; reflexivity.
#[export] Instance BotConfig_laws : JsonRoundTripLaws BotConfig. Proof. json_laws. Qed.
#[export] Instance AIConfig_laws : JsonRoundTripLaws AIConfig. Proof. json_laws. Qed.
#[export] Instance DataConfig_laws : JsonRoundTripLaws DataConfig. Proof. json_laws. Qed.
#[export] Instance AdvancedConfig_laws : JsonRoundTripLaws AdvancedConfig. Proof. json_laws. Qed.
#[export] Instance PairlistMethodsSpec_laws : JsonRoundTripLaws PairlistMethodsSpec. Proof. json_laws. Qed.
#[export] Instance PricingSpec_laws : JsonRoundTripLaws PricingSpec. Proof. json_laws. Qed.
#[export] Instance OrderSpec_laws : JsonRoundTripLaws OrderSpec. Proof. json_laws. Qed.
#[export] Instance PairListSpec_laws : JsonRoundTripLaws PairListSpec.
Proof. split; intros r; unfold json_norm; cbn; by rewrite ?omit_empty_list_idem. Qed.
#[export] Instance RiskManagementSpec_laws : JsonRoundTripLaws RiskManagementSpec.
Proof.
  split; intros r; unfold json_norm; cbn; [by rewrite omit_empty_list_idem, omit_empty_map_idem|].
  destruct (rm_MinimalROI r) as [m|]; cbn; [|done]. by case_decide as E; [rewrite E|].
Qed.

(** No non-finite float anywhere in an optional section. *)
Definition finite_opt `{JsonRoundTrip A} (o : option A) : Prop :=
  ∀ a, o = Some a → Forall (fun f => is_finite f = true) (json_floats a).

Section Fresh.
Context `{JsonRoundTripLaws A}.

Lemma convert_fresh pre (o : option A) :
  finite_opt o → convert_field pre o None = Ok (json_norm <$> o).
Proof. intros Hf. by apply convert_field_fresh. Qed.

Lemma finite_opt_norm (o : option A) : finite_opt o → finite_opt (json_norm <$> o).
Proof.
  intros Hf a' Ha. apply fmap_Some in Ha as (a & -> & ->).
  rewrite json_floats_norm. by apply Hf.
Qed.

(** Converting what a conversion produced. *)
Lemma convert_fresh_norm pre (o : option A) :
  finite_opt o → convert_field pre (json_norm <$> o) None = Ok (json_norm <$> o).
Proof.
  intros Hf. rewrite convert_fresh by by apply finite_opt_norm.
  destruct o; cbn; by rewrite ?json_norm_idem.
Qed.
End Fresh.

(** ** TradeBot *)

Module TradeBotConversion.
Definition ZeroBeta : V1beta1.TradeBot :=
  {| V1beta1.Meta := NewMeta "" "" ∅ ∅;
     V1beta1.Spec := {| V1beta1.ConfigRef := {| lor_Name := "" |};
                        V1beta1.StrategyRef := {| lor_Name := "" |};
                        V1beta1.App := None; V1beta1.UpdateStrategy := "";
                        V1beta1.Introspection := None; V1beta1.State := "" |};
     V1beta1.Status := ZeroTradeBotStatus |}.

Definition ZeroAlpha : V1alpha1.TradeBot :=
  {| V1alpha1.Meta := NewMeta "" "" ∅ ∅; V1alpha1.Spec := V1alpha1.ZeroSpec;
     V1alpha1.Status := ZeroTradeBotStatus |}.

Definition ConvertTo (t : V1alpha1.TradeBot) (dst : V1beta1.TradeBot) : result V1beta1.TradeBot :=
  let s := V1alpha1.Spec t in
  let cmd := V1alpha1.FreqtradeCommand s in
  if nonempty cmd && negb (cmd =? "trade")%string then
    Err (Errorf ("TradeBot " ^^ Namespace (V1alpha1.Meta t) ^^ "/" ^^ Name (V1alpha1.Meta t)
      ^^ " has spec.freqtrade_command=" ^^ Quote cmd
      ^^ " - v1beta1 TradeBot is trade-only (P6-4); one-shot runs (backtesting, hyperopt, ...)"
      ^^ " have no v1beta1 TradeBot equivalent, use a Backtest instead"))
  else
    app ← convert_field "converting spec.app" (V1alpha1.App s) (V1beta1.App (V1beta1.Spec dst));
    introspection ← convert_field "converting spec.introspection" (V1alpha1.Introspection s)
                      (V1beta1.Introspection (V1beta1.Spec dst));
    let st := V1alpha1.Status t in
    bot ← convert_field "converting status.bot" (tst_Bot st) (tst_Bot (V1beta1.Status dst));
    mret {| V1beta1.Meta := V1alpha1.Meta t;
            V1beta1.Spec :=
              {| V1beta1.ConfigRef := {| lor_Name := V1alpha1.Config s |};
                 V1beta1.StrategyRef := {| lor_Name := V1alpha1.StrategyName s |};
                 V1beta1.App := app;
                 V1beta1.UpdateStrategy := V1alpha1.UpdateStrategy s;
                 V1beta1.Introspection := introspection;
                 V1beta1.State := V1beta1.State (V1beta1.Spec dst) |};
            V1beta1.Status :=
              {| tst_Phase := tst_Phase st; tst_Message := tst_Message st;
                 tst_Conditions := tst_Conditions st;
                 tst_ObservedGeneration := tst_ObservedGeneration st;
                 tst_AppliedConfigHash := tst_AppliedConfigHash st;
                 tst_ResolvedImage := tst_ResolvedImage st; tst_Bot := bot |} |}.

Definition ConvertFrom (src : V1beta1.TradeBot) (t : V1alpha1.TradeBot) : result V1alpha1.TradeBot :=
  let s := V1beta1.Spec src in
  app ← convert_field "converting spec.app" (V1beta1.App s) (V1alpha1.App (V1alpha1.Spec t));
  introspection ← convert_field "converting spec.introspection" (V1beta1.Introspection s)
                    (V1alpha1.Introspection (V1alpha1.Spec t));
  let st := V1beta1.Status src in
  bot ← convert_field "converting status.bot" (tst_Bot st) (tst_Bot (V1alpha1.Status t));
  mret {| V1alpha1.Meta := V1beta1.Meta src;
          V1alpha1.Spec :=
            {| V1alpha1.FreqtradeCommand := V1alpha1.FreqtradeCommand (V1alpha1.Spec t);
               V1alpha1.FreqtradeArguments := V1alpha1.FreqtradeArguments (V1alpha1.Spec t);
               V1alpha1.Config := lor_Name (V1beta1.ConfigRef s);
               V1alpha1.StrategyName := lor_Name (V1beta1.StrategyRef s);
               V1alpha1.App := app;
               V1alpha1.Data := V1alpha1.Data (V1alpha1.Spec t);
               V1alpha1.UpdateStrategy := V1beta1.UpdateStrategy s;
               V1alpha1.Introspection := introspection |};
          V1alpha1.Status :=
            {| tst_Phase := tst_Phase st; tst_Message := tst_Message st;
               tst_Conditions := tst_Conditions st;
               tst_ObservedGeneration := tst_ObservedGeneration st;
               tst_AppliedConfigHash := tst_AppliedConfigHash st;
               tst_ResolvedImage := tst_ResolvedImage st; tst_Bot := bot |} |}.

(** What a fresh conversion does to the fields the other version lacks. *)
Definition drop_state (b : V1beta1.TradeBot) : V1beta1.TradeBot :=
  let s := V1beta1.Spec b in
  {| V1beta1.Meta := V1beta1.Meta b;
     V1beta1.Spec := {| V1beta1.ConfigRef := V1beta1.ConfigRef s;
                        V1beta1.StrategyRef := V1beta1.StrategyRef s;
                        V1beta1.App := V1beta1.App s;
                        V1beta1.UpdateStrategy := V1beta1.UpdateStrategy s;
                        V1beta1.Introspection := V1beta1.Introspection s;
                        V1beta1.State := "" |};
     V1beta1.Status := V1beta1.Status b |}.

Definition drop_job_fields (a : V1alpha1.TradeBot) : V1alpha1.TradeBot :=
  let s := V1alpha1.Spec a in
  {| V1alpha1.Meta := V1alpha1.Meta a;
     V1alpha1.Spec := {| V1alpha1.FreqtradeCommand := ""; V1alpha1.FreqtradeArguments := [];
                         V1alpha1.Config := V1alpha1.Config s;
                         V1alpha1.StrategyName := V1alpha1.StrategyName s;
                         V1alpha1.App := V1alpha1.App s; V1alpha1.Data := None;
                         V1alpha1.UpdateStrategy := V1alpha1.UpdateStrategy s;
                         V1alpha1.Introspection := V1alpha1.Introspection s |};
     V1alpha1.Status := V1alpha1.Status a |}.

(** A stored TradeBot read as v1alpha1 and written back: going down
    always succeeds, and coming back up restores everything but
    [spec.state], which v1alpha1 cannot carry - it is always lost. *)
Lemma tradebot_down_up (b : V1beta1.TradeBot) :
  ∃ a, ConvertFrom b ZeroAlpha = Ok a ∧ ConvertTo a ZeroBeta = Ok (drop_state b).
Proof.
  destruct b as [m [[c] [s] app us intr st] [ph ms co og ah ri bot]].
  destruct app, intr, bot; eexists; split; reflexivity.
Qed.

(** A trade-mode v1alpha1 TradeBot goes up and comes back down with
    everything but freqtrade_command, freqtrade_arguments and data, which
    v1beta1 cannot carry. *)
Lemma tradebot_up_down (a : V1alpha1.TradeBot) :
  V1alpha1.FreqtradeCommand (V1alpha1.Spec a) ∈ [""; "trade"] →
  ∃ b, ConvertTo a ZeroBeta = Ok b ∧ ConvertFrom b ZeroAlpha = Ok (drop_job_fields a).
Proof.
  destruct a as [m [cmd args c s app d us intr] [ph ms co og ah ri bot]]; cbn.
  rewrite !elem_of_cons. intros [->|[->|[]%elem_of_nil]];
    destruct app, intr, bot; eexists; split; reflexivity.
Qed.

(** C23: the two versions of a TradeBot: every v1beta1 object reads as
    v1alpha1 and is written back unchanged but for [spec.state], and every
    trade-mode v1alpha1 object is stored and read back unchanged but for
    freqtrade_command, freqtrade_arguments and data - the fields the other
    version does not have, and no others. *)
Theorem tradebot_round_trips :
  (∀ b, ∃ a, ConvertFrom b ZeroAlpha = Ok a ∧ ConvertTo a ZeroBeta = Ok (drop_state b)) ∧
  (∀ a, V1alpha1.FreqtradeCommand (V1alpha1.Spec a) ∈ [""; "trade"] →
     ∃ b, ConvertTo a ZeroBeta = Ok b ∧ ConvertFrom b ZeroAlpha = Ok (drop_job_fields a)).
Proof. split; [exact tradebot_down_up|exact tradebot_up_down]. Qed.

(** Converting up fails exactly on a Job-mode TradeBot, into any
    destination. *)
Lemma tradebot_job_mode_rejected (a : V1alpha1.TradeBot) dst :
  is_ok (ConvertTo a dst) = bool_decide (V1alpha1.FreqtradeCommand (V1alpha1.Spec a) ∈ [""; "trade"]).
Proof.
  unfold ConvertTo, nonempty. destruct a as [m [cmd args c s app d us intr] st]; cbn.
  destruct (String.eqb_spec cmd "") as [->|H1]; [by destruct app, intr, (tst_Bot st)|].
  destruct (String.eqb_spec cmd "trade") as [->|H2]; [by destruct app, intr, (tst_Bot st)|].
  cbn. symmetry. apply bool_decide_eq_false_2. set_solver.
Qed.

Definition sample_trade_bot : V1alpha1.TradeBot :=
  {| V1alpha1.Meta := NewMeta "bot" "trading" ∅ ∅;
     V1alpha1.Spec := {| V1alpha1.FreqtradeCommand := "trade"; V1alpha1.FreqtradeArguments := ["-v"];
                         V1alpha1.Config := "cfg"; V1alpha1.StrategyName := "strat"; V1alpha1.App := None;
                         V1alpha1.Data := None; V1alpha1.UpdateStrategy := "Auto";
                         V1alpha1.Introspection := Some {| in_Enabled := Some false; in_Interval := 30 * Second |} |};
     V1alpha1.Status := ZeroTradeBotStatus |}.

Lemma tradebot_round_trips_witness :
  ∃ b, ConvertTo sample_trade_bot ZeroBeta = Ok b ∧ ConvertFrom b ZeroAlpha = Ok (drop_job_fields sample_trade_bot).
Proof. apply (proj2 tradebot_round_trips sample_trade_bot). cbn. set_solver. Defined.
End TradeBotConversion.

(** ** Strategy *)

Module StrategyConversion.
(** The two versions of Strategy are field-for-field identical and share one
    model type, so one definition stands for both directions' code. *)
Definition convert (src dst : Strategy) : result Strategy :=
  spec ← wrap_err "converting spec" (convertJSON (str_Spec src));
  mret {| str_Meta := str_Meta src; str_Spec := spec;
          str_Status :=
            {| sst_Phase := sst_Phase (str_Status src); sst_Message := sst_Message (str_Status src);
               sst_Conditions := sst_Conditions (str_Status src);
               sst_ObservedGeneration := sst_ObservedGeneration (str_Status src) |} |}.

Definition ConvertTo (s dst : Strategy) : result Strategy := convert s dst.
Definition ConvertFrom (src s : Strategy) : result Strategy := convert src s.
End StrategyConversion.

(** ** FreqUI *)

Module FreqUIConversion.
Definition ZeroBeta : V1beta1.FreqUI :=
  {| V1beta1.fu_Meta := NewMeta "" "" ∅ ∅;
     V1beta1.fu_Spec := {| V1beta1.Host := ""; V1beta1.TLS := []; V1beta1.IngressAnnotations := ∅;
                           V1beta1.FUApp := None; V1beta1.TradeBotRefs := [];
                           V1beta1.Exposure := FUExposureUnset; V1beta1.Gateway := None |};
     V1beta1.fu_Status := ZeroFreqUIStatus |}.

Definition ZeroAlpha : V1alpha1.FreqUI :=
  {| V1alpha1.fu_Meta := NewMeta "" "" ∅ ∅;
     V1alpha1.fu_Spec := {| V1alpha1.Host := ""; V1alpha1.TLS := []; V1alpha1.IngressAnnotations := ∅;
                            V1alpha1.FUApp := None; V1alpha1.TradeBotRefs := [];
                            V1alpha1.Exposure := FUExposureUnset; V1alpha1.Gateway := None |};
     V1alpha1.fu_Status := ZeroFreqUIStatus |}.

Definition ConvertTo (f : V1alpha1.FreqUI) (dst : V1beta1.FreqUI) : result V1beta1.FreqUI :=
  let s := V1alpha1.fu_Spec f in
  app ← convert_field "converting spec.app" (V1alpha1.FUApp s) (V1beta1.FUApp (V1beta1.fu_Spec dst));
  gw ← convert_field "converting spec.gateway" (V1alpha1.Gateway s) (V1beta1.Gateway (V1beta1.fu_Spec dst));
  let refs := match V1alpha1.TradeBotRefs s with
              | [] => V1beta1.TradeBotRefs (V1beta1.fu_Spec dst)
              | names => map Build_LocalObjectReference names
              end in
  mret {| V1beta1.fu_Meta := V1alpha1.fu_Meta f;
          V1beta1.fu_Spec :=
            {| V1beta1.Host := V1alpha1.Host s; V1beta1.TLS := V1alpha1.TLS s;
               V1beta1.IngressAnnotations := V1alpha1.IngressAnnotations s;
               V1beta1.FUApp := app; V1beta1.TradeBotRefs := refs;
               V1beta1.Exposure := V1alpha1.Exposure s; V1beta1.Gateway := gw |};
          V1beta1.fu_Status := V1alpha1.fu_Status f |}.

Definition ConvertFrom (src : V1beta1.FreqUI) (f : V1alpha1.FreqUI) : result V1alpha1.FreqUI :=
  let s := V1beta1.fu_Spec src in
  app ← convert_field "converting spec.app" (V1beta1.FUApp s) (V1alpha1.FUApp (V1alpha1.fu_Spec f));
  gw ← convert_field "converting spec.gateway" (V1beta1.Gateway s) (V1alpha1.Gateway (V1alpha1.fu_Spec f));
  let refs := match V1beta1.TradeBotRefs s with
              | [] => V1alpha1.TradeBotRefs (V1alpha1.fu_Spec f)
              | rs => map lor_Name rs
              end in
  mret {| V1alpha1.fu_Meta := V1beta1.fu_Meta src;
          V1alpha1.fu_Spec :=
            {| V1alpha1.Host := V1beta1.Host s; V1alpha1.TLS := V1beta1.TLS s;
               V1alpha1.IngressAnnotations := V1beta1.IngressAnnotations s;
               V1alpha1.FUApp := app; V1alpha1.TradeBotRefs := refs;
               V1alpha1.Exposure := V1beta1.Exposure s; V1alpha1.Gateway := gw |};
          V1alpha1.fu_Status := V1beta1.fu_Status src |}.

(** A stored FreqUI read as v1alpha1 and written back is unchanged. *)
Lemma frequi_down_up (b : V1beta1.FreqUI) :
  ∃ a, ConvertFrom b ZeroAlpha = Ok a ∧ ConvertTo a ZeroBeta = Ok b.
Proof.
  destruct b as [m [h t ia app refs ex gw] st]. unfold ConvertFrom; cbn.
  destruct app, gw; cbn; eexists; (split; [reflexivity|]); unfold ConvertTo; cbn;
    (destruct refs as [|[r] refs]; [reflexivity|]); cbn; do 3 f_equal;
    rewrite map_map; f_equal; f_equal;
    induction refs as [|[r'] refs IH]; cbn; congruence.
Qed.
End FreqUIConversion.

(** ** TradeBotConfig *)

Module TradeBotConfigConversion.
Import ConfigTypes.

Definition ZeroBetaSpec : ConfigV1beta1.TradeBotConfigSpec :=
  {| ConfigV1beta1.tc_Bot := None;
     ConfigV1beta1.tc_AI := None;
     ConfigV1beta1.tc_Data := None;
     ConfigV1beta1.tc_Advanced := None;
     ConfigV1beta1.tc_Timeout := None;
     ConfigV1beta1.tc_Internals := None;
     ConfigV1beta1.tc_Exchange := None;
     ConfigV1beta1.tc_Pairlist := None;
     ConfigV1beta1.tc_PairlistMethod := None;
     ConfigV1beta1.tc_EntryPricing := None;
     ConfigV1beta1.tc_ExitPricing := None;
     ConfigV1beta1.tc_Order := None;
     ConfigV1beta1.tc_RiskManagement := None;
     ConfigV1beta1.tc_Notification := None;
     ConfigV1beta1.tc_APIServer := None;
     ConfigV1beta1.tc_Experimental := None;
     ConfigV1beta1.tc_Logging := None |}.

Definition ZeroAlphaSpec : ConfigV1alpha1.TradeBotConfigSpec :=
  {| ConfigV1alpha1.tc_Bot := None;
     ConfigV1alpha1.tc_AI := None;
     ConfigV1alpha1.tc_Data := None;
     ConfigV1alpha1.tc_Advanced := None;
     ConfigV1alpha1.tc_Timeout := None;
     ConfigV1alpha1.tc_Internals := None;
     ConfigV1alpha1.tc_Exchange := None;
     ConfigV1alpha1.tc_Pairlist := None;
     ConfigV1alpha1.tc_PairlistMethod := None;
     ConfigV1alpha1.tc_EntryPricing := None;
     ConfigV1alpha1.tc_ExitPricing := None;
     ConfigV1alpha1.tc_Order := None;
     ConfigV1alpha1.tc_RiskManagement := None;
     ConfigV1alpha1.tc_Notification := None;
     ConfigV1alpha1.tc_APIServer := None;
     ConfigV1alpha1.tc_Experimental := None;
     ConfigV1alpha1.tc_Logging := None |}.

Definition ZeroStatus : TradeBotConfigStatus :=
  {| tcs_Phase := ""; tcs_Message := ""; tcs_Conditions := []; tcs_ObservedGeneration := 0 |}.
Definition ZeroBeta : ConfigV1beta1.TradeBotConfig :=
  {| ConfigV1beta1.Meta := NewMeta "" "" ∅ ∅; ConfigV1beta1.Spec := ZeroBetaSpec;
     ConfigV1beta1.Status := ZeroStatus |}.
Definition ZeroAlpha : ConfigV1alpha1.TradeBotConfig :=
  {| ConfigV1alpha1.Meta := NewMeta "" "" ∅ ∅; ConfigV1alpha1.Spec := ZeroAlphaSpec;
     ConfigV1alpha1.Status := ZeroStatus |}.

(** The dotted path of every plaintext credential field that is set
    (tradebotconfig_webhook.go). *)
Definition plaintextCredentialFields (cfg : ConfigV1alpha1.TradeBotConfig) : list string :=
  let field (v path : string) := if nonempty v then [path] else [] in
  let spec := ConfigV1alpha1.Spec cfg in
  match ConfigV1alpha1.tc_Exchange spec with
  | Some e =>
      field (ConfigV1alpha1.ex_Key e) "spec.exchange.key"
      ++ field (ConfigV1alpha1.ex_Secret e) "spec.exchange.secret"
      ++ field (ConfigV1alpha1.ex_Password e) "spec.exchange.password"
      ++ field (ConfigV1alpha1.ex_UID e) "spec.exchange.uid"
      ++ field (ConfigV1alpha1.ex_WalletAddress e) "spec.exchange.wallet_address"
      ++ field (ConfigV1alpha1.ex_PrivateKey e) "spec.exchange.private_key"
  | None => []
  end ++
  match ConfigV1alpha1.tc_APIServer spec with
  | Some a =>
      field (ConfigV1alpha1.api_Password a) "spec.apiServer.password"
      ++ field (ConfigV1alpha1.api_JWTSecretKey a) "spec.apiServer.jwtSecretKey"
  | None => []
  end ++
  match ConfigV1alpha1.tc_Notification spec with
  | Some n =>
      match ConfigV1alpha1.no_Telegram n with
      | Some t => field (ConfigV1alpha1.nt_Token t) "spec.notification.telegram.token"
      | None => []
      end
  | None => []
  end.

Definition convertSimpleSpecFieldsToBeta (spec : ConfigV1alpha1.TradeBotConfigSpec) (dst : ConfigV1beta1.TradeBotConfigSpec)
    : result ConfigV1beta1.TradeBotConfigSpec :=
  bot ← convert_field "converting spec.bot" (ConfigV1alpha1.tc_Bot spec) (ConfigV1beta1.tc_Bot dst);
  ai ← convert_field "converting spec.ai" (ConfigV1alpha1.tc_AI spec) (ConfigV1beta1.tc_AI dst);
  data ← convert_field "converting spec.data" (ConfigV1alpha1.tc_Data spec) (ConfigV1beta1.tc_Data dst);
  advanced ← convert_field "converting spec.advanced" (ConfigV1alpha1.tc_Advanced spec) (ConfigV1beta1.tc_Advanced dst);
  timeout ← convert_field "converting spec.timeout" (ConfigV1alpha1.tc_Timeout spec) (ConfigV1beta1.tc_Timeout dst);
  internals ← convert_field "converting spec.internals" (ConfigV1alpha1.tc_Internals spec) (ConfigV1beta1.tc_Internals dst);
  pairlist ← convert_field "converting spec.pairlist" (ConfigV1alpha1.tc_Pairlist spec) (ConfigV1beta1.tc_Pairlist dst);
  pairlist_method ← convert_field "converting spec.pairlist_method" (ConfigV1alpha1.tc_PairlistMethod spec) (ConfigV1beta1.tc_PairlistMethod dst);
  entry_pricing ← convert_field "converting spec.entry_pricing" (ConfigV1alpha1.tc_EntryPricing spec) (ConfigV1beta1.tc_EntryPricing dst);
  exit_pricing ← convert_field "converting spec.exit_pricing" (ConfigV1alpha1.tc_ExitPricing spec) (ConfigV1beta1.tc_ExitPricing dst);
  order ← convert_field "converting spec.order" (ConfigV1alpha1.tc_Order spec) (ConfigV1beta1.tc_Order dst);
  risk_management ← convert_field "converting spec.risk_management" (ConfigV1alpha1.tc_RiskManagement spec) (ConfigV1beta1.tc_RiskManagement dst);
  experimental ← convert_field "converting spec.experimental" (ConfigV1alpha1.tc_Experimental spec) (ConfigV1beta1.tc_Experimental dst);
  logging ← convert_field "converting spec.logging" (ConfigV1alpha1.tc_Logging spec) (ConfigV1beta1.tc_Logging dst);
  mret {| ConfigV1beta1.tc_Bot := bot;
          ConfigV1beta1.tc_AI := ai;
          ConfigV1beta1.tc_Data := data;
          ConfigV1beta1.tc_Advanced := advanced;
          ConfigV1beta1.tc_Timeout := timeout;
          ConfigV1beta1.tc_Internals := internals;
          ConfigV1beta1.tc_Exchange := ConfigV1beta1.tc_Exchange dst;
          ConfigV1beta1.tc_Pairlist := pairlist;
          ConfigV1beta1.tc_PairlistMethod := pairlist_method;
          ConfigV1beta1.tc_EntryPricing := entry_pricing;
          ConfigV1beta1.tc_ExitPricing := exit_pricing;
          ConfigV1beta1.tc_Order := order;
          ConfigV1beta1.tc_RiskManagement := risk_management;
          ConfigV1beta1.tc_Notification := ConfigV1beta1.tc_Notification dst;
          ConfigV1beta1.tc_APIServer := ConfigV1beta1.tc_APIServer dst;
          ConfigV1beta1.tc_Experimental := experimental;
          ConfigV1beta1.tc_Logging := logging |}.

Definition convertSimpleSpecFieldsFromBeta (spec : ConfigV1beta1.TradeBotConfigSpec) (dst : ConfigV1alpha1.TradeBotConfigSpec)
    : result ConfigV1alpha1.TradeBotConfigSpec :=
  bot ← convert_field "converting spec.bot" (ConfigV1beta1.tc_Bot spec) (ConfigV1alpha1.tc_Bot dst);
  ai ← convert_field "converting spec.ai" (ConfigV1beta1.tc_AI spec) (ConfigV1alpha1.tc_AI dst);
  data ← convert_field "converting spec.data" (ConfigV1beta1.tc_Data spec) (ConfigV1alpha1.tc_Data dst);
  advanced ← convert_field "converting spec.advanced" (ConfigV1beta1.tc_Advanced spec) (ConfigV1alpha1.tc_Advanced dst);
  timeout ← convert_field "converting spec.timeout" (ConfigV1beta1.tc_Timeout spec) (ConfigV1alpha1.tc_Timeout dst);
  internals ← convert_field "converting spec.internals" (ConfigV1beta1.tc_Internals spec) (ConfigV1alpha1.tc_Internals dst);
  pairlist ← convert_field "converting spec.pairlist" (ConfigV1beta1.tc_Pairlist spec) (ConfigV1alpha1.tc_Pairlist dst);
  pairlist_method ← convert_field "converting spec.pairlist_method" (ConfigV1beta1.tc_PairlistMethod spec) (ConfigV1alpha1.tc_PairlistMethod dst);
  entry_pricing ← convert_field "converting spec.entry_pricing" (ConfigV1beta1.tc_EntryPricing spec) (ConfigV1alpha1.tc_EntryPricing dst);
  exit_pricing ← convert_field "converting spec.exit_pricing" (ConfigV1beta1.tc_ExitPricing spec) (ConfigV1alpha1.tc_ExitPricing dst);
  order ← convert_field "converting spec.order" (ConfigV1beta1.tc_Order spec) (ConfigV1alpha1.tc_Order dst);
  risk_management ← convert_field "converting spec.risk_management" (ConfigV1beta1.tc_RiskManagement spec) (ConfigV1alpha1.tc_RiskManagement dst);
  experimental ← convert_field "converting spec.experimental" (ConfigV1beta1.tc_Experimental spec) (ConfigV1alpha1.tc_Experimental dst);
  logging ← convert_field "converting spec.logging" (ConfigV1beta1.tc_Logging spec) (ConfigV1alpha1.tc_Logging dst);
  mret {| ConfigV1alpha1.tc_Bot := bot;
          ConfigV1alpha1.tc_AI := ai;
          ConfigV1alpha1.tc_Data := data;
          ConfigV1alpha1.tc_Advanced := advanced;
          ConfigV1alpha1.tc_Timeout := timeout;
          ConfigV1alpha1.tc_Internals := internals;
          ConfigV1alpha1.tc_Exchange := ConfigV1alpha1.tc_Exchange dst;
          ConfigV1alpha1.tc_Pairlist := pairlist;
          ConfigV1alpha1.tc_PairlistMethod := pairlist_method;
          ConfigV1alpha1.tc_EntryPricing := entry_pricing;
          ConfigV1alpha1.tc_ExitPricing := exit_pricing;
          ConfigV1alpha1.tc_Order := order;
          ConfigV1alpha1.tc_RiskManagement := risk_management;
          ConfigV1alpha1.tc_Notification := ConfigV1alpha1.tc_Notification dst;
          ConfigV1alpha1.tc_APIServer := ConfigV1alpha1.tc_APIServer dst;
          ConfigV1alpha1.tc_Experimental := experimental;
          ConfigV1alpha1.tc_Logging := logging |}.

Definition convertExchangeSpecToBeta (e : ConfigV1alpha1.ExchangeSpec) : result ConfigV1beta1.ExchangeSpec :=
  whitelist ← convert_field "converting whitelist" (ConfigV1alpha1.ex_Whitelist e) None;
  blacklist ← convert_field "converting blacklist" (ConfigV1alpha1.ex_Blacklist e) None;
  mret {| ConfigV1beta1.ex_Name := ConfigV1alpha1.ex_Name e;
          ConfigV1beta1.ex_AccountID := ConfigV1alpha1.ex_AccountID e;
          ConfigV1beta1.ex_SecretRef := {| lor_Name := ConfigV1alpha1.ex_SecretRef e |};
          ConfigV1beta1.ex_CcxtConfig := ConfigV1alpha1.ex_CcxtConfig e;
          ConfigV1beta1.ex_CcxtAsyncConfig := ConfigV1alpha1.ex_CcxtAsyncConfig e;
          ConfigV1beta1.ex_CcxtSyncConfig := ConfigV1alpha1.ex_CcxtSyncConfig e;
          ConfigV1beta1.ex_Whitelist := whitelist;
          ConfigV1beta1.ex_Blacklist := blacklist;
          ConfigV1beta1.ex_LogResponses := ConfigV1alpha1.ex_LogResponses e;
          ConfigV1beta1.ex_EnableWS := ConfigV1alpha1.ex_EnableWS e;
          ConfigV1beta1.ex_UnknownFeeRate := ConfigV1alpha1.ex_UnkownFeeRate e;
          ConfigV1beta1.ex_OutdatedOffset := ConfigV1alpha1.ex_OutdatedOffset e;
          ConfigV1beta1.ex_MarketRefreshInterval := ConfigV1alpha1.ex_MarketRefreshInterval e |}.

Definition convertExchangeSpecFromBeta (e : ConfigV1beta1.ExchangeSpec) : result ConfigV1alpha1.ExchangeSpec :=
  whitelist ← convert_field "converting whitelist" (ConfigV1beta1.ex_Whitelist e) None;
  blacklist ← convert_field "converting blacklist" (ConfigV1beta1.ex_Blacklist e) None;
  mret {| ConfigV1alpha1.ex_Name := ConfigV1beta1.ex_Name e;
          ConfigV1alpha1.ex_Key := "";
          ConfigV1alpha1.ex_Secret := "";
          ConfigV1alpha1.ex_Password := "";
          ConfigV1alpha1.ex_UID := "";
          ConfigV1alpha1.ex_WalletAddress := "";
          ConfigV1alpha1.ex_PrivateKey := "";
          ConfigV1alpha1.ex_AccountID := ConfigV1beta1.ex_AccountID e;
          ConfigV1alpha1.ex_SecretRef := lor_Name (ConfigV1beta1.ex_SecretRef e);
          ConfigV1alpha1.ex_CcxtConfig := ConfigV1beta1.ex_CcxtConfig e;
          ConfigV1alpha1.ex_CcxtAsyncConfig := ConfigV1beta1.ex_CcxtAsyncConfig e;
          ConfigV1alpha1.ex_CcxtSyncConfig := ConfigV1beta1.ex_CcxtSyncConfig e;
          ConfigV1alpha1.ex_Whitelist := whitelist;
          ConfigV1alpha1.ex_Blacklist := blacklist;
          ConfigV1alpha1.ex_LogResponses := ConfigV1beta1.ex_LogResponses e;
          ConfigV1alpha1.ex_EnableWS := ConfigV1beta1.ex_EnableWS e;
          ConfigV1alpha1.ex_UnkownFeeRate := ConfigV1beta1.ex_UnknownFeeRate e;
          ConfigV1alpha1.ex_OutdatedOffset := ConfigV1beta1.ex_OutdatedOffset e;
          ConfigV1alpha1.ex_MarketRefreshInterval := ConfigV1beta1.ex_MarketRefreshInterval e |}.

Definition convertNotificationSpecToBeta (n : ConfigV1alpha1.NotificationSpec) : result ConfigV1beta1.NotificationSpec :=
  telegram ←
    match ConfigV1alpha1.no_Telegram n with
    | Some t =>
        settings ← convert_field "converting telegram.settings" (ConfigV1alpha1.nt_Settings t) None;
        mret (Some {| ConfigV1beta1.nt_Enabled := ConfigV1alpha1.nt_Enabled t;
                      ConfigV1beta1.nt_SecretRef := {| lor_Name := ConfigV1alpha1.nt_SecretRef t |};
                      ConfigV1beta1.nt_BalanceDustLevel := ConfigV1alpha1.nt_BalanceDustLevel t;
                      ConfigV1beta1.nt_Reload := ConfigV1alpha1.nt_Reload t;
                      ConfigV1beta1.nt_AllowCustomMessages := ConfigV1alpha1.nt_AllowCustomMessages t;
                      ConfigV1beta1.nt_ChatID := ConfigV1alpha1.nt_ChatID t;
                      ConfigV1beta1.nt_TopicID := ConfigV1alpha1.nt_TopicID t;
                      ConfigV1beta1.nt_AuthorizedUsers := ConfigV1alpha1.nt_AuthorizedUsers t;
                      ConfigV1beta1.nt_Settings := settings |})
    | None => mret None
    end;
  webhook ← convert_field "converting webhook" (ConfigV1alpha1.no_Webhook n) None;
  discord ← convert_field "converting discord" (ConfigV1alpha1.no_Discord n) None;
  mret {| ConfigV1beta1.no_Telegram := telegram; ConfigV1beta1.no_Webhook := webhook; ConfigV1beta1.no_Discord := discord |}.

Definition convertNotificationSpecFromBeta (n : ConfigV1beta1.NotificationSpec) : result ConfigV1alpha1.NotificationSpec :=
  telegram ←
    match ConfigV1beta1.no_Telegram n with
    | Some t =>
        settings ← convert_field "converting telegram.settings" (ConfigV1beta1.nt_Settings t) None;
        mret (Some {| ConfigV1alpha1.nt_Enabled := ConfigV1beta1.nt_Enabled t;
                      ConfigV1alpha1.nt_Token := "";
                      ConfigV1alpha1.nt_SecretRef := lor_Name (ConfigV1beta1.nt_SecretRef t);
                      ConfigV1alpha1.nt_BalanceDustLevel := ConfigV1beta1.nt_BalanceDustLevel t;
                      ConfigV1alpha1.nt_Reload := ConfigV1beta1.nt_Reload t;
                      ConfigV1alpha1.nt_AllowCustomMessages := ConfigV1beta1.nt_AllowCustomMessages t;
                      ConfigV1alpha1.nt_ChatID := ConfigV1beta1.nt_ChatID t;
                      ConfigV1alpha1.nt_TopicID := ConfigV1beta1.nt_TopicID t;
                      ConfigV1alpha1.nt_AuthorizedUsers := ConfigV1beta1.nt_AuthorizedUsers t;
                      ConfigV1alpha1.nt_Settings := settings |})
    | None => mret None
    end;
  webhook ← convert_field "converting webhook" (ConfigV1beta1.no_Webhook n) None;
  discord ← convert_field "converting discord" (ConfigV1beta1.no_Discord n) None;
  mret {| ConfigV1alpha1.no_Telegram := telegram; ConfigV1alpha1.no_Webhook := webhook; ConfigV1alpha1.no_Discord := discord |}.

Definition ConvertTo (c : ConfigV1alpha1.TradeBotConfig) (dst : ConfigV1beta1.TradeBotConfig) : result ConfigV1beta1.TradeBotConfig :=
  let fields := plaintextCredentialFields c in
  if decide (fields ≠ []) then
    Err (Errorf ("TradeBotConfig " ^^ Namespace (ConfigV1alpha1.Meta c) ^^ "/" ^^ Name (ConfigV1alpha1.Meta c)
      ^^ " sets deprecated plaintext credential field(s) [" ^^ Join fields ", "
      ^^ "] - v1beta1 has no field for these at all; move the value(s) into a Secret and set the"
      ^^ " corresponding secretRef before converting"))
  else
  let s := ConfigV1alpha1.Spec c in
  simple ← convertSimpleSpecFieldsToBeta s (ConfigV1beta1.Spec dst);
  exchange ←
    match ConfigV1alpha1.tc_Exchange s with
    | Some e => Some <$> wrap_err "converting spec.exchange" (convertExchangeSpecToBeta e)
    | None => mret (ConfigV1beta1.tc_Exchange simple)
    end;
  let apiServer :=
    match ConfigV1alpha1.tc_APIServer s with
    | Some a =>
        Some {| ConfigV1beta1.api_Enabled := ConfigV1alpha1.api_Enabled a; ConfigV1beta1.api_ListenIP := ConfigV1alpha1.api_ListenIP a;
         ConfigV1beta1.api_ListenPort := ConfigV1alpha1.api_ListenPort a; ConfigV1beta1.api_Verbosity := ConfigV1alpha1.api_Verbosity a;
         ConfigV1beta1.api_EnableOpenAPI := ConfigV1alpha1.api_EnableOpenAPI a; ConfigV1beta1.api_Username := ConfigV1alpha1.api_Username a;
         ConfigV1beta1.api_SecretRef := {| lor_Name := ConfigV1alpha1.api_SecretRef a |};
         ConfigV1beta1.api_CORSOrigins := ConfigV1alpha1.api_CORSOrigins a |}
    | None => ConfigV1beta1.tc_APIServer simple
    end in
  notification ←
    match ConfigV1alpha1.tc_Notification s with
    | Some n => Some <$> wrap_err "converting spec.notification" (convertNotificationSpecToBeta n)
    | None => mret (ConfigV1beta1.tc_Notification simple)
    end;
  mret {| ConfigV1beta1.Meta := ConfigV1alpha1.Meta c;
          ConfigV1beta1.Spec :=
          {| ConfigV1beta1.tc_Bot := ConfigV1beta1.tc_Bot simple;
            ConfigV1beta1.tc_AI := ConfigV1beta1.tc_AI simple;
            ConfigV1beta1.tc_Data := ConfigV1beta1.tc_Data simple;
            ConfigV1beta1.tc_Advanced := ConfigV1beta1.tc_Advanced simple;
            ConfigV1beta1.tc_Timeout := ConfigV1beta1.tc_Timeout simple;
            ConfigV1beta1.tc_Internals := ConfigV1beta1.tc_Internals simple;
            ConfigV1beta1.tc_Exchange := exchange;
            ConfigV1beta1.tc_Pairlist := ConfigV1beta1.tc_Pairlist simple;
            ConfigV1beta1.tc_PairlistMethod := ConfigV1beta1.tc_PairlistMethod simple;
            ConfigV1beta1.tc_EntryPricing := ConfigV1beta1.tc_EntryPricing simple;
            ConfigV1beta1.tc_ExitPricing := ConfigV1beta1.tc_ExitPricing simple;
            ConfigV1beta1.tc_Order := ConfigV1beta1.tc_Order simple;
            ConfigV1beta1.tc_RiskManagement := ConfigV1beta1.tc_RiskManagement simple;
            ConfigV1beta1.tc_Notification := notification;
            ConfigV1beta1.tc_APIServer := apiServer;
            ConfigV1beta1.tc_Experimental := ConfigV1beta1.tc_Experimental simple;
            ConfigV1beta1.tc_Logging := ConfigV1beta1.tc_Logging simple |};
          ConfigV1beta1.Status :=
            {| tcs_Phase := tcs_Phase (ConfigV1alpha1.Status c); tcs_Message := tcs_Message (ConfigV1alpha1.Status c);
               tcs_Conditions := tcs_Conditions (ConfigV1alpha1.Status c);
               tcs_ObservedGeneration := tcs_ObservedGeneration (ConfigV1alpha1.Status c) |} |}.

Definition ConvertFrom (src : ConfigV1beta1.TradeBotConfig) (c : ConfigV1alpha1.TradeBotConfig) : result ConfigV1alpha1.TradeBotConfig :=
  let s := ConfigV1beta1.Spec src in
  simple ← convertSimpleSpecFieldsFromBeta s (ConfigV1alpha1.Spec c);
  exchange ←
    match ConfigV1beta1.tc_Exchange s with
    | Some e => Some <$> wrap_err "converting spec.exchange" (convertExchangeSpecFromBeta e)
    | None => mret (ConfigV1alpha1.tc_Exchange simple)
    end;
  let apiServer :=
    match ConfigV1beta1.tc_APIServer s with
    | Some a =>
        Some {| ConfigV1alpha1.api_Enabled := ConfigV1beta1.api_Enabled a; ConfigV1alpha1.api_ListenIP := ConfigV1beta1.api_ListenIP a;
         ConfigV1alpha1.api_ListenPort := ConfigV1beta1.api_ListenPort a; ConfigV1alpha1.api_Verbosity := ConfigV1beta1.api_Verbosity a;
         ConfigV1alpha1.api_EnableOpenAPI := ConfigV1beta1.api_EnableOpenAPI a; ConfigV1alpha1.api_Username := ConfigV1beta1.api_Username a;
         ConfigV1alpha1.api_Password := ""; ConfigV1alpha1.api_JWTSecretKey := "";
         ConfigV1alpha1.api_SecretRef := lor_Name (ConfigV1beta1.api_SecretRef a);
         ConfigV1alpha1.api_CORSOrigins := ConfigV1beta1.api_CORSOrigins a |}
    | None => ConfigV1alpha1.tc_APIServer simple
    end in
  notification ←
    match ConfigV1beta1.tc_Notification s with
    | Some n => Some <$> wrap_err "converting spec.notification" (convertNotificationSpecFromBeta n)
    | None => mret (ConfigV1alpha1.tc_Notification simple)
    end;
  mret {| ConfigV1alpha1.Meta := ConfigV1beta1.Meta src;
          ConfigV1alpha1.Spec :=
          {| ConfigV1alpha1.tc_Bot := ConfigV1alpha1.tc_Bot simple;
            ConfigV1alpha1.tc_AI := ConfigV1alpha1.tc_AI simple;
            ConfigV1alpha1.tc_Data := ConfigV1alpha1.tc_Data simple;
            ConfigV1alpha1.tc_Advanced := ConfigV1alpha1.tc_Advanced simple;
            ConfigV1alpha1.tc_Timeout := ConfigV1alpha1.tc_Timeout simple;
            ConfigV1alpha1.tc_Internals := ConfigV1alpha1.tc_Internals simple;
            ConfigV1alpha1.tc_Exchange := exchange;
            ConfigV1alpha1.tc_Pairlist := ConfigV1alpha1.tc_Pairlist simple;
            ConfigV1alpha1.tc_PairlistMethod := ConfigV1alpha1.tc_PairlistMethod simple;
            ConfigV1alpha1.tc_EntryPricing := ConfigV1alpha1.tc_EntryPricing simple;
            ConfigV1alpha1.tc_ExitPricing := ConfigV1alpha1.tc_ExitPricing simple;
            ConfigV1alpha1.tc_Order := ConfigV1alpha1.tc_Order simple;
            ConfigV1alpha1.tc_RiskManagement := ConfigV1alpha1.tc_RiskManagement simple;
            ConfigV1alpha1.tc_Notification := notification;
            ConfigV1alpha1.tc_APIServer := apiServer;
            ConfigV1alpha1.tc_Experimental := ConfigV1alpha1.tc_Experimental simple;
            ConfigV1alpha1.tc_Logging := ConfigV1alpha1.tc_Logging simple |};
          ConfigV1alpha1.Status :=
            {| tcs_Phase := tcs_Phase (ConfigV1beta1.Status src); tcs_Message := tcs_Message (ConfigV1beta1.Status src);
               tcs_Conditions := tcs_Conditions (ConfigV1beta1.Status src);
               tcs_ObservedGeneration := tcs_ObservedGeneration (ConfigV1beta1.Status src) |} |}.

(** The value a config has after a conversion: every explicitly empty list
    or map that the code tells from an absent one has become absent. *)

Definition norm_exchange_beta (e : ConfigV1beta1.ExchangeSpec) : ConfigV1beta1.ExchangeSpec :=
  {| ConfigV1beta1.ex_Name := ConfigV1beta1.ex_Name e;
     ConfigV1beta1.ex_AccountID := ConfigV1beta1.ex_AccountID e;
     ConfigV1beta1.ex_SecretRef := ConfigV1beta1.ex_SecretRef e;
     ConfigV1beta1.ex_CcxtConfig := ConfigV1beta1.ex_CcxtConfig e;
     ConfigV1beta1.ex_CcxtAsyncConfig := ConfigV1beta1.ex_CcxtAsyncConfig e;
     ConfigV1beta1.ex_CcxtSyncConfig := ConfigV1beta1.ex_CcxtSyncConfig e;
     ConfigV1beta1.ex_Whitelist := json_norm <$> ConfigV1beta1.ex_Whitelist e;
     ConfigV1beta1.ex_Blacklist := json_norm <$> ConfigV1beta1.ex_Blacklist e;
     ConfigV1beta1.ex_LogResponses := ConfigV1beta1.ex_LogResponses e;
     ConfigV1beta1.ex_EnableWS := ConfigV1beta1.ex_EnableWS e;
     ConfigV1beta1.ex_UnknownFeeRate := ConfigV1beta1.ex_UnknownFeeRate e;
     ConfigV1beta1.ex_OutdatedOffset := ConfigV1beta1.ex_OutdatedOffset e;
     ConfigV1beta1.ex_MarketRefreshInterval := ConfigV1beta1.ex_MarketRefreshInterval e |}.

Definition norm_spec_beta (s : ConfigV1beta1.TradeBotConfigSpec) : ConfigV1beta1.TradeBotConfigSpec :=
  {| ConfigV1beta1.tc_Bot := json_norm <$> ConfigV1beta1.tc_Bot s;
     ConfigV1beta1.tc_AI := json_norm <$> ConfigV1beta1.tc_AI s;
     ConfigV1beta1.tc_Data := json_norm <$> ConfigV1beta1.tc_Data s;
     ConfigV1beta1.tc_Advanced := json_norm <$> ConfigV1beta1.tc_Advanced s;
     ConfigV1beta1.tc_Timeout := json_norm <$> ConfigV1beta1.tc_Timeout s;
     ConfigV1beta1.tc_Internals := json_norm <$> ConfigV1beta1.tc_Internals s;
     ConfigV1beta1.tc_Exchange := norm_exchange_beta <$> ConfigV1beta1.tc_Exchange s;
     ConfigV1beta1.tc_Pairlist := json_norm <$> ConfigV1beta1.tc_Pairlist s;
     ConfigV1beta1.tc_PairlistMethod := json_norm <$> ConfigV1beta1.tc_PairlistMethod s;
     ConfigV1beta1.tc_EntryPricing := json_norm <$> ConfigV1beta1.tc_EntryPricing s;
     ConfigV1beta1.tc_ExitPricing := json_norm <$> ConfigV1beta1.tc_ExitPricing s;
     ConfigV1beta1.tc_Order := json_norm <$> ConfigV1beta1.tc_Order s;
     ConfigV1beta1.tc_RiskManagement := json_norm <$> ConfigV1beta1.tc_RiskManagement s;
     ConfigV1beta1.tc_Notification := ConfigV1beta1.tc_Notification s;
     ConfigV1beta1.tc_APIServer := ConfigV1beta1.tc_APIServer s;
     ConfigV1beta1.tc_Experimental := json_norm <$> ConfigV1beta1.tc_Experimental s;
     ConfigV1beta1.tc_Logging := json_norm <$> ConfigV1beta1.tc_Logging s |}.

Definition norm_beta (c : ConfigV1beta1.TradeBotConfig) : ConfigV1beta1.TradeBotConfig :=
  {| ConfigV1beta1.Meta := ConfigV1beta1.Meta c; ConfigV1beta1.Spec := norm_spec_beta (ConfigV1beta1.Spec c); ConfigV1beta1.Status := ConfigV1beta1.Status c |}.

Definition finite_spec_beta (s : ConfigV1beta1.TradeBotConfigSpec) : Prop :=
  finite_opt (ConfigV1beta1.tc_Bot s) ∧
  finite_opt (ConfigV1beta1.tc_AI s) ∧
  finite_opt (ConfigV1beta1.tc_Data s) ∧
  finite_opt (ConfigV1beta1.tc_Advanced s) ∧
  finite_opt (ConfigV1beta1.tc_PairlistMethod s) ∧
  finite_opt (ConfigV1beta1.tc_EntryPricing s) ∧
  finite_opt (ConfigV1beta1.tc_ExitPricing s) ∧
  finite_opt (ConfigV1beta1.tc_Order s) ∧
  finite_opt (ConfigV1beta1.tc_RiskManagement s).

Definition norm_exchange_alpha (e : ConfigV1alpha1.ExchangeSpec) : ConfigV1alpha1.ExchangeSpec :=
  {| ConfigV1alpha1.ex_Name := ConfigV1alpha1.ex_Name e;
     ConfigV1alpha1.ex_Key := ConfigV1alpha1.ex_Key e;
     ConfigV1alpha1.ex_Secret := ConfigV1alpha1.ex_Secret e;
     ConfigV1alpha1.ex_Password := ConfigV1alpha1.ex_Password e;
     ConfigV1alpha1.ex_UID := ConfigV1alpha1.ex_UID e;
     ConfigV1alpha1.ex_AccountID := ConfigV1alpha1.ex_AccountID e;
     ConfigV1alpha1.ex_WalletAddress := ConfigV1alpha1.ex_WalletAddress e;
     ConfigV1alpha1.ex_PrivateKey := ConfigV1alpha1.ex_PrivateKey e;
     ConfigV1alpha1.ex_SecretRef := ConfigV1alpha1.ex_SecretRef e;
     ConfigV1alpha1.ex_CcxtConfig := ConfigV1alpha1.ex_CcxtConfig e;
     ConfigV1alpha1.ex_CcxtAsyncConfig := ConfigV1alpha1.ex_CcxtAsyncConfig e;
     ConfigV1alpha1.ex_CcxtSyncConfig := ConfigV1alpha1.ex_CcxtSyncConfig e;
     ConfigV1alpha1.ex_Whitelist := json_norm <$> ConfigV1alpha1.ex_Whitelist e;
     ConfigV1alpha1.ex_Blacklist := json_norm <$> ConfigV1alpha1.ex_Blacklist e;
     ConfigV1alpha1.ex_LogResponses := ConfigV1alpha1.ex_LogResponses e;
     ConfigV1alpha1.ex_EnableWS := ConfigV1alpha1.ex_EnableWS e;
     ConfigV1alpha1.ex_UnkownFeeRate := ConfigV1alpha1.ex_UnkownFeeRate e;
     ConfigV1alpha1.ex_OutdatedOffset := ConfigV1alpha1.ex_OutdatedOffset e;
     ConfigV1alpha1.ex_MarketRefreshInterval := ConfigV1alpha1.ex_MarketRefreshInterval e |}.

Definition norm_spec_alpha (s : ConfigV1alpha1.TradeBotConfigSpec) : ConfigV1alpha1.TradeBotConfigSpec :=
  {| ConfigV1alpha1.tc_Bot := json_norm <$> ConfigV1alpha1.tc_Bot s;
     ConfigV1alpha1.tc_AI := json_norm <$> ConfigV1alpha1.tc_AI s;
     ConfigV1alpha1.tc_Data := json_norm <$> ConfigV1alpha1.tc_Data s;
     ConfigV1alpha1.tc_Advanced := json_norm <$> ConfigV1alpha1.tc_Advanced s;
     ConfigV1alpha1.tc_Timeout := json_norm <$> ConfigV1alpha1.tc_Timeout s;
     ConfigV1alpha1.tc_Internals := json_norm <$> ConfigV1alpha1.tc_Internals s;
     ConfigV1alpha1.tc_Exchange := norm_exchange_alpha <$> ConfigV1alpha1.tc_Exchange s;
     ConfigV1alpha1.tc_Pairlist := json_norm <$> ConfigV1alpha1.tc_Pairlist s;
     ConfigV1alpha1.tc_PairlistMethod := json_norm <$> ConfigV1alpha1.tc_PairlistMethod s;
     ConfigV1alpha1.tc_EntryPricing := json_norm <$> ConfigV1alpha1.tc_EntryPricing s;
     ConfigV1alpha1.tc_ExitPricing := json_norm <$> ConfigV1alpha1.tc_ExitPricing s;
     ConfigV1alpha1.tc_Order := json_norm <$> ConfigV1alpha1.tc_Order s;
     ConfigV1alpha1.tc_RiskManagement := json_norm <$> ConfigV1alpha1.tc_RiskManagement s;
     ConfigV1alpha1.tc_Notification := ConfigV1alpha1.tc_Notification s;
     ConfigV1alpha1.tc_APIServer := ConfigV1alpha1.tc_APIServer s;
     ConfigV1alpha1.tc_Experimental := json_norm <$> ConfigV1alpha1.tc_Experimental s;
     ConfigV1alpha1.tc_Logging := json_norm <$> ConfigV1alpha1.tc_Logging s |}.

Definition norm_alpha (c : ConfigV1alpha1.TradeBotConfig) : ConfigV1alpha1.TradeBotConfig :=
  {| ConfigV1alpha1.Meta := ConfigV1alpha1.Meta c; ConfigV1alpha1.Spec := norm_spec_alpha (ConfigV1alpha1.Spec c); ConfigV1alpha1.Status := ConfigV1alpha1.Status c |}.

Definition finite_spec_alpha (s : ConfigV1alpha1.TradeBotConfigSpec) : Prop :=
  finite_opt (ConfigV1alpha1.tc_Bot s) ∧
  finite_opt (ConfigV1alpha1.tc_AI s) ∧
  finite_opt (ConfigV1alpha1.tc_Data s) ∧
  finite_opt (ConfigV1alpha1.tc_Advanced s) ∧
  finite_opt (ConfigV1alpha1.tc_PairlistMethod s) ∧
  finite_opt (ConfigV1alpha1.tc_EntryPricing s) ∧
  finite_opt (ConfigV1alpha1.tc_ExitPricing s) ∧
  finite_opt (ConfigV1alpha1.tc_Order s) ∧
  finite_opt (ConfigV1alpha1.tc_RiskManagement s).

Lemma finite_pairlist (o : option PairListSpec) : finite_opt o.
Proof. intros a _. constructor. Qed.

Lemma finite_plain {A} (o : option A) : @finite_opt A plain_round_trip o.
Proof. intros a _. constructor. Qed.

#[local] Hint Resolve finite_pairlist finite_plain : core.
#[local] Hint Extern 1 (finite_opt _) => apply finite_plain : core.

Ltac convert_sections :=
  repeat first [rewrite convert_fresh_norm by auto | rewrite convert_fresh by auto].

Lemma simple_to s :
  finite_spec_alpha s →
  convertSimpleSpecFieldsToBeta s ZeroBetaSpec =
  Ok (let n := norm_spec_alpha s in {| ConfigV1beta1.tc_Bot := ConfigV1alpha1.tc_Bot n;
        ConfigV1beta1.tc_AI := ConfigV1alpha1.tc_AI n;
        ConfigV1beta1.tc_Data := ConfigV1alpha1.tc_Data n;
        ConfigV1beta1.tc_Advanced := ConfigV1alpha1.tc_Advanced n;
        ConfigV1beta1.tc_Timeout := ConfigV1alpha1.tc_Timeout n;
        ConfigV1beta1.tc_Internals := ConfigV1alpha1.tc_Internals n;
        ConfigV1beta1.tc_Exchange := None;
        ConfigV1beta1.tc_Pairlist := ConfigV1alpha1.tc_Pairlist n;
        ConfigV1beta1.tc_PairlistMethod := ConfigV1alpha1.tc_PairlistMethod n;
        ConfigV1beta1.tc_EntryPricing := ConfigV1alpha1.tc_EntryPricing n;
        ConfigV1beta1.tc_ExitPricing := ConfigV1alpha1.tc_ExitPricing n;
        ConfigV1beta1.tc_Order := ConfigV1alpha1.tc_Order n;
        ConfigV1beta1.tc_RiskManagement := ConfigV1alpha1.tc_RiskManagement n;
        ConfigV1beta1.tc_Notification := None;
        ConfigV1beta1.tc_APIServer := None;
        ConfigV1beta1.tc_Experimental := ConfigV1alpha1.tc_Experimental n;
        ConfigV1beta1.tc_Logging := ConfigV1alpha1.tc_Logging n |}).
Proof. intros (?&?&?&?&?&?&?&?&?). unfold convertSimpleSpecFieldsToBeta; cbn. by convert_sections. Qed.

Lemma simple_from s :
  finite_spec_beta s →
  convertSimpleSpecFieldsFromBeta s ZeroAlphaSpec =
  Ok (let n := norm_spec_beta s in {| ConfigV1alpha1.tc_Bot := ConfigV1beta1.tc_Bot n;
        ConfigV1alpha1.tc_AI := ConfigV1beta1.tc_AI n;
        ConfigV1alpha1.tc_Data := ConfigV1beta1.tc_Data n;
        ConfigV1alpha1.tc_Advanced := ConfigV1beta1.tc_Advanced n;
        ConfigV1alpha1.tc_Timeout := ConfigV1beta1.tc_Timeout n;
        ConfigV1alpha1.tc_Internals := ConfigV1beta1.tc_Internals n;
        ConfigV1alpha1.tc_Exchange := None;
        ConfigV1alpha1.tc_Pairlist := ConfigV1beta1.tc_Pairlist n;
        ConfigV1alpha1.tc_PairlistMethod := ConfigV1beta1.tc_PairlistMethod n;
        ConfigV1alpha1.tc_EntryPricing := ConfigV1beta1.tc_EntryPricing n;
        ConfigV1alpha1.tc_ExitPricing := ConfigV1beta1.tc_ExitPricing n;
        ConfigV1alpha1.tc_Order := ConfigV1beta1.tc_Order n;
        ConfigV1alpha1.tc_RiskManagement := ConfigV1beta1.tc_RiskManagement n;
        ConfigV1alpha1.tc_Notification := None;
        ConfigV1alpha1.tc_APIServer := None;
        ConfigV1alpha1.tc_Experimental := ConfigV1beta1.tc_Experimental n;
        ConfigV1alpha1.tc_Logging := ConfigV1beta1.tc_Logging n |}).
Proof. intros (?&?&?&?&?&?&?&?&?). unfold convertSimpleSpecFieldsFromBeta; cbn. by convert_sections. Qed.
(** Each section on its own. *)
Lemma exchange_to e :
  ∃ b, convertExchangeSpecToBeta e = Ok b ∧
    convertExchangeSpecFromBeta b =
      Ok (norm_exchange_alpha
            {| ConfigV1alpha1.ex_Name := ConfigV1alpha1.ex_Name e;
               ConfigV1alpha1.ex_Key := ""; ConfigV1alpha1.ex_Secret := "";
               ConfigV1alpha1.ex_Password := ""; ConfigV1alpha1.ex_UID := "";
               ConfigV1alpha1.ex_AccountID := ConfigV1alpha1.ex_AccountID e;
               ConfigV1alpha1.ex_WalletAddress := ""; ConfigV1alpha1.ex_PrivateKey := "";
               ConfigV1alpha1.ex_SecretRef := ConfigV1alpha1.ex_SecretRef e;
               ConfigV1alpha1.ex_CcxtConfig := ConfigV1alpha1.ex_CcxtConfig e;
               ConfigV1alpha1.ex_CcxtAsyncConfig := ConfigV1alpha1.ex_CcxtAsyncConfig e;
               ConfigV1alpha1.ex_CcxtSyncConfig := ConfigV1alpha1.ex_CcxtSyncConfig e;
               ConfigV1alpha1.ex_Whitelist := ConfigV1alpha1.ex_Whitelist e;
               ConfigV1alpha1.ex_Blacklist := ConfigV1alpha1.ex_Blacklist e;
               ConfigV1alpha1.ex_LogResponses := ConfigV1alpha1.ex_LogResponses e;
               ConfigV1alpha1.ex_EnableWS := ConfigV1alpha1.ex_EnableWS e;
               ConfigV1alpha1.ex_UnkownFeeRate := ConfigV1alpha1.ex_UnkownFeeRate e;
               ConfigV1alpha1.ex_OutdatedOffset := ConfigV1alpha1.ex_OutdatedOffset e;
               ConfigV1alpha1.ex_MarketRefreshInterval := ConfigV1alpha1.ex_MarketRefreshInterval e |}).
Proof.
  unfold convertExchangeSpecToBeta, convertExchangeSpecFromBeta, norm_exchange_alpha; cbn.
  convert_sections; cbn. eexists; split; [reflexivity|]; cbn. by convert_sections.
Qed.

Lemma exchange_from b :
  ∃ e, convertExchangeSpecFromBeta b = Ok e ∧
    (ConfigV1alpha1.ex_Key e = "" ∧ ConfigV1alpha1.ex_Secret e = "" ∧ ConfigV1alpha1.ex_Password e = "" ∧
     ConfigV1alpha1.ex_UID e = "" ∧ ConfigV1alpha1.ex_WalletAddress e = "" ∧
     ConfigV1alpha1.ex_PrivateKey e = "") ∧
    convertExchangeSpecToBeta e = Ok (norm_exchange_beta b).
Proof.
  destruct b as [n ac [r] c1 c2 c3 wl bl lr ws uf oo mr].
  unfold convertExchangeSpecToBeta, convertExchangeSpecFromBeta, norm_exchange_beta; cbn.
  convert_sections; cbn. eexists; split; [reflexivity|]; cbn. split; [done|]. by convert_sections.
Qed.

Definition telegram_token (n : ConfigV1alpha1.NotificationSpec) : string :=
  match ConfigV1alpha1.no_Telegram n with Some t => ConfigV1alpha1.nt_Token t | None => "" end.

Lemma notification_to n :
  telegram_token n = "" →
  ∃ b, convertNotificationSpecToBeta n = Ok b ∧ convertNotificationSpecFromBeta b = Ok n.
Proof.
  destruct n as [[[en tk rf bd rl am ch tp au se]|] wh di]; cbn; [intros ->|intros _];
    [destruct se|]; destruct wh, di; eexists; split; reflexivity.
Qed.

Lemma notification_from b :
  ∃ n, convertNotificationSpecFromBeta b = Ok n ∧ telegram_token n = "" ∧
    convertNotificationSpecToBeta n = Ok b.
Proof.
  destruct b as [[[en [rf] bd rl am ch tp au se]|] wh di];
    [destruct se|]; destruct wh, di; eexists; split_and!; reflexivity.
Qed.

Lemma finite_norm_alpha s : finite_spec_alpha s → finite_spec_alpha (norm_spec_alpha s).
Proof.
  intros (?&?&?&?&?&?&?&?&?).
  unfold finite_spec_alpha, norm_spec_alpha; cbn -[finite_opt fmap].
  split_and!; by apply finite_opt_norm.
Qed.

Lemma finite_norm_beta s : finite_spec_beta s → finite_spec_beta (norm_spec_beta s).
Proof.
  intros (?&?&?&?&?&?&?&?&?).
  unfold finite_spec_beta, norm_spec_beta; cbn -[finite_opt fmap].
  split_and!; by apply finite_opt_norm.
Qed.

Lemma norm_opt_idem `{JsonRoundTripLaws A} (o : option A) :
  json_norm <$> (json_norm <$> o) = json_norm <$> o.
Proof. destruct o; cbn; by rewrite ?json_norm_idem. Qed.

(** A stored TradeBotConfig (no NaN or infinity: it came from JSON)
    read as v1alpha1 and written back: both directions succeed, no plaintext
    credential field is ever set, and the object is unchanged up to
    explicitly empty lists and maps, which become absent. *)
Lemma tradebotconfig_down_up b :
  finite_spec_beta (ConfigV1beta1.Spec b) →
  ∃ a, ConvertFrom b ZeroAlpha = Ok a ∧ plaintextCredentialFields a = [] ∧
       ConvertTo a ZeroBeta = Ok (norm_beta b).
Proof.
  intros Hf. destruct b as [m s [ph ms cs og]]. cbn in Hf.
  unfold ConvertFrom; cbn [ConfigV1beta1.Spec ConfigV1beta1.Meta ConfigV1beta1.Status ConfigV1alpha1.Spec ZeroAlpha].
  rewrite simple_from by done. cbn.
  destruct s as [bo ai da ad ti it ex pa pm en xi od rm no ap xp lo]; cbn in *.
  destruct ex as [ex|]; [destruct (exchange_from ex) as (ea & Hea & (K1&K2&K3&K4&K5&K6) & Heb)|];
    (destruct no as [no|]; [destruct (notification_from no) as (na & Hna & Hta & Hnb)|]);
    (destruct ap as [[? ? ? ? ? ? [?] ?]|]);
    cbn; rewrite ?Hea; cbn; rewrite ?Hna; cbn; (eexists; split; [reflexivity|]);
    (match goal with |- ?P ∧ _ => assert P as Hp end;
     [unfold plaintextCredentialFields; cbn; rewrite ?K1, ?K2, ?K3, ?K4, ?K5, ?K6;
      unfold telegram_token in *; try (destruct (ConfigV1alpha1.no_Telegram na); rewrite ?Hta); reflexivity|]);
    (split; [exact Hp|]); unfold ConvertTo; rewrite decide_False by (rewrite Hp; tauto);
    cbn [ConfigV1beta1.Spec ConfigV1beta1.Meta ConfigV1beta1.Status ConfigV1alpha1.Spec
         ConfigV1alpha1.Meta ConfigV1alpha1.Status ZeroBeta];
    (rewrite simple_to by (apply finite_norm_beta in Hf; exact Hf)); cbn; rewrite ?Heb; cbn; rewrite ?Hnb; cbn;
    unfold norm_beta, norm_spec_beta; cbn; rewrite ?norm_opt_idem; reflexivity.
Qed.
(** What an empty [plaintextCredentialFields] says of the sections. *)
Definition exchange_plain (e : ConfigV1alpha1.ExchangeSpec) : Prop :=
  ConfigV1alpha1.ex_Key e = "" ∧ ConfigV1alpha1.ex_Secret e = "" ∧ ConfigV1alpha1.ex_Password e = "" ∧
  ConfigV1alpha1.ex_UID e = "" ∧ ConfigV1alpha1.ex_WalletAddress e = "" ∧ ConfigV1alpha1.ex_PrivateKey e = "".

Lemma field_nil (v path : string) : (if nonempty v then [path] else []) = [] ↔ v = "".
Proof. unfold nonempty. destruct (String.eqb_spec v ""); cbn; split; congruence. Qed.

Lemma plaintext_nil cfg :
  plaintextCredentialFields cfg = [] ↔
  (∀ e, ConfigV1alpha1.tc_Exchange (ConfigV1alpha1.Spec cfg) = Some e → exchange_plain e) ∧
  (∀ a, ConfigV1alpha1.tc_APIServer (ConfigV1alpha1.Spec cfg) = Some a →
        ConfigV1alpha1.api_Password a = "" ∧ ConfigV1alpha1.api_JWTSecretKey a = "") ∧
  (∀ n, ConfigV1alpha1.tc_Notification (ConfigV1alpha1.Spec cfg) = Some n → telegram_token n = "").
Proof.
  unfold plaintextCredentialFields, exchange_plain, telegram_token.
  rewrite !app_nil. cbv zeta. split.
  - intros (He & Ha & Hn). split_and!.
    + intros e E. rewrite E in He. by rewrite !app_nil, !field_nil in He.
    + intros a E. rewrite E in Ha. by rewrite !app_nil, !field_nil in Ha.
    + intros n E. rewrite E in Hn. destruct (ConfigV1alpha1.no_Telegram n); [|done]. by rewrite field_nil in Hn.
  - intros (He & Ha & Hn). split_and!.
    + destruct (ConfigV1alpha1.tc_Exchange _) as [e|]; [|done]. rewrite !app_nil, !field_nil. by apply He.
    + destruct (ConfigV1alpha1.tc_APIServer _) as [a|]; [|done]. rewrite !app_nil, !field_nil. by apply Ha.
    + destruct (ConfigV1alpha1.tc_Notification _) as [n|]; [|done]. specialize (Hn n eq_refl).
      destruct (ConfigV1alpha1.no_Telegram n); [|done]. by rewrite field_nil.
Qed.

(** A v1alpha1 TradeBotConfig without plaintext credentials goes up and
    comes back down unchanged, up to explicitly empty lists and maps. *)
Lemma tradebotconfig_up_down a :
  finite_spec_alpha (ConfigV1alpha1.Spec a) → plaintextCredentialFields a = [] →
  ∃ b, ConvertTo a ZeroBeta = Ok b ∧ ConvertFrom b ZeroAlpha = Ok (norm_alpha a).
Proof.
  intros Hf Hp. unfold ConvertTo. rewrite decide_False by (rewrite Hp; tauto).
  apply plaintext_nil in Hp as (He & Ha & Hn). destruct a as [m s [ph ms cs og]]. cbn in Hf, He, Ha, Hn.
  cbn [ConfigV1beta1.Spec ConfigV1alpha1.Spec ConfigV1alpha1.Meta ConfigV1alpha1.Status ZeroBeta].
  rewrite simple_to by done. cbn.
  destruct s as [bo ai da ad ti it ex pa pm en xi od rm no ap xp lo]; cbn in *.
  destruct ex as [ex|]; [destruct (exchange_to ex) as (eb & Heb & Hea);
                         destruct (He _ eq_refl) as (K1&K2&K3&K4&K5&K6)|];
    (destruct no as [no|]; [destruct (notification_to no (Hn _ eq_refl)) as (nb & Hnb & Hna)|]);
    (destruct ap as [ap|]; [destruct (Ha _ eq_refl) as [K7 K8]; destruct ap|]);
    cbn in *; subst; rewrite ?Heb; cbn; rewrite ?Hnb; cbn; (eexists; split; [reflexivity|]);
    unfold ConvertFrom;
    cbn [ConfigV1beta1.Spec ConfigV1beta1.Meta ConfigV1beta1.Status ConfigV1alpha1.Spec ZeroAlpha];
    (rewrite simple_from by (apply finite_norm_alpha in Hf; exact Hf)); cbn; rewrite ?Hea; cbn; rewrite ?Hna; cbn;
    unfold norm_alpha, norm_spec_alpha; cbn; rewrite ?norm_opt_idem;
    try (destruct ex; cbn in *; subst); reflexivity.
Qed.

(** A v1alpha1 TradeBotConfig with any plaintext credential field is
    never converted: the error lists the fields, nothing is dropped. *)
Lemma tradebotconfig_plaintext_rejected a dst : plaintextCredentialFields a ≠ [] → is_ok (ConvertTo a dst) = false.
Proof. intros Hp. unfold ConvertTo. by rewrite decide_True. Qed.

(** The conversion down is lossy where its comment says it is not: an
    explicit [minimal_roi: {}] (freqtrade: no ROI table) is stored, but
    reaches v1alpha1 readers - the controllers - as an absent one. *)
Lemma empty_minimal_roi_lost b r :
  finite_spec_beta (ConfigV1beta1.Spec b) →
  ConfigV1beta1.tc_RiskManagement (ConfigV1beta1.Spec b) = Some r → rm_MinimalROI r = Some ∅ →
  ∃ a r', ConvertFrom b ZeroAlpha = Ok a ∧
          ConfigV1alpha1.tc_RiskManagement (ConfigV1alpha1.Spec a) = Some r' ∧ rm_MinimalROI r' = None.
Proof.
  intros Hf Hr Hroi. unfold ConvertFrom; cbn [ConfigV1alpha1.Spec ZeroAlpha].
  rewrite simple_from by done. cbn. rewrite Hr. cbn.
  destruct (ConfigV1beta1.tc_Exchange _) as [ex|]; [destruct (exchange_from ex) as (ea & -> & _)|]; cbn;
    (destruct (ConfigV1beta1.tc_Notification _) as [no|]; [destruct (notification_from no) as (na & -> & _)|]); cbn;
    (do 2 eexists; split; [reflexivity|]; split; [reflexivity|]); unfold json_norm; cbn; rewrite Hroi; cbn;
    by rewrite decide_True.
Qed.

(** *** Witnesses *)

Definition sample_roi : RiskManagementSpec :=
  {| rm_MinimalROI := Some ∅; rm_Stoploss := Some (S754_finite true 1 (-3)); rm_TrailingStop := false;
     rm_TrailingStopPositive := None; rm_TrailingStopPositiveOffset := None;
     rm_TrailingOnlyOffsetIsReached := false; rm_UseExitSignal := true; rm_ExitProfitOnly := false;
     rm_ExitProfitOffset := None; rm_Fee := None; rm_IgnoreRoiIfEntrySignal := false;
     rm_IgnoreBuyingExpiredCandleAfter := None; rm_MinimumTradeAmount := None; rm_TargetedTradeAmount := None;
     rm_LookaheadAnalysisExportFilename := ""; rm_StartupCandle := Some []; rm_LiquidationBuffer := None;
     rm_BacktestBreakdown := Some [] |}.

Definition sample_beta : ConfigV1beta1.TradeBotConfig :=
  {| ConfigV1beta1.Meta := NewMeta "cfg" "trading" ∅ ∅;
     ConfigV1beta1.Spec :=
       {| ConfigV1beta1.tc_Bot := None; ConfigV1beta1.tc_AI := None; ConfigV1beta1.tc_Data := None;
          ConfigV1beta1.tc_Advanced := None; ConfigV1beta1.tc_Timeout := None; ConfigV1beta1.tc_Internals := None;
          ConfigV1beta1.tc_Exchange := None; ConfigV1beta1.tc_Pairlist := Some {| pl_Pairs := Some [] |};
          ConfigV1beta1.tc_PairlistMethod := None; ConfigV1beta1.tc_EntryPricing := None;
          ConfigV1beta1.tc_ExitPricing := None; ConfigV1beta1.tc_Order := None;
          ConfigV1beta1.tc_RiskManagement := Some sample_roi; ConfigV1beta1.tc_Notification := None;
          ConfigV1beta1.tc_APIServer := None; ConfigV1beta1.tc_Experimental := None;
          ConfigV1beta1.tc_Logging := None |};
     ConfigV1beta1.Status := ZeroStatus |}.

Lemma sample_beta_finite : finite_spec_beta (ConfigV1beta1.Spec sample_beta).
Proof. repeat split; intros a [= <-]; repeat constructor. Qed.

Lemma tradebotconfig_down_up_witness :
  ∃ a, ConvertFrom sample_beta ZeroAlpha = Ok a ∧ plaintextCredentialFields a = [] ∧
       ConvertTo a ZeroBeta = Ok (norm_beta sample_beta).
Proof. apply (tradebotconfig_down_up sample_beta). apply sample_beta_finite. Defined.

Definition sample_alpha : ConfigV1alpha1.TradeBotConfig :=
  {| ConfigV1alpha1.Meta := NewMeta "cfg" "trading" ∅ ∅;
     ConfigV1alpha1.Spec :=
       {| ConfigV1alpha1.tc_Bot := None; ConfigV1alpha1.tc_AI := None; ConfigV1alpha1.tc_Data := None;
          ConfigV1alpha1.tc_Advanced := None; ConfigV1alpha1.tc_Timeout := None; ConfigV1alpha1.tc_Internals := None;
          ConfigV1alpha1.tc_Exchange := None; ConfigV1alpha1.tc_Pairlist := Some {| pl_Pairs := Some ["BTC/USDT"] |};
          ConfigV1alpha1.tc_PairlistMethod := None; ConfigV1alpha1.tc_EntryPricing := None;
          ConfigV1alpha1.tc_ExitPricing := None; ConfigV1alpha1.tc_Order := None;
          ConfigV1alpha1.tc_RiskManagement := Some sample_roi; ConfigV1alpha1.tc_Notification := None;
          ConfigV1alpha1.tc_APIServer := None; ConfigV1alpha1.tc_Experimental := None;
          ConfigV1alpha1.tc_Logging := None |};
     ConfigV1alpha1.Status := ZeroStatus |}.

Lemma tradebotconfig_up_down_witness :
  ∃ b, ConvertTo sample_alpha ZeroBeta = Ok b ∧ ConvertFrom b ZeroAlpha = Ok (norm_alpha sample_alpha).
Proof.
  apply (tradebotconfig_up_down sample_alpha); [|reflexivity].
  repeat split; intros a [= <-]; repeat constructor.
Defined.

Lemma empty_minimal_roi_lost_witness :
  ∃ a r', ConvertFrom sample_beta ZeroAlpha = Ok a ∧
          ConfigV1alpha1.tc_RiskManagement (ConfigV1alpha1.Spec a) = Some r' ∧ rm_MinimalROI r' = None.
Proof. apply (empty_minimal_roi_lost sample_beta sample_roi); [apply sample_beta_finite|reflexivity..]. Defined.

Definition with_plain_api : ConfigV1alpha1.TradeBotConfig :=
  {| ConfigV1alpha1.Meta := NewMeta "cfg" "trading" ∅ ∅;
     ConfigV1alpha1.Spec :=
       {| ConfigV1alpha1.tc_Bot := None; ConfigV1alpha1.tc_AI := None; ConfigV1alpha1.tc_Data := None;
          ConfigV1alpha1.tc_Advanced := None; ConfigV1alpha1.tc_Timeout := None; ConfigV1alpha1.tc_Internals := None;
          ConfigV1alpha1.tc_Exchange := None; ConfigV1alpha1.tc_Pairlist := None;
          ConfigV1alpha1.tc_PairlistMethod := None; ConfigV1alpha1.tc_EntryPricing := None;
          ConfigV1alpha1.tc_ExitPricing := None; ConfigV1alpha1.tc_Order := None;
          ConfigV1alpha1.tc_RiskManagement := None; ConfigV1alpha1.tc_Notification := None;
          ConfigV1alpha1.tc_APIServer := Some
            {| ConfigV1alpha1.api_Enabled := Some true; ConfigV1alpha1.api_ListenIP := "";
               ConfigV1alpha1.api_ListenPort := None; ConfigV1alpha1.api_Verbosity := "";
               ConfigV1alpha1.api_EnableOpenAPI := None; ConfigV1alpha1.api_Username := "u";
               ConfigV1alpha1.api_Password := "hunter2"; ConfigV1alpha1.api_JWTSecretKey := "";
               ConfigV1alpha1.api_SecretRef := ""; ConfigV1alpha1.api_CORSOrigins := [] |};
          ConfigV1alpha1.tc_Experimental := None; ConfigV1alpha1.tc_Logging := None |};
     ConfigV1alpha1.Status := ZeroStatus |}.

Lemma tradebotconfig_plaintext_rejected_witness : is_ok (ConvertTo with_plain_api ZeroBeta) = false.
Proof. apply (tradebotconfig_plaintext_rejected with_plain_api ZeroBeta). discriminate. Defined.
End TradeBotConfigConversion.
