(* ===== verification/Client.v ===== *)
(** * The calls the operator makes

    [Call X] is one call to the outside world, answered by an [X]: the API
    server through controller-runtime's client.Client, the event recorder, the
    metrics registry, the clock, crypto/rand and the HTTP transport of
    botclient.  A [kind] stands for a Go type registered in the scheme; the
    two versions of TradeBot are two kinds of the same resource. *)

From S2P Require Import Prelude Prog Kube Types ConfigTypes.

Inductive kind :=
  | KTradeBot            (* v1alpha1 *)
  | KTradeBotBeta        (* v1beta1 *)
  | KTradeBotConfig      (* v1alpha1 *)
  | KStrategy            (* v1alpha1 *)
  | KFreqUI              (* v1beta1 *)
  | KBacktest
  | KSecret | KConfigMap | KPersistentVolumeClaim | KStatefulSet | KService
  | KNetworkPolicy | KJob | KServiceAccount | KRole | KRoleBinding
  | KDeployment | KIngress | KHTTPRoute.
#[export] Instance kind_eq_dec : EqDecision kind.
Proof. solve_decision. Defined.

Definition Obj (k : kind) : Type :=
  match k with
  | KTradeBot => V1alpha1.TradeBot
  | KTradeBotBeta => V1beta1.TradeBot
  | KTradeBotConfig => ConfigV1alpha1.TradeBotConfig
  | KStrategy => Strategy
  | KFreqUI => V1beta1.FreqUI
  | KBacktest => Backtest
  | KSecret => Secret
  | KConfigMap => ConfigMap
  | KPersistentVolumeClaim => PersistentVolumeClaim
  | KStatefulSet => StatefulSet
  | KService => Service
  | KNetworkPolicy => NetworkPolicy
  | KJob => Job
  | KServiceAccount => ServiceAccount
  | KRole => Role
  | KRoleBinding => RoleBinding
  | KDeployment => Deployment
  | KIngress => Ingress
  | KHTTPRoute => HTTPRoute
  end.

Definition obj_Meta (k : kind) : Obj k → ObjectMeta :=
  match k with
  | KTradeBot => V1alpha1.Meta
  | KTradeBotBeta => V1beta1.Meta
  | KTradeBotConfig => ConfigV1alpha1.Meta
  | KStrategy => str_Meta
  | KFreqUI => V1beta1.fu_Meta
  | KBacktest => bt_Meta
  | KSecret => secret_Meta
  | KConfigMap => cm_Meta
  | KPersistentVolumeClaim => pvc_Meta
  | KStatefulSet => sts_Meta
  | KService => svc_Meta
  | KNetworkPolicy => np_Meta
  | KJob => job_Meta
  | KServiceAccount => sa_Meta
  | KRole => role_Meta
  | KRoleBinding => rb_Meta
  | KDeployment => dep_Meta
  | KIngress => ing_Meta
  | KHTTPRoute => hr_Meta
  end.

(** The object with its owner references replaced. *)
Definition obj_with_Meta (k : kind) : Obj k → ObjectMeta → Obj k :=
  match k with
  | KTradeBot => V1alpha1.with_Meta
  | KTradeBotBeta => V1beta1.with_Meta
  | KTradeBotConfig => fun o m =>
      {| ConfigV1alpha1.Meta := m; ConfigV1alpha1.Spec := ConfigV1alpha1.Spec o;
         ConfigV1alpha1.Status := ConfigV1alpha1.Status o |}
  | KStrategy => fun o m => {| str_Meta := m; str_Spec := str_Spec o; str_Status := str_Status o |}
  | KFreqUI => fun o m =>
      {| V1beta1.fu_Meta := m; V1beta1.fu_Spec := V1beta1.fu_Spec o; V1beta1.fu_Status := V1beta1.fu_Status o |}
  | KBacktest => fun o m => {| bt_Meta := m; bt_Spec := bt_Spec o; bt_Status := bt_Status o |}
  | KSecret => fun o m =>
      {| secret_Meta := m; secret_Data := secret_Data o; secret_StringData := secret_StringData o;
         secret_Type := secret_Type o |}
  | KConfigMap => with_cm_Meta
  | KPersistentVolumeClaim => with_pvc_Meta
  | KStatefulSet => fun o m =>
      {| sts_Meta := m; sts_Replicas := sts_Replicas o; sts_Selector := sts_Selector o;
         sts_ServiceName := sts_ServiceName o; sts_Template := sts_Template o;
         sts_Status_Replicas := sts_Status_Replicas o; sts_Status_ReadyReplicas := sts_Status_ReadyReplicas o |}
  | KService => fun o m =>
      {| svc_Meta := m; svc_Type := svc_Type o; svc_Ports := svc_Ports o; svc_Selector := svc_Selector o;
         svc_LoadBalancerSourceRanges := svc_LoadBalancerSourceRanges o;
         svc_ExternalTrafficPolicy := svc_ExternalTrafficPolicy o; svc_SessionAffinity := svc_SessionAffinity o |}
  | KNetworkPolicy => fun o m =>
      {| np_Meta := m; np_PodSelector := np_PodSelector o; np_PolicyTypes := np_PolicyTypes o;
         np_Ingress := np_Ingress o |}
  | KJob => fun o m =>
      {| job_Meta := m; job_BackoffLimit := job_BackoffLimit o;
         job_TTLSecondsAfterFinished := job_TTLSecondsAfterFinished o; job_Template := job_Template o;
         job_Status_Active := job_Status_Active o; job_Status_Succeeded := job_Status_Succeeded o;
         job_Status_Failed := job_Status_Failed o; job_Status_StartTime := job_Status_StartTime o;
         job_Status_CompletionTime := job_Status_CompletionTime o |}
  | KServiceAccount => fun _ m => {| sa_Meta := m |}
  | KRole => fun o m => {| role_Meta := m; role_Rules := role_Rules o |}
  | KRoleBinding => fun o m => {| rb_Meta := m; rb_RoleRef := rb_RoleRef o; rb_Subjects := rb_Subjects o |}
  | KDeployment => fun o m =>
      {| dep_Meta := m; dep_Replicas := dep_Replicas o; dep_Selector := dep_Selector o;
         dep_Template := dep_Template o; dep_Status_Replicas := dep_Status_Replicas o;
         dep_Status_AvailableReplicas := dep_Status_AvailableReplicas o |}
  | KIngress => fun o m =>
      {| ing_Meta := m; ing_IngressClassName := ing_IngressClassName o; ing_Rules := ing_Rules o;
         ing_TLS := ing_TLS o; ing_DefaultBackend := ing_DefaultBackend o |}
  | KHTTPRoute => fun o m =>
      {| hr_Meta := m; hr_ParentRefs := hr_ParentRefs o; hr_Hostnames := hr_Hostnames o;
         hr_Rules := hr_Rules o; hr_Status_Parents := hr_Status_Parents o |}
  end.

Lemma obj_Meta_with k (o : Obj k) m : obj_Meta k (obj_with_Meta k o m) = m.
Proof. by destruct k. Qed.

Inductive EventType := EventTypeNormal | EventTypeWarning.

(** An HTTP request of botclient and what the transport answers: an error, or
    a status code with the outcome of reading the (capped) body. *)
Record HttpRequest := {
  req_Method : string; req_URL : string; req_BasicAuth : option (string * string); req_Body : string
}.
Record HttpResponse := { resp_StatusCode : Z; resp_Body : result string }.

(** The label set of the freqtrade_bot_* gauges. *)
Record BotLabels := {
  bl_Namespace : string; bl_TradeBot : string; bl_Strategy : string; bl_Exchange : string; bl_DryRun : string
}.
#[export] Instance BotLabels_eq_dec : EqDecision BotLabels.
Proof. solve_decision. Defined.

Inductive gauge :=
  | BotUp | BotState | BotOpenTrades | BotMaxOpenTrades | BotProfitAbs | BotProfitRatio | BotBalance
  | BotLastPollTimestampSeconds.
#[export] Instance gauge_eq_dec : EqDecision gauge.
Proof. solve_decision. Defined.

Inductive Call : Type → Type :=
  | Get (k : kind) (key : NamespacedName) : Call (result (Obj k))
  | ListAll (k : kind) (ns : option string) (field : option (string * string)) : Call (result (list (Obj k)))
  | Create (k : kind) (o : Obj k) : Call (result (Obj k))
  | Update (k : kind) (o : Obj k) : Call (result (Obj k))
  | StatusUpdate (k : kind) (o : Obj k) : Call (result (Obj k))
  | Patch (k : kind) (o : Obj k) : Call (result (Obj k))        (* server-side apply *)
  | Delete (k : kind) (key : NamespacedName) : Call (result unit)
  | Event (k : kind) (key : NamespacedName) (ty : EventType) (reason message : string) : Call unit
  | ReconcileErrorsInc (controller reason : string) : Call unit
  | ConfigRenderObserve : Call unit
  | GaugeSet (g : gauge) (l : BotLabels) (v : spec_float) : Call unit
  | GaugeDelete (g : gauge) (l : BotLabels) : Call unit
  | Now : Call Z                                                (* nanoseconds since the epoch *)
  | RandRead (n : nat) : Call (result (list Byte.byte))
  | HttpDo (r : HttpRequest) : Call (result HttpResponse)
  | ListLabelled (k : kind) (ns : string) (label : string * string) : Call (result (list (Obj k))).

Abbreviation Op := (Prog Call).

(** Classes of calls that theorems speak of. *)
Definition is_cluster_write {X} (c : Call X) : bool :=
  match c with
  | Create _ _ | Update _ _ | StatusUpdate _ _ | Patch _ _ | Delete _ _ => true
  | _ => false
  end.

Definition writes_kind {X} (k : kind) (c : Call X) : bool :=
  match c with
  | Create k' _ | Update k' _ | StatusUpdate k' _ | Patch k' _ | Delete k' _ => bool_decide (k = k')
  | _ => false
  end.

Definition is_apply {X} (c : Call X) : bool := match c with Patch _ _ => true | _ => false end.

Definition is_now {X} (c : Call X) : bool := match c with Now => true | _ => false end.

Definition is_post {X} (c : Call X) : bool :=
  match c with HttpDo r => (req_Method r =? "POST")%string | _ => false end.

(** A recorder that may be nil, [if r.Recorder != nil { r.Recorder.Event(...) }]. *)
Definition record_event (hasRecorder : bool) (k : kind) (key : NamespacedName) (ty : EventType)
    (reason message : string) : Op unit :=
  if hasRecorder then trigger (Event k key ty reason message) else mret tt.

(** What a reconcile returns, [ctrl.Result{RequeueAfter: d}, err]. *)
Definition Result : Type := (Z * option error)%type.
Definition secs (n : Z) : Z := (n * Second)%Z.

(** ** Telling events apart *)

Definition call_tag {X} (c : Call X) : nat :=
  match c with
  | Get _ _ => 0 | ListAll _ _ _ => 1 | Create _ _ => 2 | Update _ _ => 3 | StatusUpdate _ _ => 4
  | Patch _ _ => 5 | Delete _ _ => 6 | Event _ _ _ _ _ => 7 | ReconcileErrorsInc _ _ => 8
  | ConfigRenderObserve => 9 | GaugeSet _ _ _ => 10 | GaugeDelete _ _ => 11 | Now => 12
  | RandRead _ => 13 | HttpDo _ => 14 | ListLabelled _ _ _ => 15
  end.

Definition ev_tag (e : event Call) : nat := match e with Ev c _ => call_tag c end.

(** The object a call carries or an answer brings, with its kind. *)
Definition ev_get (e : event Call) : option { k : kind & (NamespacedName * result (Obj k))%type } :=
  match e with
  | @Ev _ _ c x =>
      match c in Call X return X → option { k : kind & (NamespacedName * result (Obj k))%type } with
      | Get k key => fun r => Some (existT k (key, r))
      | _ => fun _ => None
      end x
  end.

Definition ev_written (e : event Call) : option { k : kind & Obj k } :=
  match e with
  | Ev c _ =>
      match c with
      | Create k o | Update k o | StatusUpdate k o | Patch k o => Some (existT k o)
      | _ => None
      end
  end.

Lemma ev_get_inj k key r key' r' :
  Ev (Get k key) r = Ev (Get k key') r' → key = key' ∧ r = r'.
Proof.
  intros H%(f_equal ev_get). apply Some_inj in H. cbn in H.
  apply (inj_pair2_eq_dec _ (fun a b => decide (a = b))) in H. by injection H.
Qed.

(** Reads in a history written out. *)
Lemma got_eq k key r key' r' (h : history Call) :
  Ev (Get k key) r ∈ Ev (Get k key') r' :: h ↔ (key = key' ∧ r = r') ∨ Ev (Get k key) r ∈ h.
Proof.
  rewrite elem_of_cons. split; intros [E|?]; auto; left; [by apply ev_get_inj in E|by destruct E as [-> ->]].
Qed.

Lemma got_ne k k' key r key' r' (h : history Call) :
  k ≠ k' → Ev (Get k key) r ∈ Ev (Get k' key') r' :: h ↔ Ev (Get k key) r ∈ h.
Proof.
  intros Hk. rewrite elem_of_cons. split; [|by right]. intros [E%(f_equal ev_get)|?]; [|done]. by injection E.
Qed.

Lemma got_nil k key r : Ev (Get k key) r ∈ ([] : history Call) ↔ False.
Proof. apply elem_of_nil. Qed.

Lemma ev_written_inj (c c' : ∀ k, Obj k → Call (result (Obj k))) k o r o' r' :
  (∀ k o r, ev_written (Ev (c k o) r) = Some (existT k o)) →
  (∀ k o r, ev_written (Ev (c' k o) r) = Some (existT k o)) →
  Ev (c k o) r = Ev (c' k o') r' → o = o'.
Proof.
  intros Hc Hc' H%(f_equal ev_written). rewrite Hc, Hc' in H. apply Some_inj in H.
  by apply (inj_pair2_eq_dec _ (fun a b => decide (a = b))) in H.
Qed.

Lemma StatusUpdate_inj k o r o' r' : Ev (StatusUpdate k o) r = Ev (StatusUpdate k o') r' → o = o'.
Proof. by apply (ev_written_inj StatusUpdate StatusUpdate). Qed.

Lemma Update_inj k o r o' r' : Ev (Update k o) r = Ev (Update k o') r' → o = o'.
Proof. by apply (ev_written_inj Update Update). Qed.

Lemma Patch_inj k o r o' r' : Ev (Patch k o) r = Ev (Patch k o') r' → o = o'.
Proof. by apply (ev_written_inj Patch Patch). Qed.

(** What was applied and what the server answered. *)
Definition ev_patch (e : event Call) : option { k : kind & (Obj k * result (Obj k))%type } :=
  match e with
  | @Ev _ _ c x =>
      match c in Call X return X → option { k : kind & (Obj k * result (Obj k))%type } with
      | Patch k o => fun r => Some (existT k (o, r))
      | _ => fun _ => None
      end x
  end.

Lemma Patch_answer_inj k o r o' r' : Ev (Patch k o) r = Ev (Patch k o') r' → o = o' ∧ r = r'.
Proof.
  intros H%(f_equal ev_patch). apply Some_inj in H. cbn in H.
  apply (inj_pair2_eq_dec _ (fun a b => decide (a = b))) in H. by injection H.
Qed.

(** Was a status update accepted. *)
Definition ev_accepted (e : event Call) : bool :=
  match e with
  | @Ev _ _ c x => match c in Call X return X → bool with StatusUpdate _ _ => is_ok | _ => fun _ => false end x
  end.

(** The kind and key of a Delete. *)
Definition ev_deleted (e : event Call) : option (kind * NamespacedName) :=
  match e with Ev c _ => match c with Delete k key => Some (k, key) | _ => None end end.

Lemma Delete_inj k key x k' key' x' : Ev (Delete k key) x = Ev (Delete k' key') x' → k = k' ∧ key = key'.
Proof. intros H%(f_equal ev_deleted). by injection H. Qed.

Ltac ev_discr :=
  exfalso; match goal with H : Ev _ _ = Ev _ _ |- _ => apply (f_equal ev_tag) in H; discriminate H end.

(** ** A concrete environment

    Reads are answered from functions, writes succeed and store nothing,
    random bytes are zeros. *)
Record Env := {
  env_get : ∀ k, NamespacedName → result (Obj k);
  env_list : ∀ k, result (list (Obj k));
  env_now : Z;
  env_http : HttpRequest → result HttpResponse
}.

Definition NotFoundErr : error := Leaf NotFound "not found".

Definition empty_env : Env :=
  {| env_get := fun _ _ => Err NotFoundErr; env_list := fun _ => Ok []; env_now := 0;
     env_http := fun _ => Err (Errorf "connection refused") |}.

Definition answer (env : Env) (X : Type) (c : Call X) (s : unit) : X * unit :=
  (match c in Call X return X with
   | Get k key => env_get env k key
   | ListAll k _ _ => env_list env k
   | Create _ o | Update _ o | StatusUpdate _ o | Patch _ o => Ok o
   | Delete _ _ => Ok tt
   | Event _ _ _ _ _ | ReconcileErrorsInc _ _ | ConfigRenderObserve | GaugeSet _ _ _ | GaugeDelete _ _ => tt
   | Now => env_now env
   | RandRead n => Ok (replicate n Byte.x00)
   | HttpDo r => env_http env r
   | ListLabelled k _ _ => env_list env k
   end, s).

(** The result and the history of a run. *)
Definition exec {A} (env : Env) (p : Op A) : A * history Call :=
  let r := run (answer env) p tt [] in (r.1.1, r.2).

Lemma exec_wp {A} env (p : Op A) Q : wp p [] Q → Q (exec env p).2 (exec env p).1.
Proof. exact (wp_run (answer env) p tt [] Q). Qed.

(** Every event of a run carries the environment's answer. *)
Definition answered (env : Env) (e : event Call) : Prop :=
  match e with Ev c x => x = (answer env _ c tt).1 end.

Lemma exec_answered {A} env (p : Op A) : Forall (answered env) (exec env p).2.
Proof.
  unfold exec. cbn. enough (∀ s h, Forall (answered env) h → Forall (answered env) (run (answer env) p s h).2) by auto.
  induction p as [a|X c k IH]; intros s h Hh; cbn; [done|]. destruct s. apply IH, Forall_app. split; [done|].
  constructor; [|constructor]. done.
Qed.

Lemma exec_get {A} env (p : Op A) k key x : Ev (Get k key) x ∈ (exec env p).2 → x = env_get env k key.
Proof. intros Hin. pose proof (exec_answered env p) as Hall. rewrite Forall_forall in Hall. by apply Hall in Hin. Qed.
