(* ===== verification/Scheme.v ===== *)
(** * The scheme: groupversion_info.go and the init functions

    Which Go types are registered under which group, version and kind, what
    the two versions have in common, and what the deep copies are good for:
    the objects the cache hands out are apart from the ones it keeps, so that
    the rest of the development may treat them as values. *)

From S2P Require Import Prelude GoHeap ApiAlpha ApiBeta DeepCopyAlpha DeepCopyBeta Kube Types ConfigTypes Client.

(** ** Registration *)

Record GroupVersion := { gv_Group : string; gv_Version : string }.
Record GroupVersionKind := { gvk_GV : GroupVersion; gvk_Kind : string }.

#[export] Instance GroupVersion_eq_dec : EqDecision GroupVersion.
Proof. solve_decision. Defined.
#[export] Instance GroupVersionKind_eq_dec : EqDecision GroupVersionKind.
Proof. solve_decision. Defined.
#[export] Instance GroupVersion_countable : Countable GroupVersion.
Proof. by apply (inj_countable' (fun g => (gv_Group g, gv_Version g)) (fun p => {| gv_Group := p.1; gv_Version := p.2 |})); intros []. Qed.
#[export] Instance GroupVersionKind_countable : Countable GroupVersionKind.
Proof. by apply (inj_countable' (fun g => (gvk_GV g, gvk_Kind g)) (fun p => {| gvk_GV := p.1; gvk_Kind := p.2 |})); intros []. Qed.

(** A runtime.Object: a pointer to a type, by the name of the type, with its
    DeepCopyObject. *)
Record GoType := { go_name : string; go_type : ty; go_copy : gval → H gval }.

(** The type behind a kind. *)
Abbreviation Scheme := (gmap GroupVersionKind GoType).

(** scheme.Builder: what was registered, to be added to a scheme. *)
Record Builder := { b_GroupVersion : GroupVersion; b_objects : list GoType }.

Definition Register (b : Builder) (objs : list GoType) : Builder :=
  {| b_GroupVersion := b_GroupVersion b; b_objects := b_objects b ++ objs |}.

(** What a builder adds: every object under its type's name. *)
Definition entries (b : Builder) : list (GroupVersionKind * GoType) :=
  map (fun o => ({| gvk_GV := b_GroupVersion b; gvk_Kind := go_name o |}, o)) (b_objects b).

(** The kinds of metav1 that Builder.AddToScheme registers along with them, in
    the same group version, the group's internal version and the unversioned
    group (metav1.AddToGroupVersion). *)
Definition meta_kinds : list string :=
  ["WatchEvent"; "ListOptions"; "GetOptions"; "DeleteOptions"; "CreateOptions"; "UpdateOptions"; "PatchOptions";
   "Status"; "APIVersions"; "APIGroupList"; "APIGroup"; "APIResourceList"].
Definition meta_kind (gvk : GroupVersionKind) : Prop := gvk_Kind gvk ∈ meta_kinds.

(** controller-runtime's and apimachinery's part: Builder.AddToScheme adds all
    registered types to a scheme that has none of these kinds, and metav1's
    own where they are not there yet; every other kind is left as it is.
    ([None] is a panic, which a kind taken by another type causes.)
    [meta_object] are the types metav1 registers. *)
Class SchemeLib := {
  meta_object : GroupVersionKind → GoType → Prop;
  AddToScheme : Builder → Scheme → option Scheme;
  AddToScheme_adds b s :
    NoDup (map go_name (b_objects b)) → (∀ o, o ∈ b_objects b → go_name o ∉ meta_kinds) →
    (∀ gvk o, (gvk, o) ∈ entries b → s !! gvk = None) →
    (∀ gvk o, meta_kind gvk → s !! gvk = Some o → meta_object gvk o) →
    ∃ s', AddToScheme b s = Some s' ∧
      (∀ gvk, ¬ meta_kind gvk →
         s' !! gvk = match (list_to_map (entries b) : Scheme) !! gvk with Some o => Some o | None => s !! gvk end) ∧
      (∀ gvk o, meta_kind gvk → s' !! gvk = Some o → meta_object gvk o)
}.

(** A concrete one: the types one after the other, then metav1's. *)
Module SchemeImpl.
Definition AddKnownType (gv : GroupVersion) (s : option Scheme) (o : GoType) : option Scheme :=
  s ← s;
  let gvk := {| gvk_GV := gv; gvk_Kind := go_name o |} in
  match s !! gvk with
  | None => Some (<[gvk := o]> s)
  | Some o' => if decide (go_type o' = go_type o) then Some s else None
  end.

Definition meta_type (n : string) : GoType := {| go_name := n; go_type := TStruct []; go_copy := fun v => mret v |}.

Definition AddToGroupVersion (gv : GroupVersion) (s : Scheme) : Scheme :=
  foldl (fun s n => <[ {| gvk_GV := gv; gvk_Kind := n |} := meta_type n ]> s) s meta_kinds.

Definition add_to_scheme (b : Builder) (s : Scheme) : option Scheme :=
  AddToGroupVersion (b_GroupVersion b) <$> foldl (AddKnownType (b_GroupVersion b)) (Some s) (b_objects b).

Lemma add_known b s :
  NoDup (map go_name (b_objects b)) → (∀ gvk o, (gvk, o) ∈ entries b → s !! gvk = None) →
  ∃ s', foldl (AddKnownType (b_GroupVersion b)) (Some s) (b_objects b) = Some s' ∧
    ∀ gvk, s' !! gvk = match (list_to_map (entries b) : Scheme) !! gvk with Some o => Some o | None => s !! gvk end.
Proof.
  unfold entries. generalize (b_GroupVersion b) as gv. generalize (b_objects b) as os. intros os gv.
  revert s. induction os as [|o os IH]; intros s Hnd Hfr; cbn; [by exists s|].
  apply NoDup_cons in Hnd as [Hn Hnd]. rewrite (Hfr _ o) by (by left).
  destruct (IH (<[{| gvk_GV := gv; gvk_Kind := go_name o |} := o]> s) Hnd) as (s' & -> & Hs').
  { intros gvk o' Hin. rewrite lookup_insert_ne; [eapply Hfr; right; exact Hin|]. intros <-.
    apply list_elem_of_fmap in Hin as (o2 & [= E ->] & Ho2). destruct Hn. rewrite E. by apply (list_elem_of_fmap_2 go_name). }
  exists s'. split; [done|]. intros gvk. rewrite Hs'. destruct (decide (gvk = {| gvk_GV := gv; gvk_Kind := go_name o |})) as [->|Hne].
  - rewrite !lookup_insert_eq. rewrite not_elem_of_list_to_map_1; [done|]. intros Hin. destruct Hn.
    apply list_elem_of_fmap in Hin as ([g o'] & E & (o2 & E2 & Ho2)%list_elem_of_fmap). cbn in E. subst g.
    injection E2 as E2 ->. rewrite E2. by apply (list_elem_of_fmap_2 go_name).
  - by rewrite !lookup_insert_ne by done.
Qed.

Lemma add_meta gv s gvk :
  AddToGroupVersion gv s !! gvk =
  if decide (meta_kind gvk ∧ gvk_GV gvk = gv) then Some (meta_type (gvk_Kind gvk)) else s !! gvk.
Proof.
  unfold AddToGroupVersion, meta_kind. revert s. induction meta_kinds as [|n ns IH] using rev_ind; intros s.
  - rewrite decide_False; [done|]. by intros [?%elem_of_nil _].
  - rewrite foldl_app. cbn. destruct (decide (gvk = {| gvk_GV := gv; gvk_Kind := n |})) as [->|Hne].
    + rewrite lookup_insert_eq, decide_True; [done|]. cbn. split; [apply elem_of_app; right; by left|done].
    + rewrite lookup_insert_ne by done. rewrite IH. apply decide_ext. rewrite elem_of_app. split; [by intros [? ?]; auto|].
      intros [[?|Hin%list_elem_of_singleton] Hgv]; [done|]. destruct Hne. destruct gvk; cbn in *. congruence.
Qed.

Lemma add_to_scheme_fresh b s :
  NoDup (map go_name (b_objects b)) → (∀ o, o ∈ b_objects b → go_name o ∉ meta_kinds) →
  (∀ gvk o, (gvk, o) ∈ entries b → s !! gvk = None) →
  (∀ gvk o, meta_kind gvk → s !! gvk = Some o → o = meta_type (gvk_Kind gvk)) →
  ∃ s', add_to_scheme b s = Some s' ∧
    (∀ gvk, ¬ meta_kind gvk →
       s' !! gvk = match (list_to_map (entries b) : Scheme) !! gvk with Some o => Some o | None => s !! gvk end) ∧
    (∀ gvk o, meta_kind gvk → s' !! gvk = Some o → o = meta_type (gvk_Kind gvk)).
Proof.
  intros Hnd Hnm Hfr Hm. destruct (add_known b s Hnd Hfr) as (s' & Hs' & Hl). unfold add_to_scheme. rewrite Hs'.
  eexists. split; [done|]. split.
  - intros gvk Hk. rewrite add_meta, decide_False by (by intros [? _]). apply Hl.
  - intros gvk o Hk. rewrite add_meta. case_decide; [by intros [= <-]|]. rewrite Hl, not_elem_of_list_to_map_1; [by apply Hm|].
    intros ([g o'] & -> & (o2 & [= -> ->] & Ho2)%list_elem_of_fmap)%list_elem_of_fmap. by apply (Hnm _ Ho2).
Qed.
End SchemeImpl.

Definition scheme_instance : SchemeLib :=
  {| meta_object gvk o := o = SchemeImpl.meta_type (gvk_Kind gvk); AddToScheme_adds := SchemeImpl.add_to_scheme_fresh |}.

(** *** api/v1alpha1 *)
Module V1alpha1Scheme.
Definition GroupVersion : GroupVersion := {| gv_Group := "freqtrade.io"; gv_Version := "v1alpha1" |}.
Definition frequi_init `{GoRuntime} : list GoType :=
  [ {| go_name := "FreqUI"; go_type := ApiAlpha.t_FreqUI; go_copy := DeepCopyAlpha.FreqUI_DeepCopyObject |};
    {| go_name := "FreqUIList"; go_type := ApiAlpha.t_FreqUIList; go_copy := DeepCopyAlpha.FreqUIList_DeepCopyObject |} ].
Definition strategy_init `{GoRuntime} : list GoType :=
  [ {| go_name := "Strategy"; go_type := ApiAlpha.t_Strategy; go_copy := DeepCopyAlpha.Strategy_DeepCopyObject |};
    {| go_name := "StrategyList"; go_type := ApiAlpha.t_StrategyList; go_copy := DeepCopyAlpha.StrategyList_DeepCopyObject |} ].
Definition tradebot_init `{GoRuntime} : list GoType :=
  [ {| go_name := "TradeBot"; go_type := ApiAlpha.t_TradeBot; go_copy := DeepCopyAlpha.TradeBot_DeepCopyObject |};
    {| go_name := "TradeBotList"; go_type := ApiAlpha.t_TradeBotList; go_copy := DeepCopyAlpha.TradeBotList_DeepCopyObject |} ].
Definition tradebotconfig_init `{GoRuntime} : list GoType :=
  [ {| go_name := "TradeBotConfig"; go_type := ApiAlpha.t_TradeBotConfig; go_copy := DeepCopyAlpha.TradeBotConfig_DeepCopyObject |};
    {| go_name := "TradeBotConfigList"; go_type := ApiAlpha.t_TradeBotConfigList; go_copy := DeepCopyAlpha.TradeBotConfigList_DeepCopyObject |} ].

(** The init functions run in the order of the file names. *)
Definition SchemeBuilder `{GoRuntime} : Builder :=
  foldl Register {| b_GroupVersion := GroupVersion; b_objects := [] |}
    [frequi_init; strategy_init; tradebot_init; tradebotconfig_init].
End V1alpha1Scheme.

(** *** api/v1beta1 *)
Module V1beta1Scheme.
Definition GroupVersion : GroupVersion := {| gv_Group := "freqtrade.io"; gv_Version := "v1beta1" |}.
Definition backtest_init `{GoRuntime} : list GoType :=
  [ {| go_name := "Backtest"; go_type := ApiBeta.t_Backtest; go_copy := DeepCopyBeta.Backtest_DeepCopyObject |};
    {| go_name := "BacktestList"; go_type := ApiBeta.t_BacktestList; go_copy := DeepCopyBeta.BacktestList_DeepCopyObject |} ].
Definition frequi_init `{GoRuntime} : list GoType :=
  [ {| go_name := "FreqUI"; go_type := ApiBeta.t_FreqUI; go_copy := DeepCopyBeta.FreqUI_DeepCopyObject |};
    {| go_name := "FreqUIList"; go_type := ApiBeta.t_FreqUIList; go_copy := DeepCopyBeta.FreqUIList_DeepCopyObject |} ].
Definition strategy_init `{GoRuntime} : list GoType :=
  [ {| go_name := "Strategy"; go_type := ApiBeta.t_Strategy; go_copy := DeepCopyBeta.Strategy_DeepCopyObject |};
    {| go_name := "StrategyList"; go_type := ApiBeta.t_StrategyList; go_copy := DeepCopyBeta.StrategyList_DeepCopyObject |} ].
Definition tradebot_init `{GoRuntime} : list GoType :=
  [ {| go_name := "TradeBot"; go_type := ApiBeta.t_TradeBot; go_copy := DeepCopyBeta.TradeBot_DeepCopyObject |};
    {| go_name := "TradeBotList"; go_type := ApiBeta.t_TradeBotList; go_copy := DeepCopyBeta.TradeBotList_DeepCopyObject |} ].
Definition tradebotconfig_init `{GoRuntime} : list GoType :=
  [ {| go_name := "TradeBotConfig"; go_type := ApiBeta.t_TradeBotConfig; go_copy := DeepCopyBeta.TradeBotConfig_DeepCopyObject |};
    {| go_name := "TradeBotConfigList"; go_type := ApiBeta.t_TradeBotConfigList; go_copy := DeepCopyBeta.TradeBotConfigList_DeepCopyObject |} ].

Definition SchemeBuilder `{GoRuntime} : Builder :=
  foldl Register {| b_GroupVersion := GroupVersion; b_objects := [] |}
    [backtest_init; frequi_init; strategy_init; tradebot_init; tradebotconfig_init].
End V1beta1Scheme.

(** *** cmd/main.go: init

    [clientgo] is the scheme client-go fills, [gateway] what gatewayv1.Install
    adds. *)
Definition manager_scheme `{GoRuntime, SchemeLib} (clientgo : Scheme) (gateway : Scheme → option Scheme) : option Scheme :=
  s ← AddToScheme V1alpha1Scheme.SchemeBuilder clientgo;
  s ← AddToScheme V1beta1Scheme.SchemeBuilder s;
  gateway s.

(** ** What the scheme holds *)

Section Holds.
Context `{GoRuntime, SchemeLib}.

(** The kinds the client is used with, of the operator's own group. *)
Definition own_gvk (k : kind) : option GroupVersionKind :=
  let gvk gv n := Some {| gvk_GV := gv; gvk_Kind := n |} in
  match k with
  | KTradeBot => gvk V1alpha1Scheme.GroupVersion "TradeBot"
  | KTradeBotBeta => gvk V1beta1Scheme.GroupVersion "TradeBot"
  | KTradeBotConfig => gvk V1alpha1Scheme.GroupVersion "TradeBotConfig"
  | KStrategy => gvk V1alpha1Scheme.GroupVersion "Strategy"
  | KFreqUI => gvk V1beta1Scheme.GroupVersion "FreqUI"
  | KBacktest => gvk V1beta1Scheme.GroupVersion "Backtest"
  | _ => None
  end.

Definition list_gvk (gvk : GroupVersionKind) : GroupVersionKind :=
  {| gvk_GV := gvk_GV gvk; gvk_Kind := gvk_Kind gvk ^^ "List" |}.

(** Its DeepCopyObject is a deep copy. *)
Definition deep (o : GoType) : Prop := Copies (TPtr (go_type o)) (go_copy o).

Ltac deep_init :=
  lazymatch goal with |- Forall deep (?l _) => unfold l end;
  repeat (apply Forall_cons; split); [..|apply Forall_nil; exact I]; unfold deep; cbn [go_type go_copy].

Lemma alpha_deep : Forall deep (b_objects V1alpha1Scheme.SchemeBuilder).
Proof.
  change (Forall deep (V1alpha1Scheme.frequi_init ++ V1alpha1Scheme.strategy_init ++ V1alpha1Scheme.tradebot_init
    ++ V1alpha1Scheme.tradebotconfig_init)). rewrite !Forall_app. split_and!.
  - deep_init; [exact copies_alpha_FreqUI_object|exact copies_alpha_FreqUIList_object].
  - deep_init; [exact copies_alpha_Strategy_object|exact copies_alpha_StrategyList_object].
  - deep_init; [exact copies_alpha_TradeBot_object|exact copies_alpha_TradeBotList_object].
  - deep_init;
      [exact copies_alpha_TradeBotConfig_object|exact copies_alpha_TradeBotConfigList_object].
Qed.

Lemma beta_deep : Forall deep (b_objects V1beta1Scheme.SchemeBuilder).
Proof.
  change (Forall deep (V1beta1Scheme.backtest_init ++ V1beta1Scheme.frequi_init ++ V1beta1Scheme.strategy_init
    ++ V1beta1Scheme.tradebot_init ++ V1beta1Scheme.tradebotconfig_init)). rewrite !Forall_app. split_and!.
  - deep_init; [exact copies_beta_Backtest_object|exact copies_beta_BacktestList_object].
  - deep_init; [exact copies_beta_FreqUI_object|exact copies_beta_FreqUIList_object].
  - deep_init; [exact copies_beta_Strategy_object|exact copies_beta_StrategyList_object].
  - deep_init; [exact copies_beta_TradeBot_object|exact copies_beta_TradeBotList_object].
  - deep_init;
      [exact copies_beta_TradeBotConfig_object|exact copies_beta_TradeBotConfigList_object].
Qed.

(** [Hub()] of api/v1beta1: the kinds that are converted. *)
Definition hubs : list string := ["TradeBotConfig"; "FreqUI"; "TradeBot"; "Strategy"].

(** What client-go and the Gateway API register lies outside the operator's
    group, and metav1's kinds are metav1's wherever they are registered. *)
Definition own_group (gvk : GroupVersionKind) : Prop := gv_Group (gvk_GV gvk) = "freqtrade.io".

Record foreign (clientgo : Scheme) (gateway : Scheme → option Scheme) : Prop := {
  fo_clientgo gvk : own_group gvk → clientgo !! gvk = None;
  fo_meta gvk o : meta_kind gvk → clientgo !! gvk = Some o → meta_object gvk o;
  fo_gateway s : ∃ s', gateway s = Some s' ∧ ∀ gvk, own_group gvk → s' !! gvk = s !! gvk
}.

Definition own_entries : list (GroupVersionKind * GoType) :=
  entries V1beta1Scheme.SchemeBuilder ++ entries V1alpha1Scheme.SchemeBuilder.

Lemma entries_version b gvk o : (gvk, o) ∈ entries b → gvk_GV gvk = b_GroupVersion b ∧ o ∈ b_objects b.
Proof. intros (o' & [= -> ->] & Hin)%list_elem_of_fmap. done. Qed.

Lemma lookup_app (lb la : list (GroupVersionKind * GoType)) gvk :
  (list_to_map (lb ++ la) : Scheme) !! gvk =
  match (list_to_map lb : Scheme) !! gvk with
  | Some o => Some o
  | None => match (list_to_map la : Scheme) !! gvk with Some o => Some o | None => None end
  end.
Proof.
  rewrite list_to_map_app, lookup_union. destruct (_ !! gvk) as [o|]; destruct (_ !! gvk) as [o'|]; reflexivity.
Qed.

(** No type of a builder is named like one of metav1's. *)
Definition apart_from_meta (b : Builder) : bool := forallb (fun o => bool_decide (go_name o ∉ meta_kinds)) (b_objects b).

Lemma no_meta_object b : apart_from_meta b = true → ∀ o, o ∈ b_objects b → go_name o ∉ meta_kinds.
Proof. intros Hb o Hin. eapply (bool_decide_unpack _). eapply Is_true_true_2, (proj1 (forallb_forall _ _) Hb). by apply list_elem_of_In. Qed.

Lemma no_meta_entry b gvk o : apart_from_meta b = true → (gvk, o) ∈ entries b → ¬ meta_kind gvk.
Proof. intros Hb (o' & [= -> ->] & Hin)%list_elem_of_fmap. by apply (no_meta_object b Hb). Qed.

Lemma manager_scheme_own clientgo gateway :
  foreign clientgo gateway →
  ∃ s, manager_scheme clientgo gateway = Some s ∧
    ∀ gvk, own_group gvk → ¬ meta_kind gvk → s !! gvk = (list_to_map own_entries : Scheme) !! gvk.
Proof.
  intros [Hc Hm Hg]. unfold manager_scheme, mbind, option_bind.
  destruct (AddToScheme_adds V1alpha1Scheme.SchemeBuilder clientgo) as (s1 & -> & Hs1 & Hm1).
  { apply (bool_decide_unpack _). vm_compute. exact I. }
  { apply no_meta_object. vm_compute. reflexivity. }
  { intros gvk o [Hgv _]%entries_version. apply Hc. unfold own_group. by rewrite Hgv. }
  { exact Hm. }
  cbv beta iota. destruct (AddToScheme_adds V1beta1Scheme.SchemeBuilder s1) as (s2 & -> & Hs2 & _).
  { apply (bool_decide_unpack _). vm_compute. exact I. }
  { apply no_meta_object. vm_compute. reflexivity. }
  { intros gvk o Hin. pose proof (proj1 (entries_version _ _ _ Hin)) as Hgv. rewrite Hs1, not_elem_of_list_to_map_1.
    - apply Hc. unfold own_group. by rewrite Hgv.
    - intros ([g o'] & E & [Hgv' _]%entries_version)%list_elem_of_fmap. cbn in E. subst g. rewrite Hgv in Hgv'. discriminate Hgv'.
    - apply (no_meta_entry V1beta1Scheme.SchemeBuilder gvk o); [vm_compute; reflexivity|exact Hin]. }
  { exact Hm1. }
  cbv beta iota. destruct (Hg s2) as (s & -> & Hs). exists s. split; [done|]. intros gvk Hown Hnm. rewrite Hs, Hs2, Hs1 by done.
  unfold own_entries. rewrite (Hc gvk Hown). generalize (entries V1beta1Scheme.SchemeBuilder) (entries V1alpha1Scheme.SchemeBuilder).
  intros lb la. by rewrite lookup_app.
Qed.

Lemma own_deep gvk o : (list_to_map own_entries : Scheme) !! gvk = Some o → deep o.
Proof.
  intros Hin%elem_of_list_to_map_2. unfold own_entries in Hin. rewrite elem_of_app in Hin.
  pose proof alpha_deep as Ha. pose proof beta_deep as Hb. rewrite Forall_forall in Ha, Hb.
  destruct Hin as [[_ Hin]%entries_version|[_ Hin]%entries_version]; [exact (Hb _ Hin)|exact (Ha _ Hin)].
Qed.

Lemma own_entries_NoDup : NoDup own_entries.*1.
Proof. apply (bool_decide_unpack _). vm_compute. exact I. Qed.

(** The entry at a position, found by its kind. *)
Lemma own_lookup i gvk o : own_entries !! i = Some (gvk, o) → (list_to_map own_entries : Scheme) !! gvk = Some o.
Proof.
  intros Hi. apply elem_of_list_to_map_1; [exact own_entries_NoDup|]. eapply list_elem_of_lookup_2. exact Hi.
Qed.

Lemma own_not_meta i gvk o : own_entries !! i = Some (gvk, o) → ¬ meta_kind gvk.
Proof.
  intros Hi%list_elem_of_lookup_2. unfold own_entries in Hi. rewrite elem_of_app in Hi.
  destruct Hi as [Hi|Hi]; eapply no_meta_entry; [|exact Hi| |exact Hi]; vm_compute; reflexivity.
Qed.

(** Evaluate the entry at a position and nothing more. *)
Ltac own_entry :=
  cbv [own_entries entries map app lookup list_lookup b_objects b_GroupVersion Register foldl V1alpha1Scheme.SchemeBuilder
    V1beta1Scheme.SchemeBuilder V1alpha1Scheme.frequi_init V1alpha1Scheme.strategy_init V1alpha1Scheme.tradebot_init
    V1alpha1Scheme.tradebotconfig_init V1beta1Scheme.backtest_init V1beta1Scheme.frequi_init V1beta1Scheme.strategy_init
    V1beta1Scheme.tradebot_init V1beta1Scheme.tradebotconfig_init go_name]; reflexivity.

Ltac own_kind Hi i := eapply (Hi i); [own_entry|own_entry|reflexivity|reflexivity|vm_compute; reflexivity].

(** The element type of a list type. *)
Definition items_type (t : ty) : option ty :=
  match t with
  | TStruct fs => match field_type "Items" fs with Some (TSlice t) => Some t | _ => None end
  | _ => None
  end.

(** C40: the scheme of the manager: filling it never panics, it has every kind
    of the operator's group that the client is used with, each with its list
    of just that type, and both versions of every kind that is converted. *)
Theorem scheme_complete clientgo gateway :
  foreign clientgo gateway →
  ∃ s, manager_scheme clientgo gateway = Some s ∧
    (∀ k gvk, own_gvk k = Some gvk → ∃ o l, s !! gvk = Some o ∧ go_name o = gvk_Kind gvk ∧
       s !! list_gvk gvk = Some l ∧ items_type (go_type l) = Some (go_type o)) ∧
    (∀ n, n ∈ hubs → is_Some (s !! {| gvk_GV := V1alpha1Scheme.GroupVersion; gvk_Kind := n |}) ∧
                     is_Some (s !! {| gvk_GV := V1beta1Scheme.GroupVersion; gvk_Kind := n |})).
Proof.
  intros Hf. destruct (manager_scheme_own clientgo gateway Hf) as (s & Hs & Hown). exists s. split; [done|]. split.
  - assert (∀ i gvk o l, own_entries !! i = Some (gvk, o) → own_entries !! S i = Some (list_gvk gvk, l) → own_group gvk →
      go_name o = gvk_Kind gvk → items_type (go_type l) = Some (go_type o) → ∃ o l, s !! gvk = Some o ∧ go_name o = gvk_Kind gvk ∧
        s !! list_gvk gvk = Some l ∧ items_type (go_type l) = Some (go_type o)) as Hi.
    { intros i gvk o l Ho Hl Hg Hn Ht. exists o, l.
      rewrite (Hown gvk Hg (own_not_meta _ _ _ Ho)), (Hown (list_gvk gvk) Hg (own_not_meta _ _ _ Hl)). split_and!;
        [exact (own_lookup _ _ _ Ho)|exact Hn|exact (own_lookup _ _ _ Hl)|exact Ht]. }
    intros k gvk Hk. destruct k; try discriminate Hk; injection Hk as <-.
    + own_kind Hi 14. + own_kind Hi 6. + own_kind Hi 16. + own_kind Hi 12. + own_kind Hi 2. + own_kind Hi 0.
  - assert (∀ i gvk o, own_entries !! i = Some (gvk, o) → own_group gvk → is_Some (s !! gvk)) as Hi.
    { intros i gvk o Ho Hg. exists o. rewrite (Hown gvk Hg (own_not_meta _ _ _ Ho)). exact (own_lookup _ _ _ Ho). }
    intros n Hn. unfold hubs in Hn. rewrite !elem_of_cons in Hn. destruct Hn as [->|[->|[->|[->|[]%elem_of_nil]]]]; split.
    + eapply (Hi 16); [own_entry|reflexivity]. + eapply (Hi 8); [own_entry|reflexivity].
    + eapply (Hi 10); [own_entry|reflexivity]. + eapply (Hi 2); [own_entry|reflexivity].
    + eapply (Hi 14); [own_entry|reflexivity]. + eapply (Hi 6); [own_entry|reflexivity].
    + eapply (Hi 12); [own_entry|reflexivity]. + eapply (Hi 4); [own_entry|reflexivity].
Qed.

(** C10: what the cache hands out is apart from what it keeps: the copy of any
    object of the operator's group - metav1's WatchEvent and options aside,
    which the cache does not hold -, made by the DeepCopyObject its type is
    registered with, has the content of the original, and from then on the
    holder of the copy and the holders of everything that was there before do
    not change each other's content, whatever they load, store or
    allocate. *)
Theorem cached_objects_apart clientgo gateway s gvk o h v x :
  foreign clientgo gateway → manager_scheme clientgo gateway = Some s → own_group gvk → ¬ meta_kind gvk → s !! gvk = Some o →
  read (TPtr (go_type o)) h v = Some x → closed_in (fun l => is_Some (h !! l)) h →
  ∃ v' h', go_copy o v h = Some (v', h') ∧ read (TPtr (go_type o)) h' v' = Some x ∧
    (∀ held h2, rtc party_step (list_to_set (refs v'), h') (held, h2) → read (TPtr (go_type o)) h2 v = Some x) ∧
    (∀ held h2, rtc party_step (dom h, h') (held, h2) → read (TPtr (go_type o)) h2 v' = Some x).
Proof.
  intros Hf Hs Hg Hnm Ho Hx Hcl. destruct (manager_scheme_own clientgo gateway Hf) as (s' & Hs' & Hown).
  rewrite Hs in Hs'. injection Hs' as <-. rewrite (Hown gvk Hg Hnm) in Ho. apply own_deep in Ho.
  destruct (Ho h v x Hx) as (v' & h' & Hrun & _). exists v', h'. split; [done|].
  by apply (copy_apart _ (go_copy o) h v x).
Qed.
End Holds.

(** ** A Strategy in the cache *)
Module Cached.
#[local] Existing Instance runtime_instance.
#[local] Existing Instance scheme_instance.

Definition object : gval :=
  GStruct [("TypeMeta", GAtom (AS "Strategy")); ("ObjectMeta", GPtr 2);
    ("Spec", GStruct [("Name", GAtom (AS "Trend")); ("Script", GAtom (AS "class Trend(IStrategy): pass"))]);
    ("Status", GStruct [("Phase", GAtom (AS "Ready")); ("Message", GAtom (AS "")); ("Conditions", GSlice 3 0 1);
                        ("ObservedGeneration", GAtom (AZ 1))])].

Definition cache : heap := <[1%positive := CVar object]> (<[2%positive := CVar (GAtom (AS "trend"))]>
  {[ 3%positive := CArr [GAtom (AS "Ready=True")] ]}).

Definition gvk : GroupVersionKind := {| gvk_GV := V1beta1Scheme.GroupVersion; gvk_Kind := "Strategy" |}.

Definition gvk_backtest : GroupVersionKind := {| gvk_GV := V1beta1Scheme.GroupVersion; gvk_Kind := "Backtest" |}.

Definition strategy_type : GoType :=
  {| go_name := "Strategy"; go_type := ApiBeta.t_Strategy; go_copy := DeepCopyBeta.Strategy_DeepCopyObject |}.

Lemma strategy_hub : "Strategy" ∈ hubs.
Proof. unfold hubs. set_solver. Qed.

Lemma alone : foreign ∅ Some.
Proof. split; [done|done|]. intros s. by exists s. Qed.

Lemma cache_closed : closed_in (fun l => is_Some (cache !! l)) cache.
Proof.
  intros l c r _ Hc Hr. unfold cache in Hc. rewrite !lookup_insert_Some, lookup_singleton_Some in Hc.
  destruct Hc as [[_ <-]|[_ [[_ <-]|[_ [_ <-]]]]].
  - cbn in Hr. rewrite !elem_of_cons in Hr. destruct Hr as [->|[->|[]%elem_of_nil]]; by eexists.
  - by apply elem_of_nil in Hr.
  - destruct Hr as (v & ->%list_elem_of_singleton & []%elem_of_nil).
Qed.

Ltac own_entry :=
  cbv [own_entries entries map app lookup list_lookup b_objects b_GroupVersion Register foldl V1alpha1Scheme.SchemeBuilder
    V1beta1Scheme.SchemeBuilder V1alpha1Scheme.frequi_init V1alpha1Scheme.strategy_init V1alpha1Scheme.tradebot_init
    V1alpha1Scheme.tradebotconfig_init V1beta1Scheme.backtest_init V1beta1Scheme.frequi_init V1beta1Scheme.strategy_init
    V1beta1Scheme.tradebot_init V1beta1Scheme.tradebotconfig_init go_name]; reflexivity.

Lemma gvk_not_meta : ¬ meta_kind gvk.
Proof. apply (bool_decide_unpack _). vm_compute. exact I. Qed.

Lemma strategy_registered : ∃ s, manager_scheme ∅ Some = Some s ∧ s !! gvk = Some strategy_type.
Proof.
  destruct (manager_scheme_own ∅ Some alone) as (s & Hs & Hown). exists s. split; [exact Hs|].
  rewrite (Hown gvk eq_refl gvk_not_meta). apply (own_lookup 4). own_entry.
Qed.

Lemma strategy_readable : ∃ x, read (TPtr (go_type strategy_type)) cache (GPtr 1) = Some x.
Proof.
  destruct (read _ _ _) as [x|] eqn:Hx; [exact (ex_intro _ x eq_refl)|]. exfalso. revert Hx. vm_compute. discriminate.
Qed.

(** The scheme of the manager, with nothing of anybody else in it. *)
Lemma scheme_complete_witness :
  ∃ s, manager_scheme ∅ Some = Some s ∧ is_Some (s !! list_gvk gvk_backtest) ∧
    is_Some (s !! {| gvk_GV := V1alpha1Scheme.GroupVersion; gvk_Kind := "Strategy" |}).
Proof.
  destruct (scheme_complete ∅ Some alone) as (s & Hs & Hk & Hh). exists s. split; [exact Hs|].
  destruct (Hk KBacktest gvk_backtest eq_refl) as (o & l & _ & _ & Hl & _).
  destruct (Hh "Strategy" strategy_hub) as [Ha _]. split; [exact (ex_intro _ l Hl)|exact Ha].
Defined.

(** What the cache hands out for the Strategy, while the reader stores
    through its copy. *)
Lemma cached_objects_apart_witness :
  ∃ s o x v' h', manager_scheme ∅ Some = Some s ∧ s !! gvk = Some o ∧ read (TPtr (go_type o)) cache (GPtr 1) = Some x ∧
    go_copy o (GPtr 1) cache = Some (v', h') ∧
    ∀ held h2, rtc party_step (list_to_set (refs v'), h') (held, h2) → read (TPtr (go_type o)) h2 (GPtr 1) = Some x.
Proof.
  destruct strategy_registered as (s & Hs & Ho). destruct strategy_readable as (x & Hx).
  destruct (cached_objects_apart ∅ Some s gvk strategy_type cache (GPtr 1) x alone Hs eq_refl gvk_not_meta Ho Hx cache_closed)
    as (v' & h' & Hrun & _ & Hapart & _).
  exists s, strategy_type, x, v', h'. exact (conj Hs (conj Ho (conj Hx (conj Hrun Hapart)))).
Defined.
End Cached.
