(* ===== verification/Wire.v ===== *)
(** * Objects on the wire: encoding/json over the API types

    json.Marshal and json.Unmarshal, driven by the Go types and json tags of
    ApiAlpha.v and ApiBeta.v, and with them [convertJSON] of
    api/v1alpha1/tradebot_conversion.go as it is written: one version's struct
    to text, the text to the other version's struct.  The rest of the
    development uses the [convertJSON] of Conversion.v, which has its result
    written out type by type; the theorems here are what that rests on.

    Texts are JSON trees: that the text of a tree reads back as that tree is
    the standard library's.  Strings are taken to be UTF-8, and a number to be
    read back by the type that wrote it. *)

From S2P Require Import Prelude GoHeap GoLib ApiAlpha ApiBeta.

(** ** Names *)

(** How encoding/json treats a type without references.  The named string
    types are those of corev1 and gatewayv1; every other type of another
    package is a struct. *)
Inductive atom_kind := KBool | KInt (bits : Z) | KFloat | KText | KStruct.

Definition string_types : list string :=
  ["string"; "corev1.PersistentVolumeAccessMode"; "corev1.ServiceAffinity";
   "corev1.ServiceExternalTrafficPolicy"; "corev1.ServiceType"; "gatewayv1.Hostname"].

Definition kind_of_atom (n : string) : atom_kind :=
  if decide (n = "bool") then KBool
  else if decide (n = "int" ∨ n = "int64") then KInt 64
  else if decide (n = "int32") then KInt 32
  else if decide (n = "float64") then KFloat
  else if decide (n ∈ string_types) then KText
  else KStruct.

Definition int_fits (bits z : Z) : Prop := (- 2 ^ (bits - 1) <= z < 2 ^ (bits - 1))%Z.
#[export] Instance int_fits_dec bits z : Decision (int_fits bits z).
Proof. unfold int_fits. apply _. Defined.

(** A json tag: the member's name, and whether "omitempty" follows. *)
Fixpoint tag_name (tag : string) : string :=
  match tag with
  | EmptyString => EmptyString
  | String c s => if Ascii.eqb c "," then EmptyString else String c (tag_name s)
  end.
Definition omitempty (tag : string) : bool := HasSuffix tag ",omitempty".

Abbreviation field := (string * string * ty)%type.
Definition f_name (f : field) : string := f.1.1.
Definition f_key (f : field) : string := tag_name f.1.2.
Definition f_omit (f : field) : bool := omitempty f.1.2.

(** The field a member goes to: the one of that name, else one of that name up
    to letter case. *)
Definition key_for (keys : list string) (k : string) : option string :=
  if decide (k ∈ keys) then Some k
  else List.find (fun k' => (ToLower k' =? ToLower k)%string) keys.

(** The value for a field: of several members the last. *)
Definition member_for (keys : list string) (key : string) (ms : list (string * json)) : option json :=
  snd <$> last (filter (fun kv => key_for keys kv.1 = Some key) ms).

(** The structs encoding/json is used on: every field has a key of its own. *)
Fixpoint wire_ty (t : ty) : bool :=
  match t with
  | TAtom _ | TExt _ => true
  | TPtr t | TSlice t | TMap t => wire_ty t
  | TStruct fs =>
      bool_decide (NoDup (map f_name fs)) && bool_decide (NoDup (map f_key fs))
      && bool_decide (Forall (fun f => f_key f ≠ "" ∧ f_key f ≠ "-") fs)
      && forallb (fun f => wire_ty f.2) fs
  end.

(** Types whose value may be written as null. *)
Definition nullable (t : ty) : bool :=
  match t with
  | TAtom n => match kind_of_atom n with KStruct => true | _ => false end
  | TStruct _ => false
  | _ => true
  end.

(** ** Marshal and Unmarshal *)

(** What other packages' types do: their own MarshalJSON and UnmarshalJSON, or
    what encoding/json does with their fields.  What was written is read, up
    to [ext_norm], which is not seen on the wire. *)
Class JsonLib := {
  ext_zero : string → content;
  ext_encode : string → content → result json;
  ext_decode : string → json → option content;
  ext_norm : string → content → content;
  ext_round_trip n x j : ext_encode n x = Ok j → ext_decode n j = Some (ext_norm n x);
  ext_norm_encode n x j : ext_encode n x = Ok j → ext_encode n (ext_norm n x) = Ok j
}.

Definition unsupported (f : float64) : error := Errorf ("json: unsupported value: " ^^ fmt_nonfinite f).

Section Json.
Context `{JsonLib}.

(** The zero value of a type. *)
Fixpoint zero (t : ty) : content :=
  match t with
  | TAtom n =>
      match kind_of_atom n with
      | KBool => CtAtom (AB false)
      | KInt _ => CtAtom (AZ 0)
      | KFloat => CtAtom (AF (S754_zero false))
      | KText => CtAtom (AS "")
      | KStruct => ext_zero n
      end
  | TExt n => ext_zero n
  | TPtr _ | TSlice _ | TMap _ => CtNil
  | TStruct fs =>
      CtStruct (map (fun f => (f_name f, zero f.2)) fs)
  end.

(** What [omitempty] leaves out: structs never are. *)
Definition empty (t : ty) (x : content) : bool :=
  match t, x with
  | TAtom n, CtAtom a =>
      match kind_of_atom n, a with
      | KBool, AB b => negb b
      | KInt _, AZ z => bool_decide (z = 0%Z)
      | KFloat, AF (S754_zero _) => true
      | KText, AS s => bool_decide (s = "")
      | _, _ => false
      end
  | (TPtr _ | TSlice _ | TMap _), CtNil => true
  | TSlice _, CtSlice xs => match xs with [] => true | _ => false end
  | TMap _, CtMap m => bool_decide (m = ∅)
  | _, _ => false
  end.

Definition ill_typed {A} : result A := Err (Errorf "json: unsupported type").

(** The members of a struct, in the order of its fields. *)
Definition encode_fields (encode : ty → content → result json) :
    list field → list (string * content) → result (list (string * json)) :=
  fix go fs xs :=
    match fs, xs with
    | f :: fs, x :: xs =>
        if f_omit f && empty f.2 x.2 then go fs xs
        else (j ← encode f.2 x.2; ms ← go fs xs; Ok ((f_key f, j) :: ms))
    | _, _ => Ok []
    end.

(** json.Marshal. *)
Fixpoint encode (t : ty) (x : content) : result json :=
  match t, x with
  | TAtom n, x =>
      match kind_of_atom n, x with
      | KBool, CtAtom (AB b) => Ok (JBool b)
      | KInt _, CtAtom (AZ z) => Ok (JInt z)
      | KFloat, CtAtom (AF f) => if is_finite f then Ok (JFloat f) else Err (unsupported f)
      | KText, CtAtom (AS s) => Ok (JString s)
      | KStruct, x => ext_encode n x
      | _, _ => ill_typed
      end
  | TExt n, x => ext_encode n x
  | (TPtr _ | TSlice _ | TMap _), CtNil => Ok JNull
  | TPtr t, CtPtr x => encode t x
  | TSlice t, CtSlice xs => JList <$> mapM (encode t) xs
  | TMap t, CtMap m => JObj <$> mapM (fun kv => j ← encode t kv.2; Ok (kv.1, j)) (sorted_entries m)
  | TStruct fs, CtStruct xs =>
      JObj <$> encode_fields encode fs xs
  | _, _ => ill_typed
  end.

(** json.Unmarshal into a zero variable: members without a field are ignored,
    a field without a member keeps its zero value, null does nothing. *)
Fixpoint decode (t : ty) (j : json) : option content :=
  match t with
  | TAtom n =>
      match kind_of_atom n, j with
      | KStruct, j => ext_decode n j
      | _, JNull => Some (zero t)
      | KBool, JBool b => Some (CtAtom (AB b))
      | KInt bits, JInt z => if decide (int_fits bits z) then Some (CtAtom (AZ z)) else None
      | KFloat, JFloat f => Some (CtAtom (AF f))
      | KText, JString s => Some (CtAtom (AS s))
      | _, _ => None
      end
  | TExt n => ext_decode n j
  | TPtr t => match j with JNull => Some CtNil | _ => CtPtr <$> decode t j end
  | TSlice t =>
      match j with
      | JNull => Some CtNil
      | JList js => CtSlice <$> mapM (decode t) js
      | _ => None
      end
  | TMap t =>
      match j with
      | JNull => Some CtNil
      | JObj ms => (fun kxs => CtMap (list_to_map (reverse kxs))) <$> mapM (fun kv => x ← decode t kv.2; Some (kv.1, x)) ms
      | _ => None
      end
  | TStruct fs =>
      match j with
      | JNull => Some (zero t)
      | JObj ms =>
          CtStruct <$> mapM (fun f => x ← match member_for (map f_key fs) (f_key f) ms with
                                          | None => Some (zero f.2)
                                          | Some j => decode f.2 j
                                          end;
                                      Some (f_name f, x)) fs
      | _ => None
      end
  end.

(** ** The trip: what is left of a value

    [omitempty] makes an empty slice or map nil. *)
Definition norm_field (nm : content → content) (omit : bool) (t : ty) (x : content) : content :=
  if omit && empty t x then zero t else nm x.

Definition norm_fields (norm : ty → content → content) :
    list field → list (string * content) → list (string * content) :=
  fix go fs xs :=
    match fs, xs with
    | f :: fs, x :: xs => (x.1, norm_field (norm f.2) (f_omit f) f.2 x.2) :: go fs xs
    | _, _ => []
    end.

Fixpoint norm (t : ty) (x : content) : content :=
  match t, x with
  | TAtom n, x => match kind_of_atom n with KStruct => ext_norm n x | _ => x end
  | TExt n, x => ext_norm n x
  | TPtr t, CtPtr x => CtPtr (norm t x)
  | TSlice t, CtSlice xs => CtSlice (map (norm t) xs)
  | TMap t, CtMap m => CtMap (norm t <$> m)
  | TStruct fs, CtStruct xs =>
      CtStruct (norm_fields norm fs xs)
  | _, x => x
  end.

Definition has_fields (has_type : ty → content → Prop) : list field → list (string * content) → Prop :=
  fix go fs xs :=
    match fs, xs with
    | [], [] => True
    | f :: fs, x :: xs => x.1 = f_name f ∧ has_type f.2 x.2 ∧ go fs xs
    | _, _ => False
    end.

(** The values of a type.  No pointer is to a value that is written as null:
    it would come back nil. *)
Fixpoint has_type (t : ty) (x : content) : Prop :=
  match t, x with
  | TAtom n, x =>
      match kind_of_atom n, x with
      | KBool, CtAtom (AB _) | KFloat, CtAtom (AF _) | KText, CtAtom (AS _) => True
      | KInt bits, CtAtom (AZ z) => int_fits bits z
      | KStruct, _ => True
      | _, _ => False
      end
  | TExt _, _ => True
  | (TPtr _ | TSlice _ | TMap _), CtNil => True
  | TPtr t, CtPtr x => has_type t x ∧ encode t x ≠ Ok JNull
  | TSlice t, CtSlice xs => Forall (has_type t) xs
  | TMap t, CtMap m => map_Forall (fun _ => has_type t) m
  | TStruct fs, CtStruct xs =>
      has_fields has_type fs xs
  | _, _ => False
  end.

(** *** convertJSON *)
Definition convertJSON (src dst : ty) (x : content) : result content :=
  data ← wrap_err "marshaling for conversion" (encode src x);
  match decode dst data with
  | Some y => Ok y
  | None => Err (Errorf "json: cannot unmarshal")
  end.

(** ** The trip is lossless *)

Lemma mapM_ok {A B} (f : A → result B) l k : mapM f l = Ok k ↔ Forall2 (fun a b => f a = Ok b) l k.
Proof.
  revert k. induction l as [|a l IH]; intros k; cbn.
  { split; [intros [= <-]; constructor|]. by intros ->%Forall2_nil_inv_l. }
  split.
  - intros (b & Hb & (bs & Hbs & [= <-])%result_bind_ok)%result_bind_ok. constructor; [done|by apply IH].
  - intros (b & bs & Hb & Hbs & ->)%Forall2_cons_inv_l. apply IH in Hbs.
    unfold mbind, result_bind. rewrite Hb. cbv [mbind result_bind] in Hbs. by rewrite Hbs.
Qed.

Lemma Forall2_in {A B} (P : A → B → Prop) l k : Forall2 P l k → Forall2 (fun a b => a ∈ l ∧ P a b) l k.
Proof.
  induction 1 as [|a b l k HP Hl IH]; constructor; [split; [by left|done]|].
  eapply Forall2_impl; [exact IH|]. intros a' b' [? ?]. split; [by right|done].
Qed.

Lemma result_fmap_ok {A B} (f : A → B) (r : result A) b : f <$> r = Ok b ↔ ∃ a, r = Ok a ∧ b = f a.
Proof. destruct r; cbn; split; [intros [= <-]; eauto|by intros (? & [= <-] & ->)|done|by intros (? & ? & _)]. Qed.

(** *** Members *)

Lemma member_for_own keys key ms :
  (∀ k, k ∈ ms.*1 → k ∈ keys) → NoDup ms.*1 →
  (key ∉ ms.*1 → member_for keys key ms = None) ∧ (∀ j, (key, j) ∈ ms → member_for keys key ms = Some j).
Proof.
  unfold member_for. induction ms as [|[k j] ms IH]; intros Hin Hnd; [split; [done|set_solver]|].
  apply NoDup_cons in Hnd as [Hk Hnd]. cbn in Hin, Hk. destruct IH as [IHn IHs]; [set_solver|done|].
  assert (key_for keys k = Some k) as Hkk by (unfold key_for; rewrite decide_True; [done|set_solver]). split.
  - intros Hn. rewrite filter_cons_False; [apply IHn; set_solver|]. cbn in *. rewrite Hkk. intros [= ->]. set_solver.
  - intros j' [[= -> ->]|Hj]%elem_of_cons.
    + rewrite filter_cons_True by done. specialize (IHn Hk). apply fmap_None, last_None in IHn. by rewrite IHn.
    + apply (list_elem_of_fmap_2 fst) in Hj as Hj'. rewrite filter_cons_False; [by apply IHs|]. cbn in *. rewrite Hkk.
      by intros [= ->].
Qed.

(** *** What is left out *)

Lemma kind_int_fits n bits : kind_of_atom n = KInt bits → int_fits bits 0.
Proof. unfold kind_of_atom. repeat case_decide; intros [= <-]; unfold int_fits; lia. Qed.

Lemma empty_zero t x : empty t x = true → empty t (zero t) = true ∧ has_type t (zero t).
Proof.
  destruct t as [n|n|t|t|t|fs], x as [a|s| |y|xs|m|xs]; cbn; try done.
  destruct (kind_of_atom n) eqn:E; cbn; rewrite ?E; destruct a; try done. intros _. split; [done|]. by eapply kind_int_fits.
Qed.

Lemma empty_norm t x : empty t (norm t x) = empty t x.
Proof.
  destruct t as [n|n|t|t|t|fs]; [|destruct x as [a|s| |y|xs|m|xs]; cbn; try done..].
  - cbn. destruct (kind_of_atom n) eqn:E; rewrite ?E; try done.
    by destruct (ext_norm n x) as [[]| | | | | |], x as [[]| | | | | |].
  - by destruct xs.
  - apply bool_decide_ext. apply fmap_empty_iff.
Qed.

(** *** Structs *)

Lemma encode_fields_spec (fs : list field) xs ms :
  has_fields has_type fs xs → NoDup (map f_key fs) → encode_fields encode fs xs = Ok ms →
  (∀ k, k ∈ ms.*1 → k ∈ map f_key fs) ∧ NoDup ms.*1 ∧
  Forall2 (fun f x => x.1 = f_name f ∧ has_type f.2 x.2 ∧
             if f_omit f && empty f.2 x.2 then f_key f ∉ ms.*1 else ∃ j, (f_key f, j) ∈ ms ∧ encode f.2 x.2 = Ok j) fs xs.
Proof.
  revert xs ms. induction fs as [|f fs IH]; intros [|x xs] ms; cbn; try done.
  { intros _ _ [= <-]. split_and!; [done|constructor|constructor]. }
  intros (Hn & Ht & Hf) [Hk Hnd]%NoDup_cons. destruct (f_omit f && empty f.2 x.2) eqn:Eo.
  - intros Hms. destruct (IH _ _ Hf Hnd Hms) as (Hin & Hndm & Hall). split_and!; [set_solver|done|].
    constructor; [|done]. rewrite Eo. split_and!; [done..|]. intros ?%Hin. done.
  - intros (j & Hj & (ms' & Hms & [= <-])%result_bind_ok)%result_bind_ok.
    destruct (IH _ _ Hf Hnd Hms) as (Hin & Hndm & Hall). cbn. split_and!; [set_solver| |].
    + apply NoDup_cons. split; [|done]. by intros ?%Hin.
    + constructor; [rewrite Eo; split_and!; [done..|]; exists j; set_solver|].
      assert (∀ f', f' ∈ fs → f_key f' ≠ f_key f) as Hne.
      { intros f' Hf' E. apply Hk. rewrite <- E. by apply (list_elem_of_fmap_2 f_key). }
      eapply Forall2_impl; [by apply Forall2_in|]. intros f' x' (Hf' & ? & ? & Hw). split_and!; [done..|].
      destruct (f_omit f' && _); [|destruct Hw as (j' & ? & ?); exists j'; set_solver].
      intros [E|?]%elem_of_cons; [by apply Hne in E|done].
Qed.

(** Going through the trip: the value that arrives, of the same type and
    written the same way. *)
Definition trip (t : ty) : Prop := ∀ x j, has_type t x → encode t x = Ok j →
  decode t j = Some (norm t x) ∧ encode t (norm t x) = Ok j ∧ has_type t (norm t x).

Lemma trip_field (f : field) (x : string * content) :
  trip f.2 → has_type f.2 x.2 → (f_omit f && empty f.2 x.2 = false → ∃ j, encode f.2 x.2 = Ok j) →
  let y := norm_field (norm f.2) (f_omit f) f.2 x.2 in
  has_type f.2 y ∧ f_omit f && empty f.2 y = f_omit f && empty f.2 x.2 ∧
  (f_omit f && empty f.2 x.2 = false → encode f.2 y = encode f.2 x.2).
Proof.
  intros Htrip Hx Hj. cbv zeta. unfold norm_field. destruct (f_omit f && empty f.2 x.2) eqn:Eo.
  - apply andb_true_iff in Eo as [-> Eo]. destruct (empty_zero _ _ Eo) as [-> ?]. by split_and!.
  - destruct (Hj eq_refl) as (j & Hj'). destruct (Htrip _ _ Hx Hj') as (_ & -> & ?). rewrite empty_norm, Eo, Hj'. by split_and!.
Qed.

Lemma trip_fields (fs : list field) xs ms :
  Forall (fun f => trip f.2) fs → has_fields has_type fs xs → encode_fields encode fs xs = Ok ms →
  encode_fields encode fs (norm_fields norm fs xs) = Ok ms ∧ has_fields has_type fs (norm_fields norm fs xs).
Proof.
  intros Hfs. revert xs ms. induction Hfs as [|f fs Hf Hfs IH]; intros [|x xs] ms; cbn; try done.
  intros (Hn & Hx & Hxs) He.
  pose proof (trip_field f x Hf Hx) as Hy. destruct (f_omit f && empty f.2 x.2) eqn:Eo.
  - destruct Hy as (Hy & -> & _); [done|]. destruct (IH _ _ Hxs He) as [-> ?]. by split_and!.
  - apply result_bind_ok in He as (j & Hj & (ms' & Hms & [= <-])%result_bind_ok).
    destruct Hy as (Hy & -> & Henc); [by eauto|]. rewrite (Henc eq_refl). destruct (IH _ _ Hxs Hms) as [Hms' ?]. rewrite Hj. split; [|by split_and!].
    unfold mbind, result_bind. by rewrite Hms'.
Qed.

Lemma trip_struct fs : Forall (fun f => trip f.2) fs → wire_ty (TStruct fs) = true → trip (TStruct fs).
Proof.
  intros Hfs Hw x j Hx He. cbn in Hw. rewrite !andb_true_iff, !bool_decide_eq_true in Hw. destruct Hw as [[[_ Hnd] _] _].
  destruct x as [| | | | | |xs]; cbn in Hx; try done. cbn in He. apply result_fmap_ok in He as (ms & He & ->).
  destruct (encode_fields_spec fs xs ms Hx Hnd He) as (Hin & Hndm & Hall).
  destruct (trip_fields fs xs ms Hfs Hx He) as [He' Hx']. cbn. rewrite He'. split; [|by split].
  enough (mapM _ fs = Some (norm_fields norm fs xs)) as -> by done. apply mapM_Some.
  assert (Forall2 (fun f y => ∃ x, y = (x.1, norm_field (norm f.2) (f_omit f) f.2 x.2) ∧ trip f.2 ∧ x.1 = f_name f ∧ has_type f.2 x.2 ∧
             if f_omit f && empty f.2 x.2 then f_key f ∉ ms.*1 else ∃ j, (f_key f, j) ∈ ms ∧ encode f.2 x.2 = Ok j)
            fs (norm_fields norm fs xs)) as Hall'.
  { clear -Hfs Hall. induction Hall as [|f x fs xs Hx Hall IH]; cbn; [constructor|].
    apply Forall_cons in Hfs as [Hf Hfs]. constructor; [|by apply IH]. exists x. by split. }
  eapply Forall2_impl; [exact Hall'|]. intros f y (x & -> & Ht & -> & Hx0 & Hwr).
  destruct (member_for_own (map f_key fs) (f_key f) ms Hin Hndm) as [Hnone Hsome]. unfold norm_field.
  destruct (f_omit f && empty f.2 x.2); [by rewrite (Hnone Hwr)|].
  destruct Hwr as (j & Hj & He2). rewrite (Hsome j Hj). destruct (Ht _ _ Hx0 He2) as (-> & _ & _). done.
Qed.

(** *** Slices and maps *)

Lemma trip_list {A B C} (enc : A → result C) (dec : C → option B) (nm : A → B) xs js :
  Forall2 (fun x j => enc x = Ok j) xs js → (∀ x j, x ∈ xs → enc x = Ok j → dec j = Some (nm x)) → mapM dec js = Some (map nm xs).
Proof.
  intros Hall Hd. apply mapM_Some. apply Forall2_flip. change (map nm xs) with (nm <$> xs). rewrite Forall2_fmap_l.
  eapply Forall2_impl; [by apply Forall2_in|]. intros x j [Hin Hj]. by apply Hd.
Qed.

Lemma sorted_entries_map {A} (m : gmap string A) : sorted_entries m ≡ₚ map_to_list m.
Proof.
  apply NoDup_Permutation; [|apply NoDup_map_to_list|].
  - eapply NoDup_fmap_1. apply NoDup_sorted_entries.
  - intros [k v]. by rewrite elem_of_sorted_entries, elem_of_map_to_list.
Qed.

Lemma sorted_entries_fmap {A B} (f : A → B) (m : gmap string A) :
  sorted_entries (f <$> m) = map (fun kv => (kv.1, f kv.2)) (sorted_entries m).
Proof.
  unfold sorted_entries. replace (map fst (map_to_list (f <$> m))) with (map fst (map_to_list m)).
  - induction (sort_Strings _) as [|k ks IH]; cbn; [done|]. rewrite lookup_fmap. destruct (m !! k); cbn; [f_equal|]; apply IH.
  - rewrite map_to_list_fmap. induction (map_to_list m) as [|[k v] l IH]; cbn; [done|]. by f_equal.
Qed.

Lemma list_to_map_entries {A} (m : gmap string A) : list_to_map (reverse (sorted_entries m)) = m.
Proof.
  rewrite <- (list_to_map_to_list m) at 2. apply list_to_map_proper.
  - rewrite reverse_Permutation. apply NoDup_sorted_entries.
  - by rewrite reverse_Permutation, sorted_entries_map.
Qed.

Lemma trip_map t : trip t → trip (TMap t).
Proof.
  intros Ht x j Hx He. destruct x as [|  | | | |m|]; cbn in Hx, He; try done; [by injection He as <-|].
  apply result_fmap_ok in He as (ms & Hms & ->). apply mapM_ok in Hms.
  assert (∀ k v, (k, v) ∈ sorted_entries m → has_type t v) as Hm by (intros k v Hin%elem_of_sorted_entries; by apply (Hx k)).
  assert (∀ kv kj, kv ∈ sorted_entries m → (j ← encode t kv.2; Ok (kv.1, j)) = Ok kj →
    kv.1 = kj.1 ∧ decode t kj.2 = Some (norm t kv.2) ∧ encode t (norm t kv.2) = Ok kj.2 ∧ has_type t (norm t kv.2)) as Hkv.
  { intros [k v] kj Hin (j & Hj & [= <-])%result_bind_ok. split; [done|]. by apply Ht; [apply (Hm k)|]. }
  split_and!.
  - cbn. rewrite (trip_list (fun kv => j ← encode t kv.2; Ok (kv.1, j)) _ (fun kv => (kv.1, norm t kv.2)) _ _ Hms).
    + cbn. do 2 f_equal. rewrite <- sorted_entries_fmap. apply list_to_map_entries.
    + intros kv kj Hin Hj. destruct (Hkv _ _ Hin Hj) as (E & Hd & _). cbv beta. rewrite Hd, E. done.
  - cbn. rewrite (proj2 (mapM_ok _ _ ms)); [done|]. rewrite sorted_entries_fmap.
    change (map ?f ?l) with (f <$> l). rewrite Forall2_fmap_l. eapply Forall2_impl; [by apply Forall2_in|].
    intros kv [k j] [Hin Hj]. destruct (Hkv _ _ Hin Hj) as (E & _ & He & _). cbn in *. by rewrite He, E.
  - intros k y. rewrite lookup_fmap. intros (v & Hv & ->)%fmap_Some. apply elem_of_sorted_entries in Hv as Hin.
    apply list_elem_of_lookup in Hin as [i Hi]. destruct (Forall2_lookup_l _ _ _ _ _ Hms Hi) as (kj & _ & Hj).
    eapply (Hkv (k, v)); [by eapply list_elem_of_lookup_2|exact Hj].
Qed.

(** *** Every type *)
Lemma trip_all t : wire_ty t = true → trip t.
Proof.
  induction t as [n|n|t IH|t IH|t IH|fs IH] using ty_rect'; intros Hw.
  - intros x j Hx He. cbn in *. destruct (kind_of_atom n) eqn:E; rewrite ?E.
    5: { split_and!; [by apply ext_round_trip|by apply ext_norm_encode|done]. }
    all: destruct x as [[]| | | | | |]; try done.
    all: try (injection He as <-). all: try by split_and!.
    + by rewrite decide_True.
    + destruct (is_finite f); [injection He as <-|done]. by split_and!.
  - intros x j _ He. cbn in *. split_and!; [by apply ext_round_trip|by apply ext_norm_encode|done].
  - intros x j Hx He. destruct x as [|  | |x| | |]; cbn in Hx, He; try done; [by injection He as <-|].
    destruct Hx as [Hx Hnn]. destruct (IH Hw x j Hx He) as (Hd & He' & Hx'). cbn. rewrite He', Hd.
    rewrite He in Hnn. split_and!; [by destruct j|done..].
  - intros x j Hx He. destruct x as [|  | | |xs| |]; cbn in Hx, He; try done; [by injection He as <-|].
    apply result_fmap_ok in He as (js & Hjs & ->). apply mapM_ok in Hjs. rewrite Forall_forall in Hx. specialize (IH Hw).
    cbn. rewrite (trip_list (encode t) (decode t) (norm t) xs js Hjs) by (intros; by eapply IH; [apply Hx|]).
    split_and!; [done| |].
    + rewrite (proj2 (mapM_ok _ _ js)); [done|]. rewrite Forall2_fmap_l. eapply Forall2_impl; [by apply Forall2_in|].
      intros x j [Hin Hj]. by apply IH; [apply Hx|].
    + apply Forall_fmap, Forall_forall. intros x Hin. apply list_elem_of_lookup in Hin as [i Hi].
      destruct (Forall2_lookup_l _ _ _ _ _ Hjs Hi) as (j & _ & Hj). eapply IH; [|exact Hj]. apply Hx. by eapply list_elem_of_lookup_2.
  - by apply trip_map, IH.
  - apply trip_struct; [|done]. cbn in Hw. rewrite !andb_true_iff, forallb_forall in Hw. destruct Hw as [_ Hw].
    rewrite Forall_forall in *. intros f Hf. apply IH; [done|]. by apply Hw, list_elem_of_In.
Qed.

(** ** The conversions that go over JSON *)

(** The two ends of every call of [convertJSON]: tradebot_conversion.go,
    strategy_conversion.go, frequi_conversion.go, tradebotconfig_conversion.go. *)
Definition converted : list (string * ty * ty) :=
  [ ("TradeBot.Spec.App", ApiAlpha.t_TBAppConfig, ApiBeta.t_TBAppConfig);
    ("TradeBot.Spec.Introspection", ApiAlpha.t_IntrospectionSpec, ApiBeta.t_IntrospectionSpec);
    ("TradeBot.Status.Bot", ApiAlpha.t_BotStatus, ApiBeta.t_BotStatus);
    ("Strategy.Spec", ApiAlpha.t_StrategySpec, ApiBeta.t_StrategySpec);
    ("FreqUI.Spec.App", ApiAlpha.t_FUAppConfig, ApiBeta.t_FUAppConfig);
    ("FreqUI.Spec.Gateway", ApiAlpha.t_FUGatewaySpec, ApiBeta.t_FUGatewaySpec);
    ("TradeBotConfig.Spec.Bot", ApiAlpha.t_BotConfig, ApiBeta.t_BotConfig);
    ("TradeBotConfig.Spec.AI", ApiAlpha.t_AIConfig, ApiBeta.t_AIConfig);
    ("TradeBotConfig.Spec.Data", ApiAlpha.t_DataConfig, ApiBeta.t_DataConfig);
    ("TradeBotConfig.Spec.Advanced", ApiAlpha.t_AdvancedConfig, ApiBeta.t_AdvancedConfig);
    ("TradeBotConfig.Spec.Timeout", ApiAlpha.t_UnfilledTimeoutConfig, ApiBeta.t_UnfilledTimeoutConfig);
    ("TradeBotConfig.Spec.Internals", ApiAlpha.t_InternalsConfig, ApiBeta.t_InternalsConfig);
    ("TradeBotConfig.Spec.Pairlist", ApiAlpha.t_PairListSpec, ApiBeta.t_PairListSpec);
    ("TradeBotConfig.Spec.PairlistMethod", ApiAlpha.t_PairlistMethodsSpec, ApiBeta.t_PairlistMethodsSpec);
    ("TradeBotConfig.Spec.EntryPricing", ApiAlpha.t_PricingSpec, ApiBeta.t_PricingSpec);
    ("TradeBotConfig.Spec.ExitPricing", ApiAlpha.t_PricingSpec, ApiBeta.t_PricingSpec);
    ("TradeBotConfig.Spec.Order", ApiAlpha.t_OrderSpec, ApiBeta.t_OrderSpec);
    ("TradeBotConfig.Spec.RiskManagement", ApiAlpha.t_RiskManagementSpec, ApiBeta.t_RiskManagementSpec);
    ("TradeBotConfig.Spec.Experimental", ApiAlpha.t_ExperimentalConfig, ApiBeta.t_ExperimentalConfig);
    ("TradeBotConfig.Spec.Logging", ApiAlpha.t_LoggingConfig, ApiBeta.t_LoggingConfig);
    ("TradeBotConfig.Spec.Exchange.Whitelist", ApiAlpha.t_PairListSpec, ApiBeta.t_PairListSpec);
    ("TradeBotConfig.Spec.Exchange.Blacklist", ApiAlpha.t_PairListSpec, ApiBeta.t_PairListSpec);
    ("TradeBotConfig.Spec.Notification.Telegram.Settings", ApiAlpha.t_NotificationTelegramSettings, ApiBeta.t_NotificationTelegramSettings);
    ("TradeBotConfig.Spec.Notification.Webhook", ApiAlpha.t_NotificationWebhook, ApiBeta.t_NotificationWebhook);
    ("TradeBotConfig.Spec.Notification.Discord", ApiAlpha.t_NotificationDiscord, ApiBeta.t_NotificationDiscord) ].

(** What is converted by hand instead: the fields a struct of the one version
    does not share with the other. *)
Definition struct_fields (t : ty) : list field := match t with TStruct fs => fs | _ => [] end.
Definition only_in (t t' : ty) : list string :=
  map f_name (List.filter (fun f => negb (existsb (fun f' => bool_decide (f = f')) (struct_fields t'))) (struct_fields t)).

(** Credentials and references, as the comments of v1beta1 have it, and one
    field more: the exchange's unknown_fee_rate. *)
Lemma version_differences :
  only_in ApiAlpha.t_ExchangeSpec ApiBeta.t_ExchangeSpec =
    ["Key"; "Secret"; "Password"; "UID"; "WalletAddress"; "PrivateKey"; "SecretRef"; "UnkownFeeRate"] ∧
  only_in ApiBeta.t_ExchangeSpec ApiAlpha.t_ExchangeSpec = ["SecretRef"; "UnknownFeeRate"] ∧
  only_in ApiAlpha.t_APIServerConfig ApiBeta.t_APIServerConfig = ["Password"; "JWTSecretKey"; "SecretRef"] ∧
  only_in ApiAlpha.t_NotificationTelegram ApiBeta.t_NotificationTelegram = ["Token"; "SecretRef"] ∧
  only_in ApiAlpha.t_FreqUISpec ApiBeta.t_FreqUISpec = ["TradeBotRefs"] ∧
  only_in ApiBeta.t_FreqUISpec ApiAlpha.t_FreqUISpec = ["TradeBotRefs"] ∧
  only_in ApiAlpha.t_TradeBotSpec ApiBeta.t_TradeBotSpec = ["FreqtradeCommand"; "FreqtradeArguments"; "Config"; "Strategy"; "Data"] ∧
  only_in ApiBeta.t_TradeBotSpec ApiAlpha.t_TradeBotSpec = ["ConfigRef"; "StrategyRef"; "State"].
Proof. split_and!; vm_compute; reflexivity. Qed.

(** A value goes over unless it cannot be marshalled; what arrives is written
    as the value was, and comes back as it arrived. *)
Definition lossless (src dst : ty) : Prop :=
  ∀ x, has_type src x →
    match encode src x with
    | Err e => convertJSON src dst x = Err (Wrap "marshaling for conversion" e)
    | Ok j => ∃ y, convertJSON src dst x = Ok y ∧ has_type dst y ∧ encode dst y = Ok j ∧ convertJSON dst src y = Ok y
    end.

Lemma convertJSON_trip t x j :
  wire_ty t = true → has_type t x → encode t x = Ok j → convertJSON t t x = Ok (norm t x).
Proof. intros Hw Hx He. unfold convertJSON. rewrite He. cbn. by rewrite (proj1 (trip_all t Hw x j Hx He)). Qed.

Lemma lossless_same t : wire_ty t = true → lossless t t.
Proof.
  intros Hw x Hx. destruct (encode t x) as [j|e] eqn:He; [|unfold convertJSON; by rewrite He].
  destruct (trip_all t Hw x j Hx He) as (Hd & He' & Hx'). exists (norm t x).
  split_and!; [by eapply convertJSON_trip|done..|]. rewrite (convertJSON_trip _ _ j Hw Hx' He').
  destruct (trip_all t Hw _ j Hx' He') as (Hd' & _). rewrite Hd' in Hd. by injection Hd as ->.
Qed.

(** The ends of a call are the same type. *)
Lemma converted_same : Forall (fun e => e.1.2 = e.2 ∧ wire_ty e.2 = true) converted.
Proof.
  apply (bool_decide_unpack _). vm_compute. exact I.
Qed.

(** C25: every call of [convertJSON] is between one type under two names, so
    whatever can be marshalled goes over without loss: what arrives is of the
    other version's type, is the same text on the wire, and going back changes
    nothing more; what cannot be marshalled is the error, wrapped. *)
Theorem conversions_lossless f ta tb : (f, ta, tb) ∈ converted → lossless ta tb ∧ lossless tb ta.
Proof.
  intros Hin. pose proof (proj1 (Forall_forall _ _) converted_same _ Hin) as [E Hw]. cbn in E, Hw. subst ta.
  split; by apply lossless_same.
Qed.

(** ** What cannot be marshalled

    The floats of a value in the order they are written; without types of
    other packages, only one that is not finite is refused. *)

Definition float_fields (floats : ty → content → list float64) :
    list field → list (string * content) → list float64 :=
  fix go fs xs :=
    match fs, xs with
    | f :: fs, x :: xs => floats f.2 x.2 ++ go fs xs
    | _, _ => []
    end.

Fixpoint floats (t : ty) (x : content) : list float64 :=
  match t, x with
  | TAtom n, CtAtom (AF f) => match kind_of_atom n with KFloat => [f] | _ => [] end
  | TPtr t, CtPtr x => floats t x
  | TSlice t, CtSlice xs => List.flat_map (floats t) xs
  | TMap t, CtMap m => List.flat_map (fun kv => floats t kv.2) (sorted_entries m)
  | TStruct fs, CtStruct xs => float_fields floats fs xs
  | _, _ => []
  end.

Fixpoint own_ty (t : ty) : bool :=
  match t with
  | TAtom n => match kind_of_atom n with KStruct => false | _ => true end
  | TExt _ => false
  | TPtr t | TSlice t | TMap t => own_ty t
  | TStruct fs => forallb (fun f => own_ty f.2) fs
  end.

Definition bad (l : list float64) : option float64 := List.find (fun f => negb (is_finite f)) l.

Lemma bad_app l1 l2 : bad (l1 ++ l2) = match bad l1 with Some f => Some f | None => bad l2 end.
Proof. unfold bad. induction l1 as [|f l1 IH]; cbn; [done|]. by destruct (negb (is_finite f)). Qed.

(** Refused for the first of the floats that is not finite. *)
Definition refused {A} (r : result A) (l : list float64) : Prop :=
  match bad l with Some f => r = Err (unsupported f) | None => is_ok r = true end.

Lemma refused_fmap {A B} (g : A → B) r l : refused r l → refused (g <$> r) l.
Proof. unfold refused. destruct (bad l); [by intros ->|by destruct r]. Qed.

Lemma refused_bind {A B} (r : result A) (g : A → result B) l1 l2 :
  refused r l1 → (∀ a, refused (g a) l2) → refused (r ≫= g) (l1 ++ l2).
Proof.
  unfold refused. rewrite bad_app. destruct (bad l1) as [f|]; [by intros ->|]. destruct r as [a|]; [|done]. intros _ Hg. apply Hg.
Qed.

Lemma refused_mapM {A C} (enc : A → result C) (fl : A → list float64) xs :
  (∀ x, x ∈ xs → refused (enc x) (fl x)) → refused (mapM enc xs) (List.flat_map fl xs).
Proof.
  induction xs as [|x xs IH]; intros Hx; cbn; [done|]. apply refused_bind; [apply Hx; by left|]. intros j.
  apply (refused_fmap (fun js => j :: js)). apply IH. intros y Hy. apply Hx. by right.
Qed.

Lemma empty_floats t x : empty t x = true → bad (floats t x) = None.
Proof.
  destruct t as [n|n|t|t|t|fs], x as [a|s| |y|xs|m|xs]; cbn; try done.
  - destruct a as [| | |f], (kind_of_atom n); try done. by destruct f.
  - by destruct xs.
  - by intros ->%bool_decide_eq_true.
Qed.

Lemma encode_refused t : own_ty t = true → ∀ x, has_type t x → refused (encode t x) (floats t x).
Proof.
  induction t as [n|n|t IH|t IH|t IH|fs IH] using ty_rect'; intros Ho x Hx; cbn in *; try done.
  - unfold refused, bad. destruct (kind_of_atom n), x as [[]| | | | | |]; try done. cbn. by destruct (is_finite f).
  - destruct x; try done. apply IH; [done|apply Hx].
  - destruct x as [| | | |xs| |]; try done. apply refused_fmap, refused_mapM. rewrite Forall_forall in Hx. by intros; apply IH; [|apply Hx].
  - destruct x as [| | | | |m|]; try done. apply refused_fmap, refused_mapM. intros [k v] Hin%elem_of_sorted_entries.
    apply (refused_fmap (fun j => (k, j))). apply IH; [done|]. by apply (Hx k).
  - destruct x as [| | | | | |xs]; try done. apply refused_fmap. revert xs Hx. induction IH as [|f fs Hf Hfs IHfs]; intros [|x xs]; try done.
    cbn in *. apply andb_true_iff in Ho as [Ho Hos]. intros (_ & Hx & Hxs). destruct (f_omit f && empty f.2 x.2) eqn:E.
    + apply andb_true_iff in E as [_ E]. unfold refused. rewrite bad_app, (empty_floats _ _ E). by apply IHfs.
    + apply refused_bind; [by apply Hf|]. intros j. apply (refused_fmap (fun ms => (f_key f, j) :: ms)). by apply IHfs.
Qed.

(** [convertJSON] of a type without types of other packages. *)
Lemma convertJSON_own t x :
  wire_ty t = true → own_ty t = true → has_type t x →
  convertJSON t t x = match bad (floats t x) with
                      | Some f => Err (Wrap "marshaling for conversion" (unsupported f))
                      | None => Ok (norm t x)
                      end.
Proof.
  intros Hw Ho Hx. pose proof (encode_refused t Ho x Hx) as Hr. unfold refused in Hr. destruct (bad _) as [f|].
  - unfold convertJSON. by rewrite Hr.
  - destruct (encode t x) as [j|e] eqn:He; [|done]. by eapply convertJSON_trip.
Qed.
End Json.

(** ** A concrete library, and a section on its way *)

Module JsonImpl.
Definition encode_ext (n : string) (x : content) : result json :=
  match x with
  | CtExt s => Ok (JString s)
  | CtAtom (AS s) => Ok (JList [JString s])
  | _ => Err (Errorf "json: unsupported type")
  end.
Definition decode_ext (n : string) (j : json) : option content :=
  match j with
  | JString s => Some (CtExt s)
  | JList [JString s] => Some (CtAtom (AS s))
  | _ => None
  end.
End JsonImpl.

Definition json_instance : JsonLib.
Proof.
  refine {| ext_zero _ := CtExt ""; ext_encode := JsonImpl.encode_ext; ext_decode := JsonImpl.decode_ext; ext_norm _ x := x |}.
  - intros n [[]| | | | | |] j [= <-]; done.
  - done.
Defined.

Module Sent.
#[local] Existing Instance json_instance.

(** A pair list with nothing in it. *)
Definition pairs : content := CtStruct [("Pairs", CtSlice [])].

Lemma pairs_converted :
  ("TradeBotConfig.Spec.Pairlist", ApiAlpha.t_PairListSpec, ApiBeta.t_PairListSpec) ∈ converted.
Proof. apply (bool_decide_unpack _). vm_compute. exact I. Qed.

Lemma conversions_lossless_witness :
  encode ApiAlpha.t_PairListSpec pairs = Ok (JObj []) ∧
  ∃ y, convertJSON ApiAlpha.t_PairListSpec ApiBeta.t_PairListSpec pairs = Ok y ∧
       encode ApiBeta.t_PairListSpec y = Ok (JObj []) ∧ convertJSON ApiBeta.t_PairListSpec ApiAlpha.t_PairListSpec y = Ok y.
Proof.
  assert (has_type ApiAlpha.t_PairListSpec pairs) as Hx by (split; [reflexivity|]; split; [apply List.Forall_nil|exact I]).
  pose proof (proj1 (conversions_lossless _ _ _ pairs_converted) pairs Hx) as Hl.
  change (encode ApiAlpha.t_PairListSpec pairs) with (Ok (JObj [])) in Hl |- *.
  destruct Hl as (y & Hy & _ & Hw & Hb). split; [reflexivity|]. exists y. exact (conj Hy (conj Hw Hb)).
Defined.
End Sent.
