(* ===== verification/WireTypes.v ===== *)
(** * The conversions of the model are those on the wire

    Conversion.v has what [convertJSON] does to every section of a
    TradeBotConfig written out: which floats Marshal can fail on, and what
    [omitempty] drops.  Here each of these is derived: a section of the model
    is the content of a Go struct, and converting it is marshalling that
    content by the one version's json tags and unmarshalling the text by the
    other's (Wire.v). *)

From S2P Require Import Prelude GoHeap GoLib ApiAlpha ApiBeta Types ConfigTypes Conversion Wire.

(** ** The content of the model's values

    A list of the model stands for a slice of which the code does not tell nil
    from empty. *)

Class ToContent (A : Type) := to_content : A → content.

#[export] Instance string_content : ToContent string := fun s => CtAtom (AS s).
#[export] Instance bool_content : ToContent bool := fun b => CtAtom (AB b).
#[export] Instance Z_content : ToContent Z := fun z => CtAtom (AZ z).
#[export] Instance float_content : ToContent float64 := fun f => CtAtom (AF f).
#[export] Instance option_content `{ToContent A} : ToContent (option A) := fun o =>
  match o with Some a => CtPtr (to_content a) | None => CtNil end.
#[export] Instance list_content `{ToContent A} : ToContent (list A) := fun l =>
  match l with [] => CtNil | _ => CtSlice (map to_content l) end.
#[export] Instance gmap_content `{ToContent A} : ToContent (gmap string A) := fun m => CtMap (to_content <$> m).

(** Slices and maps that may be nil or empty, and a pointer to a slice. *)
Definition slice_content `{ToContent A} (o : option (list A)) : content :=
  match o with Some l => CtSlice (map to_content l) | None => CtNil end.
Definition map_content `{ToContent A} (o : option (gmap string A)) : content :=
  match o with Some m => CtMap (to_content <$> m) | None => CtNil end.
Definition slice_ptr_content `{ToContent A} (o : option (list A)) : content :=
  match o with Some l => CtPtr (CtSlice (map to_content l)) | None => CtNil end.

Definition BotConfig_content (b : BotConfig) : content := CtStruct
   [ ("BotName", to_content (bc_BotName b));
     ("TradingMode", to_content (bc_TradingMode b));
     ("DryRun", to_content (bc_DryRun b));
     ("DryRunWallet", to_content (bc_DryRunWallet b));
     ("StakeCurrency", to_content (bc_StakeCurrency b));
     ("StakeAmount", to_content (bc_StakeAmount b));
     ("MaxOpenTrades", to_content (bc_MaxOpenTrades b));
     ("FiatDisplayCurrency", to_content (bc_FiatDisplayCurrency b));
     ("DBUrl", to_content (bc_DBUrl b));
     ("Export", to_content (bc_Export b));
     ("DisableParamExport", to_content (bc_DisableParamExport b));
     ("DisableDataframeChecks", to_content (bc_DisableDataframeChecks b)) ].
#[export] Instance BotConfig_to_content : ToContent BotConfig := BotConfig_content.
Definition StrategySpec_content (s : StrategySpec) : content := CtStruct
   [ ("Name", to_content (sspec_Name s));
     ("Script", to_content (sspec_Script s)) ].
#[export] Instance StrategySpec_to_content : ToContent StrategySpec := StrategySpec_content.
Definition SVMParams_content (s : SVMParams) : content := CtStruct
   [ ("Shuffle", to_content (svm_Shuffle s));
     ("Nu", to_content (svm_Nu s)) ].
#[export] Instance SVMParams_to_content : ToContent SVMParams := SVMParams_content.
Definition FeatureParameters_content (f : FeatureParameters) : content := CtStruct
   [ ("IncludeCorrPairlist", to_content (fpar_IncludeCorrPairlist f));
     ("IncludeTimeframes", to_content (fpar_IncludeTimeframes f));
     ("LabelPeriodCandles", to_content (fpar_LabelPeriodCandles f));
     ("IncludeShiftedCandles", to_content (fpar_IncludeShiftedCandles f));
     ("DIThreshold", to_content (fpar_DIThreshold f));
     ("WeightFactor", to_content (fpar_WeightFactor f));
     ("PrincipalComponentAnalysis", to_content (fpar_PrincipalComponentAnalysis f));
     ("IndicatorPeriodsCandles", to_content (fpar_IndicatorPeriodsCandles f));
     ("UseSVMToRemoveOutliers", to_content (fpar_UseSVMToRemoveOutliers f));
     ("PlotFeatureImportances", to_content (fpar_PlotFeatureImportances f));
     ("SVMParams", to_content (fpar_SVMParams f));
     ("ShuffleAfterSplit", to_content (fpar_ShuffleAfterSplit f));
     ("BufferTrainDataCandles", to_content (fpar_BufferTrainDataCandles f)) ].
#[export] Instance FeatureParameters_to_content : ToContent FeatureParameters := FeatureParameters_content.
Definition DataSplitParameters_content (d : DataSplitParameters) : content := CtStruct
   [ ("TestSize", to_content (dsp_TestSize d));
     ("RandomState", to_content (dsp_RandomState d));
     ("Shuffle", to_content (dsp_Shuffle d)) ].
#[export] Instance DataSplitParameters_to_content : ToContent DataSplitParameters := DataSplitParameters_content.
Definition ModelRewardParameters_content (m : ModelRewardParameters) : content := CtStruct
   [ ("RR", to_content (mrp_RR m));
     ("ProfitAim", to_content (mrp_ProfitAim m)) ].
#[export] Instance ModelRewardParameters_to_content : ToContent ModelRewardParameters := ModelRewardParameters_content.
Definition ModelTrainingParameters_content (a : ModelTrainingParameters) : content := CtStruct [].
#[export] Instance ModelTrainingParameters_to_content : ToContent ModelTrainingParameters := ModelTrainingParameters_content.
Definition RLConfig_content (r : RLConfig) : content := CtStruct
   [ ("DropOHLCFromFeatures", to_content (rl_DropOHLCFromFeatures r));
     ("TrainCycles", to_content (rl_TrainCycles r));
     ("MaxTradeDurationCandles", to_content (rl_MaxTradeDurationCandles r));
     ("AddStateInfo", to_content (rl_AddStateInfo r));
     ("MaxTrainingDrawdownPct", to_content (rl_MaxTrainingDrawdownPct r));
     ("CPUCount", to_content (rl_CPUCount r));
     ("ModelType", to_content (rl_ModelType r));
     ("PolicyType", to_content (rl_PolicyType r));
     ("NetArch", to_content (rl_NetArch r));
     ("RandomizeStartingPosition", to_content (rl_RandomizeStartingPosition r));
     ("ProgressBar", to_content (rl_ProgressBar r));
     ("ModelRewardParameters", to_content (rl_ModelRewardParameters r)) ].
#[export] Instance RLConfig_to_content : ToContent RLConfig := RLConfig_content.
Definition AIConfig_content (a : AIConfig) : content := CtStruct
   [ ("Enabled", to_content (ai_Enabled a));
     ("Identifier", to_content (ai_Identifier a));
     ("WriteMetricsToDisk", to_content (ai_WriteMetricsToDisk a));
     ("PurgeOldModels", to_content (ai_PurgeOldModels a));
     ("ConvWidth", to_content (ai_ConvWidth a));
     ("TrainPeriodDays", to_content (ai_TrainPeriodDays a));
     ("BacktestPeriodDays", to_content (ai_BacktestPeriodDays a));
     ("LiveRetrainHours", to_content (ai_LiveRetrainHours a));
     ("ExpirationHours", to_content (ai_ExpirationHours a));
     ("SaveBacktestModels", to_content (ai_SaveBacktestModels a));
     ("FitLivePredictionsCandles", to_content (ai_FitLivePredictionsCandles a));
     ("DataKitchenThreadCount", to_content (ai_DataKitchenThreadCount a));
     ("ActivateTensorboard", to_content (ai_ActivateTensorboard a));
     ("WaitForTrainingIterationOnReload", to_content (ai_WaitForTrainingIterationOnReload a));
     ("ContinueLearning", to_content (ai_ContinueLearning a));
     ("Keras", to_content (ai_Keras a));
     ("FeatureParameters", to_content (ai_FeatureParameters a));
     ("DataSplitParameters", to_content (ai_DataSplitParameters a));
     ("ModelTrainingParameters", to_content (ai_ModelTrainingParameters a));
     ("RLConfig", to_content (ai_RLConfig a)) ].
#[export] Instance AIConfig_to_content : ToContent AIConfig := AIConfig_content.
Definition DataConfig_content (d : DataConfig) : content := CtStruct
   [ ("DataformatOHLCV", to_content (dc_DataformatOHLCV d));
     ("DataformatTrades", to_content (dc_DataformatTrades d));
     ("PositionAdjustment", to_content (dc_PositionAdjustment d));
     ("NewPairsDaysAgo", to_content (dc_NewPairsDaysAgo d));
     ("DownloadTrades", to_content (dc_DownloadTrades d));
     ("MaxEntryPositionAdjustment", to_content (dc_MaxEntryPositionAdjustment d));
     ("AvailableCapital", to_content (dc_AvailableCapital d));
     ("AmendLastStakeAmount", to_content (dc_AmendLastStakeAmount d));
     ("LastStakeAmountMinRatio", to_content (dc_LastStakeAmountMinRatio d));
     ("ProcessOnlyNewCandles", to_content (dc_ProcessOnlyNewCandles d));
     ("AmountReservePercent", to_content (dc_AmountReservePercent d));
     ("ReduceDfFootprint", to_content (dc_ReduceDfFootprint d));
     ("CustomPriceMaxDistanceRatio", to_content (dc_CustomPriceMaxDistanceRatio d)) ].
#[export] Instance DataConfig_to_content : ToContent DataConfig := DataConfig_content.
Definition AdvancedConfig_content (a : AdvancedConfig) : content := CtStruct
   [ ("TradableBalanceRatio", to_content (adv_TradableBalanceRatio a));
     ("CancelOpenOrdersOnExit", to_content (adv_CancelOpenOrdersOnExit a));
     ("MarginMode", to_content (adv_MarginMode a));
     ("InitialState", to_content (adv_InitialState a));
     ("ForceEntryEnable", to_content (adv_ForceEntryEnable a)) ].
#[export] Instance AdvancedConfig_to_content : ToContent AdvancedConfig := AdvancedConfig_content.
Definition UnfilledTimeoutConfig_content (u : UnfilledTimeoutConfig) : content := CtStruct
   [ ("Entry", to_content (uto_Entry u));
     ("Exit", to_content (uto_Exit u));
     ("ExitTimeoutCount", to_content (uto_ExitTimeoutCount u));
     ("Unit", to_content (uto_Unit u)) ].
#[export] Instance UnfilledTimeoutConfig_to_content : ToContent UnfilledTimeoutConfig := UnfilledTimeoutConfig_content.
Definition InternalsConfig_content (i : InternalsConfig) : content := CtStruct
   [ ("ProcessThrottleSecs", to_content (int_ProcessThrottleSecs i));
     ("Interval", to_content (int_Interval i));
     ("SdNotify", to_content (int_SdNotify i)) ].
#[export] Instance InternalsConfig_to_content : ToContent InternalsConfig := InternalsConfig_content.
Definition PairListSpec_content (p : PairListSpec) : content := CtStruct
   [ ("Pairs", slice_content (pl_Pairs p)) ].
#[export] Instance PairListSpec_to_content : ToContent PairListSpec := PairListSpec_content.
Definition PairlistConfig_content (p : PairlistConfig) : content := CtStruct
   [ ("Method", to_content (pm_Method p));
     ("NumberAssets", to_content (pm_NumberAssets p));
     ("RefreshPeriod", to_content (pm_RefreshPeriod p));
     ("AllowInactive", to_content (pm_AllowInactive p));
     ("SortKey", to_content (pm_SortKey p));
     ("LookbackTimeframe", to_content (pm_LookbackTimeframe p));
     ("LookbackPeriod", to_content (pm_LookbackPeriod p));
     ("LookbackDays", to_content (pm_LookbackDays p));
     ("MinChangeRate", to_content (pm_MinChangeRate p));
     ("ProducerName", to_content (pm_ProducerName p));
     ("Mode", to_content (pm_Mode p));
     ("ProcessingMode", to_content (pm_ProcessingMode p));
     ("PairlistURL", to_content (pm_PairlistURL p));
     ("KeepPairlistOnFailure", to_content (pm_KeepPairlistOnFailure p));
     ("ReadTimeout", to_content (pm_ReadTimeout p));
     ("BearerToken", to_content (pm_BearerToken p));
     ("SaveToFile", to_content (pm_SaveToFile p));
     ("MaxRank", to_content (pm_MaxRank p));
     ("Categories", to_content (pm_Categories p));
     ("MinDaysListed", to_content (pm_MinDaysListed p));
     ("MaxDaysListed", to_content (pm_MaxDaysListed p));
     ("MinPrice", to_content (pm_MinPrice p));
     ("MaxPrice", to_content (pm_MaxPrice p));
     ("MaxSpreadRatio", to_content (pm_MaxSpreadRatio p));
     ("LookbackDaysRange", to_content (pm_LookbackDaysRange p));
     ("MinRateOfChange", to_content (pm_MinRateOfChange p));
     ("MaxRateOfChange", to_content (pm_MaxRateOfChange p));
     ("LookbackDaysVolatility", to_content (pm_LookbackDaysVolatility p));
     ("MinVolatility", to_content (pm_MinVolatility p));
     ("MaxVolatility", to_content (pm_MaxVolatility p));
     ("Offset", to_content (pm_Offset p));
     ("ShuffleFrequency", to_content (pm_ShuffleFrequency p));
     ("Seed", to_content (pm_Seed p));
     ("Minutes", to_content (pm_Minutes p));
     ("MinProfit", to_content (pm_MinProfit p)) ].
#[export] Instance PairlistConfig_to_content : ToContent PairlistConfig := PairlistConfig_content.
Definition PairlistMethodsSpec_content (p : PairlistMethodsSpec) : content := CtStruct
   [ ("Methods", to_content (pms_Methods p)) ].
#[export] Instance PairlistMethodsSpec_to_content : ToContent PairlistMethodsSpec := PairlistMethodsSpec_content.
Definition PricingCheckDepthOfMarket_content (p : PricingCheckDepthOfMarket) : content := CtStruct
   [ ("Enabled", to_content (dom_Enabled p));
     ("BidsToAskDelta", to_content (dom_BidsToAskDelta p)) ].
#[export] Instance PricingCheckDepthOfMarket_to_content : ToContent PricingCheckDepthOfMarket := PricingCheckDepthOfMarket_content.
Definition PricingSpec_content (p : PricingSpec) : content := CtStruct
   [ ("PriceSide", to_content (pri_PriceSide p));
     ("PriceLastBalance", to_content (pri_PriceLastBalance p));
     ("UseOrderBook", to_content (pri_UseOrderBook p));
     ("OrderBookTop", to_content (pri_OrderBookTop p));
     ("CheckDepthOfMarket", to_content (pri_CheckDepthOfMarket p)) ].
#[export] Instance PricingSpec_to_content : ToContent PricingSpec := PricingSpec_content.
Definition OrderTypes_content (o : OrderTypes) : content := CtStruct
   [ ("Entry", to_content (ot_Entry o));
     ("Exit", to_content (ot_Exit o));
     ("EmergencyExit", to_content (ot_EmergencyExit o));
     ("ForceEntry", to_content (ot_ForceEntry o));
     ("ForceExit", to_content (ot_ForceExit o));
     ("Stoploss", to_content (ot_Stoploss o));
     ("StoplossOnExchange", to_content (ot_StoplossOnExchange o));
     ("StoplossOnExchangeInterval", to_content (ot_StoplossOnExchangeInterval o));
     ("StoplossOnExchangeLimitRatio", to_content (ot_StoplossOnExchangeLimitRatio o)) ].
#[export] Instance OrderTypes_to_content : ToContent OrderTypes := OrderTypes_content.
Definition TimeInForce_content (t : TimeInForce) : content := CtStruct
   [ ("Entry", to_content (tif_Entry t));
     ("Exit", to_content (tif_Exit t)) ].
#[export] Instance TimeInForce_to_content : ToContent TimeInForce := TimeInForce_content.
Definition Flow_content (f : Flow) : content := CtStruct
   [ ("CacheSize", to_content (fl_CacheSize f));
     ("MaxCandles", to_content (fl_MaxCandles f));
     ("Scale", to_content (fl_Scale f));
     ("StackedImbalanceRange", to_content (fl_StackedImbalanceRange f));
     ("ImbalanceVolume", to_content (fl_ImbalanceVolume f));
     ("ImbalanceRatio", to_content (fl_ImbalanceRatio f)) ].
#[export] Instance Flow_to_content : ToContent Flow := Flow_content.
Definition OrderSpec_content (o : OrderSpec) : content := CtStruct
   [ ("Types", to_content (ord_Types o));
     ("TimeInForce", to_content (ord_TimeInForce o));
     ("Flow", to_content (ord_Flow o)) ].
#[export] Instance OrderSpec_to_content : ToContent OrderSpec := OrderSpec_content.
Definition RiskManagementSpec_content (r : RiskManagementSpec) : content := CtStruct
   [ ("MinimalROI", map_content (rm_MinimalROI r));
     ("Stoploss", to_content (rm_Stoploss r));
     ("TrailingStop", to_content (rm_TrailingStop r));
     ("TrailingStopPositive", to_content (rm_TrailingStopPositive r));
     ("TrailingStopPositiveOffset", to_content (rm_TrailingStopPositiveOffset r));
     ("TrailingOnlyOffsetIsReached", to_content (rm_TrailingOnlyOffsetIsReached r));
     ("UseExitSignal", to_content (rm_UseExitSignal r));
     ("ExitProfitOnly", to_content (rm_ExitProfitOnly r));
     ("ExitProfitOffset", to_content (rm_ExitProfitOffset r));
     ("Fee", to_content (rm_Fee r));
     ("IgnoreRoiIfEntrySignal", to_content (rm_IgnoreRoiIfEntrySignal r));
     ("IgnoreBuyingExpiredCandleAfter", to_content (rm_IgnoreBuyingExpiredCandleAfter r));
     ("MinimumTradeAmount", to_content (rm_MinimumTradeAmount r));
     ("TargetedTradeAmount", to_content (rm_TargetedTradeAmount r));
     ("LookaheadAnalysisExportFilename", to_content (rm_LookaheadAnalysisExportFilename r));
     ("StartupCandle", slice_ptr_content (rm_StartupCandle r));
     ("LiquidationBuffer", to_content (rm_LiquidationBuffer r));
     ("BacktestBreakdown", slice_content (rm_BacktestBreakdown r)) ].
#[export] Instance RiskManagementSpec_to_content : ToContent RiskManagementSpec := RiskManagementSpec_content.
Definition ExperimentalConfig_content (e : ExperimentalConfig) : content := CtStruct
   [ ("BlockBadExchanges", to_content (exp_BlockBadExchanges e)) ].
#[export] Instance ExperimentalConfig_to_content : ToContent ExperimentalConfig := ExperimentalConfig_content.
Definition LoggingConfig_content (l : LoggingConfig) : content := CtStruct
   [ ("Version", to_content (log_Version l)) ].
#[export] Instance LoggingConfig_to_content : ToContent LoggingConfig := LoggingConfig_content.
Definition NotificationTelegramSettings_content (n : NotificationTelegramSettings) : content := CtStruct
   [ ("Status", to_content (nts_Status n));
     ("Warning", to_content (nts_Warning n));
     ("Startup", to_content (nts_Startup n));
     ("Entry", to_content (nts_Entry n));
     ("EntryFill", to_content (nts_EntryFill n));
     ("EntryCancel", to_content (nts_EntryCancel n));
     ("Exit", to_content (nts_Exit n));
     ("ExitFill", to_content (nts_ExitFill n));
     ("ExitCancel", to_content (nts_ExitCancel n));
     ("ProtectionTrigger", to_content (nts_ProtectionTrigger n));
     ("ProtectionTriggerGlobal", to_content (nts_ProtectionTriggerGlobal n)) ].
#[export] Instance NotificationTelegramSettings_to_content : ToContent NotificationTelegramSettings := NotificationTelegramSettings_content.
Definition NotificationWebhook_content (n : NotificationWebhook) : content := CtStruct
   [ ("Enabled", to_content (nw_Enabled n));
     ("URL", to_content (nw_URL n));
     ("Entry", to_content (nw_Entry n));
     ("EntryCancel", to_content (nw_EntryCancel n));
     ("EntryFill", to_content (nw_EntryFill n));
     ("Exit", to_content (nw_Exit n));
     ("ExitCancel", to_content (nw_ExitCancel n));
     ("ExitFill", to_content (nw_ExitFill n));
     ("Status", to_content (nw_Status n));
     ("AllowCustomMessages", to_content (nw_AllowCustomMessages n)) ].
#[export] Instance NotificationWebhook_to_content : ToContent NotificationWebhook := NotificationWebhook_content.
Definition NotificationDiscord_content (n : NotificationDiscord) : content := CtStruct
   [ ("Enabled", to_content (nd_Enabled n));
     ("WebhookURL", to_content (nd_WebhookURL n));
     ("ExitFill", to_content (nd_ExitFill n));
     ("EntryFill", to_content (nd_EntryFill n)) ].
#[export] Instance NotificationDiscord_to_content : ToContent NotificationDiscord := NotificationDiscord_content.

(** ** The trip of the model's values *)

Section Trips.
Context `{JsonLib}.

(** A value that the trip leaves as it is, and the floats in it. *)
Class Stable {A} `{ToContent A} (t : ty) (fl : A → list float64) : Prop := {
  stable_norm omit a : norm_field (norm t) omit t (to_content a) = to_content a;
  stable_floats a : floats t (to_content a) = fl a
}.

Lemma stable_atom {A} `{ToContent A} n (k : atom_kind) :
  kind_of_atom n = k → k ≠ KFloat → k ≠ KStruct →
  (∀ a : A, ∃ b, to_content a = CtAtom b ∧ (empty (TAtom n) (CtAtom b) = true → zero (TAtom n) = CtAtom b)) →
  Stable (A:=A) (TAtom n) (fun _ => []).
Proof.
  intros Hk Hf Hs Ha. split.
  - intros omit a. destruct (Ha a) as (b & -> & Hz). unfold norm_field. destruct (omit && empty _ _) eqn:E.
    + apply andb_true_iff in E as [_ E]. by rewrite (Hz E).
    + cbn. rewrite Hk. by destruct k.
  - intros a. destruct (Ha a) as (b & -> & _). cbn. rewrite Hk. by destruct b, k.
Qed.

#[export] Instance stable_string : Stable (A:=string) string_ (fun _ => []).
Proof.
  apply (stable_atom "string" KText eq_refl); [done..|]. intros s. exists (AS s). split; [done|].
  change (bool_decide (s = "") = true → CtAtom (AS "") = CtAtom (AS s)). by intros ->%bool_decide_eq_true.
Qed.
#[export] Instance stable_bool : Stable (A:=bool) bool_ (fun _ => []).
Proof.
  apply (stable_atom "bool" KBool eq_refl); [done..|]. intros b. exists (AB b). split; [done|]. by destruct b.
Qed.
#[export] Instance stable_int : Stable (A:=Z) GoHeap.int (fun _ => []).
Proof.
  apply (stable_atom "int" (KInt 64) eq_refl); [done..|]. intros z. exists (AZ z). split; [done|].
  change (bool_decide (z = 0%Z) = true → CtAtom (AZ 0) = CtAtom (AZ z)). by intros ->%bool_decide_eq_true.
Qed.
#[export] Instance stable_int64 : Stable (A:=Z) GoHeap.int64 (fun _ => []).
Proof.
  apply (stable_atom "int64" (KInt 64) eq_refl); [done..|]. intros z. exists (AZ z). split; [done|].
  change (bool_decide (z = 0%Z) = true → CtAtom (AZ 0) = CtAtom (AZ z)). by intros ->%bool_decide_eq_true.
Qed.

(** A pointer is left out only when nil, so what it points to may be zero. *)
Class Held {A} `{ToContent A} (t : ty) (fl : A → list float64) : Prop := {
  held_norm a : norm t (to_content a) = to_content a;
  held_floats a : floats t (to_content a) = fl a
}.
#[export] Instance held_stable `{Stable A t fl} : Held t fl | 10.
Proof. split; [apply (stable_norm false)|apply stable_floats]. Qed.
#[export] Instance held_float : Held GoHeap.float64 (fun f : float64 => [f]).
Proof. done. Qed.

#[export] Instance stable_ptr_inert `{Held A t (fun _ => [])} : Stable (TPtr t) (fun _ : option A => []) | 1.
Proof.
  split; [intros omit [a|]; [|by destruct omit]|intros [a|]; [|done]]; unfold norm_field; cbn.
  - rewrite andb_false_r. by rewrite (held_norm (fl := fun _ => [])).
  - apply (held_floats (fl := fun _ => [])).
Qed.
#[export] Instance stable_ptr `{Held A t fl} : Stable (TPtr t) (fun o : option A => match o with Some a => fl a | None => [] end) | 2.
Proof.
  split; [intros omit [a|]; [|by destruct omit]|intros [a|]; [|done]]; unfold norm_field; cbn.
  - rewrite andb_false_r. by rewrite held_norm.
  - apply held_floats.
Qed.

Lemma map_held `{Held A t fl} (l : list A) : map (norm t) (map to_content l) = map to_content l.
Proof. rewrite map_map. apply map_ext. apply held_norm. Qed.
Lemma flat_map_held `{Held A t fl} (l : list A) : List.flat_map (floats t) (map to_content l) = List.flat_map fl l.
Proof. induction l as [|a l IH]; cbn; [done|]. by rewrite held_floats, IH. Qed.
Lemma flat_map_nil {A} (l : list A) : List.flat_map (fun _ => @nil float64) l = [].
Proof. by induction l. Qed.

#[export] Instance stable_list_inert `{Held A t (fun _ => [])} : Stable (TSlice t) (fun _ : list A => []) | 1.
Proof.
  split; [intros omit [|a l]; [by destruct omit|]|intros [|a l]; [done|]].
  - unfold norm_field. cbn. rewrite andb_false_r. by rewrite held_norm, map_held.
  - change (floats (TSlice t) (to_content (a :: l))) with (List.flat_map (floats t) (map to_content (a :: l))).
    by rewrite flat_map_held, flat_map_nil.
Qed.
#[export] Instance stable_list `{Held A t fl} : Stable (TSlice t) (fun l : list A => List.flat_map fl l) | 2.
Proof.
  split; [intros omit [|a l]; [by destruct omit|]|intros [|a l]; [done|]].
  - unfold norm_field. cbn. rewrite andb_false_r. by rewrite held_norm, map_held.
  - change (floats (TSlice t) (to_content (a :: l))) with (List.flat_map (floats t) (map to_content (a :: l))).
    by rewrite flat_map_held.
Qed.
Lemma map_fmap_held `{Held A t fl} (m : gmap string A) : norm t <$> (to_content <$> m) = to_content <$> m.
Proof. rewrite <- map_fmap_compose. apply map_fmap_ext. intros k a _. cbn. apply held_norm. Qed.
#[export] Instance held_map `{Held A t (fun _ => [])} : Held (TMap t) (fun _ : gmap string A => []).
Proof.
  split; intros m; cbn; [by rewrite map_fmap_held|]. rewrite sorted_entries_fmap.
  induction (sorted_entries m) as [|[k a] l IH]; cbn; [done|]. by rewrite held_floats, IH.
Qed.

(** Structs, field by field. *)
Lemma norm_struct fs xs : norm (TStruct fs) (CtStruct xs) = CtStruct (norm_fields norm fs xs).
Proof. done. Qed.
Lemma floats_struct fs xs : floats (TStruct fs) (CtStruct xs) = float_fields floats fs xs.
Proof. done. Qed.
Lemma stable_struct {A} `{ToContent A} fs fl :
  (∀ a : A, norm (TStruct fs) (to_content a) = to_content a ∧ floats (TStruct fs) (to_content a) = fl a) → Stable (TStruct fs) fl.
Proof. intros Hs. split; intros; [unfold norm_field; cbn; rewrite andb_false_r|]; apply Hs. Qed.

(** [ct] is the content of the struct: field by field, the trip changes
    nothing, and the floats are those listed. *)
Ltac stable ct t :=
  apply stable_struct; intros a; change (to_content a) with (ct a); unfold ct; split;
  [ rewrite norm_struct; cbn [norm_fields fst snd]; rewrite ?stable_norm; reflexivity
  | unfold t; rewrite floats_struct; cbn [float_fields fst snd]; rewrite ?stable_floats, ?app_nil_r; cbn [app]; rewrite ?app_nil_r; reflexivity ].

#[export] Instance stable_BotConfig : Stable (A:=BotConfig) ApiAlpha.t_BotConfig json_floats.
Proof. stable BotConfig_content ApiAlpha.t_BotConfig. Qed.
#[export] Instance stable_StrategySpec : Stable (A:=StrategySpec) ApiAlpha.t_StrategySpec (fun _ => []).
Proof. stable StrategySpec_content ApiAlpha.t_StrategySpec. Qed.
#[export] Instance stable_SVMParams : Stable (A:=SVMParams) ApiAlpha.t_SVMParams json_floats.
Proof. stable SVMParams_content ApiAlpha.t_SVMParams. Qed.
#[export] Instance stable_FeatureParameters : Stable (A:=FeatureParameters) ApiAlpha.t_FeatureParameters json_floats.
Proof. stable FeatureParameters_content ApiAlpha.t_FeatureParameters. Qed.
#[export] Instance stable_DataSplitParameters : Stable (A:=DataSplitParameters) ApiAlpha.t_DataSplitParameters json_floats.
Proof. stable DataSplitParameters_content ApiAlpha.t_DataSplitParameters. Qed.
#[export] Instance stable_ModelTrainingParameters : Stable (A:=ModelTrainingParameters) ApiAlpha.t_ModelTrainingParameters (fun _ => []).
Proof. stable ModelTrainingParameters_content ApiAlpha.t_ModelTrainingParameters. Qed.
#[export] Instance stable_ModelRewardParameters : Stable (A:=ModelRewardParameters) ApiAlpha.t_ModelRewardParameters json_floats.
Proof. stable ModelRewardParameters_content ApiAlpha.t_ModelRewardParameters. Qed.
#[export] Instance stable_RLConfig : Stable (A:=RLConfig) ApiAlpha.t_RLConfig json_floats.
Proof. stable RLConfig_content ApiAlpha.t_RLConfig. Qed.
#[export] Instance stable_AIConfig : Stable (A:=AIConfig) ApiAlpha.t_AIConfig json_floats.
Proof. stable AIConfig_content ApiAlpha.t_AIConfig. Qed.
#[export] Instance stable_DataConfig : Stable (A:=DataConfig) ApiAlpha.t_DataConfig json_floats.
Proof. stable DataConfig_content ApiAlpha.t_DataConfig. Qed.
#[export] Instance stable_AdvancedConfig : Stable (A:=AdvancedConfig) ApiAlpha.t_AdvancedConfig json_floats.
Proof. stable AdvancedConfig_content ApiAlpha.t_AdvancedConfig. Qed.
#[export] Instance stable_UnfilledTimeoutConfig : Stable (A:=UnfilledTimeoutConfig) ApiAlpha.t_UnfilledTimeoutConfig (fun _ => []).
Proof. stable UnfilledTimeoutConfig_content ApiAlpha.t_UnfilledTimeoutConfig. Qed.
#[export] Instance stable_InternalsConfig : Stable (A:=InternalsConfig) ApiAlpha.t_InternalsConfig (fun _ => []).
Proof. stable InternalsConfig_content ApiAlpha.t_InternalsConfig. Qed.
#[export] Instance stable_PairlistConfig : Stable (A:=PairlistConfig) ApiAlpha.t_PairlistConfig json_floats.
Proof. stable PairlistConfig_content ApiAlpha.t_PairlistConfig. Qed.
#[export] Instance stable_PairlistMethodsSpec : Stable (A:=PairlistMethodsSpec) ApiAlpha.t_PairlistMethodsSpec json_floats.
Proof. stable PairlistMethodsSpec_content ApiAlpha.t_PairlistMethodsSpec. Qed.
#[export] Instance stable_PricingCheckDepthOfMarket : Stable (A:=PricingCheckDepthOfMarket) ApiAlpha.t_PricingCheckDepthOfMarket json_floats.
Proof. stable PricingCheckDepthOfMarket_content ApiAlpha.t_PricingCheckDepthOfMarket. Qed.
#[export] Instance stable_PricingSpec : Stable (A:=PricingSpec) ApiAlpha.t_PricingSpec json_floats.
Proof. stable PricingSpec_content ApiAlpha.t_PricingSpec. Qed.
#[export] Instance stable_OrderTypes : Stable (A:=OrderTypes) ApiAlpha.t_Types json_floats.
Proof. stable OrderTypes_content ApiAlpha.t_Types. Qed.
#[export] Instance stable_TimeInForce : Stable (A:=TimeInForce) ApiAlpha.t_TimeInForce (fun _ => []).
Proof. stable TimeInForce_content ApiAlpha.t_TimeInForce. Qed.
#[export] Instance stable_Flow : Stable (A:=Flow) ApiAlpha.t_Flow json_floats.
Proof. stable Flow_content ApiAlpha.t_Flow. Qed.
#[export] Instance stable_OrderSpec : Stable (A:=OrderSpec) ApiAlpha.t_OrderSpec json_floats.
Proof. stable OrderSpec_content ApiAlpha.t_OrderSpec. Qed.
#[export] Instance stable_ExperimentalConfig : Stable (A:=ExperimentalConfig) ApiAlpha.t_ExperimentalConfig (fun _ => []).
Proof. stable ExperimentalConfig_content ApiAlpha.t_ExperimentalConfig. Qed.
#[export] Instance stable_LoggingConfig : Stable (A:=LoggingConfig) ApiAlpha.t_LoggingConfig (fun _ => []).
Proof. stable LoggingConfig_content ApiAlpha.t_LoggingConfig. Qed.
#[export] Instance stable_NotificationTelegramSettings : Stable (A:=NotificationTelegramSettings) ApiAlpha.t_NotificationTelegramSettings (fun _ => []).
Proof. stable NotificationTelegramSettings_content ApiAlpha.t_NotificationTelegramSettings. Qed.
#[export] Instance stable_NotificationWebhook : Stable (A:=NotificationWebhook) ApiAlpha.t_NotificationWebhook (fun _ => []).
Proof. stable NotificationWebhook_content ApiAlpha.t_NotificationWebhook. Qed.
#[export] Instance stable_NotificationDiscord : Stable (A:=NotificationDiscord) ApiAlpha.t_NotificationDiscord (fun _ => []).
Proof. stable NotificationDiscord_content ApiAlpha.t_NotificationDiscord. Qed.

(** *** Slices and maps that may be nil or empty *)

Lemma slice_trip `{Held A t fl} (o : option (list A)) :
  norm_field (norm (TSlice t)) true (TSlice t) (slice_content o) = slice_content (omit_empty_list o) ∧
  floats (TSlice t) (slice_content o) = match o with Some l => List.flat_map fl l | None => [] end.
Proof. destruct o as [[|a l]|]; cbn; [done| |done]. by rewrite held_norm, held_floats, map_held, flat_map_held. Qed.

Lemma slice_ptr_trip `{Held A t fl} omit (o : option (list A)) :
  norm_field (norm (TPtr (TSlice t))) omit (TPtr (TSlice t)) (slice_ptr_content o) = slice_ptr_content o ∧
  floats (TPtr (TSlice t)) (slice_ptr_content o) = match o with Some l => List.flat_map fl l | None => [] end.
Proof.
  destruct o as [l|]; [|by destruct omit]. unfold norm_field. cbn. by rewrite andb_false_r, map_held, flat_map_held.
Qed.

Lemma map_trip `{Held A t fl} (o : option (gmap string A)) :
  norm_field (norm (TMap t)) true (TMap t) (map_content o) = map_content (omit_empty_map o) ∧
  floats (TMap t) (map_content o) = match o with Some m => List.flat_map (fun kv => fl kv.2) (sorted_entries m) | None => [] end.
Proof.
  destruct o as [m|]; [|done]. unfold norm_field. cbn. split.
  - destruct (decide (m = ∅)) as [->|Hm]; [by rewrite fmap_empty|].
    rewrite bool_decide_eq_false_2 by (by rewrite fmap_empty_iff). cbn. by rewrite map_fmap_held.
  - rewrite sorted_entries_fmap. induction (sorted_entries m) as [|[k a] l IH]; cbn; [done|]. by rewrite held_floats, IH.
Qed.

Lemma inert_slice {A} (o : option (list A)) :
  match o with Some l => List.flat_map (fun _ => @nil float64) l | None => [] end = [].
Proof. destruct o; [apply flat_map_nil|done]. Qed.

Lemma flat_map_omap {A B} (l : list (A * option B)) :
  List.flat_map (fun kv => match kv.2 with Some a => [a] | None => [] end) l = omap snd l.
Proof. induction l as [|[a [b|]] l IH]; cbn; [done|by rewrite IH|done]. Qed.

(** *** Sections *)

(** The instance of Conversion.v describes the trip. *)
Class OnWire (A : Type) `{ToContent A, JsonRoundTrip A} (t : ty) : Prop := {
  wire_norm a : norm t (to_content a) = to_content (json_norm a);
  wire_floats a : floats t (to_content a) = json_floats a
}.

Lemma on_wire_stable {A} `{ToContent A, JsonRoundTrip A} t :
  Stable (A:=A) t json_floats → (∀ a : A, json_norm a = a) → OnWire A t.
Proof. intros [Hn Hf] Hid. split; intros a; [rewrite Hid; exact (Hn false a)|apply Hf]. Qed.

#[export] Instance on_wire_PairListSpec : OnWire PairListSpec ApiAlpha.t_PairListSpec.
Proof.
  split; intros p; change (to_content p) with (PairListSpec_content p); unfold PairListSpec_content.
  - unfold ApiAlpha.t_PairListSpec. rewrite norm_struct. cbn [norm_fields fst snd]. by rewrite (proj1 (slice_trip (pl_Pairs p))).
  - unfold ApiAlpha.t_PairListSpec. rewrite floats_struct. cbn [float_fields fst snd]. rewrite (proj2 (slice_trip (pl_Pairs p))), app_nil_r.
    destruct (pl_Pairs p); [apply flat_map_nil|done].
Qed.

#[export] Instance on_wire_RiskManagementSpec : OnWire RiskManagementSpec ApiAlpha.t_RiskManagementSpec.
Proof.
  split; intros r; change (to_content r) with (RiskManagementSpec_content r); unfold RiskManagementSpec_content, ApiAlpha.t_RiskManagementSpec.
  - rewrite norm_struct. cbn [norm_fields fst snd]. rewrite ?stable_norm.
    by rewrite (proj1 (map_trip (rm_MinimalROI r))), (proj1 (slice_ptr_trip true (rm_StartupCandle r))), (proj1 (slice_trip (rm_BacktestBreakdown r))).
  - rewrite floats_struct. cbn [float_fields fst snd]. rewrite ?stable_floats.
    rewrite (proj2 (map_trip (rm_MinimalROI r))), (proj2 (slice_ptr_trip true (rm_StartupCandle r))), (proj2 (slice_trip (rm_BacktestBreakdown r))).
    rewrite !inert_slice. cbn [app]. rewrite !app_nil_r. unfold json_floats, RiskManagementSpec_json. f_equal.
    destruct (rm_MinimalROI r) as [m|]; [|done]. apply flat_map_omap.
Qed.

#[local] Ltac same := apply on_wire_stable; [apply _|done].
#[export] Instance on_wire_BotConfig : OnWire BotConfig ApiAlpha.t_BotConfig. Proof. same. Qed.
#[export] Instance on_wire_StrategySpec : OnWire StrategySpec ApiAlpha.t_StrategySpec. Proof. same. Qed.
#[export] Instance on_wire_AIConfig : OnWire AIConfig ApiAlpha.t_AIConfig. Proof. same. Qed.
#[export] Instance on_wire_DataConfig : OnWire DataConfig ApiAlpha.t_DataConfig. Proof. same. Qed.
#[export] Instance on_wire_AdvancedConfig : OnWire AdvancedConfig ApiAlpha.t_AdvancedConfig. Proof. same. Qed.
#[export] Instance on_wire_UnfilledTimeoutConfig : OnWire UnfilledTimeoutConfig ApiAlpha.t_UnfilledTimeoutConfig. Proof. same. Qed.
#[export] Instance on_wire_InternalsConfig : OnWire InternalsConfig ApiAlpha.t_InternalsConfig. Proof. same. Qed.
#[export] Instance on_wire_PairlistMethodsSpec : OnWire PairlistMethodsSpec ApiAlpha.t_PairlistMethodsSpec. Proof. same. Qed.
#[export] Instance on_wire_PricingSpec : OnWire PricingSpec ApiAlpha.t_PricingSpec. Proof. same. Qed.
#[export] Instance on_wire_OrderSpec : OnWire OrderSpec ApiAlpha.t_OrderSpec. Proof. same. Qed.
#[export] Instance on_wire_ExperimentalConfig : OnWire ExperimentalConfig ApiAlpha.t_ExperimentalConfig. Proof. same. Qed.
#[export] Instance on_wire_LoggingConfig : OnWire LoggingConfig ApiAlpha.t_LoggingConfig. Proof. same. Qed.
#[export] Instance on_wire_NotificationTelegramSettings :
  OnWire NotificationTelegramSettings ApiAlpha.t_NotificationTelegramSettings. Proof. same. Qed.
#[export] Instance on_wire_NotificationWebhook : OnWire NotificationWebhook ApiAlpha.t_NotificationWebhook. Proof. same. Qed.
#[export] Instance on_wire_NotificationDiscord : OnWire NotificationDiscord ApiAlpha.t_NotificationDiscord. Proof. same. Qed.

(** ** The conversions *)

(** Converting a section of the model is the trip of its content from the one
    Go type to the other, errors included. *)
Definition converts_on_wire (A : Type) `{ToContent A, JsonRoundTrip A} (src dst : ty) : Prop :=
  ∀ a : A, has_type src (to_content a) →
    to_content <$> Conversion.convertJSON a = Wire.convertJSON src dst (to_content a).

Lemma on_wire_converts {A} `{OnWire A t} :
  wire_ty t = true → own_ty t = true → converts_on_wire A t t.
Proof.
  intros Hw Ho a Hx. rewrite convertJSON_own, wire_floats, wire_norm by done.
  unfold Conversion.convertJSON, bad. by destruct (List.find _ _).
Qed.

(** Both ways, the ends being the same type. *)
Definition both_ways (A : Type) `{ToContent A, JsonRoundTrip A} (alpha beta : ty) : Prop :=
  converts_on_wire A alpha beta ∧ converts_on_wire A beta alpha.

Lemma both_ways_same {A} `{OnWire A alpha} beta :
  beta = alpha → wire_ty alpha && own_ty alpha = true → both_ways A alpha beta.
Proof. intros -> [Hw Ho]%andb_true_iff. split; by apply on_wire_converts. Qed.

(** C24: [convertJSON] as the conversions of the model have it, section by
    section, is marshalling the section's content by the one version's json
    tags and unmarshalling it by the other's, in both directions: the same
    value arrives, and a float that is not finite is the same error. *)
Theorem sections_convert_on_wire :
  both_ways StrategySpec ApiAlpha.t_StrategySpec ApiBeta.t_StrategySpec ∧
  both_ways BotConfig ApiAlpha.t_BotConfig ApiBeta.t_BotConfig ∧
  both_ways AIConfig ApiAlpha.t_AIConfig ApiBeta.t_AIConfig ∧
  both_ways DataConfig ApiAlpha.t_DataConfig ApiBeta.t_DataConfig ∧
  both_ways AdvancedConfig ApiAlpha.t_AdvancedConfig ApiBeta.t_AdvancedConfig ∧
  both_ways UnfilledTimeoutConfig ApiAlpha.t_UnfilledTimeoutConfig ApiBeta.t_UnfilledTimeoutConfig ∧
  both_ways InternalsConfig ApiAlpha.t_InternalsConfig ApiBeta.t_InternalsConfig ∧
  both_ways PairListSpec ApiAlpha.t_PairListSpec ApiBeta.t_PairListSpec ∧
  both_ways PairlistMethodsSpec ApiAlpha.t_PairlistMethodsSpec ApiBeta.t_PairlistMethodsSpec ∧
  both_ways PricingSpec ApiAlpha.t_PricingSpec ApiBeta.t_PricingSpec ∧
  both_ways OrderSpec ApiAlpha.t_OrderSpec ApiBeta.t_OrderSpec ∧
  both_ways RiskManagementSpec ApiAlpha.t_RiskManagementSpec ApiBeta.t_RiskManagementSpec ∧
  both_ways ExperimentalConfig ApiAlpha.t_ExperimentalConfig ApiBeta.t_ExperimentalConfig ∧
  both_ways LoggingConfig ApiAlpha.t_LoggingConfig ApiBeta.t_LoggingConfig ∧
  both_ways NotificationTelegramSettings ApiAlpha.t_NotificationTelegramSettings ApiBeta.t_NotificationTelegramSettings ∧
  both_ways NotificationWebhook ApiAlpha.t_NotificationWebhook ApiBeta.t_NotificationWebhook ∧
  both_ways NotificationDiscord ApiAlpha.t_NotificationDiscord ApiBeta.t_NotificationDiscord.
Proof. split_and!; (apply both_ways_same; [reflexivity|vm_compute; reflexivity]). Qed.
End Trips.

(** ** A risk section with everything in it that the trip touches *)
Module Risky.
#[local] Existing Instance json_instance.

Definition risk (fee : float64) : RiskManagementSpec :=
  {| rm_MinimalROI := Some ∅; rm_Stoploss := None; rm_TrailingStop := false; rm_TrailingStopPositive := None;
     rm_TrailingStopPositiveOffset := None; rm_TrailingOnlyOffsetIsReached := false; rm_UseExitSignal := true;
     rm_ExitProfitOnly := false; rm_ExitProfitOffset := None; rm_Fee := Some fee; rm_IgnoreRoiIfEntrySignal := false;
     rm_IgnoreBuyingExpiredCandleAfter := None; rm_MinimumTradeAmount := None; rm_TargetedTradeAmount := None;
     rm_LookaheadAnalysisExportFilename := ""; rm_StartupCandle := Some [20; 40]%Z; rm_LiquidationBuffer := None;
     rm_BacktestBreakdown := Some ["day"] |}.

Definition on_the_wire (r : RiskManagementSpec) : result content :=
  Wire.convertJSON ApiAlpha.t_RiskManagementSpec ApiBeta.t_RiskManagementSpec (to_content r).

(** A fee of 0 is kept, the empty map comes back nil, infinity is refused. *)
Lemma risk_converts :
  on_the_wire (risk (S754_zero false)) = to_content <$> Conversion.convertJSON (risk (S754_zero false)) ∧
  is_ok (on_the_wire (risk (S754_zero false))) = true ∧ is_ok (on_the_wire (risk (S754_infinity false))) = false.
Proof. split_and!; vm_compute; reflexivity. Qed.
End Risky.
