(* ===== verification/Shared.v ===== *)
(** * controllers/shared

    What the controllers share: PatchStatus (re-read, mutate, write only a
    change, retry a conflict), server-side Apply with its controller
    reference, the security and resource defaults, the host/scheme inference
    used for CORS origins and URLs, the watch handlers and the per-bot metric
    series. *)

From S2P Require Import Prelude Prog GoLib Kube Types ConfigTypes Client.

Definition FieldOwner : string := "freqtrade-operator".

Definition DefaultFreqtradeImage : string :=
  "freqtradeorg/freqtrade@sha256:" ^^ "7031bca43ed7668ebf421725dd5016acade6ef88b0771db3e08c96e6d19a42db".

Definition RestrictedSecurityContext : SecurityContext :=
  {| sc_RunAsUser := None; sc_RunAsGroup := None; sc_RunAsNonRoot := Some true;
     sc_AllowPrivilegeEscalation := Some false; sc_ReadOnlyRootFilesystem := Some true;
     sc_CapabilitiesDrop := ["ALL"]; sc_SeccompProfile := "RuntimeDefault" |}.

Definition DefaultContainerResources : ResourceRequirements :=
  {| rr_Requests := {[ "cpu" := "100m"; "memory" := "256Mi" ]};
     rr_Limits := {[ "cpu" := "1"; "memory" := "1Gi" ]} |}.

(** ** Status writes *)

(** The ConditionedObject interface: a kind whose status PatchStatus writes. *)
Class ConditionedObject (k : kind) := {
  StatusT : Type;
  #[global] StatusT_eq_dec :: EqDecision StatusT;
  get_status : Obj k → StatusT;
  with_status : Obj k → StatusT → Obj k;
  SetObservedGeneration : StatusT → Z → StatusT;
  get_with_status o s : get_status (with_status o s) = s;
  with_get_status o : with_status o (get_status o) = o;
  with_status_Meta o s : obj_Meta k (with_status o s) = obj_Meta k o
}.
Arguments StatusT k {_}.

Section RetryOnConflict.
Context `{KubeLib} {S : Type}.

(** retry.RetryOnConflict: up to the backoff's number of attempts, as long
    as the error is a conflict; then that error. *)
Fixpoint retry (attempts : nat) (fn : S → Op (S * result unit)) (s : S) : Op (S * result unit) :=
  p ← fn s;
  match p.2, attempts with
  | Err e, Datatypes.S (Datatypes.S _ as attempts') =>
      if IsConflict e then retry attempts' fn p.1 else mret p
  | _, _ => mret p
  end.

Definition RetryOnConflict (fn : S → Op (S * result unit)) (s : S) : Op (S * result unit) :=
  retry DefaultBackoff_Steps fn s.

Lemma retry_emits (P : ∀ X, Call X → Prop) n fn s :
  (∀ s, emits P (fn s)) → emits P (retry n fn s).
Proof.
  intros Hfn. revert s; induction n as [|n IH]; intros s; cbn [retry]; (apply emits_bind; [done|]);
    intros [s' [u|e]]; cbn; try done.
  destruct n; [done|]. destruct (IsConflict e); [apply IH|done].
Qed.
End RetryOnConflict.

Section PatchStatus.
Context `{KubeLib} (k : kind) `{ConditionedObject k} {S : Type}.

(** [mutate] computes the new status from the object just read; it may change
    the state [S] it closes over and read the clock. *)
Definition patch_attempt (key : NamespacedName) (mutate : Obj k → S → Op (StatusT k * S)) (s : Obj k * S)
    : Op ((Obj k * S) * result unit) :=
  got ← trigger (Get k key);
  match got with
  | Err e => mret (s, Err e)
  | Ok obj =>
      m ← mutate obj s.2;
      let obj' := with_status obj (SetObservedGeneration m.1 (Generation (obj_Meta k obj))) in
      if decide (get_status obj' = get_status obj) then mret ((obj', m.2), Ok tt)
      else
        upd ← trigger (StatusUpdate k obj');
        match upd with
        | Err e => mret ((obj', m.2), Err e)
        | Ok stored => mret ((stored, m.2), Ok tt)
        end
  end.

Definition PatchStatus (obj : Obj k) (s : S) (mutate : Obj k → S → Op (StatusT k * S))
    : Op ((Obj k * S) * result unit) :=
  RetryOnConflict (patch_attempt (ObjectKeyFromMeta (obj_Meta k obj)) mutate) (obj, s).

(** *** Its specification *)

(** What a mutation may compute, as a relation between the object it is given
    and the status, and the history it has computed it by; a status write after the history [h] is an object of an
    earlier Get of the key with such a status, and nothing else changed. *)
Definition status_write_of (W : history Call → Obj k → StatusT k → Prop) (key : NamespacedName) (h : history Call) (o : Obj k)
    : Prop :=
  ∃ o0 st, Ev (Get k key) (Ok o0) ∈ h ∧ W h o0 st ∧
    o = with_status o0 (SetObservedGeneration st (Generation (obj_Meta k o0))) ∧ get_status o ≠ get_status o0.

(** Every event [PatchStatus] adds is a Get of the object, such a write, or a
    look at the clock. *)
Definition patch_event W (key : NamespacedName) (h : history Call) (e : event Call) : Prop :=
  (∃ r, e = Ev (Get k key) r) ∨ (∃ o r, e = Ev (StatusUpdate k o) r ∧ status_write_of W key h o) ∨ (∃ t, e = Ev Now t).

Definition monotone (W : history Call → Obj k → StatusT k → Prop) : Prop :=
  ∀ h h' o st, W h o st → W (h ++ h') o st.

Lemma status_write_of_mono W key h h' o :
  monotone W → status_write_of W key h o → status_write_of W key (h ++ h') o.
Proof.
  intros HW (o0 & st & Hin & Ho & Hw). exists o0, st. split; [apply elem_of_app; by left|]. split; [by apply HW|done].
Qed.

Lemma patch_event_mono W key h h' e : monotone W → patch_event W key h e → patch_event W key (h ++ h') e.
Proof.
  intros HW [He|[(o & r & -> & Hw)|He]]; [by left| |by right; right]. right; left. exists o, r. split; [done|].
  by apply status_write_of_mono.
Qed.

Definition patch_history W (key : NamespacedName) (h : history Call) : Prop := Forall (patch_event W key h) h.

Lemma patch_history_app W key h h' :
  monotone W → patch_history W key h → Forall (patch_event W key h) h' → patch_history W key (h ++ h').
Proof.
  intros HW Hh Hh'. apply Forall_app; split; (eapply Forall_impl; [eassumption|]); intros; by apply patch_event_mono.
Qed.

Section Mutate.
Context (mutate : Obj k → S → Op (StatusT k * S)).
Context (Hclock : ∀ o s, emits (fun _ c => is_now c) (mutate o s)).

(** The mutation leaves only looks at the clock in the history. *)
Lemma mutate_history o s h :
  wp (mutate o s) h (fun h' _ => ∃ h1, h' = h ++ h1 ∧ Forall (fun e => ∃ t, e = Ev Now t) h1).
Proof using Hclock.
  eapply wp_mono; [|apply emits_wp_app, Hclock]. cbn. intros h' _ (h1 & -> & Hh1).
  exists h1. split; [done|]. eapply Forall_impl; [exact Hh1|]. intros [X c x] Hc. destruct c; try done. by eexists.
Qed.

Section Writes.
Context (W : history Call → Obj k → StatusT k → Prop) (Hmono : monotone W).
Context (HW : ∀ o s h, wp (mutate o s) h (fun h' m => W h' o m.1)).

Lemma patch_attempt_history key s h :
  patch_history W key h → wp (patch_attempt key mutate s) h (fun h' _ => patch_history W key h').
Proof using Hclock HW Hmono.
  intros Hh r. cbn.
  assert (patch_history W key (h ++ [Ev (Get k key) r])) as Hh1.
  { apply patch_history_app; [done..|]. constructor; [|constructor]. left; by eexists. }
  destruct r as [obj|e]; cbn; [|done]. apply (wp_bind (mutate obj s.2)).
  eapply wp_mono; [|apply (wp_conj _ _ _ _ (mutate_history obj s.2 _) (HW obj s.2 _))].
  cbn. intros h' m [(h1 & -> & Hh2) HWm].
  assert (patch_history W key ((h ++ [Ev (Get k key) (Ok obj)]) ++ h1)) as Hh3.
  { apply patch_history_app; [done..|]. eapply Forall_impl; [exact Hh2|]. intros e He. by right; right. }
  case_decide as Heq; cbn; [done|]. intros r.
  assert (patch_history W key (((h ++ [Ev (Get k key) (Ok obj)]) ++ h1) ++
            [Ev (StatusUpdate k (with_status obj (SetObservedGeneration m.1 (Generation (obj_Meta k obj))))) r])) as Hh4.
  { apply patch_history_app; [done..|]. constructor; [|constructor]. right; left. do 2 eexists. split; [done|].
    exists obj, m.1. split; [set_solver|]. split; [exact HWm|done]. }
  destruct r; cbn; done.
Qed.

Lemma retry_history key n s h :
  patch_history W key h → wp (retry n (patch_attempt key mutate) s) h (fun h' _ => patch_history W key h').
Proof using Hclock HW Hmono.
  revert s h; induction n as [|n IH]; intros s h Hh; cbn [retry]; apply wp_bind;
    (eapply wp_mono; [|by apply patch_attempt_history]); cbn; intros h' [s' [u|e]] Hh'; cbn; try done.
  destruct n as [|n]; [done|]. destruct (IsConflict e); [by apply IH|done].
Qed.

(** PatchStatus only ever reads its own object and writes back an object it
    has just read, with the status the mutation computed from it and
    everything else kept. *)
Lemma PatchStatus_history obj s h :
  wp (PatchStatus obj s mutate) h
     (fun h' _ => ∃ h1, h' = h ++ h1 ∧ patch_history W (ObjectKeyFromMeta (obj_Meta k obj)) h1).
Proof using Hclock HW Hmono.
  apply wp_frame. cbn. eapply wp_mono; [|apply retry_history; constructor].
  cbn. intros h' _ Hh'. by exists h'.
Qed.
End Writes.

(** *** No write without a change *)

Definition answers (P : Obj k → Prop) (h : history Call) : Prop :=
  ∀ key o, Ev (Get k key) (Ok o) ∈ h → P o.

Definition no_write (h : history Call) : Prop := ∀ o r, Ev (StatusUpdate k o) r ∉ h.

Definition settled (P : Obj k → Prop) (h : history Call) : Prop := answers P h → no_write h.

Lemma settled_app P h h' :
  settled P h → Forall (fun e => ∀ o r, e ≠ Ev (StatusUpdate k o) r) h' → settled P (h ++ h').
Proof.
  intros Hh Hh' Ha o r [Hin|Hin]%elem_of_app.
  - eapply Hh; [|exact Hin]. intros key' o' Hin'. apply (Ha key'). set_solver.
  - rewrite Forall_forall in Hh'. by eapply Hh'.
Qed.

Context (P : Obj k → Prop).
Context (Hm : ∀ o s h, P o →
  wp (mutate o s) h (fun _ m => SetObservedGeneration m.1 (Generation (obj_Meta k o)) = get_status o)).

Lemma patch_attempt_settled key s h :
  settled P h → wp (patch_attempt key mutate s) h (fun h' _ => settled P h').
Proof using Hm Hclock.
  intros Hh r. cbn.
  assert (settled P (h ++ [Ev (Get k key) r])) as Hh1.
  { apply settled_app; [done|]. constructor; [intros ? ? ?; ev_discr|constructor]. }
  destruct r as [o|e]; cbn; [|done]. apply (wp_bind (mutate o s.2)).
  eapply wp_mono; [|apply (wp_conj _ _ _ _ (mutate_history o s.2 _) (wp_pending _ _ _ _ (Hm o s.2 _)))].
  cbn. intros h' m [(h1 & -> & Hh2) Heq].
  assert (settled P ((h ++ [Ev (Get k key) (Ok o)]) ++ h1)) as Hh3.
  { apply settled_app; [done|]. eapply Forall_impl; [exact Hh2|]. intros e [t ->] ? ? ?; ev_discr. }
  case_decide as Hne; cbn; [done|]. intros r. rewrite get_with_status in Hne.
  set (w := Ev _ r).
  assert (settled P (((h ++ [Ev (Get k key) (Ok o)]) ++ h1) ++ [w])) as Hh4.
  { intros Ha. destruct Hne. apply Heq, (Ha key). set_solver. }
  destruct r; cbn; exact Hh4.
Qed.

Lemma retry_settled key n s h :
  settled P h → wp (retry n (patch_attempt key mutate) s) h (fun h' _ => settled P h').
Proof using Hm Hclock.
  revert s h; induction n as [|n IH]; intros s h Hh; cbn [retry]; apply wp_bind;
    (eapply wp_mono; [|by apply patch_attempt_settled]); cbn; intros h' [s' [u|e]] Hh'; cbn; try done.
  destruct n as [|n]; [done|]. destruct (IsConflict e); [by apply IH|done].
Qed.

(** When the mutation computes the status the object already has, there
    is no status write, whatever else is answered. *)
Lemma PatchStatus_noop obj s :
  wp (PatchStatus obj s mutate) [] (fun h _ => answers P h → no_write h).
Proof using Hm Hclock. apply retry_settled. intros _ o r Hin. by apply elem_of_nil in Hin. Qed.
End Mutate.

Lemma PatchStatus_emits (P : ∀ X, Call X → Prop) obj s mutate :
  P _ (Get k (ObjectKeyFromMeta (obj_Meta k obj))) → (∀ o, P _ (StatusUpdate k o)) → (∀ o s, emits P (mutate o s)) →
  emits P (PatchStatus obj s mutate).
Proof.
  intros HG HU HM. apply retry_emits. intros s0. unfold patch_attempt.
  apply emits_bind; [by apply emits_trigger|]. intros [o|e]; cbn; [|done].
  apply emits_bind; [done|]. intros m. case_decide; cbn; [done|]. split; [done|]. by intros [].
Qed.
End PatchStatus.

(** ** Mutations that only compute

    Every reconciler but the bot's mutates the status by a function of the
    status just read.  [patch_status obj f] is the object in memory after
    PatchStatus, and its error. *)

Section PatchPure.
Context `{KubeLib} (k : kind) `{ConditionedObject k}.

Definition pure_mutation (f : StatusT k → StatusT k) (o : Obj k) (s : unit) : Op (StatusT k * unit) :=
  mret (f (get_status o), s).

Definition patch_status (obj : Obj k) (f : StatusT k → StatusT k) : Op (Obj k * result unit) :=
  p ← PatchStatus k obj tt (pure_mutation f);
  mret (p.1.1, p.2).

(** The object [f] makes of the one read. *)
Definition patched (f : StatusT k → StatusT k) (o : Obj k) : Obj k :=
  with_status o (SetObservedGeneration (f (get_status o)) (Generation (obj_Meta k o))).

(** The status writes of a history are what [f] makes of objects read in it
    under the key. *)
Definition writes_patched (f : StatusT k → StatusT k) (key : NamespacedName) (h : history Call) : Prop :=
  ∀ o x, Ev (StatusUpdate k o) x ∈ h → ∃ o0, Ev (Get k key) (Ok o0) ∈ h ∧ o = patched f o0.

(** The cluster stores what [f] makes of an object read: it did already, or
    it was sent and accepted. *)
Definition recorded (f : StatusT k → StatusT k) (key : NamespacedName) (h : history Call) : Prop :=
  ∃ o0, Ev (Get k key) (Ok o0) ∈ h ∧
    (patched f o0 = o0 ∨ ∃ stored, Ev (StatusUpdate k (patched f o0)) (Ok stored) ∈ h).

Lemma writes_patched_app f key h h' :
  writes_patched f key h → writes_patched f key h' → writes_patched f key (h ++ h').
Proof.
  intros H1 H2 o x [Hin|Hin]%elem_of_app; [destruct (H1 _ _ Hin) as (o0 & Hg & Hk)|
    destruct (H2 _ _ Hin) as (o0 & Hg & Hk)]; exists o0; (split; [apply elem_of_app; auto|done]).
Qed.

Lemma recorded_app f key h h' : recorded f key h' → recorded f key (h ++ h').
Proof.
  intros (o0 & Hg & Hs). exists o0. split; [apply elem_of_app; by right|]. destruct Hs as [Hs|[stored Hs]]; [by left|].
  right. exists stored. apply elem_of_app; by right.
Qed.

Lemma recorded_app_l f key h h' : recorded f key h → recorded f key (h ++ h').
Proof.
  intros (o0 & Hg & Hs). exists o0. split; [apply elem_of_app; by left|]. destruct Hs as [Hs|[stored Hs]]; [by left|].
  right. exists stored. apply elem_of_app; by left.
Qed.

Lemma patch_status_emits (P : ∀ X, Call X → Prop) obj f :
  P _ (Get k (ObjectKeyFromMeta (obj_Meta k obj))) → (∀ o, P _ (StatusUpdate k o)) → emits P (patch_status obj f).
Proof. intros HG HU. apply emits_bind; [|done]. by apply PatchStatus_emits. Qed.

Lemma pure_attempt_spec f key s :
  wp (patch_attempt k key (pure_mutation f) s) [] (fun h p => writes_patched f key h ∧ (p.2 = Ok tt → recorded f key h)).
Proof.
  intros [o|e]; cbn; [|split; [|done]; intros o x Hin%list_elem_of_singleton; ev_discr].
  assert (writes_patched f key [Ev (Get k key) (Ok o)]) as Hg.
  { intros o' x Hin%list_elem_of_singleton; ev_discr. }
  case_decide as Heq; cbn.
  - split; [done|]. intros _. exists o. split; [by left|]. left. rewrite <- (with_get_status (k := k) o) at 2.
    rewrite <- Heq, get_with_status. done.
  - intros upd. set (w := Ev _ upd).
    assert (writes_patched f key ([Ev (Get k key) (Ok o)] ++ [w])) as Hw.
    { intros o' x [Hin%list_elem_of_singleton|Hin%list_elem_of_singleton]%elem_of_app; [ev_discr|]. subst w.
      apply (StatusUpdate_inj k) in Hin as ->. exists o. split; [by left|done]. }
    destruct upd as [stored|e]; cbn; (split; [done|]); [|done]. intros _. exists o. split; [by left|].
    right. exists stored. by right; left.
Qed.

Lemma pure_retry_spec f key n s :
  wp (retry n (patch_attempt k key (pure_mutation f)) s) []
     (fun h p => writes_patched f key h ∧ (p.2 = Ok tt → recorded f key h)).
Proof.
  revert s; induction n as [|n IH]; intros s; cbn [retry]; apply wp_bind;
    (eapply wp_mono; [|apply pure_attempt_spec]); cbn; intros h1 [s' [u|e]] [Hw Hr]; cbn; try done.
  destruct n as [|n]; [done|]. destruct (IsConflict e); [|done].
  apply wp_frame. eapply wp_mono; [|apply IH]. intros h2 p [Hw2 Hr2].
  split; [by apply writes_patched_app|]. intros Hok. by apply recorded_app, Hr2.
Qed.

Lemma patch_status_spec obj f h :
  wp (patch_status obj f) h (fun h' p => ∃ h1, h' = h ++ h1 ∧
    writes_patched f (ObjectKeyFromMeta (obj_Meta k obj)) h1 ∧
    (p.2 = Ok tt → recorded f (ObjectKeyFromMeta (obj_Meta k obj)) h1)).
Proof.
  apply wp_frame, wp_bind. eapply wp_mono; [|apply pure_retry_spec]. intros h1 [[o s] res] Hh1. by exists h1.
Qed.

(** Where the API server takes what it is sent, the status is recorded at
    once. *)
Lemma fine_patched (P : history Call → Prop) obj f h :
  (∀ h h', h `prefix_of` h' → P h' → P h) →
  (∀ h e, P h → Ev (Get k (ObjectKeyFromMeta (obj_Meta k obj))) (Err e) ∉ h) →
  (∀ h o e, P h → Ev (StatusUpdate k o) (Err e) ∉ h) →
  fine P (patch_status obj f) h (fun h' p => p.2 = Ok tt ∧ recorded f (ObjectKeyFromMeta (obj_Meta k obj)) h').
Proof.
  intros HP Hget Hupd.
  assert (∀ h s, fine P (patch_attempt k (ObjectKeyFromMeta (obj_Meta k obj)) (pure_mutation f) s) h (fun _ p => p.2 = Ok tt)) as Hatt.
  { clear h. intros h s [o|e]; [|by intros Hh; destruct (Hget _ e Hh (asked _ _ _))]. cbn.
    case_decide; [done|]. intros [stored|e]; [done|]. by intros Hh; destruct (Hupd _ _ e Hh (asked _ _ _)). }
  eapply wp_mono; [|apply (wp_conj _ _ _ (fun h' p => P h' → p.2 = Ok tt) (patch_status_spec obj f h))].
  { intros h' p [(h1 & -> & _ & Hrec) Hok] HP'. split; [by apply Hok|]. apply recorded_app, Hrec, Hok, HP'. }
  apply wp_bind. eapply (wp_mono _ _ (fun h' p => P h' → p.2 = Ok tt)); [by intros h' [[o s] x]|].
  unfold PatchStatus, RetryOnConflict. destruct DefaultBackoff_Steps as [|n]; cbn [retry];
    (eapply fine_bind; [exact HP|apply Hatt|]; intros h1 [s' x] _ _ Hx; cbn in Hx; by subst x).
Qed.
End PatchPure.

(** ** Server-side apply

    The scheme knows every kind used (Scheme.v: [scheme_complete]), so the
    GroupVersionKind lookup of applyServerSide cannot fail and is left out. *)

Section Apply.
Context `{KubeLib}.

Definition applyServerSide (k : kind) (o : Obj k) : Op (result (Obj k)) := trigger (Patch k o).

(** [Apply]: [owner] becomes the object's controller first. *)
Definition Apply (owner : OwnerReference) (k : kind) (o : Obj k) : Op (result (Obj k)) :=
  match SetControllerReference owner (OwnerReferences (obj_Meta k o)) with
  | Err e => mret (Err (Wrap "failed to set controller reference" e))
  | Ok refs => applyServerSide k (obj_with_Meta k o (with_OwnerReferences (obj_Meta k o) refs))
  end.

Definition ApplyUnowned (k : kind) (o : Obj k) : Op (result (Obj k)) := applyServerSide k o.

(** On a freshly built object - no owner yet - Apply is exactly one patch,
    of the object with [owner] among its owners. *)
Lemma Apply_fresh owner k o :
  OwnerReferences (obj_Meta k o) = [] →
  ∃ refs, owner ∈ refs ∧
    Apply owner k o = trigger (Patch k (obj_with_Meta k o (with_OwnerReferences (obj_Meta k o) refs))).
Proof.
  intros Ho. destruct (set_controller_fresh owner (OwnerReferences (obj_Meta k o))) as (refs & Hr & Hin).
  { rewrite Ho. constructor. }
  exists refs. split; [done|]. unfold Apply. by rewrite Hr.
Qed.

(** The patch of a freshly built object names its owner. *)
Lemma Apply_fresh_emits (P : ∀ X, Call X → Prop) owner k o :
  OwnerReferences (obj_Meta k o) = [] →
  (∀ refs, owner ∈ refs → P _ (Patch k (obj_with_Meta k o (with_OwnerReferences (obj_Meta k o) refs)))) →
  emits P (Apply owner k o).
Proof. intros Ho HP. destruct (Apply_fresh owner k o Ho) as (refs & Hin & ->). split; [by apply HP|done]. Qed.

Lemma Apply_emits (P : ∀ X, Call X → Prop) owner k o :
  (∀ m, P _ (Patch k (obj_with_Meta k o m))) → emits P (Apply owner k o).
Proof. intros HP. unfold Apply. destruct (SetControllerReference _ _); cbn; auto. Qed.
(** An object of no controller is applied where the API server takes it. *)
Lemma fine_Apply (P : history Call → Prop) owner k o h :
  OwnerReferences (obj_Meta k o) = [] → (∀ h o e, P h → Ev (Patch k o) (Err e) ∉ h) →
  fine P (Apply owner k o) h (succeeds (fun h' o' => ∃ o1, Ev (Patch k o1) (Ok o') ∈ h')).
Proof.
  intros Ho HP. destruct (Apply_fresh owner k o Ho) as (refs & _ & ->).
  intros [o'|e] Hh; [|by destruct (HP _ _ _ Hh (asked _ _ _))]. exists o'. split; [done|]. eexists. apply asked.
Qed.

End Apply.

(** *** Sequences of applies

    [applies_in_order ks p]: [p] applies objects of the kinds [ks], in this
    order and each once, up to the first error. *)

Definition applied_kind (e : event Call) : option kind :=
  match e with Ev c _ => match c with Patch k _ => Some k | _ => None end end.

(** The kinds applied in a history. *)
Definition applied_so_far (h : history Call) : list kind := omap applied_kind h.

(** Since [before], a prefix of [ks], and all of it on success. *)
Definition applied_since (before ks : list kind) {A} (h : history Call) (res : result A) : Prop :=
  ∃ l, l `prefix_of` ks ∧ applied_so_far h = before ++ l ∧ (is_ok res = true → l = ks).

Definition applies_in_order (ks : list kind) {A} (p : Op (result A)) : Prop :=
  ∀ h, wp p h (applied_since (applied_so_far h) ks).

Definition no_apply {X} (c : Call X) : Prop := match c with Patch _ _ => False | _ => True end.

Section Sequence.
Context `{KubeLib}.

Lemma no_apply_same {A} (p : Op A) h :
  emits (@no_apply) p → wp p h (fun h' _ => applied_so_far h' = applied_so_far h).
Proof.
  intros Hp. eapply wp_mono; [|by apply emits_wp_app]. intros h' a (h1 & -> & Hh1).
  unfold applied_so_far. rewrite omap_app.
  replace (omap applied_kind h1) with (@nil kind); [by rewrite app_nil_r|].
  induction Hh1 as [|[X c x] h1 He _ IH]; [done|]. cbn in He |- *. by destruct c.
Qed.

Lemma in_order_quiet {A} (p : Op (result A)) : emits (@no_apply) p → applies_in_order [] p.
Proof.
  intros Hp h. eapply wp_mono; [|by apply no_apply_same]. intros h' res Hh. exists []. by rewrite Hh, app_nil_r.
Qed.

Lemma in_order_bind {A B} ks1 ks2 (p : Op (result A)) (f : A → Op (result B)) :
  applies_in_order ks1 p → (∀ a, applies_in_order ks2 (f a)) → applies_in_order (ks1 ++ ks2) (bind_ok p f).
Proof.
  intros Hp Hf h. apply wp_bind_ok. eapply wp_mono; [|apply Hp]. intros h1 [a|e] (l & Hl & Hh1 & Hok).
  - rewrite (Hok eq_refl) in Hh1. eapply wp_mono; [|apply Hf]. intros h2 res (l2 & Hl2 & Hh2 & Hok2).
    exists (ks1 ++ l2). rewrite Hh2, Hh1, app_assoc. split_and!; [by apply prefix_app|done|].
    intros Hres. by rewrite (Hok2 Hres).
  - exists l. split_and!; [by apply prefix_app_r|done|done].
Qed.

Lemma in_order_after {A B} ks (p : Op A) (f : A → Op (result B)) :
  emits (@no_apply) p → (∀ a, applies_in_order ks (f a)) → applies_in_order ks (p ≫= f).
Proof.
  intros Hp Hf h. apply wp_bind. eapply wp_mono; [|by apply no_apply_same]. intros h1 a <-. apply Hf.
Qed.

Lemma in_order_wrapping {A} ks what (p : Op (result A)) : applies_in_order ks p → applies_in_order ks (wrapping what p).
Proof.
  intros Hp h. apply wp_wrapping. eapply wp_mono; [|apply Hp]. intros h' res (l & Hl & Hh & Hok).
  exists l. split_and!; [done..|]. by destruct res.
Qed.

Lemma in_order_Patch k o : applies_in_order [k] (trigger (Patch k o)).
Proof.
  intros h x. exists [k]. unfold applied_so_far. rewrite omap_app. by split_and!.
Qed.

Lemma in_order_Apply owner k o : OwnerReferences (obj_Meta k o) = [] → applies_in_order [k] (Apply owner k o).
Proof. intros Ho. destruct (Apply_fresh owner k o Ho) as (refs & _ & ->). apply in_order_Patch. Qed.

Lemma in_order_ret {A} (a : A) : applies_in_order [] (mret (Ok a) : Op _).
Proof. by apply in_order_quiet. Qed.
End Sequence.

(** ** Hosts *)

Section InferHostScheme.
Context `{GoLib}.

Definition InferHostScheme (host defaultScheme : string) : string * string :=
  if HasPrefix host "http://" || HasPrefix host "https://" then
    match url_Parse host with
    | Some (scheme, h) => if nonempty h then (scheme, h) else (defaultScheme, host)
    | None => (defaultScheme, host)
    end
  else if HasPrefix host "localhost" then ("http", host)
  else (defaultScheme, host).

Lemma InferHostScheme_scheme host d :
  (InferHostScheme host d).1 = "http" ∨ (InferHostScheme host d).1 = "https" ∨
  (InferHostScheme host d).1 = d.
Proof.
  unfold InferHostScheme.
  destruct (HasPrefix host "http://") eqn:E1; cbn [orb].
  - destruct (url_Parse host) as [[sch h]|] eqn:Eu; [|by right; right].
    destruct (nonempty h); [|by right; right]. left. by eapply url_Parse_http.
  - destruct (HasPrefix host "https://") eqn:E2.
    + destruct (url_Parse host) as [[sch h]|] eqn:Eu; [|by right; right].
      destruct (nonempty h); [|by right; right]. right; left. by eapply url_Parse_https.
    + destruct (HasPrefix host "localhost"); auto.
Qed.
End InferHostScheme.

(** ** Watch handlers *)

Definition reconcile_Request : Type := NamespacedName.

(** [obj] is the watched TradeBotConfig or Strategy; a failed List enqueues
    nothing. *)
Definition EnqueueTradeBotsByConfigRef (refField : string) (obj : ObjectMeta) : Op (list reconcile_Request) :=
  tradeBots ← trigger (ListAll KTradeBot (Some (Namespace obj)) (Some (refField, Name obj)));
  mret match tradeBots with
       | Err _ => []
       | Ok items => map (fun bot => {| nn_Name := Name (V1alpha1.Meta bot);
                                        nn_Namespace := Namespace (V1alpha1.Meta bot) |}) items
       end.

Definition EnqueueTradeBotsByFreqUIRef (frequi : V1alpha1.FreqUI) : list reconcile_Request :=
  map (fun tradeBotRef => {| nn_Name := tradeBotRef; nn_Namespace := Namespace (V1alpha1.fu_Meta frequi) |})
      (V1alpha1.TradeBotRefs (V1alpha1.fu_Spec frequi)).

(** ** Metrics *)

Definition bot_gauges : list gauge :=
  [BotUp; BotState; BotOpenTrades; BotMaxOpenTrades; BotProfitAbs; BotProfitRatio; BotBalance;
   BotLastPollTimestampSeconds].

(** Deletes every freqtrade_bot_* series of one label set. *)
Definition DeleteBotMetrics (l : BotLabels) : Op unit :=
  foldr (fun g rest => trigger (GaugeDelete g l) ≫= fun _ => rest) (mret tt) bot_gauges.

(** tradeBotCollector.Collect: the samples of one scrape. *)
Inductive sample :=
  | ConfigDriftSample (ns name : string) (value : bool)
  | TradeBotsSample (phase : string) (count : nat).

Section Collect.
Context `{KubeLib}.

Definition count_phase (m : gmap string nat) (bot : V1alpha1.TradeBot) : gmap string nat :=
  let p := tst_Phase (V1alpha1.Status bot) in <[p := Datatypes.S (default O (m !! p))]> m.

Definition Collect : Op (list sample) :=
  bots ← trigger (ListAll KTradeBot None None);
  mret match bots with
       | Err _ => []
       | Ok items =>
           map (fun bot => ConfigDriftSample (Namespace (V1alpha1.Meta bot)) (Name (V1alpha1.Meta bot))
                  (IsStatusConditionTrue (tst_Conditions (V1alpha1.Status bot)) ConditionConfigDrift)) items
           ++ map (fun pc => TradeBotsSample pc.1 pc.2) (map_to_list (foldl count_phase ∅ items))
       end.
End Collect.
