(* ===== verification/ConfigBuilder.v ===== *)
(** * controllers/tradebotconfig/configbuilder: rendering config.json

    Each builder of the package as a function to [cfg], a Go
    [map[string]interface{}].  A builder's body is a sequence of
    [if <set> { cfg["key"] = value }]; it is written as the list of its
    [field]s in source order, and [obj] runs the assignments (so a key written
    twice keeps the last value that was set). *)

From S2P Require Import Prelude GoLib Prog Kube Types ConfigTypes Client.
Import ConfigV1alpha1.

(** ** Sections *)

Abbreviation cfg := (gmap string json).

Abbreviation field := (string * option json)%type.

Definition assign (m : cfg) (f : field) : cfg :=
  match f.2 with Some v => <[f.1 := v]> m | None => m end.

Definition obj (fs : list field) : cfg := foldl assign ∅ fs.

(** The kinds of guarded assignment of the sources. *)
Definition str (k s : string) : field := (k, if nonempty s then Some (JString s) else None).
Definition ptr {A} (k : string) (f : A → json) (o : option A) : field := (k, f <$> o).
Definition flag (k : string) (b : bool) : field := (k, if b then Some (JBool true) else None).
Definition strs (k : string) (l : list string) : field :=
  (k, match l with [] => None | _ => Some (JList (map JString l)) end).
Definition ints (k : string) (l : list Z) : field :=
  (k, match l with [] => None | _ => Some (JList (map JInt l)) end).

Section Obj.
(** The values assigned to a key, latest first. *)
Definition assigned (fs : list field) (k : string) : list json :=
  omap (fun f : field => if (f.1 =? k)%string then f.2 else None) (rev fs).

Lemma assigned_cons f fs k :
  assigned (f :: fs) k = assigned fs k ++ (if (f.1 =? k)%string then option_list f.2 else []).
Proof.
  unfold assigned. cbn [rev]. rewrite omap_app. f_equal. cbn.
  destruct (f.1 =? k)%string; [by destruct f.2|done].
Qed.

Lemma assigned_app fs fs' k : assigned (fs ++ fs') k = assigned fs' k ++ assigned fs k.
Proof. unfold assigned. by rewrite rev_app_distr, omap_app. Qed.

Lemma foldl_assign fs k m :
  foldl assign m fs !! k = match assigned fs k with v :: _ => Some v | [] => m !! k end.
Proof.
  revert m; induction fs as [|[k' o] fs IH]; intros m; cbn [foldl]; [done|].
  rewrite IH, assigned_cons. destruct (assigned fs k) as [|v l]; cbn; [|done].
  unfold assign; cbn. destruct (String.eqb_spec k' k) as [->|Hne].
  - destruct o as [v|]; cbn; [apply lookup_insert_eq|done].
  - cbn. destruct o; [by apply lookup_insert_ne|done].
Qed.

(** What [obj] holds under a key: the last value assigned to it. *)
Lemma obj_lookup fs k : obj fs !! k = head (assigned fs k).
Proof. unfold obj. rewrite foldl_assign, lookup_empty. by destruct (assigned fs k). Qed.

(** Only the keys of the fields are ever assigned. *)
Lemma obj_lookup_None fs k : k ∉ map fst fs → obj fs !! k = None.
Proof.
  intros Hk. rewrite obj_lookup.
  assert (assigned fs k = []) as ->; [|done]. induction fs as [|[k' o] fs IH]; [done|].
  cbn in Hk. apply not_elem_of_cons in Hk as [Hne Hk]. rewrite assigned_cons, IH by done.
  cbn. by rewrite (proj2 (String.eqb_neq k' k)).
Qed.
End Obj.

(** The maps of a range loop, [for k, v := range m { cfg[k] = v }]. *)
Definition merge_into (c : cfg) (m : cfg) : cfg := m ∪ c.

(** ** Pricing, orders, risk management *)

Definition BuildPricingConfig (pricing : option PricingSpec) : option cfg :=
  match pricing with
  | None => None
  | Some p => Some (obj
      [ str "price_side" (pri_PriceSide p);
        ("use_order_book", match pri_UseOrderBook p with Some _ => Some (JBool true) | None => None end);
        ("order_book_top", match pri_UseOrderBook p with Some _ => JInt <$> pri_OrderBookTop p | None => None end);
        ptr "price_last_balance" JFloat (pri_PriceLastBalance p);
        ptr "check_depth_of_market"
          (fun d => json_of_map (obj [ ptr "enabled" JBool (dom_Enabled d);
                                       ptr "bids_to_ask_delta" JFloat (dom_BidsToAskDelta d) ]))
          (pri_CheckDepthOfMarket p) ])
  end.

Definition BuildOrderTypesConfig (order : option OrderSpec) : option cfg :=
  match order with
  | None => None
  | Some order =>
  match ord_Types order with
  | None => None
  | Some t => Some (obj
      [ str "entry" (ot_Entry t); str "exit" (ot_Exit t); str "emergency_exit" (ot_EmergencyExit t);
        str "force_entry" (ot_ForceEntry t); str "force_exit" (ot_ForceExit t); str "stoploss" (ot_Stoploss t);
        ptr "stoploss_on_exchange" JBool (ot_StoplossOnExchange t);
        ptr "stoploss_on_exchange_interval" JInt (ot_StoplossOnExchangeInterval t);
        ptr "stoploss_on_exchange_limit_ratio" JFloat (ot_StoplossOnExchangeLimitRatio t) ])
  end end.

Definition BuildOrderTimeInForceConfig (order : option OrderSpec) : option cfg :=
  match order with
  | None => None
  | Some order =>
  match ord_TimeInForce order with
  | None => None
  | Some t => Some (obj [ str "entry" (tif_Entry t); str "exit" (tif_Exit t) ])
  end end.

Definition BuildOrderflowConfig (order : option OrderSpec) : option cfg :=
  match order with
  | None => None
  | Some order =>
  match ord_Flow order with
  | None => None
  | Some f => Some (obj
      [ ptr "cache_size" JInt (fl_CacheSize f); ptr "max_candles" JInt (fl_MaxCandles f);
        ptr "scale" JFloat (fl_Scale f);
        ptr "stacked_imbalance_range" JInt (fl_StackedImbalanceRange f);
        ptr "imbalance_volume" JInt (fl_ImbalanceVolume f); ptr "imbalance_ratio" JFloat (fl_ImbalanceRatio f) ])
  end end.

(** [map[string]*float64]: a nil pointer is null. *)
Definition json_of_roi (m : gmap string (option float64)) : json :=
  JObj (map (fun kv => (kv.1, match kv.2 with Some f => JFloat f | None => JNull end)) (sorted_entries m)).

Definition BuildRiskManagementConfig (rm : option RiskManagementSpec) : cfg :=
  match rm with
  | None => ∅
  | Some r => obj
      [ ptr "minimal_roi" json_of_roi (rm_MinimalROI r);
        ptr "stoploss" JFloat (rm_Stoploss r);
        flag "trailing_stop" (rm_TrailingStop r);
        ptr "trailing_stop_positive" JFloat (rm_TrailingStopPositive r);
        ptr "trailing_stop_positive_offset" JFloat (rm_TrailingStopPositiveOffset r);
        flag "trailing_only_offset_is_reached" (rm_TrailingOnlyOffsetIsReached r);
        flag "use_exit_signal" (rm_UseExitSignal r);
        flag "exit_profit_only" (rm_ExitProfitOnly r);
        ptr "exit_profit_offset" JFloat (rm_ExitProfitOffset r);
        ptr "fee" JFloat (rm_Fee r);
        flag "ignore_roi_if_entry_signal" (rm_IgnoreRoiIfEntrySignal r);
        ptr "ignore_buying_expired_candle_after" JInt (rm_IgnoreBuyingExpiredCandleAfter r);
        ptr "minimum_trade_amount" JInt (rm_MinimumTradeAmount r);
        ptr "targeted_trade_amount" JInt (rm_TargetedTradeAmount r);
        str "lookahead_analysis_exportfilename" (rm_LookaheadAnalysisExportFilename r);
        ptr "startup_candle" (fun l => JList (map JInt l)) (rm_StartupCandle r);
        ptr "liquidation_buffer" JFloat (rm_LiquidationBuffer r);
        ptr "backtest_breakdown" (fun l => JList (map JString l)) (rm_BacktestBreakdown r) ]
  end.

(** ** Pairlists *)

Definition applyPercentChangePairListConfig (m : PairlistConfig) : list field :=
  [ str "lookback_timeframe" (pm_LookbackTimeframe m); ptr "lookback_period" JInt (pm_LookbackPeriod m);
    ptr "lookback_days" JInt (pm_LookbackDays m); ptr "min_change_rate" JFloat (pm_MinChangeRate m) ].

Definition applyRemotePairListConfig (m : PairlistConfig) : list field :=
  [ str "mode" (pm_Mode m); str "processing_mode" (pm_ProcessingMode m);
    str "pairlist_url" (pm_PairlistURL m); ptr "keep_pairlist_on_failure" JBool (pm_KeepPairlistOnFailure m);
    ptr "read_timeout" JInt (pm_ReadTimeout m); str "bearer_token" (pm_BearerToken m);
    str "save_to_file" (pm_SaveToFile m) ].

Definition applyRangeStabilityFilterConfig (m : PairlistConfig) : list field :=
  [ ptr "lookback_days" JInt (pm_LookbackDaysRange m); ptr "min_rate_of_change" JFloat (pm_MinRateOfChange m);
    ptr "max_rate_of_change" JFloat (pm_MaxRateOfChange m) ].

Definition applyVolatilityFilterConfig (m : PairlistConfig) : list field :=
  [ ptr "lookback_days" JInt (pm_LookbackDaysVolatility m); ptr "min_volatility" JFloat (pm_MinVolatility m);
    ptr "max_volatility" JFloat (pm_MaxVolatility m) ].

(** The options specific to [method.Method], the switch of
    applyPairlistMethodSpecificConfig. *)
Definition applyPairlistMethodSpecificConfig (m : PairlistConfig) : list field :=
  let when name := (pm_Method m =? name)%string in
  if when StaticPairList then [ ("allow_inactive", Some (JBool (pm_AllowInactive m))) ]
  else if when VolumePairList then [ str "sort_key" (pm_SortKey m) ]
  else if when PercentChangePairList then applyPercentChangePairListConfig m
  else if when ProducerPairList then [ str "producer_name" (pm_ProducerName m) ]
  else if when RemotePairList then applyRemotePairListConfig m
  else if when MarketCapPairList then
    [ ptr "max_rank" JInt (pm_MaxRank m); strs "categories" (pm_Categories m) ]
  else if when AgeFilter then
    [ ptr "min_days_listed" JInt (pm_MinDaysListed m); ptr "max_days_listed" JInt (pm_MaxDaysListed m) ]
  else if when PriceFilter then
    [ ptr "min_price" JFloat (pm_MinPrice m); ptr "max_price" JFloat (pm_MaxPrice m) ]
  else if when SpreadFilter then [ ptr "max_spread_ratio" JFloat (pm_MaxSpreadRatio m) ]
  else if when RangeStabilityFilter then applyRangeStabilityFilterConfig m
  else if when VolatilityFilter then applyVolatilityFilterConfig m
  else if when OffsetFilter then [ ptr "offset" JInt (pm_Offset m) ]
  else if when ShuffleFilter then
    [ str "shuffle_frequency" (pm_ShuffleFrequency m); ptr "seed" JInt (pm_Seed m) ]
  else if when PerformanceFilter then
    [ ptr "minutes" JInt (pm_Minutes m); ptr "min_profit" JFloat (pm_MinProfit m) ]
  else [].

Definition pairlist_method (m : PairlistConfig) : cfg :=
  obj ([ ("method", Some (JString (pm_Method m))); ptr "number_assets" JInt (pm_NumberAssets m);
         ptr "refresh_period" JInt (pm_RefreshPeriod m) ] ++ applyPairlistMethodSpecificConfig m).

Definition BuildPairlistMethodsConfig (pairlistMethods : option PairlistMethodsSpec) : cfg :=
  match pairlistMethods with
  | None => ∅
  | Some ms => {[ "pairlists" := JList (map (fun m => json_of_map (pairlist_method m)) (pms_Methods ms)) ]}
  end.

(** ** Exchange *)

(** Secret data: [None] is a nil map (no Secret referenced). *)
Definition SecretData : Type := option (gmap string string).
Definition secret_key (d : SecretData) (k : string) : option string :=
  match d with Some m => m !! k | None => None end.

(** The plaintext fields, then what the Secret supplies. *)
Definition applyExchangeCredentials (e : ExchangeSpec) (secretData : SecretData) : list field :=
  [ str "key" (ex_Key e); str "secret" (ex_Secret e); str "password" (ex_Password e); str "uid" (ex_UID e);
    str "account_id" (ex_AccountID e); str "wallet_address" (ex_WalletAddress e);
    str "private_key" (ex_PrivateKey e) ]
  ++ (if (ex_SecretRef e =? "")%string then [] else
      match secretData with
      | None => []
      | Some _ =>
        [ ptr "key" JString (secret_key secretData "api-key");
          ptr "secret" JString (secret_key secretData "secret");
          ptr "password" JString (secret_key secretData "password");
          ptr "uid" JString (secret_key secretData "uid");
          ptr "account_id" JString (secret_key secretData "account_id");
          ptr "wallet_address" JString (secret_key secretData "wallet_address");
          ptr "private_key" JString (secret_key secretData "private_key") ]
      end).

Section Builders.
Context `{GoLib}.

(** Raw JSON of the spec; a syntax error leaves the interface nil. *)
Definition raw_json (k raw : string) : field :=
  (k, if nonempty raw then Some (default JNull (json_Unmarshal raw)) else None).

Definition pairs_field (k : string) (l : option PairListSpec) : field :=
  (k, match l with Some p => (fun ps => JList (map JString ps)) <$> pl_Pairs p | None => None end).

Definition exchange_fields (e : ExchangeSpec) (secretData : SecretData) : list field :=
  [ str "name" (ex_Name e) ]
  ++ applyExchangeCredentials e secretData
  ++ [ ptr "log_responses" JBool (ex_LogResponses e);
       ptr "enable_ws" JBool (ex_EnableWS e);
       ptr "unknown_fee_rate" JBool (ex_UnkownFeeRate e);
       ptr "outdated_offset" JInt (ex_OutdatedOffset e);
       ptr "markets_refresh_interval" JInt (ex_MarketRefreshInterval e);
       raw_json "ccxt_config" (ex_CcxtConfig e);
       raw_json "ccxt_async_config" (ex_CcxtAsyncConfig e);
       raw_json "ccxt_sync_config" (ex_CcxtSyncConfig e);
       pairs_field "pair_whitelist" (ex_Whitelist e);
       pairs_field "pair_blacklist" (ex_Blacklist e) ].

Definition BuildExchangeConfig (exchange : option ExchangeSpec) (secretData : SecretData)
    : result (option cfg) :=
  match exchange with
  | None => Ok None
  | Some e => Ok (Some (obj (exchange_fields e secretData)))
  end.

(** ** Notifications *)

Definition buildTelegramSettingsConfig (s : NotificationTelegramSettings) : cfg := obj
  [ str "status" (nts_Status s); str "warning" (nts_Warning s); str "startup" (nts_Startup s);
    str "entry" (nts_Entry s); str "entry_fill" (nts_EntryFill s); str "entry_cancel" (nts_EntryCancel s);
    str "exit" (nts_Exit s); str "exit_fill" (nts_ExitFill s); str "exit_cancel" (nts_ExitCancel s);
    str "protection_trigger" (nts_ProtectionTrigger s);
    str "protection_trigger_global" (nts_ProtectionTriggerGlobal s) ].

Definition telegram_fields (t : NotificationTelegram) (secretData : SecretData) : list field :=
  [ ptr "enabled" JBool (nt_Enabled t) ]
  ++ (if nonempty (nt_SecretRef t)
      then [ ptr "token" JString (secret_key secretData "token");
             ptr "chat_id" JString (secret_key secretData "chat-id") ]
      else [ str "token" (nt_Token t); str "chat_id" (nt_ChatID t) ])
  ++ [ ptr "balance_dust_level" JFloat (nt_BalanceDustLevel t);
       ptr "reload" JBool (nt_Reload t);
       ptr "allow_custom_messages" JBool (nt_AllowCustomMessages t);
       str "topic_id" (nt_TopicID t);
       strs "authorized_users" (nt_AuthorizedUsers t);
       ptr "notification_settings" (fun s => json_of_map (buildTelegramSettingsConfig s)) (nt_Settings t) ].

Definition buildTelegramConfig (t : NotificationTelegram) (secretData : SecretData) : cfg :=
  obj (telegram_fields t secretData).

Definition buildWebhookConfig (w : NotificationWebhook) : cfg := obj
  [ ("enabled", Some (JBool true)); ("url", Some (JString (nw_URL w)));
    str "webhookentry" (nw_Entry w); str "webhookentrycancel" (nw_EntryCancel w);
    str "webhookentryfill" (nw_EntryFill w); str "webhookexit" (nw_Exit w);
    str "webhookexitcancel" (nw_ExitCancel w); str "webhookexitfill" (nw_ExitFill w);
    str "webhookstatus" (nw_Status w) ].

Definition json_of_templates (l : list (gmap string string)) : json :=
  JList (map (fun m => json_of_map (JString <$> m)) l).

Definition buildDiscordConfig (d : NotificationDiscord) : cfg := obj
  [ ptr "enabled" JBool (nd_Enabled d); str "webhook_url" (nd_WebhookURL d);
    ("entry_fill", match nd_EntryFill d with [] => None | l => Some (json_of_templates l) end);
    ("exit_fill", match nd_ExitFill d with [] => None | l => Some (json_of_templates l) end) ].

Definition BuildNotificationConfig (notification : option NotificationSpec) (secretData : SecretData)
    : result cfg :=
  match notification with
  | None => Ok ∅
  | Some n => Ok (obj
      [ ptr "telegram" (fun t => json_of_map (buildTelegramConfig t secretData)) (no_Telegram n);
        ("webhook", match no_Webhook n with
                    | Some w => if is_true_ptr (nw_Enabled w) then Some (json_of_map (buildWebhookConfig w)) else None
                    | None => None
                    end);
        ptr "discord" (fun d => json_of_map (buildDiscordConfig d)) (no_Discord n) ])
  end.

(** ** The bot-level sections *)

(** A number or "unlimited" as freqtrade's schema wants it. *)
Definition renderStakeAmount (raw : string) : json :=
  if (raw =? "unlimited")%string then JString raw
  else match ParseFloat raw with Some f => JFloat f | None => JString raw end.

Definition buildBotConfigFields (bot : BotConfig) (tradeBotName : string) : cfg := obj
  [ ("bot_name", Some (JString (if (bc_BotName bot =? "")%string then tradeBotName else bc_BotName bot)));
    str "trading_mode" (bc_TradingMode bot);
    ptr "dry_run" JBool (bc_DryRun bot);
    ptr "dry_run_wallet" JFloat (bc_DryRunWallet bot);
    str "stake_currency" (bc_StakeCurrency bot);
    ("stake_amount", if nonempty (bc_StakeAmount bot) then Some (renderStakeAmount (bc_StakeAmount bot)) else None);
    ptr "max_open_trades" JInt (bc_MaxOpenTrades bot);
    str "fiat_display_currency" (bc_FiatDisplayCurrency bot);
    str "db_url" (bc_DBUrl bot);
    str "export" (bc_Export bot);
    ptr "disableparamexport" JBool (bc_DisableParamExport bot);
    ptr "disable_dataframe_checks" JBool (bc_DisableDataframeChecks bot) ].

Definition buildSVMParamsConfig (svm : SVMParams) : cfg :=
  obj [ ptr "shuffle" JBool (svm_Shuffle svm); ptr "nu" JFloat (svm_Nu svm) ].

Definition buildFeatureParametersConfig (fp : FeatureParameters) : cfg := obj
  [ strs "include_corr_pairlist" (fpar_IncludeCorrPairlist fp);
    strs "include_timeframes" (fpar_IncludeTimeframes fp);
    ptr "label_period_candles" JInt (fpar_LabelPeriodCandles fp);
    ptr "include_shifted_candles" JInt (fpar_IncludeShiftedCandles fp);
    ptr "DI_threshold" JFloat (fpar_DIThreshold fp);
    ptr "weight_factor" JFloat (fpar_WeightFactor fp);
    ptr "principal_component_analysis" JBool (fpar_PrincipalComponentAnalysis fp);
    ints "indicator_periods_candles" (fpar_IndicatorPeriodsCandles fp);
    ptr "use_SVM_to_remove_outliers" JBool (fpar_UseSVMToRemoveOutliers fp);
    ptr "plot_feature_importances" JInt (fpar_PlotFeatureImportances fp);
    ptr "svm_params" (fun s => json_of_map (buildSVMParamsConfig s)) (fpar_SVMParams fp);
    ptr "shuffle_after_split" JBool (fpar_ShuffleAfterSplit fp);
    ptr "buffer_train_data_candles" JInt (fpar_BufferTrainDataCandles fp) ].

Definition buildDataSplitParametersConfig (dsp : DataSplitParameters) : cfg := obj
  [ ptr "test_size" JFloat (dsp_TestSize dsp); ptr "random_state" JInt (dsp_RandomState dsp);
    ptr "shuffle" JBool (dsp_Shuffle dsp) ].

Definition buildModelRewardParametersConfig (mrp : ModelRewardParameters) : cfg :=
  obj [ ptr "rr" JFloat (mrp_RR mrp); ptr "profit_aim" JFloat (mrp_ProfitAim mrp) ].

Definition buildRLConfigMap (rl : RLConfig) : cfg := obj
  [ ptr "drop_ohlc_from_features" JBool (rl_DropOHLCFromFeatures rl);
    ptr "train_cycles" JInt (rl_TrainCycles rl);
    ptr "max_trade_duration_candles" JInt (rl_MaxTradeDurationCandles rl);
    ptr "add_state_info" JBool (rl_AddStateInfo rl);
    ptr "max_training_drawdown_pct" JFloat (rl_MaxTrainingDrawdownPct rl);
    ptr "cpu_count" JInt (rl_CPUCount rl);
    str "model_type" (rl_ModelType rl);
    str "policy_type" (rl_PolicyType rl);
    ints "net_arch" (rl_NetArch rl);
    ptr "randomize_starting_position" JBool (rl_RandomizeStartingPosition rl);
    ptr "progress_bar" JBool (rl_ProgressBar rl);
    ptr "model_reward_parameters" (fun m => json_of_map (buildModelRewardParametersConfig m))
      (rl_ModelRewardParameters rl) ].

Definition buildFreqAIConfig (ai : AIConfig) : cfg := obj
  [ ptr "enabled" JBool (ai_Enabled ai);
    str "identifier" (ai_Identifier ai);
    ptr "write_metrics_to_disk" JBool (ai_WriteMetricsToDisk ai);
    ptr "purge_old_models" JInt (ai_PurgeOldModels ai);
    ptr "conv_width" JInt (ai_ConvWidth ai);
    ptr "train_period_days" JInt (ai_TrainPeriodDays ai);
    ptr "backtest_period_days" JInt (ai_BacktestPeriodDays ai);
    ptr "live_retrain_hours" JInt (ai_LiveRetrainHours ai);
    ptr "expiration_hours" JInt (ai_ExpirationHours ai);
    ptr "save_backtest_models" JBool (ai_SaveBacktestModels ai);
    ptr "fit_live_predictions_candles" JInt (ai_FitLivePredictionsCandles ai);
    ptr "data_kitchen_thread_count" JInt (ai_DataKitchenThreadCount ai);
    ptr "activate_tensorboard" JBool (ai_ActivateTensorboard ai);
    ptr "wait_for_training_iteration_on_reload" JBool (ai_WaitForTrainingIterationOnReload ai);
    ptr "continual_learning" JBool (ai_ContinueLearning ai);
    ptr "keras" JBool (ai_Keras ai);
    ptr "feature_parameters" (fun f => json_of_map (buildFeatureParametersConfig f)) (ai_FeatureParameters ai);
    ptr "data_split_parameters" (fun d => json_of_map (buildDataSplitParametersConfig d)) (ai_DataSplitParameters ai);
    ptr "model_training_parameters" (fun _ => JObj []) (ai_ModelTrainingParameters ai);
    ptr "rl_config" (fun r => json_of_map (buildRLConfigMap r)) (ai_RLConfig ai) ].

Definition buildDataConfigFields (data : DataConfig) : cfg := obj
  [ str "dataformat_ohlcv" (dc_DataformatOHLCV data);
    str "dataformat_trades" (dc_DataformatTrades data);
    str "position_adjustment" (dc_PositionAdjustment data);
    ptr "new_pairs_days" JInt (dc_NewPairsDaysAgo data);
    ptr "download_trades" JBool (dc_DownloadTrades data);
    ptr "max_entry_position_adjustment" JFloat (dc_MaxEntryPositionAdjustment data);
    ptr "available_capital" JFloat (dc_AvailableCapital data);
    ptr "amend_last_stake_amount" JBool (dc_AmendLastStakeAmount data);
    ptr "last_stake_amount_min_ratio" JFloat (dc_LastStakeAmountMinRatio data);
    ptr "process_only_new_candles" JBool (dc_ProcessOnlyNewCandles data);
    ptr "amount_reserve_percent" JFloat (dc_AmountReservePercent data);
    ptr "reduce_df_footprint" JBool (dc_ReduceDfFootprint data);
    ptr "custom_price_max_distance_ratio" JFloat (dc_CustomPriceMaxDistanceRatio data) ].

Definition buildAdvancedConfigFields (adv : AdvancedConfig) : cfg := obj
  [ ptr "tradable_balance_ratio" JFloat (adv_TradableBalanceRatio adv);
    flag "cancel_open_orders_on_exit" (is_true_ptr (adv_CancelOpenOrdersOnExit adv));
    str "margin_mode" (adv_MarginMode adv);
    str "initial_state" (adv_InitialState adv);
    ptr "force_entry_enable" JBool (adv_ForceEntryEnable adv) ].

Definition buildUnfilledTimeoutConfig (timeout : UnfilledTimeoutConfig) : cfg := obj
  [ ptr "entry" JInt (uto_Entry timeout); ptr "exit" JInt (uto_Exit timeout);
    ptr "exit_timeout_count" JInt (uto_ExitTimeoutCount timeout); str "unit" (uto_Unit timeout) ].

Definition buildInternalsConfigFields (internals : InternalsConfig) : cfg := obj
  [ ptr "process_throttle_secs" JInt (int_ProcessThrottleSecs internals);
    ptr "interval" JInt (int_Interval internals); ptr "sd_notify" JBool (int_SdNotify internals) ].

(** ** The API server *)

(** The origins of the spec, then those FreqUIs contribute, without
    repeating one. *)
Definition cors_origins (apiServer : APIServerConfig) (extraCorsHosts : list string) : list string :=
  foldl append_new (api_CORSOrigins apiServer) extraCorsHosts.

Definition api_server_fields (apiServer : APIServerConfig) (apiCredentials : SecretData)
    (jwtSecretKey : string) (extraCorsHosts : list string) : list field :=
  [ ptr "enabled" JBool (api_Enabled apiServer);
    str "listen_ip_address" (api_ListenIP apiServer);
    ptr "listen_port" JInt (api_ListenPort apiServer);
    str "verbosity" (api_Verbosity apiServer);
    ptr "enable_openapi" JBool (api_EnableOpenAPI apiServer);
    str "username" (api_Username apiServer);
    str "password" (api_Password apiServer);
    ptr "username" JString (secret_key apiCredentials "user");
    ptr "password" JString (secret_key apiCredentials "password");
    str "jwt_secret_key" jwtSecretKey;
    strs "CORS_origins" (cors_origins apiServer extraCorsHosts) ].

Definition buildAPIServerConfig (apiServer : APIServerConfig) (apiCredentials : SecretData)
    (jwtSecretKey : string) (extraCorsHosts : list string) : cfg :=
  obj (api_server_fields apiServer apiCredentials jwtSecretKey extraCorsHosts).

(** [if section != nil { for k, v := range build(section) { cfg[k] = v } }] *)
Definition merge_section {A} (build : A → cfg) (section : option A) (c : cfg) : cfg :=
  match section with Some a => merge_into c (build a) | None => c end.

Definition BuildTradeBotConfig (tradeBotName : string) (tradeBotConfig : TradeBotConfig)
    (apiCredentials : SecretData) (jwtSecretKey : string) (extraCorsHosts : list string) : result cfg :=
  let spec := Spec tradeBotConfig in
  let c := merge_section (fun b => buildBotConfigFields b tradeBotName) (tc_Bot spec) ∅ in
  let c := assign c (ptr "freqai" (fun ai => json_of_map (buildFreqAIConfig ai)) (tc_AI spec)) in
  let c := merge_section buildDataConfigFields (tc_Data spec) c in
  let c := merge_section buildAdvancedConfigFields (tc_Advanced spec) c in
  let nonempty_obj (m : cfg) := if decide (m = ∅) then None else Some (json_of_map m) in
  let c := assign c ("unfilledtimeout", (buildUnfilledTimeoutConfig <$> tc_Timeout spec) ≫= nonempty_obj) in
  let c := assign c ("internals", (buildInternalsConfigFields <$> tc_Internals spec) ≫= nonempty_obj) in
  let c := assign c (ptr "api_server"
                       (fun a => json_of_map (buildAPIServerConfig a apiCredentials jwtSecretKey extraCorsHosts))
                       (tc_APIServer spec)) in
  let c := assign c ("experimental",
             match tc_Experimental spec with
             | Some e => (fun b => JObj [("block_bad_exchanges", JBool b)]) <$> exp_BlockBadExchanges e
             | None => None
             end) in
  let c := assign c ("logging",
             match tc_Logging spec with
             | Some l => (fun v => JObj [("version", JInt v)]) <$> log_Version l
             | None => None
             end) in
  Ok c.

(** ** Secrets *)

Definition GetSecretData (ns name : string) : Op (result SecretData) :=
  if (name =? "")%string then mret (Ok None)
  else
    secret ← trigger (Get KSecret {| nn_Namespace := ns; nn_Name := name |});
    mret match secret with
         | Err e => Err (Wrap ("failed to get secret " ^^ ns ^^ "/" ^^ name) e)
         | Ok s => Ok (Some (secret_Data s))
         end.

(** ** The JWT key *)

Definition minAPIServerJWTSecretKeyLength : nat := 32.

(** json.Unmarshal into a struct field: the last member whose name is the
    tag's up to letter case. *)
Definition json_field (j : json) (tag : string) : option json :=
  match j with
  | JObj m => snd <$> List.find (fun kv => (ToLower kv.1 =? ToLower tag)%string) (rev m)
  | _ => None
  end.

(** json.Unmarshal into
    [struct{ APIServer struct{ JWTSecretKey string `jwt_secret_key` } `api_server` }]:
    a type mismatch is an error, null leaves the zero value. *)
Definition decode_existing (j : json) : option string :=
  match j with
  | JObj _ =>
      match json_field j "api_server" with
      | None | Some JNull => Some ""
      | Some (JObj m) =>
          match json_field (JObj m) "jwt_secret_key" with
          | None | Some JNull => Some ""
          | Some (JString s) => Some s
          | Some _ => None
          end
      | Some _ => None
      end
  | JNull => Some ""
  | _ => None
  end.

Definition existingAPIServerJWTSecretKey (name ns : string) : Op (result string) :=
  let secretKey := {| nn_Namespace := ns; nn_Name := name ^^ "-config" |} in
  secret ← trigger (Get KSecret secretKey);
  mret match secret with
       | Err e =>
           if IsNotFound e then Ok ""
           else Err (Wrap ("failed to get existing config secret " ^^ nn_String secretKey) e)
       | Ok s => Ok (default "" (json_Unmarshal (default "" (secret_Data s !! "config.json")) ≫= decode_existing : option string))
       end.

(** hex.EncodeToString *)
Definition hex_byte (b : Byte.byte) : string :=
  let n := N.to_nat (Byte.to_N b) in String (hex_digit (n / 16)) (String (hex_digit (n mod 16)) EmptyString).
Definition hex_EncodeToString (l : list Byte.byte) : string := String.concat "" (map hex_byte l).

Definition generateAPIServerJWTSecretKey : Op (result string) :=
  b ← trigger (RandRead 32);
  mret match b with
       | Err e => Err (Wrap "failed to generate a JWT secret key" e)
       | Ok l => Ok (hex_EncodeToString l)
       end.

(** The key given by the user: the Secret's when it supplies one, else the
    plaintext field. *)
Definition user_jwt_key (apiServer : APIServerConfig) (apiCredentials : SecretData) : string :=
  match secret_key apiCredentials "jwt_secret_key" with
  | Some k => if nonempty k then k else api_JWTSecretKey apiServer
  | None => api_JWTSecretKey apiServer
  end.

Definition resolveAPIServerJWTSecretKey (name ns : string) (tradeBotConfig : TradeBotConfig)
    (apiCredentials : SecretData) : Op (result string) :=
  match tc_APIServer (Spec tradeBotConfig) with
  | None => mret (Ok "")
  | Some apiServer =>
      if negb (is_true_ptr (api_Enabled apiServer)) then mret (Ok "")
      else
        let key := user_jwt_key apiServer apiCredentials in
        if nonempty key then
          if (String.length key <? minAPIServerJWTSecretKeyLength)%nat then
            mret (Err (Errorf ("api_server.jwt_secret_key is " ^^ Itoa (Z.of_nat (String.length key))
              ^^ " characters, shorter than the required minimum of "
              ^^ Itoa (Z.of_nat minAPIServerJWTSecretKeyLength))))
          else mret (Ok key)
        else
          existing <-? existingAPIServerJWTSecretKey name ns;
          if nonempty existing then mret (Ok existing) else generateAPIServerJWTSecretKey
  end.

(** ** The whole config *)

Definition ErrMissingExchange : error := Errorf "tradeBotConfig.spec.exchange is required".

Definition section (k : string) (s : option cfg) : field := (k, json_of_map <$> s).

(** The sections merged over the bot-level configuration, in source order. *)
Definition merge_sections (spec : TradeBotConfigSpec) (botConfig : cfg) (exchangeConfig : option cfg)
    (notificationConfig : cfg) : cfg :=
  let c := merge_into ∅ botConfig in
  let c := assign c (section "exchange" exchangeConfig) in
  let c := merge_into c (BuildPairlistMethodsConfig (tc_PairlistMethod spec)) in
  let c := assign c (section "entry_pricing" (BuildPricingConfig (tc_EntryPricing spec))) in
  let c := assign c (section "exit_pricing" (BuildPricingConfig (tc_ExitPricing spec))) in
  let c := assign c (section "order_types" (BuildOrderTypesConfig (tc_Order spec))) in
  let c := assign c (section "order_time_in_force" (BuildOrderTimeInForceConfig (tc_Order spec))) in
  let c := assign c (section "orderflow" (BuildOrderflowConfig (tc_Order spec))) in
  let c := merge_into c (BuildRiskManagementConfig (tc_RiskManagement spec)) in
  merge_into c notificationConfig.

Definition apiServerSecretRef (spec : TradeBotConfigSpec) : string :=
  match tc_APIServer spec with Some a => api_SecretRef a | None => "" end.

Definition notification_secret (ns : string) (spec : TradeBotConfigSpec) : Op (result SecretData) :=
  match tc_Notification spec with
  | Some n =>
      match no_Telegram n with
      | Some t => wrapping "failed to get notification secret data" (GetSecretData ns (nt_SecretRef t))
      | None => mret (Ok None)
      end
  | None => mret (Ok None)
  end.

(** The result is the Secret's StringData, one file. *)
Definition BuildConfig (name ns : string) (tradeBotConfig : TradeBotConfig) (extraCorsHosts : list string)
    : Op (result (gmap string string)) :=
  let spec := Spec tradeBotConfig in
  match tc_Exchange spec with
  | None => mret (Err ErrMissingExchange)
  | Some exchange =>
      apiCredentials <-? wrapping "failed to get API credentials" (GetSecretData ns (apiServerSecretRef spec));
      jwtSecretKey <-? wrapping "failed to resolve API server JWT secret key"
                         (resolveAPIServerJWTSecretKey name ns tradeBotConfig apiCredentials);
      botConfig <-? mret (wrap_err "failed to build TradeBot config"
                      (BuildTradeBotConfig name tradeBotConfig apiCredentials jwtSecretKey extraCorsHosts));
      exchangeSecretData <-? wrapping "failed to get exchange secret data"
                               (GetSecretData ns (ex_SecretRef exchange));
      exchangeConfig <-? mret (wrap_err "failed to build Exchange config"
                                 (BuildExchangeConfig (Some exchange) exchangeSecretData));
      notificationSecretData <-? notification_secret ns spec;
      notificationConfig <-? mret (wrap_err "failed to build Notification config"
                               (BuildNotificationConfig (tc_Notification spec) notificationSecretData));
      let config := merge_sections spec botConfig exchangeConfig notificationConfig in
      mret match MarshalIndent (json_of_map config) with
           | Err e => Err (Wrap "failed to marshal config to JSON" e)
           | Ok text => Ok {[ "config.json" := text ]}
           end
  end.
End Builders.

(** ** Which keys a builder can write *)

Definition keys_in (c : cfg) (ks : list string) : Prop := ∀ k v, c !! k = Some v → k ∈ ks.

Section Keys.
Lemma keys_in_obj fs : keys_in (obj fs) (map fst fs).
Proof.
  intros k v Hk. destruct (decide (k ∈ map fst fs)); [done|]. by rewrite obj_lookup_None in Hk.
Qed.

Lemma keys_in_empty ks : keys_in ∅ ks.
Proof. intros k v Hk. by rewrite lookup_empty in Hk. Qed.

Lemma keys_in_mono c ks ks' : keys_in c ks → (∀ k, k ∈ ks → k ∈ ks') → keys_in c ks'.
Proof. intros Hc Hs k v Hk. eauto. Qed.

Lemma keys_in_assign c f ks : keys_in c ks → keys_in (assign c f) (ks ++ [f.1]).
Proof.
  intros Hc k v Hk. unfold assign in Hk. destruct f as [k' [v'|]]; cbn in *.
  - destruct (decide (k = k')) as [->|Hne]; [set_solver|].
    rewrite lookup_insert_ne in Hk by done. apply Hc in Hk. set_solver.
  - apply Hc in Hk. set_solver.
Qed.

Lemma keys_in_merge c m ks ks' : keys_in c ks → keys_in m ks' → keys_in (merge_into c m) (ks ++ ks').
Proof.
  intros Hc Hm k v [Hk|[_ Hk]]%lookup_union_Some_raw; [apply Hm in Hk|apply Hc in Hk]; set_solver.
Qed.

Lemma keys_in_section {A} (build : A → cfg) ks' o c ks :
  keys_in c ks → (∀ a, keys_in (build a) ks') → keys_in (merge_section build o c) (ks ++ ks').
Proof.
  intros Hc Hb. destruct o; [by apply keys_in_merge|]. eapply keys_in_mono; [done|set_solver].
Qed.

(** Lookups through an assignment or a merge that concerns other keys. *)
Lemma assign_ne c f k : f.1 ≠ k → assign c f !! k = c !! k.
Proof. intros Hne. unfold assign. destruct f as [k' [v|]]; cbn in *; [by apply lookup_insert_ne|done]. Qed.

Lemma assign_eq c k v : c !! k = None → assign c (k, v) !! k = v.
Proof. intros Hc. unfold assign; cbn. destruct v; [apply lookup_insert_eq|done]. Qed.

Lemma merge_notin c m ks k : keys_in m ks → k ∉ ks → merge_into c m !! k = c !! k.
Proof.
  intros Hm Hk. unfold merge_into. rewrite lookup_union_r; [done|].
  destruct (m !! k) eqn:E; [|done]. by apply Hm in E.
Qed.

Lemma merge_left c m ks k : keys_in c ks → k ∉ ks → merge_into c m !! k = m !! k.
Proof.
  intros Hc Hk. unfold merge_into. destruct (c !! k) eqn:E; [by apply Hc in E|].
  destruct (m !! k) eqn:E'; [by apply lookup_union_Some_l|]. by apply lookup_union_None.
Qed.

Lemma merge_none c m k : c !! k = None → merge_into c m !! k = m !! k.
Proof.
  intros Hc. unfold merge_into. destruct (m !! k) eqn:E'; [by apply lookup_union_Some_l|].
  by apply lookup_union_None.
Qed.

Lemma keys_in_notin c ks k : keys_in c ks → k ∉ ks → c !! k = None.
Proof. intros Hc Hk. destruct (c !! k) eqn:E; [by apply Hc in E|done]. Qed.
End Keys.

(** Inclusion and disjointness of lists of literal keys, by computation. *)
Definition keys_subset (l l' : list string) : bool := forallb (fun k => existsb (String.eqb k) l') l.
Definition keys_disjoint (l l' : list string) : bool :=
  forallb (fun k => negb (existsb (String.eqb k) l')) l.

Lemma existsb_elem k l : existsb (String.eqb k) l = true ↔ k ∈ l.
Proof.
  rewrite existsb_exists, list_elem_of_In. split.
  - by intros (x & Hin & ->%String.eqb_eq).
  - intros Hin. exists k. by rewrite String.eqb_refl.
Qed.

Lemma keys_subset_spec l l' : keys_subset l l' = true → ∀ k, k ∈ l → k ∈ l'.
Proof. intros Hs k Hk%list_elem_of_In. apply existsb_elem. by eapply (proj1 (forallb_forall _ _)) in Hs. Qed.

Lemma keys_disjoint_spec l l' : keys_disjoint l l' = true → ∀ k, k ∈ l → k ∉ l'.
Proof.
  intros Hs k Hk%list_elem_of_In Hk'. eapply (proj1 (forallb_forall _ _)) in Hs; [|exact Hk].
  apply negb_true_iff in Hs. apply existsb_elem in Hk'. congruence.
Qed.

Definition bot_keys : list string :=
  ["bot_name"; "trading_mode"; "dry_run"; "dry_run_wallet"; "stake_currency"; "stake_amount"; "max_open_trades";
   "fiat_display_currency"; "db_url"; "export"; "disableparamexport"; "disable_dataframe_checks"].
Definition data_keys : list string :=
  ["dataformat_ohlcv"; "dataformat_trades"; "position_adjustment"; "new_pairs_days"; "download_trades";
   "max_entry_position_adjustment"; "available_capital"; "amend_last_stake_amount"; "last_stake_amount_min_ratio";
   "process_only_new_candles"; "amount_reserve_percent"; "reduce_df_footprint"; "custom_price_max_distance_ratio"].
Definition advanced_keys : list string :=
  ["tradable_balance_ratio"; "cancel_open_orders_on_exit"; "margin_mode"; "initial_state"; "force_entry_enable"].
Definition bot_level_keys : list string :=
  bot_keys ++ ["freqai"] ++ data_keys ++ advanced_keys
  ++ ["unfilledtimeout"; "internals"; "api_server"; "experimental"; "logging"].

Definition risk_keys : list string :=
  ["minimal_roi"; "stoploss"; "trailing_stop"; "trailing_stop_positive"; "trailing_stop_positive_offset";
   "trailing_only_offset_is_reached"; "use_exit_signal"; "exit_profit_only"; "exit_profit_offset"; "fee";
   "ignore_roi_if_entry_signal"; "ignore_buying_expired_candle_after"; "minimum_trade_amount";
   "targeted_trade_amount"; "lookahead_analysis_exportfilename"; "startup_candle"; "liquidation_buffer";
   "backtest_breakdown"].

Definition notification_keys : list string := ["telegram"; "webhook"; "discord"].

Definition section_keys : list string :=
  ["exchange"; "pairlists"; "entry_pricing"; "exit_pricing"; "order_types"; "order_time_in_force"; "orderflow"].

Definition config_keys : list string := bot_level_keys ++ section_keys ++ risk_keys ++ notification_keys.

Section BuilderKeys.
Context `{GoLib}.

Lemma bot_fields_keys b name : keys_in (buildBotConfigFields b name) bot_keys.
Proof. apply keys_in_obj. Qed.
Lemma data_fields_keys d : keys_in (buildDataConfigFields d) data_keys.
Proof. apply keys_in_obj. Qed.
Lemma advanced_fields_keys a : keys_in (buildAdvancedConfigFields a) advanced_keys.
Proof. apply keys_in_obj. Qed.
Lemma risk_fields_keys r : keys_in (BuildRiskManagementConfig r) risk_keys.
Proof. destruct r; [apply keys_in_obj|apply keys_in_empty]. Qed.
Lemma pairlists_keys p : keys_in (BuildPairlistMethodsConfig p) ["pairlists"].
Proof.
  destruct p; [|apply keys_in_empty]. intros k v Hk. cbn in Hk.
  apply lookup_singleton_Some in Hk as [<- _]. set_solver.
Qed.

Lemma BuildTradeBotConfig_keys name c creds jwt hosts m :
  BuildTradeBotConfig name c creds jwt hosts = Ok m → keys_in m bot_level_keys.
Proof.
  unfold BuildTradeBotConfig. intros [= <-].
  eapply keys_in_mono.
  - repeat apply keys_in_assign.
    apply keys_in_section with (ks' := advanced_keys); [|apply advanced_fields_keys].
    apply keys_in_section with (ks' := data_keys); [|apply data_fields_keys].
    apply keys_in_assign.
    apply keys_in_section with (ks' := bot_keys); [|intros; apply bot_fields_keys].
    apply (keys_in_empty []).
  - apply keys_subset_spec. by vm_compute.
Qed.

Lemma BuildNotificationConfig_keys n d m :
  BuildNotificationConfig n d = Ok m → keys_in m notification_keys.
Proof. destruct n; intros [= <-]; [apply keys_in_obj|apply keys_in_empty]. Qed.

(** Every top-level key a rendered config can have. *)
Lemma merge_sections_keys spec bot ex no :
  keys_in bot bot_level_keys → keys_in no notification_keys →
  keys_in (merge_sections spec bot ex no) config_keys.
Proof.
  intros Hb Hn. unfold merge_sections. eapply keys_in_mono.
  - apply keys_in_merge; [|exact Hn]. apply keys_in_merge; [|apply risk_fields_keys].
    repeat apply keys_in_assign. apply keys_in_merge; [|apply pairlists_keys].
    apply keys_in_assign. apply keys_in_merge; [apply (keys_in_empty [])|exact Hb].
  - apply keys_subset_spec. by vm_compute.
Qed.
End BuilderKeys.

Lemma keys_notin k l : existsb (String.eqb k) l = false → k ∉ l.
Proof. intros He Hk%existsb_elem. congruence. Qed.

(** The assignments and merges that do not concern the key looked up. *)
Ltac skip_layers :=
  repeat first
    [ rewrite assign_ne by (cbn; congruence)
    | erewrite merge_notin;
      [| first [ eassumption | apply risk_fields_keys | apply pairlists_keys ]
       | first [ by apply keys_notin; vm_compute | eapply keys_disjoint_spec; [|eassumption]; by vm_compute ] ] ].

Section MergeSections.
Context `{GoLib} (spec : TradeBotConfigSpec) (bot no : cfg) (ex : option cfg).
Context (Hbot : keys_in bot bot_level_keys) (Hno : keys_in no notification_keys).

Lemma bot_layer k : merge_into ∅ bot !! k = bot !! k.
Proof using. unfold merge_into. by rewrite map_union_empty. Qed.

Lemma bot_layer_none k : existsb (String.eqb k) bot_level_keys = false → merge_into ∅ bot !! k = None.
Proof using Hbot. intros Hk. rewrite bot_layer. by eapply keys_in_notin, keys_notin. Qed.

Lemma merged_bot_level k : k ∈ bot_level_keys → merge_sections spec bot ex no !! k = bot !! k.
Proof using Hno.
  intros Hk. unfold merge_sections.
  assert (∀ f c, f.1 ∈ section_keys → assign c f !! k = c !! k) as Hs.
  { intros f c Hf. apply assign_ne. intros Heq.
    eapply (keys_disjoint_spec bot_level_keys section_keys); [by vm_compute|exact Hk|by rewrite <- Heq]. }
  assert (∀ f, existsb (String.eqb f) section_keys = true → f ∈ section_keys) as Hin.
  { intros f. apply existsb_elem. }
  erewrite merge_notin; [|exact Hno|eapply keys_disjoint_spec; [|exact Hk]; by vm_compute].
  erewrite merge_notin; [|apply risk_fields_keys|eapply keys_disjoint_spec; [|exact Hk]; by vm_compute].
  rewrite !Hs by (apply Hin; by vm_compute).
  erewrite merge_notin; [|apply pairlists_keys|eapply keys_disjoint_spec; [|exact Hk]; by vm_compute].
  rewrite Hs by (apply Hin; by vm_compute). apply bot_layer.
Qed.

Lemma merged_section k v :
  (k, v) ∈ [("exchange", json_of_map <$> ex);
            ("pairlists", BuildPairlistMethodsConfig (tc_PairlistMethod spec) !! "pairlists");
            ("entry_pricing", json_of_map <$> BuildPricingConfig (tc_EntryPricing spec));
            ("exit_pricing", json_of_map <$> BuildPricingConfig (tc_ExitPricing spec));
            ("order_types", json_of_map <$> BuildOrderTypesConfig (tc_Order spec));
            ("order_time_in_force", json_of_map <$> BuildOrderTimeInForceConfig (tc_Order spec));
            ("orderflow", json_of_map <$> BuildOrderflowConfig (tc_Order spec))] →
  merge_sections spec bot ex no !! k = v.
Proof using Hbot Hno.
  rewrite !elem_of_cons. unfold merge_sections, section.
  intros [[= -> ->]|[[= -> ->]|[[= -> ->]|[[= -> ->]|[[= -> ->]|[[= -> ->]|[[= -> ->]|[]%elem_of_nil]]]]]]];
    skip_layers; first [ apply assign_eq | apply merge_none ]; skip_layers; by rewrite ?lookup_empty.
Qed.

Lemma merged_risk k : k ∈ risk_keys → merge_sections spec bot ex no !! k = BuildRiskManagementConfig (tc_RiskManagement spec) !! k.
Proof using Hbot Hno.
  intros Hk. unfold merge_sections.
  erewrite merge_notin; [|exact Hno|eapply keys_disjoint_spec; [|exact Hk]; by vm_compute].
  eapply merge_left.
  - repeat apply keys_in_assign. apply keys_in_merge; [|apply pairlists_keys].
    apply keys_in_assign, keys_in_merge; [apply (keys_in_empty [])|exact Hbot].
  - eapply keys_disjoint_spec; [|exact Hk]. by vm_compute.
Qed.

Lemma merged_notification k : k ∈ notification_keys → merge_sections spec bot ex no !! k = no !! k.
Proof using Hbot.
  intros Hk. unfold merge_sections. eapply merge_left.
  - apply keys_in_merge; [|apply risk_fields_keys]. repeat apply keys_in_assign.
    apply keys_in_merge; [|apply pairlists_keys].
    apply keys_in_assign, keys_in_merge; [apply (keys_in_empty [])|exact Hbot].
  - eapply keys_disjoint_spec; [|exact Hk]. by vm_compute.
Qed.
End MergeSections.

(** ** Reading the JWT key back from a rendered config *)

(** No other key of the list folds to the tag. *)
Definition fold_unique (tag : string) (ks : list string) : bool :=
  forallb (fun k => implb (ToLower k =? ToLower tag)%string (k =? tag)%string) ks.

Section ReadBack.
Context `{GoLib}.

Lemma json_field_of_map m tag ks :
  keys_in m ks → fold_unique tag ks = true → json_field (json_of_map m) tag = m !! tag.
Proof.
  intros Hks Hu. rewrite <- json_member_of_map. unfold json_field, json_member, json_of_map.
  assert (∀ kv, kv ∈ rev (sorted_entries m) → (ToLower kv.1 =? ToLower tag)%string = (kv.1 =? tag)%string) as Hf.
  { intros [k v] Hin%list_elem_of_In%in_rev%list_elem_of_In%elem_of_sorted_entries; cbn.
    apply Hks, list_elem_of_In in Hin. eapply (proj1 (forallb_forall _ _) Hu) in Hin.
    destruct (String.eqb_spec k tag) as [->|Hne]; [by rewrite String.eqb_refl|].
    by destruct (ToLower k =? ToLower tag)%string. }
  induction (rev (sorted_entries m)) as [|kv l IH]; [done|]. cbn.
  rewrite Hf by set_solver. destruct (kv.1 =? tag)%string; [done|]. apply IH. set_solver.
Qed.

Lemma json_field_shape j tag : json_field (json_shape j) tag = json_shape <$> json_field j tag.
Proof.
  destruct j as [| | | | | |m]; try done. cbn. rewrite <- map_rev.
  induction (rev m) as [|[k v] l IH]; cbn; [done|]. by destruct (ToLower k =? ToLower tag)%string.
Qed.

(** Decoding the key does not look at numbers. *)
Lemma decode_existing_shape j : decode_existing (json_shape j) = decode_existing j.
Proof.
  destruct j as [| | | | | |m]; try done. unfold decode_existing.
  change (json_shape (JObj m)) with (JObj (map (fun kv => (kv.1, json_shape kv.2)) m)) at 1.
  cbv beta iota. change (JObj (map _ m)) with (json_shape (JObj m)). rewrite json_field_shape.
  destruct (json_field (JObj m) "api_server") as [[| | | | | |m']|]; try done.
  cbn [fmap option_fmap option_map json_shape].
  change (JObj (map _ m')) with (json_shape (JObj m')). rewrite json_field_shape.
  by destruct (json_field (JObj m') "jwt_secret_key") as [[]|].
Qed.

Lemma buildAPIServerConfig_jwt a creds jwt hosts :
  jwt ≠ "" → buildAPIServerConfig a creds jwt hosts !! "jwt_secret_key" = Some (JString jwt).
Proof.
  intros Hj. unfold buildAPIServerConfig. rewrite obj_lookup. unfold assigned, api_server_fields. cbn.
  by rewrite (proj2 (nonempty_spec jwt) Hj).
Qed.

Lemma BuildTradeBotConfig_api_server name c creds jwt hosts a m :
  tc_APIServer (Spec c) = Some a → BuildTradeBotConfig name c creds jwt hosts = Ok m →
  m !! "api_server" = Some (json_of_map (buildAPIServerConfig a creds jwt hosts)).
Proof.
  intros Ha. unfold BuildTradeBotConfig. rewrite Ha. intros [= <-]. rewrite !assign_ne by (cbn; congruence).
  unfold assign, ptr; cbn. apply lookup_insert_eq.
Qed.

(** Fields are found in the text as in the tree, the keys being ASCII. *)
Lemma json_field_coerce m tag ks :
  keys_in m ks → forallb (fun k => (coerce_utf8 k =? k)%string) ks = true →
  json_field (json_coerce (json_of_map m)) tag = json_coerce <$> json_field (json_of_map m) tag.
Proof.
  intros Hks Ht. unfold json_of_map. cbn. rewrite <- map_rev.
  assert (∀ kv, kv ∈ rev (sorted_entries m) → coerce_utf8 kv.1 = kv.1) as Hf.
  { intros [k v] Hin%list_elem_of_In%in_rev%list_elem_of_In%elem_of_sorted_entries; cbn.
    apply Hks, list_elem_of_In in Hin. eapply (proj1 (forallb_forall _ _) Ht) in Hin. by apply String.eqb_eq. }
  induction (rev (sorted_entries m)) as [|[k v] l IH]; cbn; [done|].
  assert (coerce_utf8 k = k) as -> by (apply (Hf (k, v)); by left).
  destruct (ToLower k =? ToLower tag)%string; [done|]. apply IH. intros kv Hin. apply Hf. by right.
Qed.

Lemma decode_rendered name c creds jwt hosts a m spec ex no :
  tc_APIServer (Spec c) = Some a → BuildTradeBotConfig name c creds jwt hosts = Ok m →
  keys_in no notification_keys → jwt ≠ "" →
  decode_existing (json_coerce (json_of_map (merge_sections spec m ex no))) = Some (coerce_utf8 jwt).
Proof.
  intros Ha Hm Hno Hj. pose proof (BuildTradeBotConfig_keys _ _ _ _ _ _ Hm) as Hk.
  unfold decode_existing. change (json_coerce (json_of_map ?x)) with (json_coerce (JObj (sorted_entries x))) at 1.
  cbn [json_coerce]. cbv beta iota.
  rewrite (json_field_coerce _ _ config_keys); [|by apply merge_sections_keys|by vm_compute].
  rewrite (json_field_of_map _ _ config_keys); [|by apply merge_sections_keys|by vm_compute].
  rewrite merged_bot_level by (done || apply existsb_elem; by vm_compute).
  rewrite (BuildTradeBotConfig_api_server _ _ _ _ _ _ _ Ha Hm). set (api := buildAPIServerConfig a creds jwt hosts).
  cbn [fmap option_fmap option_map]. change (json_of_map api) with (JObj (sorted_entries api)) at 1. cbn [json_coerce].
  cbv beta iota. change (JObj (map _ (sorted_entries api))) with (json_coerce (json_of_map api)).
  rewrite (json_field_coerce _ _ (map fst (api_server_fields a creds jwt hosts))); [|apply keys_in_obj|by vm_compute].
  rewrite (json_field_of_map _ _ (map fst (api_server_fields a creds jwt hosts)));
    [|apply keys_in_obj|by vm_compute].
  unfold api. by rewrite buildAPIServerConfig_jwt.
Qed.

(** The text written to the Secret decodes to the key it was built with, as
    UTF-8. *)
Lemma rendered_readback name c creds jwt hosts a m spec ex no text :
  tc_APIServer (Spec c) = Some a → BuildTradeBotConfig name c creds jwt hosts = Ok m →
  keys_in no notification_keys → jwt ≠ "" →
  MarshalIndent (json_of_map (merge_sections spec m ex no)) = Ok text →
  json_Unmarshal text ≫= decode_existing = Some (coerce_utf8 jwt).
Proof.
  intros Ha Hm Hno Hj. unfold MarshalIndent.
  destruct (json_bad_float _) eqn:Hf; [done|]. intros [= <-].
  destruct (unmarshal_indent _ Hf) as (j' & -> & Hs). cbn.
  rewrite <- decode_existing_shape, Hs, decode_existing_shape. by eapply decode_rendered.
Qed.
End ReadBack.

(** ** Where the parts of a rendered config come from *)

Section Provenance.
Context `{GoLib}.

(** The data of the Secret [ref] names, as read during [h]; nil without a
    reference. *)
Definition secret_from (h : history Call) (ns ref : string) (d : SecretData) : Prop :=
  (ref = "" ∧ d = None) ∨
  ∃ s, ref ≠ "" ∧ Ev (Get KSecret {| nn_Namespace := ns; nn_Name := ref |}) (Ok s) ∈ h ∧ d = Some (secret_Data s).

Lemma secret_from_mono h h' ns ref d : h `prefix_of` h' → secret_from h ns ref d → secret_from h' ns ref d.
Proof.
  intros [h2 ->] [?|(s & Hr & Hin & Hd)]; [by left|]. right. exists s. split_and!; [done| |done]. set_solver.
Qed.

Lemma GetSecretData_spec ns ref h :
  wp (GetSecretData ns ref) h (fun h' r => ∀ d, r = Ok d → secret_from h' ns ref d).
Proof.
  unfold GetSecretData. destruct (String.eqb_spec ref "") as [->|Hne]; cbn.
  - intros d [= <-]. by left.
  - intros [s|e] d; cbn; [|done]. intros [= <-]. right. exists s. split_and!; [done|set_solver|done].
Qed.

(** The key a config Secret holds already, "" when none can be read. *)
Definition stored_key (s : Secret) : string :=
  default "" (json_Unmarshal (default "" (secret_Data s !! "config.json")) ≫= decode_existing).

(** It is read from JSON, hence UTF-8. *)
Lemma coerce_stored_key s : stored_key s = coerce_utf8 (stored_key s).
Proof.
  unfold stored_key. destruct (json_Unmarshal _) as [j|] eqn:Hj; [|done]. cbn.
  destruct (decode_existing j) as [k|] eqn:Hk; [|done]. cbn. apply unmarshal_text in Hj.
  assert (∀ m tag v, json_coerce (JObj m) = JObj m → json_field (JObj m) tag = Some v → json_coerce v = v) as Hfield.
  { intros m tag v Hm. cbn. destruct (List.find _ _) as [[k' v']|] eqn:E; [|done]. intros [= <-].
    apply List.find_some in E as [Hin%in_rev%list_elem_of_In _]. by eapply json_coerce_member. }
  unfold decode_existing in Hk. destruct j as [| | | | | |m]; try discriminate Hk; try by injection Hk as <-.
  destruct (json_field (JObj m) "api_server") as [v|] eqn:Hv; [|by injection Hk as <-].
  apply (Hfield _ _ _ Hj) in Hv. destruct v as [| | | | | |m']; try discriminate Hk; try by injection Hk as <-.
  destruct (json_field (JObj m') "jwt_secret_key") as [v|] eqn:Hv'; [|by injection Hk as <-].
  apply (Hfield _ _ _ Hv) in Hv'. destruct v; try discriminate Hk; injection Hk as <-; [done|]. by injection Hv' as ->.
Qed.

Definition config_secret_key (name ns : string) : NamespacedName :=
  {| nn_Namespace := ns; nn_Name := name ^^ "-config" |}.

(** The config Secret is absent, or holds no key. *)
Definition keyless (g : result Secret) : Prop :=
  match g with Ok s => stored_key s = "" | Err e => IsNotFound e = true end.

(** How [resolveAPIServerJWTSecretKey] arrives at a key. *)
Definition jwt_from (h : history Call) (name ns : string) (api : option APIServerConfig)
    (creds : SecretData) (jwt : string) : Prop :=
  match api with
  | Some a =>
      if is_true_ptr (api_Enabled a) then
        (user_jwt_key a creds ≠ "" ∧ jwt = user_jwt_key a creds ∧
           (minAPIServerJWTSecretKeyLength <= String.length jwt)%nat) ∨
        (user_jwt_key a creds = "" ∧
           ((∃ s, Ev (Get KSecret (config_secret_key name ns)) (Ok s) ∈ h ∧ jwt = stored_key s ∧ jwt ≠ "") ∨
            (∃ l g, Ev (RandRead 32) (Ok l) ∈ h ∧ jwt = hex_EncodeToString l ∧
                    Ev (Get KSecret (config_secret_key name ns)) g ∈ h ∧ keyless g)))
      else jwt = ""
  | None => jwt = ""
  end.

Lemma jwt_from_mono h h' name ns api creds jwt :
  h `prefix_of` h' → jwt_from h name ns api creds jwt → jwt_from h' name ns api creds jwt.
Proof.
  intros [h2 ->]. unfold jwt_from. destruct api as [a|]; [|done]. destruct (is_true_ptr _); [|done].
  intros [?|(Hu & [(s & Hs & ?)|(l & g & Hl & ? & Hg & ?)])]; [by left| |]; right; (split; [done|]).
  - left. exists s. split; [set_solver|done].
  - right. exists l, g. split_and!; [set_solver|done|set_solver|done].
Qed.

Lemma resolve_spec name ns c creds h :
  wp (resolveAPIServerJWTSecretKey name ns c creds) h
     (fun h' r => ∀ k, r = Ok k → jwt_from h' name ns (tc_APIServer (Spec c)) creds k).
Proof.
  unfold resolveAPIServerJWTSecretKey, jwt_from.
  destruct (tc_APIServer (Spec c)) as [a|]; [|by intros k [= <-]].
  destruct (is_true_ptr (api_Enabled a)); cbn [negb]; [|by intros k [= <-]].
  cbv zeta. destruct (nonempty (user_jwt_key a creds)) eqn:Hu.
  - apply nonempty_spec in Hu.
    destruct (Nat.ltb_spec (String.length (user_jwt_key a creds)) minAPIServerJWTSecretKeyLength);
      intros k [= <-]. by left.
  - assert (user_jwt_key a creds = "") as Hu'.
    { destruct (String.eqb_spec (user_jwt_key a creds) "") as [|Hne]; [done|].
      apply nonempty_spec in Hne. congruence. }
    intros [s|e]; cbn.
    + fold (stored_key s). destruct (nonempty (stored_key s)) eqn:Hs; cbn.
      * intros k [= <-]. right. split; [done|]. left. exists s. split_and!; [set_solver|done|by apply nonempty_spec].
      * intros [l|e] k; cbn; [|done]. intros [= <-]. right. split; [done|]. right. exists l, (Ok s).
        split_and!; [set_solver|done|set_solver|]. cbn.
        destruct (String.eqb_spec (stored_key s) "") as [|Hne%nonempty_spec]; [done|congruence].
    + destruct (IsNotFound e) eqn:He; cbn; [|done].
      intros [l|e'] k; cbn; [|done]. intros [= <-]. right. split; [done|]. right. exists l, (Err e). set_solver.
Qed.

(** A rendered file and its parts. *)
Definition rendered (h : history Call) (name ns : string) (c : TradeBotConfig) (hosts : list string)
    (files : gmap string string) : Prop :=
  ∃ exchange creds jwt bot exd nod noti text,
    tc_Exchange (Spec c) = Some exchange ∧
    secret_from h ns (apiServerSecretRef (Spec c)) creds ∧
    jwt_from h name ns (tc_APIServer (Spec c)) creds jwt ∧
    BuildTradeBotConfig name c creds jwt hosts = Ok bot ∧
    secret_from h ns (ex_SecretRef exchange) exd ∧
    (∀ n t, tc_Notification (Spec c) = Some n → no_Telegram n = Some t → secret_from h ns (nt_SecretRef t) nod) ∧
    BuildNotificationConfig (tc_Notification (Spec c)) nod = Ok noti ∧
    MarshalIndent (json_of_map (merge_sections (Spec c) bot (Some (obj (exchange_fields exchange exd))) noti)) = Ok text ∧
    files = {[ "config.json" := text ]}.

Lemma wrap_ok_inv {A} pre (r : result A) a : wrap_err pre r = Ok a → r = Ok a.
Proof. apply wrap_err_ok. Qed.

Lemma notification_secret_spec ns spec h :
  wp (notification_secret ns spec) h
     (fun h' r => ∀ d, r = Ok d → ∀ n t, tc_Notification spec = Some n → no_Telegram n = Some t →
                  secret_from h' ns (nt_SecretRef t) d).
Proof.
  unfold notification_secret. destruct (tc_Notification spec) as [n|]; [|by intros d _ ? ? [=]].
  destruct (no_Telegram n) as [t|] eqn:Ht; [|by intros d _ ? ? [= <-]; rewrite Ht].
  apply wp_wrapping. eapply wp_mono; [|apply GetSecretData_spec]. cbn.
  intros h' r Hr d Hd n' t' [= <-] Ht'. rewrite Ht in Ht'. injection Ht' as <-.
  apply Hr. by eapply wrap_ok_inv.
Qed.

Lemma BuildConfig_spec name ns c hosts h :
  wp (BuildConfig name ns c hosts) h (fun h' r => ∀ files, r = Ok files → rendered h' name ns c hosts files).
Proof.
  unfold BuildConfig. destruct (tc_Exchange (Spec c)) as [exchange|] eqn:Hex; [|by intros files [=]].
  apply (wp_seq_ok _ _ _ (fun h' r => ∀ d, r = Ok d → secret_from h' ns (apiServerSecretRef (Spec c)) d)).
  { apply wp_wrapping. eapply wp_mono; [|apply GetSecretData_spec]. cbn. intros h' r Hr d Hd. by apply Hr, wrap_ok_inv with (1 := Hd). }
  2: { by intros h' e _ files [=]. }
  intros h1 creds _ Hcreds. specialize (Hcreds _ eq_refl).
  apply (wp_seq_ok _ _ _ (fun h' r => ∀ k, r = Ok k → jwt_from h' name ns (tc_APIServer (Spec c)) creds k)).
  { apply wp_wrapping. eapply wp_mono; [|apply resolve_spec]. cbn. intros h' r Hr d Hd. by apply Hr, wrap_ok_inv with (1 := Hd). }
  2: { by intros h' e _ files [=]. }
  intros h2 jwt H12 Hjwt. specialize (Hjwt _ eq_refl).
  destruct (BuildTradeBotConfig name c creds jwt hosts) as [bot|] eqn:Hbot; [|done].
  cbn [wrap_err]. rewrite bind_ok_ret.
  apply (wp_seq_ok _ _ _ (fun h' r => ∀ d, r = Ok d → secret_from h' ns (ex_SecretRef exchange) d)).
  { apply wp_wrapping. eapply wp_mono; [|apply GetSecretData_spec]. cbn. intros h' r Hr d Hd. by apply Hr, wrap_ok_inv with (1 := Hd). }
  2: { by intros h' e _ files [=]. }
  intros h3 exd H23 Hexd. specialize (Hexd _ eq_refl).
  cbn [wrap_err BuildExchangeConfig]. rewrite bind_ok_ret.
  eapply wp_seq_ok; [apply notification_secret_spec| |by intros h' e _ files [=]].
  intros h4 nod H34 Hnod. specialize (Hnod _ eq_refl).
  destruct (BuildNotificationConfig _ nod) as [noti|] eqn:Hnoti; [|done].
  cbn [wrap_err]. rewrite bind_ok_ret. cbv zeta.
  destruct (MarshalIndent _) as [text|] eqn:Htext; [|by intros files [=]].
  intros files [= <-]. exists exchange, creds, jwt, bot, exd, nod, noti, text.
  split_and!; try done.
  - eapply secret_from_mono; [|done]. by etrans; [|etrans].
  - eapply jwt_from_mono; [|done]. by etrans.
  - by eapply secret_from_mono.
Qed.
End Provenance.

Lemma hex_length l : String.length (hex_EncodeToString l) = (2 * length l)%nat.
Proof.
  unfold hex_EncodeToString. induction l as [|b l IH]; [done|].
  cbn [map]. rewrite concat_cons, string_length_append, IH. cbn. lia.
Qed.

(** Hexadecimal digits are ASCII. *)
Lemma hex_byte_utf8 b s : utf8 s → utf8 (hex_byte b ^^ s).
Proof. intros Hs. unfold hex_byte. destruct b; (apply utf8_1; [reflexivity|]); (apply utf8_1; [reflexivity|exact Hs]). Qed.

Lemma hex_text l : coerce_utf8 (hex_EncodeToString l) = hex_EncodeToString l.
Proof.
  apply coerce_utf8_fixed. unfold hex_EncodeToString. induction l as [|b l IH]; [constructor|].
  cbn [map]. rewrite concat_cons. by apply hex_byte_utf8.
Qed.

(** ** Properties *)

(** The precedence of a credential: the Secret's value when it supplies
    one, else a non-empty plaintext value, else nothing. *)
Definition credential (fromSecret : option string) (plaintext : string) : option json :=
  match fromSecret with
  | Some v => Some (JString v)
  | None => if nonempty plaintext then Some (JString plaintext) else None
  end.

(** The Basic Auth credentials of the rendered section. *)
Lemma buildAPIServerConfig_username a creds jwt hosts :
  buildAPIServerConfig a creds jwt hosts !! "username" = credential (secret_key creds "user") (api_Username a).
Proof.
  unfold buildAPIServerConfig. rewrite obj_lookup. unfold assigned, api_server_fields, credential; cbn.
  by destruct (secret_key creds "user"), (nonempty (api_Username a)).
Qed.

Lemma buildAPIServerConfig_password a creds jwt hosts :
  buildAPIServerConfig a creds jwt hosts !! "password" = credential (secret_key creds "password") (api_Password a).
Proof.
  unfold buildAPIServerConfig. rewrite obj_lookup. unfold assigned, api_server_fields, credential; cbn.
  by destruct (secret_key creds "password"), (nonempty (api_Password a)).
Qed.

(** The calls of BuildConfig: Secrets of the namespace, and random bytes. *)
Lemma BuildConfig_emits `{GoLib} (P : ∀ X, Call X → Prop) name ns c hosts :
  (∀ key, nn_Namespace key = ns → P _ (Get KSecret key)) → (∀ n, P _ (RandRead n)) →
  emits P (BuildConfig name ns c hosts).
Proof.
  intros HG HR.
  assert (∀ ref, emits P (GetSecretData ns ref)) as Hget.
  { intros ref. unfold GetSecretData. case_match; [done|]. split; [by apply HG|done]. }
  unfold BuildConfig. destruct (tc_Exchange _) as [ex|]; [|done].
  apply emits_bind_ok; [by apply emits_wrapping|]. intros creds. apply emits_bind_ok.
  { apply emits_wrapping. unfold resolveAPIServerJWTSecretKey.
    destruct (tc_APIServer _) as [a|]; [|done].
    destruct (negb _); [done|]. cbv zeta. destruct (nonempty _); [by case_match|].
    apply emits_bind_ok; [split; [by apply HG|done]|]. intros x. case_match; [done|]. by split. }
  intros jwt. apply emits_bind_ok; [done|]. intros bot. apply emits_bind_ok; [by apply emits_wrapping|].
  intros exd. apply emits_bind_ok; [done|]. intros exc. apply emits_bind_ok.
  { unfold notification_secret. destruct (tc_Notification _) as [n|]; [|done].
    destruct (no_Telegram n); [by apply emits_wrapping|done]. }
  intros nod. apply emits_bind_ok; [done|]. by intros.
Qed.

Section Properties.
Context `{GoLib}.

Definition parsed (files : gmap string string) : option json :=
  json_Unmarshal (default "" (files !! "config.json")).


(** With the API server enabled, the JWT key in the rendered file has at
    least 32 characters, or is the one the config Secret already had; a
    shorter key of the user makes the render fail. *)
Theorem jwt_key_strength name ns c hosts h a :
  tc_APIServer (Spec c) = Some a → is_true_ptr (api_Enabled a) = true →
  wp (BuildConfig name ns c hosts) h (fun h' r => ∀ files, r = Ok files →
    (∀ l, Ev (RandRead 32) (Ok l) ∈ h' → length l = 32%nat) →
    ∃ key, parsed files ≫= decode_existing = Some key ∧
      ((32 <= String.length key)%nat ∨
       ∃ s, Ev (Get KSecret (config_secret_key name ns)) (Ok s) ∈ h' ∧ key = stored_key s)).
Proof.
  intros Ha Hen. eapply wp_mono; [|apply BuildConfig_spec]. cbn. intros h' r Hr files Hfiles Hrand.
  destruct (Hr _ Hfiles)
    as (ex & creds & jwt & bot & exd & nod & noti & text & Hex & Hc & Hjwt & Hbot & Hexd & _ & Hnoti & Htext & ->).
  assert (jwt ≠ "" ∧ ((32 <= String.length jwt)%nat ∨
    ∃ s, Ev (Get KSecret (config_secret_key name ns)) (Ok s) ∈ h' ∧ jwt = stored_key s)) as [Hne Hlen].
  { unfold jwt_from in Hjwt. rewrite Ha, Hen in Hjwt.
    destruct Hjwt as [(Hu & -> & Hl)|(_ & [(s & Hin & Heq & Hne)|(l & ? & Hin & -> & _)])].
    - split; [done|by left].
    - split; [done|]. right. by exists s.
    - apply Hrand in Hin. assert (String.length (hex_EncodeToString l) = 64%nat) as Hl.
      { by rewrite hex_length, Hin. }
      split; [by intros E; rewrite E in Hl|]. left. rewrite Hl. lia. }
  exists (coerce_utf8 jwt). split; [unfold parsed; rewrite lookup_singleton_eq; cbn;
    eapply rendered_readback; eauto using BuildNotificationConfig_keys|].
  destruct Hlen as [Hlen|(s & Hin & ->)].
  - left. pose proof (coerce_utf8_length jwt). lia.
  - right. exists s. split; [done|]. symmetry. apply coerce_stored_key.
Qed.

(** The JWT key survives a re-render: once config.json is in the config
    Secret, resolving the key again - the user giving none - returns the
    key that file holds, and draws no random bytes. *)
Theorem jwt_key_stable name ns c hosts h a :
  tc_APIServer (Spec c) = Some a → is_true_ptr (api_Enabled a) = true →
  wp (BuildConfig name ns c hosts) h (fun h' r => ∀ files, r = Ok files →
    (∀ l, Ev (RandRead 32) (Ok l) ∈ h' → length l = 32%nat) →
    ∃ key, parsed files ≫= decode_existing = Some key ∧
      ∀ creds, user_jwt_key a creds = "" →
        wp (resolveAPIServerJWTSecretKey name ns c creds) []
           (fun h2 r2 => (∀ g, Ev (Get KSecret (config_secret_key name ns)) g ∈ h2 →
                               ∃ s, g = Ok s ∧ secret_Data s = files) →
                         r2 = Ok key ∧ ∀ l, Ev (RandRead 32) l ∉ h2)).
Proof.
  intros Ha Hen. eapply wp_mono; [|apply BuildConfig_spec]. cbn. intros h' r Hr files Hfiles Hrand.
  destruct (Hr _ Hfiles)
    as (ex & creds & jwt & bot & exd & nod & noti & text & Hex & Hc & Hjwt & Hbot & Hexd & _ & Hnoti & Htext & ->).
  assert (jwt ≠ "") as Hne.
  { unfold jwt_from in Hjwt. rewrite Ha, Hen in Hjwt.
    destruct Hjwt as [(Hu & -> & Hl)|(_ & [(s & Hin & Heq & Hne)|(l & ? & Hin & -> & _)])]; [done..|].
    apply Hrand in Hin. intros E. pose proof (hex_length l) as Hl. by rewrite E, Hin in Hl. }
  assert (json_Unmarshal text ≫= decode_existing = Some (coerce_utf8 jwt)) as Hread
    by eauto using rendered_readback, BuildNotificationConfig_keys.
  assert (coerce_utf8 jwt ≠ "") as Hne'.
  { intros E. pose proof (coerce_utf8_length jwt) as Hl. rewrite E in Hl. destruct jwt; [done|cbn in Hl; lia]. }
  exists (coerce_utf8 jwt). split; [unfold parsed; by rewrite lookup_singleton_eq|].
  intros creds2 Hu2. unfold resolveAPIServerJWTSecretKey. rewrite Ha, Hen. cbn [negb]. cbv zeta. rewrite Hu2.
  intros g. destruct g as [s|e]; cbn [bind_ok].
  - fold (stored_key s). destruct (decide (secret_Data s = {["config.json" := text]})) as [Hs|Hs].
    + assert (stored_key s = coerce_utf8 jwt) as Hk.
      { unfold stored_key. by rewrite Hs, lookup_singleton_eq; cbn; rewrite Hread. }
      cbn. fold (stored_key s). rewrite Hk. rewrite (proj2 (nonempty_spec (coerce_utf8 jwt)) Hne'). cbn. intros _. split; [done|].
      intros l Hl%list_elem_of_singleton. ev_discr.
    + match goal with |- wp ?p ?h0 ?Q => apply (wp_mono p h0 (fun h1 _ => h0 `prefix_of` h1)); [|apply wp_extends] end.
      intros h1 r1 [h2 ->] Hall. destruct (Hall (Ok s)) as (s' & [= <-] & Hs'); [set_solver|done].
  - match goal with |- wp ?p ?h0 ?Q => apply (wp_mono p h0 (fun h1 _ => h0 `prefix_of` h1)); [|apply wp_extends] end.
    intros h1 r1 [h2 ->] Hall. destruct (Hall (Err e)) as (s' & [=] & Hs'). set_solver.
Qed.

Definition exchange_credential_table (e : ExchangeSpec) : list (string * string * string) :=
  [("key", "api-key", ex_Key e); ("secret", "secret", ex_Secret e); ("password", "password", ex_Password e);
   ("uid", "uid", ex_UID e); ("account_id", "account_id", ex_AccountID e);
   ("wallet_address", "wallet_address", ex_WalletAddress e); ("private_key", "private_key", ex_PrivateKey e)].

Lemma exchange_credential_lookup e d k sk plain :
  (k, sk, plain) ∈ exchange_credential_table e →
  obj (exchange_fields e d) !! k =
    credential (if nonempty (ex_SecretRef e) then secret_key d sk else None) plain.
Proof.
  intros Hin. rewrite obj_lookup. unfold exchange_fields, applyExchangeCredentials, credential.
  unfold exchange_credential_table in Hin. rewrite !elem_of_cons, elem_of_nil in Hin. unfold nonempty at 1.
  destruct (ex_SecretRef e =? "")%string, d as [m|];
    destruct_or? Hin; try done; injection Hin as -> -> ->; rewrite !assigned_app; cbn.
  all: repeat match goal with
       | |- context [nonempty ?s] => destruct (nonempty s); cbn
       | m : gmap string string |- context [?m0 !! ?x] => destruct (m0 !! x); cbn
       end.
  all: done.
Qed.

(** SecretRef always wins: each of the seven exchange credentials in the
    rendered section is the referenced Secret's value when the Secret has
    that key, the plaintext field otherwise, and absent when neither is set;
    without a secretRef the Secret is never consulted. *)
Theorem exchange_credentials e d k sk plain :
  (k, sk, plain) ∈ exchange_credential_table e →
  BuildExchangeConfig (Some e) d = Ok (Some (obj (exchange_fields e d))) ∧
  obj (exchange_fields e d) !! k =
    credential (if nonempty (ex_SecretRef e) then secret_key d sk else None) plain.
Proof. intros Hin. split; [done|]. by apply exchange_credential_lookup. Qed.

(** The REST API's Basic Auth credentials and origins: username and
    password follow the same precedence, and the CORS origins are the
    spec's followed by the FreqUIs', each of them, none twice. *)
Theorem api_server_section a creds jwt hosts :
  let m := buildAPIServerConfig a creds jwt hosts in
  m !! "username" = credential (secret_key creds "user") (api_Username a) ∧
  m !! "password" = credential (secret_key creds "password") (api_Password a) ∧
  m !! "jwt_secret_key" = credential None jwt ∧
  (∀ o, o ∈ cors_origins a hosts ↔ o ∈ api_CORSOrigins a ∨ o ∈ hosts) ∧
  (NoDup (api_CORSOrigins a) → NoDup (cors_origins a hosts)) ∧
  m !! "CORS_origins" = match cors_origins a hosts with [] => None | l => Some (JList (map JString l)) end.
Proof.
  cbv zeta. split_and!.
  - apply buildAPIServerConfig_username.
  - apply buildAPIServerConfig_password.
  - unfold buildAPIServerConfig. rewrite obj_lookup. unfold assigned, api_server_fields, credential; cbn.
    by destruct (nonempty jwt).
  - intros o. apply elem_of_foldl_append_new.
  - apply foldl_append_new_NoDup.
  - unfold buildAPIServerConfig. rewrite obj_lookup.
    unfold assigned, api_server_fields, strs; cbn. by destruct (cors_origins a hosts).
Qed.

(** Rendering a config never writes to the cluster: BuildConfig reads
    Secrets of the bot's own namespace and random bytes, nothing else. *)
Theorem BuildConfig_reads_only name ns c hosts :
  emits (fun _ call => match call with
                       | Get KSecret key => nn_Namespace key = ns
                       | RandRead _ => True
                       | _ => False
                       end) (BuildConfig name ns c hosts).
Proof.
  apply BuildConfig_emits; [by intros|done].
Qed.

(** Use_order_book, once present, is always rendered true: an explicit
    [use_order_book: false] turns the order book on. *)
Theorem use_order_book_false_renders_true p :
  pri_UseOrderBook p = Some false →
  ∃ m, BuildPricingConfig (Some p) = Some m ∧ m !! "use_order_book" = Some (JBool true).
Proof. intros Hp. eexists. split; [done|]. rewrite obj_lookup. unfold assigned; cbn. by rewrite Hp. Qed.
End Properties.

(** ** Concrete inputs *)

Definition sample_api : APIServerConfig :=
  {| api_Enabled := Some true; api_ListenIP := ""; api_ListenPort := None; api_Verbosity := "";
     api_EnableOpenAPI := None; api_Username := ""; api_Password := ""; api_JWTSecretKey := "";
     api_SecretRef := ""; api_CORSOrigins := [] |}.

Definition sample_exchange : ExchangeSpec :=
  {| ex_Name := "kraken"; ex_Key := "k"; ex_Secret := ""; ex_Password := ""; ex_UID := ""; ex_AccountID := "";
     ex_WalletAddress := ""; ex_PrivateKey := ""; ex_SecretRef := "ex"; ex_CcxtConfig := "";
     ex_CcxtAsyncConfig := ""; ex_CcxtSyncConfig := ""; ex_Whitelist := None; ex_Blacklist := None;
     ex_LogResponses := None; ex_EnableWS := None; ex_UnkownFeeRate := None; ex_OutdatedOffset := None;
     ex_MarketRefreshInterval := None |}.

Definition sample_config : TradeBotConfig :=
  {| Meta := NewMeta "conf" "ns" ∅ ∅;
     Spec := {| tc_Bot := None; tc_AI := None; tc_Data := None; tc_Advanced := None; tc_Timeout := None;
                tc_Internals := None; tc_Exchange := Some sample_exchange; tc_Pairlist := None;
                tc_PairlistMethod := None; tc_EntryPricing := None; tc_ExitPricing := None; tc_Order := None;
                tc_RiskManagement := None; tc_Notification := None; tc_APIServer := Some sample_api;
                tc_Experimental := None; tc_Logging := None |};
     Status := {| tcs_Phase := ""; tcs_Message := ""; tcs_Conditions := []; tcs_ObservedGeneration := 0 |} |}.

(** The exchange Secret exists, the config Secret does not yet. *)
Definition sample_secret_env : Env :=
  {| env_get := fun k key =>
       match k with
       | KSecret => if (nn_Name key =? "ex")%string
                    then Ok {| secret_Meta := NewMeta "ex" "ns" ∅ ∅; secret_Data := {[ "api-key" := "s3cret" ]};
                               secret_StringData := ∅; secret_Type := "Opaque" |}
                    else Err NotFoundErr
       | _ => Err NotFoundErr
       end;
     env_list := fun _ => Ok []; env_now := 0; env_http := fun _ => Err (Errorf "connection refused") |}.

Definition sample_render := exec sample_secret_env (BuildConfig "bot" "ns" sample_config []).

Definition sample_files : gmap string string := match sample_render.1 with Ok files => files | Err _ => ∅ end.

(** On a first render the key is generated, 64 characters long. *)
Lemma jwt_key_strength_witness :
  sample_render.1 = Ok sample_files ∧
  ∃ key, parsed sample_files ≫= decode_existing = Some key ∧
    ((32 <= String.length key)%nat ∨
     ∃ s, Ev (Get KSecret (config_secret_key "bot" "ns")) (Ok s) ∈ sample_render.2 ∧ key = stored_key s).
Proof.
  assert (sample_render.1 = Ok sample_files) as Hrun by (vm_compute; reflexivity).
  split; [exact Hrun|].
  apply (exec_wp sample_secret_env _ _
           (jwt_key_strength "bot" "ns" sample_config [] [] sample_api eq_refl eq_refl) _ Hrun).
  intros l Hl. apply list_elem_of_In in Hl. vm_compute in Hl.
  repeat (destruct Hl as [Hl|Hl]; [try ev_discr|]); [|destruct Hl].
  apply (f_equal (fun e : event Call => match e with
           | Ev c x => match c in Call X return X → nat with
                       | RandRead _ => fun r => match r with Ok l => length l | Err _ => 0%nat end
                       | _ => fun _ => 0%nat end x end)) in Hl. symmetry. exact Hl.
Defined.

Lemma jwt_key_stable_witness :
  wp (BuildConfig "bot" "ns" sample_config []) [] (fun h' r => ∀ files, r = Ok files →
      (∀ l, Ev (RandRead 32) (Ok l) ∈ h' → length l = 32%nat) →
      ∃ key, parsed files ≫= decode_existing = Some key ∧
        ∀ creds, user_jwt_key sample_api creds = "" →
          wp (resolveAPIServerJWTSecretKey "bot" "ns" sample_config creds) []
             (fun h2 r2 => (∀ g, Ev (Get KSecret (config_secret_key "bot" "ns")) g ∈ h2 →
                                 ∃ s, g = Ok s ∧ secret_Data s = files) →
                           r2 = Ok key ∧ ∀ l, Ev (RandRead 32) l ∉ h2)).
Proof. apply (jwt_key_stable "bot" "ns" sample_config [] [] sample_api); reflexivity. Defined.

Lemma exchange_credentials_witness :
  BuildExchangeConfig (Some sample_exchange) (Some {[ "api-key" := "s3cret" ]})
    = Ok (Some (obj (exchange_fields sample_exchange (Some {[ "api-key" := "s3cret" ]})))) ∧
  obj (exchange_fields sample_exchange (Some {[ "api-key" := "s3cret" ]})) !! "key" =
    credential (Some "s3cret") "k".
Proof.
  assert (secret_key (Some {[ "api-key" := "s3cret" ]}) "api-key" = Some "s3cret") as Hk by (vm_compute; reflexivity).
  rewrite <- Hk.
  apply (exchange_credentials sample_exchange (Some {[ "api-key" := "s3cret" ]}) "key" "api-key" "k").
  unfold exchange_credential_table. left.
Defined.

Definition sample_pricing : PricingSpec :=
  {| pri_PriceSide := "same"; pri_PriceLastBalance := None; pri_UseOrderBook := Some false;
     pri_OrderBookTop := None; pri_CheckDepthOfMarket := None |}.

Lemma use_order_book_false_renders_true_witness :
  ∃ m, BuildPricingConfig (Some sample_pricing) = Some m ∧ m !! "use_order_book" = Some (JBool true).
Proof. apply (use_order_book_false_renders_true sample_pricing). reflexivity. Defined.
