(* ===== verification/TradeBotResources.v ===== *)
(** * controllers/tradebot/resources

    The builders of the objects a TradeBot owns: the config Secret, the
    strategy ConfigMap, the user-data PVC, the StatefulSet and its pod, the
    Service and the NetworkPolicy.  Pure functions of the TradeBot. *)

From S2P Require Import Prelude Kube Types Client Shared.
Import V1alpha1.

Definition ContainsCredentialsLabel : string := "freqtrade.io/contains-credentials".
Definition labelValueTrue : string := "true".
Definition appLabelKey : string := "app".
Definition freqtradeAppName : string := "freqtrade".
Definition nameLabelKey : string := "name".
Definition ConfigHashAnnotation : string := "freqtrade.io/config-hash".
Definition freqCommandTrade : string := "trade".
Definition userDataVolumeName : string := "user-data".
Definition FreqtradeAPIPort : Z := 8080.

Definition bot_labels (tradeBot : TradeBot) : gmap string string :=
  {[ nameLabelKey := Name (Meta tradeBot); appLabelKey := freqtradeAppName ]}.

(** [if tradeBot.Spec.App != nil && tradeBot.Spec.App.F != nil] *)
Definition app_field {A} (f : TBAppConfig → option A) (tradeBot : TradeBot) : option A :=
  App (Spec tradeBot) ≫= f.

(** ** secret.go, configmap.go *)

Definition BuildSecret (tradeBot : TradeBot) (secretData : gmap string string) : Secret :=
  {| secret_Meta := NewMeta (Name (Meta tradeBot) ^^ "-config") (Namespace (Meta tradeBot))
                      {[ appLabelKey := freqtradeAppName; nameLabelKey := Name (Meta tradeBot);
                         ContainsCredentialsLabel := labelValueTrue ]} ∅;
     secret_Data := ∅; secret_StringData := secretData; secret_Type := "Opaque" |}.

Definition BuildStrategyConfigMap (tradeBot : TradeBot) (strategy : Strategy) : ConfigMap :=
  {| cm_Meta := NewMeta (Name (Meta tradeBot) ^^ "-strategy") (Namespace (Meta tradeBot)) ∅ ∅;
     cm_Data := {[ (sspec_Name (str_Spec strategy) ^^ ".py") := sspec_Script (str_Spec strategy) ]} |}.

(** ** persistentvolumeclaim.go *)

Definition mergePVCSpecOverrides (p : PersistentVolumeClaim) (override : PVCSpec) : PersistentVolumeClaim :=
  {| pvc_Meta := pvc_Meta p;
     pvc_AccessModes := match pvs_AccessModes override with [] => pvc_AccessModes p | l => l end;
     pvc_Requests := match pvs_StorageSize override with
                     | Some q => <["storage" := q]> (pvc_Requests p)
                     | None => pvc_Requests p
                     end;
     pvc_StorageClassName := if nonempty (pvs_StorageClassName override)
                             then Some (pvs_StorageClassName override) else pvc_StorageClassName p;
     pvc_VolumeName := if nonempty (pvs_VolumeName override)
                       then pvs_VolumeName override else pvc_VolumeName p |}.

Definition BuildUserDataPVC (tradeBot : TradeBot) : PersistentVolumeClaim :=
  let override := app_field ta_PVCSpec tradeBot in
  let base :=
    {| pvc_Meta := NewMeta (Name (Meta tradeBot) ^^ "-user-data") (Namespace (Meta tradeBot))
                     (from_option pvs_Labels ∅ override) (from_option pvs_Annotations ∅ override);
       pvc_AccessModes := ["ReadWriteOnce"]; pvc_Requests := {[ "storage" := "1Gi" ]};
       pvc_StorageClassName := Some "standard"; pvc_VolumeName := "" |} in
  from_option (mergePVCSpecOverrides base) base override.

(** ** pod.go *)

Definition merge_container_overrides (o : TradeBotPodSpec) (c : Container) : Container :=
  {| c_Name := c_Name c;
     c_Image := if nonempty (tps_Image o) then tps_Image o else c_Image c;
     c_ImagePullPolicy := c_ImagePullPolicy c;
     c_Command := c_Command c;
     c_Args := c_Args c;
     c_Env := override_list (tps_Env o) (c_Env c);
     c_Resources := if decide (tps_Resources o = NoResources) then c_Resources c else tps_Resources o;
     c_VolumeMounts := override_list (tps_VolumeMounts o) (c_VolumeMounts c);
     c_SecurityContext := c_SecurityContext c;
     c_Ports := c_Ports c;
     c_LivenessProbe := override_ptr (tps_LivenessProbe o) (c_LivenessProbe c);
     c_ReadinessProbe := override_ptr (tps_ReadinessProbe o) (c_ReadinessProbe c);
     c_RestartPolicy := c_RestartPolicy c;
     c_TerminationMessagePath := c_TerminationMessagePath c;
     c_TerminationMessagePolicy := c_TerminationMessagePolicy c |}.

Definition mergePodSpecOverrides (p : PodSpec) (o : TradeBotPodSpec) : PodSpec :=
  {| ps_SecurityContext := override_ptr (tps_SecurityContext o) (ps_SecurityContext p);
     ps_ServiceAccountName := ps_ServiceAccountName p;
     ps_AutomountServiceAccountToken := ps_AutomountServiceAccountToken p;
     ps_RestartPolicy := ps_RestartPolicy p;
     ps_InitContainers := override_list (tps_InitContainers o) (ps_InitContainers p);
     ps_Containers := map_first_container (merge_container_overrides o) (ps_Containers p);
     ps_Volumes := override_list (tps_Volumes o) (ps_Volumes p);
     ps_ImagePullSecrets := override_list (tps_ImagePullSecrets o) (ps_ImagePullSecrets p);
     ps_Affinity := override_ptr (tps_Affinity o) (ps_Affinity p);
     ps_NodeSelector := if decide (tps_NodeSelector o = ∅) then ps_NodeSelector p else tps_NodeSelector o;
     ps_Tolerations := override_list (tps_Tolerations o) (ps_Tolerations p);
     ps_TopologySpreadConstraints :=
       override_list (tps_TopologySpreadConstraints o) (ps_TopologySpreadConstraints p);
     ps_TerminationGracePeriodSeconds := ps_TerminationGracePeriodSeconds p;
     ps_DNSPolicy := ps_DNSPolicy p |}.

Definition ping_probe (delay period : Z) : Probe :=
  {| pr_Path := "/api/v1/ping"; pr_Port := 8080; pr_Scheme := "HTTP"; pr_InitialDelaySeconds := delay;
     pr_PeriodSeconds := period; pr_TimeoutSeconds := 5; pr_FailureThreshold := 3 |}.

Definition fixVolumePermissions (tradeBot : TradeBot) : bool :=
  is_true_ptr (app_field ta_PVCSpec tradeBot ≫= pvs_FixVolumePermissions).

Definition init_user_data (tradeBot : TradeBot) : Container :=
  let fix_ := fixVolumePermissions tradeBot in
  {| c_Name := "init-user-data"; c_Image := "busybox:latest"; c_ImagePullPolicy := "IfNotPresent";
     c_Command := ["sh"; "-c"];
     c_Args := [ if fix_
                 then "mkdir -p /freqtrade/user_data/logs /freqtrade/user_data/data && "
                      ^^ "chmod -R 775 /freqtrade/user_data && chown -R 1000:1000 /freqtrade/user_data"
                 else "mkdir -p /freqtrade/user_data/logs /freqtrade/user_data/data" ];
     c_Env := []; c_Resources := NoResources;
     c_VolumeMounts := [ {| vm_Name := userDataVolumeName; vm_MountPath := "/freqtrade/user_data";
                            vm_ReadOnly := false |} ];
     c_SecurityContext :=
       Some (if fix_
             then {| sc_RunAsUser := Some 0%Z; sc_RunAsGroup := Some 0%Z; sc_RunAsNonRoot := None;
                     sc_AllowPrivilegeEscalation := None; sc_ReadOnlyRootFilesystem := None;
                     sc_CapabilitiesDrop := []; sc_SeccompProfile := "" |}
             else RestrictedSecurityContext);
     c_Ports := []; c_LivenessProbe := None; c_ReadinessProbe := None; c_RestartPolicy := None;
       c_TerminationMessagePath := ""; c_TerminationMessagePolicy := "" |}.

Definition trade_args (strategyName : string) (freqArgs : list string) : list string :=
  [ freqCommandTrade; "--config"; "/config/config.json"; "--strategy-path"; "/strategy";
    "--strategy"; strategyName; "--db-url"; "sqlite:////freqtrade/user_data/tradesv3.sqlite";
    "--logfile"; "/freqtrade/user_data/logs/freqtrade.log" ] ++ freqArgs.

Definition BuildPod (tradeBot : TradeBot)
    (image strategyName configSecretName strategyConfigMapName pvcName : string) (freqArgs : list string)
    : PodSpec :=
  let main :=
    {| c_Name := freqtradeAppName; c_Image := image; c_ImagePullPolicy := "IfNotPresent";
       c_Command := [freqtradeAppName]; c_Args := trade_args strategyName freqArgs; c_Env := [];
       c_Resources := DefaultContainerResources;
       c_VolumeMounts := [ {| vm_Name := "config"; vm_MountPath := "/config"; vm_ReadOnly := true |};
                           {| vm_Name := "strategy"; vm_MountPath := "/strategy"; vm_ReadOnly := true |};
                           {| vm_Name := userDataVolumeName; vm_MountPath := "/freqtrade/user_data";
                              vm_ReadOnly := false |} ];
       c_SecurityContext := Some RestrictedSecurityContext;
       c_Ports := [ {| cp_ContainerPort := 8080; cp_Protocol := "TCP" |} ];
       c_LivenessProbe := Some (ping_probe 60 60); c_ReadinessProbe := Some (ping_probe 30 30);
       c_RestartPolicy := None;
       c_TerminationMessagePath := ""; c_TerminationMessagePolicy := "" |} in
  let podSpec :=
    {| ps_SecurityContext := Some {| psc_RunAsUser := Some 1000%Z; psc_RunAsGroup := Some 1000%Z;
                                     psc_FSGroup := Some 1000%Z |};
       ps_ServiceAccountName := ""; ps_AutomountServiceAccountToken := None; ps_RestartPolicy := "";
       ps_InitContainers := [init_user_data tradeBot]; ps_Containers := [main];
       ps_Volumes := [ {| v_Name := "config"; v_Source := VSSecret configSecretName |};
                       {| v_Name := "strategy"; v_Source := VSConfigMap strategyConfigMapName |};
                       {| v_Name := userDataVolumeName; v_Source := VSPersistentVolumeClaim pvcName |} ];
       ps_ImagePullSecrets := []; ps_Affinity := None; ps_NodeSelector := ∅; ps_Tolerations := [];
       ps_TopologySpreadConstraints := []; ps_TerminationGracePeriodSeconds := None; ps_DNSPolicy := "" |} in
  from_option (mergePodSpecOverrides podSpec) podSpec (app_field ta_PodSpec tradeBot).

(** ** statefulset.go *)

Definition BuildStatefulSet (tradeBot : TradeBot)
    (image strategyName configSecretName strategyConfigMapName pvcName configHash : string) : StatefulSet :=
  {| sts_Meta := NewMeta (Name (Meta tradeBot)) (Namespace (Meta tradeBot)) ∅ ∅;
     sts_Replicas := Some 1%Z;
     sts_Selector := bot_labels tradeBot;
     sts_ServiceName := Name (Meta tradeBot);
     sts_Template :=
       {| pt_Labels := bot_labels tradeBot;
          pt_Annotations := if nonempty configHash then {[ ConfigHashAnnotation := configHash ]} else ∅;
          pt_Spec := BuildPod tradeBot image strategyName configSecretName strategyConfigMapName pvcName
                       (FreqtradeArguments (Spec tradeBot)) |};
     sts_Status_Replicas := 0; sts_Status_ReadyReplicas := 0 |}.

(** [sts.Spec.Template.Spec.Containers[0].Image] *)
Definition main_image (s : StatefulSet) : string :=
  match ps_Containers (pt_Spec (sts_Template s)) with c :: _ => c_Image c | [] => "" end.

Definition config_hash_of (s : StatefulSet) : string :=
  default "" (pt_Annotations (sts_Template s) !! ConfigHashAnnotation).

(** ** service.go *)

Definition mergeServiceSpecOverrides (s : Service) (o : ServiceSpec) : Service :=
  {| svc_Meta := svc_Meta s;
     svc_Type := if nonempty (ss_Type o) then ss_Type o else svc_Type s;
     svc_Ports := override_list (ss_Ports o) (svc_Ports s);
     svc_Selector := if decide (ss_Selector o = ∅) then svc_Selector s else ss_Selector o;
     svc_LoadBalancerSourceRanges := svc_LoadBalancerSourceRanges s;
     svc_ExternalTrafficPolicy := svc_ExternalTrafficPolicy s;
     svc_SessionAffinity := svc_SessionAffinity s |}.

Definition BuildService (tradeBot : TradeBot) : Service :=
  let override := app_field ta_ServiceSpec tradeBot in
  let base :=
    {| svc_Meta := NewMeta (Name (Meta tradeBot)) (Namespace (Meta tradeBot)) ∅
                     (from_option ss_Annotations ∅ override);
       svc_Type := "ClusterIP";
       svc_Ports := [ {| sp_Name := "http"; sp_Port := 8080; sp_TargetPort := 8080; sp_Protocol := "TCP" |} ];
       svc_Selector := bot_labels tradeBot;
       svc_LoadBalancerSourceRanges := []; svc_ExternalTrafficPolicy := ""; svc_SessionAffinity := "" |} in
  from_option (mergeServiceSpecOverrides base) base override.

(** ** networkpolicy.go *)

Definition network_policy_peers (tradeBot : TradeBot) (freqUINames : list string) (operatorNamespace : string)
    : list NetworkPolicyPeer :=
  (if nonempty operatorNamespace
   then [PeerNamespaceSelector {[ "kubernetes.io/metadata.name" := operatorNamespace ]}] else [])
  ++ map (fun name => PeerPodSelector {[ appLabelKey := name ]}) freqUINames
  ++ from_option tnp_ExtraPeers [] (app_field ta_NetworkPolicySpec tradeBot).

Definition BuildNetworkPolicy (tradeBot : TradeBot) (freqUINames : list string) (operatorNamespace : string)
    : NetworkPolicy :=
  {| np_Meta := NewMeta (Name (Meta tradeBot)) (Namespace (Meta tradeBot)) (bot_labels tradeBot) ∅;
     np_PodSelector := bot_labels tradeBot;
     np_PolicyTypes := ["Ingress"];
     np_Ingress := match network_policy_peers tradeBot freqUINames operatorNamespace with
                   | [] => []
                   | peers => [ {| npr_Ports := [("TCP", FreqtradeAPIPort)]; npr_From := peers |} ]
                   end |}.

(** ** What the builders guarantee *)

(** The NetworkPolicy in the semantics of networking.k8s.io: a pod it selects
    accepts a peer on a port iff some rule lists the port and has no [From]
    at all or one the peer matches. *)
Definition rule_allows (matches : NetworkPolicyPeer → Prop) (protocol : string) (port : Z)
    (r : NetworkPolicyIngressRule) : Prop :=
  (npr_Ports r = [] ∨ (protocol, port) ∈ npr_Ports r) ∧
  (npr_From r = [] ∨ ∃ p, p ∈ npr_From r ∧ matches p).

Definition policy_allows (matches : NetworkPolicyPeer → Prop) (protocol : string) (port : Z)
    (np : NetworkPolicy) : Prop :=
  "Ingress" ∉ np_PolicyTypes np ∨ Exists (rule_allows matches protocol port) (np_Ingress np).

(** The NetworkPolicy of a bot is default-deny: it selects the bot's pods
    (the labels of the StatefulSet's template), and traffic is accepted
    exactly on TCP 8080, from the operator's namespace when that is known,
    from the pods of a FreqUI that references the bot, or from a peer the
    user listed - never from everywhere, even with no peer at all. *)
Theorem BuildNetworkPolicy_default_deny tradeBot freqUINames operatorNamespace image sn cs scm pvc hash matches protocol port :
  let np := BuildNetworkPolicy tradeBot freqUINames operatorNamespace in
  np_PodSelector np = pt_Labels (sts_Template (BuildStatefulSet tradeBot image sn cs scm pvc hash)) ∧
  (policy_allows matches protocol port np ↔
   protocol = "TCP" ∧ port = FreqtradeAPIPort ∧
   ((operatorNamespace ≠ "" ∧
       matches (PeerNamespaceSelector {[ "kubernetes.io/metadata.name" := operatorNamespace ]})) ∨
    (∃ name, name ∈ freqUINames ∧ matches (PeerPodSelector {[ appLabelKey := name ]})) ∨
    (∃ app spec p, App (Spec tradeBot) = Some app ∧ ta_NetworkPolicySpec app = Some spec ∧
       p ∈ tnp_ExtraPeers spec ∧ matches p))).
Proof.
  cbv zeta. split; [done|]. unfold policy_allows, BuildNetworkPolicy. cbn [np_PolicyTypes np_Ingress].
  assert ((∃ p, p ∈ network_policy_peers tradeBot freqUINames operatorNamespace ∧ matches p) ↔
    ((operatorNamespace ≠ "" ∧
       matches (PeerNamespaceSelector {[ "kubernetes.io/metadata.name" := operatorNamespace ]})) ∨
    (∃ name, name ∈ freqUINames ∧ matches (PeerPodSelector {[ appLabelKey := name ]})) ∨
    (∃ app spec p, App (Spec tradeBot) = Some app ∧ ta_NetworkPolicySpec app = Some spec ∧
       p ∈ tnp_ExtraPeers spec ∧ matches p))) as <-.
  { unfold network_policy_peers, app_field. setoid_rewrite elem_of_app. setoid_rewrite elem_of_app.
    rewrite <- (nonempty_spec operatorNamespace). setoid_rewrite list_elem_of_fmap.
    split.
    - intros (p & [Hp|[(n & -> & Hn)|Hp]] & Hm); [|by eauto|].
      + left. destruct (nonempty _); [|set_solver]. apply list_elem_of_singleton in Hp. by subst.
      + right; right. destruct (App _) as [app|] eqn:Ha; cbn in Hp; [|set_solver].
        destruct (ta_NetworkPolicySpec app) as [spec|] eqn:Hs; cbn in Hp; [|set_solver]. by exists app, spec, p.
    - intros [[-> Hm]|[(n & Hn & Hm)|(app & spec & p & Ha & Hs & Hp & Hm)]].
      + eexists. split; [left; apply list_elem_of_singleton; done|done].
      + eauto 10.
      + exists p. split; [|done]. right; right. by rewrite Ha; cbn; rewrite Hs. }
  destruct (network_policy_peers _ _ _) as [|p0 peers].
  - split; [|by intros (_ & _ & p & []%elem_of_nil & _)].
    intros [Hn|[]%Exists_nil]. set_solver.
  - rewrite Exists_cons, Exists_nil. unfold rule_allows. cbn [npr_Ports npr_From].
    rewrite !list_elem_of_singleton. split.
    + intros [Hn|[[[Hp|Hp] [Hf|Hm]]|Hn]]; [done..| |done].
      by injection Hp as -> ->.
    + intros (-> & -> & Hm). right; left. split; by right.
Qed.

(** The image the main container ends up with: the user's, else the default. *)
Definition resolved_image (tradeBot : TradeBot) (image : string) : string :=
  match app_field ta_PodSpec tradeBot with
  | Some o => if nonempty (tps_Image o) then tps_Image o else image
  | None => image
  end.

Lemma built_hash tradeBot image sn cs scm pvc hash :
  config_hash_of (BuildStatefulSet tradeBot image sn cs scm pvc hash) = hash.
Proof.
  unfold config_hash_of, BuildStatefulSet. cbn [sts_Template pt_Annotations].
  unfold nonempty. destruct (String.eqb_spec hash "") as [->|Hne]; cbn [negb]; [done|]. by rewrite lookup_singleton_eq.
Qed.

Lemma built_image tradeBot image sn cs scm pvc hash :
  main_image (BuildStatefulSet tradeBot image sn cs scm pvc hash) = resolved_image tradeBot image.
Proof.
  unfold main_image, resolved_image, BuildStatefulSet, BuildPod. cbn [sts_Template pt_Spec].
  by destruct (app_field ta_PodSpec tradeBot) as [o|].
Qed.

(** Whatever the pod overrides, the StatefulSet runs one replica of one
    container: freqtrade trade on the rendered config and the resolved
    strategy, unprivileged with a read-only root and resource limits unless
    the user sets resources, on the resolved image; the extra arguments come
    after the fixed ones, so only they can be the user's. *)
Theorem BuildStatefulSet_runs_trade tradeBot image sn cs scm pvc hash :
  let sts := BuildStatefulSet tradeBot image sn cs scm pvc hash in
  sts_Replicas sts = Some 1%Z ∧ sts_Selector sts = pt_Labels (sts_Template sts) ∧
  config_hash_of sts = hash ∧
  main_image sts = resolved_image tradeBot image ∧
  ∃ c, ps_Containers (pt_Spec (sts_Template sts)) = [c] ∧ c_Command c = [freqtradeAppName] ∧
    c_Args c = trade_args sn (FreqtradeArguments (Spec tradeBot)) ∧
    c_SecurityContext c = Some RestrictedSecurityContext ∧ c_Image c = resolved_image tradeBot image ∧
    c_Resources c ≠ NoResources.
Proof.
  cbv zeta. assert (DefaultContainerResources ≠ NoResources) as Hres by (intros [=]).
  split_and!; [done|done|apply built_hash|apply built_image|].
  unfold resolved_image, BuildStatefulSet, BuildPod. cbn [sts_Template pt_Spec].
  destruct (app_field ta_PodSpec tradeBot) as [o|]; cbn; eexists; split_and!; try done.
  cbn. by case_decide.
Qed.
