(* ===== verification/TradeBotStatus.v ===== *)
(** * controllers/tradebot/status.go

    Every status write of the TradeBot controller and of the poller goes
    through v1beta1, the storage version, although both work on a v1alpha1
    TradeBot: [patchTradeBotStatus] copies the status up and down around the
    caller's mutation. *)

From S2P Require Import Prelude Prog Kube Types Client Shared Conversion.
Import V1alpha1.

#[export] Program Instance tradebot_conditioned : ConditionedObject KTradeBotBeta := {|
  StatusT := TradeBotStatus;
  get_status := V1beta1.Status;
  with_status := V1beta1.with_Status;
  SetObservedGeneration s g :=
    {| tst_Phase := tst_Phase s; tst_Message := tst_Message s; tst_Conditions := tst_Conditions s;
       tst_ObservedGeneration := g; tst_AppliedConfigHash := tst_AppliedConfigHash s;
       tst_ResolvedImage := tst_ResolvedImage s; tst_Bot := tst_Bot s |}
|}.
Next Obligation. done. Qed.
Next Obligation. by intros []. Qed.
Next Obligation. done. Qed.

(** Field for field, the nested BotStatus included. *)
Definition copy_bot_status (b : BotStatus) : BotStatus :=
  {| bs_State := bs_State b; bs_Version := bs_Version b; bs_DryRun := bs_DryRun b;
     bs_OpenTrades := bs_OpenTrades b; bs_MaxOpenTrades := bs_MaxOpenTrades b;
     bs_TotalProfitAbs := bs_TotalProfitAbs b; bs_TotalProfitPct := bs_TotalProfitPct b;
     bs_LastPollTime := bs_LastPollTime b; bs_LastPollError := bs_LastPollError b |}.

Definition copy_status (s : TradeBotStatus) : TradeBotStatus :=
  {| tst_Phase := tst_Phase s; tst_Message := tst_Message s; tst_Conditions := tst_Conditions s;
     tst_ObservedGeneration := tst_ObservedGeneration s; tst_AppliedConfigHash := tst_AppliedConfigHash s;
     tst_ResolvedImage := tst_ResolvedImage s; tst_Bot := copy_bot_status <$> tst_Bot s |}.

Definition copyTradeBotStatusFromBeta (dst : TradeBot) (src : V1beta1.TradeBot) : TradeBot :=
  with_Status dst (copy_status (V1beta1.Status src)).

Definition copyTradeBotStatusToBeta (dst : V1beta1.TradeBot) (src : TradeBot) : V1beta1.TradeBot :=
  V1beta1.with_Status dst (copy_status (Status src)).

Lemma copy_status_id s : copy_status s = s.
Proof. destruct s as [? ? ? ? ? ? [[]|]]; done. Qed.

(** A mutation of the status alone. *)
Definition on_status (f : TradeBotStatus → TradeBotStatus) (t : TradeBot) : Op TradeBot :=
  mret (with_Status t (f (Status t))).

Section PatchTradeBotStatus.
Context `{KubeLib}.

(** The v1beta1 object with only its name and namespace set. *)
Definition beta_stub (tradeBot : TradeBot) : V1beta1.TradeBot :=
  V1beta1.with_Meta TradeBotConversion.ZeroBeta
    (NewMeta (Name (Meta tradeBot)) (Namespace (Meta tradeBot)) ∅ ∅).

Definition status_mutation (mutate : TradeBot → Op TradeBot) (beta : V1beta1.TradeBot) (t : TradeBot)
    : Op (TradeBotStatus * TradeBot) :=
  t' ← mutate (copyTradeBotStatusFromBeta t beta);
  mret (V1beta1.Status (copyTradeBotStatusToBeta beta t'), t').

(** The TradeBot afterwards, and the error. *)
Definition patchTradeBotStatus (tradeBot : TradeBot) (mutate : TradeBot → Op TradeBot)
    : Op (TradeBot * result unit) :=
  r ← PatchStatus KTradeBotBeta (beta_stub tradeBot) tradeBot (status_mutation mutate);
  mret (r.1.2, r.2).

(** [patchTradeBotStatus] whose mutation assigns fields of the status. *)
Definition patch_status (tradeBot : TradeBot) (f : TradeBotStatus → TradeBotStatus) : Op (TradeBot * result unit) :=
  patchTradeBotStatus tradeBot (on_status f).

Definition set_condition (c : Condition) (s : TradeBotStatus) : TradeBotStatus :=
  {| tst_Phase := tst_Phase s; tst_Message := tst_Message s;
     tst_Conditions := SetStatusCondition (tst_Conditions s) c;
     tst_ObservedGeneration := tst_ObservedGeneration s; tst_AppliedConfigHash := tst_AppliedConfigHash s;
     tst_ResolvedImage := tst_ResolvedImage s; tst_Bot := tst_Bot s |}.

(** ** Lemmas *)

Lemma patchTradeBotStatus_emits (P : ∀ X, Call X → Prop) t mutate :
  (∀ key, P _ (Get KTradeBotBeta key)) → (∀ o, P _ (StatusUpdate KTradeBotBeta o)) →
  (∀ t, emits P (mutate t)) → emits P (patchTradeBotStatus t mutate).
Proof.
  intros HG HU HM. apply emits_bind; [|done]. apply PatchStatus_emits; [apply HG|done|].
  intros o s. apply emits_bind; done.
Qed.

Lemma bot_status_emits (P : ∀ X, Call X → Prop) t f :
  (∀ key, P _ (Get KTradeBotBeta key)) → (∀ o, P _ (StatusUpdate KTradeBotBeta o)) →
  emits P (patch_status t f).
Proof. intros. by apply patchTradeBotStatus_emits. Qed.

(** Whatever the mutation, what is written is an object just read whose
    status alone has changed - metadata and spec, [Spec.State] above all, are
    those of the stored object - to a status the mutation computes from the
    stored one. *)
Lemma patchTradeBotStatus_history (W : history Call → TradeBotStatus → TradeBotStatus → Prop) t mutate h :
  (∀ h h' s s', W h s s' → W (h ++ h') s s') →
  (∀ t, emits (fun _ c => is_now c) (mutate t)) →
  (∀ t h, wp (mutate t) h (fun h' t' => W h' (Status t) (Status t'))) →
  wp (patchTradeBotStatus t mutate) h
     (fun h' _ => ∃ h1, h' = h ++ h1 ∧
        patch_history KTradeBotBeta (fun h o => W h (V1beta1.Status o)) (ObjectKeyFromMeta (Meta t)) h1).
Proof.
  intros Hmono Hm HW. apply wp_bind.
  eapply wp_mono; [|apply (PatchStatus_history _ _) with (W := fun h o => W h (V1beta1.Status o))].
  - cbn. intros h' _ Hh. exact Hh.
  - intros o s. apply emits_bind; done.
  - intros h1 h2 o st. apply Hmono.
  - intros o s h'. apply wp_bind. eapply wp_mono; [|apply HW]. cbn. intros h1 t'. by rewrite !copy_status_id.
Qed.

(** The spec and the metadata of the copy in memory are never touched. *)
Definition same_but_status (t t' : TradeBot) : Prop := Meta t' = Meta t ∧ Spec t' = Spec t.

Lemma patch_status_preserves t f h :
  wp (patch_status t f) h (fun _ r => same_but_status t r.1).
Proof.
  apply wp_bind. eapply (wp_mono _ _ (fun _ r => same_but_status t r.1.2)); [done|].
  assert (∀ n s h, same_but_status t s.2 →
    wp (retry n (patch_attempt KTradeBotBeta (ObjectKeyFromMeta (V1beta1.Meta (beta_stub t)))
          (status_mutation (on_status f))) s) h (fun _ r => same_but_status t r.1.2)) as Hr; [|by apply Hr].
  clear h. induction n as [|n IH]; intros s h Hs; cbn [retry]; apply wp_bind;
    (eapply (wp_mono _ _ (fun _ r => same_but_status t r.1.2));
      [|intros [o|e]; cbn; [case_decide; cbn; [exact Hs|intros [?|?]; exact Hs]|exact Hs]]);
    intros h' [s' [u|e]] Hs'; cbn; try done.
  destruct n; [done|]. destruct (IsConflict e); [by apply IH|done].
Qed.
End PatchTradeBotStatus.
