(* ===== verification/BotClient.v ===== *)
(** * controllers/tradebot/botclient and the access to a bot's REST API

    The client of botclient/client.go, and the functions of
    controllers/tradebot/poller.go that the poller and the reconciler share to
    reach a bot: its base URL, its credentials, its poll interval.

    [HttpDo] stands for building the request, the transport (5 s timeout, no
    redirects, no proxy) and the read of at most [maxResponseBody]+1 bytes of
    the body; it may answer any error. *)

From S2P Require Import Prelude Prog GoLib Kube Types ConfigTypes Client ConfigBuilder.
From S2P Require Import TradeBotResources.
Import V1alpha1.

Definition maxResponseBody : Z := Z.shiftl 1 20.

Record BotClient := { baseURL : string; username : string; password : string }.

Definition New (baseURL username password : string) : BotClient :=
  {| baseURL := baseURL; username := username; password := password |}.

Definition StatusErrorText (code : Z) : string := "unexpected HTTP status " ^^ Itoa code.

Section Client.
Context `{GoLib}.

(** What [do] makes of the transport's answer: the response's text. *)
Definition check_response (resp : result HttpResponse) : result string :=
  match resp with
  | Err e => Err e
  | Ok r =>
      match resp_Body r with
      | Err e => Err (Wrap "reading response body" e)
      | Ok data =>
          if (maxResponseBody <? Z.of_nat (String.length data))%Z
          then Err (Errorf ("response body exceeds " ^^ Itoa maxResponseBody ^^ " bytes"))
          else if (resp_StatusCode r <? 200)%Z || (300 <=? resp_StatusCode r)%Z
          then Err (Leaf (StatusError (resp_StatusCode r)) (StatusErrorText (resp_StatusCode r)))
          else Ok data
      end
  end.

Definition request_of (c : BotClient) (method path : string) : HttpRequest :=
  {| req_Method := method; req_URL := baseURL c ^^ path;
     req_BasicAuth := if nonempty (username c) || nonempty (password c)
                      then Some (username c, password c) else None;
     req_Body := "" |}.

(** [do] with a nil request body. *)
Definition do_ (c : BotClient) (method path : string) : Op (result string) :=
  resp ← trigger (HttpDo (request_of c method path)); mret (check_response resp).

Definition decoding {A} (dec : json → option A) (text : string) : result A :=
  wrap_err "decoding response" (unmarshal dec text).

(** *** The typed methods *)

Record ShowConfigResponse := { sc_State : string; sc_DryRun : bool }.
Record CountResponse := { cr_Current : Z; cr_Max : Z }.
Record ProfitResponse := { pf_ProfitAllCoin : float64; pf_ProfitAllPercent : float64 }.

Definition float_zero : float64 := S754_zero false.

Definition get_json {A} (c : BotClient) (path : string) (dec : json → option A) : Op (result A) :=
  data <-? do_ c "GET" path; mret (decoding dec data).

Definition Ping (c : BotClient) : Op (result unit) := _ <-? do_ c "GET" "/api/v1/ping"; mret (Ok tt).

Definition Version (c : BotClient) : Op (result string) :=
  get_json c "/api/v1/version" (decode_member decode_string "version" "").

Definition ShowConfig (c : BotClient) : Op (result ShowConfigResponse) :=
  get_json c "/api/v1/show_config" (fun j =>
    s ← decode_member decode_string "state" "" j;
    d ← decode_member decode_bool "dry_run" false j;
    Some {| sc_State := s; sc_DryRun := d |}).

Definition Count (c : BotClient) : Op (result CountResponse) :=
  get_json c "/api/v1/count" (fun j =>
    cur ← decode_member decode_int "current" 0%Z j;
    mx ← decode_member decode_int "max" 0%Z j;
    Some {| cr_Current := cur; cr_Max := mx |}).

Definition Profit (c : BotClient) : Op (result ProfitResponse) :=
  get_json c "/api/v1/profit" (fun j =>
    coin ← decode_member decode_float "profit_all_coin" float_zero j;
    pct ← decode_member decode_float "profit_all_percent" float_zero j;
    Some {| pf_ProfitAllCoin := coin; pf_ProfitAllPercent := pct |}).

Definition Balance (c : BotClient) : Op (result float64) :=
  get_json c "/api/v1/balance" (decode_member decode_float "total" float_zero).

Definition StartBot (c : BotClient) : Op (result unit) := _ <-? do_ c "POST" "/api/v1/start"; mret (Ok tt).
Definition StopBot (c : BotClient) : Op (result unit) := _ <-? do_ c "POST" "/api/v1/stop"; mret (Ok tt).

(** ** Access to a bot (poller.go) *)

Definition botBaseURL (tradeBot : TradeBot) : string :=
  "http://" ^^ Name (Meta tradeBot) ^^ "." ^^ Namespace (Meta tradeBot) ^^ ".svc.cluster.local:"
  ^^ Itoa FreqtradeAPIPort.

(** Nanoseconds. *)
Definition pollInterval (tradeBot : TradeBot) : Z :=
  match Introspection (Spec tradeBot) with
  | Some i => if (0 <? in_Interval i)%Z then in_Interval i else (60 * Second)%Z
  | None => (60 * Second)%Z
  end.

Lemma pollInterval_pos tradeBot : (0 < pollInterval tradeBot)%Z.
Proof. unfold pollInterval. destruct (Introspection _) as [i|]; [case_match|]; unfold Second; lia. Qed.

(** A Secret's value for a key, when it has at least one byte. *)
Definition secret_nonempty (d : SecretData) (k : string) (fallback : string) : string :=
  match secret_key d k with
  | Some v => if nonempty v then v else fallback
  | None => fallback
  end.

(** The exchange name comes back on errors too: (exchange, username and
    password or an error). *)
Definition resolveCredentials (tradeBot : TradeBot) : Op (string * result (string * string)) :=
  let name := Config (Spec tradeBot) in
  got ← trigger (Get KTradeBotConfig {| nn_Namespace := Namespace (Meta tradeBot); nn_Name := name |});
  match got with
  | Err e => mret ("", Err (Wrap ("failed to get TradeBotConfig " ^^ name) e))
  | Ok tradeBotConfig =>
      let spec := ConfigV1alpha1.Spec tradeBotConfig in
      let exchange := match ConfigV1alpha1.tc_Exchange spec with
                      | Some x => ConfigV1alpha1.ex_Name x | None => "" end in
      match ConfigV1alpha1.tc_APIServer spec with
      | None => mret (exchange, Err (Errorf ("TradeBotConfig " ^^ name ^^ " has no spec.apiServer")))
      | Some api =>
          if nonempty (ConfigV1alpha1.api_SecretRef api) then
            secretData ← GetSecretData (Namespace (Meta tradeBot)) (ConfigV1alpha1.api_SecretRef api);
            mret (exchange,
                  match secretData with
                  | Err e => Err (Wrap "failed to get API credentials secret" e)
                  | Ok d => Ok (secret_nonempty d "user" (ConfigV1alpha1.api_Username api),
                                secret_nonempty d "password" (ConfigV1alpha1.api_Password api))
                  end)
          else mret (exchange, Ok (ConfigV1alpha1.api_Username api, ConfigV1alpha1.api_Password api))
      end
  end.

(** ** Lemmas *)

(** Every typed method is one HTTP call. *)
Lemma do_emits (P : ∀ X, Call X → Prop) c method path :
  (∀ r, req_Method r = method → req_URL r = baseURL c ^^ path → P _ (HttpDo r)) → emits P (do_ c method path).
Proof. intros HP. cbn. split; [by apply HP|done]. Qed.

Lemma get_json_emits {A} (P : ∀ X, Call X → Prop) c path (dec : json → option A) :
  (∀ r, req_Method r = "GET" → P _ (HttpDo r)) → emits P (get_json c path dec).
Proof. intros HP. apply emits_bind_ok; [|done]. apply do_emits. intros r Hr _. by apply HP. Qed.

Lemma resolveCredentials_emits (P : ∀ X, Call X → Prop) tradeBot :
  (∀ key, P _ (Get KTradeBotConfig key)) → (∀ key, P _ (Get KSecret key)) →
  emits P (resolveCredentials tradeBot).
Proof.
  intros HC HS. cbn. split; [done|]. intros [c|e]; cbn; [|done].
  destruct (ConfigV1alpha1.tc_APIServer _) as [api|]; [|done].
  destruct (nonempty _); [|done]. unfold GetSecretData. apply emits_bind; [|done].
  case_match; [done|]. cbn. by split.
Qed.
End Client.
