(* ===== verification/Poller.v ===== *)
(** * controllers/tradebot/poller.go

    BotPoller: a scheduler goroutine that every tick enqueues the bots that
    are due, and worker goroutines that take a key from the channel and poll
    that bot.  They share [pollerState] (the map of poll states, guarded by a
    mutex, and the channel), so the programs here are over [PCall]: an
    external call, or an operation on the shared state.  [Section System] is
    the interleaving of the goroutines as a step relation.

    A panic in a poll is a step of its own ([sys_panic]): pollOneSafely
    recovers it after pollOne's deferred function. *)

From S2P Require Import Prelude Prog GoLib Kube Types ConfigTypes Client Shared ConfigBuilder.
From S2P Require Import Conversion TradeBotResources TradeBotStatus BotClient.
Import V1alpha1.

Definition defaultPollWorkers : nat := 4.
Definition maxBackoffMultiple : Z := 10.

(** ** Shared state *)

Record pollState := {
  nextPollAt : Z;                      (* nanoseconds *)
  consecutiveFailures : Z;
  inFlight : bool;
  pl_strategy : string;
  pl_exchange : string;
  pl_dryRun : string
}.

Definition new_pollState (now : Z) : pollState :=
  {| nextPollAt := now; consecutiveFailures := 0; inFlight := false;
     pl_strategy := ""; pl_exchange := ""; pl_dryRun := "" |}.

Definition with_inFlight (st : pollState) (b : bool) : pollState :=
  {| nextPollAt := nextPollAt st; consecutiveFailures := consecutiveFailures st; inFlight := b;
     pl_strategy := pl_strategy st; pl_exchange := pl_exchange st; pl_dryRun := pl_dryRun st |}.

Record pollerState := {
  p_state : gmap NamespacedName pollState;
  p_queue : list NamespacedName
}.

(** [f] applied to the state of [key], when it is tracked. *)
Definition on_key (key : NamespacedName) (f : pollState → pollState) (s : pollerState) : pollerState :=
  {| p_state := alter f key (p_state s); p_queue := p_queue s |}.

Inductive PCall : Type → Type :=
  | Ext {X} (c : Call X) : PCall X
  | Lock : PCall unit
  | Unlock : PCall unit
  | Upd {X} (f : pollerState → pollerState * X) : PCall X.

Abbreviation POp := (Prog PCall).

Fixpoint ext {A} (p : Op A) : POp A :=
  match p with
  | Ret a => Ret a
  | Vis c k => Vis (Ext c) (fun x => ext (k x))
  end.

Definition upd (f : pollerState → pollerState) : POp unit := trigger (Upd (fun s => (f s, tt))).

(** [p.mu.Lock(); ...; p.mu.Unlock()] *)
Definition locked {A} (p : POp A) : POp A :=
  _ ← trigger Lock; a ← p; _ ← trigger Unlock; mret a.

(** ** Which bots are polled *)

Definition isTradeMode (tradeBot : TradeBot) : bool :=
  let cmd := TrimSpace (FreqtradeCommand (Spec tradeBot)) in (cmd =? "")%string || (cmd =? "trade")%string.

Definition introspectionEnabled (tradeBot : TradeBot) : bool :=
  match Introspection (Spec tradeBot) with
  | Some i => match in_Enabled i with Some b => b | None => true end
  | None => true
  end.

Definition shouldPoll (tradeBot : TradeBot) : bool := isTradeMode tradeBot && introspectionEnabled tradeBot.

(** ** Conditions *)

Definition BotReachableCond (tradeBot : TradeBot) (st : ConditionStatus) (reason message : string) : Condition :=
  {| cType := ConditionBotReachable; cStatus := st; cReason := reason; cMessage := message;
     cObservedGeneration := Generation (Meta tradeBot) |}.

Definition unreachableCondition (tradeBot : TradeBot) (reason : string) (err : error) : Condition :=
  BotReachableCond tradeBot ConditionFalse reason (Error err).

Definition classifyError (err : error) : string :=
  match kind_of err with
  | StatusError code => if (code =? 401)%Z then ReasonAuthFailed else ReasonConnectionRefused
  | DeadlineExceeded | TimeoutError => ReasonTimeout
  | _ => ReasonConnectionRefused
  end.

Section Poller.
Context `{KubeLib} `{GoLib}.

Definition hasIntrospectionDisabledCondition (tradeBot : TradeBot) : bool :=
  match FindStatusCondition (tst_Conditions (Status tradeBot)) ConditionBotReachable with
  | Some cond => (cReason cond =? ReasonIntrospectionDisabled)%string
                 && (cObservedGeneration cond =? Generation (Meta tradeBot))%Z
  | None => false
  end.

Definition introspectionDisabledCondition (tradeBot : TradeBot) : Condition :=
  BotReachableCond tradeBot ConditionUnknown ReasonIntrospectionDisabled
    "spec.introspection.enabled is false; the operator is not polling this bot".

Definition setIntrospectionDisabledCondition (tradeBot : TradeBot) : Op unit :=
  _ ← patch_status tradeBot (set_condition (introspectionDisabledCondition tradeBot)); mret tt.

(** ** One poll of the REST API *)

Definition with_bs (b : BotStatus) (count : option CountResponse) (profit : option ProfitResponse)
    (lastError : string) : BotStatus :=
  {| bs_State := bs_State b; bs_Version := bs_Version b; bs_DryRun := bs_DryRun b;
     bs_OpenTrades := match count with Some c => Some (cr_Current c) | None => bs_OpenTrades b end;
     bs_MaxOpenTrades := match count with Some c => Some (cr_Max c) | None => bs_MaxOpenTrades b end;
     bs_TotalProfitAbs := match profit with
                          | Some p => FormatFloat (pf_ProfitAllCoin p) | None => bs_TotalProfitAbs b end;
     bs_TotalProfitPct := match profit with
                          | Some p => FormatFloat (pf_ProfitAllPercent p) | None => bs_TotalProfitPct b end;
     bs_LastPollTime := bs_LastPollTime b; bs_LastPollError := lastError |}.

Definition ok_opt {A} (r : result A) : option A := match r with Ok a => Some a | Err _ => None end.
Definition degraded {A} (what : string) (r : result A) : list string :=
  match r with Ok _ => [] | Err e => [what ^^ ": " ^^ Error e] end.

Definition pollWithClient (c : BotClient) (tradeBot : TradeBot)
    : Op (option BotStatus * Condition * option float64) :=
  let fail err := (None, unreachableCondition tradeBot (classifyError err) err, None) in
  ping ← Ping c;
  match ping with
  | Err err => mret (fail err)
  | Ok _ =>
      config ← ShowConfig c;
      match config with
      | Err err => mret (fail err)
      | Ok config =>
          version ← Version c;
          match version with
          | Err err => mret (fail err)
          | Ok version =>
              let botStatus := {| bs_State := sc_State config; bs_Version := version;
                                  bs_DryRun := Some (sc_DryRun config); bs_OpenTrades := None;
                                  bs_MaxOpenTrades := None; bs_TotalProfitAbs := ""; bs_TotalProfitPct := "";
                                  bs_LastPollTime := None; bs_LastPollError := "" |} in
              count ← Count c;
              profit ← Profit c;
              balance ← Balance c;
              let degraded := degraded "count" count ++ degraded "profit" profit ++ degraded "balance" balance in
              let lastError := match degraded with
                               | [] => ""
                               | _ => "best-effort fields unavailable: " ^^ Join degraded "; "
                               end in
              mret (Some (with_bs botStatus (ok_opt count) (ok_opt profit) lastError),
                    BotReachableCond tradeBot ConditionTrue ReasonAsExpected "", ok_opt balance)
          end
      end
  end.

(** The status, the condition, the exchange's name and the balance. *)
Definition poll (tradeBot : TradeBot) : Op (option BotStatus * Condition * string * option float64) :=
  r ← resolveCredentials tradeBot;
  match r.2 with
  | Err err => mret (None, unreachableCondition tradeBot ReasonConnectionRefused err, r.1, None)
  | Ok (username, password) =>
      q ← pollWithClient (New (botBaseURL tradeBot) username password) tradeBot;
      mret (q.1.1, q.1.2, r.1, q.2)
  end.

(** ** Recording the outcome *)

Definition with_poll_outcome (b : BotStatus) (now : Z) (lastError : string) : BotStatus :=
  {| bs_State := bs_State b; bs_Version := bs_Version b; bs_DryRun := bs_DryRun b;
     bs_OpenTrades := bs_OpenTrades b; bs_MaxOpenTrades := bs_MaxOpenTrades b;
     bs_TotalProfitAbs := bs_TotalProfitAbs b; bs_TotalProfitPct := bs_TotalProfitPct b;
     bs_LastPollTime := Some now; bs_LastPollError := lastError |}.

Definition ZeroBotStatus : BotStatus :=
  {| bs_State := ""; bs_Version := ""; bs_DryRun := None; bs_OpenTrades := None; bs_MaxOpenTrades := None;
     bs_TotalProfitAbs := ""; bs_TotalProfitPct := ""; bs_LastPollTime := None; bs_LastPollError := "" |}.

(** [now] in seconds, as a metav1.Time is stored. *)
Definition mergeBotStatus (existing fresh : option BotStatus) (reachable : Condition) (now : Z)
    : option BotStatus :=
  match fresh with
  | Some f => Some (with_poll_outcome f now (bs_LastPollError f))
  | None => Some (with_poll_outcome (default ZeroBotStatus existing) now (cMessage reachable))
  end.

Definition set_bot (b : option BotStatus) (s : TradeBotStatus) : TradeBotStatus :=
  {| tst_Phase := tst_Phase s; tst_Message := tst_Message s; tst_Conditions := tst_Conditions s;
     tst_ObservedGeneration := tst_ObservedGeneration s; tst_AppliedConfigHash := tst_AppliedConfigHash s;
     tst_ResolvedImage := tst_ResolvedImage s; tst_Bot := b |}.

Definition FormatBool (b : bool) : string := if b then "true" else "false".

Definition bot_labels_of (tradeBot : TradeBot) (botStatus : option BotStatus) (exchange : string) : BotLabels :=
  {| bl_Namespace := Namespace (Meta tradeBot); bl_TradeBot := Name (Meta tradeBot);
     bl_Strategy := StrategyName (Spec tradeBot); bl_Exchange := exchange;
     bl_DryRun := match botStatus ≫= bs_DryRun with Some b => FormatBool b | None => "unknown" end |}.

Definition gauge_opt (g : gauge) (l : BotLabels) (v : option float64) : Op unit :=
  match v with Some v => trigger (GaugeSet g l v) | None => mret tt end.

(** The gauges of recordMetrics, after its locked section. *)
Definition record_gauges (labels : BotLabels) (botStatus : option BotStatus) (reachable : Condition)
    (balance : option float64) : Op unit :=
  _ ← trigger (GaugeSet BotUp labels (float_of_Z (if decide (cStatus reachable = ConditionTrue) then 1 else 0)));
  now ← trigger Now;
  _ ← trigger (GaugeSet BotLastPollTimestampSeconds labels (float_of_Z (now / Second)));
  match botStatus with
  | None => mret tt
  | Some b =>
      _ ← trigger (GaugeSet BotState labels (float_of_Z (if (bs_State b =? "running")%string then 1 else 0)));
      _ ← gauge_opt BotOpenTrades labels (float_of_Z <$> bs_OpenTrades b);
      _ ← gauge_opt BotMaxOpenTrades labels (float_of_Z <$> bs_MaxOpenTrades b);
      _ ← gauge_opt BotProfitAbs labels (ParseFloat (bs_TotalProfitAbs b));
      _ ← gauge_opt BotProfitRatio labels ((fun v => float_div v (float_of_Z 100)) <$> ParseFloat (bs_TotalProfitPct b));
      gauge_opt BotBalance labels balance
  end.

Definition remember_labels (l : BotLabels) (st : pollState) : pollState :=
  {| nextPollAt := nextPollAt st; consecutiveFailures := consecutiveFailures st; inFlight := inFlight st;
     pl_strategy := bl_Strategy l; pl_exchange := bl_Exchange l; pl_dryRun := bl_DryRun l |}.

Definition recordMetrics (key : NamespacedName) (tradeBot : TradeBot) (botStatus : option BotStatus)
    (reachable : Condition) (exchange : string) (balance : option float64) : POp unit :=
  let labels := bot_labels_of tradeBot botStatus exchange in
  _ ← locked (upd (on_key key (remember_labels labels)));
  ext (record_gauges labels botStatus reachable balance).

(** time.Duration arithmetic wraps at 64 bits. *)
Definition backoff_of (interval failures : Z) : Z :=
  let shift := Z.min failures 4 in
  let backoff := int64 (interval * Z.shiftl 1 shift) in
  let maxBackoff := int64 (interval * maxBackoffMultiple) in
  if (maxBackoff <? backoff)%Z then maxBackoff else backoff.

Definition backoff_success (now interval : Z) (st : pollState) : pollState :=
  {| nextPollAt := now + interval; consecutiveFailures := 0; inFlight := inFlight st;
     pl_strategy := pl_strategy st; pl_exchange := pl_exchange st; pl_dryRun := pl_dryRun st |}.

Definition backoff_failure (now interval : Z) (st : pollState) : pollState :=
  let n := int64 (consecutiveFailures st + 1) in
  {| nextPollAt := now + backoff_of interval n; consecutiveFailures := n; inFlight := inFlight st;
     pl_strategy := pl_strategy st; pl_exchange := pl_exchange st; pl_dryRun := pl_dryRun st |}.

Definition next_backoff (reachable : Condition) (now interval : Z) (st : pollState) : pollState :=
  if decide (cStatus reachable = ConditionTrue) then backoff_success now interval st
  else backoff_failure now interval st.

(** [time.Now()] is read under the lock, for a tracked bot only. *)
Definition updateBackoff (key : NamespacedName) (tradeBot : TradeBot) (reachable : Condition) : POp unit :=
  locked (ok ← trigger (Upd (fun s => (s, bool_decide (is_Some (p_state s !! key)))));
          if ok : bool then
            now ← trigger (Ext Now);
            upd (on_key key (next_backoff reachable now (pollInterval tradeBot)))
          else mret tt).

(** ** pollOne *)

(** The deferred function of pollOne. *)
Definition clear_inFlight (key : NamespacedName) : POp unit :=
  locked (upd (on_key key (fun st => with_inFlight st false))).

Definition after_poll (fresh : option BotStatus) (reachable : Condition) (t : TradeBot) : Op TradeBot :=
  now ← trigger Now;
  on_status (fun s => set_condition reachable
                        (set_bot (mergeBotStatus (tst_Bot s) fresh reachable (now / Second)) s)) t.

Definition pollOne (key : NamespacedName) : POp unit :=
  got ← ext (trigger (Get KTradeBot key));
  _ ← match got with
      | Err _ => mret tt
      | Ok tradeBot =>
          q ← ext (poll tradeBot);
          let '(fresh, reachable, exchange, balance) := q in
          _ ← recordMetrics key tradeBot fresh reachable exchange balance;
          _ ← updateBackoff key tradeBot reachable;
          _ ← ext (patchTradeBotStatus tradeBot (after_poll fresh reachable));
          mret tt
      end;
  clear_inFlight key.

(** ** scheduleDue *)

(** Body of the loop for a bot that is to be polled: track it, enqueue it if
    it is due and the channel has room. *)
Definition schedule_bot (cap : nat) (now : Z) (key : NamespacedName) (s : pollerState) : pollerState :=
  let st := default (new_pollState now) (p_state s !! key) in
  if inFlight st || (now <? nextPollAt st)%Z then {| p_state := <[key := st]> (p_state s); p_queue := p_queue s |}
  else if (length (p_queue s) <? cap)%nat
       then {| p_state := <[key := with_inFlight st true]> (p_state s); p_queue := p_queue s ++ [key] |}
       else {| p_state := <[key := with_inFlight st false]> (p_state s); p_queue := p_queue s |}.

Definition tradebot_key (tradeBot : TradeBot) : NamespacedName := ObjectKeyFromMeta (Meta tradeBot).

Fixpoint schedule_loop (cap : nat) (now : Z) (items : list TradeBot) (seen : list NamespacedName)
    (disabled : list TradeBot) : POp (list NamespacedName * list TradeBot) :=
  match items with
  | [] => mret (seen, disabled)
  | tradeBot :: items =>
      if negb (isTradeMode tradeBot) then schedule_loop cap now items seen disabled
      else if negb (introspectionEnabled tradeBot) then
        schedule_loop cap now items seen
          (if hasIntrospectionDisabledCondition tradeBot then disabled else disabled ++ [tradeBot])
      else
        _ ← upd (schedule_bot cap now (tradebot_key tradeBot));
        schedule_loop cap now items (tradebot_key tradeBot :: seen) disabled
  end.

Definition labels_of_state (key : NamespacedName) (st : pollState) : BotLabels :=
  {| bl_Namespace := nn_Namespace key; bl_TradeBot := nn_Name key; bl_Strategy := pl_strategy st;
     bl_Exchange := pl_exchange st; bl_DryRun := pl_dryRun st |}.

(** The cleanup pass, over a snapshot of the entries (the code deletes while
    ranging over the map). *)
Fixpoint forget_loop (seen : list NamespacedName) (entries : list (NamespacedName * pollState)) : POp unit :=
  match entries with
  | [] => mret tt
  | (key, st) :: entries =>
      if decide (key ∈ seen) then forget_loop seen entries
      else
        _ ← ext (DeleteBotMetrics (labels_of_state key st));
        _ ← upd (fun s => {| p_state := delete key (p_state s); p_queue := p_queue s |});
        forget_loop seen entries
  end.

Definition scheduleDue (cap : nat) : POp unit :=
  list ← ext (trigger (ListAll KTradeBot None None));
  match list with
  | Err _ => mret tt
  | Ok items =>
      now ← ext (trigger Now);
      disabled ← locked (
        r ← schedule_loop cap now items [] [];
        entries ← trigger (Upd (fun s => (s, map_to_list (p_state s))));
        _ ← forget_loop r.1 entries;
        mret r.2);
      foldr (fun tradeBot rest => _ ← ext (setIntrospectionDisabledCondition tradeBot); rest) (mret tt) disabled
  end.
End Poller.

(** ** What a poll may do *)

(** The calls of one poll: reads of the bot's own objects, GET requests, the
    clock, the bot's gauges and the write of the bot's status. *)
Definition poll_call {X} (c : Call X) : Prop :=
  match c with
  | Get k _ => k = KTradeBot ∨ k = KTradeBotBeta ∨ k = KTradeBotConfig ∨ k = KSecret
  | StatusUpdate k _ => k = KTradeBotBeta
  | HttpDo r => req_Method r = "GET"
  | Now | GaugeSet _ _ _ => True
  | _ => False
  end.

Definition poll_pcall {X} (c : PCall X) : Prop := match c with Ext c => poll_call c | _ => True end.

Lemma ext_emits {A} (P : ∀ X, Call X → Prop) (p : Op A) :
  emits P p → emits (fun _ (c : PCall _) => match c with Ext c => P _ c | _ => True end) (ext p).
Proof. induction p as [a|X c k IH]; [done|]. intros [Hc Hk]. split; [exact Hc|]. intros x. apply IH, Hk. Qed.

(** *** External calls in the history of a goroutine *)

Definition lift_ev (e : event Call) : event PCall := match e with Ev c x => Ev (Ext c) x end.

Definition unlift (e : event PCall) : option (event Call) :=
  match e with
  | @Ev _ _ c x => match c in PCall X return X → option (event Call) with
                   | Ext c => fun x => Some (Ev c x)
                   | _ => fun _ => None
                   end x
  end.

Lemma unlift_lift e : unlift (lift_ev e) = Some e.
Proof. by destruct e. Qed.

Lemma elem_of_lift e h : lift_ev e ∈ map lift_ev h ↔ e ∈ h.
Proof.
  split; [|intros; by apply list_elem_of_fmap_2]. intros (e' & E & Hin)%list_elem_of_fmap.
  apply (f_equal unlift) in E. rewrite !unlift_lift in E. by injection E as ->.
Qed.

Lemma wp_ext {A} (p : Op A) h0 h Q :
  wp p h0 Q → wp (ext p) (h ++ map lift_ev h0) (fun h' a => ∃ h1, h' = h ++ map lift_ev h1 ∧ Q h1 a).
Proof.
  revert h0; induction p as [a|X c k IH]; intros h0 Hp; cbn; [by exists h0|].
  intros x. specialize (IH x _ (Hp x)). rewrite map_app in IH. by rewrite <- app_assoc.
Qed.

Lemma wp_ext_result {A} (p : Op A) h (Q : A → Prop) : wp p [] (fun _ a => Q a) → wp (ext p) h (fun _ a => Q a).
Proof.
  intros Hp%(wp_ext p [] h). rewrite app_nil_r in Hp. eapply wp_mono; [|exact Hp]. cbn. by intros _ a (_ & _ & HQ).
Qed.

(** *** The exchanges over HTTP *)

Definition exchange_of (e : event Call) : option (HttpRequest * result HttpResponse) :=
  match e with
  | @Ev _ _ c x => match c in Call X return X → option (HttpRequest * result HttpResponse) with
                   | HttpDo r => fun x => Some (r, x)
                   | _ => fun _ => None
                   end x
  end.

(** The requests of a history with what they were answered, in order. *)
Definition http_of (h : history Call) : list (HttpRequest * result HttpResponse) := omap exchange_of h.
Definition exchanges (h : history PCall) : list (HttpRequest * result HttpResponse) := http_of (omap unlift h).

Lemma http_of_app h h' : http_of (h ++ h') = http_of h ++ http_of h'.
Proof. apply omap_app. Qed.

Lemma exchanges_app h h' : exchanges (h ++ h') = exchanges h ++ exchanges h'.
Proof. unfold exchanges, http_of. by rewrite !omap_app. Qed.

Lemma exchanges_lift h : exchanges (map lift_ev h) = http_of h.
Proof. unfold exchanges. f_equal. induction h as [|e h IH]; [done|]. cbn. by rewrite unlift_lift, IH. Qed.

Definition no_http {X} (c : Call X) : Prop := match c with HttpDo _ => False | _ => True end.

Lemma http_of_quiet h : Forall (ev_sat (@no_http)) h → http_of h = [].
Proof.
  induction 1 as [|[X c x] h Hc _ IH]; [done|]. change (http_of (Ev c x :: h)) with (http_of ([Ev c x] ++ h)).
  rewrite http_of_app, IH, app_nil_r. cbn in Hc. by destruct c.
Qed.

Lemma wp_no_http {A} (p : Op A) h : emits (@no_http) p → wp p h (fun h' _ => http_of h' = http_of h).
Proof.
  intros Hp. eapply wp_mono; [|by apply emits_wp_app]. intros h' a (h1 & -> & Hh1).
  by rewrite http_of_app, (http_of_quiet h1 Hh1), app_nil_r.
Qed.

Section PollLemmas.
Context `{KubeLib} `{GoLib}.

Lemma pollWithClient_emits (P : ∀ X, Call X → Prop) c t :
  (∀ r, req_Method r = "GET" → P _ (HttpDo r)) → emits P (pollWithClient c t).
Proof.
  intros HP.
  assert (emits P (Ping c)) as Hping by (apply emits_bind_ok; [|done]; apply do_emits; auto).
  apply emits_bind; [done|]. intros [u|e]; [|done].
  apply emits_bind; [by apply get_json_emits|]. intros [cfg|e]; [|done].
  apply emits_bind; [by apply get_json_emits|]. intros [v|e]; [|done].
  repeat (apply emits_bind; [by apply get_json_emits|]; intros ?). done.
Qed.

Lemma poll_emits (P : ∀ X, Call X → Prop) t :
  (∀ key, P _ (Get KTradeBotConfig key)) → (∀ key, P _ (Get KSecret key)) →
  (∀ r, req_Method r = "GET" → P _ (HttpDo r)) → emits P (poll t).
Proof.
  intros HC HS HP. apply emits_bind; [by apply resolveCredentials_emits|]. intros [ex [[u p]|e]]; [|done].
  apply emits_bind; [by apply pollWithClient_emits|done].
Qed.

Lemma record_gauges_emits (P : ∀ X, Call X → Prop) l b r v :
  (∀ g v, P _ (GaugeSet g l v)) → P _ Now → emits P (record_gauges l b r v).
Proof.
  intros HG HN. assert (∀ g v, emits P (gauge_opt g l v)) as Hopt.
  { intros g v0. unfold gauge_opt. case_match; [|done]. by cbn. }
  unfold record_gauges. split; [auto|]. intros ?. split; [done|]. intros now. split; [auto|]. intros ?.
  destruct b as [b|]; [|done]. split; [auto|]. intros ?.
  repeat (apply emits_bind; [apply Hopt|]; intros ?). apply Hopt.
Qed.

Lemma locked_poll_emits {A} (p : POp A) : emits (@poll_pcall) p → emits (@poll_pcall) (locked p).
Proof.
  intros Hp. apply emits_bind; [done|]. intros ?. apply emits_bind; [done|]. by intros.
Qed.
End PollLemmas.

Section Properties.
Context `{KubeLib} `{GoLib}.

(** Polling is read-only towards the bot and the cluster, its own status
    aside: whatever is answered, a poll only sends GET requests - never a
    start, a stop or a trade - and writes nothing but the v1beta1 status. *)
Theorem pollOne_read_only key : emits (@poll_pcall) (pollOne key).
Proof.
  unfold pollOne. apply emits_bind; [apply ext_emits; cbn; auto|]. intros got.
  apply emits_bind; [|intros ?; by apply locked_poll_emits].
  destruct got as [t|e]; [|done]. apply emits_bind; [apply ext_emits, poll_emits; cbn; auto|].
  intros [[[fresh reachable] exchange] balance]. apply emits_bind.
  { apply emits_bind; [by apply locked_poll_emits|]. intros ?. by apply ext_emits, record_gauges_emits. }
  intros ?. apply emits_bind.
  { apply locked_poll_emits. split; [done|]. intros [|]; [|done]. split; [done|]. by intros ?. }
  intros ?. apply emits_bind; [|done].
  apply ext_emits, patchTradeBotStatus_emits; cbn; auto.
Qed.

(** *** What the bot answered

    A response is usable with a status of 2xx and a whole body of at most
    1 MiB; it says [a] where [dec] reads [a] in the body's JSON. *)
Definition body_of (resp : result HttpResponse) (data : string) : Prop :=
  ∃ r, resp = Ok r ∧ resp_Body r = Ok data ∧ (Z.of_nat (String.length data) <= 2 ^ 20)%Z ∧
    (200 <= resp_StatusCode r < 300)%Z.

Definition says {A} (resp : result HttpResponse) (dec : json → option A) (a : A) : Prop :=
  ∃ data j, body_of resp data ∧ json_Unmarshal data = Some j ∧ dec j = Some a.

(** The members of each response. *)
Definition says_config resp (state : string) (dryRun : bool) : Prop :=
  says resp (decode_member decode_string "state" "") state ∧
  says resp (decode_member decode_bool "dry_run" false) dryRun.
Definition says_version resp (version : string) : Prop :=
  says resp (decode_member decode_string "version" "") version.
Definition says_count resp (current max : Z) : Prop :=
  says resp (decode_member decode_int "current" 0%Z) current ∧ says resp (decode_member decode_int "max" 0%Z) max.
Definition says_profit resp (coin percent : float64) : Prop :=
  says resp (decode_member decode_float "profit_all_coin" (S754_zero false)) coin ∧
  says resp (decode_member decode_float "profit_all_percent" (S754_zero false)) percent.
Definition says_balance resp (total : float64) : Prop :=
  says resp (decode_member decode_float "total" (S754_zero false)) total.

(** The GET requests of one poll of [t], logged in as [user]. *)
Definition poll_get (t : TradeBot) (user password path : string) : HttpRequest :=
  {| req_Method := "GET"; req_URL := botBaseURL t ^^ path;
     req_BasicAuth := if nonempty user || nonempty password then Some (user, password) else None;
     req_Body := "" |}.

(** The bot answered the poll and its answers are the whole of [b]: state and
    dry run from /show_config, the version from /version, the trades from
    /count and the profits from /profit, or nothing where that one answer is
    missing, with the error text empty exactly if none is. *)
Definition poll_answered (t : TradeBot) (calls : list (HttpRequest * result HttpResponse)) (b : BotStatus) : Prop :=
  ∃ user password ping config version count profit balance,
    let get := poll_get t user password in
    calls = [(get "/api/v1/ping", ping); (get "/api/v1/show_config", config); (get "/api/v1/version", version);
             (get "/api/v1/count", count); (get "/api/v1/profit", profit); (get "/api/v1/balance", balance)] ∧
    (∃ data, body_of ping data) ∧
    (∃ dryRun, says_config config (bs_State b) dryRun ∧ bs_DryRun b = Some dryRun) ∧
    says_version version (bs_Version b) ∧
    ((∃ current max, says_count count current max ∧ bs_OpenTrades b = Some current ∧ bs_MaxOpenTrades b = Some max) ∨
     ((∀ current max, ¬ says_count count current max) ∧ bs_OpenTrades b = None ∧ bs_MaxOpenTrades b = None)) ∧
    ((∃ coin percent, says_profit profit coin percent ∧
        bs_TotalProfitAbs b = FormatFloat coin ∧ bs_TotalProfitPct b = FormatFloat percent) ∨
     ((∀ coin percent, ¬ says_profit profit coin percent) ∧ bs_TotalProfitAbs b = "" ∧ bs_TotalProfitPct b = "")) ∧
    (bs_LastPollError b = "" ↔
     (∃ current max, says_count count current max) ∧ (∃ coin percent, says_profit profit coin percent) ∧
     ∃ total, says_balance balance total).

(** The bot could not be asked, or did not answer one of the three requests
    a poll cannot do without. *)
Definition poll_unanswered (t : TradeBot) (calls : list (HttpRequest * result HttpResponse)) : Prop :=
  calls = [] ∨
  ∃ user password ping config version,
    let get := poll_get t user password in
    (calls = [(get "/api/v1/ping", ping)] ∧ ∀ data, ¬ body_of ping data) ∨
    (calls = [(get "/api/v1/ping", ping); (get "/api/v1/show_config", config)] ∧
     ∀ state dryRun, ¬ says_config config state dryRun) ∨
    (calls = [(get "/api/v1/ping", ping); (get "/api/v1/show_config", config); (get "/api/v1/version", version)] ∧
     ∀ v, ¬ says_version version v).

(** The outcome of a poll that made the requests [calls]. *)
Definition poll_outcome (t : TradeBot) (calls : list (HttpRequest * result HttpResponse)) (b : option BotStatus)
    (r : Condition) : Prop :=
  cType r = ConditionBotReachable ∧ cObservedGeneration r = Generation (Meta t) ∧
  ((∃ b', b = Some b' ∧ poll_answered t calls b' ∧ cStatus r = ConditionTrue ∧ cReason r = ReasonAsExpected) ∨
   (b = None ∧ poll_unanswered t calls ∧ cStatus r = ConditionFalse ∧ ∃ e, cMessage r = Error e ∧
      (cReason r = classifyError e ∨ cReason r = ReasonConnectionRefused))).

(** *** The requests of the client *)

Lemma check_response_body resp data : check_response resp = Ok data ↔ body_of resp data.
Proof.
  unfold check_response, body_of. destruct resp as [r|e]; [|by split; [|intros (r & [=] & _)]].
  destruct (resp_Body r) as [d|e] eqn:Hb.
  2: { split; [done|]. intros (r' & [= <-] & Hd & _). congruence. }
  change maxResponseBody with (2 ^ 20)%Z.
  destruct (Z.ltb_spec (2 ^ 20) (Z.of_nat (String.length d))) as [Hl|Hl].
  { split; [done|]. intros (r' & [= <-] & Hd & Hlen & _). assert (d = data) as -> by congruence. lia. }
  destruct (Z.ltb_spec (resp_StatusCode r) 200) as [H1|H1]; cbn [orb].
  { split; [done|]. intros (r' & [= <-] & _ & _ & Hc). lia. }
  destruct (Z.leb_spec 300 (resp_StatusCode r)) as [H2|H2].
  { split; [done|]. intros (r' & [= <-] & _ & _ & Hc). lia. }
  split.
  - intros [= <-]. exists r. by split_and!.
  - intros (r' & [= <-] & Hd & _). congruence.
Qed.

(** A typed method sends one request, and returns what its response says. *)
Lemma get_json_answer {A} c path (dec : json → option A) h :
  wp (get_json c path dec) h (fun h' x => ∃ resp,
    http_of h' = http_of h ++ [(request_of c "GET" path, resp)] ∧ ∀ a, x = Ok a ↔ says resp dec a).
Proof.
  intros resp. cbn. assert (http_of (h ++ [Ev (HttpDo (request_of c "GET" path)) resp]) =
    http_of h ++ [(request_of c "GET" path, resp)]) as Hh by apply http_of_app.
  destruct (check_response resp) as [data|e] eqn:Hc; cbn; exists resp; (split; [exact Hh|]); intros a.
  - apply check_response_body in Hc as Hb. unfold decoding, unmarshal, says. split.
    + destruct (json_Unmarshal data) as [j|] eqn:Hj; [|done]. cbn. destruct (dec j) as [a'|] eqn:Ha; [|done].
      intros [= ->]. by exists data, j.
    + intros (data' & j & Hb'%check_response_body & Hj & Ha). assert (data' = data) as -> by congruence.
      rewrite Hj. cbn. by rewrite Ha.
  - split; [done|]. intros (data' & j & Hb'%check_response_body & _). congruence.
Qed.

Lemma ping_answer c h :
  wp (Ping c) h (fun h' x => ∃ resp, http_of h' = http_of h ++ [(request_of c "GET" "/api/v1/ping", resp)] ∧
    (is_ok x = true ↔ ∃ data, body_of resp data)).
Proof.
  intros resp. cbn. assert (http_of (h ++ [Ev (HttpDo (request_of c "GET" "/api/v1/ping")) resp]) =
    http_of h ++ [(request_of c "GET" "/api/v1/ping", resp)]) as Hh by apply http_of_app.
  destruct (check_response resp) as [data|e] eqn:Hc; cbn; exists resp; (split; [exact Hh|]).
  - split; [|done]. intros _. exists data. by apply check_response_body.
  - split; [done|]. intros (data' & Hb%check_response_body). congruence.
Qed.

(** Two members of one response. *)
Lemma says_pair {A B C} resp (da : json → option A) (db : json → option B) (f : A → B → C) :
  ∀ c, says resp (fun j => a ← da j; b ← db j; Some (f a b)) c ↔ ∃ a b, says resp da a ∧ says resp db b ∧ c = f a b.
Proof.
  intros c. split.
  - intros (data & j & Hb & Hj & Hd). destruct (da j) as [a|] eqn:Ha; [|done]. cbn in Hd.
    destruct (db j) as [b|] eqn:Hdb; [|done]. injection Hd as <-. exists a, b. split_and!; [| |done]; by exists data, j.
  - intros (a & b & (data & j & Hb & Hj & Ha) & (data' & j' & Hb' & Hj' & Hdb) & ->). exists data, j.
    split_and!; [done..|]. apply check_response_body in Hb, Hb'. assert (data' = data) as -> by congruence.
    assert (j' = j) as -> by congruence. by rewrite Ha; cbn; rewrite Hdb.
Qed.

Lemma degraded_nil {A B C} a b d (x : result A) (y : result B) (z : result C) :
  degraded a x ++ degraded b y ++ degraded d z = [] ↔ is_ok x = true ∧ is_ok y = true ∧ is_ok z = true.
Proof. destruct x, y, z; cbn; split; intuition discriminate. Qed.

Lemma best_effort_error l :
  match l with [] => "" | _ => "best-effort fields unavailable: " ^^ Join l "; " end = "" ↔ l = [].
Proof. destruct l; [done|]. by split. Qed.

Lemma answered_ok {A} (x : result A) (P : A → Prop) : (∀ a, x = Ok a ↔ P a) → is_ok x = true ↔ ∃ a, P a.
Proof.
  intros Hx. destruct x as [a|e]; cbn; split; [|done|done|].
  - intros _. exists a. by apply Hx.
  - intros (a & Ha). apply Hx in Ha. discriminate.
Qed.

Lemma pollWithClient_outcome u p t h :
  http_of h = [] →
  wp (pollWithClient (New (botBaseURL t) u p) t) h (fun h' r => poll_outcome t (http_of h') r.1.1 r.1.2).
Proof.
  intros Hnil. set (get := poll_get t u p).
  assert (∀ calls e, poll_unanswered t calls →
    poll_outcome t calls None (unreachableCondition t (classifyError e) e)) as Hfail.
  { intros calls e Hu. split_and!; [done..|]. right. split_and!; [done..|]. exists e. auto. }
  apply wp_bind. eapply wp_mono; [|apply ping_answer]. intros h1 ping_ok (ping & Hh1 & Hping). rewrite Hnil in Hh1.
  destruct ping_ok as [[]|e]; cbn in Hping.
  2: { apply Hfail. right. exists u, p, ping, (Err e), (Err e). left. split; [exact Hh1|].
       intros data Hd. destruct Hping as [_ Hp]. discriminate Hp. by exists data. }
  apply wp_bind. eapply wp_mono; [|apply get_json_answer]. intros h2 cfg (config & Hh2 & Hcfg). rewrite Hh1 in Hh2.
  pose proof (fun c => iff_trans (Hcfg c) (says_pair _ _ _ Build_ShowConfigResponse c)) as Hc. clear Hcfg.
  destruct cfg as [cfg|e].
  2: { apply Hfail. right. exists u, p, ping, config, (Err e). right; left. split; [exact Hh2|].
       intros st dry [H1 H2]. destruct (Hc {| sc_State := st; sc_DryRun := dry |}) as [_ Hx].
       discriminate Hx. by exists st, dry. }
  apply wp_bind. eapply wp_mono; [|apply get_json_answer]. intros h3 v (version & Hh3 & Hv). rewrite Hh2 in Hh3.
  destruct v as [v|e].
  2: { apply Hfail. right. exists u, p, ping, config, version. right; right. split; [exact Hh3|].
       intros v Hs%Hv. discriminate. }
  apply wp_bind. eapply wp_mono; [|apply get_json_answer]. intros h4 n (count & Hh4 & Hn). rewrite Hh3 in Hh4.
  apply wp_bind. eapply wp_mono; [|apply get_json_answer]. intros h5 pf (profit & Hh5 & Hpf). rewrite Hh4 in Hh5.
  apply wp_bind. eapply wp_mono; [|apply get_json_answer]. intros h6 bal (balance & Hh6 & Hbal). rewrite Hh5 in Hh6.
  pose proof (fun c => iff_trans (Hn c) (says_pair _ _ _ Build_CountResponse c)) as Hcount. clear Hn.
  pose proof (fun c => iff_trans (Hpf c) (says_pair _ _ _ Build_ProfitResponse c)) as Hprofit. clear Hpf.
  split_and!; [done..|]. left. eexists. split_and!; [done| |done..].
  exists u, p, ping, config, version, count, profit, balance. cbn zeta. split; [exact Hh6|].
  split; [by apply Hping|]. split.
  { destruct (proj1 (Hc cfg) eq_refl) as (st & dry & H1 & H2 & ->). by exists dry. }
  split; [by apply Hv|]. split; [|split].
  - destruct n as [n|e].
    + left. destruct (proj1 (Hcount n) eq_refl) as (cur & mx & H1 & H2 & ->). by exists cur, mx.
    + right. split; [|done]. intros cur mx [H1 H2].
      destruct (Hcount {| cr_Current := cur; cr_Max := mx |}) as [_ Hx]. discriminate Hx. by exists cur, mx.
  - destruct pf as [n'|e].
    + left. destruct (proj1 (Hprofit n') eq_refl) as (coin & pct & H1 & H2 & ->). by exists coin, pct.
    + right. split; [|done]. intros coin pct [H1 H2].
      destruct (Hprofit {| pf_ProfitAllCoin := coin; pf_ProfitAllPercent := pct |}) as [_ Hx].
      discriminate Hx. by exists coin, pct.
  - cbn [bs_LastPollError with_bs]. rewrite best_effort_error, degraded_nil.
    rewrite (answered_ok n _ Hcount), (answered_ok pf _ Hprofit), (answered_ok bal _ Hbal).
    unfold says_count, says_profit, says_balance. split; intros (Ha & Hb & Hd); split_and!; try exact Hd.
    + destruct Ha as (? & cur & mx & ? & ? & ->); eauto.
    + destruct Hb as (? & cur & mx & ? & ? & ->); eauto.
    + destruct Ha as (cur & mx & ? & ?); eauto 10.
    + destruct Hb as (cur & mx & ? & ?); eauto 10.
Qed.

Lemma resolveCredentials_no_http t h : wp (resolveCredentials t) h (fun h' _ => http_of h' = http_of h).
Proof. by apply wp_no_http, resolveCredentials_emits. Qed.

Lemma poll_spec t : wp (poll t) [] (fun h r => poll_outcome t (http_of h) r.1.1.1 r.1.1.2).
Proof.
  apply wp_bind. eapply wp_mono; [|apply resolveCredentials_no_http]. intros h1 [ex [[u p]|e]] Hh1.
  - apply wp_bind. eapply wp_mono; [|by apply pollWithClient_outcome]. cbn. intros h2 q Hq. exact Hq.
  - cbn. split_and!; [done..|]. right. split_and!; [done|by left|done|]. exists e. auto.
Qed.

(** What a status write of a poll may contain, given the stored status and
    the requests of the poll, the clock reading [now] of the write: on success the bot's answers, and nothing of
    the stored [status.bot]; on failure what was known last, and only the
    poll's time and error new. *)
Definition last_known (old : option BotStatus) (b : BotStatus) : Prop :=
  match old with
  | Some o =>
      bs_State b = bs_State o ∧ bs_Version b = bs_Version o ∧ bs_DryRun b = bs_DryRun o ∧
      bs_OpenTrades b = bs_OpenTrades o ∧ bs_MaxOpenTrades b = bs_MaxOpenTrades o ∧
      bs_TotalProfitAbs b = bs_TotalProfitAbs o ∧ bs_TotalProfitPct b = bs_TotalProfitPct o
  | None =>
      bs_State b = "" ∧ bs_Version b = "" ∧ bs_DryRun b = None ∧ bs_OpenTrades b = None ∧
      bs_MaxOpenTrades b = None ∧ bs_TotalProfitAbs b = "" ∧ bs_TotalProfitPct b = ""
  end.

Definition poll_write (t : TradeBot) (calls : list (HttpRequest * result HttpResponse)) (now : Z)
    (old new : TradeBotStatus) : Prop :=
  tst_Phase new = tst_Phase old ∧ tst_Message new = tst_Message old ∧
  tst_AppliedConfigHash new = tst_AppliedConfigHash old ∧ tst_ResolvedImage new = tst_ResolvedImage old ∧
  (∀ ty, ty ≠ ConditionBotReachable →
     FindStatusCondition (tst_Conditions new) ty = FindStatusCondition (tst_Conditions old) ty) ∧
  ∃ reachable b,
    FindStatusCondition (tst_Conditions new) ConditionBotReachable = Some reachable ∧
    cObservedGeneration reachable = Generation (Meta t) ∧
    tst_Bot new = Some b ∧ bs_LastPollTime b = Some (now / Second)%Z ∧
    ((cStatus reachable = ConditionTrue ∧ cReason reachable = ReasonAsExpected ∧ poll_answered t calls b) ∨
     (cStatus reachable = ConditionFalse ∧ poll_unanswered t calls ∧ last_known (tst_Bot old) b ∧
      bs_LastPollError b = cMessage reachable ∧
      ∃ e, cMessage reachable = Error e ∧
        (cReason reachable = classifyError e ∨ cReason reachable = ReasonConnectionRefused))).

Lemma after_poll_write t calls fresh reachable t0 h :
  poll_outcome t calls fresh reachable →
  wp (after_poll fresh reachable t0) h (fun h' t' => ∃ now, Ev Now now ∈ h' ∧ poll_write t calls now (Status t0) (Status t')).
Proof.
  intros (Hty & Hgen & Ho) now. cbn. exists now. split; [apply asked|]. split_and!; [done..| |].
  - intros ty Hne. cbn. apply find_set_ne. by rewrite Hty.
  - exists reachable. destruct Ho as [(f & -> & Ha & Hst & Hr)|(-> & Hu & Hst & e & He & Hr)]; cbn; eexists;
      (split; [rewrite <- Hty; apply find_set_eq|]); (split_and!; [done..|]).
    + left. split_and!; done.
    + right. split_and!; [done..| |done|by exists e]. unfold last_known. by destruct (tst_Bot (Status t0)).
Qed.

(** Neither a status write nor a request to the bot. *)
Definition quiet_call {X} (c : PCall X) : Prop :=
  match c with Ext c => match c with StatusUpdate _ _ | HttpDo _ => False | _ => True end | _ => True end.

Definition no_bot_write (h : history PCall) : Prop := ∀ o r, Ev (Ext (StatusUpdate KTradeBotBeta o)) r ∉ h.

Lemma no_bot_write_lift h :
  Forall (ev_sat (fun _ c => match c with StatusUpdate _ _ => False | _ => True end)) h → no_bot_write (map lift_ev h).
Proof.
  intros Hh o r Hin. apply (elem_of_lift (Ev (StatusUpdate KTradeBotBeta o) r)) in Hin.
  rewrite Forall_forall in Hh. by apply Hh in Hin.
Qed.

Lemma quiet_exchanges h : Forall (ev_sat (@quiet_call)) h → exchanges h = [].
Proof.
  induction 1 as [|[X c x] h Hc _ IH]; [done|]. change (exchanges ([Ev c x] ++ h) = []).
  rewrite exchanges_app, IH, app_nil_r. cbn in Hc. destruct c as [? c| | | ]; try done. by destruct c.
Qed.

(** Quiet steps neither write the bot's status nor ask it anything. *)
Lemma wp_quiet {A} (p : POp A) h :
  emits (@quiet_call) p →
  wp p h (fun h' _ => ∃ h1, h' = h ++ h1 ∧ exchanges h1 = [] ∧ no_bot_write h1).
Proof.
  intros Hp. eapply wp_mono; [|by apply emits_wp_app]. cbn. intros h' _ (h1 & -> & Hh1).
  exists h1. split_and!; [done|by apply quiet_exchanges|]. rewrite Forall_forall in Hh1. intros o r Hin. by apply Hh1 in Hin.
Qed.

Lemma wp_quietly {A} (p : POp A) h (Q : history PCall → A → Prop) :
  emits (@quiet_call) p →
  (∀ h1 a, exchanges h1 = [] → no_bot_write h1 → Q (h ++ h1) a) → wp p h Q.
Proof.
  intros Hp HQ. eapply wp_mono; [|by apply wp_quiet]. cbn. intros h' a (h1 & -> & Hx & Hh1). by apply HQ.
Qed.

Lemma patch_after_poll t calls fresh reachable h :
  poll_outcome t calls fresh reachable →
  wp (ext (patchTradeBotStatus t (after_poll fresh reachable))) h
    (fun h' _ => ∃ h1, h' = h ++ h1 ∧ exchanges h1 = [] ∧ ∀ o r, Ev (Ext (StatusUpdate KTradeBotBeta o)) r ∈ h1 →
       ∃ o0 st now, Ev (Ext (Get KTradeBotBeta (tradebot_key t))) (Ok o0) ∈ h1 ∧ Ev (Ext Now) now ∈ h1 ∧
         poll_write t calls now (V1beta1.Status o0) st ∧
         V1beta1.Meta o = V1beta1.Meta o0 ∧ V1beta1.Spec o = V1beta1.Spec o0 ∧
         V1beta1.Status o = SetObservedGeneration st (Generation (V1beta1.Meta o0))).
Proof.
  intros Ho. rewrite <- (app_nil_r h) at 1. change (@nil (event PCall)) with (map lift_ev []).
  eapply wp_mono; [|apply wp_ext, (patchTradeBotStatus_history (fun h s s' => ∃ now, Ev Now now ∈ h ∧ poll_write t calls now s s'))].
  - cbn. intros h' _ (h1 & -> & h2 & -> & Hh2). exists (map lift_ev h2). split; [done|].
    unfold patch_history in Hh2. split.
    { rewrite exchanges_lift. apply http_of_quiet. eapply Forall_impl; [exact Hh2|].
      by intros e [[r' ->]|[(o' & r' & -> & _)|[t' ->]]]. }
    intros o r Hin. apply (elem_of_lift (Ev (StatusUpdate KTradeBotBeta o) r)) in Hin.
    rewrite Forall_forall in Hh2.
    destruct (Hh2 _ Hin) as [[r' E]|[(o' & r' & E & Hw)|[t' E]]]; [ev_discr| |ev_discr].
    apply (StatusUpdate_inj KTradeBotBeta) in E as <-.
    destruct Hw as (o0 & st & Hget & (now & Hnow & Hst) & -> & _). exists o0, st, now.
    split; [by apply (elem_of_lift (Ev (Get KTradeBotBeta (tradebot_key t)) (Ok o0)))|].
    split; [by apply (elem_of_lift (Ev Now now))|done].
  - intros h1 h2 s s' (now & Hnow & Hs). exists now. split; [apply elem_of_app; by left|done].
  - intros t0. by cbn.
  - intros t0 h'. by apply after_poll_write.
Qed.

Lemma recordMetrics_writes_nothing key t b r e v : emits (@quiet_call) (recordMetrics key t b r e v).
Proof.
  apply emits_bind; [by cbn|]. intros ?.
  exact (ext_emits (fun _ c => match c with StatusUpdate _ _ | HttpDo _ => False | _ => True end) _
           (record_gauges_emits _ _ _ _ _ (fun _ _ => I) I)).
Qed.

Lemma updateBackoff_writes_nothing key t r : emits (@quiet_call) (updateBackoff key t r).
Proof.
  split; [done|]. intros ?. split; [done|]. intros [|]; cbn; [|by split]. split; [done|]. intros now.
  split; [done|]. intros ?. by split.
Qed.

(** The poll proper, in the history of its goroutine. *)
Lemma poll_in_goroutine t h :
  wp (ext (poll t)) h (fun h' q => ∃ h1, h' = h ++ h1 ∧ no_bot_write h1 ∧
    poll_outcome t (exchanges h1) q.1.1.1 q.1.1.2).
Proof.
  rewrite <- (app_nil_r h) at 1. change (@nil (event PCall)) with (map lift_ev []).
  eapply wp_mono; [|apply wp_ext, wp_conj; [apply emits_wp|apply poll_spec]].
  - intros h' q (h1 & -> & Hq & Ho). exists (map lift_ev h1). rewrite exchanges_lift. split_and!; [done| |done].
    by apply no_bot_write_lift.
  - by apply poll_emits.
Qed.


(** C38: backoff: after a good poll the bot is due one interval later and its
    failures are forgotten; after the n-th failure in a row it is due
    min(2^min(n,4), 10) intervals later, so between 2 and 10 - provided
    sixteen intervals fit a time.Duration. *)
Theorem backoff_bounds t reachable now st :
  let interval := pollInterval t in
  let st' := next_backoff reachable now interval st in
  (16 * interval < 2 ^ 63)%Z → (0 <= consecutiveFailures st < 2 ^ 63 - 1)%Z →
  inFlight st' = inFlight st ∧
  (cStatus reachable = ConditionTrue →
     nextPollAt st' = (now + interval)%Z ∧ consecutiveFailures st' = 0%Z) ∧
  (cStatus reachable ≠ ConditionTrue →
     consecutiveFailures st' = (consecutiveFailures st + 1)%Z ∧
     nextPollAt st' = (now + interval * Z.min (2 ^ Z.min (consecutiveFailures st') 4) 10)%Z ∧
     (now + 2 * interval <= nextPollAt st' <= now + 10 * interval)%Z).
Proof.
  cbv zeta. pose proof (pollInterval_pos t) as Hi. set (i := pollInterval t) in *. intros Hb Hn.
  unfold next_backoff. case_decide as Hr; split_and!; try done.
  intros _. cbn [consecutiveFailures nextPollAt backoff_failure].
  rewrite (int64_small (consecutiveFailures st + 1)) by lia. split; [done|].
  set (n := (consecutiveFailures st + 1)%Z). assert (1 <= n)%Z by lia.
  assert (2 <= 2 ^ Z.min n 4 <= 16)%Z as Hpow.
  { change 2%Z with (2 ^ 1)%Z at 1. change 16%Z with (2 ^ 4)%Z. split; apply Z.pow_le_mono_r; lia. }
  assert (backoff_of i n = i * Z.min (2 ^ Z.min n 4) 10)%Z as ->.
  { unfold backoff_of, maxBackoffMultiple. rewrite Z.shiftl_mul_pow2, Z.mul_1_l by lia.
    rewrite !int64_small by nia. destruct (Z.ltb_spec (i * 10) (i * 2 ^ Z.min n 4)); nia. }
  split; [done|]. nia.
Qed.

(** The poller and the reconciler log in with the credentials the bot was
    configured with: the user name and password resolveCredentials finds are
    those buildAPIServerConfig renders from the same TradeBotConfig and Secret,
    an empty one standing for an absent key - unless the Secret holds an empty
    value, which the render takes and resolveCredentials skips. *)
Theorem credentials_match_config t h :
  wp (resolveCredentials t) h (fun h' r => ∀ u p, r.2 = Ok (u, p) →
    ∃ c a d,
      Ev (Get KTradeBotConfig {| nn_Namespace := Namespace (Meta t); nn_Name := Config (Spec t) |}) (Ok c) ∈ h' ∧
      ConfigV1alpha1.tc_APIServer (ConfigV1alpha1.Spec c) = Some a ∧
      secret_from h' (Namespace (Meta t)) (ConfigV1alpha1.api_SecretRef a) d ∧
      ∀ jwt hosts,
        (secret_key d "user" ≠ Some "" →
         buildAPIServerConfig a d jwt hosts !! "username" = if nonempty u then Some (JString u) else None) ∧
        (secret_key d "password" ≠ Some "" →
         buildAPIServerConfig a d jwt hosts !! "password" = if nonempty p then Some (JString p) else None)).
Proof.
  assert (∀ d k f, secret_key d k ≠ Some "" →
    credential (secret_key d k) f = if nonempty (secret_nonempty d k f) then Some (JString (secret_nonempty d k f)) else None)
    as Hmatch.
  { intros d k f Hne. unfold secret_nonempty, credential. destruct (secret_key d k) as [v|]; [|done].
    assert (nonempty v = true) as Hv by (apply nonempty_spec; congruence). by rewrite Hv, Hv. }
  intros [c|e]; [|by intros u p [=]]. cbn -[GetSecretData buildAPIServerConfig lookup].
  destruct (ConfigV1alpha1.tc_APIServer (ConfigV1alpha1.Spec c)) as [a|] eqn:Ha; [|by intros u p [=]].
  destruct (nonempty (ConfigV1alpha1.api_SecretRef a)) eqn:Href.
  - apply wp_bind.
    eapply wp_mono; [|apply (wp_conj _ _ _ _ (GetSecretData_spec _ _ _) (wp_extends _ _))].
    intros h' [d|e] [Hd Hpre] u p Hup; [|discriminate Hup]. injection Hup as <- <-.
    exists c, a, d. split_and!; [eapply elem_of_prefix; [|exact Hpre]; set_solver|done|by apply Hd|].
    intros jwt hosts. rewrite buildAPIServerConfig_username, buildAPIServerConfig_password. auto.
  - intros u p Hup. injection Hup as <- <-. exists c, a, None. split_and!; [set_solver|done| |].
    { left. split; [|done]. unfold nonempty in Href. apply negb_false_iff in Href. by apply String.eqb_eq. }
    intros jwt hosts. rewrite buildAPIServerConfig_username, buildAPIServerConfig_password. done.
Qed.
End Properties.

(** The third failure in a row of a bot polled every minute. *)
Lemma backoff_bounds_witness :
  let bot := TradeBotConversion.ZeroAlpha in
  let down := Cond ConditionBotReachable ConditionFalse ReasonTimeout "timeout" in
  let st := {| nextPollAt := 0; consecutiveFailures := 2; inFlight := true;
               pl_strategy := ""; pl_exchange := ""; pl_dryRun := "" |} in
  nextPollAt (next_backoff down 0 (pollInterval bot) st) = (pollInterval bot * 8)%Z.
Proof.
  cbv zeta.
  destruct (backoff_bounds TradeBotConversion.ZeroAlpha (Cond ConditionBotReachable ConditionFalse ReasonTimeout "timeout") 0
    {| nextPollAt := 0; consecutiveFailures := 2; inFlight := true; pl_strategy := ""; pl_exchange := ""; pl_dryRun := "" |})
    as (_ & _ & Hf); [vm_compute; reflexivity|cbn; lia|].
  destruct (Hf ltac:(discriminate)) as (Hn & -> & _). rewrite Hn. vm_compute. reflexivity.
Defined.
