(* ===== verification/Metrics.v ===== *)
(** * controllers/shared/metrics.go: what is exported

    The descriptors of the operator's metrics, and the freqtrade_bot_* series
    as the poller sets and deletes them: a series is exported from the last
    [GaugeSet] on, until a [GaugeDelete] of the same labels. *)

From S2P Require Import Prelude Prog GoLib Kube Types Client Shared BotClient Poller.
Import V1alpha1.

(** ** Descriptors *)

Inductive metric_type := CounterVec | Histogram | GaugeVec | Gauge.

Record Desc := { d_Name : string; d_Type : metric_type; d_Labels : list string }.

Definition labelNamespace : string := "namespace".
Definition labelTradebot : string := "tradebot".
Definition botMetricLabels : list string := [labelNamespace; labelTradebot; "strategy"; "exchange"; "dry_run"].

Definition ReconcileErrorsTotal : Desc :=
  {| d_Name := "freqtrade_operator_reconcile_errors_total"; d_Type := CounterVec; d_Labels := ["controller"; "reason"] |}.
Definition ConfigRenderDuration : Desc :=
  {| d_Name := "freqtrade_operator_config_render_duration_seconds"; d_Type := Histogram; d_Labels := [] |}.

Definition bot_desc (g : gauge) : Desc :=
  {| d_Name := match g with
               | BotUp => "freqtrade_bot_up" | BotState => "freqtrade_bot_state"
               | BotOpenTrades => "freqtrade_bot_open_trades" | BotMaxOpenTrades => "freqtrade_bot_max_open_trades"
               | BotProfitAbs => "freqtrade_bot_profit_abs" | BotProfitRatio => "freqtrade_bot_profit_ratio"
               | BotBalance => "freqtrade_bot_balance"
               | BotLastPollTimestampSeconds => "freqtrade_bot_last_poll_timestamp_seconds"
               end;
     d_Type := GaugeVec; d_Labels := botMetricLabels |}.

(** tradeBotCollector's. *)
Definition tradeBotsDesc : Desc := {| d_Name := "freqtrade_operator_tradebots"; d_Type := Gauge; d_Labels := ["phase"] |}.
Definition configDriftDesc : Desc :=
  {| d_Name := "freqtrade_operator_config_drift"; d_Type := Gauge; d_Labels := [labelNamespace; labelTradebot] |}.
Definition Describe : list Desc := [tradeBotsDesc; configDriftDesc].

(** init: metrics.Registry.MustRegister. *)
Definition registered : list Desc := [ReconcileErrorsTotal; ConfigRenderDuration] ++ map bot_desc bot_gauges.

(** prometheus.Labels of a bot's series, as set and as deleted. *)
Definition label_map (l : BotLabels) : gmap string string :=
  list_to_map
    [ (labelNamespace, bl_Namespace l); (labelTradebot, bl_TradeBot l); ("strategy", bl_Strategy l);
      ("exchange", bl_Exchange l); ("dry_run", bl_DryRun l) ].

(** The descriptor and the label values of a sample of Collect. *)
Definition sample_metric (s : sample) : Desc * list string :=
  match s with
  | ConfigDriftSample ns name _ => (configDriftDesc, [ns; name])
  | TradeBotsSample phase _ => (tradeBotsDesc, [phase])
  end.

(** ** The exported series *)

Definition gauge_event (g : gauge) (l : BotLabels) (b : bool) (e : event Call) : bool :=
  match e with
  | Ev c _ =>
      match c with
      | GaugeSet g' l' _ => if decide (g' = g ∧ l' = l) then true else b
      | GaugeDelete g' l' => if decide (g' = g ∧ l' = l) then false else b
      | _ => b
      end
  end.

Definition exported (h : history Call) (g : gauge) (l : BotLabels) : bool := foldl (gauge_event g l) false h.

Section Series.
Context `{KubeLib} `{GoLib}.

Lemma exported_snoc h g l e : exported (h ++ [e]) g l = gauge_event g l (exported h g l) e.
Proof. unfold exported. by rewrite foldl_app. Qed.

(** Calls on other series, or on none, change nothing. *)
Definition other_series (l : BotLabels) {X} (c : Call X) : Prop :=
  match c with GaugeSet _ l' _ | GaugeDelete _ l' => l' ≠ l | _ => True end.

Lemma exported_other {A} (p : Op A) h g l :
  emits (fun _ c => other_series l c) p → wp p h (fun h' _ => exported h' g l = exported h g l).
Proof.
  intros Hp. eapply wp_mono; [|by apply emits_wp_app]. cbn. intros h' _ (h1 & -> & Hh1).
  unfold exported. rewrite foldl_app. generalize (foldl (gauge_event g l) false h).
  induction Hh1 as [|[X c x] h1 Hc _ IH]; intros b; [done|]. cbn [foldl]. rewrite IH. clear -Hc. cbn in Hc |- *.
  destruct c; try done; rewrite decide_False by (intros [_ E]; by apply Hc); done.
Qed.

(** DeleteBotMetrics takes the whole label set down ... *)
Theorem deleted_series l h :
  wp (DeleteBotMetrics l) h (fun h' _ =>
    (∀ g, exported h' g l = false) ∧ ∀ g l', l' ≠ l → exported h' g l' = exported h g l').
Proof.
  unfold DeleteBotMetrics, bot_gauges. cbn. intros ? ? ? ? ? ? ? ?. split.
  - intros g. rewrite !exported_snoc. cbn. destruct g; cbn;
      repeat (first [rewrite decide_True by done|rewrite decide_False by (intros [? _]; done)]); done.
  - intros g l' Hl. rewrite !exported_snoc. cbn.
    repeat (rewrite decide_False by (intros [_ E]; by apply Hl)). done.
Qed.

Lemma record_gauges_labels l l' b r v : l ≠ l' → emits (fun _ c => other_series l' c) (record_gauges l b r v).
Proof. intros Hl. apply record_gauges_emits; [|done]. intros g v0. exact Hl. Qed.

Lemma record_gauges_up l b r v h : wp (record_gauges l b r v) h (fun h' _ => exported h' BotUp l = true).
Proof.
  assert (∀ A (p : Op A) h, emits (fun _ c => match c with GaugeDelete _ _ => False | _ => True end) p →
    exported h BotUp l = true → wp p h (fun h' _ => exported h' BotUp l = true)) as Hkeep.
  { intros A p h0 Hp H1. eapply wp_mono; [|by apply emits_wp_app]. cbn. intros h' _ (h1 & -> & Hh1).
    unfold exported in *. rewrite foldl_app, H1. clear -Hh1.
    induction Hh1 as [|[X c x] h1 Hc _ IH]; [done|]. cbn [foldl].
    replace (gauge_event BotUp l true (Ev c x)) with true; [exact IH|]. destruct c; try done. cbn. by case_decide. }
  unfold record_gauges. intros u. apply Hkeep; [|by rewrite exported_snoc; cbn; rewrite decide_True].
  apply emits_bind; [done|]. intros now. split; [done|]. intros ?. destruct b as [b|]; [|done].
  assert (∀ g v, emits (fun _ c => match c with GaugeDelete _ _ => False | _ => True end) (gauge_opt g l v)) as Hopt.
  { intros g v0. unfold gauge_opt. by case_match. }
  split; [done|]. intros ?. repeat (apply emits_bind; [apply Hopt|]; intros ?). apply Hopt.
Qed.

Lemma wp_all {I A} (p : Op A) h (Q : I → history Call → A → Prop) :
  (∀ i, wp p h (Q i)) → wp p h (fun h' a => ∀ i, Q i h' a).
Proof. revert h; induction p as [a|X c k IH]; intros h HQ; [exact HQ|]. intros x. apply IH. intros i. apply HQ. Qed.

(** ... and a poll exports its own label set only, [BotUp] among it. *)
Theorem recorded_series l b r v h :
  wp (record_gauges l b r v) h (fun h' _ =>
    exported h' BotUp l = true ∧ ∀ g l', l' ≠ l → exported h' g l' = exported h g l').
Proof.
  apply wp_conj; [apply record_gauges_up|]. apply wp_all. intros g. apply wp_all. intros l'.
  apply wp_pending. intros Hl. by apply exported_other, record_gauges_labels.
Qed.

(** What the table remembers of a bot is the label set of its last poll. *)
Lemma remembered key l st :
  nn_Namespace key = bl_Namespace l → nn_Name key = bl_TradeBot l →
  labels_of_state key (remember_labels l st) = l.
Proof. destruct l; cbn. by intros <- <-. Qed.

(** A bot whose label set changed between two polls - the first one failed,
    say, so dry_run was "unknown" - keeps the series of the first set after it
    is forgotten: only the remembered set is deleted. *)
Theorem stale_series l1 l2 b1 b2 r1 r2 v1 v2 :
  l1 ≠ l2 →
  wp (_ ← record_gauges l1 b1 r1 v1; _ ← record_gauges l2 b2 r2 v2; DeleteBotMetrics l2) [] (fun h _ =>
    exported h BotUp l1 = true).
Proof.
  intros Hl. apply wp_bind. eapply wp_mono; [|apply record_gauges_up]. intros h1 ? H1. cbn in H1.
  apply wp_bind. eapply wp_mono; [|apply recorded_series]. intros h2 ? [_ H2].
  eapply wp_mono; [|apply deleted_series]. intros h3 ? [_ H3]. cbn in *. by rewrite H3, H2.
Qed.

(** ** The registry

    client_golang refuses two descriptors of one name, and label sets other
    than the declared one. *)
Theorem metrics_well_declared :
  NoDup (map d_Name (registered ++ Describe)) ∧
  (∀ g l, dom (label_map l) = list_to_set (d_Labels (bot_desc g)) ∧ size (label_map l) = length (d_Labels (bot_desc g))) ∧
  (∀ s, length (sample_metric s).2 = length (d_Labels (sample_metric s).1) ∧ (sample_metric s).1 ∈ Describe).
Proof.
  split_and!.
  - apply (bool_decide_unpack _). vm_compute. exact I.
  - intros g l. split; [|vm_compute; reflexivity]. unfold label_map. rewrite dom_list_to_map_L. by destruct g.
  - intros [|]; split; try done; cbn; set_solver.
Qed.
End Series.

#[local] Existing Instance golib_instance.

Lemma stale_series_witness :
  let l1 := {| bl_Namespace := "ns"; bl_TradeBot := "bot"; bl_Strategy := "s"; bl_Exchange := "kraken"; bl_DryRun := "unknown" |} in
  let l2 := {| bl_Namespace := "ns"; bl_TradeBot := "bot"; bl_Strategy := "s"; bl_Exchange := "kraken"; bl_DryRun := "true" |} in
  let down := Cond ConditionBotReachable ConditionFalse ReasonTimeout "timeout" in
  let up := Cond ConditionBotReachable ConditionTrue ReasonAsExpected "" in
  wp (_ ← record_gauges l1 None down None; _ ← record_gauges l2 None up None; DeleteBotMetrics l2) []
    (fun h _ => exported h BotUp l1 = true).
Proof. cbv zeta. apply stale_series. discriminate. Defined.
