(* ===== verification/PollerSystem.v ===== *)
(** * The goroutines of the poller

    [sys_step] interleaves the scheduler of BotPoller.Start and its worker
    goroutines, each running its program of [Poller] one call at a time over
    the shared state; an external call may be answered in any way.  The
    invariants are about the in-flight marks, the channel and the workers. *)

From S2P Require Import Prelude Prog GoLib Kube Types Client Shared Conversion TradeBotResources TradeBotStatus BotClient Poller.
Import V1alpha1.

(** ** The step relation *)

Record system := {
  sh : pollerState;
  mu : bool;                                          (* p.mu is held *)
  sched : option (POp unit);                          (* scheduleDue, while it runs *)
  busy : list (NamespacedName * POp unit)             (* a worker each *)
}.

(** One call of one goroutine. *)
Inductive pstep {A} : POp A → pollerState → bool → POp A → pollerState → bool → Prop :=
  | pstep_ext X (c : Call X) k x s m : pstep (Vis (Ext c) k) s m (k x) s m
  | pstep_lock k s : pstep (Vis Lock k) s false (k tt) s true
  | pstep_unlock k s : pstep (Vis Unlock k) s true (k tt) s false
  | pstep_upd X (f : pollerState → pollerState * X) k s m :
      pstep (Vis (Upd f) k) s m (k (f s).2) (f s).1 m.

Section System.
Context `{KubeLib} `{GoLib} (workers : nat).

(** [make(chan types.NamespacedName, p.workers()*2)] *)
Definition queue_cap : nat := workers * 2.

(** [p.state = make(map...)], an empty channel, idle goroutines. *)
Definition sys_init : system :=
  {| sh := {| p_state := ∅; p_queue := [] |}; mu := false; sched := None; busy := [] |}.

Inductive sys_step : system → system → Prop :=
  | sys_tick s m b :
      sys_step {| sh := s; mu := m; sched := None; busy := b |}
               {| sh := s; mu := m; sched := Some (scheduleDue queue_cap); busy := b |}
  | sys_sched p s m p' s' m' b :
      pstep p s m p' s' m' →
      sys_step {| sh := s; mu := m; sched := Some p; busy := b |} {| sh := s'; mu := m'; sched := Some p'; busy := b |}
  | sys_sched_done s m b :
      sys_step {| sh := s; mu := m; sched := Some (Ret tt); busy := b |} {| sh := s; mu := m; sched := None; busy := b |}
  | sys_take st key q m sc b :
      length b < workers →
      sys_step {| sh := {| p_state := st; p_queue := key :: q |}; mu := m; sched := sc; busy := b |}
               {| sh := {| p_state := st; p_queue := q |}; mu := m; sched := sc; busy := b ++ [(key, pollOne key)] |}
  | sys_work key p s m p' s' m' sc b1 b2 :
      pstep p s m p' s' m' →
      sys_step {| sh := s; mu := m; sched := sc; busy := b1 ++ (key, p) :: b2 |}
               {| sh := s'; mu := m'; sched := sc; busy := b1 ++ (key, p') :: b2 |}
  | sys_panic key X (c : Call X) k s m sc b1 b2 :
      ¬ is_now c →
      sys_step {| sh := s; mu := m; sched := sc; busy := b1 ++ (key, Vis (Ext c) k) :: b2 |}
               {| sh := s; mu := m; sched := sc; busy := b1 ++ (key, clear_inFlight key) :: b2 |}
  | sys_work_done key s m sc b1 b2 :
      sys_step {| sh := s; mu := m; sched := sc; busy := b1 ++ (key, Ret tt) :: b2 |}
               {| sh := s; mu := m; sched := sc; busy := b1 ++ b2 |}.

(** ** What a program does to the marks *)

Definition fl (s : pollerState) (k : NamespacedName) : option bool := inFlight <$> p_state s !! k.
Definition same_others (key : NamespacedName) (s s' : pollerState) : Prop := ∀ k, k ≠ key → fl s' k = fl s k.

Definition neutral (s s' : pollerState) : Prop := p_queue s' = p_queue s ∧ ∀ k, fl s' k = fl s k.

Definition cleared (key : NamespacedName) (s s' : pollerState) : Prop :=
  p_queue s' = p_queue s ∧ fl s' key ≠ Some true ∧ (fl s' key = None ↔ fl s key = None) ∧ same_others key s s'.

Definition forgotten (key : NamespacedName) (s s' : pollerState) : Prop :=
  p_queue s' = p_queue s ∧ fl s' key = None ∧ same_others key s s'.

Definition tracked (key : NamespacedName) (s s' : pollerState) : Prop :=
  p_queue s' = p_queue s ∧ fl s key ≠ Some true ∧ fl s' key = Some false ∧ same_others key s s'.

Definition enqueued (key : NamespacedName) (s s' : pollerState) : Prop :=
  p_queue s' = p_queue s ++ [key] ∧ length (p_queue s) < queue_cap ∧
  fl s key ≠ Some true ∧ fl s' key = Some true ∧ same_others key s s'.

(** The scheduler's updates. *)
Inductive sched_update (s s' : pollerState) : Prop :=
  | su_neutral : neutral s s' → sched_update s s'
  | su_tracked key : tracked key s s' → sched_update s s'
  | su_enqueued key : enqueued key s s' → sched_update s s'
  | su_forgotten key : forgotten key s s' → sched_update s s'.

Definition updates (R : pollerState → pollerState → Prop) {X} (c : PCall X) : Prop :=
  match c with Upd f => ∀ s, R s (f s).1 | _ => True end.

Definition quiet {A} : POp A → Prop := emits (fun _ c => updates neutral c).
Definition scheduler {A} : POp A → Prop := emits (fun _ c => updates sched_update c).

(** Nothing left but the mutex. *)
Definition finished {A} : POp A → Prop := emits (fun _ c => match c with Lock | Unlock => True | _ => False end).

(** The worker will clear the mark of [key], whatever it is answered, having
    changed no mark before, and is finished then. *)
Fixpoint pending (key : NamespacedName) (p : POp unit) : Prop :=
  match p with
  | Ret _ => False
  | @Vis _ _ X c k =>
      match c in PCall X return (X → POp unit) → (X → Prop) → Prop with
      | Ext _ => fun _ K => ∀ x, K x
      | Lock | Unlock => fun _ K => K tt
      | Upd f => fun k K => ((∀ s, neutral s (f s).1) ∧ ∀ x, K x) ∨
                            ((∀ s, cleared key s (f s).1) ∧ ∀ x, finished (k x))
      end k (fun x => pending key (k x))
  end.

Lemma ext_quiet {A} (p : Op A) : quiet (ext p).
Proof. induction p as [a|X c k IH]; [done|]. split; [done|exact IH]. Qed.

Lemma locked_emits {A} (P : ∀ X, PCall X → Prop) (p : POp A) :
  P _ Lock → P _ Unlock → emits P p → emits P (locked p).
Proof.
  intros HL HU Hp. apply emits_bind; [by apply emits_trigger|]. intros _. apply emits_bind; [done|].
  intros a. by split.
Qed.

Lemma pending_bind {A} key (p : POp A) (q : A → POp unit) :
  quiet p → (∀ a, pending key (q a)) → pending key (p ≫= q).
Proof.
  intros Hp Hq. induction p as [a|X c k IH]; [exact (Hq a)|]. destruct Hp as [Hc Hk].
  destruct c; cbn; [intros x; apply IH, Hk|apply IH, Hk|apply IH, Hk|].
  left. split; [exact Hc|]. intros x. apply IH, Hk.
Qed.

Lemma fl_on_key key f s k : fl (on_key key f s) k = (if decide (k = key) then (fun st => inFlight (f st)) <$> p_state s !! k else fl s k).
Proof.
  unfold fl, on_key. cbn. case_decide as Hk.
  - subst k. rewrite lookup_alter_eq. by destruct (p_state s !! key).
  - by rewrite lookup_alter_ne by done.
Qed.

Lemma on_key_neutral key f s : (∀ st, inFlight (f st) = inFlight st) → neutral s (on_key key f s).
Proof.
  intros Hf. split; [done|]. intros k. rewrite fl_on_key. case_decide; [|done].
  unfold fl. destruct (p_state s !! k); cbn; by rewrite ?Hf.
Qed.

Lemma clear_cleared key s : cleared key s (on_key key (fun st => with_inFlight st false) s).
Proof.
  split_and!; [done|..].
  - rewrite fl_on_key. rewrite decide_True by done. by destruct (p_state s !! key).
  - rewrite fl_on_key, decide_True by done. unfold fl. by destruct (p_state s !! key).
  - intros k Hk. by rewrite fl_on_key, decide_False.
Qed.

Lemma clear_pending key : pending key (clear_inFlight key).
Proof. cbn. right. split; [apply clear_cleared|done]. Qed.

Lemma recordMetrics_quiet key t b r e v : quiet (recordMetrics key t b r e v).
Proof.
  apply emits_bind; [|intros _; apply ext_quiet]. apply locked_emits; [done..|].
  split; [|done]. intros s. by apply on_key_neutral.
Qed.

Lemma updateBackoff_quiet key t r : quiet (updateBackoff key t r).
Proof.
  apply locked_emits; [done..|]. split; [by split|]. intros [|]; [|done].
  cbn. split; [done|]. intros now. split; [|done]. intros s. apply on_key_neutral.
  intros st. unfold next_backoff. by case_decide.
Qed.

Lemma pollOne_pending key : pending key (pollOne key).
Proof.
  unfold pollOne. apply pending_bind; [apply ext_quiet|]. intros got.
  apply pending_bind; [|intros _; apply clear_pending].
  destruct got as [tradeBot|e]; [|done]. apply emits_bind; [apply ext_quiet|].
  intros [[[fresh reachable] exchange] balance]. apply emits_bind; [apply recordMetrics_quiet|]. intros _.
  apply emits_bind; [apply updateBackoff_quiet|]. intros _.
  apply emits_bind; [apply ext_quiet|done].
Qed.

Lemma fl_insert key st m q k :
  fl {| p_state := <[key := st]> m; p_queue := q |} k =
  if decide (k = key) then Some (inFlight st) else inFlight <$> m !! k.
Proof.
  unfold fl; cbn. case_decide; [subst; by rewrite lookup_insert_eq|by rewrite lookup_insert_ne].
Qed.

Lemma schedule_bot_update now key s : sched_update s (schedule_bot queue_cap now key s).
Proof.
  unfold schedule_bot. set (st := default (new_pollState now) (p_state s !! key)).
  assert (fl s key = Some true → inFlight st = true) as Hfl.
  { unfold fl, st. by destruct (p_state s !! key) as [st0|]; cbn; [intros [= ?]|]. }
  destruct (inFlight st) eqn:Hin; cbn [orb].
  - apply su_neutral. split; [done|]. intros k. rewrite fl_insert. case_decide; [|done]. subst k.
    unfold fl, st in *. by destruct (p_state s !! key) as [st0|]; cbn in *; [f_equal|].
  - assert (fl s key ≠ Some true) as Hne by (intros E; by apply Hfl in E).
    destruct (now <? nextPollAt st)%Z; [|destruct (_ <? queue_cap)%nat eqn:Hq].
    + apply (su_tracked _ _ key). split_and!; [done..| |].
      * by rewrite fl_insert, decide_True, Hin.
      * intros k Hk. by rewrite fl_insert, decide_False.
    + apply (su_enqueued _ _ key). apply Nat.ltb_lt in Hq. split_and!; [done..| |].
      * by rewrite fl_insert, decide_True.
      * intros k Hk. by rewrite fl_insert, decide_False.
    + apply (su_tracked _ _ key). split_and!; [done..| |].
      * by rewrite fl_insert, decide_True.
      * intros k Hk. by rewrite fl_insert, decide_False.
Qed.

Lemma quiet_scheduler {A} (p : POp A) : quiet p → scheduler p.
Proof. apply emits_mono. intros X c. destruct c; try done. intros Hf s. by apply su_neutral. Qed.

Lemma schedule_loop_scheduler now items seen disabled : scheduler (schedule_loop queue_cap now items seen disabled).
Proof.
  revert seen disabled; induction items as [|t items IH]; intros seen disabled; [done|]. cbn [schedule_loop].
  destruct (negb (isTradeMode t)); [apply IH|]. destruct (negb (introspectionEnabled t)); [apply IH|].
  split; [intros s; apply schedule_bot_update|intros ?; apply IH].
Qed.

Lemma forget_loop_scheduler seen entries : scheduler (forget_loop seen entries).
Proof.
  induction entries as [|[key st] entries IH]; [done|]. cbn [forget_loop]. case_decide; [done|].
  apply emits_bind; [apply quiet_scheduler, ext_quiet|]. intros _. split; [|intros ?; exact IH].
  intros s. apply (su_forgotten _ _ key). split_and!; [done| |].
  - unfold fl. cbn. by rewrite lookup_delete_eq.
  - intros k Hk. unfold fl. cbn. by rewrite lookup_delete_ne.
Qed.

Lemma scheduleDue_scheduler : scheduler (scheduleDue queue_cap).
Proof.
  apply emits_bind; [apply quiet_scheduler, ext_quiet|]. intros [items|e]; [|done].
  apply emits_bind; [apply quiet_scheduler, ext_quiet|]. intros now. apply emits_bind.
  - apply locked_emits; [done..|]. apply emits_bind; [apply schedule_loop_scheduler|]. intros r.
    apply emits_bind; [split; [intros s; apply su_neutral; split; done|done]|]. intros entries.
    apply emits_bind; [apply forget_loop_scheduler|]. by intros _.
  - induction a as [|t ts IH]; [done|]. cbn [foldr].
    apply emits_bind; [apply quiet_scheduler, ext_quiet|by intros _].
Qed.

(** ** Steps and marks *)

Lemma neutral_refl s : neutral s s.
Proof. done. Qed.

Lemma pstep_scheduler {A} (p : POp A) s m p' s' m' :
  scheduler p → pstep p s m p' s' m' → scheduler p' ∧ sched_update s s'.
Proof.
  intros Hp Hs; revert Hp. destruct Hs; intros [Hc Hk]; (split; [apply Hk|]); try by apply su_neutral.
  apply Hc.
Qed.

Lemma pstep_finished {A} (p : POp A) s m p' s' m' : finished p → pstep p s m p' s' m' → finished p' ∧ s' = s.
Proof. intros Hp Hs; revert Hp. destruct Hs; intros [Hc Hk]; try (by destruct Hc); (split; [apply Hk|done]). Qed.

Lemma pstep_pending key p s m p' s' m' :
  pending key p → pstep p s m p' s' m' →
  (pending key p' ∧ neutral s s') ∨ (finished p' ∧ cleared key s s').
Proof.
  intros Hp Hs; revert Hp.
  destruct Hs as [X c k x s m|k s|k s|X f k s m]; cbn.
  - intros Hk. left. split; [apply Hk|done].
  - intros Hk. by left.
  - intros Hk. by left.
  - intros [[Hn Hk]|[Hc Hk]]; [left|right]; (split; [apply Hk|]); auto.
Qed.

Lemma pending_not_finished key p : pending key p → finished p → False.
Proof.
  induction p as [u|X c k IH]; [done|]. intros Hp [Hc Hk].
  destruct c as [X c| | |X f]; [by destruct Hc|exact (IH tt Hp (Hk tt))..|by destruct Hc].
Qed.

(** ** Every mark will be cleared *)

Definition polls (sys : system) (key : NamespacedName) (i : nat) : Prop :=
  ∃ p, busy sys !! i = Some (key, p) ∧ pending key p.

Record well_formed (sys : system) : Prop := {
  wf_sched p : sched sys = Some p → scheduler p;
  wf_busy i key p : busy sys !! i = Some (key, p) → pending key p ∨ finished p;
  wf_queue : length (p_queue (sh sys)) ≤ queue_cap;
  wf_workers : length (busy sys) ≤ workers;
  wf_marks key : fl (sh sys) key = Some true → key ∈ p_queue (sh sys) ∨ ∃ i, polls sys key i
}.

(** The busy list after one worker moved from [x] to [x']. *)
Lemma lookup_moved {A} (b1 b2 : list A) x x' i :
  (b1 ++ x' :: b2) !! i = if decide (i = length b1) then Some x' else (b1 ++ x :: b2) !! i.
Proof.
  case_decide as Hi; [subst; by rewrite list_lookup_middle|].
  destruct (decide (i < length b1)).
  - by rewrite !lookup_app_l by lia.
  - rewrite !lookup_app_r by lia. destruct (i - length b1) eqn:E; [lia|done].
Qed.

Lemma lookup_removed {A} (b1 b2 : list A) x i :
  (b1 ++ b2) !! i = (b1 ++ x :: b2) !! (if decide (i < length b1) then i else S i).
Proof.
  case_decide; [by rewrite !lookup_app_l by lia|]. rewrite !lookup_app_r by lia.
  by replace (S i - length b1) with (S (i - length b1)) by lia.
Qed.

Lemma lookup_removed_back {A} (b1 b2 : list A) x i y :
  (b1 ++ x :: b2) !! i = Some y → i = length b1 ∧ y = x ∨ ∃ j, (b1 ++ b2) !! j = Some y.
Proof.
  intros Hi. destruct (decide (i < length b1)).
  - right. exists i. rewrite lookup_app_l in Hi |- * by lia. done.
  - rewrite lookup_app_r in Hi by lia. destruct (i - length b1) as [|j] eqn:E.
    + left. split; [lia|]. by injection Hi.
    + right. exists (length b1 + j). rewrite lookup_app_r by lia. by replace (length b1 + j - length b1) with j by lia.
Qed.

Lemma init_well_formed : well_formed sys_init.
Proof. split; cbn; try done; try lia. Qed.

(** A step of the scheduler on the shared state. *)
Lemma marks_sched_update s s' (P : NamespacedName → Prop) :
  sched_update s s' → length (p_queue s) ≤ queue_cap →
  (∀ key, fl s key = Some true → key ∈ p_queue s ∨ P key) →
  length (p_queue s') ≤ queue_cap ∧ (∀ key, fl s' key = Some true → key ∈ p_queue s' ∨ P key).
Proof.
  intros Hu Hq Hm. destruct Hu as [[-> Hf]|k (-> & Hne & Ht & Ho)|k (-> & Hl & Hne & Ht & Ho)|k (-> & Hf & Ho)].
  - split; [done|]. intros key. rewrite Hf. apply Hm.
  - split; [done|]. intros key. destruct (decide (key = k)) as [->|Hk]; [congruence|]. rewrite Ho by done. apply Hm.
  - rewrite length_app; cbn. split; [lia|]. intros key. destruct (decide (key = k)) as [->|Hk]; [set_solver|].
    rewrite Ho by done. intros Hkey. destruct (Hm _ Hkey); set_solver.
  - split; [done|]. intros key. destruct (decide (key = k)) as [->|Hk]; [congruence|]. rewrite Ho by done. apply Hm.
Qed.

(** What a worker's step does to its poll and the shared state. *)
Inductive worker_moves (key : NamespacedName) (p : POp unit) (s : pollerState) (p' : POp unit) (s' : pollerState) : Prop :=
  | wm_pending : pending key p → pending key p' → neutral s s' → worker_moves key p s p' s'
  | wm_cleared : pending key p → finished p' → cleared key s s' → worker_moves key p s p' s'
  | wm_finished : finished p → finished p' → s' = s → worker_moves key p s p' s'.

Lemma worker_step key p s m p' s' m' :
  pending key p ∨ finished p → pstep p s m p' s' m' → worker_moves key p s p' s'.
Proof.
  intros [Hpp|Hpf] Hp.
  - destruct (pstep_pending _ _ _ _ _ _ _ Hpp Hp) as [[]|[]]; [by apply wm_pending|by apply wm_cleared].
  - destruct (pstep_finished _ _ _ _ _ _ Hpf Hp) as []. by apply wm_finished.
Qed.

Lemma worker_queue key p s p' s' : worker_moves key p s p' s' → p_queue s' = p_queue s.
Proof. by intros [_ _ []|_ _ []|_ _ ->]. Qed.

Lemma worker_marks key p s p' s' key' : worker_moves key p s p' s' → fl s' key' = Some true → fl s key' = Some true.
Proof.
  intros [_ _ [_ Hf]|_ _ (_ & Hne & _ & Ho)|_ _ ->]; [by rewrite Hf| |done].
  intros Hk. destruct (decide (key' = key)) as [->|Hkk]; [done|]. by rewrite <- Ho.
Qed.

Lemma well_formed_worker key p s m p' s' m' sc b1 b2 :
  worker_moves key p s p' s' →
  well_formed {| sh := s; mu := m; sched := sc; busy := b1 ++ (key, p) :: b2 |} →
  well_formed {| sh := s'; mu := m'; sched := sc; busy := b1 ++ (key, p') :: b2 |}.
Proof.
  intros Hst [Hsc Hb Hq Hw Hm]; cbn in *. pose proof (worker_queue _ _ _ _ _ Hst) as Hqe.
  split; cbn; [done| |by rewrite Hqe|by rewrite length_app in *|].
  - intros i key' q. rewrite (lookup_moved _ _ (key, p)). case_decide; [|by apply Hb].
    intros [= <- <-]. destruct Hst; auto.
  - intros key' Hkey'. destruct (Hm _ (worker_marks _ _ _ _ _ _ Hst Hkey')) as [Hin|(i & q & Hi & Hpq)].
    { left. by rewrite Hqe. }
    destruct (decide (i = length b1)) as [->|Hne].
    + cbn in Hi. rewrite list_lookup_middle in Hi by done. injection Hi as <- <-.
      destruct Hst as [_ Hp' _|_ _ (_ & Hne & _)|Hf _ _]; [|done|by destruct (pending_not_finished key p)].
      right. exists (length b1), p'. cbn. by rewrite list_lookup_middle.
    + right. exists i, q. cbn. rewrite (lookup_moved _ _ (key, p)), decide_False by done. done.
Qed.

Lemma step_well_formed sys sys' : sys_step sys sys' → well_formed sys → well_formed sys'.
Proof.
  intros Hs [Hsc Hb Hq Hw Hm]. destruct Hs as
    [s m b|p s m p' s' m' b Hp|s m b|st key q m sc b Hlen|key p s m p' s' m' sc b1 b2 Hp
    |key X c k s m sc b1 b2 Hnow|key s m sc b1 b2]; cbn in *.
  - split; cbn; try done. intros p [= <-]. apply scheduleDue_scheduler.
  - destruct (pstep_scheduler _ _ _ _ _ _ (Hsc _ eq_refl) Hp) as [Hp' Hu].
    destruct (marks_sched_update _ _ _ Hu Hq Hm) as [Hq' Hm'].
    split; cbn; try done. by intros p0 [= <-].
  - split; cbn; done.
  - split; cbn; [done| |lia|rewrite length_app; cbn; lia|].
    + intros i key' p [Hi|(_ & Hi)]%lookup_app_Some; [by eapply Hb|].
      destruct (i - length b); [|done]. injection Hi as <- <-. left. apply pollOne_pending.
    + intros key' Hkey'. destruct (decide (key' = key)) as [->|Hne].
      * right. exists (length b), (pollOne key). cbn. rewrite list_lookup_middle; [|done]. split; [done|]. apply pollOne_pending.
      * destruct (Hm _ Hkey') as [Hin|(i & p & Hi & Hpp)]; [left; set_solver|].
        right. exists i, p. cbn. split; [|done]. by apply lookup_app_l_Some.
  - eapply well_formed_worker; [|by split]. eapply worker_step; [|exact Hp].
    apply (Hb (length b1)). by rewrite list_lookup_middle.
  - split; cbn; [done| |done|by rewrite length_app in *|].
    + intros i key' q. rewrite (lookup_moved _ _ (key, Vis (Ext c) k)). case_decide; [|by apply Hb].
      intros [= <- <-]. left. apply clear_pending.
    + intros key' Hkey'. destruct (Hm _ Hkey') as [Hin|(i & q & Hi & Hpq)]; [by left|]. right.
      destruct (decide (i = length b1)) as [->|Hne].
      * cbn in Hi. rewrite list_lookup_middle in Hi by done. injection Hi as <- <-.
        exists (length b1), (clear_inFlight key). cbn. rewrite list_lookup_middle by done. split; [done|apply clear_pending].
      * exists i, q. cbn. rewrite (lookup_moved _ _ (key, Vis (Ext c) k)), decide_False by done. done.
  - split; cbn; [done| |done|rewrite length_app in *; cbn in Hw; lia|].
    + intros i key' q. rewrite (lookup_removed _ _ (key, Ret tt)). apply Hb.
    + intros key' Hkey'. destruct (Hm _ Hkey') as [Hin|(i & q & Hi & Hpq)]; [by left|]. right.
      destruct (lookup_removed_back _ _ _ _ _ Hi) as [[_ [= -> ->]]|[j Hj]]; [done|]. by exists j, q.
Qed.

Definition reachable : system → Prop := rtc sys_step sys_init.

Lemma reachable_well_formed sys : reachable sys → well_formed sys.
Proof. intros Hr. eapply rtc_invariant; [exact step_well_formed|exact Hr|exact init_well_formed]. Qed.

(** ** One poll per bot

    As long as no tracked bot is forgotten while it is in flight. *)

Definition keeps_in_flight (sys sys' : system) : Prop :=
  ∀ key, fl (sh sys) key = Some true → fl (sh sys') key ≠ None.

Record exclusive (sys : system) : Prop := {
  ex_queue : NoDup (p_queue (sh sys));
  ex_queued key : key ∈ p_queue (sh sys) → fl (sh sys) key = Some true ∧ ∀ i, ¬ polls sys key i;
  ex_polls key i : polls sys key i → fl (sh sys) key = Some true;
  ex_single key i j : polls sys key i → polls sys key j → i = j
}.

(** [exclusive] only looks at the marks, the channel and who polls what; a
    step that lets every worker poll at most what it polled is settled by the
    marks. *)
Lemma exclusive_moved sys sys' (f : nat → nat) :
  exclusive sys → (∀ i j, f i = f j → i = j) → (∀ key i, polls sys' key i → polls sys key (f i)) →
  NoDup (p_queue (sh sys')) →
  (∀ key, key ∈ p_queue (sh sys') → key ∈ p_queue (sh sys) ∨ ∀ i, ¬ polls sys key i) →
  (∀ key, key ∈ p_queue (sh sys') → fl (sh sys') key = Some true) →
  (∀ key i, polls sys' key i → fl (sh sys') key = Some true) →
  exclusive sys'.
Proof.
  intros [Hq Hqd Hp Hs] Hf Hb Hq' Hqq Hqf Hpf. split; [done| |done|].
  - intros key Hin. split; [by apply Hqf|]. intros i Hi. apply Hb in Hi.
    destruct (Hqq _ Hin) as [Hin'|Hn]; [by eapply (Hqd _ Hin')|by eapply Hn].
  - intros key i j Hi%Hb Hj%Hb. apply Hf. by eapply Hs.
Qed.

Lemma exclusive_ext sys sys' :
  sh sys' = sh sys → busy sys' = busy sys → exclusive sys → exclusive sys'.
Proof. intros Hs Hb [Hq Hqd Hp Hsi]. unfold polls in *. by split; unfold polls; rewrite ?Hs, ?Hb. Qed.

Lemma exclusive_shared s s' m m' sc sc' b :
  sched_update s s' → (∀ key, fl s key = Some true → fl s' key ≠ None) →
  exclusive {| sh := s; mu := m; sched := sc; busy := b |} →
  exclusive {| sh := s'; mu := m'; sched := sc'; busy := b |}.
Proof.
  intros Hu Hk He. pose proof He as [Hq Hqd Hp Hs]. cbn in *.
  assert (Hfl : ∀ key, fl s key = Some true → fl s' key = Some true).
  { intros key Hkey. pose proof (Hk _ Hkey) as Hne.
    destruct Hu as [[_ Hf]|k (_ & Ht & _ & Ho)|k (_ & _ & Ht & _ & Ho)|k (_ & Hf & Ho)]; [by rewrite Hf|..];
      (destruct (decide (key = k)) as [->|Hkk]; [congruence|by rewrite Ho]). }
  apply (exclusive_moved _ _ id He); cbn; try done.
  - destruct Hu as [[-> _]|k (-> & _)|k (-> & _ & Ht & _)|k (-> & _)]; try done.
    apply NoDup_app. split_and!; [done| |apply NoDup_singleton].
    intros key Hin ->%list_elem_of_singleton. by apply Hqd in Hin as [].
  - intros key Hin. destruct Hu as [[Hqe _]|k (Hqe & _)|k (Hqe & _ & Ht & _)|k (Hqe & _)]; rewrite Hqe in Hin; auto.
    apply elem_of_app in Hin as [Hin| ->%list_elem_of_singleton]; [by left|]. right. intros i Hi. by apply Hp in Hi.
  - intros key Hin. destruct Hu as [[Hqe Hf]|k (Hqe & _)|k (Hqe & _ & Ht & Ht' & _)|k (Hqe & _)]; rewrite Hqe in Hin;
      try (apply Hfl, Hqd, Hin).
    apply elem_of_app in Hin as [Hin| ->%list_elem_of_singleton]; [by apply Hfl, Hqd|done].
  - intros key i Hi. apply Hfl. by eapply Hp.
Qed.

(** A worker takes the next key from the channel. *)
Lemma exclusive_taken st key q m m' sc b :
  exclusive {| sh := {| p_state := st; p_queue := key :: q |}; mu := m; sched := sc; busy := b |} →
  exclusive {| sh := {| p_state := st; p_queue := q |}; mu := m'; sched := sc; busy := b ++ [(key, pollOne key)] |}.
Proof.
  intros [Hq Hqd Hpl Hsi]. cbn in *. apply NoDup_cons in Hq as [Hnin Hq].
  assert (Hnew : ∀ key' i, polls {| sh := {| p_state := st; p_queue := q |}; mu := m'; sched := sc;
      busy := b ++ [(key, pollOne key)] |} key' i →
    (key' = key ∧ i = length b) ∨ polls {| sh := {| p_state := st; p_queue := key :: q |}; mu := m; sched := sc;
      busy := b |} key' i).
  { intros key' i (p & Hi & Hpp). cbn in Hi. apply lookup_app_Some in Hi as [Hi|(Hl & Hi)]; [right; by exists p|].
    destruct (i - length b) as [|?] eqn:E; [|done]. injection Hi as <- _. left. split; [done|lia]. }
  destruct (Hqd key) as [Hkf Hkn]; [left|].
  split; cbn; [done|..].
  - intros key' Hin. destruct (Hqd key') as [Hf Hn]; [by right|]. split; [done|].
    intros i [[-> _]|Hi]%Hnew; [done|by eapply Hn].
  - intros key' i [[-> _]|Hi]%Hnew; [done|by eapply Hpl].
  - intros key' i j [[-> ->]|Hi]%Hnew [[E ->]|Hj]%Hnew; [done|by destruct (Hkn j)|subst; by destruct (Hkn i)|by eapply Hsi].
Qed.

(** A worker polls nothing after its step that it did not poll before. *)
Lemma worker_polls key p s m p' s' m' sc b1 b2 key' i :
  worker_moves key p s p' s' →
  polls {| sh := s'; mu := m'; sched := sc; busy := b1 ++ (key, p') :: b2 |} key' i →
  polls {| sh := s; mu := m; sched := sc; busy := b1 ++ (key, p) :: b2 |} key' i ∧
  (i = length b1 → key' = key ∧ pending key p').
Proof.
  intros Hst (q & Hi & Hpq). unfold polls. cbn in *. rewrite (lookup_moved _ _ (key, p)) in Hi. case_decide as Hl.
  - injection Hi as <- <-. subst i. split; [|done]. exists p. rewrite list_lookup_middle by done. split; [done|].
    destruct Hst as [Hp _ _|Hp _ _|_ Hf _]; [done..|by destruct (pending_not_finished key p')].
  - split; [by exists q|done].
Qed.

Lemma exclusive_worker key p s m p' s' m' sc b1 b2 :
  worker_moves key p s p' s' →
  exclusive {| sh := s; mu := m; sched := sc; busy := b1 ++ (key, p) :: b2 |} →
  exclusive {| sh := s'; mu := m'; sched := sc; busy := b1 ++ (key, p') :: b2 |}.
Proof.
  intros Hst He. pose proof He as [Hq Hqd Hpl Hsi]; cbn in *.
  pose proof (worker_queue _ _ _ _ _ Hst) as Hqe.
  pose proof (fun key' i => worker_polls key p s m p' s' m' sc b1 b2 key' i Hst) as Hback.
  assert (Hmine : pending key p → polls {| sh := s; mu := m; sched := sc; busy := b1 ++ (key, p) :: b2 |} key (length b1)).
  { intros. exists p. cbn. by rewrite list_lookup_middle. }
  apply (exclusive_moved _ _ id He); cbn; rewrite ?Hqe; auto.
  - intros key' i Hi. by apply Hback.
  - intros key' Hin. destruct (Hqd _ Hin) as [Hf Hn].
    destruct Hst as [_ _ [_ ->]|Hpp _ (_ & _ & _ & Ho)|_ _ ->]; [done| |done].
    rewrite Ho; [done|]. intros ->. by apply (Hn (length b1)), Hmine.
  - intros key' i Hi. destruct (Hback _ _ Hi) as [Hold Hself].
    destruct Hst as [_ _ [_ ->]|Hpp Hfin (_ & _ & _ & Ho)|_ _ ->]; [by eapply Hpl| |by eapply Hpl].
    rewrite Ho; [by eapply Hpl|]. intros ->. assert (i = length b1) as -> by (by apply (Hsi key); [|apply Hmine]).
    destruct (Hself eq_refl) as [_ ?]. by destruct (pending_not_finished key p').
Qed.

Lemma step_exclusive sys sys' :
  sys_step sys sys' → keeps_in_flight sys sys' → well_formed sys → exclusive sys → exclusive sys'.
Proof.
  intros Hs Hk [Hsc Hb _ _ _] He. pose proof He as [Hq Hqd Hpl Hsi]. destruct Hs as
    [s m b|p s m p' s' m' b Hp|s m b|st key q m sc b Hlen|key p s m p' s' m' sc b1 b2 Hp
    |key X c k s m sc b1 b2 Hnow|key s m sc b1 b2]; unfold keeps_in_flight in Hk; cbn in *.
  - by eapply exclusive_ext; [..|exact He].
  - destruct (pstep_scheduler _ _ _ _ _ _ (Hsc _ eq_refl) Hp) as [_ Hu].
    by apply (exclusive_shared s s' m m' (Some p) (Some p') b).
  - by eapply exclusive_ext; [..|exact He].
  - by eapply exclusive_taken.
  - eapply exclusive_worker; [|exact He]. eapply worker_step; [|exact Hp].
    apply (Hb (length b1)). by rewrite list_lookup_middle.
  - assert (pending key (Vis (Ext c) k)) as Hpc.
    { destruct (Hb (length b1) key (Vis (Ext c) k)) as [?|[[] _]]; [by rewrite list_lookup_middle|done]. }
    apply (exclusive_moved _ _ id He); cbn; try done; auto.
    + intros key' i (r & Hr & Hpr). cbn in Hr. rewrite (lookup_moved _ _ (key, Vis (Ext c) k)) in Hr.
      case_decide as Hi; [|by exists r]. injection Hr as <- <-. subst i. eexists. cbn. by rewrite list_lookup_middle.
    + intros key' Hin. by apply Hqd.
    + intros key' i (r & Hr & Hpr). cbn in Hr. rewrite (lookup_moved _ _ (key, Vis (Ext c) k)) in Hr.
      case_decide as Hi; [|eapply (Hpl key' i); by exists r]. injection Hr as <- <-. eapply (Hpl key (length b1)).
      eexists. cbn. by rewrite list_lookup_middle.
  - assert (∀ key' i, polls {| sh := s; mu := m; sched := sc; busy := b1 ++ b2 |} key' i →
      polls {| sh := s; mu := m; sched := sc; busy := b1 ++ (key, Ret tt) :: b2 |} key'
        (if decide (i < length b1) then i else S i)) as Hback.
    { intros key' i (r & Hr & Hpr). exists r. split; [|done]. cbn in *. by rewrite <- lookup_removed. }
    apply (exclusive_moved _ _ (fun i => if decide (i < length b1) then i else S i) He); cbn; try done; auto.
    + intros i j. repeat case_decide; lia.
    + intros key' Hin. by apply Hqd.
    + intros key' i Hi. by eapply Hpl, Hback.
Qed.

Definition careful_step (sys sys' : system) : Prop := sys_step sys sys' ∧ keeps_in_flight sys sys'.

Lemma init_exclusive : exclusive sys_init.
Proof.
  split; cbn; [by apply NoDup_nil|by intros key ?%elem_of_nil|by intros key i (p & [=] & _)|].
  by intros key i j (p & [=] & _).
Qed.

Lemma careful_invariant sys : rtc careful_step sys_init sys → well_formed sys ∧ exclusive sys.
Proof.
  intros Hr. eapply (rtc_invariant careful_step (fun s => well_formed s ∧ exclusive s));
    [|exact Hr|auto using init_well_formed, init_exclusive].
  intros a b [Hs Hk] [Hw He]. eauto using step_well_formed, step_exclusive.
Qed.

(** ** The life of a bot in the poller

    What the scheduler and the workers do together, as one bot sees it. *)

Inductive phase := Untracked | Idle | Queued | Polling.

Inductive phase_step : phase → phase → Prop :=
  | Track : phase_step Untracked Idle
  | Discover : phase_step Untracked Queued
  | Enqueue : phase_step Idle Queued
  | StartPoll : phase_step Queued Polling
  | FinishPoll : phase_step Polling Idle
  | Forget : phase_step Idle Untracked.

Definition phase_in (s : pollerState) (key : NamespacedName) : phase :=
  match fl s key with
  | None => Untracked
  | Some false => Idle
  | Some true => if decide (key ∈ p_queue s) then Queued else Polling
  end.

Definition phase_of (sys : system) : NamespacedName → phase := phase_in (sh sys).

Definition moves (key : NamespacedName) (s s' : pollerState) : Prop :=
  phase_in s' key = phase_in s key ∨ phase_step (phase_in s key) (phase_in s' key).

Lemma moves_same key s s' : fl s' key = fl s key → (key ∈ p_queue s' ↔ key ∈ p_queue s) → moves key s s'.
Proof.
  intros Hf Hq. left. unfold phase_in. rewrite Hf. by rewrite (decide_ext _ _ _ _ Hq).
Qed.

Lemma moves_scheduler key s s' :
  sched_update s s' → (fl s key = Some true → fl s' key ≠ None) → moves key s s'.
Proof.
  intros Hu Hk. destruct Hu as [[Hqe Hf]|k (Hqe & Hne & Ht & Ho)|k (Hqe & _ & Hne & Ht & Ho)|k (Hqe & Hf & Ho)].
  1: by apply moves_same; [|rewrite Hqe].
  all: destruct (decide (key = k)) as [->|Hkk]; [|apply moves_same; [by apply Ho|rewrite Hqe; set_solver]].
  - unfold moves, phase_in. rewrite Ht. destruct (fl s k) as [[]|]; [done|by left|right; constructor].
  - unfold moves, phase_in. rewrite Ht, Hqe, decide_True by set_solver.
    destruct (fl s k) as [[]|]; [done|right; constructor..].
  - unfold moves, phase_in. rewrite Hf. destruct (fl s k) as [[]|]; [by destruct Hk|right; constructor|by left].
Qed.

Lemma moves_worker key key' p s m p' s' sc b1 b2 :
  worker_moves key' p s p' s' → (fl s key = Some true → fl s' key ≠ None) →
  exclusive {| sh := s; mu := m; sched := sc; busy := b1 ++ (key', p) :: b2 |} → moves key s s'.
Proof.
  intros Hst Hk [_ Hqd Hpl _]. cbn in *.
  destruct Hst as [_ _ [Hqe Hf]|Hpp _ (Hqe & Hne & _ & Ho)|_ _ ->]; [by apply moves_same; [|rewrite Hqe]| |by left].
  destruct (decide (key = key')) as [->|Hkk]; [|by apply moves_same; [apply Ho|rewrite Hqe]].
  assert (polls {| sh := s; mu := m; sched := sc; busy := b1 ++ (key', p) :: b2 |} key' (length b1)) as Hp.
  { exists p. cbn. by rewrite list_lookup_middle. }
  assert (key' ∉ p_queue s) as Hnin by (intros Hin; by apply (proj2 (Hqd _ Hin) (length b1))).
  pose proof (Hpl _ _ Hp) as Ht. specialize (Hk Ht). unfold moves, phase_in. rewrite Ht, Hqe, !(decide_False _ _ Hnin).
  destruct (fl s' key') as [[]|]; [done|right; constructor|done].
Qed.

Lemma moves_taken st key key' q : NoDup (key' :: q) → fl {| p_state := st; p_queue := key' :: q |} key' = Some true →
  moves key {| p_state := st; p_queue := key' :: q |} {| p_state := st; p_queue := q |}.
Proof.
  intros Hnd Ht. destruct (decide (key = key')) as [->|Hkk]; [|apply moves_same; [done|cbn; set_solver]].
  unfold moves, phase_in. change (fl {| p_state := st; p_queue := q |} key') with (fl {| p_state := st; p_queue := key' :: q |} key').
  rewrite Ht. cbn. apply NoDup_cons in Hnd as [Hn _]. assert (key' ∈ key' :: q) as Hin by by left.
  rewrite !(decide_False _ _ Hn), !(decide_True _ _ Hin). right. constructor.
Qed.

(** ** Theorems *)

(** C17: the poller refines the life of a bot: as long as no bot is forgotten
    in flight, every step of scheduler and workers leaves each bot where it is
    or takes it one step along untracked, idle, queued, polling and back to
    idle - never from idle to polling, from polling to queued or out of the
    table while in flight -, and a bot is in phase polling exactly while a
    worker is polling it. *)
Theorem bot_lifecycle sys sys' key :
  rtc careful_step sys_init sys → careful_step sys sys' →
  (phase_of sys' key = phase_of sys key ∨ phase_step (phase_of sys key) (phase_of sys' key)) ∧
  (phase_of sys key = Polling ↔ ∃ i p, busy sys !! i = Some (key, p) ∧ pending key p).
Proof.
  intros Hr [Hs Hk]. destruct (careful_invariant _ Hr) as [Hwf He].
  split.
  - specialize (Hk key). destruct Hwf as [Hsc Hb _ _ _]. change (moves key (sh sys) (sh sys')). destruct Hs as
      [s m b|p s m p' s' m' b Hp|s m b|st key' q m sc b Hlen|key' p s m p' s' m' sc b1 b2 Hp
      |key' X c k s m sc b1 b2 Hnow|key' s m sc b1 b2]; cbn in *; try by left.
    + apply moves_scheduler; [|done]. by eapply (pstep_scheduler p); [apply Hsc|].
    + destruct He as [Hq Hqd _ _]. cbn in *. apply moves_taken; [done|]. by apply Hqd; left.
    + eapply moves_worker; [|done|exact He]. eapply worker_step; [|exact Hp].
      apply (Hb (length b1)). by rewrite list_lookup_middle.
  - unfold phase_of, phase_in. destruct He as [_ Hqd Hpl _], Hwf as [_ _ _ _ Hm]. split.
    + destruct (fl (sh sys) key) as [[]|] eqn:Ht; [|done..]. case_decide as Hq; [done|]. intros _.
      by destruct (Hm _ Ht) as [?|(i & p & Hp)]; [|exists i, p].
    + intros (i & p & Hi). assert (polls sys key i) as Hp by by exists p. rewrite (Hpl _ _ Hp).
      case_decide as Hq; [|done]. by destruct (proj2 (Hqd _ Hq) i).
Qed.

(** C15: no bot is ever stuck: in every reachable state of scheduler and
    workers, however their steps interleave, whatever a bot or the API server
    answers and even if a poll panics, a bot marked in flight is either in
    the channel or held by a worker that will clear the mark. *)
Theorem in_flight_is_scheduled sys key :
  reachable sys → fl (sh sys) key = Some true →
  key ∈ p_queue (sh sys) ∨ ∃ i p, busy sys !! i = Some (key, p) ∧ pending key p.
Proof. intros Hr Hk. destruct (wf_marks _ (reachable_well_formed _ Hr) _ Hk) as [Hin|[i (p & ? & ?)]]; eauto. Qed.

(** The poller is bounded: at most [workers] polls run at once and the
    channel holds at most twice as many keys, so a send never blocks the
    scheduler. *)
Theorem poller_bounded sys :
  reachable sys → length (busy sys) ≤ workers ∧ length (p_queue (sh sys)) ≤ 2 * workers.
Proof.
  intros Hr. destruct (reachable_well_formed _ Hr) as [_ _ Hq Hw _]. unfold queue_cap in Hq. split; lia.
Qed.

(** C14: no bot is polled twice at the same time, as long as no bot is
    forgotten (deleted, or its introspection switched off) while it is in
    flight: no key is in the channel twice, none is both queued and being
    polled, and no two workers poll the same one. *)
Theorem one_poll_per_bot sys :
  rtc careful_step sys_init sys →
  NoDup (p_queue (sh sys)) ∧
  (∀ key i p, busy sys !! i = Some (key, p) → pending key p → key ∉ p_queue (sh sys)) ∧
  (∀ key i j p q, busy sys !! i = Some (key, p) → busy sys !! j = Some (key, q) →
     pending key p → pending key q → i = j).
Proof.
  intros Hr. destruct (careful_invariant _ Hr) as [_ [Hq Hqd _ Hs]]. split_and!; [done|..].
  - intros key i p Hi Hp Hin. destruct (Hqd _ Hin) as [_ Hn]. apply (Hn i). by exists p.
  - intros key i j p q Hi Hj Hp Hpq. apply (Hs key); [by exists p|by exists q].
Qed.
End System.

(** ** A concrete run

    One goroutine driven against an environment, as long as the mutex lets
    it, for [n] calls; it stops before an update that forgets a bot. *)

Fixpoint drive (env : Env) (n : nat) (p : POp unit) (s : pollerState) (m : bool) : POp unit * pollerState * bool :=
  match n, p with
  | S n, Vis c k =>
      match c in PCall X return (X → POp unit) → POp unit * pollerState * bool with
      | Ext c => fun k => drive env n (k (answer env _ c tt).1) s m
      | Lock => fun k => if m then (p, s, m) else drive env n (k tt) s true
      | Unlock => fun k => if m then drive env n (k tt) s false else (p, s, m)
      | Upd f => fun k =>
          if decide (dom (p_state s) ⊆ dom (p_state (f s).1)) then drive env n (k (f s).2) (f s).1 m
          else (p, s, m)
      end k
  | _, _ => (p, s, m)
  end.

Section Drive.
Context `{KubeLib} `{GoLib} (workers : nat).

Lemma keeps_dom sys sys' : dom (p_state (sh sys)) ⊆ dom (p_state (sh sys')) → keeps_in_flight sys sys'.
Proof.
  intros Hd key Hkey Hn. unfold fl in *.
  assert (key ∈ dom (p_state (sh sys'))) as Hin.
  { apply Hd, elem_of_dom. destruct (p_state (sh sys) !! key); [by eexists|done]. }
  apply elem_of_dom in Hin as [st Hst]. by rewrite Hst in Hn.
Qed.

Lemma drive_sched env n p s m b :
  let r := drive env n p s m in
  rtc (careful_step workers) {| sh := s; mu := m; sched := Some p; busy := b |}
    {| sh := r.1.2; mu := r.2; sched := Some r.1.1; busy := b |}.
Proof.
  cbv zeta. revert p s m; induction n as [|n IH]; intros p s m; [done|]. destruct p as [a|X c k]; [done|].
  cbn [drive]. destruct c; cbn beta iota.
  - eapply rtc_l; [|apply IH]. split; [by apply sys_sched, pstep_ext|by apply keeps_dom].
  - destruct m; [done|]. eapply rtc_l; [|apply IH]. split; [by apply sys_sched, pstep_lock|by apply keeps_dom].
  - destruct m; [|done]. eapply rtc_l; [|apply IH]. split; [by apply sys_sched, pstep_unlock|by apply keeps_dom].
  - case_decide as Hd; [|done]. eapply rtc_l; [|apply IH]. split; [by apply sys_sched, pstep_upd|by apply keeps_dom].
Qed.
End Drive.

Module Example.
#[local] Existing Instance kubelib_instance.
#[local] Existing Instance golib_instance.

Definition bot : TradeBot :=
  with_Meta TradeBotConversion.ZeroAlpha (NewMeta "bot" "default" ∅ ∅).
Definition bot_env : Env :=
  {| env_get := fun _ _ => Err NotFoundErr;
     env_list := fun k => match k return result (list (Obj k)) with KTradeBot => Ok [bot] | _ => Ok [] end;
     env_now := 0; env_http := fun _ => Err (Errorf "connection refused") |}.

(** The scheduler has found the bot due and put it in the channel ... *)
Definition scheduled : POp unit * pollerState * bool :=
  drive bot_env 4 (scheduleDue (queue_cap 1)) {| p_state := ∅; p_queue := [] |} false.
Definition queued : system :=
  {| sh := scheduled.1.2; mu := scheduled.2; sched := Some scheduled.1.1; busy := [] |}.

(** ... and the only worker has taken it. *)
Definition polling : system :=
  {| sh := {| p_state := p_state scheduled.1.2; p_queue := [] |}; mu := scheduled.2;
     sched := Some scheduled.1.1; busy := [(tradebot_key bot, pollOne (tradebot_key bot))] |}.

Lemma queued_careful : rtc (careful_step 1) sys_init queued.
Proof.
  eapply rtc_l; [split; [apply sys_tick|by apply keeps_dom]|]. exact (drive_sched 1 bot_env 4 _ _ _ _).
Qed.

Lemma take_careful : careful_step 1 queued polling.
Proof.
  unfold queued, polling.
  assert (scheduled.1.2 = {| p_state := p_state scheduled.1.2; p_queue := [tradebot_key bot] |}) as E.
  { vm_compute. reflexivity. }
  rewrite E. split; [|by apply keeps_dom]. apply (sys_take 1 _ _ [] _ _ []). cbn. lia.
Qed.

Lemma polling_careful : rtc (careful_step 1) sys_init polling.
Proof. eapply rtc_r; [exact queued_careful|exact take_careful]. Qed.

Lemma polling_reachable : reachable 1 polling.
Proof. eapply rtc_subrel; [|exact polling_careful]. by intros ? ? [? _]. Qed.
Lemma in_flight_is_scheduled_witness :
  tradebot_key bot ∈ p_queue (sh polling) ∨
  ∃ i p, busy polling !! i = Some (tradebot_key bot, p) ∧ pending (tradebot_key bot) p.
Proof.
  apply (in_flight_is_scheduled 1 polling (tradebot_key bot)); [exact polling_reachable|vm_compute; reflexivity].
Defined.

Lemma poller_bounded_witness : length (busy polling) ≤ 1 ∧ length (p_queue (sh polling)) ≤ 2 * 1.
Proof. apply (poller_bounded 1 polling). exact polling_reachable. Defined.

Lemma one_poll_per_bot_witness : tradebot_key bot ∉ p_queue (sh polling).
Proof.
  destruct (one_poll_per_bot 1 polling polling_careful) as (_ & Hp & _).
  apply (Hp (tradebot_key bot) 0 (pollOne (tradebot_key bot))); [reflexivity|apply pollOne_pending].
Defined.

Lemma bot_lifecycle_witness :
  phase_of polling (tradebot_key bot) = phase_of queued (tradebot_key bot) ∨
  phase_step (phase_of queued (tradebot_key bot)) (phase_of polling (tradebot_key bot)).
Proof. apply (bot_lifecycle 1 queued polling (tradebot_key bot) queued_careful take_careful). Defined.

Example queued_then_polling :
  phase_of queued (tradebot_key bot) = Queued ∧ phase_of polling (tradebot_key bot) = Polling.
Proof. split; vm_compute; reflexivity. Qed.
End Example.
