(* ===== verification/PollerShutdown.v ===== *)
(** * BotPoller.Start: the mutex, progress and shutdown

    What the interleaving of [PollerSystem] leaves open: that every goroutine
    follows the lock discipline of p.mu, that no goroutine waits for ever, and
    that Start returns after its context is cancelled - the channel closed,
    drained by the workers, and every one of them gone.

    Start itself is [start_step], around [sys_step]: the select loop, [close]
    and [wg.Wait].  Termination is well-foundedness of the steps ([Acc]): the
    programs of the goroutines are well-founded trees, and the steps of a set of
    goroutines replace one of them by a smaller one or remove it. *)

From S2P Require Import Prelude Prog GoLib Kube Types Client Shared Conversion TradeBotResources TradeBotStatus BotClient Poller PollerSystem.
Import V1alpha1.

(** ** Start *)

Record BotPoller := { Workers : Z }.

Definition workers (p : BotPoller) : nat :=
  if (0 <? Workers p)%Z then Z.to_nat (Workers p) else defaultPollWorkers.

Definition NeedLeaderElection (p : BotPoller) : bool := true.

(** Start is in its select loop, in [wg.Wait()] or has returned. *)
Inductive main_state := Serving | Waiting | Returned.

Record poller := {
  core : system;
  main : main_state;
  exited : nat                     (* workers whose range loop has ended *)
}.

Section Start.
Context `{KubeLib} `{GoLib} (p : BotPoller).

Definition start_init : poller := {| core := sys_init; main := Serving; exited := 0 |}.

(** [<-ctx.Done()] is selected between two runs of scheduleDue only.  After
    [close(queue)] no tick is served, a range loop still receives what is in
    the channel, and ends on the empty one. *)
Inductive start_step : poller → poller → Prop :=
  | start_serve c c' :
      sys_step (workers p) c c' →
      start_step {| core := c; main := Serving; exited := 0 |} {| core := c'; main := Serving; exited := 0 |}
  | start_done c :
      sched c = None →
      start_step {| core := c; main := Serving; exited := 0 |} {| core := c; main := Waiting; exited := 0 |}
  | start_drain c c' n :
      sys_step (workers p) c c' → sched c' = None → length (busy c') + n ≤ workers p →
      start_step {| core := c; main := Waiting; exited := n |} {| core := c'; main := Waiting; exited := n |}
  | start_exit c n :
      p_queue (sh c) = [] → length (busy c) + n < workers p →
      start_step {| core := c; main := Waiting; exited := n |} {| core := c; main := Waiting; exited := S n |}
  | start_return c :
      start_step {| core := c; main := Waiting; exited := workers p |}
                 {| core := c; main := Returned; exited := workers p |}.

(** A step of a goroutine that is at work: no tick, no key taken. *)
Definition running_step (c c' : system) : Prop :=
  sys_step (workers p) c c' ∧ (sched c = None → sched c' = None) ∧ length (busy c') ≤ length (busy c).

(** ** The lock discipline

    [guarded P h o q]: a goroutine that holds p.mu iff [h] runs [q], locks only
    what it does not hold, unlocks only what it holds, touches the table and the
    channel only under the lock, makes only the calls of [P] while it holds
    it, and holds it iff [o] in the end. *)
Fixpoint guarded (P : ∀ X, Call X → Prop) {A} (h o : bool) (q : POp A) : Prop :=
  match q with
  | Ret _ => h = o
  | @Vis _ _ X c k =>
      match c in PCall X return (bool → X → Prop) → Prop with
      | Ext c => fun K => (h = true → P _ c) ∧ ∀ x, K h x
      | Lock => fun K => h = false ∧ K true tt
      | Unlock => fun K => h = true ∧ K false tt
      | Upd _ => fun K => h = true ∧ ∀ x, K h x
      end (fun h' x => guarded P h' o (k x))
  end.

Definition anything (X : Type) (c : Call X) : Prop := True.
Definition reads_clock (X : Type) (c : Call X) : Prop := is_now c.

Lemma guarded_bind P {A B} h m o (q : POp A) (f : A → POp B) :
  guarded P h m q → (∀ a, guarded P m o (f a)) → guarded P h o (q ≫= f).
Proof.
  intros Hq Hf. revert h Hq; induction q as [a|X c k IH]; intros h Hq; cbn in *; [by subst|].
  destruct c; cbn in *; destruct Hq as [Hc Hk]; (split; [exact Hc|]); try intros x; apply IH, Hk.
Qed.

Lemma guarded_locked P {A} (q : POp A) : guarded P true true q → guarded P false false (locked q).
Proof.
  intros Hq. split; [done|]. change (guarded P true false (q ≫= fun a => _ ← trigger Unlock; mret a)).
  eapply guarded_bind; [exact Hq|]. intros a. by split.
Qed.

Lemma guarded_ext P {A} (q : Op A) : guarded P false false (ext q).
Proof. induction q as [a|X c k IH]; [done|]. by split. Qed.

Lemma guarded_upd P f : guarded P true true (upd f).
Proof. by split. Qed.

Lemma guarded_clear P key : guarded P false false (clear_inFlight key).
Proof. apply guarded_locked, guarded_upd. Qed.

Lemma guarded_pollOne key : guarded reads_clock false false (pollOne key).
Proof.
  unfold pollOne. eapply guarded_bind; [apply guarded_ext|]. intros got.
  eapply guarded_bind; [|intros ?; apply guarded_clear].
  destruct got as [t|e]; [|done]. eapply guarded_bind; [apply guarded_ext|].
  intros [[[fresh reachable] exchange] balance]. eapply guarded_bind.
  { eapply guarded_bind; [apply guarded_locked, guarded_upd|]. intros ?. apply guarded_ext. }
  intros ?. eapply guarded_bind; [|intros ?; eapply guarded_bind; [apply guarded_ext|done]].
  apply guarded_locked. split; [done|]. intros [|]; [|done]. split; [done|]. intros ?. apply guarded_upd.
Qed.

Lemma guarded_schedule_loop cap now items seen disabled :
  guarded anything true true (schedule_loop cap now items seen disabled).
Proof.
  revert seen disabled; induction items as [|t items IH]; intros seen disabled; [done|]. cbn [schedule_loop].
  destruct (negb (isTradeMode t)); [apply IH|]. destruct (negb (introspectionEnabled t)); [apply IH|].
  split; [done|]. intros ?. apply IH.
Qed.

Lemma guarded_ext_held P {A} (q : Op A) : emits P q → guarded P true true (ext q).
Proof. induction q as [a|X c k IH]; [done|]. intros [Hc Hk]. split; [done|]. intros x. apply IH, Hk. Qed.

Lemma guarded_forget_loop seen entries : guarded anything true true (forget_loop seen entries).
Proof.
  induction entries as [|[key st] entries IH]; [done|]. cbn [forget_loop]. case_decide; [done|].
  eapply guarded_bind; [apply guarded_ext_held; by split|]. intros ?. split; [done|]. by intros ?.
Qed.

Lemma guarded_scheduleDue cap : guarded anything false false (scheduleDue cap).
Proof.
  eapply guarded_bind; [apply guarded_ext|]. intros [items|e]; [|done].
  eapply guarded_bind; [apply guarded_ext|]. intros now. eapply guarded_bind.
  - apply guarded_locked. eapply guarded_bind; [apply guarded_schedule_loop|]. intros r.
    eapply guarded_bind; [by split|]. intros entries.
    eapply guarded_bind; [apply guarded_forget_loop|]. by intros ?.
  - intros a. induction a as [|t ts IH]; [done|]. cbn [foldr].
    eapply guarded_bind; [apply guarded_ext|by intros ?].
Qed.
(** ** One goroutine holds the mutex, or none *)

Definition holders (hs : bool) (hb : list bool) : nat := Nat.b2n hs + sum_list_with Nat.b2n hb.

(** [hs] and [hb]: whether the scheduler and each worker is in a locked section. *)
Record locks (sys : system) (hs : bool) (hb : list bool) : Prop := {
  lk_sched : match sched sys with Some q => guarded anything hs false q | None => hs = false end;
  lk_busy : Forall2 (fun h w => guarded reads_clock h false w.2) hb (busy sys);
  lk_mu : holders hs hb = Nat.b2n (mu sys)
}.

Definition lock_inv (sys : system) : Prop := ∃ hs hb, locks sys hs hb.

Lemma pstep_guarded P {A} (q : POp A) s m q' s' m' h o :
  pstep q s m q' s' m' → guarded P h o q →
  ∃ h', guarded P h' o q' ∧ Nat.b2n h' + Nat.b2n m = Nat.b2n h + Nat.b2n m'.
Proof.
  intros Hs; revert h. destruct Hs; intros h [Hh Hk]; subst; cbn in *.
  - by exists h.
  - exists true. by split.
  - exists false. by split.
  - exists true. split; [apply Hk|done].
Qed.

Lemma holders_middle hs h1 h h2 : holders hs (h1 ++ h :: h2) = Nat.b2n h + holders hs (h1 ++ h2).
Proof. unfold holders. rewrite !sum_list_with_app. cbn. lia. Qed.

(** The flags around the worker in the middle. *)
Lemma locks_busy_inv sys hs hb b1 key q b2 :
  locks sys hs hb → busy sys = b1 ++ (key, q) :: b2 →
  ∃ h1 h h2, hb = h1 ++ h :: h2 ∧ guarded reads_clock h false q ∧
    Forall2 (fun h w => guarded reads_clock h false w.2) h1 b1 ∧
    Forall2 (fun h w => guarded reads_clock h false w.2) h2 b2.
Proof.
  intros [_ Hb _] E. rewrite E in Hb. apply Forall2_app_inv_r in Hb as (h1 & h2' & H1 & H2 & ->).
  apply Forall2_cons_inv_r in H2 as (h & h2 & Hh & H2 & ->). eauto 10.
Qed.

(** One worker moves: its flag follows the mutex. *)
Lemma locks_moved s m s' m' sc key q q' b1 b2 hs h1 h h' h2 :
  locks {| sh := s; mu := m; sched := sc; busy := b1 ++ (key, q) :: b2 |} hs (h1 ++ h :: h2) →
  Forall2 (fun h w => guarded reads_clock h false w.2) h1 b1 →
  Forall2 (fun h w => guarded reads_clock h false w.2) h2 b2 →
  guarded reads_clock h' false q' → Nat.b2n h' + Nat.b2n m = Nat.b2n h + Nat.b2n m' →
  locks {| sh := s'; mu := m'; sched := sc; busy := b1 ++ (key, q') :: b2 |} hs (h1 ++ h' :: h2).
Proof.
  intros [Hs _ Hm] H1 H2 Hq Hh. split; cbn in *; [done| |rewrite holders_middle in *; lia].
  apply Forall2_app; [done|]. by constructor.
Qed.

Lemma step_lock_inv sys sys' : sys_step (workers p) sys sys' → lock_inv sys → lock_inv sys'.
Proof.
  intros Hs (hs & hb & Hl). destruct Hs as
    [s m b|q s m q' s' m' b Hq|s m b|st key q m sc b Hlen|key q s m q' s' m' sc b1 b2 Hq
    |key X c k s m sc b1 b2 Hnow|key s m sc b1 b2].
  - destruct Hl as [Hs Hb Hm]; cbn in *. exists false, hb. subst hs. split; cbn; [apply guarded_scheduleDue|done..].
  - destruct Hl as [Hs Hb Hm]; cbn in *. destruct (pstep_guarded _ _ _ _ _ _ _ _ _ Hq Hs) as (h' & Hh' & He).
    exists h', hb. split; cbn; [done..|]. unfold holders in *. lia.
  - destruct Hl as [Hs Hb Hm]; cbn in *. subst hs. by exists false, hb.
  - destruct Hl as [Hs Hb Hm]; cbn in *. exists hs, (hb ++ [false]). split; cbn; [done|..].
    + apply Forall2_app; [done|]. constructor; [apply guarded_pollOne|constructor].
    + by rewrite holders_middle, app_nil_r.
  - destruct (locks_busy_inv _ _ _ _ _ _ _ Hl eq_refl) as (h1 & h & h2 & -> & Hh & H1 & H2).
    destruct (pstep_guarded _ _ _ _ _ _ _ _ _ Hq Hh) as (h' & Hh' & He).
    exists hs, (h1 ++ h' :: h2). by eapply locks_moved.
  - destruct (locks_busy_inv _ _ _ _ _ _ _ Hl eq_refl) as (h1 & h & h2 & -> & [Hh _] & H1 & H2).
    assert (h = false) as -> by (destruct h; [destruct Hnow; exact (Hh eq_refl)|done]).
    exists hs, (h1 ++ false :: h2). eapply locks_moved; [exact Hl|done..|apply guarded_clear|done].
  - destruct (locks_busy_inv _ _ _ _ _ _ _ Hl eq_refl) as (h1 & h & h2 & -> & Hh & H1 & H2). cbn in Hh. subst h.
    destruct Hl as [Hs _ Hm]; cbn in *. exists hs, (h1 ++ h2).
    split; cbn; [done|by apply Forall2_app|by rewrite holders_middle in Hm].
Qed.

Lemma init_lock_inv : lock_inv sys_init.
Proof. exists false, []. by split; cbn; [|constructor|]. Qed.

Lemma reachable_lock_inv sys : reachable (workers p) sys → lock_inv sys.
Proof. intros Hr. eapply rtc_invariant; [exact step_lock_inv|exact Hr|exact init_lock_inv]. Qed.
(** ** Progress *)

(** A goroutine in a locked section can move, and so can one that is not
    while the mutex is free; but for the end of its program. *)
Lemma guarded_moves P {A} (q : POp A) s m h o :
  guarded P h o q → h = true ∧ m = true ∧ o = false ∨ m = false ∧ h = false →
  (∃ a, q = Ret a) ∨ ∃ q' s' m', pstep q s m q' s' m'.
Proof.
  intros Hq Hhm. destruct q as [a|X c k]; [left; by exists a|right].
  destruct c as [X c| | |X f]; cbn in Hq; destruct Hq as [Hh _].
  - eexists (k (answer empty_env X c tt).1), s, m. constructor.
  - destruct Hhm as [(-> & _)|[-> ->]]; [done|]. eexists _, _, _. constructor.
  - destruct Hhm as [(_ & -> & _)|[_ ->]]; [|done]. eexists _, _, _. constructor.
  - eexists _, _, _. constructor.
Qed.

Lemma worker_progress sys b1 key q b2 h :
  busy sys = b1 ++ (key, q) :: b2 → guarded reads_clock h false q →
  h = true ∧ mu sys = true ∨ mu sys = false ∧ h = false →
  ∃ sys', running_step sys sys' ∧ sched sys' = sched sys.
Proof.
  destruct sys as [s m sc b]; cbn. intros -> Hq Hhm.
  destruct (guarded_moves _ _ s m _ _ Hq) as [[[] ->]|(q' & s' & m' & Hs)]; [naive_solver|..].
  - eexists. split; [split_and!; [by constructor|done|]|done]. cbn. rewrite !length_app. cbn. lia.
  - eexists. split; [split_and!; [by constructor|done|]|done]. cbn. by rewrite !length_app.
Qed.

(** Who is at work never waits for ever: the holder of the mutex can step. *)
Lemma progress sys : lock_inv sys → sched sys ≠ None ∨ busy sys ≠ [] → ∃ sys', running_step sys sys'.
Proof.
  intros (hs & hb & Hl) Hwork. destruct (mu sys) eqn:Hmu.
  - pose proof (lk_mu _ _ _ Hl) as Hm. rewrite Hmu in Hm. destruct hs.
    + pose proof (lk_sched _ _ _ Hl) as Hs. destruct sys as [s m [q|] b]; cbn in *; [|done].
      destruct (guarded_moves _ _ s m _ _ Hs) as [[[] ->]|(q' & s' & m' & Hst)]; [auto|by cbn in Hs|].
      eexists. split_and!; [by constructor|done|done].
    + assert (∃ h1 h2, hb = h1 ++ true :: h2) as (h1 & h2 & ->).
      { unfold holders in Hm. cbn in Hm. clear -Hm. induction hb as [|[] hb IH]; [done|by exists [], hb|].
        destruct IH as (h1 & h2 & ->); [done|]. by exists (false :: h1), h2. }
      pose proof (lk_busy _ _ _ Hl) as Hb. apply Forall2_app_inv_l in Hb as (b1 & b2' & _ & H2 & Eb).
      apply Forall2_cons_inv_l in H2 as ([key q] & b2 & Hq & _ & ->).
      destruct (worker_progress _ _ _ _ _ true Eb Hq) as (sys' & Hs & _); eauto.
  - pose proof (lk_mu _ _ _ Hl) as Hm. rewrite Hmu in Hm. destruct (busy sys) as [|[key q] b] eqn:Hb.
    + destruct Hwork as [Hs|]; [|done]. destruct sys as [s m [q|] b]; cbn in *; [|done]. subst.
      pose proof (lk_sched _ _ _ Hl) as Hs0. cbn in Hs0. assert (hs = false) as -> by (by destruct hs).
      destruct (guarded_moves _ _ s false _ _ Hs0) as [[[] ->]|(q' & s' & m' & Hst)]; [auto|..];
        (eexists; split_and!; [by constructor|done|done]).
    + destruct (locks_busy_inv _ _ _ [] _ _ _ Hl Hb) as (h1 & h & h2 & -> & Hh & H1 & _).
      apply Forall2_nil_inv_r in H1 as ->. assert (h = false) as -> by (destruct h, hs; cbn in Hm; lia || done).
      destruct (worker_progress _ [] _ _ _ false Hb Hh) as (sys' & Hs & _); eauto.
Qed.
(** ** Termination

    A goroutine's program gets smaller with every step: the rest of it after an
    answer, or pollOne's deferred function after a panic. *)
Definition prog_lt (q' q : POp unit) : Prop :=
  match q with
  | Ret _ => False
  | Vis c k => (∃ x, q' = k x) ∨ (match c with Ext _ => True | _ => False end ∧ ∃ key, q' = clear_inFlight key)
  end.

Lemma prog_lt_answered {X} (c : PCall X) k :
  match c with Ext _ => False | _ => True end → (∀ x, Acc prog_lt (k x)) → Acc prog_lt (Vis c k).
Proof. intros Hc Hk. constructor. intros q' [[x ->]|[? _]]; [apply Hk|by destruct c]. Qed.

Lemma prog_lt_ret a : Acc prog_lt (Ret a).
Proof. by constructor. Qed.

Lemma prog_lt_wf : well_founded prog_lt.
Proof.
  assert (∀ key, Acc prog_lt (clear_inFlight key)) as Hclear.
  { intros key. do 3 (apply prog_lt_answered; [done|]; intros ?; cbn). apply prog_lt_ret. }
  intros q. induction q as [a|X c k IH]; [apply prog_lt_ret|].
  constructor. intros q' [[x ->]|(_ & key & ->)]; [apply IH|apply Hclear].
Qed.

(** One of the goroutines moves or is gone. *)
Definition shrinks (l' l : list (POp unit)) : Prop :=
  ∃ l1 q l2, l = l1 ++ q :: l2 ∧ (l' = l1 ++ l2 ∨ ∃ q', prog_lt q' q ∧ l' = l1 ++ q' :: l2).

Lemma shrinks_cons q l : Acc shrinks l → Acc shrinks (q :: l).
Proof.
  revert l. induction (prog_lt_wf q) as [q _ IHq]. intros l Hl. induction Hl as [l Hl IHl].
  constructor. intros l' ([|q1 l1] & q2 & l2 & E & Hl'); injection E as -> ->; cbn in Hl'.
  - destruct Hl' as [->|(q' & Hq' & ->)]; [by constructor|]. apply IHq; [done|by constructor].
  - destruct Hl' as [->|(q' & Hq' & ->)]; apply IHl; eexists l1, q2, l2; (split; [done|]); [by left|right; eauto].
Qed.

Lemma shrinks_wf : well_founded shrinks.
Proof.
  intros l; induction l as [|q l IH]; [|by apply shrinks_cons].
  constructor. intros l' ([|] & q & l2 & [=] & _).
Qed.

Definition goroutines (c : system) : list (POp unit) := option_list (sched c) ++ (busy c).*2.

Lemma pstep_prog_lt q s m q' s' m' : pstep q s m q' s' m' → prog_lt q' q.
Proof. intros []; cbn; left; eauto. Qed.

Lemma shrinks_worker sc (b1 : list (NamespacedName * POp unit)) key q b2 l :
  (l = b1 ++ b2 ∨ ∃ q', prog_lt q' q ∧ l = b1 ++ (key, q') :: b2) →
  shrinks (option_list sc ++ l.*2) (option_list sc ++ (b1 ++ (key, q) :: b2).*2).
Proof.
  intros Hl. exists (option_list sc ++ b1.*2), q, (b2.*2). rewrite !fmap_app, !fmap_cons, <- app_assoc. split; [done|].
  destruct Hl as [->|(q' & Hq & ->)]; [left|right; exists q'; split; [done|]];
    by rewrite fmap_app, <- app_assoc.
Qed.

Lemma running_shrinks c c' : running_step c c' → shrinks (goroutines c') (goroutines c).
Proof.
  intros (Hs & Hsc & Hlen). destruct Hs; cbn in *.
  - by specialize (Hsc eq_refl).
  - eexists [], _, _. split; [done|]. right. eexists. split; [by eapply pstep_prog_lt|done].
  - eexists [], _, _. split; [done|by left].
  - rewrite length_app in Hlen. cbn in Hlen. lia.
  - apply shrinks_worker. right. eexists. split; [by eapply pstep_prog_lt|done].
  - apply shrinks_worker. right. eexists. split; [|done]. right. eauto.
  - apply shrinks_worker. by left.
Qed.

(** *** While the channel is drained *)

Record start_inv (st : poller) : Prop := {
  si_core : reachable (workers p) (core st);
  si_sched : main st ≠ Serving → sched (core st) = None;
  si_exited : exited st ≠ 0 → p_queue (sh (core st)) = [];
  si_workers : length (busy (core st)) + exited st ≤ workers p;
  si_main : match main st with Serving => exited st = 0 | Waiting => True | Returned => exited st = workers p end
}.

(** The workers only receive. *)
Lemma drain_queue c c' :
  sys_step (workers p) c c' → well_formed (workers p) c → sched c = None → sched c' = None →
  length (p_queue (sh c')) < length (p_queue (sh c)) ∨ p_queue (sh c') = p_queue (sh c) ∧ running_step c c'.
Proof.
  intros Hs Hwf Hc Hc'. pose proof Hs as Hs0. destruct Hs as
    [s m b|q s m q' s' m' b Hq|s m b|st key q m sc b Hlen|key q s m q' s' m' sc b1 b2 Hq
    |key X c k s m sc b1 b2 Hnow|key s m sc b1 b2]; cbn in *; try discriminate.
  - left. lia.
  - right. split; [|split_and!; [done|done|cbn; by rewrite !length_app]].
    eapply worker_queue, worker_step; [|exact Hq]. apply (wf_busy _ _ Hwf (length b1)). cbn. by rewrite list_lookup_middle.
  - right. split; [done|]. split_and!; [done|done|cbn; by rewrite !length_app].
  - right. split; [done|]. split_and!; [done|done|cbn; rewrite !length_app; cbn; lia].
Qed.
Lemma drain_suffix c c' :
  sys_step (workers p) c c' → well_formed (workers p) c → sched c = None → sched c' = None →
  p_queue (sh c') `suffix_of` p_queue (sh c).
Proof.
  intros Hs Hwf Hc Hc'. pose proof (drain_queue _ _ Hs Hwf Hc Hc') as [Hlt|[-> _]]; [|done].
  destruct Hs as [| | |st key q m sc b _| | |]; cbn in *; try done; try lia; [by apply suffix_cons_r|].
  pose proof (wf_busy _ _ Hwf (length b1) key p0) as Hb. cbn in Hb. rewrite list_lookup_middle in Hb by done.
  erewrite (worker_queue key p0 s p') in Hlt by (eapply worker_step; eauto). lia.
Qed.

Lemma start_inv_init : start_inv start_init.
Proof. split; cbn; [constructor|done|by intros []|lia|done]. Qed.

Lemma start_step_inv st st' : start_step st st' → start_inv st → start_inv st'.
Proof.
  intros Hs [Hr Hsc Hex Hw Hm]. destruct Hs as [c c' Hs|c Hc|c c' n Hs Hc' Hn|c n Hq Hn|c]; cbn in *.
  - assert (reachable (workers p) c') as Hr' by by eapply rtc_r.
    pose proof (wf_workers _ _ (reachable_well_formed _ _ Hr')). split; cbn; try done; lia.
  - by split.
  - split; cbn; try done; [by eapply rtc_r|]. intros Hn0.
    destruct (drain_queue _ _ Hs (reachable_well_formed _ _ Hr) (Hsc ltac:(done)) Hc') as [Hlt|[-> _]]; [|auto].
    rewrite Hex in Hlt by done. cbn in Hlt. lia.
  - split; cbn; try done; lia.
  - split; cbn; try done. auto.
Qed.

Lemma start_reachable_inv st : rtc start_step start_init st → start_inv st.
Proof. intros Hr. eapply rtc_invariant; [exact start_step_inv|exact Hr|exact start_inv_init]. Qed.

Lemma returned_acc st : main st = Returned → Acc (fun s' s => start_step s s') st.
Proof. intros Hm. constructor. intros st' Hs. by destruct Hs. Qed.

Lemma drain_acc n l e st :
  start_inv st → main st = Waiting → length (p_queue (sh (core st))) = n → goroutines (core st) = l →
  workers p - exited st = e → Acc (fun s' s => start_step s s') st.
Proof.
  revert l e st. induction (Nat.lt_wf_0 n) as [n _ IHn]. intros l.
  induction (shrinks_wf l) as [l _ IHl]. intros e. induction (Nat.lt_wf_0 e) as [e _ IHe].
  intros st Hinv Hm Hn Hl He. constructor. intros st' Hs. pose proof (start_step_inv _ _ Hs Hinv) as Hinv'.
  destruct Hs as [| |c c' x Hs Hc' Hx|c x Hq Hx|c]; cbn [core main exited] in *; try discriminate Hm.
  - pose proof (reachable_well_formed _ _ (si_core _ Hinv)) as Hwf.
    destruct (drain_queue _ _ Hs Hwf (si_sched _ Hinv ltac:(done)) Hc') as [Hlt|[Hq Hrun]].
    + rewrite Hn in Hlt. by eapply (IHn _ Hlt).
    + assert (shrinks (goroutines c') l) as Hlt by (subst l; by apply running_shrinks).
      eapply (IHl _ Hlt); [exact Hinv'|reflexivity|cbn [core]; by rewrite Hq|reflexivity..].
  - assert (workers p - S x < e) as Hlt by lia. by eapply (IHe _ Hlt).
  - by apply returned_acc.
Qed.

Lemma drain_progress st : start_inv st → main st = Waiting → ∃ st', start_step st st'.
Proof.
  destruct st as [c [] n]; cbn; [done| |done]. intros [Hr Hsc Hex Hw _] _; cbn in *. specialize (Hsc ltac:(done)).
  destruct (busy c) as [|w b] eqn:Hb.
  - cbn in Hw. destruct (p_queue (sh c)) as [|key q] eqn:Hq.
    + destruct (decide (n = workers p)) as [->|Hne]; [eexists; apply start_return|].
      eexists. apply start_exit; [done|]. rewrite Hb. cbn. lia.
    + assert (n = 0) as -> by (destruct n; [done|by specialize (Hex ltac:(done))]).
      pose proof (wf_queue _ _ (reachable_well_formed _ _ Hr)) as Hcap. unfold queue_cap in Hcap. rewrite Hq in Hcap. cbn in Hcap.
      destruct c as [[st qu] m sc b]; cbn in *; subst.
      eexists. eapply start_drain; [apply sys_take; cbn; lia|done|cbn; lia].
  - destruct (progress c (reachable_lock_inv _ Hr)) as (c' & Hs & Hsc' & Hlen); [right; by rewrite Hb|].
    eexists. eapply start_drain; [exact Hs|auto|]. rewrite Hb in Hlen. cbn in *. lia.
Qed.

Lemma at_rest c : reachable (workers p) c → sched c = None → busy c = [] → p_queue (sh c) = [] →
  mu c = false ∧ ∀ key, fl (sh c) key ≠ Some true.
Proof.
  intros Hr Hs Hb Hq. split.
  - destruct (reachable_lock_inv _ Hr) as (hs & hb & [Hls Hlb Hm]). rewrite Hs in Hls. rewrite Hb in Hlb.
    apply Forall2_nil_inv_r in Hlb as ->. subst. by destruct (mu c).
  - intros key Hk. destruct (wf_marks _ _ (reachable_well_formed _ _ Hr) _ Hk) as [Hin|(i & q & Hi & _)].
    + rewrite Hq in Hin. by apply elem_of_nil in Hin.
    + by rewrite Hb in Hi.
Qed.

(** *** Who holds the mutex *)

Definition touches (q : POp unit) : Prop := match q with Vis (Upd _) _ => True | _ => False end.

Lemma one_holder (hs : list bool) i j :
  sum_list_with Nat.b2n hs ≤ 1 → hs !! i = Some true → hs !! j = Some true → i = j.
Proof.
  assert (∀ l k, l !! k = Some true → 1 ≤ sum_list_with Nat.b2n l) as Hone.
  { intros l; induction l as [|[] l IH]; intros [|k] Hk; cbn in *; try done; try lia. by eapply IH. }
  revert i j; induction hs as [|h hs IH]; intros [|i] [|j] Hs Hi Hj; cbn in *; try done.
  - injection Hi as ->. pose proof (Hone _ _ Hj). cbn in Hs. lia.
  - injection Hj as ->. pose proof (Hone _ _ Hi). cbn in Hs. lia.
  - f_equal. apply IH; [lia|done..].
Qed.

(** A flag for every goroutine. *)
Lemma flags c : lock_inv c → ∃ hs, sum_list_with Nat.b2n hs = Nat.b2n (mu c) ∧
  Forall2 (fun h q => touches q → h = true) hs (goroutines c).
Proof.
  intros (hs & hb & [Hs Hb Hm]). exists ((match sched c with Some _ => [hs] | None => [] end) ++ hb).
  assert (∀ P h q, guarded P h false q → touches q → h = true) as Ht.
  { intros P h [a|X k q]; [done|]. destruct k; try done. by intros []. }
  split.
  - rewrite sum_list_with_app, <- Hm. unfold holders. destruct (sched c); cbn; [lia|by subst].
  - apply Forall2_app; [destruct (sched c); cbn; constructor; [by eapply Ht|constructor]|].
    apply Forall2_fmap_r. eapply Forall2_impl; [exact Hb|]. intros h w Hw. exact (Ht _ _ _ Hw).
Qed.
(** ** Theorems *)

(** The poll table and the channel are only touched under p.mu: in every
    reachable state of scheduler and workers, a goroutine about to read or
    write the table holds the mutex, and no two are about to. *)
Theorem mutex_guards_table c i j q r :
  reachable (workers p) c →
  goroutines c !! i = Some q → touches q →
  mu c = true ∧ (goroutines c !! j = Some r → touches r → i = j).
Proof.
  intros Hr Hi Hq. destruct (flags c (reachable_lock_inv _ Hr)) as (hs & Hsum & Hf).
  destruct (Forall2_lookup_r _ _ _ _ _ Hf Hi) as (h & Hhi & Hh). specialize (Hh Hq) as ->. split.
  - destruct (mu c); [done|]. cbn in Hsum.
    rewrite <- (take_drop_middle _ _ _ Hhi), sum_list_with_app in Hsum. cbn in Hsum. lia.
  - intros Hj Hr'. destruct (Forall2_lookup_r _ _ _ _ _ Hf Hj) as (h & Hhj & Hh). specialize (Hh Hr') as ->.
    apply (one_holder hs); [|done..]. rewrite Hsum. destruct (mu c); cbn; lia.
Qed.

(** C19: no goroutine of the poller waits for ever: whatever is answered and
    whoever panics, the goroutines at work come to the end of a pass and of
    their polls in finitely many steps, and as long as one is at work one can
    step - p.mu never deadlocks them, so the select loop is always reached
    again. *)
Theorem goroutines_settle c :
  reachable (workers p) c →
  Acc (fun c' c => running_step c c') c ∧
  (sched c = None ∧ busy c = [] ∨ ∃ c', running_step c c').
Proof.
  intros Hr. split.
  - assert (∀ l c, goroutines c = l → Acc (fun c' c => running_step c c') c) as Hacc; [|by eapply Hacc].
    clear. intros l. induction (shrinks_wf l) as [l _ IH]. intros c <-. constructor. intros c' Hs.
    eapply IH; [by apply running_shrinks|done].
  - destruct (sched c) as [q|] eqn:Hs; [|destruct (busy c) as [|w b] eqn:Hb; [by left|]];
      right; (apply progress; [by apply reachable_lock_inv|]); [left; congruence|right; congruence].
Qed.

(** C18: BotPoller.Start returns after its context is cancelled: from the
    moment the channel is closed every run is finite and none gets stuck before
    Start has returned, nothing is sent on the closed channel, and when it has
    returned the channel is drained, every worker is gone, the mutex is free
    and no bot is left marked in flight. *)
Theorem shutdown_completes st :
  rtc start_step start_init st → main st ≠ Serving →
  Acc (fun s' s => start_step s s') st ∧
  (main st = Returned ∨ ∃ st', start_step st st') ∧
  (∀ st', start_step st st' → p_queue (sh (core st')) `suffix_of` p_queue (sh (core st))) ∧
  (main st = Returned →
     p_queue (sh (core st)) = [] ∧ busy (core st) = [] ∧ sched (core st) = None ∧ mu (core st) = false ∧
     exited st = workers p ∧ ∀ key, fl (sh (core st)) key ≠ Some true).
Proof.
  intros Hr Hm. pose proof (start_reachable_inv _ Hr) as Hinv. split_and!.
  - destruct (main st) eqn:Hst; [done|by eapply drain_acc|by apply returned_acc].
  - destruct (main st) eqn:Hst; [done| |by left]. right. by apply drain_progress.
  - intros st' Hs. destruct Hinv as [Hc Hsc _ _ _]. specialize (Hsc Hm).
    destruct Hs; cbn in *; try done. eapply drain_suffix; eauto using reachable_well_formed.
  - intros Hret. destruct Hinv as [Hc Hsc Hex Hw Hmain]. rewrite Hret in Hmain. specialize (Hsc Hm).
    assert (0 < workers p) as Hpos.
    { unfold workers, defaultPollWorkers. destruct (Z.ltb_spec 0 (Workers p)); lia. }
    assert (busy (core st) = []) as Hb by (apply nil_length_inv; lia).
    assert (p_queue (sh (core st)) = []) as Hq by (apply Hex; lia).
    split_and!; try done; by apply at_rest.
Qed.
End Start.

(** ** A shutdown

    The example of [PollerSystem]: a bot is in the channel when the context is
    cancelled. *)
Module ShutdownExample.
Import PollerSystem.Example.
#[local] Existing Instance kubelib_instance.
#[local] Existing Instance golib_instance.

Definition poller1 : BotPoller := {| Workers := 1 |}.

(** The pass that has put the bot in the channel, to its end. *)
Definition pass : POp unit * pollerState * bool :=
  drive bot_env 20 (scheduleDue (queue_cap 1)) {| p_state := ∅; p_queue := [] |} false.
Definition passed : system := {| sh := pass.1.2; mu := pass.2; sched := None; busy := [] |}.
Definition cancelled : poller := {| core := passed; main := Waiting; exited := 0 |}.

Lemma passing_reachable : reachable 1 {| sh := pass.1.2; mu := pass.2; sched := Some pass.1.1; busy := [] |}.
Proof.
  eapply rtc_l; [apply sys_tick|]. eapply rtc_subrel; [|exact (drive_sched 1 bot_env 20 _ _ _ _)].
  by intros ? ? [? _].
Qed.

Lemma passed_reachable : reachable 1 passed.
Proof.
  eapply rtc_r; [exact passing_reachable|]. assert (pass.1.1 = Ret tt) as -> by (vm_compute; reflexivity).
  apply sys_sched_done.
Qed.

Lemma serving c : reachable 1 c → rtc (start_step poller1) start_init {| core := c; main := Serving; exited := 0 |}.
Proof.
  intros Hr. pattern c. eapply (rtc_ind_r _ sys_init); [constructor| |exact Hr].
  intros c1 c2 _ Hs IH. eapply rtc_r; [exact IH|]. by apply start_serve.
Qed.

Lemma cancelled_reachable : rtc (start_step poller1) start_init cancelled.
Proof. eapply rtc_r; [apply serving, passed_reachable|by apply start_done]. Qed.

Lemma shutdown_completes_witness :
  p_queue (sh (core cancelled)) = [tradebot_key bot] ∧
  Acc (fun s' s => start_step poller1 s s') cancelled ∧ ∃ st', start_step poller1 cancelled st'.
Proof.
  split; [vm_compute; reflexivity|].
  destruct (shutdown_completes poller1 cancelled cancelled_reachable) as (Hacc & [Hm|Hs] & _);
    [discriminate|split; [exact Hacc|discriminate Hm]|split; [exact Hacc|exact Hs]].
Defined.

Lemma goroutines_settle_witness : ∃ c', running_step poller1 polling c'.
Proof.
  destruct (goroutines_settle poller1 polling polling_reachable) as [_ [[_ Hb]|Hs]]; [discriminate Hb|exact Hs].
Defined.

(** The pass that has just enqueued the bot is about to clean the table up. *)
Lemma mutex_guards_table_witness : mu queued = true.
Proof.
  apply (mutex_guards_table poller1 queued 0 0 scheduled.1.1 scheduled.1.1);
    [|reflexivity|vm_compute; exact I].
  eapply rtc_subrel; [|exact queued_careful]. by intros ? ? [? _].
Defined.
End ShutdownExample.
