(* ===== verification/TradeBot.v ===== *)
(** * controllers/tradebot: the TradeBot reconciler

    main.go, resources.go and finalizers.go: the whole of Reconcile, from the
    fetch to the requeue, with deletion, the finalizer, the rendered
    resources, the status and the start/stop of the bot.

    A reconcile returns [(RequeueAfter, err)]; logging is left out. *)

From S2P Require Import Prelude Prog GoLib Kube Types ConfigTypes Client Shared ConfigBuilder.
From S2P Require Import TradeBotResources TradeBotStatus BotClient Poller.
Import V1alpha1.

Definition BotFinalizer : string := "freqtrade.io/finalizer".

Record Reconciler := {
  FinalizerGracePeriod : Z;
  hasRecorder : bool;
  DefaultImage : string;
  OperatorNamespace : string
}.



(** ** FreqUIs that reference the bot *)

(** [for _, ref := range frequi.Spec.TradeBotRefs { if ref.Name == name { ...; break } }] *)
Definition references (frequi : V1beta1.FreqUI) (name : string) : bool :=
  existsb (fun ref => (lor_Name ref =? name)%string) (V1beta1.TradeBotRefs (V1beta1.fu_Spec frequi)).

Section FreqUIs.
Context `{GoLib}.

Definition cors_candidates (frequi : V1beta1.FreqUI) : list string :=
  let host := V1beta1.Host (V1beta1.fu_Spec frequi) in
  if nonempty host then
    let sh := InferHostScheme host "https" in [sh.1 ^^ "://" ^^ sh.2]
  else ["http://" ^^ Name (V1beta1.fu_Meta frequi) ^^ "." ^^ Namespace (V1beta1.fu_Meta frequi) ^^ ".svc.cluster.local";
        "http://localhost:8080"].

Definition collectCORSHostsForTradeBot (tradeBot : TradeBot) (frequiList : list V1beta1.FreqUI) : list string :=
  sort_Strings
    (foldl (fun corsHosts frequi =>
              if references frequi (Name (Meta tradeBot))
              then foldl append_new corsHosts (cors_candidates frequi) else corsHosts)
       [] frequiList).

Definition referencingFreqUINames (tradeBot : TradeBot) (frequiList : list V1beta1.FreqUI) : list string :=
  sort_Strings
    (foldl (fun names frequi =>
              if references frequi (Name (Meta tradeBot)) then names ++ [Name (V1beta1.fu_Meta frequi)] else names)
       [] frequiList).

Definition valid_cors_host (h : string) : bool := HasPrefix h "http://" || HasPrefix h "https://".

Definition validateCORSHosts (hosts : list string) : option error :=
  match List.find (fun h => negb (valid_cors_host h)) hosts with
  | Some h => Some (Errorf ("CORS host " ^^ Quote h ^^ " must start with http:// or https://"))
  | None => None
  end.

Definition cors_warning (corsHosts : list string) : string :=
  match corsHosts with
  | [] => "Warning: No CORS hosts configured. API may not be accessible from UIs. "
          ^^ "Setting default CORS hosts (localhost and BOTNAME.SERVICE.svc.cluster.local)."
  | _ => match validateCORSHosts corsHosts with
         | Some err => "Warning: Invalid CORS host: " ^^ Error err
         | None => ""
         end
  end.
End FreqUIs.

Section Reconciler.
Context `{KubeLib} `{GoLib} (r : Reconciler).

Definition defaultImage : string :=
  if nonempty (DefaultImage r) then DefaultImage r else DefaultFreqtradeImage.

Definition bot_key (tradeBot : TradeBot) : NamespacedName := ObjectKeyFromMeta (Meta tradeBot).

Definition bot_event (tradeBot : TradeBot) (ty : EventType) (reason message : string) : Op unit :=
  record_event (hasRecorder r) KTradeBot (bot_key tradeBot) ty reason message.

(** The owner reference to the TradeBot that Apply sets. *)
Definition owner_of (tradeBot : TradeBot) : OwnerReference :=
  ControllerRef "TradeBot" (Name (Meta tradeBot)) (UID (Meta tradeBot)).

(** ** Phase and failure *)

Definition deriveTradeBotPhase (conditions : list Condition) : string :=
  let by_workload :=
    match FindStatusCondition conditions ConditionWorkloadReady with
    | None => ""
    | Some c => if (cReason c =? ReasonWorkloadHealthy)%string then "Running"
                else if (cReason c =? ReasonReconcileError)%string then "ResourceError"
                else "Pending"
    end in
  match FindStatusCondition conditions ConditionConfigResolved with
  | Some configResolved =>
      if decide (cStatus configResolved = ConditionFalse) then
        if (cReason configResolved =? ReasonReferenceNotFound)%string then "Error" else "ConfigError"
      else by_workload
  | None => by_workload
  end.

Definition with_phase_message (phase message : string) (s : TradeBotStatus) : TradeBotStatus :=
  {| tst_Phase := phase; tst_Message := message; tst_Conditions := tst_Conditions s;
     tst_ObservedGeneration := tst_ObservedGeneration s; tst_AppliedConfigHash := tst_AppliedConfigHash s;
     tst_ResolvedImage := tst_ResolvedImage s; tst_Bot := tst_Bot s |}.

Definition derive_phase (message : string) (s : TradeBotStatus) : TradeBotStatus :=
  with_phase_message (deriveTradeBotPhase (tst_Conditions s)) message s.

Definition failReconcileRequeueAfter : Z := secs 30.

Definition fail_status (conditionType reason message : string) (s : TradeBotStatus) : TradeBotStatus :=
  derive_phase message
    (set_condition (Cond ConditionReady ConditionFalse reason message)
       (set_condition (Cond conditionType ConditionFalse reason message) s)).

Definition failReconcile (tradeBot : TradeBot) (conditionType reason message : string) (err : option error)
    : Op Result :=
  p ← patch_status tradeBot (fail_status conditionType reason message);
  match p.2 with
  | Err patchErr => mret (secs 5, Some patchErr)
  | Ok _ =>
      _ ← bot_event p.1 EventTypeWarning reason message;
      _ ← trigger (ReconcileErrorsInc "tradebot" reason);
      mret (failReconcileRequeueAfter, err)
  end.

(** ** finalizers.go *)

Definition defaultFinalizerGracePeriod : Z := (2 * Minute)%Z.

Definition finalizerGracePeriod : Z :=
  if (0 <? FinalizerGracePeriod r)%Z then FinalizerGracePeriod r else defaultFinalizerGracePeriod.

Definition finalizerDeadlinePassed (tradeBot : TradeBot) : Op bool :=
  match DeletionTimestamp (Meta tradeBot) with
  | None => mret false
  | Some dt => now ← trigger Now; mret (finalizerGracePeriod <? now - secs dt)%Z
  end.

Definition ensureStatefulSetScaledDown (sts : StatefulSet) : Op (result bool) :=
  if decide (sts_Replicas sts = Some 0%Z) then
    mret (Ok ((sts_Status_Replicas sts =? 0)%Z && (sts_Status_ReadyReplicas sts =? 0)%Z))
  else
    upd ← trigger (Update KStatefulSet (with_Replicas sts (Some 0%Z)));
    mret match upd with
         | Err e => if IsConflict e then Ok false else Err e
         | Ok _ => Ok false
         end.

Definition preserve_annotation : string := "freqtrade.io/preserve-data".

Definition handlePVCPreservation (tradeBot : TradeBot) : Op (result unit) :=
  if decide (Annotations (Meta tradeBot) !! preserve_annotation = Some "true") then
    got ← trigger (Get KPersistentVolumeClaim {| nn_Name := Name (Meta tradeBot) ^^ "-user-data";
                                                 nn_Namespace := Namespace (Meta tradeBot) |});
    match got with
    | Err e => mret (if IsNotFound e then Ok tt else Err e)
    | Ok pvc =>
        let m := pvc_Meta pvc in
        let refs := List.filter (fun o => negb (or_UID o =? UID (Meta tradeBot))%string) (OwnerReferences m) in
        now ← trigger Now;
        let annotations :=
          <["freqtrade.io/preserved-at" := FormatRFC3339 now]>
            (<["freqtrade.io/preserved-from" := Name (Meta tradeBot)]> (Annotations m)) in
        upd ← trigger (Update KPersistentVolumeClaim
                         (with_pvc_Meta pvc (with_Annotations (with_OwnerReferences m refs) annotations)));
        mret match upd with Err e => Err e | Ok _ => Ok tt end
    end
  else mret (Ok tt).

(** PVC problems are logged, never block the deletion. *)
Definition finish_finalization (tradeBot : TradeBot) : Op (result bool) :=
  _ ← handlePVCPreservation tradeBot; mret (Ok true).

(** [if !scaledDown { ... }]: give up waiting once the grace period is over. *)
Definition not_scaled_down (tradeBot : TradeBot) : Op (result bool) :=
  passed ← finalizerDeadlinePassed tradeBot;
  if passed : bool then
    _ ← bot_event tradeBot EventTypeWarning "FinalizerGracePeriodExceeded"
          ("StatefulSet did not scale down within the " ^^ FormatDuration finalizerGracePeriod
           ^^ " grace period; " ^^ "removing the finalizer anyway");
    finish_finalization tradeBot
  else mret (Ok false).

Definition finalizeTradeBot (tradeBot : TradeBot) : Op (result bool) :=
  got ← trigger (Get KStatefulSet (bot_key tradeBot));
  match got with
  | Err err => if IsNotFound err then finish_finalization tradeBot else mret (Err err)
  | Ok sts =>
      scaledDown <-? ensureStatefulSetScaledDown sts;
      if scaledDown : bool then finish_finalization tradeBot else not_scaled_down tradeBot
  end.

Definition with_bot_finalizers (b : V1beta1.TradeBot) (f : list string) : V1beta1.TradeBot :=
  V1beta1.with_Meta b (with_Finalizers (V1beta1.Meta b) f).

(** Step 2 of Reconcile: a TradeBot under deletion. *)
Definition reconcileDeletion (tradeBot : TradeBot) : Op Result :=
  if ContainsFinalizer (Finalizers (Meta tradeBot)) BotFinalizer then
    done_ ← finalizeTradeBot tradeBot;
    match done_ with
    | Err err => mret (secs 10, Some err)
    | Ok false => mret (secs 5, None)
    | Ok true =>
        got ← trigger (Get KTradeBotBeta (bot_key tradeBot));
        match got with
        | Err getErr => mret (if IsNotFound getErr then (0%Z, None) else (secs 5, Some getErr))
        | Ok latest =>
            upd ← trigger (Update KTradeBotBeta (with_bot_finalizers latest
                             (RemoveFinalizer (Finalizers (V1beta1.Meta latest)) BotFinalizer)));
            mret match upd with Err err => (secs 5, Some err) | Ok _ => (0%Z, None) end
        end
    end
  else mret (0%Z, None).

(** Step 3: the finalizer is added before anything is created. *)
Definition addFinalizer (key : NamespacedName) : Op Result :=
  got ← trigger (Get KTradeBotBeta key);
  match got with
  | Err err => mret (secs 5, IgnoreNotFound err)
  | Ok beta =>
      upd ← trigger (Update KTradeBotBeta (with_bot_finalizers beta
                       (AddFinalizer (Finalizers (V1beta1.Meta beta)) BotFinalizer)));
      mret match upd with Err err => (secs 5, Some err) | Ok _ => (secs 5, None) end
  end.

(** ** resources.go *)

Definition fetchReferencedResources (tradeBot : TradeBot) (ns : string)
    : Op (result (Strategy * ConfigV1alpha1.TradeBotConfig)) :=
  tradeBotConfig <-? trigger (Get KTradeBotConfig {| nn_Name := Config (Spec tradeBot); nn_Namespace := ns |});
  strategy <-? trigger (Get KStrategy {| nn_Name := StrategyName (Spec tradeBot); nn_Namespace := ns |});
  mret (Ok (strategy, tradeBotConfig)).

Record reconcileOutcome := {
  appliedConfigHash : string;
  resolvedImage : string;
  configDrift : bool
}.

Definition computeConfigHash (configData : gmap string string) (strategyScript : string) : string :=
  substring 0 16 (sha256_hex (default "" (configData !! "config.json") ^^ strategyScript)).

Definition is_auto (tradeBot : TradeBot) : bool := (UpdateStrategy (Spec tradeBot) =? "Auto")%string.

Definition statefulSetTemplateHash (tradeBot : TradeBot) (freshHash : string) : Op (result string) :=
  if is_auto tradeBot then mret (Ok freshHash)
  else
    got ← trigger (Get KStatefulSet (bot_key tradeBot));
    mret match got with
         | Ok existing => Ok (if nonempty (config_hash_of existing) then config_hash_of existing else freshHash)
         | Err err => if IsNotFound err then Ok freshHash else Err err
         end.

Definition recordConfigRestartEvent (tradeBot : TradeBot) (newHash : string) : Op unit :=
  if negb (hasRecorder r) || negb (is_auto tradeBot) then mret tt
  else if (tst_AppliedConfigHash (Status tradeBot) =? "")%string
          || (tst_AppliedConfigHash (Status tradeBot) =? newHash)%string then mret tt
  else bot_event tradeBot EventTypeNormal "ConfigRestart"
         "Config changed and spec.updateStrategy is Auto: triggering a StatefulSet rolling restart".

(** [shared.Apply(ctx, r.Client, tradeBot, &obj)] with its error wrapped. *)
Definition apply_owned (tradeBot : TradeBot) (what : string) (k : kind) (o : Obj k) : Op (result (Obj k)) :=
  wrapping ("failed to apply " ^^ what) (Apply (owner_of tradeBot) k o).

Definition reconcileResources (tradeBot : TradeBot) (strategy : Strategy) (configData : gmap string string)
    (freqUINames : list string) : Op (result reconcileOutcome) :=
  let freshHash := computeConfigHash configData (sspec_Script (str_Spec strategy)) in
  configSecret <-? apply_owned tradeBot "Secret" KSecret (BuildSecret tradeBot configData);
  strategyConfigMap <-? apply_owned tradeBot "Strategy ConfigMap" KConfigMap
                          (BuildStrategyConfigMap tradeBot strategy);
  pvc <-? apply_owned tradeBot "PVC" KPersistentVolumeClaim (BuildUserDataPVC tradeBot);
  templateHash <-? wrapping "failed to determine StatefulSet config-hash annotation"
                     (statefulSetTemplateHash tradeBot freshHash);
  let sts := BuildStatefulSet tradeBot defaultImage (sspec_Name (str_Spec strategy))
               (Name (secret_Meta configSecret)) (Name (cm_Meta strategyConfigMap)) (Name (pvc_Meta pvc))
               templateHash in
  _ <-? apply_owned tradeBot "StatefulSet" KStatefulSet sts;
  _ ← recordConfigRestartEvent tradeBot templateHash;
  _ <-? apply_owned tradeBot "Service" KService (BuildService tradeBot);
  _ <-? apply_owned tradeBot "NetworkPolicy" KNetworkPolicy
          (BuildNetworkPolicy tradeBot freqUINames (OperatorNamespace r));
  mret (Ok {| appliedConfigHash := freshHash; resolvedImage := main_image sts;
              configDrift := negb (templateHash =? freshHash)%string |}).

Definition configDriftCondition (tradeBotName ns : string) (observedGeneration : Z) (drift : bool) : Condition :=
  {| cType := ConditionConfigDrift;
     cStatus := if drift then ConditionTrue else ConditionFalse;
     cReason := if drift then ReasonPendingRestart else ReasonAsExpected;
     cMessage := if drift then
       "Rendered config has changed but spec.updateStrategy is Manual, so the StatefulSet pod template was "
       ^^ "deliberately left untouched (a bot may be holding open positions - an unrequested restart is not "
       ^^ "this operator's call to make). Roll it out with: kubectl rollout restart statefulset/"
       ^^ tradeBotName ^^ " -n " ^^ ns
       ^^ " - or set spec.updateStrategy: Auto, which this operator applies itself and clears this condition for."
       else "";
     cObservedGeneration := observedGeneration |}.

(** ** The workload's state *)

Record workloadStatus := { ready : bool; wl_message : string; wl_requeueAfter : Z }.

Definition computeWorkloadStatus (tradeBot : TradeBot) : Op (result workloadStatus) :=
  got ← trigger (Get KStatefulSet (bot_key tradeBot));
  mret match got with
       | Err err => Err (Wrap "failed to get StatefulSet" err)
       | Ok sts =>
           if (sts_Status_ReadyReplicas sts <? 1)%Z then
             Ok {| ready := false;
                   wl_message := "Waiting for StatefulSet to become ready ("
                                 ^^ Itoa (sts_Status_ReadyReplicas sts) ^^ " ready)";
                   wl_requeueAfter := secs 15 |}
           else Ok {| ready := true; wl_message := ""; wl_requeueAfter := 0 |}
       end.

Record lifecycleEventInputs := {
  wasWorkloadReady : bool;
  wasConfigDrift : bool;
  hadWorkloadBefore : bool;
  oldConfigHash : string;
  newConfigHash : string
}.

Definition event_if (b : bool) (tradeBot : TradeBot) (ty : EventType) (reason message : string) : Op unit :=
  if b then bot_event tradeBot ty reason message else mret tt.

Definition recordLifecycleEvents (tradeBot : TradeBot) (before : lifecycleEventInputs) : Op unit :=
  if negb (hasRecorder r) then mret tt
  else
    let conditions := tst_Conditions (Status tradeBot) in
    _ ← event_if (negb (hadWorkloadBefore before) && nonempty (tst_ResolvedImage (Status tradeBot)))
          tradeBot EventTypeNormal "WorkloadCreated" "Workload created for the first time";
    _ ← event_if (nonempty (newConfigHash before) && negb (newConfigHash before =? oldConfigHash before)%string)
          tradeBot EventTypeNormal "ConfigRendered" "Rendered config.json changed";
    _ ← event_if (negb (wasWorkloadReady before) && IsStatusConditionTrue conditions ConditionWorkloadReady)
          tradeBot EventTypeNormal "BotReady" "Bot workload is ready";
    event_if (negb (wasConfigDrift before) && IsStatusConditionTrue conditions ConditionConfigDrift)
      tradeBot EventTypeWarning "ConfigDrift"
      ("Rendered config has changed but is not yet reflected in the running workload - "
       ^^ "see the ConfigDrift condition for the remedy").

(** ** spec.state *)

Definition set_StateReconciled (status : ConditionStatus) (reason message : string)
    : TradeBotStatus → TradeBotStatus :=
  set_condition (Cond ConditionStateReconciled status reason message).

(** [return 0, patchTradeBotStatus(...)] *)
Definition patch_and_return (d : Z) (tradeBot : TradeBot) (f : TradeBotStatus → TradeBotStatus) : Op Result :=
  p ← patch_status tradeBot f; mret (d, match p.2 with Ok _ => None | Err e => Some e end).

Definition reconcileStateChange (tradeBot : TradeBot) (botClient : BotClient) (desired : string) : Op Result :=
  let stopping := (desired =? V1beta1.TradeBotStateStopped)%string in
  let action := if stopping then "stop" else "start" in
  let eventReason := if stopping then "BotStopped" else "BotStarted" in
  callErr ← if stopping then StopBot botClient else StartBot botClient;
  match callErr with
  | Err e =>
      _ ← bot_event tradeBot EventTypeWarning "BotStateChangeFailed"
            ("Failed to " ^^ action ^^ " bot: " ^^ Error e);
      patch_and_return 0 tradeBot (set_StateReconciled ConditionFalse ReasonStateChangeFailed (Error e))
  | Ok _ =>
      _ ← bot_event tradeBot EventTypeNormal eventReason
            ("Issued " ^^ action ^^ " to align with spec.state=" ^^ desired);
      patch_and_return (int64 (pollInterval tradeBot + secs 5)) tradeBot
        (set_StateReconciled ConditionFalse ReasonStateChangePending
           ("Issued " ^^ action ^^ "; waiting for the next poll to confirm"))
  end.

Definition desired_state (beta : V1beta1.TradeBot) : string :=
  let s := V1beta1.State (V1beta1.Spec beta) in if nonempty s then s else V1beta1.TradeBotStateRunning.

Definition observed_state (tradeBot : TradeBot) : string :=
  match tst_Bot (Status tradeBot) with Some b => bs_State b | None => "unknown" end.

Definition state_matches (desired observed : string) : bool :=
  ((desired =? V1beta1.TradeBotStateRunning)%string && (observed =? "running")%string)
  || ((desired =? V1beta1.TradeBotStateStopped)%string && (observed =? "stopped")%string).

Definition bot_reachable (tradeBot : TradeBot) : bool :=
  IsStatusConditionTrue (tst_Conditions (Status tradeBot)) ConditionBotReachable.

Definition reconcileState (tradeBot : TradeBot) (tradeBotBeta : V1beta1.TradeBot) : Op Result :=
  let desired := desired_state tradeBotBeta in
  if negb (bot_reachable tradeBot) then
    patch_and_return 0 tradeBot
      (set_StateReconciled ConditionFalse ReasonBotUnreachable
         "Bot is unreachable; desired state cannot be verified or enforced")
  else if state_matches desired (observed_state tradeBot) then
    patch_and_return 0 tradeBot (set_StateReconciled ConditionTrue ReasonAsExpected "")
  else
    creds ← resolveCredentials tradeBot;
    match creds.2 with
    | Err err => patch_and_return 0 tradeBot (set_StateReconciled ConditionFalse ReasonStateChangeFailed (Error err))
    | Ok (username, password) =>
        reconcileStateChange tradeBot (New (botBaseURL tradeBot) username password) desired
    end.

Definition reconcileStateAndComputeRequeue (key : NamespacedName) (tradeBot : TradeBot) (defaultRequeueAfter : Z)
    : Op Result :=
  got ← trigger (Get KTradeBotBeta key);
  match got with
  | Err err => mret (defaultRequeueAfter, IgnoreNotFound err)
  | Ok tradeBotBeta =>
      s ← reconcileState tradeBot tradeBotBeta;
      match s.2 with
      | Some err => mret (0%Z, Some err)
      | None =>
          mret (if (0 <? s.1)%Z && ((defaultRequeueAfter =? 0)%Z || (s.1 <? defaultRequeueAfter)%Z)
                then s.1 else defaultRequeueAfter, None)
      end
  end.

(** ** Reconcile *)

(** The mutation of the success path's single status write. *)
Definition success_status (tradeBot : TradeBot) (outcome : reconcileOutcome) (workload : workloadStatus)
    (message : string) (s : TradeBotStatus) : TradeBotStatus :=
  let status := if ready workload then ConditionTrue else ConditionFalse in
  let reason := if ready workload then ReasonWorkloadHealthy else ReasonWorkloadProgressing in
  let s := set_condition (Cond ConditionConfigResolved ConditionTrue ReasonAsExpected "") s in
  let s := set_condition (Cond ConditionWorkloadReady status reason (wl_message workload)) s in
  let s := set_condition (Cond ConditionReady status reason message) s in
  let s := set_condition (configDriftCondition (Name (Meta tradeBot)) (Namespace (Meta tradeBot))
                            (Generation (Meta tradeBot)) (configDrift outcome)) s in
  derive_phase message
    {| tst_Phase := tst_Phase s; tst_Message := tst_Message s; tst_Conditions := tst_Conditions s;
       tst_ObservedGeneration := tst_ObservedGeneration s;
       tst_AppliedConfigHash := appliedConfigHash outcome; tst_ResolvedImage := resolvedImage outcome;
       tst_Bot := tst_Bot s |}.

(** Steps 8 and 9, after the resources were applied. *)
Definition reconcileSuccess (key : NamespacedName) (tradeBot : TradeBot) (corsWarning : string)
    (outcome : reconcileOutcome) : Op Result :=
  workload ← computeWorkloadStatus tradeBot;
  match workload with
  | Err err =>
      failReconcile tradeBot ConditionWorkloadReady ReasonReconcileError
        ("Failed to read workload status: " ^^ Error err) (Some err)
  | Ok workload =>
      let message := if nonempty corsWarning then corsWarning else wl_message workload in
      let before := tst_Conditions (Status tradeBot) in
      p ← patch_status tradeBot (success_status tradeBot outcome workload message);
      match p.2 with
      | Err err => mret (secs 5, Some err)
      | Ok _ =>
          _ ← recordLifecycleEvents p.1
                {| wasWorkloadReady := IsStatusConditionTrue before ConditionWorkloadReady;
                   wasConfigDrift := IsStatusConditionTrue before ConditionConfigDrift;
                   hadWorkloadBefore := nonempty (tst_ResolvedImage (Status tradeBot));
                   oldConfigHash := tst_AppliedConfigHash (Status tradeBot);
                   newConfigHash := appliedConfigHash outcome |};
          s ← reconcileStateAndComputeRequeue key p.1 (wl_requeueAfter workload);
          mret match s.2 with Some err => (secs 5, Some err) | None => (s.1, None) end
      end
  end.

(** Steps 4 to 7, then the success path. *)
Definition reconcileNormal (key : NamespacedName) (tradeBot : TradeBot) : Op Result :=
  resources ← fetchReferencedResources tradeBot (nn_Namespace key);
  match resources with
  | Err err =>
      failReconcile tradeBot ConditionConfigResolved
        (if IsNotFound err then ReasonReferenceNotFound else ReasonReconcileError)
        ("Failed to fetch referenced resources: " ^^ Error err) (Some err)
  | Ok (strategy, tradebotconfig) =>
      frequis ← trigger (ListAll KFreqUI (Some (Namespace (Meta tradeBot))) None);
      match frequis with
      | Err err => mret (0%Z, Some (Wrap "failed to list FreqUI resources" err))
      | Ok frequiList =>
          let corsHosts := collectCORSHostsForTradeBot tradeBot frequiList in
          let freqUINames := referencingFreqUINames tradeBot frequiList in
          let corsWarning := cors_warning corsHosts in
          _ ← trigger Now;
          configData ← BuildConfig (Name (Meta tradeBot)) (Namespace (Meta tradeBot)) tradebotconfig corsHosts;
          _ ← trigger Now;
          _ ← trigger ConfigRenderObserve;
          match configData with
          | Err err =>
              failReconcile tradeBot ConditionConfigResolved
                (if IsNotFound err then ReasonSecretMissing else ReasonConfigInvalid)
                ("Failed to build configuration: " ^^ Error err) (Some err)
          | Ok configData =>
              outcome ← reconcileResources tradeBot strategy configData freqUINames;
              match outcome with
              | Err err =>
                  failReconcile tradeBot ConditionWorkloadReady ReasonReconcileError
                    ("Failed to reconcile resources: " ^^ Error err) (Some err)
              | Ok outcome => reconcileSuccess key tradeBot corsWarning outcome
              end
          end
      end
  end.

Definition job_mode_message (cmd : string) : string :=
  "spec.freqtrade_command=" ^^ Quote cmd ^^ " is no longer supported - TradeBot is trade-only; "
  ^^ "recreate this as a Backtest instead".

Definition Reconcile (key : NamespacedName) : Op Result :=
  got ← trigger (Get KTradeBot key);
  match got with
  | Err err => mret (0%Z, IgnoreNotFound err)
  | Ok tradeBot =>
      match DeletionTimestamp (Meta tradeBot) with
      | Some _ => reconcileDeletion tradeBot
      | None =>
          if negb (ContainsFinalizer (Finalizers (Meta tradeBot)) BotFinalizer) then addFinalizer key
          else
            let cmd := TrimSpace (FreqtradeCommand (Spec tradeBot)) in
            if nonempty cmd && negb (cmd =? "trade")%string then
              failReconcile tradeBot ConditionConfigResolved ReasonJobModeRemoved (job_mode_message cmd) None
            else reconcileNormal key tradeBot
      end
  end.
End Reconciler.
