(* ===== verification/TradeBotProofs.v ===== *)
(** * The TradeBot reconciler: its properties *)

From S2P Require Import Prelude Prog GoLib Kube Types ConfigTypes Client Shared ConfigBuilder.
From S2P Require Import TradeBotResources TradeBotStatus BotClient Poller TradeBot.
Import V1alpha1.

(** ** Which calls each part makes *)

(** The classes of calls: reads of the API server and everything that leaves
    the cluster's TradeBots alone. *)
Definition spares_bots {X} (c : Call X) : Prop :=
  match c with
  | Create k _ | Update k _ | StatusUpdate k _ | Patch k _ | Delete k _ => k ≠ KTradeBot ∧ k ≠ KTradeBotBeta
  | _ => True
  end.

Section Emits.
Context `{KubeLib} `{GoLib} (r : Reconciler) (P : ∀ X, Call X → Prop).

Lemma bot_event_emits t ty reason msg :
  (∀ k key ty reason msg, P _ (Event k key ty reason msg)) → emits P (bot_event r t ty reason msg).
Proof. intros HE. unfold bot_event, record_event. case_match; [|done]. by split. Qed.

Lemma record_lifecycle_emits t before :
  (∀ k key ty reason msg, P _ (Event k key ty reason msg)) → emits P (recordLifecycleEvents r t before).
Proof.
  intros HE. unfold recordLifecycleEvents. case_match; [done|].
  assert (∀ b ty reason msg, emits P (event_if r b t ty reason msg)) as Hev.
  { intros. unfold event_if. case_match; [by apply bot_event_emits|done]. }
  repeat (apply emits_bind; [apply Hev|]; intros ?). apply Hev.
Qed.

Lemma record_restart_emits t hash :
  (∀ k key ty reason msg, P _ (Event k key ty reason msg)) → emits P (recordConfigRestartEvent r t hash).
Proof. intros HE. unfold recordConfigRestartEvent. repeat case_match; try done. all: by apply bot_event_emits. Qed.

Lemma template_hash_emits t fresh :
  P _ (Get KStatefulSet (bot_key t)) → emits P (statefulSetTemplateHash t fresh).
Proof. intros HG. unfold statefulSetTemplateHash. case_match; [done|]. by split. Qed.

Lemma apply_owned_emits t what k o :
  (∀ m, P _ (Patch k (obj_with_Meta k o m))) → emits P (apply_owned t what k o).
Proof. intros HP. apply emits_wrapping. by apply Apply_emits. Qed.

Lemma fetch_emits t ns :
  (∀ k key, P _ (Get k key)) → emits P (fetchReferencedResources t ns).
Proof.
  intros HG. apply emits_bind_ok; [by split|]. intros c. apply emits_bind_ok; [by split|]. done.
Qed.

Lemma resources_emits t strategy data names :
  (∀ k key, P _ (Get k key)) → (∀ k key ty reason msg, P _ (Event k key ty reason msg)) →
  (∀ k o, k ∈ [KSecret; KConfigMap; KPersistentVolumeClaim; KStatefulSet; KService; KNetworkPolicy] →
     P _ (Patch k o)) →
  emits P (reconcileResources r t strategy data names).
Proof.
  intros HG HE HP. unfold reconcileResources.
  assert (∀ what k o, k ∈ [KSecret; KConfigMap; KPersistentVolumeClaim; KStatefulSet; KService; KNetworkPolicy] →
            emits P (apply_owned t what k o)) as Hap.
  { intros what k o Hk. apply apply_owned_emits. intros m. by apply HP. }
  apply emits_bind_ok; [apply Hap; set_solver|]. intros s. apply emits_bind_ok; [apply Hap; set_solver|].
  intros cm. apply emits_bind_ok; [apply Hap; set_solver|]. intros pvc.
  apply emits_bind_ok; [by apply emits_wrapping, template_hash_emits|]. intros hash.
  apply emits_bind_ok; [apply Hap; set_solver|]. intros sts. apply emits_bind; [by apply record_restart_emits|].
  intros ?. apply emits_bind_ok; [apply Hap; set_solver|]. intros svc.
  apply emits_bind_ok; [apply Hap; set_solver|]. done.
Qed.

Lemma finalize_emits t :
  (∀ key, P _ (Get KStatefulSet key)) → (∀ key, P _ (Get KPersistentVolumeClaim key)) → (∀ o, P _ (Update KStatefulSet o)) → (∀ o, P _ (Update KPersistentVolumeClaim o)) →
  P _ Now → (∀ k key ty reason msg, P _ (Event k key ty reason msg)) → emits P (finalizeTradeBot r t).
Proof.
  intros HGS HGV HS HV HN HE.
  assert (emits P (finish_finalization t)) as Hfin.
  { apply emits_bind; [|done]. unfold handlePVCPreservation. case_decide; [|done].
    split; [done|]. intros [pvc|e]; [|done]. split; [done|]. intros now. by split. }
  split; [done|]. intros [sts|e]; [|cbn; by case_match]. apply emits_bind_ok.
  { unfold ensureStatefulSetScaledDown. case_decide; [done|]. by split. }
  intros [|]; [done|]. unfold not_scaled_down. apply emits_bind.
  { unfold finalizerDeadlinePassed. case_match; [by split|done]. }
  intros [|]; [|done]. apply emits_bind; [by apply bot_event_emits|done].
Qed.
End Emits.

(** ** The calls of a reconcile *)

(** The objects of a bot [n], by kind and name. *)
Definition bot_object (n : string) (k : kind) (name : string) : Prop :=
  match k with
  | KSecret => name = n ^^ "-config"
  | KConfigMap => name = n ^^ "-strategy"
  | KPersistentVolumeClaim => name = n ^^ "-user-data"
  | KStatefulSet | KService | KNetworkPolicy => name = n
  | _ => False
  end.

(** What a reconcile of a live bot [t] may call: reads, the apply of the six
    objects the bot owns, the status of the bot, and start or stop of the bot
    itself. *)
Definition live_call (t : TradeBot) {X} (c : Call X) : Prop :=
  match c with
  | Get k _ => k ≠ KTradeBot
  | ListAll k ns _ => k = KFreqUI ∧ ns = Some (Namespace (Meta t))
  | Patch k o =>
      bot_object (Name (Meta t)) k (Name (obj_Meta k o)) ∧
      Namespace (obj_Meta k o) = Namespace (Meta t) ∧ owner_of t ∈ OwnerReferences (obj_Meta k o)
  | StatusUpdate k _ => k = KTradeBotBeta
  | HttpDo req => req_Method req = "POST" ∧
      ∃ base, req_URL req = base ^^ "/api/v1/start" ∨ req_URL req = base ^^ "/api/v1/stop"
  | Event _ _ _ _ _ | ReconcileErrorsInc _ _ | ConfigRenderObserve | Now | RandRead _ => True
  | _ => False
  end.

Section LiveCalls.
Context `{KubeLib} `{GoLib} (r : Reconciler) (t : TradeBot).
#[local] Abbreviation live := (emits (fun _ c => live_call t c)).

Lemma apply_live what k o :
  bot_object (Name (Meta t)) k (Name (obj_Meta k o)) →
  OwnerReferences (obj_Meta k o) = [] → Namespace (obj_Meta k o) = Namespace (Meta t) →
  live (apply_owned t what k o).
Proof.
  intros Hk Ho Hn. apply emits_wrapping. destruct (Apply_fresh (owner_of t) k o Ho) as (refs & Hin & ->).
  split; [|done]. cbn -[bot_object]. rewrite obj_Meta_with. done.
Qed.

Lemma resources_live strategy data names : live (reconcileResources r t strategy data names).
Proof.
  unfold reconcileResources.
  apply emits_bind_ok; [by apply apply_live|]. intros s.
  apply emits_bind_ok; [by apply apply_live|]. intros cm.
  apply emits_bind_ok.
  { apply apply_live; unfold BuildUserDataPVC; by destruct (app_field _ t). }
  intros pvc. apply emits_bind_ok; [by apply emits_wrapping, template_hash_emits|]. intros hash.
  apply emits_bind_ok; [by apply apply_live|]. intros sts.
  apply emits_bind; [by apply record_restart_emits|]. intros ?. apply emits_bind_ok.
  { apply apply_live; unfold BuildService; by destruct (app_field _ t). }
  intros svc. apply emits_bind_ok; [by apply apply_live|]. done.
Qed.

Lemma patch_live t' f : live (patch_status t' f).
Proof. by apply bot_status_emits. Qed.

Lemma fail_live t' ty reason msg err : live (failReconcile r t' ty reason msg err).
Proof.
  apply emits_bind; [apply patch_live|]. intros [t2 [u|e]]; [|done].
  apply emits_bind; [by apply bot_event_emits|]. intros ?. by split.
Qed.

Lemma patch_and_return_live d t' f : live (patch_and_return d t' f).
Proof. apply emits_bind; [apply patch_live|]. done. Qed.

Lemma state_change_live t' c desired : live (reconcileStateChange r t' c desired).
Proof.
  apply emits_bind.
  { case_match; (apply emits_bind_ok; [|done]); apply do_emits; intros req Hm Hu; (split; [done|]); exists (baseURL c); auto. }
  intros [v|e]; (apply emits_bind; [by apply bot_event_emits|]; intros ?; apply patch_and_return_live).
Qed.

Lemma state_live t' b : live (reconcileState r t' b).
Proof.
  unfold reconcileState. repeat case_match; try apply patch_and_return_live.
  apply emits_bind; [by apply resolveCredentials_emits|].
  intros [ex [[u p]|e]]; [apply state_change_live|apply patch_and_return_live].
Qed.

Lemma normal_live key : live (reconcileNormal r key t).
Proof.
  apply emits_bind.
  { apply emits_bind_ok; [by split|]. intros c. apply emits_bind_ok; [by split|]. done. }
  intros [[strategy cfg]|e]; [|apply fail_live].
  split; [done|]. intros [frequis|e]; [|done]. split; [done|]. intros ?.
  apply emits_bind; [by apply BuildConfig_emits|]. intros data. split; [done|]. intros ?. split; [done|]. intros ?.
  destruct data as [data|e]; [|apply fail_live].
  apply emits_bind; [apply resources_live|]. intros [o|e]; [|apply fail_live].
  apply emits_bind; [by split|]. intros [wl|e]; [|apply fail_live].
  apply emits_bind; [apply patch_live|]. intros [t' [u|e]]; [|done].
  apply emits_bind; [by apply record_lifecycle_emits|]. intros ?. apply emits_bind; [|done].
  split; [done|]. intros [b|e]; [|done]. apply emits_bind; [apply state_live|]. intros s. by case_match.
Qed.
End LiveCalls.

(** ** A failed reconcile *)

Section Fail.
Context `{KubeLib} `{GoLib} (r : Reconciler).

Lemma fail_emits (P : ∀ X, Call X → Prop) t ty reason msg err :
  (∀ key, P _ (Get KTradeBotBeta key)) → (∀ o, P _ (StatusUpdate KTradeBotBeta o)) →
  (∀ k key ty reason msg, P _ (Event k key ty reason msg)) → (∀ c reason, P _ (ReconcileErrorsInc c reason)) →
  emits P (failReconcile r t ty reason msg err).
Proof.
  intros HG HU HE HI. apply emits_bind; [by apply bot_status_emits|]. intros [t2 [u|e]]; [|done].
  apply emits_bind; [by apply bot_event_emits|]. intros ?. by split.
Qed.

Lemma fail_result t ty reason msg err h :
  wp (failReconcile r t ty reason msg err) h (fun _ res => res = (secs 30, err) ∨ ∃ e, res = (secs 5, Some e)).
Proof.
  apply wp_bind. eapply wp_mono; [|apply wp_extends]. intros h1 [t2 [u|e]] _; [|right; by exists e].
  apply wp_bind. eapply wp_mono; [|apply wp_extends]. intros h2 ? _ ?. by left.
Qed.
End Fail.

(** ** Writes to the TradeBot itself *)

(** The object a write of a v1beta1 TradeBot starts from. *)
Definition read_before (h : history Call) (o0 : V1beta1.TradeBot) : Prop :=
  ∃ key, Ev (Get KTradeBotBeta key) (Ok o0) ∈ h.

(** Only our finalizer changes. *)
Definition finalizer_change (m m0 : ObjectMeta) : Prop :=
  ∃ fs, m = with_Finalizers m0 fs ∧ ∀ f, f ≠ BotFinalizer → f ∈ fs ↔ f ∈ Finalizers m0.

(** An update changes our finalizer and nothing else of an object just read, a
    status update nothing but its status; nothing is ever written through
    v1alpha1, created, patched or deleted. *)
Definition bot_write_ok (h : history Call) {X} (c : Call X) : Prop :=
  match c with
  | Update k o =>
      match k return Obj k → Prop with
      | KTradeBot => fun _ => False
      | KTradeBotBeta => fun o => ∃ o0, read_before h o0 ∧ V1beta1.Spec o = V1beta1.Spec o0 ∧
          V1beta1.Status o = V1beta1.Status o0 ∧ finalizer_change (V1beta1.Meta o) (V1beta1.Meta o0)
      | _ => fun _ => True
      end o
  | StatusUpdate k o =>
      match k return Obj k → Prop with
      | KTradeBot => fun _ => False
      | KTradeBotBeta => fun o => ∃ o0, read_before h o0 ∧ V1beta1.Spec o = V1beta1.Spec o0 ∧
          V1beta1.Meta o = V1beta1.Meta o0
      | _ => fun _ => True
      end o
  | Create k _ | Patch k _ | Delete k _ => k ≠ KTradeBot ∧ k ≠ KTradeBotBeta
  | _ => True
  end.

Definition bot_writes_ok (h : history Call) : Prop :=
  Forall (fun e => match e with Ev c _ => bot_write_ok h c end) h.

Lemma read_before_mono h h' o : read_before h o → read_before (h ++ h') o.
Proof. intros [key Hk]. exists key. set_solver. Qed.

Lemma bot_write_ok_mono h h' X (c : Call X) : bot_write_ok h c → bot_write_ok (h ++ h') c.
Proof.
  destruct c; try done; destruct k; try done; intros (o0 & Ho & Hrest); exists o0; eauto using read_before_mono.
Qed.

Lemma bot_writes_ok_app h h' :
  bot_writes_ok h → Forall (fun e => match e with Ev c _ => bot_write_ok (h ++ h') c end) h' → bot_writes_ok (h ++ h').
Proof.
  intros Hh Hh'. apply Forall_app. split; [|done].
  eapply Forall_impl; [exact Hh|]. intros [X c x]. apply bot_write_ok_mono.
Qed.

Lemma spares_bots_ok h X (c : Call X) : spares_bots c → bot_write_ok h c.
Proof. destruct c; try done; cbn; destruct k; naive_solver. Qed.

Section BotWrites.
Context `{KubeLib} `{GoLib} (r : Reconciler).

Lemma spares_preserves {A} (p : Op A) : emits (@spares_bots) p → preserves bot_writes_ok p.
Proof.
  apply preserves_emits. intros X c x h Hc Hh. apply bot_writes_ok_app; [done|].
  constructor; [|constructor]. by apply spares_bots_ok.
Qed.

Lemma patch_status_preserves_writes t f : preserves bot_writes_ok (patch_status t f).
Proof.
  intros h Hh. eapply wp_mono; [|apply (patchTradeBotStatus_history (fun _ _ _ => True))].
  - cbn. intros h' _ (h1 & -> & Hh1). apply bot_writes_ok_app; [done|].
    unfold patch_history in Hh1. eapply Forall_impl; [exact Hh1|].
    intros e [[g ->]|[(o & g & -> & (o0 & st & Hin & _ & -> & _))|[now ->]]]; [done| |done].
    exists o0. split; [|done]. eexists. apply elem_of_app; right. exact Hin.
  - done.
  - intros t0. done.
  - intros t0 h0. done.
Qed.

Lemma update_preserves_writes {A} h (b : V1beta1.TradeBot) fs (k : result (Obj KTradeBotBeta) → Op A) :
  bot_writes_ok h → read_before h b → (∀ f, f ≠ BotFinalizer → f ∈ fs ↔ f ∈ Finalizers (V1beta1.Meta b)) →
  (∀ x, preserves bot_writes_ok (k x)) →
  wp (Vis (Update KTradeBotBeta (with_bot_finalizers b fs)) k) h (fun h' _ => bot_writes_ok h').
Proof.
  intros Hh Hr Hfs Hk x. apply Hk. apply bot_writes_ok_app; [done|]. constructor; [|constructor].
  exists b. split; [by apply read_before_mono|]. split_and!; [done..|]. by exists fs.
Qed.

Lemma fail_preserves_writes t ty reason msg err : preserves bot_writes_ok (failReconcile r t ty reason msg err).
Proof.
  apply preserves_bind; [apply patch_status_preserves_writes|]. intros [t' [u|e]]; [|by intros h].
  apply spares_preserves. apply emits_bind; [by apply bot_event_emits|]. intros ?. by split.
Qed.

Lemma patch_and_return_preserves_writes d t f : preserves bot_writes_ok (patch_and_return d t f).
Proof. apply preserves_bind; [apply patch_status_preserves_writes|]. intros p h Hh. exact Hh. Qed.

Lemma state_preserves_writes t b : preserves bot_writes_ok (reconcileState r t b).
Proof.
  unfold reconcileState. repeat case_match; try apply patch_and_return_preserves_writes.
  apply preserves_bind; [by apply spares_preserves, resolveCredentials_emits|].
  intros [ex [[u p]|e]]; [|apply patch_and_return_preserves_writes].
  apply preserves_bind.
  { apply spares_preserves. case_match; (apply emits_bind_ok; [by apply do_emits|done]). }
  intros [v|e]; (apply preserves_bind; [by apply spares_preserves, bot_event_emits|]; intros ?;
    apply patch_and_return_preserves_writes).
Qed.

Lemma success_preserves_writes key t w o : preserves bot_writes_ok (reconcileSuccess r key t w o).
Proof.
  apply preserves_bind; [apply spares_preserves; by split|]. intros [wl|e]; [|apply fail_preserves_writes].
  apply preserves_bind; [apply patch_status_preserves_writes|]. intros [t' [u|e]]; [|by intros h].
  apply preserves_bind; [by apply spares_preserves, record_lifecycle_emits|]. intros ?.
  apply preserves_bind; [|by intros s h].
  apply preserves_bind; [apply spares_preserves; by split|]. intros [b|e]; [|by intros h].
  apply preserves_bind; [apply state_preserves_writes|]. intros s. by case_match; intros h.
Qed.

Lemma normal_preserves_writes key t : preserves bot_writes_ok (reconcileNormal r key t).
Proof.
  apply preserves_bind; [by apply spares_preserves, fetch_emits|].
  intros [[strategy cfg]|e]; [|apply fail_preserves_writes].
  apply preserves_bind; [apply spares_preserves; by split|]. intros [frequis|e]; [|by intros h].
  apply preserves_bind; [apply spares_preserves; by split|]. intros ?.
  apply preserves_bind; [by apply spares_preserves, BuildConfig_emits|]. intros data.
  apply preserves_bind; [apply spares_preserves; by split|]. intros ?.
  apply preserves_bind; [apply spares_preserves; by split|]. intros ?.
  destruct data as [data|e]; [|apply fail_preserves_writes].
  apply preserves_bind.
  { apply spares_preserves, resources_emits; [done..|]. intros k o Hk. cbn. set_solver. }
  intros [o|e]; [apply success_preserves_writes|apply fail_preserves_writes].
Qed.

Lemma deletion_preserves_writes t : preserves bot_writes_ok (reconcileDeletion r t).
Proof.
  unfold reconcileDeletion. case_match; [|by intros h].
  apply preserves_bind; [by apply spares_preserves, finalize_emits|]. intros [[|]|e]; [|by intros h..].
  intros h Hh [b|e]; cbn -[wp]; [|cbn; apply bot_writes_ok_app; [done|by repeat constructor]].
  apply (update_preserves_writes _ b _ Ret).
  - apply bot_writes_ok_app; [done|by repeat constructor].
  - exists (bot_key t). set_solver.
  - intros f Hf. rewrite elem_of_remove_finalizer. naive_solver.
  - intros x h' Hh'. exact Hh'.
Qed.

Lemma add_preserves_writes key : preserves bot_writes_ok (addFinalizer key).
Proof.
  intros h Hh [b|e]; cbn -[wp]; [|cbn; apply bot_writes_ok_app; [done|by repeat constructor]].
  apply (update_preserves_writes _ b _ Ret).
  - apply bot_writes_ok_app; [done|by repeat constructor].
  - exists key. set_solver.
  - intros f Hf. rewrite elem_of_add_finalizer. naive_solver.
  - intros x h' Hh'. exact Hh'.
Qed.
End BotWrites.

(** ** Deletion *)

Section Deletion.
Context `{KubeLib} `{GoLib} (r : Reconciler).

(** Why the finalizer may go: the StatefulSet is gone, has no replica left, or
    the grace period since the deletion request has passed. *)
Definition may_finalize (t : TradeBot) (h : history Call) : Prop :=
  (∃ e, Ev (Get KStatefulSet (bot_key t)) (Err e) ∈ h ∧ IsNotFound e = true) ∨
  (∃ sts, Ev (Get KStatefulSet (bot_key t)) (Ok sts) ∈ h ∧ sts_Replicas sts = Some 0%Z ∧
     sts_Status_Replicas sts = 0%Z ∧ sts_Status_ReadyReplicas sts = 0%Z) ∨
  (∃ dt now, DeletionTimestamp (Meta t) = Some dt ∧ Ev Now now ∈ h ∧ (finalizerGracePeriod r < now - secs dt)%Z).

Lemma may_finalize_mono t h h' : h `prefix_of` h' → may_finalize t h → may_finalize t h'.
Proof.
  intros [h2 ->] [(e & Hin & Hn)|[(sts & Hin & Hs)|(dt & now & Hd & Hin & Hg)]].
  - left. exists e. set_solver.
  - right; left. exists sts. set_solver.
  - right; right. exists dt, now. set_solver.
Qed.

Lemma finish_spec t h :
  may_finalize t h → wp (finish_finalization t) h (fun h' res => res = Ok true → may_finalize t h').
Proof.
  intros Hm. apply wp_bind. eapply wp_mono; [|apply wp_extends]. cbn. intros h' _ Hp _. by eapply may_finalize_mono.
Qed.

Lemma not_scaled_spec t h :
  wp (not_scaled_down r t) h (fun h' res => res = Ok true → may_finalize t h').
Proof.
  apply wp_bind. unfold finalizerDeadlinePassed. destruct (DeletionTimestamp (Meta t)) as [dt|] eqn:Hd; [|done].
  intros now. cbn -[wp finish_finalization Z.mul]. destruct (_ <? _)%Z eqn:Hg; [|done].
  apply wp_bind. eapply wp_mono; [|apply wp_extends]. intros h' ? Hp. apply finish_spec.
  eapply may_finalize_mono; [exact Hp|]. right; right. exists dt, now. split_and!; [done|set_solver|]. by apply Z.ltb_lt.
Qed.

Lemma finalize_spec t h :
  wp (finalizeTradeBot r t) h (fun h' res => res = Ok true → may_finalize t h').
Proof.
  intros [sts|e].
  - apply wp_bind_ok. unfold ensureStatefulSetScaledDown. case_decide as Hr.
    + cbn -[wp finish_finalization not_scaled_down]. destruct (_ && _) eqn:Hs; [|apply not_scaled_spec].
      apply finish_spec. right; left. exists sts. apply andb_true_iff in Hs as [?%Z.eqb_eq ?%Z.eqb_eq].
      split_and!; [set_solver|done..].
    + intros [sts'|e]; [apply not_scaled_spec|]. cbn -[wp not_scaled_down].
      destruct (IsConflict e); [apply not_scaled_spec|done].
  - cbn -[wp finish_finalization]. destruct (IsNotFound e) eqn:He; [|done].
    apply finish_spec. left. exists e. split; [set_solver|done].
Qed.

(** Nothing but the last step of the deletion writes the TradeBot. *)
Definition spares_finalizer {X} (c : Call X) : Prop :=
  match c with
  | Update k o => match k return Obj k → Prop with
                  | KTradeBotBeta => fun o => BotFinalizer ∈ Finalizers (V1beta1.Meta o)
                  | _ => fun _ => True
                  end o
  | _ => True
  end.

Lemma live_spares_finalizer t {A} (p : Op A) :
  emits (fun _ c => live_call t c) p → emits (@spares_finalizer) p.
Proof. apply emits_mono. intros X c. by destruct c. Qed.
End Deletion.

(** ** spec.state *)

Section State.
Context `{KubeLib} `{GoLib} (r : Reconciler).

Definition no_http (h : history Call) : Prop := ∀ req x, Ev (HttpDo req) x ∉ h.

Lemma emits_no_http {A} (p : Op A) h :
  emits (fun _ c => match c with HttpDo _ => False | _ => True end) p →
  wp p h (fun h' _ => ∃ h1, h' = h ++ h1 ∧ no_http h1).
Proof.
  intros Hp. eapply wp_mono; [|by apply emits_wp_app]. intros h' ? (h1 & -> & Hh1). exists h1. split; [done|].
  rewrite Forall_forall in Hh1. intros req x Hin. by apply Hh1 in Hin.
Qed.

Lemma patch_and_return_spec d t f h :
  wp (patch_and_return d t f) h (fun h' res => (∃ h1, h' = h ++ h1 ∧ no_http h1) ∧ res.1 = d).
Proof.
  apply wp_conj.
  - apply emits_no_http. apply emits_bind; [by apply bot_status_emits|done].
  - apply wp_bind. eapply wp_mono; [|apply wp_extends]. done.
Qed.

(** One request, then how long until the next look. *)
Definition one_call (h h' : history Call) (req : HttpRequest) (x : result HttpResponse) : Prop :=
  ∃ h1 h2, h' = h ++ h1 ++ Ev (HttpDo req) x :: h2 ∧ no_http h1 ∧ no_http h2.

(** StopBot and StartBot are one POST. *)
Lemma wp_post c path h (Q : history Call → result unit → Prop) :
  (∀ x, Q (h ++ [Ev (HttpDo (request_of c "POST" path)) x])
          (match check_response x with Ok _ => Ok tt | Err e => Err e end)) →
  wp (_ <-? do_ c "POST" path; mret (Ok tt)) h Q.
Proof. intros HQ x. specialize (HQ x). cbn -[check_response]. by destruct (check_response x). Qed.

Lemma state_change_spec t c desired h :
  wp (reconcileStateChange r t c desired) h (fun h' res => ∃ x,
    one_call h h' (request_of c "POST"
       (if (desired =? V1beta1.TradeBotStateStopped)%string then "/api/v1/stop" else "/api/v1/start")) x ∧
    res.1 = if is_ok (check_response x) then int64 (pollInterval t + secs 5) else 0%Z).
Proof.
  assert (∀ req x d f ty reason msg,
    wp (_ ← bot_event r t ty reason msg; patch_and_return d t f) (h ++ [Ev (HttpDo req) x])
       (fun h' res => one_call h h' req x ∧ res.1 = d)) as Hrest.
  { intros req x d f ty reason msg. apply wp_bind.
    eapply wp_mono; [|apply emits_no_http; by apply bot_event_emits]. intros h' ? (h2 & -> & Hh2).
    eapply wp_mono; [|apply patch_and_return_spec]. intros h' res [(h3 & -> & Hh3) Hd]. split; [|done].
    exists [], (h2 ++ h3). split_and!; [by rewrite <- !app_assoc|by intros ? ? Hin%elem_of_nil|].
    intros req' x' [Hin|Hin]%elem_of_app; [by eapply Hh2|by eapply Hh3]. }
  unfold reconcileStateChange. cbv zeta. apply wp_bind.
  destruct (desired =? _)%string; apply wp_post; intros x; destruct (check_response x) as [text|e] eqn:Hx; cbv beta iota;
    (eapply wp_mono; [|apply Hrest]); intros h' res [Hone Hd]; exists x; rewrite Hx; (split; [exact Hone|exact Hd]).
Qed.
End State.

(** ** The owned resources *)

Section Resources.
Context `{KubeLib} `{GoLib} (r : Reconciler).

(** The object an apply of [k] sends, with the owner added. *)
Definition applied (t : TradeBot) {k} (o o' : Obj k) : Prop :=
  ∃ refs, owner_of t ∈ refs ∧ o' = obj_with_Meta k o (with_OwnerReferences (obj_Meta k o) refs).

Lemma apply_owned_wp t what k o h (Q : history Call → result (Obj k) → Prop) :
  OwnerReferences (obj_Meta k o) = [] →
  (∀ o' x, applied t o o' → Q (h ++ [Ev (Patch k o') x]) (wrap_err ("failed to apply " ^^ what) x)) →
  wp (apply_owned t what k o) h Q.
Proof.
  intros Ho HQ. apply wp_wrapping. destruct (Apply_fresh (owner_of t) k o Ho) as (refs & Hin & ->).
  intros x. apply HQ. by exists refs.
Qed.

(** *** The StatefulSet's config hash *)

Definition no_sts {X} (c : Call X) : Prop :=
  match c with Patch k _ | Get k _ => k ≠ KStatefulSet | _ => True end.

(** No read and no apply of a StatefulSet. *)
Definition sts_free (h : history Call) : Prop := Forall (ev_sat (@no_sts)) h.

Lemma sts_free_patch h o x : sts_free h → Ev (Patch KStatefulSet o) x ∉ h.
Proof. intros Hh Hin. unfold sts_free in Hh. rewrite Forall_forall in Hh. by apply Hh in Hin. Qed.

Lemma sts_free_get h key x : sts_free h → Ev (Get KStatefulSet key) x ∉ h.
Proof. intros Hh Hin. unfold sts_free in Hh. rewrite Forall_forall in Hh. by apply Hh in Hin. Qed.

Lemma sts_free_step {A B} (p : Op (result A)) (f : A → Op (result B)) h (Q : history Call → result B → Prop) :
  emits (@no_sts) p → sts_free h → (∀ h' e, sts_free h' → Q h' (Err e)) →
  (∀ a h', sts_free h' → wp (f a) h' Q) → wp (bind_ok p f) h Q.
Proof.
  intros Hp Hh HQ Hf. apply wp_bind_ok. eapply wp_mono; [|by apply emits_wp_app].
  intros h' a (h1 & -> & Hh1). assert (sts_free (h ++ h1)) by (by apply Forall_app).
  destruct a as [a|e]; [by apply Hf|by apply HQ].
Qed.

(** The hash for the template: under Manual, that of the StatefulSet read. *)
Definition template_choice (t : TradeBot) (fresh : string) (h : history Call) (hash : string) : Prop :=
  (is_auto t = true → hash = fresh) ∧
  (is_auto t = false → ∀ existing, Ev (Get KStatefulSet (bot_key t)) (Ok existing) ∈ h →
     config_hash_of existing ≠ "" → hash = config_hash_of existing) ∧
  (is_auto t = false → (∀ existing, Ev (Get KStatefulSet (bot_key t)) (Ok existing) ∈ h →
     config_hash_of existing = "") → hash = fresh).

(** The choice stands once the StatefulSet is applied: nothing reads it again. *)
Lemma template_choice_after t fresh h o x h' hash :
  sts_free h' → template_choice t fresh h hash → template_choice t fresh ((h ++ [Ev (Patch KStatefulSet o) x]) ++ h') hash.
Proof.
  intros Hh' (Ha & Hm & Hf).
  assert (∀ s, Ev (Get KStatefulSet (bot_key t)) (Ok s) ∈ (h ++ [Ev (Patch KStatefulSet o) x]) ++ h' →
     Ev (Get KStatefulSet (bot_key t)) (Ok s) ∈ h) as Hback.
  { intros s [[Hs|Hs]%elem_of_app|Hs]%elem_of_app; [done| |by apply sts_free_get in Hs].
    apply list_elem_of_singleton in Hs. ev_discr. }
  split_and!; [done|intros Hna s Hs; by apply Hm, Hback|].
  intros Hna Hall. apply Hf; [done|]. intros s Hs. apply Hall.
  apply elem_of_app; left. apply elem_of_app; by left.
Qed.

Lemma template_hash_spec t fresh h :
  sts_free h →
  wp (statefulSetTemplateHash t fresh) h (fun h' res =>
    (∀ o x, Ev (Patch KStatefulSet o) x ∉ h') ∧ ∀ hash, res = Ok hash → template_choice t fresh h' hash).
Proof.
  intros Hh. unfold statefulSetTemplateHash. destruct (is_auto t) eqn:Ha.
  - split; [intros; by apply sts_free_patch|]. intros hash [= <-]. unfold template_choice. by rewrite Ha.
  - intros got. cbn -[config_hash_of]. set (g := Ev (Get KStatefulSet (bot_key t)) got).
    assert (∀ s, Ev (Get KStatefulSet (bot_key t)) (Ok s) ∈ h ++ [g] → got = Ok s) as Hget.
    { intros s [Hin|Hin]%elem_of_app; [by apply sts_free_get in Hin|].
      by apply list_elem_of_singleton, (ev_get_inj KStatefulSet) in Hin as [_ <-]. }
    split.
    { intros o x [Hin|Hin]%elem_of_app; [by apply sts_free_patch in Hin|apply list_elem_of_singleton in Hin; ev_discr]. }
    intros hash Hres. unfold template_choice. rewrite Ha. split; [done|]. destruct got as [s|e].
    + injection Hres as <-. unfold nonempty. destruct (String.eqb_spec (config_hash_of s) "") as [He|He]; cbn [negb].
      * split; [|done]. intros _ s' Hin. apply Hget in Hin as [= <-]. congruence.
      * split; [intros _ s' Hin; by apply Hget in Hin as [= <-]|].
        intros _ Hall. destruct He. apply Hall. apply elem_of_app. right. by left.
    + destruct (IsNotFound e); [|done]. injection Hres as <-.
      split; [|done]. intros _ s' Hin. by apply Hget in Hin.
Qed.

Lemma owned_in_order t what k o :
  OwnerReferences (obj_Meta k o) = [] → applies_in_order [k] (apply_owned t what k o).
Proof. intros. by apply in_order_wrapping, in_order_Apply. Qed.

Lemma applied_hash t o o' : applied t (k := KStatefulSet) o o' → config_hash_of o' = config_hash_of o.
Proof. by intros (refs & _ & ->). Qed.
End Resources.

(** ** CORS origins and status *)

(** Two condition types of the sources are different. *)
Ltac cond_ne := let E := fresh in intros E; vm_compute in E; discriminate E.

Section Pure.
Context `{KubeLib} `{GoLib}.

Lemma elem_of_cors_fold name l acc x :
  x ∈ foldl (fun hosts f => if references f name then foldl append_new hosts (cors_candidates f) else hosts) acc l ↔
  x ∈ acc ∨ ∃ f, f ∈ l ∧ references f name = true ∧ x ∈ cors_candidates f.
Proof.
  revert acc; induction l as [|f l IH]; intros acc; cbn [foldl]; [set_solver|].
  rewrite IH. destruct (references f name) eqn:Hf; rewrite ?elem_of_foldl_append_new.
  - split.
    + intros [[Hx|Hx]|(g & Hg & Hr)]; [by left|right|right]; [exists f|exists g]; split_and!; by set_solver.
    + intros [Hx|(g & [->|Hg]%elem_of_cons & Hr & Hx)]; [by left; left|by left; right|right]. by exists g.
  - split.
    + intros [Hx|(g & Hg & Hr)]; [by left|right]. exists g. split; [by right|done].
    + intros [Hx|(g & [->|Hg]%elem_of_cons & Hr & Hx)]; [by left|congruence|right]. by exists g.
Qed.

Lemma NoDup_cors_fold name l acc :
  NoDup acc →
  NoDup (foldl (fun hosts f => if references f name then foldl append_new hosts (cors_candidates f) else hosts) acc l).
Proof.
  revert acc; induction l as [|f l IH]; intros acc Hacc; cbn [foldl]; [done|]. apply IH.
  destruct (references f name); auto.
Qed.

Lemma cors_candidates_valid f x : x ∈ cors_candidates f → valid_cors_host x = true.
Proof.
  unfold cors_candidates, valid_cors_host. cbv zeta. destruct (nonempty _).
  - intros ->%list_elem_of_singleton.
    destruct (InferHostScheme_scheme (V1beta1.Host (V1beta1.fu_Spec f)) "https") as [-> | [-> | ->]]; done.
  - intros [-> | [-> | []%elem_of_nil]%elem_of_cons]%elem_of_cons; done.
Qed.

Lemma validateCORSHosts_ok l : Forall (fun h => valid_cors_host h = true) l → validateCORSHosts l = None.
Proof.
  intros Hl. unfold validateCORSHosts. destruct (List.find _ _) as [h|] eqn:Hf; [|done].
  apply List.find_some in Hf as [Hin%list_elem_of_In Hn]. rewrite Forall_forall in Hl. by rewrite (Hl _ Hin) in Hn.
Qed.

Lemma set_condition_found c s :
  FindStatusCondition (tst_Conditions s) (cType c) = Some c → set_condition c s = s.
Proof. intros Hf. destruct s. unfold set_condition. cbn in *. by rewrite set_found. Qed.

(** The conditions a successful reconcile leaves. *)
Lemma success_conditions t o w msg s :
  let cs := tst_Conditions (success_status t o w msg s) in
  let status := if ready w then ConditionTrue else ConditionFalse in
  let reason := if ready w then ReasonWorkloadHealthy else ReasonWorkloadProgressing in
  FindStatusCondition cs ConditionConfigResolved = Some (Cond ConditionConfigResolved ConditionTrue ReasonAsExpected "") ∧
  FindStatusCondition cs ConditionWorkloadReady = Some (Cond ConditionWorkloadReady status reason (wl_message w)) ∧
  FindStatusCondition cs ConditionReady = Some (Cond ConditionReady status reason msg) ∧
  FindStatusCondition cs ConditionConfigDrift =
    Some (configDriftCondition (Name (Meta t)) (Namespace (Meta t)) (Generation (Meta t)) (configDrift o)) ∧
  (∀ ty, ty ∉ [ConditionConfigResolved; ConditionWorkloadReady; ConditionReady; ConditionConfigDrift] →
     FindStatusCondition cs ty = FindStatusCondition (tst_Conditions s) ty).
Proof.
  cbv zeta. unfold success_status, derive_phase, with_phase_message, set_condition. cbn [tst_Conditions].
  split_and!.
  - rewrite !find_set_ne by cond_ne. by rewrite (find_set_eq _ (Cond ConditionConfigResolved _ _ _)).
  - rewrite 2!find_set_ne by cond_ne. by rewrite (find_set_eq _ (Cond ConditionWorkloadReady _ _ _)).
  - rewrite find_set_ne by cond_ne. by rewrite (find_set_eq _ (Cond ConditionReady _ _ _)).
  - by rewrite (find_set_eq _ (configDriftCondition _ _ _ _)).
  - intros ty Hty. rewrite !find_set_ne; [done|..]; intros ->; apply Hty; cbn; set_solver.
Qed.

Lemma success_idem t o w msg s :
  success_status t o w msg (success_status t o w msg s) = success_status t o w msg s.
Proof.
  destruct (success_conditions t o w msg s) as (H1 & H2 & H3 & H4 & _).
  set (s1 := success_status t o w msg s) in *. unfold success_status at 1. cbv zeta.
  rewrite (set_condition_found (Cond ConditionConfigResolved _ _ _) s1) by done.
  rewrite (set_condition_found (Cond ConditionWorkloadReady _ _ _) s1) by done.
  rewrite (set_condition_found (Cond ConditionReady _ _ _) s1) by done.
  rewrite (set_condition_found (configDriftCondition _ _ _ _) s1) by done.
  done.
Qed.

Lemma success_observed t o w msg s g :
  success_status t o w msg (SetObservedGeneration (k := KTradeBotBeta) s g) =
  SetObservedGeneration (k := KTradeBotBeta) (success_status t o w msg s) g.
Proof. done. Qed.
End Pure.

Lemma pvc_owners t : OwnerReferences (pvc_Meta (BuildUserDataPVC t)) = [].
Proof. unfold BuildUserDataPVC. destruct (app_field _ t); done. Qed.

Lemma svc_owners t : OwnerReferences (svc_Meta (BuildService t)) = [].
Proof. unfold BuildService. destruct (app_field _ t); done. Qed.

Lemma pvc_name t : Name (pvc_Meta (BuildUserDataPVC t)) = Name (Meta t) ^^ "-user-data".
Proof. unfold BuildUserDataPVC. destruct (app_field _ t); done. Qed.

Section Properties.
Context `{KubeLib} `{GoLib} (r : Reconciler).

(** C2: a reconcile never loses a field of the TradeBot: whatever is
    answered, every write of it goes through v1beta1 (the storage version)
    and starts from an object just read, of which it changes our finalizer or
    the status, nothing else - above all not spec.state, which v1alpha1 cannot
    carry, so a stopped bot is never set running by a status write. *)
Theorem Reconcile_writes_preserve_spec key :
  wp (Reconcile r key) [] (fun h _ => bot_writes_ok h).
Proof.
  assert (preserves bot_writes_ok (Reconcile r key)) as Hp; [|apply Hp; constructor].
  apply preserves_bind; [apply spares_preserves; by split|]. intros [t|e]; [|by intros h].
  cbv zeta. repeat case_match.
  - apply deletion_preserves_writes.
  - apply add_preserves_writes.
  - apply fail_preserves_writes.
  - apply normal_preserves_writes.
Qed.

(** C1: the finalizer is only removed from a bot under deletion, and only when
    its StatefulSet is gone, is scaled to zero without a pod left, or the
    grace period since the deletion request is over - so a bot's pods are
    stopped before its data may be collected, and a stuck StatefulSet cannot
    block the deletion for ever. *)
Theorem finalizer_removed_only_when_safe key :
  wp (Reconcile r key) [] (fun h _ => ∀ b x,
    Ev (Update KTradeBotBeta b) x ∈ h → BotFinalizer ∉ Finalizers (V1beta1.Meta b) →
    ∃ t dt, Ev (Get KTradeBot key) (Ok t) ∈ h ∧ DeletionTimestamp (Meta t) = Some dt ∧ may_finalize r t h).
Proof.
  assert (∀ h0 A (p : Op A), (∀ b x, Ev (Update KTradeBotBeta b) x ∈ h0 → BotFinalizer ∈ Finalizers (V1beta1.Meta b)) →
    emits (@spares_finalizer) p →
    wp p h0 (fun h _ => ∀ b x, Ev (Update KTradeBotBeta b) x ∈ h → BotFinalizer ∉ Finalizers (V1beta1.Meta b) →
      ∃ t dt, Ev (Get KTradeBot key) (Ok t) ∈ h ∧ DeletionTimestamp (Meta t) = Some dt ∧ may_finalize r t h)) as Hkeep.
  { intros h0 A p Hh0 Hp. eapply wp_mono; [|by apply emits_wp_app]. intros h _ (h1 & -> & Hh1) b x Hin Hb.
    exfalso. apply Hb. apply elem_of_app in Hin as [Hin|Hin]; [by eapply Hh0|].
    rewrite Forall_forall in Hh1. exact (Hh1 _ Hin). }
  intros [t|e]; cbn -[wp reconcileDeletion addFinalizer failReconcile reconcileNormal].
  2: { intros b x Hin. apply list_elem_of_singleton in Hin. ev_discr. }
  assert (∀ b x, Ev (Update KTradeBotBeta b) x ∈ [Ev (Get KTradeBot key) (Ok t)] →
    BotFinalizer ∈ Finalizers (V1beta1.Meta b)) as H1.
  { intros b x Hin. apply list_elem_of_singleton in Hin. ev_discr. }
  destruct (DeletionTimestamp (Meta t)) as [dt|] eqn:Hd.
  - unfold reconcileDeletion. destruct (ContainsFinalizer _ _); [|by apply (Hkeep _ _ (mret _))].
    apply wp_bind. eapply wp_mono.
    2: { apply wp_conj; [apply finalize_spec|].
         apply (emits_wp_app (@spares_finalizer)). by apply finalize_emits. }
    intros h [[|]|e] [Hm (h1 & -> & Hh1)].
    2,3: apply (Hkeep _ _ (mret _)); [|done]; intros b x [Hin|Hin]%elem_of_app; [by eapply H1|];
         rewrite Forall_forall in Hh1; exact (Hh1 _ Hin).
    intros got. specialize (Hm eq_refl).
    eapply (wp_mono _ _ (fun h' _ => ([Ev (Get KTradeBot key) (Ok t)] ++ h1) `prefix_of` h')).
    + intros h' _ Hp b x Hin Hb. exists t, dt. split_and!; [|done|by eapply may_finalize_mono].
      eapply elem_of_prefix; [|exact Hp]. set_solver.
    + eapply wp_mono; [|apply wp_extends]. intros h' ? Hp. by apply prefix_app_l in Hp.
  - cbv zeta. repeat case_match; (apply Hkeep; [done|]).
    + split; [done|]. intros [b|e]; [|done]. split; [|by intros ?]. cbn.
      apply elem_of_add_finalizer. by right.
    + eapply (live_spares_finalizer t), fail_live.
    + eapply live_spares_finalizer, normal_live.
Qed.

(** An unsafe start of a deletion is undone by nobody but the API server:
    the reconcile of a bot under deletion either has nothing to do (no
    finalizer of ours), or has seen the finalizer gone (update accepted or
    object absent), or asks to be called again - it never gives up. *)
Theorem deletion_makes_progress t :
  wp (reconcileDeletion r t) [] (fun h res =>
    BotFinalizer ∉ Finalizers (Meta t) ∨
    (∃ b b', Ev (Update KTradeBotBeta b) (Ok b') ∈ h ∧ BotFinalizer ∉ Finalizers (V1beta1.Meta b)) ∨
    (∃ e, Ev (Get KTradeBotBeta (bot_key t)) (Err e) ∈ h ∧ IsNotFound e = true) ∨
    (0 < res.1)%Z).
Proof.
  unfold reconcileDeletion. destruct (ContainsFinalizer _ _) eqn:Hc.
  2: { left. intros Hin%contains_finalizer. congruence. }
  apply wp_bind. eapply wp_mono; [|apply wp_extends].
  intros h [[|]|e] _; [|by right; right; right..].
  intros [b|e]; cbn -[wp].
  - intros [b'|e].
    + right; left. eexists _, b'. split; [apply elem_of_app; right; left|]. cbn. rewrite elem_of_remove_finalizer. naive_solver.
    + by right; right; right.
  - destruct (IsNotFound e) eqn:He; [|by right; right; right].
    right; right; left. exists e. split; [set_solver|done].
Qed.

(** The calls a rejected Job-mode bot leads to. *)
Definition job_mode_call {X} (c : Call X) : Prop :=
  match c with
  | Get k _ => k = KTradeBot ∨ k = KTradeBotBeta
  | StatusUpdate k _ => k = KTradeBotBeta
  | Event _ _ _ _ _ | ReconcileErrorsInc _ _ => True
  | _ => False
  end.

(** A Job-mode TradeBot (any command but trade, blanks aside) runs
    nothing: no object is applied, no bot is called, no reference is read; the
    bot is marked unresolved and looked at again in 30 seconds. *)
Theorem job_mode_runs_nothing key :
  wp (Reconcile r key) [] (fun h res => ∀ t,
    Ev (Get KTradeBot key) (Ok t) ∈ h → DeletionTimestamp (Meta t) = None →
    BotFinalizer ∈ Finalizers (Meta t) → isTradeMode t = false →
    Forall (ev_sat (@job_mode_call)) h ∧
    (res = (secs 30, None) ∨ ∃ e, res = (secs 5, Some e))).
Proof.
  intros [t|e]; cbn -[wp reconcileDeletion addFinalizer failReconcile reconcileNormal].
  2: { intros t Hin. apply list_elem_of_singleton, (ev_get_inj KTradeBot) in Hin as [_ [=]]. }
  set (g := Ev _ _).
  assert (∀ (p : Op Result) Q, emits (fun _ c => match c with Get k _ => k ≠ KTradeBot | _ => True end) p →
    wp p [g] (fun h res => Q t h res) →
    wp p [g] (fun h res => ∀ t', Ev (Get KTradeBot key) (Ok t') ∈ h → Q t' h res)) as Hfirst.
  { intros p Q Hp HQ. eapply wp_mono; [|apply (wp_conj _ _ _ _ HQ (emits_wp_app _ _ _ Hp))].
    intros h res [Hres (h1 & -> & Hh1)] t' [Hin|Hin]%elem_of_app.
    - apply list_elem_of_singleton, (ev_get_inj KTradeBot) in Hin as [_ [= ->]]. exact Hres.
    - rewrite Forall_forall in Hh1. by apply Hh1 in Hin. }
  assert (∀ (p : Op Result), emits (fun _ c => live_call t c) p →
    emits (fun _ c => match c with Get k _ => k ≠ KTradeBot | _ => True end) p) as Hlive.
  { intros p. apply emits_mono. intros X c. by destruct c. }
  destruct (DeletionTimestamp (Meta t)) as [dt|] eqn:Hd; [|cbv zeta; repeat case_match].
  - apply (Hfirst _ (fun t' h res => DeletionTimestamp (Meta t') = None → _)).
    + unfold reconcileDeletion. case_match; [|done]. apply emits_bind; [by apply finalize_emits|].
      intros [[|]|e]; [|done..]. split; [done|]. intros [b|e]; [|done]. by split.
    + eapply wp_mono; [|apply wp_extends]. intros h res _ Hn. congruence.
  - apply (Hfirst _ (fun t' h res => DeletionTimestamp (Meta t') = None → _)).
    + split; [done|]. intros [b|e]; [|done]. by split.
    + eapply wp_mono; [|apply wp_extends]. intros h res _ _ Hin%contains_finalizer. by rewrite Hin in H1.
  - apply (Hfirst _ (fun t' h res => DeletionTimestamp (Meta t') = None → _)); [by apply Hlive, fail_live|].
    eapply wp_mono.
    2: { apply wp_conj; [apply fail_result|]. apply (emits_wp_app (@job_mode_call)), fail_emits; cbn; auto. }
    intros h res [Hres (h1 & -> & Hh1)] _ _ _. split; [|exact Hres].
    constructor; [by left|exact Hh1].
  - apply (Hfirst _ (fun t' h res => DeletionTimestamp (Meta t') = None → _)); [by apply Hlive, normal_live|].
    eapply wp_mono; [|apply wp_extends]. intros h res _ _ _ Hj. exfalso. unfold isTradeMode in Hj.
    unfold nonempty in *.
    destruct (TrimSpace _ =? "")%string; [done|]. destruct (TrimSpace _ =? "trade")%string; done.
Qed.

(** C6: spec.state is enforced with at most one call: a reconcile of the state
    talks to the bot only if it is reachable and observed in another state,
    and then with exactly one POST, to /stop for a Stopped spec and to /start
    otherwise; the early re-check is asked for exactly when the bot accepted. *)
Theorem reconcileState_one_call t b :
  wp (reconcileState r t b) [] (fun h res =>
    (no_http h ∧ res.1 = 0%Z) ∨
    (bot_reachable t = true ∧ state_matches (desired_state b) (observed_state t) = false ∧
     ∃ user pass x,
       one_call [] h (request_of (New (botBaseURL t) user pass) "POST"
         (if (desired_state b =? V1beta1.TradeBotStateStopped)%string then "/api/v1/stop" else "/api/v1/start")) x ∧
       res.1 = if is_ok (check_response x) then int64 (pollInterval t + secs 5) else 0%Z)).
Proof.
  assert (∀ f h0, no_http h0 → wp (patch_and_return 0 t f) h0 (fun h res => no_http h ∧ res.1 = 0%Z)) as Hquiet.
  { intros f h0 Hh0. eapply wp_mono; [|apply patch_and_return_spec]. intros h res [(h1 & -> & Hh1) Hd].
    split; [|done]. intros req x [Hin|Hin]%elem_of_app; [by eapply Hh0|by eapply Hh1]. }
  assert (no_http []) as Hnil by (intros ? ? Hin; by apply elem_of_nil in Hin).
  unfold reconcileState. cbv zeta. destruct (bot_reachable t) eqn:Hreach; cbn [negb].
  2: { eapply wp_mono; [|by apply Hquiet]. intros h res Hres. by left. }
  destruct (state_matches _ _) eqn:Hm.
  { eapply wp_mono; [|by apply Hquiet]. intros h res Hres. by left. }
  apply wp_bind. eapply wp_mono; [|apply emits_no_http; by apply resolveCredentials_emits].
  intros h [ex [[u p]|e]] (h1 & -> & Hh1).
  - eapply wp_mono; [|apply state_change_spec]. intros h res (x & (h2 & h3 & -> & Hh2 & Hh3) & Hd). right.
    split_and!; [done..|]. exists u, p, x. split; [|done]. exists (h1 ++ h2), h3.
    split_and!; [by rewrite <- !app_assoc| |done].
    intros req' x' [Hin|Hin]%elem_of_app; [by eapply Hh1|by eapply Hh2].
  - eapply wp_mono; [|by apply Hquiet]. intros h res Hres. by left.
Qed.

(** The objects a bot owns are applied in a fixed order - config Secret,
    strategy ConfigMap and PVC before the StatefulSet that mounts them, then
    Service and NetworkPolicy - each once, stopping at the first failure; all
    six have been sent when reconcileResources succeeds. *)
Theorem resources_applied_in_order t strategy data names :
  applies_in_order [KSecret; KConfigMap; KPersistentVolumeClaim; KStatefulSet; KService; KNetworkPolicy]
    (reconcileResources r t strategy data names).
Proof.
  unfold reconcileResources.
  apply (in_order_bind [_]); [by apply owned_in_order|]. intros secret.
  apply (in_order_bind [_]); [by apply owned_in_order|]. intros cm.
  apply (in_order_bind [_]); [apply owned_in_order, pvc_owners|]. intros pvc.
  apply (in_order_bind []); [by apply in_order_quiet, emits_wrapping, template_hash_emits|]. intros hash.
  apply (in_order_bind [_]); [by apply owned_in_order|]. intros sts.
  apply in_order_after; [by apply record_restart_emits|]. intros u.
  apply (in_order_bind [_]); [apply owned_in_order, svc_owners|]. intros svc.
  apply (in_order_bind [_]); [by apply owned_in_order|]. intros np. apply in_order_ret.
Qed.

(** C4: a config change never restarts a live bot by itself: under Manual
    (anything but Auto) the pod template keeps the config hash of the
    StatefulSet that is running, whatever was rendered, and drift is reported
    exactly when the two differ; under Auto the template carries the fresh
    hash and there is no drift.  A first StatefulSet starts with the fresh
    hash. *)
Theorem manual_keeps_template_hash t strategy data names :
  let fresh := computeConfigHash data (sspec_Script (str_Spec strategy)) in
  wp (reconcileResources r t strategy data names) [] (fun h res => ∀ o x,
    Ev (Patch KStatefulSet o) x ∈ h →
    template_choice t fresh h (config_hash_of o) ∧
    ∀ outcome, res = Ok outcome →
      appliedConfigHash outcome = fresh ∧ configDrift outcome = negb (config_hash_of o =? fresh)%string ∧
      resolvedImage outcome = resolved_image t (defaultImage r)).
Proof.
  cbv zeta. set (fresh := computeConfigHash _ _). unfold reconcileResources. fold fresh.
  assert (∀ what k (o : Obj k), k ≠ KStatefulSet → emits (@no_sts) (apply_owned t what k o)) as Hap.
  { intros. by apply apply_owned_emits. }
  set (Q := fun _ _ => _).
  assert (∀ h (e : error), sts_free h → Q h (Err e)) as HQ.
  { intros h e Hh o x Hin. by apply sts_free_patch in Hin. }
  apply sts_free_step; [by apply Hap|constructor|done|]. intros secret h1 H1.
  apply sts_free_step; [by apply Hap|done|done|]. intros cm h2 H2.
  apply sts_free_step; [by apply Hap|done|done|]. intros pvc h3 H3.
  apply wp_bind_ok, wp_wrapping. eapply wp_mono; [|by apply template_hash_spec].
  intros h4 [hash|e] [Hno Hchoice]; [|intros o x Hin; by apply Hno in Hin]. cbn [wrap_err].
  specialize (Hchoice _ eq_refl).
  set (sts := BuildStatefulSet t _ _ _ _ _ hash).
  apply wp_bind_ok, apply_owned_wp; [done|]. intros o' x Happ.
  assert (config_hash_of o' = hash) as Hhash by (rewrite (applied_hash _ _ _ Happ); apply built_hash).
  assert (∀ h5 res, sts_free h5 → (∀ outcome, res = Ok outcome → appliedConfigHash outcome = fresh ∧
       configDrift outcome = negb (hash =? fresh)%string ∧ resolvedImage outcome = resolved_image t (defaultImage r)) →
     Q ((h4 ++ [Ev (Patch KStatefulSet o') x]) ++ h5) res) as Hend.
  { intros h5 res Hh5 Hres o x0 Hin.
    assert (o = o') as ->.
    { apply elem_of_app in Hin as [[Hin|Hin]%elem_of_app|Hin];
        [by apply Hno in Hin| |by apply sts_free_patch in Hin].
      apply list_elem_of_singleton in Hin. by apply (Patch_inj KStatefulSet) in Hin. }
    rewrite Hhash. split; [by apply template_choice_after|done]. }
  destruct x as [sts'|e]; cbn [wrap_err].
  2: { rewrite <- (app_nil_r (h4 ++ _)). apply Hend; [constructor|done]. }
  eapply wp_mono.
  2: { apply wp_conj with (R := fun _ res => ∀ outcome, res = Ok outcome → appliedConfigHash outcome = fresh ∧
         configDrift outcome = negb (hash =? fresh)%string ∧ resolvedImage outcome = resolved_image t (defaultImage r));
         [apply (emits_wp_app (@no_sts))|].
       - apply emits_bind; [by apply record_restart_emits|]. intros ?.
         apply emits_bind_ok; [by apply Hap|]. intros ?. apply emits_bind_ok; [by apply Hap|]. done.
       - apply wp_bind. eapply wp_mono; [|apply wp_extends]. intros h6 ? _.
         apply wp_bind_ok. eapply wp_mono; [|apply wp_extends]. intros h7 [svc|e] _; [|by intros ? [=]].
         apply wp_bind_ok. eapply wp_mono; [|apply wp_extends]. intros h8 [np|e] _; [|by intros ? [=]].
         intros outcome [= <-]. split_and!; [done..|apply built_image]. }
  intros h' res [(h5 & -> & Hh5) Hres]. by apply Hend.
Qed.

(** The CORS origins rendered for a bot are exactly those of the FreqUIs
    that reference it - its host's origin, or its in-cluster and localhost
    origins - sorted, each once, and every one of them valid, so the render is
    stable and the invalid-host warning is never raised. *)
Theorem cors_hosts_complete t frequis :
  let hosts := collectCORSHostsForTradeBot t frequis in
  Sorted string_le hosts ∧ NoDup hosts ∧
  (∀ h, h ∈ hosts ↔ ∃ f, f ∈ frequis ∧ references f (Name (Meta t)) = true ∧ h ∈ cors_candidates f) ∧
  validateCORSHosts hosts = None.
Proof.
  cbv zeta. unfold collectCORSHostsForTradeBot. set (l := foldl _ _ _).
  assert (∀ h, h ∈ sort_Strings l ↔ ∃ f, f ∈ frequis ∧ references f (Name (Meta t)) = true ∧ h ∈ cors_candidates f) as Hin.
  { intros h. rewrite sort_Strings_perm. unfold l. rewrite elem_of_cors_fold. set_solver. }
  split_and!; [apply sort_Strings_sorted|rewrite sort_Strings_perm; by apply NoDup_cors_fold, NoDup_nil|exact Hin|].
  apply validateCORSHosts_ok, Forall_forall. intros h (f & _ & _ & Hf)%Hin. by eapply cors_candidates_valid.
Qed.

(** A reconcile of a live bot touches nothing that is not the bot's own:
    it applies the six kinds it owns only, in the bot's namespace and with the
    bot as controller, writes no other status, deletes and creates nothing,
    and tells a bot start or stop and nothing else. *)
Theorem reconcile_stays_in_bounds key t : emits (fun _ c => live_call t c) (reconcileNormal r key t).
Proof. apply normal_live. Qed.

(** The status is the outcome of an earlier successful reconcile with the
    same result, at the object's generation. *)
Definition settled_bot (t : TradeBot) outcome w msg (b : V1beta1.TradeBot) : Prop :=
  ∃ s, V1beta1.Status b =
    SetObservedGeneration (k := KTradeBotBeta) (success_status t outcome w msg s) (Generation (V1beta1.Meta b)).

(** A reconcile that finds the status already as it would write it does
    not write it: whenever the stored status is the outcome of an earlier
    successful reconcile with the same result, at the observed generation,
    PatchStatus sends no update - so a settled bot does not wake its own
    watch. *)
Theorem steady_state_writes_nothing t outcome w msg :
  wp (patch_status t (success_status t outcome w msg)) [] (fun h _ =>
    (∀ key b, Ev (Get KTradeBotBeta key) (Ok b) ∈ h → settled_bot t outcome w msg b) →
    ∀ b x, Ev (StatusUpdate KTradeBotBeta b) x ∉ h).
Proof.
  apply wp_bind.
  eapply wp_mono; [|apply (PatchStatus_noop KTradeBotBeta) with (P := settled_bot t outcome w msg)].
  - intros h p Hp Hall. cbn. apply Hp. exact Hall.
  - intros b s. done.
  - intros b s h [s0 Hs]. cbn -[SetObservedGeneration success_status]. rewrite !copy_status_id. cbn -[SetObservedGeneration success_status].
    rewrite Hs, success_observed, success_idem. done.
Qed.

(** The phase says what the last reconcile found: Running or Pending by
    the workload after a success, Error for a missing reference, ConfigError
    for any other unresolved configuration, ResourceError when the resources
    failed - unless an earlier configuration failure is still recorded. *)
Theorem phase_reflects_outcome t o w msg reason s :
  tst_Phase (success_status t o w msg s) = (if ready w then "Running" else "Pending") ∧
  tst_Phase (fail_status ConditionConfigResolved reason msg s) =
    (if (reason =? ReasonReferenceNotFound)%string then "Error" else "ConfigError") ∧
  (IsStatusConditionFalse (tst_Conditions s) ConditionConfigResolved = false →
   tst_Phase (fail_status ConditionWorkloadReady ReasonReconcileError msg s) = "ResourceError").
Proof.
  split_and!.
  - destruct (success_conditions t o w msg s) as (H1 & H2 & _).
    unfold success_status in *. cbn [tst_Phase derive_phase with_phase_message] in *.
    cbn [tst_Conditions derive_phase with_phase_message] in *.
    unfold deriveTradeBotPhase. rewrite H1, H2. cbn. by destruct (ready w).
  - cbn. unfold deriveTradeBotPhase. rewrite find_set_ne by cond_ne.
    rewrite (find_set_eq _ (Cond ConditionConfigResolved _ _ _)). cbn. by rewrite decide_True.
  - intros Hf. cbn. unfold deriveTradeBotPhase. rewrite !find_set_ne by cond_ne.
    rewrite (find_set_eq _ (Cond ConditionWorkloadReady _ _ _)). cbn.
    unfold IsStatusConditionFalse in Hf. destruct (FindStatusCondition _ ConditionConfigResolved) as [c|]; [|done].
    rewrite decide_False; [done|]. intros E. by rewrite bool_decide_true in Hf.
Qed.

(** Preserve-data: the PVC is touched only with the annotation, and then
    the update drops exactly the bot's owner references, keeps the rest of the
    claim and marks where it came from - so the garbage collection of the bot
    does not take its data. *)
Theorem pvc_preservation t :
  wp (handlePVCPreservation t) [] (fun h _ =>
    (Annotations (Meta t) !! preserve_annotation ≠ Some "true" → h = []) ∧
    ∀ pvc x, Ev (Update KPersistentVolumeClaim pvc) x ∈ h →
      ∃ key old, Ev (Get KPersistentVolumeClaim key) (Ok old) ∈ h ∧
        nn_Name key = Name (pvc_Meta (BuildUserDataPVC t)) ∧
        pvc = with_pvc_Meta old (pvc_Meta pvc) ∧
        (∀ ref, ref ∈ OwnerReferences (pvc_Meta pvc) ↔
           ref ∈ OwnerReferences (pvc_Meta old) ∧ or_UID ref ≠ UID (Meta t)) ∧
        Annotations (pvc_Meta pvc) !! "freqtrade.io/preserved-from" = Some (Name (Meta t))).
Proof.
  unfold handlePVCPreservation. case_decide as Ha; [|split; [done|by intros ? ? Hin%elem_of_nil]].
  assert (∀ (g : result PersistentVolumeClaim) key pvc x,
    Ev (Update KPersistentVolumeClaim pvc) x ∉ [Ev (Get KPersistentVolumeClaim key) g]) as Hno.
  { intros g key pvc x Hin. apply list_elem_of_singleton in Hin. ev_discr. }
  intros [old|e]; cbn -[wp]; [|split; [done|]; intros pvc x Hin; by apply Hno in Hin].
  intros now upd. split; [done|]. intros pvc x Hin.
  eexists _, old. split; [left|]. split; [symmetry; apply pvc_name|].
  cbn in Hin. apply elem_of_cons in Hin as [Hin|Hin]; [ev_discr|].
  apply elem_of_cons in Hin as [Hin|Hin]; [ev_discr|]. apply list_elem_of_singleton in Hin.
  apply (Update_inj KPersistentVolumeClaim) in Hin as ->. split_and!; [done| |].
  - intros ref. cbn. by rewrite list_elem_of_In, List.filter_In, <- list_elem_of_In, negb_true_iff, String.eqb_neq.
  - cbn. rewrite lookup_insert_ne by done. by rewrite lookup_insert_eq.
Qed.
End Properties.
