(* ===== verification/Convergence.v ===== *)
(** * Two reconciles of a TradeBot in a row

    What a reconcile applies, object by object ([owned_objects]), and that a
    second one applies the same: when nothing a reconcile reads has changed
    but what the first one applied itself, the second renders the same
    config.json - the generated JWT key included -, chooses the same config hash
    and sends the same six objects.  So the operator's own writes never make it
    write something new, and never restart a bot. *)

From S2P Require Import Prelude Prog GoLib Kube Types ConfigTypes Client Shared ConfigBuilder.
From S2P Require Import Conversion TradeBotResources TradeBotStatus BotClient Poller TradeBot TradeBotProofs.
Import V1alpha1.

(** ** config.json again *)

Section Config.
Context `{GoLib}.
Abbreviation cspec := ConfigV1alpha1.Spec.

(** The Secrets a config names. *)
Definition config_secret_refs (c : ConfigV1alpha1.TradeBotConfig) : list string :=
  apiServerSecretRef (cspec c)
  :: match ConfigV1alpha1.tc_Exchange (cspec c) with Some e => [ConfigV1alpha1.ex_SecretRef e] | None => [] end
  ++ match ConfigV1alpha1.tc_Notification (cspec c) ≫= ConfigV1alpha1.no_Telegram with
     | Some t => [ConfigV1alpha1.nt_SecretRef t] | None => [] end.

(** Secrets other than the rendered one hold what they held. *)
Definition same_secrets (own : NamespacedName) (h1 h2 : history Call) : Prop :=
  ∀ key s1 s2, key ≠ own → Ev (Get KSecret key) (Ok s1) ∈ h1 → Ev (Get KSecret key) (Ok s2) ∈ h2 →
  secret_Data s2 = secret_Data s1.

(** The rendered Secret is there, with the rendered files. *)
Definition reads_back (own : NamespacedName) (files : gmap string string) (h2 : history Call) : Prop :=
  ∀ g, Ev (Get KSecret own) g ∈ h2 → ∃ s, g = Ok s ∧ secret_Data s = files.

Definition random_bytes_given (h : history Call) : Prop :=
  ∀ l, Ev (RandRead 32) (Ok l) ∈ h → length l = 32%nat.

Lemma secret_from_same own h1 h2 ns ref d1 d2 :
  same_secrets own h1 h2 → {| nn_Namespace := ns; nn_Name := ref |} ≠ own →
  secret_from h1 ns ref d1 → secret_from h2 ns ref d2 → d2 = d1.
Proof.
  intros Hs Hne [[? ->]|(s1 & Hr1 & Hin1 & ->)] [[? ->]|(s2 & Hr2 & Hin2 & ->)]; try done.
  f_equal. by eapply Hs.
Qed.

(** The key is kept: the user's again, or the one the rendered file holds. *)
Lemma jwt_from_same name ns api creds jwt1 jwt2 files h1 h2 :
  jwt_from h1 name ns api creds jwt1 → jwt_from h2 name ns api creds jwt2 →
  random_bytes_given h1 → reads_back (config_secret_key name ns) files h2 →
  (∀ a, api = Some a → jwt1 ≠ "" → ∀ s, secret_Data s = files → stored_key s = coerce_utf8 jwt1) → jwt2 = jwt1.
Proof.
  unfold jwt_from. destruct api as [a|]; [|by intros -> ->]. destruct (is_true_ptr _); [|by intros -> ->].
  intros Hj1 Hj2 Hrand Hback Hkey.
  destruct Hj2 as [(Hu & -> & _)|(Hu & Hj2)]; [by destruct Hj1 as [(_ & -> & _)|[? _]]|].
  destruct Hj1 as [(? & _)|(_ & Hj1)]; [done|].
  assert (jwt1 ≠ "") as Hne.
  { destruct Hj1 as [(s & _ & _ & ?)|(l & g & Hl & -> & _)]; [done|].
    intros E. pose proof (hex_length l) as Hlen. by rewrite E, (Hrand _ Hl) in Hlen. }
  assert (coerce_utf8 jwt1 = jwt1) as Htext.
  { destruct Hj1 as [(s & _ & -> & _)|(l & g & _ & -> & _)]; [symmetry; apply coerce_stored_key|apply hex_text]. }
  rewrite Htext in Hkey.
  destruct Hj2 as [(s & Hs & -> & _)|(l & g & _ & _ & Hg & Hless)].
  - destruct (Hback _ Hs) as (s' & [= <-] & Hs'). by eapply Hkey.
  - destruct (Hback _ Hg) as (s' & -> & Hs'). cbn in Hless. rewrite (Hkey _ eq_refl Hne _ Hs') in Hless. done.
Qed.

Lemma notification_no_telegram n d1 d2 :
  n ≫= ConfigV1alpha1.no_Telegram = None → BuildNotificationConfig n d1 = BuildNotificationConfig n d2.
Proof. destruct n as [n|]; [|done]. cbn. by intros ->. Qed.

(** A config rendered twice from the same inputs is the same file. *)
Lemma rendered_again h1 h2 name ns c hosts files1 files2 :
  rendered h1 name ns c hosts files1 → rendered h2 name ns c hosts files2 →
  same_secrets (config_secret_key name ns) h1 h2 → reads_back (config_secret_key name ns) files1 h2 →
  random_bytes_given h1 → name ^^ "-config" ∉ config_secret_refs c → files2 = files1.
Proof.
  intros (ex & creds1 & jwt1 & bot1 & exd1 & nod1 & noti1 & text1 & Hex & Hc1 & Hj1 & Hb1 & Hd1 & Hn1 & Hnc1 & Ht1 & ->)
         (ex2 & creds2 & jwt2 & bot2 & exd2 & nod2 & noti2 & text2 & Hex2 & Hc2 & Hj2 & Hb2 & Hd2 & Hn2 & Hnc2 & Ht2 & ->)
         Hsame Hback Hrand Href.
  rewrite Hex in Hex2. injection Hex2 as <-.
  assert (∀ ref d1 d2, ref ∈ config_secret_refs c → secret_from h1 ns ref d1 → secret_from h2 ns ref d2 → d2 = d1) as Hsec.
  { intros ref d1 d2 Hin Hs1 Hs2. eapply secret_from_same; [exact Hsame| |exact Hs1|exact Hs2].
    intros E. apply (f_equal nn_Name) in E. cbn in E. congruence. }
  assert (creds2 = creds1) as -> by (eapply Hsec; [|exact Hc1|exact Hc2]; by left).
  assert (exd2 = exd1) as ->.
  { eapply Hsec; [|exact Hd1|exact Hd2]. unfold config_secret_refs. rewrite Hex. set_solver. }
  assert (noti2 = noti1) as ->.
  { destruct (ConfigV1alpha1.tc_Notification (cspec c) ≫= ConfigV1alpha1.no_Telegram) as [t|] eqn:Ht.
    - pose proof Ht as Ht'. apply bind_Some in Ht' as (n & Hn & Hnt).
      assert (nod2 = nod1) as ->; [|congruence].
      eapply Hsec; [|by eapply Hn1|by eapply Hn2]. unfold config_secret_refs. rewrite Ht. set_solver.
    - rewrite (notification_no_telegram _ _ nod1 Ht), Hnc1 in Hnc2. congruence. }
  assert (jwt2 = jwt1) as ->; [|rewrite Hb1 in Hb2; injection Hb2 as <-; rewrite Ht1 in Ht2; by injection Ht2 as <-].
  eapply jwt_from_same; [exact Hj1|exact Hj2|done|exact Hback|].
  intros a Ha Hne s Hs. unfold stored_key. rewrite Hs, lookup_singleton_eq.
  change (default "" (json_Unmarshal text1 ≫= decode_existing) = coerce_utf8 jwt1).
  rewrite (rendered_readback _ _ _ _ _ a _ _ _ _ _ Ha Hb1 (BuildNotificationConfig_keys _ _ _ Hnc1) Hne Ht1). done.
Qed.
End Config.

(** ** What is applied, object by object *)

Abbreviation sent := { k : kind & Obj k }.

Definition ev_sent (e : event Call) : option sent :=
  match e with Ev c _ => match c with Patch k o => Some (existT k o) | _ => None end end.

Definition writes (h : history Call) : list sent := omap ev_sent h.

(** The API server answers an apply with the object of that name. *)
Definition names_kept (h : history Call) : Prop :=
  ∀ k o o', Ev (Patch k o) (Ok o') ∈ h → Name (obj_Meta k o') = Name (obj_Meta k o).

Lemma names_kept_prefix h h' : h `prefix_of` h' → names_kept h' → names_kept h.
Proof. intros Hp Hn k o o' Hin. eapply Hn, elem_of_prefix; eauto. Qed.

Lemma writes_app h h' : writes (h ++ h') = writes h ++ writes h'.
Proof. apply omap_app. Qed.

Lemma no_apply_writes {A} (p : Op A) h :
  emits (@no_apply) p → wp p h (fun h' _ => h `prefix_of` h' ∧ writes h' = writes h).
Proof.
  intros Hp. eapply wp_mono; [|by apply emits_wp_app]. cbn. intros h' _ (h1 & -> & Hh1). split; [by apply prefix_app_r|].
  rewrite writes_app. replace (writes h1) with (@nil sent); [by rewrite app_nil_r|].
  induction Hh1 as [|[X c x] h1 He _ IH]; [done|]. cbn in He |- *. by destruct c.
Qed.

(** [Q] of the history, of what was sent since [h] and of the result. *)
Definition sent_since (h : history Call) {A} (Q : history Call → list sent → A → Prop) (h' : history Call) (res : A) : Prop :=
  names_kept h' → ∃ l, writes h' = writes h ++ l ∧ Q h' l res.

Lemma wp_sends_seq {A B} (R : history Call → list sent → A → Prop) (Q : history Call → list sent → B → Prop)
    (p : Op A) (f : A → Op B) h :
  wp p h (sent_since h R) →
  (∀ h1 l a, h `prefix_of` h1 → R h1 l a → wp (f a) h1 (sent_since h1 (fun h2 l2 => Q h2 (l ++ l2)))) →
  wp (p ≫= f) h (sent_since h Q).
Proof.
  intros Hp Hf. apply wp_bind.
  eapply wp_mono; [|apply (wp_conj _ _ _ _ Hp (wp_extends p h))]. cbn. intros h1 a [Hs Hpre].
  eapply wp_mono; [|apply wp_conj; [apply wp_extends|apply (wp_pending (names_kept h1)) with
    (Q := fun h2 res => ∃ l, writes h1 = writes h ++ l ∧ sent_since h1 (fun h2 l2 => Q h2 (l ++ l2)) h2 res)]].
  - cbn. intros h2 res [Hpre2 Hres] Hn2.
    destruct (Hres (names_kept_prefix _ _ Hpre2 Hn2)) as (l & Hw & Hres').
    destruct (Hres' Hn2) as (l2 & Hw2 & HQ). exists (l ++ l2). by rewrite Hw2, Hw, app_assoc.
  - intros Hn. destruct (Hs Hn) as (l & Hw & HR). eapply wp_mono; [|by apply Hf].
    intros h2 res Hres. by exists l.
Qed.

Lemma wp_sends_ok {A B} (R : history Call → list sent → result A → Prop) (Q : history Call → list sent → result B → Prop)
    (p : Op (result A)) (f : A → Op (result B)) h :
  wp p h (sent_since h R) →
  (∀ h1 l a, h `prefix_of` h1 → R h1 l (Ok a) → wp (f a) h1 (sent_since h1 (fun h2 l2 => Q h2 (l ++ l2)))) →
  (∀ h1 l e, h `prefix_of` h1 → R h1 l (Err e) → Q h1 l (Err e)) →
  wp (bind_ok p f) h (sent_since h Q).
Proof.
  intros Hp Hf He. eapply wp_sends_seq; [exact Hp|]. intros h1 l [a|e] Hpre HR; [by apply Hf|].
  intros _. exists []. rewrite !app_nil_r. split; [done|by apply He].
Qed.

Lemma wp_sends_quiet {A} (Q : history Call → A → Prop) (p : Op A) h :
  emits (@no_apply) p → wp p h Q → wp p h (sent_since h (fun h' l res => l = [] ∧ Q h' res)).
Proof.
  intros Hp HQ. eapply wp_mono; [|apply (wp_conj _ _ _ _ (no_apply_writes _ _ Hp) HQ)].
  cbn. intros h' res [[_ Hw] Hres] _. exists []. by rewrite app_nil_r.
Qed.

Lemma wp_sends_nothing {A} (p : Op A) h :
  emits (@no_apply) p → wp p h (sent_since h (fun _ l _ => l = [])).
Proof.
  intros Hp. eapply wp_mono; [|by apply no_apply_writes].
  cbn. intros h' res [_ Hw] _. exists []. by rewrite app_nil_r.
Qed.

(** Nothing was sent in between. *)
Lemma wp_sends_from {A} (p : Op A) h h0 Q :
  writes h = writes h0 → wp p h (sent_since h Q) → wp p h (sent_since h0 Q).
Proof. intros E. apply wp_mono. unfold sent_since. by rewrite E. Qed.

Section Objects.
Context `{KubeLib} `{GoLib} (r : Reconciler).

(** The object as it is sent: the bot is its only owner. *)
Definition owned_object (t : TradeBot) {k} (o : Obj k) : Obj k :=
  match SetControllerReference (owner_of t) [] with
  | Ok refs => obj_with_Meta k o (with_OwnerReferences (obj_Meta k o) refs)
  | Err _ => o
  end.

Definition named_as {k} (o : Obj k) (x : result (Obj k)) : Prop :=
  ∀ o', x = Ok o' → Name (obj_Meta k o') = Name (obj_Meta k o).

Lemma wp_sends_owned t what k (o : Obj k) h :
  OwnerReferences (obj_Meta k o) = [] →
  wp (apply_owned t what k o) h
    (sent_since h (fun _ l x => l = [existT k (owned_object t o)] ∧ named_as o x)).
Proof.
  intros Ho. apply wp_wrapping. unfold Apply, owned_object. rewrite Ho.
  destruct (set_controller_fresh (owner_of t) []) as (refs & -> & _); [constructor|].
  intros x Hn. eexists. split; [apply writes_app|]. split; [done|].
  intros o' Hx%wrap_err_ok. subst x. assert (Name (obj_Meta k o') = Name (obj_Meta k (obj_with_Meta k o
    (with_OwnerReferences (obj_Meta k o) refs)))) as -> by (apply Hn; set_solver). by rewrite obj_Meta_with.
Qed.

Definition owned_objects (t : TradeBot) (strategy : Strategy) (data : gmap string string) (names : list string)
    (hash : string) : list sent :=
  [ existT KSecret (owned_object t (k := KSecret) (BuildSecret t data));
    existT KConfigMap (owned_object t (k := KConfigMap) (BuildStrategyConfigMap t strategy));
    existT KPersistentVolumeClaim (owned_object t (k := KPersistentVolumeClaim) (BuildUserDataPVC t));
    existT KStatefulSet (owned_object t (k := KStatefulSet)
      (BuildStatefulSet t (defaultImage r) (sspec_Name (str_Spec strategy)) (Name (Meta t) ^^ "-config")
         (Name (Meta t) ^^ "-strategy") (Name (Meta t) ^^ "-user-data") hash));
    existT KService (owned_object t (k := KService) (BuildService t));
    existT KNetworkPolicy (owned_object t (k := KNetworkPolicy) (BuildNetworkPolicy t names (OperatorNamespace r))) ].

(** The hash of the template: the fresh one, or under Manual that of the
    StatefulSet as read. *)
Definition hash_from (t : TradeBot) (fresh : string) (h : history Call) (hash : string) : Prop :=
  if is_auto t then hash = fresh
  else ∃ got, Ev (Get KStatefulSet (bot_key t)) got ∈ h ∧
         hash = match got with
                | Ok s => if nonempty (config_hash_of s) then config_hash_of s else fresh
                | Err _ => fresh
                end.

Lemma hash_from_mono t fresh h h' hash : h `prefix_of` h' → hash_from t fresh h hash → hash_from t fresh h' hash.
Proof.
  intros Hp. unfold hash_from. destruct (is_auto t); [done|]. intros (got & Hin & Hh). exists got.
  split; [by eapply elem_of_prefix|done].
Qed.

Lemma hash_from_spec t fresh h :
  wp (statefulSetTemplateHash t fresh) h (fun h' res => ∀ hash, res = Ok hash → hash_from t fresh h' hash).
Proof.
  unfold statefulSetTemplateHash, hash_from. destruct (is_auto t); [by intros hash [= <-]|].
  intros got hash. cbn -[config_hash_of]. intros Hres. exists got. split; [set_solver|].
  destruct got as [s|e]; [by injection Hres|]. destruct (IsNotFound e); [by injection Hres|done].
Qed.

(** What reconcileResources has sent: in the order of the sources, with one
    hash throughout. *)
Definition resources_sent (t : TradeBot) strategy data names (h : history Call) (l : list sent)
    (res : result reconcileOutcome) : Prop :=
  ∃ hash, l `prefix_of` owned_objects t strategy data names hash ∧
    (length l ≤ 3 ∨ hash_from t (computeConfigHash data (sspec_Script (str_Spec strategy))) h hash) ∧
    (is_ok res = true → l = owned_objects t strategy data names hash).

(** The last three objects, once the hash is chosen. *)
Lemma tail_sends t (sts : StatefulSet) names (outcome : reconcileOutcome) hash h :
  OwnerReferences (sts_Meta sts) = [] →
  let objs := [existT KStatefulSet (owned_object t (k := KStatefulSet) sts);
               existT KService (owned_object t (k := KService) (BuildService t));
               existT KNetworkPolicy (owned_object t (k := KNetworkPolicy) (BuildNetworkPolicy t names (OperatorNamespace r)))] in
  wp (_ <-? apply_owned t "StatefulSet" KStatefulSet sts;
      _ ← recordConfigRestartEvent r t hash;
      _ <-? apply_owned t "Service" KService (BuildService t);
      _ <-? apply_owned t "NetworkPolicy" KNetworkPolicy (BuildNetworkPolicy t names (OperatorNamespace r));
      mret (Ok outcome)) h
    (sent_since h (fun _ l res => l `prefix_of` objs ∧ (is_ok res = true → l = objs))).
Proof.
  intros Ho objs.
  eapply wp_sends_ok; [by apply wp_sends_owned| |].
  2: { intros h1 l e _ [-> _]. split; [by eexists|done]. }
  intros h1 l ? _ [-> _]. eapply wp_sends_seq; [apply wp_sends_nothing, record_restart_emits; by intros|].
  intros h2 l ? _ ->. eapply wp_sends_ok; [apply wp_sends_owned, svc_owners| |].
  2: { intros h3 l e _ [-> _]. split; [by eexists|done]. }
  intros h3 l ? _ [-> _]. eapply wp_sends_ok; [by apply wp_sends_owned| |].
  2: { intros h4 l e _ [-> _]. split; [by eexists|done]. }
  intros h4 l ? _ [-> _] _. exists []. split; [by rewrite app_nil_r|]. by split.
Qed.

Lemma reconcileResources_sends t strategy data names h :
  wp (reconcileResources r t strategy data names) h (sent_since h (resources_sent t strategy data names)).
Proof.
  assert (∀ n h1 (e : error), n ≤ 3 →
    resources_sent t strategy data names h1 (take n (owned_objects t strategy data names "")) (Err e)) as Hearly.
  { intros n h1 e Hn. exists "". split_and!; [apply prefix_take|left; rewrite length_take; lia|done]. }
  unfold reconcileResources. eapply wp_sends_ok; [by apply wp_sends_owned| |].
  2: { intros h1 l e _ [-> _]. apply (Hearly 1). lia. }
  intros h1 l1 secret Hp1 [-> Hsecret]. specialize (Hsecret _ eq_refl).
  eapply wp_sends_ok; [by apply wp_sends_owned| |].
  2: { intros h2 l e _ [-> _]. apply (Hearly 2). lia. }
  intros h2 l2 cm Hp2 [-> Hcm]. specialize (Hcm _ eq_refl).
  eapply wp_sends_ok; [apply wp_sends_owned, pvc_owners| |].
  2: { intros h3 l e _ [-> _]. apply (Hearly 3). lia. }
  intros h3 l3 pvc Hp3 [-> Hpvc]. specialize (Hpvc _ eq_refl).
  change (Name (secret_Meta secret) = Name (Meta t) ^^ "-config") in Hsecret.
  change (Name (cm_Meta cm) = Name (Meta t) ^^ "-strategy") in Hcm.
  change (Name (pvc_Meta pvc) = Name (pvc_Meta (BuildUserDataPVC t))) in Hpvc. rewrite pvc_name in Hpvc.
  set (fresh := computeConfigHash _ _). rewrite Hsecret, Hcm, Hpvc.
  eapply wp_sends_ok.
  { apply (wp_sends_quiet (fun h' res => ∀ hash, res = Ok hash → hash_from t fresh h' hash));
      [by apply emits_wrapping, template_hash_emits|].
    apply wp_wrapping. eapply wp_mono; [|apply hash_from_spec]. intros h' res Hr hash Hh%wrap_err_ok. auto. }
  2: { intros h4 l e _ [-> _]. apply (Hearly 3). lia. }
  intros h4 l4 hash Hp4 [-> Hhash]. specialize (Hhash _ eq_refl).
  eapply wp_mono; [|apply wp_conj; [apply wp_extends|by apply tail_sends]].
  intros h5 res [Hp5 Hs] Hn. destruct (Hs Hn) as (l & Hw & [l' Hl] & Hok). exists l. split; [done|].
  exists hash. split_and!; [|right; by eapply hash_from_mono|].
  - exists l'. unfold owned_objects. rewrite <- !app_assoc. cbn. do 3 f_equal. exact Hl.
  - intros Hres. by rewrite (Hok Hres).
Qed.

(** ** A whole pass *)

Lemma rendered_mono h h' name ns c hosts files :
  h `prefix_of` h' → rendered h name ns c hosts files → rendered h' name ns c hosts files.
Proof.
  intros Hp (ex & creds & jwt & bot & exd & nod & noti & text & Hex & Hc & Hj & Hb & Hd & Hn & Hnc & Ht & ->).
  exists ex, creds, jwt, bot, exd, nod, noti, text.
  split_and!; try done; [by eapply secret_from_mono|by eapply jwt_from_mono|by eapply secret_from_mono|].
  intros n t Hno Hte. by eapply secret_from_mono; [|eapply Hn].
Qed.

Lemma fail_no_apply t ty reason msg err : emits (@no_apply) (failReconcile r t ty reason msg err).
Proof. by apply fail_emits. Qed.

Lemma state_no_apply t b : emits (@no_apply) (reconcileState r t b).
Proof.
  assert (∀ d t' f, emits (@no_apply) (patch_and_return d t' f)) as Hpatch.
  { intros. apply emits_bind; [by apply bot_status_emits|done]. }
  unfold reconcileState. repeat case_match; try apply Hpatch.
  apply emits_bind; [by apply resolveCredentials_emits|]. intros [ex [[u q]|e]]; [|apply Hpatch].
  apply emits_bind; [case_match; (apply emits_bind_ok; [by apply do_emits|done])|].
  intros [v|e]; (apply emits_bind; [by apply bot_event_emits|]; intros ?; apply Hpatch).
Qed.

Lemma success_no_apply key t w o : emits (@no_apply) (reconcileSuccess r key t w o).
Proof.
  apply emits_bind; [by split|]. intros [wl|e]; [|apply fail_no_apply].
  apply emits_bind; [by apply bot_status_emits|]. intros [t' [u|e]]; [|done].
  apply emits_bind; [by apply record_lifecycle_emits|]. intros ?. apply emits_bind; [|done].
  split; [done|]. intros [b|e]; [|done]. apply emits_bind; [apply state_no_apply|]. intros x. by case_match.
Qed.

Definition bot_config_key (t : TradeBot) (ns : string) : NamespacedName :=
  {| nn_Name := Config (Spec t); nn_Namespace := ns |}.
Definition bot_strategy_key (t : TradeBot) (ns : string) : NamespacedName :=
  {| nn_Name := StrategyName (Spec t); nn_Namespace := ns |}.

(** What a pass read before it rendered. *)
Record inputs (t : TradeBot) (ns : string) (h : history Call) (strategy : Strategy)
    (cfg : ConfigV1alpha1.TradeBotConfig) (frequis : list V1beta1.FreqUI) (files : gmap string string) : Prop := {
  in_config : Ev (Get KTradeBotConfig (bot_config_key t ns)) (Ok cfg) ∈ h;
  in_strategy : Ev (Get KStrategy (bot_strategy_key t ns)) (Ok strategy) ∈ h;
  in_frequis : Ev (ListAll KFreqUI (Some (Namespace (Meta t))) None) (Ok frequis) ∈ h;
  in_rendered : rendered h (Name (Meta t)) (Namespace (Meta t)) cfg (collectCORSHostsForTradeBot t frequis) files
}.

Lemma inputs_mono t ns h h' strategy cfg frequis files :
  h `prefix_of` h' → inputs t ns h strategy cfg frequis files → inputs t ns h' strategy cfg frequis files.
Proof. intros Hp []. split; eauto using elem_of_prefix, rendered_mono. Qed.

(** A pass fails before it sends anything, or sends from its inputs, and all
    six objects when it succeeds. *)
Definition pass_sent (t : TradeBot) (ns : string) (h : history Call) (l : list sent) (res : Result) : Prop :=
  (res.2 ≠ None ∧ l = []) ∨
  ∃ strategy cfg frequis files hash,
    inputs t ns h strategy cfg frequis files ∧
    l `prefix_of` owned_objects t strategy files (referencingFreqUINames t frequis) hash ∧
    (length l ≤ 3 ∨ hash_from t (computeConfigHash files (sspec_Script (str_Spec strategy))) h hash) ∧
    (res.2 = None → l = owned_objects t strategy files (referencingFreqUINames t frequis) hash).

Lemma wp_sends_fail t ns t' ty reason msg e h :
  wp (failReconcile r t' ty reason msg (Some e)) h (sent_since h (pass_sent t ns)).
Proof.
  eapply wp_mono; [|apply wp_conj; [apply no_apply_writes, fail_no_apply|apply fail_result]].
  cbn. intros h' res [[_ Hw] Hres] _. exists []. split; [by rewrite app_nil_r|]. left. split; [|done].
  by destruct Hres as [->|(e' & ->)].
Qed.

Lemma fetch_spec t ns h :
  wp (fetchReferencedResources t ns) h (fun h' res => ∀ strategy cfg, res = Ok (strategy, cfg) →
    Ev (Get KTradeBotConfig (bot_config_key t ns)) (Ok cfg) ∈ h' ∧
    Ev (Get KStrategy (bot_strategy_key t ns)) (Ok strategy) ∈ h').
Proof.
  intros [cfg|e]; cbn; [|done]. intros [strategy|e]; cbn; [|done]. intros ? ? [= <- <-]. set_solver.
Qed.

Lemma reconcileNormal_sends key t h :
  wp (reconcileNormal r key t) h (sent_since h (pass_sent t (nn_Namespace key))).
Proof.
  set (ns := nn_Namespace key). unfold reconcileNormal. fold ns.
  eapply wp_sends_seq.
  { apply (wp_sends_quiet (fun h' res => ∀ strategy cfg, res = Ok (strategy, cfg) →
      Ev (Get KTradeBotConfig (bot_config_key t ns)) (Ok cfg) ∈ h' ∧
      Ev (Get KStrategy (bot_strategy_key t ns)) (Ok strategy) ∈ h')); [by apply fetch_emits|apply fetch_spec]. }
  intros h1 l res Hp1 [-> Hread]. destruct res as [[strategy cfg]|e]; [|apply wp_sends_fail].
  destruct (Hread _ _ eq_refl) as [Hcfg Hstr]. apply wp_bind. intros frequis.
  set (h2 := h1 ++ _). destruct frequis as [frequis|e].
  2: { intros _. exists []. unfold h2. split; [by rewrite writes_app|]. by left. }
  assert (Ev (ListAll KFreqUI (Some (Namespace (Meta t))) None) (Ok frequis) ∈ h2) as Hfr by set_solver.
  apply wp_bind. intros now1. apply wp_bind.
  eapply wp_mono; [|apply wp_conj; [apply BuildConfig_spec|apply no_apply_writes; by apply BuildConfig_emits]].
  intros h3 data [Hdata [Hp3 Hw3]]. apply wp_bind. intros now2. apply wp_bind. intros ?. set (h4 := (h3 ++ _) ++ _).
  assert (writes h4 = writes h1) as Hw4.
  { unfold h4. rewrite !writes_app, Hw3, writes_app. cbn. rewrite !app_nil_r. unfold h2. rewrite writes_app. cbn. by rewrite app_nil_r. }
  assert (h2 `prefix_of` h4) as Hp4.
  { etrans; [by apply prefix_app_r|]. etrans; [exact Hp3|]. unfold h4. rewrite <- app_assoc. by apply prefix_app_r. }
  apply (wp_sends_from _ h4); [exact Hw4|]. destruct data as [files|e]; [|apply wp_sends_fail].
  assert (inputs t ns h4 strategy cfg frequis files) as Hin.
  { split; [by eapply elem_of_prefix; [|exact Hp4]; set_solver..|].
    eapply rendered_mono; [|by apply Hdata]. unfold h4. rewrite <- app_assoc. by apply prefix_app_r. }
  eapply wp_sends_seq; [apply reconcileResources_sends|]. intros h5 l res Hp5 (hash & Hl & Hh & Hok).
  eapply (wp_mono _ _ (fun h6 res6 => (h5 `prefix_of` h6 ∧ writes h6 = writes h5) ∧ (res6.2 = None → is_ok res = true))).
  - cbn. intros h6 res6 [[Hp6 Hw6] Hok6] _. exists []. rewrite !app_nil_r. split; [done|]. right.
    exists strategy, cfg, frequis, files, hash. split_and!; [|done| |auto].
    + eapply inputs_mono; [|exact Hin]. by etrans.
    + destruct Hh; [by left|right; by eapply hash_from_mono].
  - destruct res as [o|e]; (apply wp_conj; [apply no_apply_writes|]).
    + apply success_no_apply.
    + by eapply wp_mono; [|apply wp_extends].
    + apply fail_no_apply.
    + eapply wp_mono; [|apply fail_result]. cbn. by intros h6 res6 [->|(e' & ->)].
Qed.

(** ** The same again *)

Lemma owned_objects_status t s strategy data names hash :
  owned_objects (with_Status t s) strategy data names hash = owned_objects t strategy data names hash.
Proof. reflexivity. Qed.

(** The cluster between two passes over [t]: what the first one applied is
    there - the config Secret with the rendered files as its data, the
    StatefulSet with its config hash -, and nothing else the passes read has
    changed. *)
Record unchanged (t : TradeBot) (ns : string) (h1 h2 : history Call) : Prop := {
  un_names1 : names_kept h1;
  un_names2 : names_kept h2;
  un_configs key c1 c2 :
    Ev (Get KTradeBotConfig key) (Ok c1) ∈ h1 → Ev (Get KTradeBotConfig key) (Ok c2) ∈ h2 → c2 = c1;
  un_strategies key s1 s2 :
    Ev (Get KStrategy key) (Ok s1) ∈ h1 → Ev (Get KStrategy key) (Ok s2) ∈ h2 → s2 = s1;
  un_frequis n f l1 l2 :
    Ev (ListAll KFreqUI n f) (Ok l1) ∈ h1 → Ev (ListAll KFreqUI n f) (Ok l2) ∈ h2 → l2 = l1;
  un_secrets : same_secrets (config_secret_key (Name (Meta t)) (Namespace (Meta t))) h1 h2;
  un_applied_config g :
    Ev (Get KSecret (config_secret_key (Name (Meta t)) (Namespace (Meta t)))) g ∈ h2 →
    ∃ s o, g = Ok s ∧ existT KSecret o ∈ writes h1 ∧ secret_Data s = secret_StringData o;
  un_applied_hash g :
    Ev (Get KStatefulSet (bot_key t)) g ∈ h2 →
    ∃ s o, g = Ok s ∧ existT KStatefulSet o ∈ writes h1 ∧ config_hash_of s = config_hash_of o;
  un_random : random_bytes_given h1;
  un_refs c : Ev (Get KTradeBotConfig (bot_config_key t ns)) (Ok c) ∈ h1 → Name (Meta t) ^^ "-config" ∉ config_secret_refs c
}.

(** The one Secret and the one StatefulSet of a pass. *)
Lemma owned_secret t strategy data names hash o :
  existT KSecret o ∈ owned_objects t strategy data names hash → secret_StringData o = data.
Proof.
  unfold owned_objects. rewrite !elem_of_cons, elem_of_nil.
  intros [E|[E|[E|[E|[E|[E|[]]]]]]]; try (apply (f_equal (projT1 (P := _))) in E; discriminate E).
  apply (inj_pair2_eq_dec _ (fun a b => decide (a = b))) in E as ->.
  unfold owned_object. by destruct (SetControllerReference _ _).
Qed.

Lemma owned_sts t strategy data names hash o :
  existT KStatefulSet o ∈ owned_objects t strategy data names hash → config_hash_of o = hash.
Proof.
  unfold owned_objects. rewrite !elem_of_cons, elem_of_nil.
  intros [E|[E|[E|[E|[E|[E|[]]]]]]]; try (apply (f_equal (projT1 (P := _))) in E; discriminate E).
  apply (inj_pair2_eq_dec _ (fun a b => decide (a = b))) in E as ->.
  unfold owned_object. destruct (SetControllerReference _ _); apply built_hash.
Qed.

(** The hash is kept, under Auto and Manual. *)
Lemma hash_from_same t fresh h1 h2 hash1 hash2 :
  hash_from t fresh h1 hash1 → hash_from t fresh h2 hash2 →
  (∀ g, Ev (Get KStatefulSet (bot_key t)) g ∈ h2 → ∃ s, g = Ok s ∧ config_hash_of s = hash1) → hash2 = hash1.
Proof.
  unfold hash_from. destruct (is_auto t); [by intros -> ->|].
  intros (g1 & _ & H1) (g2 & Hg2 & ->) Hback. destruct (Hback _ Hg2) as (s & -> & Hs). rewrite Hs.
  destruct (nonempty hash1) eqn:Hne; [done|]. assert (hash1 = "") as E.
  { destruct (String.eqb_spec hash1 "") as [|Hx%nonempty_spec]; [done|congruence]. }
  destruct g1 as [s1|e]; [|by subst]. destruct (nonempty (config_hash_of s1)) eqn:H1ne; [|by subst].
  rewrite <- H1 in H1ne. congruence.
Qed.

(** The first three objects do not carry the hash. *)
Lemma early_prefix t strategy data names hash hash' l :
  l `prefix_of` owned_objects t strategy data names hash → length l ≤ 3 →
  l `prefix_of` owned_objects t strategy data names hash'.
Proof.
  intros [k Hk] Hl. assert (l = take (length l) (owned_objects t strategy data names hash)) as ->.
  { by rewrite Hk, take_app_length. }
  assert (take (length l) (owned_objects t strategy data names hash)
          = take (length l) (owned_objects t strategy data names hash')) as ->.
  { destruct (length l) as [|[|[|[|n]]]]; [done..|lia]. }
  apply prefix_take.
Qed.

(** The second pass sends a prefix of what the first one sent. *)
Lemma passes_agree t s ns h1 h2 l1 l2 res1 res2 :
  pass_sent t ns h1 l1 res1 → pass_sent (with_Status t s) ns h2 l2 res2 →
  writes h1 = l1 → res1.2 = None → unchanged t ns h1 h2 →
  l2 `prefix_of` l1 ∧ (res2.2 = None → l2 = l1).
Proof.
  intros [[? _]|(str1 & c1 & fr1 & files1 & hash1 & [Hc1 Hs1 Hf1 Hr1] & _ & Hh1 & Hok1)] H2 Hw1 Hres1 Hun; [done|].
  specialize (Hok1 Hres1). destruct H2 as [[? ->]|(str2 & c2 & fr2 & files2 & hash2 & [Hc2 Hs2 Hf2 Hr2] & Hl2 & Hh2 & Hok2)].
  { split; [apply prefix_nil|done]. }
  assert (c2 = c1) as -> by (by eapply (un_configs _ _ _ _ Hun)).
  assert (str2 = str1) as -> by (by eapply (un_strategies _ _ _ _ Hun)).
  assert (fr2 = fr1) as -> by (by eapply (un_frequis _ _ _ _ Hun)).
  assert (files2 = files1) as ->.
  { eapply rendered_again; [exact Hr1|exact Hr2|apply (un_secrets _ _ _ _ Hun)| |by apply (un_random _ _ _ _ Hun)|by apply (un_refs _ _ _ _ Hun)].
    intros g Hg. destruct (un_applied_config _ _ _ _ Hun g Hg) as (sec & o & -> & Ho & Hd). exists sec. split; [done|].
    rewrite Hw1, Hok1 in Ho. by rewrite Hd, (owned_secret _ _ _ _ _ _ Ho). }
  assert (hash_from t (computeConfigHash files1 (sspec_Script (str_Spec str1))) h1 hash1) as Hh1'.
  { destruct Hh1 as [Hlen|]; [|done]. by rewrite Hok1 in Hlen; cbn in Hlen; lia. }
  destruct Hh2 as [Hlen|Hh2].
  - rewrite Hok1. split; [by eapply early_prefix|].
    intros Hres2. specialize (Hok2 Hres2). rewrite Hok2 in Hlen. cbn in Hlen. lia.
  - assert (hash2 = hash1) as ->.
    { eapply hash_from_same; [exact Hh1'|exact Hh2|]. intros g Hg.
      destruct (un_applied_hash _ _ _ _ Hun g Hg) as (sts & o & -> & Ho & Hd). exists sts. split; [done|].
      rewrite Hw1, Hok1 in Ho. by rewrite Hd, (owned_sts _ _ _ _ _ _ Ho). }
    rewrite Hok1. split; [exact Hl2|exact Hok2].
Qed.

(** ** Theorems *)

(** C5: the operator's own writes never cause a new one: after a successful
    reconcile of a bot, a second one - the first one's objects being there
    and nothing else it reads having changed, the bot's status aside - applies
    the same objects in the same order, all of them when it succeeds, and a
    prefix when an API call fails.  In particular config.json, with the
    generated JWT key in it, and the pod template keep their bytes: no restart
    is self-inflicted. *)
Theorem reconcile_converges key t s :
  wp (reconcileNormal r key t) [] (fun h1 res1 => res1.2 = None →
    wp (reconcileNormal r key (with_Status t s)) [] (fun h2 res2 =>
      unchanged t (nn_Namespace key) h1 h2 →
      writes h2 `prefix_of` writes h1 ∧ (res2.2 = None → writes h2 = writes h1))).
Proof.
  eapply wp_mono; [|apply reconcileNormal_sends]. cbn beta. intros h1 res1 Hs1 Hres1.
  eapply wp_mono; [|apply reconcileNormal_sends]. cbn beta. intros h2 res2 Hs2 Hun.
  destruct (Hs1 (un_names1 _ _ _ _ Hun)) as (l1 & Hw1 & Hp1).
  destruct (Hs2 (un_names2 _ _ _ _ Hun)) as (l2 & Hw2 & Hp2).
  change (writes [] ++ l1) with l1 in Hw1. change (writes [] ++ l2) with l2 in Hw2. rewrite Hw2, Hw1.
  by eapply passes_agree.
Qed.

(** C7: what a successful reconcile of a live bot has sent, object by object:
    the config Secret with the rendered file, the strategy's ConfigMap, the
    PVC, the StatefulSet that mounts these three by name and carries one
    config hash, the Service and the NetworkPolicy, each built from the
    config, strategy and FreqUIs it read, with the bot as their only owner -
    nothing more, nothing less, nothing else in between. *)
Theorem reconcile_applies_objects key t :
  wp (reconcileNormal r key t) [] (fun h res => names_kept h → res.2 = None →
    ∃ strategy cfg frequis files hash,
      inputs t (nn_Namespace key) h strategy cfg frequis files ∧
      hash_from t (computeConfigHash files (sspec_Script (str_Spec strategy))) h hash ∧
      writes h = owned_objects t strategy files (referencingFreqUINames t frequis) hash).
Proof.
  eapply wp_mono; [|apply reconcileNormal_sends]. cbn beta. intros h res Hs Hn Hres.
  destruct (Hs Hn) as (l & Hw & [[? _]|(str & c & fr & files & hash & Hin & _ & Hh & Hok)]); [done|].
  specialize (Hok Hres). exists str, c, fr, files, hash. change (writes [] ++ l) with l in Hw.
  split_and!; [done| |congruence]. destruct Hh as [Hlen|]; [|done]. rewrite Hok in Hlen. cbn in Hlen. lia.
Qed.
End Objects.

(** ** Two passes

    A bot under Manual whose StatefulSet still runs an older config: the first
    pass draws a JWT key and keeps the template's hash, the second finds both. *)
Module TwoPasses.
#[local] Existing Instance kubelib_instance.
#[local] Existing Instance golib_instance.

Definition bot : TradeBot :=
  {| Meta := with_Finalizers (NewMeta "bot" "ns" ∅ ∅) [BotFinalizer];
     Spec := {| FreqtradeCommand := "trade"; FreqtradeArguments := []; Config := "conf"; StrategyName := "strat";
                App := None; Data := None; UpdateStrategy := "Manual"; Introspection := None |};
     Status := Status TradeBotConversion.ZeroAlpha |}.
Definition bot_beta : V1beta1.TradeBot := V1beta1.with_Meta TradeBotConversion.ZeroBeta (Meta bot).

Definition strategy : Strategy :=
  {| str_Meta := NewMeta "strat" "ns" ∅ ∅; str_Spec := {| sspec_Name := "Strat"; sspec_Script := "class Strat: pass" |};
     str_Status := {| sst_Phase := ""; sst_Message := ""; sst_Conditions := []; sst_ObservedGeneration := 0 |} |}.
Definition exchange_secret : Secret :=
  {| secret_Meta := NewMeta "ex" "ns" ∅ ∅; secret_Data := {[ "api-key" := "s3cret" ]};
     secret_StringData := ∅; secret_Type := "Opaque" |}.
Definition older : StatefulSet :=
  BuildStatefulSet bot "freqtrade:stable" "Strat" "bot-config" "bot-strategy" "bot-user-data" "feedc0de".

Definition own : NamespacedName := config_secret_key "bot" "ns".

(** The cluster, with the config Secret and the StatefulSet there are. *)
Definition cluster (secret : result Secret) (sts : result StatefulSet) : Env :=
  {| env_get := fun k key =>
       match k with
       | KTradeBotConfig => Ok sample_config
       | KStrategy => Ok strategy
       | KTradeBotBeta => Ok bot_beta
       | KSecret => if decide (key = own) then secret else Ok exchange_secret
       | KStatefulSet => sts
       | _ => Err NotFoundErr
       end;
     env_list := fun _ => Ok []; env_now := 0; env_http := fun _ => Err (Errorf "connection refused") |}.

Definition key : NamespacedName := bot_key bot.
Definition operator : Reconciler :=
  {| FinalizerGracePeriod := 0; hasRecorder := true; DefaultImage := ""; OperatorNamespace := "freqtrade" |}.

Definition first := exec (cluster (Err NotFoundErr) (Ok older)) (reconcileNormal operator key bot).

(** The server stores what is applied; a Secret's stringData becomes data. *)
Fixpoint stored_secret (l : list sent) : result Secret :=
  match l with
  | [] => Err NotFoundErr
  | existT KSecret o :: _ =>
      Ok {| secret_Meta := secret_Meta o; secret_Data := secret_StringData o; secret_StringData := ∅;
            secret_Type := secret_Type o |}
  | _ :: l => stored_secret l
  end.
Fixpoint stored_sts (l : list sent) : result StatefulSet :=
  match l with
  | [] => Err NotFoundErr
  | existT KStatefulSet o :: _ => Ok o
  | _ :: l => stored_sts l
  end.

Definition second :=
  exec (cluster (stored_secret (writes first.2)) (stored_sts (writes first.2)))
    (reconcileNormal operator key (with_Status bot (Status bot))).

Example first_succeeds : first.1.2 = None ∧ length (writes first.2) = 6.
Proof. split; vm_compute; reflexivity. Qed.

Lemma stored_secret_sent l s :
  stored_secret l = Ok s → ∃ o, existT KSecret o ∈ l ∧ secret_Data s = secret_StringData o.
Proof.
  induction l as [|[[] o] l IH]; cbn; try done; intros Hs.
  all: try (destruct (IH Hs) as (o' & ? & ?); exists o'; split; [by right|done]).
  injection Hs as <-. exists o. split; [by left|done].
Qed.

Lemma stored_sts_sent l s : stored_sts l = Ok s → existT KStatefulSet s ∈ l.
Proof.
  induction l as [|[[] o] l IH]; cbn; try done; intros Hs; try (right; by apply IH). injection Hs as <-. by left.
Qed.

Lemma exec_names_kept {A} env (p : Op A) : names_kept (exec env p).2.
Proof.
  intros k o o' Hin. pose proof (exec_answered env p) as Hall. rewrite Forall_forall in Hall.
  apply Hall in Hin. cbn in Hin. by injection Hin as ->.
Qed.

Lemma first_get k key x : Ev (Get k key) x ∈ first.2 → x = env_get (cluster (Err NotFoundErr) (Ok older)) k key.
Proof. apply exec_get. Qed.

Lemma second_get k key x : Ev (Get k key) x ∈ second.2 →
  x = env_get (cluster (stored_secret (writes first.2)) (stored_sts (writes first.2))) k key.
Proof. apply exec_get. Qed.

Lemma passes_unchanged : unchanged bot (nn_Namespace key) first.2 second.2.
Proof.
  split.
  - apply exec_names_kept.
  - apply exec_names_kept.
  - intros k c1 c2 H1%first_get H2%second_get. cbn [env_get cluster] in H1, H2. congruence.
  - intros k c1 c2 H1%first_get H2%second_get. cbn [env_get cluster] in H1, H2. congruence.
  - intros n f l1 l2 H1 H2. pose proof (exec_answered _ _ : Forall _ first.2) as A1.
    pose proof (exec_answered _ _ : Forall _ second.2) as A2. rewrite Forall_forall in A1, A2.
    apply A1 in H1. apply A2 in H2. cbn in H1, H2. congruence.
  - intros k s1 s2 Hne H1%(first_get KSecret) H2%(second_get KSecret). cbn [env_get cluster] in H1, H2.
    rewrite decide_False in H1, H2 by exact Hne. injection H1 as ->. injection H2 as ->. reflexivity.
  - intros g Hg%(second_get KSecret). cbn [env_get cluster] in Hg. rewrite decide_True in Hg by done. subst g.
    destruct (stored_secret (writes first.2)) as [s|e] eqn:Hs; [|vm_compute in Hs; discriminate Hs].
    destruct (stored_secret_sent _ _ Hs) as (o & Ho & Hd).
    exists s, o. split; [reflexivity|split; [exact Ho|exact Hd]].
  - intros g Hg%(second_get KStatefulSet). cbn [env_get cluster] in Hg. subst g.
    destruct (stored_sts (writes first.2)) as [s|e] eqn:Hs; [|vm_compute in Hs; discriminate Hs].
    apply stored_sts_sent in Hs. exists s, s. split; [reflexivity|split; [exact Hs|reflexivity]].
  - intros l Hl. pose proof (exec_answered _ _ : Forall _ first.2) as A1. rewrite Forall_forall in A1.
    apply A1 in Hl. cbn in Hl. injection Hl as ->. reflexivity.
  - intros c Hc%(first_get KTradeBotConfig). injection Hc as ->. vm_compute. set_solver.
Qed.

Lemma reconcile_converges_witness : length (writes first.2) = 6 ∧ writes second.2 `prefix_of` writes first.2.
Proof.
  split; [vm_compute; reflexivity|].
  pose proof (exec_wp (cluster (Err NotFoundErr) (Ok older)) _ _ (reconcile_converges operator key bot (Status bot))) as Hfirst.
  pose proof (exec_wp (cluster (stored_secret (writes first.2)) (stored_sts (writes first.2))) _ _
    (Hfirst (proj1 first_succeeds))) as Hsecond.
  exact (proj1 (Hsecond passes_unchanged)).
Defined.

Lemma reconcile_applies_objects_witness :
  ∃ strategy' cfg frequis files hash,
    inputs bot (nn_Namespace key) first.2 strategy' cfg frequis files ∧
    hash_from bot (computeConfigHash files (sspec_Script (str_Spec strategy'))) first.2 hash ∧
    writes first.2 = owned_objects operator bot strategy' files (referencingFreqUINames bot frequis) hash.
Proof.
  pose proof (exec_wp (cluster (Err NotFoundErr) (Ok older)) _ _ (reconcile_applies_objects operator key bot)) as Hp.
  exact (Hp (exec_names_kept _ _) (proj1 first_succeeds)).
Defined.
End TwoPasses.
