(* ===== verification/Healthy.v ===== *)
(** * A bot in a healthy cluster

    The other theorems about a reconcile hold whatever is answered, and so
    allow it to fail.  This file shows that it does succeed: in a cluster that
    holds what the bot refers to, whose API server accepts what it is sent,
    a config that can be rendered is rendered ([render_verdict] says which
    cannot), the six objects are applied and the status records it
    ([reconcile_succeeds]).

    [healthy] is that property of the cluster, of the history of a reconcile;
    the rules of [fine] (Prog.v) compose programs under it. *)

From S2P Require Import Prelude Prog GoLib Kube Types ConfigTypes Client Shared ConfigBuilder.
From S2P Require Import Conversion TradeBotResources TradeBotStatus BotClient Poller TradeBot TradeBotProofs Convergence.
Import V1alpha1.

(** ** Which configs are rendered *)

Section Render.
Context `{GoLib} (name ns : string) (c : ConfigV1alpha1.TradeBotConfig) (secrets : string → gmap string string).
Abbreviation spec := (ConfigV1alpha1.Spec c).

(** The data of the Secrets of the namespace, by name; nil without a
    reference. *)
Definition data_of (ref : string) : SecretData := if (ref =? "")%string then None else Some (secrets ref).

Definition telegram_data : SecretData :=
  match ConfigV1alpha1.tc_Notification spec ≫= ConfigV1alpha1.no_Telegram with
  | Some t => data_of (ConfigV1alpha1.nt_SecretRef t)
  | None => None
  end.

(** A JWT key the user gave that is not long enough. *)
Definition key_too_short : bool :=
  match ConfigV1alpha1.tc_APIServer spec with
  | Some a =>
      let key := user_jwt_key a (data_of (apiServerSecretRef spec)) in
      is_true_ptr (ConfigV1alpha1.api_Enabled a) && nonempty key
      && (String.length key <? minAPIServerJWTSecretKeyLength)%nat
  | None => false
  end.

(** The value that is marshalled. *)
Definition config_json (exchange : ConfigV1alpha1.ExchangeSpec) (bot noti : cfg) : json :=
  json_of_map (merge_sections spec bot (Some (obj (exchange_fields exchange (data_of (ConfigV1alpha1.ex_SecretRef exchange))))) noti).

Definition marshalled (jwt : string) (hosts : list string) (j : json) : Prop :=
  ∃ exchange bot noti,
    ConfigV1alpha1.tc_Exchange spec = Some exchange ∧
    BuildTradeBotConfig name c (data_of (apiServerSecretRef spec)) jwt hosts = Ok bot ∧
    BuildNotificationConfig (ConfigV1alpha1.tc_Notification spec) telegram_data = Ok noti ∧
    j = config_json exchange bot noti.

(** The Secrets are there, but for the one the config is rendered into, and
    there is randomness. *)
Record secrets_answered (h : history Call) : Prop := {
  sa_data ref x : ref ≠ name ^^ "-config" → Ev (Get KSecret {| nn_Namespace := ns; nn_Name := ref |}) x ∈ h →
    ∃ s, x = Ok s ∧ secret_Data s = secrets ref;
  sa_own e : Ev (Get KSecret (config_secret_key name ns)) (Err e) ∈ h → IsNotFound e = true;
  sa_random e : Ev (RandRead 32) (Err e) ∉ h
}.

Lemma secrets_answered_prefix h h' : h `prefix_of` h' → secrets_answered h' → secrets_answered h.
Proof.
  intros Hp [Hd Ho Hr]. split; intros; [eapply Hd|eapply Ho|intros Hin; eapply Hr]; eauto using elem_of_prefix.
Qed.

Abbreviation fine := (fine secrets_answered).

Lemma fine_GetSecretData ref h :
  ref ≠ name ^^ "-config" → fine (GetSecretData ns ref) h (succeeds (fun _ d => d = data_of ref)).
Proof.
  intros Hne. unfold GetSecretData, data_of. destruct (String.eqb_spec ref "") as [->|Href]; [by exists None|].
  intros x Hans. destruct (sa_data _ Hans ref x Hne) as (s & -> & <-); [set_solver|]. by eexists.
Qed.

(** Of the key, only one too short is an error. *)
Definition key_verdict (h : history Call) (x : result string) : Prop :=
  match x with
  | Ok jwt => key_too_short = false ∧
      jwt_from h name ns (ConfigV1alpha1.tc_APIServer spec) (data_of (apiServerSecretRef spec)) jwt
  | Err _ => key_too_short = true
  end.

Lemma fine_key pre h :
  fine (wrapping pre (resolveAPIServerJWTSecretKey name ns c (data_of (apiServerSecretRef spec)))) h key_verdict.
Proof.
  apply wp_wrapping. eapply (wp_mono _ _ (fun h' x => secrets_answered h' → key_verdict h' x)).
  { intros h' [jwt|e]; exact id. }
  eapply fine_mono; [|apply fine_and; [apply (resolve_spec name ns c)|]];
    [|instantiate (1 := fun h' x => key_too_short = negb (is_ok x))].
  { intros h' [jwt|e] _ _ [Hfrom Hs]; [|exact Hs]. split; [exact Hs|by apply Hfrom]. }
  unfold resolveAPIServerJWTSecretKey, key_too_short. destruct (ConfigV1alpha1.tc_APIServer spec) as [a|]; [|done].
  destruct (is_true_ptr _); cbn [negb andb]; [|done]. cbv zeta.
  destruct (nonempty (user_jwt_key a _)); cbn [andb]; [by destruct (_ <? _)%nat|].
  intros x. destruct x as [s|e]; cbn.
  - destruct (nonempty _); [done|]. intros [l|e] Hans; [done|]. destruct (sa_random _ Hans e). set_solver.
  - destruct (IsNotFound e) eqn:He; cbn.
    + intros [l|e'] Hans; [done|]. destruct (sa_random _ Hans e'). set_solver.
    + intros Hans. rewrite (sa_own _ Hans e) in He; [done|set_solver].
Qed.

Lemma fine_telegram h :
  name ^^ "-config" ∉ config_secret_refs c → fine (notification_secret ns spec) h (succeeds (fun _ d => d = telegram_data)).
Proof.
  unfold notification_secret, telegram_data, config_secret_refs. intros Hrefs.
  destruct (ConfigV1alpha1.tc_Notification spec) as [n|]; [|by eexists]. cbn in *.
  destruct (ConfigV1alpha1.no_Telegram n) as [t|]; [|by eexists].
  apply fine_wrapping, fine_GetSecretData. intros E. apply Hrefs. rewrite <- E. set_solver.
Qed.

Definition verdict (hosts : list string) (h : history Call) (res : result (gmap string string)) : Prop :=
  match res with
  | Ok files => key_too_short = false ∧ ∃ jwt j,
      jwt_from h name ns (ConfigV1alpha1.tc_APIServer spec) (data_of (apiServerSecretRef spec)) jwt ∧
      marshalled jwt hosts j ∧ json_bad_float j = None ∧ files = {[ "config.json" := json_MarshalIndent j ]}
  | Err e =>
      ConfigV1alpha1.tc_Exchange spec = None ∧ e = ErrMissingExchange ∨
      ConfigV1alpha1.tc_Exchange spec ≠ None ∧ key_too_short = true ∨
      ∃ jwt j, marshalled jwt hosts j ∧ json_bad_float j ≠ None
  end.

Lemma fine_BuildConfig hosts h :
  name ^^ "-config" ∉ config_secret_refs c → fine (BuildConfig name ns c hosts) h (verdict hosts).
Proof.
  intros Hrefs. unfold BuildConfig. destruct (ConfigV1alpha1.tc_Exchange spec) as [exchange|] eqn:Hex; [|unfold verdict; by left].
  eapply fine_bind_ok; [apply secrets_answered_prefix|apply fine_wrapping, fine_GetSecretData|].
  { intros E. apply Hrefs. rewrite <- E. by left. }
  intros h1 creds _ _ ->. eapply fine_bind; [apply secrets_answered_prefix|apply fine_key|].
  intros h2 [jwt|e] Hp2 _ Hkey; [|intros _; right; left; by rewrite Hex].
  destruct Hkey as [Hkey Hjwt].
  destruct (BuildTradeBotConfig name c _ jwt hosts) as [bot|] eqn:Hbot; [|done]. cbn [wrap_err]. rewrite bind_ok_ret.
  eapply fine_bind_ok; [apply secrets_answered_prefix|apply fine_wrapping, fine_GetSecretData|].
  { intros E. apply Hrefs. rewrite <- E. unfold config_secret_refs. rewrite Hex. set_solver. }
  intros h3 exd Hp3 _ ->. cbn [wrap_err BuildExchangeConfig]. rewrite bind_ok_ret.
  eapply fine_bind_ok; [apply secrets_answered_prefix|by apply fine_telegram|].
  intros h4 nod Hp4 _ ->. destruct (BuildNotificationConfig _ _) as [noti|] eqn:Hnoti; [|by destruct (ConfigV1alpha1.tc_Notification spec)].
  cbn [wrap_err]. rewrite bind_ok_ret. cbv zeta. unfold MarshalIndent.
  assert (marshalled jwt hosts (config_json exchange bot noti)) as Hm by (exists exchange, bot, noti; done).
  fold (config_json exchange bot noti). destruct (json_bad_float _) eqn:Hbad; intros _.
  - right. right. exists jwt, (config_json exchange bot noti). by rewrite Hbad.
  - split; [done|]. exists jwt, (config_json exchange bot noti). split_and!; try done.
    eapply jwt_from_mono; [|exact Hjwt]. by etrans.
Qed.

(** C22: in a cluster that answers, a config fails to render for three reasons
    only: it has no exchange, its own JWT key is too short, or a number in it
    is not finite (a stake_amount of Inf or NaN).  Every other config becomes
    the one file config.json, the text of its merged sections, and none with
    one of these faults does. *)
Theorem render_verdict hosts :
  name ^^ "-config" ∉ config_secret_refs c →
  wp (BuildConfig name ns c hosts) [] (fun h res => secrets_answered h →
    match res with
    | Ok files => key_too_short = false ∧ ∃ jwt j,
        jwt_from h name ns (ConfigV1alpha1.tc_APIServer spec) (data_of (apiServerSecretRef spec)) jwt ∧
        marshalled jwt hosts j ∧ json_bad_float j = None ∧ files = {[ "config.json" := json_MarshalIndent j ]}
    | Err e =>
        ConfigV1alpha1.tc_Exchange spec = None ∧ e = ErrMissingExchange ∨
        ConfigV1alpha1.tc_Exchange spec ≠ None ∧ key_too_short = true ∨
        ∃ jwt j, marshalled jwt hosts j ∧ json_bad_float j ≠ None
    end).
Proof. exact (fine_BuildConfig hosts []). Qed.

(** What rules these reasons out. *)
Record renderable : Prop := {
  rd_exchange : ConfigV1alpha1.tc_Exchange spec ≠ None;
  rd_key : key_too_short = false;
  rd_finite jwt hosts j : marshalled jwt hosts j → json_bad_float j = None;
  rd_refs : name ^^ "-config" ∉ config_secret_refs c
}.

Lemma renderable_renders hosts h :
  renderable → fine (BuildConfig name ns c hosts) h (succeeds (fun _ _ => True)).
Proof.
  intros [Hex Hkey Hfin Hrefs]. eapply fine_mono; [|by apply fine_BuildConfig].
  intros h' [files|e] _ _ Hv; [by exists files|].
  destruct Hv as [[? _]|[[_ ?]|(jwt & j & Hj & Hbad)]]; [done|congruence|]. by destruct Hbad; eapply Hfin.
Qed.
End Render.

(** ** A reconcile *)

Section Reconcile.
Context `{KubeLib} `{GoLib} (r : Reconciler).

(** What the cluster holds of a bot [t] in the namespace of [key]. *)
Record contents := {
  k_config : ConfigV1alpha1.TradeBotConfig;
  k_strategy : Strategy;
  k_frequis : list V1beta1.FreqUI;
  k_secrets : string → gmap string string      (* the data of the other Secrets *)
}.

Context (key : NamespacedName) (t : TradeBot) (K : contents).

(** The API server serves these and takes what it is sent; a StatefulSet is
    absent only until it has been applied. *)
Record healthy (h : history Call) : Prop := {
  he_bot x : Ev (Get KTradeBot key) x ∈ h → x = Ok t;
  he_config x : Ev (Get KTradeBotConfig (bot_config_key t (nn_Namespace key))) x ∈ h → x = Ok (k_config K);
  he_strategy x : Ev (Get KStrategy (bot_strategy_key t (nn_Namespace key))) x ∈ h → x = Ok (k_strategy K);
  he_frequis x : Ev (ListAll KFreqUI (Some (Namespace (Meta t))) None) x ∈ h → x = Ok (k_frequis K);
  he_secrets : secrets_answered (Name (Meta t)) (Namespace (Meta t)) (k_secrets K) h;
  he_applied k o e : Ev (Patch k o) (Err e) ∉ h;
  he_names : names_kept h;
  he_beta bkey e : Ev (Get KTradeBotBeta bkey) (Err e) ∉ h;
  he_status o e : Ev (StatusUpdate KTradeBotBeta o) (Err e) ∉ h;
  he_sts e : Ev (Get KStatefulSet (bot_key t)) (Err e) ∈ h → IsNotFound e = true;
  he_sees h1 h2 o x e : h = h1 ++ h2 → Ev (Patch KStatefulSet o) (Ok x) ∈ h1 → Ev (Get KStatefulSet (bot_key t)) (Err e) ∉ h2
}.

Lemma healthy_prefix h h' : h `prefix_of` h' → healthy h' → healthy h.
Proof.
  intros Hp [Hbot Hcfg Hstr Hfr Hsec Happ Hn Hbeta Hst Hsts Hsees].
  assert (∀ e, e ∈ h → e ∈ h') as Hin by (intros; by eapply elem_of_prefix).
  split; eauto using secrets_answered_prefix, names_kept_prefix.
  1: intros k o e Hx%Hin; by eapply Happ.
  1: intros bkey e Hx%Hin; by eapply Hbeta.
  1: intros o e Hx%Hin; by eapply Hst.
  intros h1 h2 obj x e -> Ho Hget. destruct Hp as [h3 ->]. rewrite <- app_assoc in Hsees.
  eapply (Hsees h1 (h2 ++ h3)); [done|exact Ho|]. apply elem_of_app. left. exact Hget.
Qed.

Abbreviation fine := (fine healthy).

Lemma fine_apply what k o h :
  OwnerReferences (obj_Meta k o) = [] → fine (apply_owned t what k o) h (succeeds (fun h' o' => ∃ o1, Ev (Patch k o1) (Ok o') ∈ h')).
Proof.
  intros Ho. apply fine_wrapping, fine_Apply; [done|]. intros h' o' e Hh. apply he_applied, Hh.
Qed.

(** The status [f] makes of the one stored is recorded: it is there already,
    or written. *)
Definition recorded (f : TradeBotStatus → TradeBotStatus) (h : history Call) : Prop :=
  ∃ beta, Ev (Get KTradeBotBeta (bot_key t)) (Ok beta) ∈ h ∧
    let st := SetObservedGeneration (f (V1beta1.Status beta)) (Generation (V1beta1.Meta beta)) in
    st = V1beta1.Status beta ∨ ∃ x, Ev (StatusUpdate KTradeBotBeta (V1beta1.with_Status beta st)) (Ok x) ∈ h.

Lemma status_mutation_on f beta t' :
  status_mutation (on_status f) beta t' =
  mret (f (V1beta1.Status beta), with_Status (copyTradeBotStatusFromBeta t' beta) (f (V1beta1.Status beta))).
Proof. unfold status_mutation, on_status. cbn. by rewrite !copy_status_id. Qed.

(** A status write succeeds at once. *)
Lemma fine_patch_status t' f h :
  Meta t' = Meta t → fine (patch_status t' f) h (fun h' p => p.2 = Ok tt ∧ recorded f h' ∧ same_but_status t' p.1).
Proof.
  intros Hm. eapply fine_mono; [|apply fine_and; [apply (patch_status_preserves t' f)|]];
    [|instantiate (1 := fun h' p => p.2 = Ok tt ∧ recorded f h')].
  { intros h' p _ _ [Hsame [Hok Hr]]. done. }
  apply wp_bind. eapply (wp_mono _ _ (fun h' p => healthy h' → p.2 = Ok tt ∧ recorded f h')).
  { intros h' [[o t2] x]. exact id. }
  unfold PatchStatus, RetryOnConflict. eapply (wp_mono _ _ (fun h' p => healthy h' → p.2 = Ok tt ∧ recorded f h')); [done|].
  assert (∀ h, fine (patch_attempt KTradeBotBeta (ObjectKeyFromMeta (V1beta1.Meta (beta_stub t'))) (status_mutation (on_status f))
    (beta_stub t', t')) h (fun h' p => p.2 = Ok tt ∧ recorded f h')) as Hatt.
  { clear h. intros h. unfold patch_attempt. apply wp_bind.
    intros [beta|e]; [|by intros Hh; destruct (he_beta _ Hh _ _ (asked _ _ _))].
    cbn [trigger wp]. rewrite status_mutation_on. apply wp_bind. unfold mret, prog_ret. cbn [wp fst snd].
    assert (Ev (Get KTradeBotBeta (bot_key t)) (Ok beta) ∈ h ++ [Ev (Get KTradeBotBeta (ObjectKeyFromMeta (V1beta1.Meta (beta_stub t')))) (Ok beta)])
      as Hget by (unfold bot_key; rewrite <- Hm; apply asked).
    case_decide as Heq.
    - intros _. split; [done|]. exists beta. split; [exact Hget|]. left. exact Heq.
    - intros [stored|e]; [|by intros Hh; destruct (he_status _ Hh _ _ (asked _ _ _))].
      intros _. split; [done|]. exists beta. split; [apply elem_of_app; by left|]. right. exists stored. apply asked. }
  destruct DefaultBackoff_Steps as [|n]; cbn [retry];
    (eapply fine_bind; [apply healthy_prefix|apply Hatt|]; intros h1 [s' x] _ _ [Hx Hrec]; cbn in Hx; subst x; done).
Qed.

Lemma fine_template fresh h : fine (statefulSetTemplateHash t fresh) h (succeeds (fun _ _ => True)).
Proof.
  unfold statefulSetTemplateHash. destruct (is_auto t); [by eexists|].
  intros [sts|e] Hh; cbn; [by eexists|]. rewrite (he_sts _ Hh _ (asked _ _ _)). by eexists.
Qed.

Definition sts_applied (h : history Call) : Prop := ∃ o x, Ev (Patch KStatefulSet o) (Ok x) ∈ h.

Lemma sts_applied_mono h h' : h `prefix_of` h' → sts_applied h → sts_applied h'.
Proof. intros Hp (o & x & Hin). exists o, x. by eapply elem_of_prefix. Qed.

Lemma fine_resources strategy data names h :
  fine (reconcileResources r t strategy data names) h (succeeds (fun h' _ => sts_applied h')).
Proof.
  unfold reconcileResources.
  eapply fine_bind_ok; [apply healthy_prefix|by apply fine_apply|]. intros h1 secret _ _ _.
  eapply fine_bind_ok; [apply healthy_prefix|by apply fine_apply|]. intros h2 cm _ _ _.
  eapply fine_bind_ok; [apply healthy_prefix|apply fine_apply, pvc_owners|]. intros h3 pvc _ _ _.
  eapply fine_bind_ok; [apply healthy_prefix|apply fine_wrapping, fine_template|]. intros h4 hash _ _ _.
  eapply fine_bind_ok; [apply healthy_prefix|by apply fine_apply|]. intros h5 sts _ _ (o & Hsts).
  eapply fine_bind; [apply healthy_prefix|apply fine_any|]. intros h6 ? Hp6 _ _.
  eapply fine_bind_ok; [apply healthy_prefix|apply fine_apply, svc_owners|]. intros h7 svc Hp7 _ _.
  eapply fine_bind_ok; [apply healthy_prefix|by apply fine_apply|]. intros h8 np Hp8 _ _.
  apply fine_ret. intros _. eexists. split; [done|]. exists o, sts. eapply elem_of_prefix; [exact Hsts|].
  etrans; [exact Hp6|]. by etrans.
Qed.

Lemma fine_workload h : sts_applied h → fine (computeWorkloadStatus t) h (succeeds (fun _ _ => True)).
Proof.
  intros (o & x & Ho) [sts|e] Hh; [cbn; case_match; by eexists|].
  destruct (he_sees _ Hh h [Ev (Get KStatefulSet (bot_key t)) (Err e)] o x e eq_refl Ho). by left.
Qed.

Lemma fine_patch_and_return d t' f h :
  Meta t' = Meta t → fine (patch_and_return d t' f) h (fun _ res => res.2 = None).
Proof.
  intros Hm. eapply fine_bind; [apply healthy_prefix|by apply fine_patch_status|]. intros h1 p _ _ [Hp _].
  intros _. cbn. by rewrite Hp.
Qed.

(** Of the bot's own answers, none is an error of the reconcile. *)
Lemma fine_state t' b h : Meta t' = Meta t → fine (reconcileState r t' b) h (fun _ res => res.2 = None).
Proof.
  intros Hm. unfold reconcileState. destruct (negb _); [by apply fine_patch_and_return|].
  destruct (state_matches _ _); [by apply fine_patch_and_return|].
  eapply fine_bind; [apply healthy_prefix|apply fine_any|]. intros h1 [ex [[u p]|e]] _ _ _; [|by apply fine_patch_and_return].
  unfold reconcileStateChange. eapply fine_bind; [apply healthy_prefix|apply fine_any|].
  intros h2 [v|e] _ _ _; (eapply fine_bind; [apply healthy_prefix|apply fine_any|]; intros h3 ? _ _ _; by apply fine_patch_and_return).
Qed.

Lemma recorded_mono f h h' : h `prefix_of` h' → recorded f h → recorded f h'.
Proof.
  intros Hp (beta & Hg & Hst). exists beta. split; [by eapply elem_of_prefix|].
  destruct Hst as [|[x Hx]]; [by left|]. right. exists x. by eapply elem_of_prefix.
Qed.

Lemma fine_success w o h :
  sts_applied h → fine (reconcileSuccess r key t w o) h (fun h' res =>
    res.2 = None ∧ ∃ workload message, recorded (success_status t o workload message) h').
Proof.
  intros Hsts. eapply fine_bind; [apply healthy_prefix|by apply fine_workload|]. intros h1 ? _ _ (wl & -> & _).
  cbv zeta. eapply fine_bind; [apply healthy_prefix|by apply fine_patch_status|].
  intros h2 [t2 x] Hp2 _ (Hx & Hrec & [Hm _]). cbn in Hx, Hm. subst x. cbn [fst snd].
  eapply fine_bind; [apply healthy_prefix|apply fine_any|]. intros h3 ? Hp3 _ _.
  apply (fine_bind healthy healthy_prefix _ _ _ (fun _ res => res.2 = None)).
  - intros [beta|e]; [|by intros Hh; destruct (he_beta _ Hh _ _ (asked _ _ _))].
    eapply fine_bind; [apply healthy_prefix|by apply fine_state|]. intros h4 s _ _ Hs. rewrite Hs. by apply fine_ret.
  - intros h4 s Hp4 _ Hs. apply fine_ret. intros _. rewrite Hs. split; [done|]. do 2 eexists.
    eapply recorded_mono; [|exact Hrec]. by etrans.
Qed.

Lemma fine_fetch h :
  fine (fetchReferencedResources t (nn_Namespace key)) h (succeeds (fun _ x => x = (k_strategy K, k_config K))).
Proof.
  unfold fetchReferencedResources.
  eapply fine_bind_ok; [apply healthy_prefix|apply (fine_read _ _ (k_config K)); intros x h0 Hh; apply (he_config _ Hh)|].
  intros h1 ? _ _ ->.
  eapply fine_bind_ok; [apply healthy_prefix|apply (fine_read _ _ (k_strategy K)); intros x h0 Hh; apply (he_strategy _ Hh)|].
  intros h2 ? _ _ ->. apply fine_ret. by eexists.
Qed.

(** The rendering, inside the reconcile. *)
Lemma fine_render hosts h :
  renderable (Name (Meta t)) (k_config K) (k_secrets K) →
  fine (BuildConfig (Name (Meta t)) (Namespace (Meta t)) (k_config K) hosts) h (succeeds (fun _ _ => True)).
Proof.
  intros Hr. eapply wp_mono; [|exact (renderable_renders _ (Namespace (Meta t)) _ (k_secrets K) hosts h Hr)].
  intros h' x Hx Hh. apply Hx, Hh.
Qed.

Lemma fine_Normal h :
  renderable (Name (Meta t)) (k_config K) (k_secrets K) →
  fine (reconcileNormal r key t) h (fun h' res =>
    res.2 = None ∧ ∃ outcome workload message, recorded (success_status t outcome workload message) h').
Proof.
  intros Hrend. unfold reconcileNormal.
  eapply fine_bind; [apply healthy_prefix|apply fine_fetch|]. intros h1 ? _ _ (? & -> & ->).
  eapply fine_bind; [apply healthy_prefix|apply (fine_read _ _ (k_frequis K)); intros x h0 Hh; apply (he_frequis _ Hh)|].
  intros h2 ? _ _ (? & -> & ->). cbv zeta.
  eapply fine_bind; [apply healthy_prefix|apply fine_any|]. intros h3 ? _ _ _.
  eapply fine_bind; [apply healthy_prefix|by apply fine_render|]. intros h4 ? _ _ (files & -> & _).
  eapply fine_bind; [apply healthy_prefix|apply fine_any|]. intros h5 ? _ _ _.
  eapply fine_bind; [apply healthy_prefix|apply fine_any|]. intros h6 ? _ _ _.
  eapply fine_bind; [apply healthy_prefix|apply fine_resources|]. intros h7 ? _ _ (outcome & -> & Hsts).
  eapply fine_mono; [|by apply fine_success]. intros h8 res _ _ [Hres Hrec]. split; [done|]. by exists outcome.
Qed.

End Reconcile.

(** ** A bot's first reconcile

    Its StatefulSet is there already, nothing else of what it owns. *)
Module BroughtUp.
Import TwoPasses.
#[local] Existing Instance kubelib_instance.
#[local] Existing Instance golib_instance.

Definition plain_config : ConfigV1alpha1.TradeBotConfig :=
  {| ConfigV1alpha1.Meta := NewMeta "conf" "ns" ∅ ∅;
     ConfigV1alpha1.Spec :=
       {| ConfigV1alpha1.tc_Bot := None; ConfigV1alpha1.tc_AI := None; ConfigV1alpha1.tc_Data := None;
          ConfigV1alpha1.tc_Advanced := None; ConfigV1alpha1.tc_Timeout := None; ConfigV1alpha1.tc_Internals := None;
          ConfigV1alpha1.tc_Exchange := ConfigV1alpha1.tc_Exchange (ConfigV1alpha1.Spec sample_config);
          ConfigV1alpha1.tc_Pairlist := None; ConfigV1alpha1.tc_PairlistMethod := None;
          ConfigV1alpha1.tc_EntryPricing := None; ConfigV1alpha1.tc_ExitPricing := None; ConfigV1alpha1.tc_Order := None;
          ConfigV1alpha1.tc_RiskManagement := None; ConfigV1alpha1.tc_Notification := None;
          ConfigV1alpha1.tc_APIServer := None; ConfigV1alpha1.tc_Experimental := None; ConfigV1alpha1.tc_Logging := None |};
     ConfigV1alpha1.Status := ConfigV1alpha1.Status sample_config |}.

Definition there : contents :=
  {| k_config := plain_config; k_strategy := strategy; k_frequis := []; k_secrets := fun _ => {[ "api-key" := "s3cret" ]} |}.

Definition served : Env :=
  {| env_get := fun k key' =>
       match k with
       | KTradeBot => Ok bot
       | KTradeBotConfig => Ok plain_config
       | k => env_get (cluster (Err NotFoundErr) (Ok older)) k key'
       end;
     env_list := fun _ => Ok []; env_now := 0; env_http := fun _ => Err (Errorf "connection refused") |}.

Lemma plain_renderable name :
  name ^^ "-config" ∉ config_secret_refs plain_config → renderable name plain_config (k_secrets there).
Proof.
  intros Hrefs. split; [discriminate|reflexivity| |exact Hrefs].
  intros jwt hosts j (exchange & b & n & Hex & Hb & Hn & ->). injection Hex as <-.
  unfold BuildTradeBotConfig in Hb. cbn -[assign merge_section buildBotConfigFields] in Hb. injection Hb as <-.
  injection Hn as <-. vm_compute. reflexivity.
Qed.

Lemma bot_renderable : renderable "bot" plain_config (k_secrets there).
Proof. apply plain_renderable. vm_compute. set_solver. Qed.

Lemma exec_event {A} env (p : Op A) X (c : Call X) x : Ev c x ∈ (exec env p).2 → x = (answer env X c tt).1.
Proof. intros Hin. pose proof (exec_answered env p) as Hall. rewrite Forall_forall in Hall. exact (Hall _ Hin). Qed.

Lemma served_answers {A} (p : Op A) : secrets_answered "bot" "ns" (k_secrets there) (exec served p).2.
Proof.
  split.
  - intros ref x Hne ->%exec_event. cbn. rewrite decide_False; [by eexists|]. intros [=]. by apply Hne.
  - intros e He%exec_event. cbn in He. rewrite decide_True in He by done. injection He as ->. reflexivity.
  - intros e He%exec_event. discriminate He.
Qed.

Lemma served_healthy {A} (p : Op A) : healthy key bot there (exec served p).2.
Proof.
  split.
  - by intros x ->%exec_event.
  - by intros x ->%exec_event.
  - by intros x ->%exec_event.
  - by intros x ->%exec_event.
  - apply served_answers.
  - intros k o e He%exec_event. discriminate He.
  - apply exec_names_kept.
  - intros bkey e He%exec_event. discriminate He.
  - intros o e He%exec_event. discriminate He.
  - intros e He%exec_event. discriminate He.
  - intros h1 h2 o x e Hh _ He. assert (Ev (Get KStatefulSet (bot_key bot)) (Err e) ∈ (exec served p).2) as He'%exec_event;
      [rewrite Hh; apply elem_of_app; by right|discriminate He'].
Qed.


Lemma render_verdict_witness :
  ∃ files, (exec served (BuildConfig "bot" "ns" plain_config [])).1 = Ok files ∧
    key_too_short plain_config (k_secrets there) = false.
Proof.
  pose proof (exec_wp served _ _ (render_verdict "bot" "ns" plain_config (k_secrets there) [] (rd_refs _ _ _ bot_renderable))) as Hp.
  specialize (Hp (served_answers _)).
  destruct (exec served (BuildConfig "bot" "ns" plain_config [])).1 as [files|e].
  - exists files. split; [reflexivity|exact (proj1 Hp)].
  - exfalso. destruct Hp as [[Hp _]|[[_ Hp]|(jwt & j & Hj & Hbad)]]; [discriminate Hp|discriminate Hp|].
    apply Hbad. eapply (rd_finite _ _ _ bot_renderable), Hj.
Defined.
End BroughtUp.
