(* ===== verification/FreqUIResources.v ===== *)
(** * controllers/frequi/resources

    The objects a FreqUI owns: its Deployment, its Service and, by
    spec.exposure, one Ingress or one HTTPRoute per host. *)

From S2P Require Import Prelude GoLib Kube Types Client Shared TradeBotResources.
Import V1beta1.

(** ** deployment.go *)

Definition frequiUID : Z := 101.
Definition frequiImage : string := "freqtradeorg/frequi:latest".

Definition frequiSecurityContext : SecurityContext :=
  let sc := RestrictedSecurityContext in
  {| sc_RunAsUser := Some frequiUID; sc_RunAsGroup := sc_RunAsGroup sc; sc_RunAsNonRoot := sc_RunAsNonRoot sc;
     sc_AllowPrivilegeEscalation := sc_AllowPrivilegeEscalation sc;
     sc_ReadOnlyRootFilesystem := sc_ReadOnlyRootFilesystem sc;
     sc_CapabilitiesDrop := sc_CapabilitiesDrop sc; sc_SeccompProfile := sc_SeccompProfile sc |}.

(** A field of spec.app, when set. *)
Definition fu_app_field {A} (f : FUAppConfig → option A) (frequi : FreqUI) : option A :=
  FUApp (fu_Spec frequi) ≫= f.

Definition frequi_labels (frequi : FreqUI) : gmap string string := {[ appLabelKey := Name (fu_Meta frequi) ]}.

Definition root_probe (delay period : Z) : Probe :=
  {| pr_Path := "/"; pr_Port := 80; pr_Scheme := "HTTP"; pr_InitialDelaySeconds := delay;
     pr_PeriodSeconds := period; pr_TimeoutSeconds := 5; pr_FailureThreshold := 3 |}.

Definition frequi_container (image : string) : Container :=
  {| c_Name := "frequi"; c_Image := image; c_ImagePullPolicy := "Always"; c_Command := []; c_Args := [];
     c_Env := []; c_Resources := NoResources;
     c_VolumeMounts := [ {| vm_Name := "tmp"; vm_MountPath := "/tmp"; vm_ReadOnly := false |};
                         {| vm_Name := "nginx-cache"; vm_MountPath := "/var/cache/nginx"; vm_ReadOnly := false |};
                         {| vm_Name := "nginx-run"; vm_MountPath := "/var/run"; vm_ReadOnly := false |} ];
     c_SecurityContext := Some frequiSecurityContext;
     c_Ports := [ {| cp_ContainerPort := 80; cp_Protocol := "TCP" |} ];
     c_LivenessProbe := Some (root_probe 30 30); c_ReadinessProbe := Some (root_probe 10 10);
     c_RestartPolicy := None; c_TerminationMessagePath := "/dev/termination-log";
     c_TerminationMessagePolicy := "File" |}.

Definition frequi_pod (image : string) : PodSpec :=
  {| ps_SecurityContext := Some {| psc_RunAsUser := None; psc_RunAsGroup := None; psc_FSGroup := Some frequiUID |};
     ps_ServiceAccountName := ""; ps_AutomountServiceAccountToken := None; ps_RestartPolicy := "Always";
     ps_InitContainers := []; ps_Containers := [frequi_container image];
     ps_Volumes := [ {| v_Name := "tmp"; v_Source := VSEmptyDir |};
                     {| v_Name := "nginx-cache"; v_Source := VSEmptyDir |};
                     {| v_Name := "nginx-run"; v_Source := VSEmptyDir |} ];
     ps_ImagePullSecrets := []; ps_Affinity := None; ps_NodeSelector := ∅; ps_Tolerations := [];
     ps_TopologySpreadConstraints := []; ps_TerminationGracePeriodSeconds := Some 30%Z;
     ps_DNSPolicy := "ClusterFirst" |}.

(** What the overrides do to the first container. *)
Definition apply_container_overrides (u : FUPodSpec) (c : Container) : Container :=
  let res := fp_Resources u in
  {| c_Name := c_Name c; c_Image := c_Image c; c_ImagePullPolicy := c_ImagePullPolicy c;
     c_Command := c_Command c; c_Args := c_Args c;
     c_Env := c_Env c ++ fp_Env u;
     c_Resources := if decide (rr_Limits res = ∅ ∧ rr_Requests res = ∅) then c_Resources c else res;
     c_VolumeMounts := c_VolumeMounts c ++ fp_VolumeMounts u;
     c_SecurityContext := c_SecurityContext c; c_Ports := c_Ports c;
     c_LivenessProbe := override_ptr (fp_LivenessProbe u) (c_LivenessProbe c);
     c_ReadinessProbe := override_ptr (fp_ReadinessProbe u) (c_ReadinessProbe c);
     c_RestartPolicy := c_RestartPolicy c;
     c_TerminationMessagePath := c_TerminationMessagePath c;
     c_TerminationMessagePolicy := c_TerminationMessagePolicy c |}.

Definition no_affinity : Affinity := {| af_Rest := ""; af_PodAntiAffinity := None |}.

Definition apply_affinity (u : FUPodSpec) (affinity : option Affinity) : option Affinity :=
  let affinity := override_ptr (fp_Affinity u) affinity in
  match fp_AntiAffinity u with
  | None => affinity
  | Some anti => Some {| af_Rest := af_Rest (default no_affinity affinity); af_PodAntiAffinity := Some anti |}
  end.

Definition applyPodSpecOverrides (p : PodSpec) (u : FUPodSpec) : PodSpec :=
  {| ps_SecurityContext := override_ptr (fp_SecurityContext u) (ps_SecurityContext p);
     ps_ServiceAccountName := ps_ServiceAccountName p;
     ps_AutomountServiceAccountToken := ps_AutomountServiceAccountToken p;
     ps_RestartPolicy := ps_RestartPolicy p;
     ps_InitContainers := ps_InitContainers p ++ fp_InitContainers u;
     ps_Containers := map_first_container (apply_container_overrides u) (ps_Containers p);
     ps_Volumes := ps_Volumes p ++ fp_Volumes u;
     ps_ImagePullSecrets := ps_ImagePullSecrets p ++ fp_ImagePullSecrets u;
     ps_Affinity := apply_affinity u (ps_Affinity p);
     ps_NodeSelector := if decide (fp_NodeSelector u = ∅) then ps_NodeSelector p else fp_NodeSelector u;
     ps_Tolerations := ps_Tolerations p ++ fp_Tolerations u;
     ps_TopologySpreadConstraints := ps_TopologySpreadConstraints p ++ fp_TopologySpreadConstraints u;
     ps_TerminationGracePeriodSeconds := ps_TerminationGracePeriodSeconds p;
     ps_DNSPolicy := ps_DNSPolicy p |}.

Definition frequi_image (frequi : FreqUI) : string :=
  match fu_app_field fa_PodSpec frequi with
  | Some u => if nonempty (fp_Image u) then fp_Image u else frequiImage
  | None => frequiImage
  end.

Definition BuildFreqUIDeployment (frequi : FreqUI) : Deployment :=
  let override := fu_app_field fa_PodSpec frequi in
  let pod := frequi_pod (frequi_image frequi) in
  {| dep_Meta := NewMeta (Name (fu_Meta frequi)) (Namespace (fu_Meta frequi)) ∅ ∅;
     dep_Replicas := Some (default 1%Z (override ≫= fp_Replicas));
     dep_Selector := frequi_labels frequi;
     dep_Template := {| pt_Labels := frequi_labels frequi; pt_Annotations := ∅;
                        pt_Spec := from_option (applyPodSpecOverrides pod) pod override |};
     dep_Status_Replicas := 0; dep_Status_AvailableReplicas := 0 |}.

(** ** service.go *)

Definition applyServiceSpecOverrides (s : Service) (u : FUServiceSpec) : Service :=
  {| svc_Meta := svc_Meta s;
     svc_Type := if nonempty (fs_Type u) then fs_Type u else svc_Type s;
     svc_Ports := override_list (fs_Ports u) (svc_Ports s);
     svc_Selector := if decide (fs_Selector u = ∅) then svc_Selector s else fs_Selector u;
     svc_LoadBalancerSourceRanges := override_list (fs_LoadBalancerSourceRanges u) (svc_LoadBalancerSourceRanges s);
     svc_ExternalTrafficPolicy :=
       if nonempty (fs_ExternalTrafficPolicy u) then fs_ExternalTrafficPolicy u else svc_ExternalTrafficPolicy s;
     svc_SessionAffinity := if nonempty (fs_SessionAffinity u) then fs_SessionAffinity u else svc_SessionAffinity s |}.

Definition BuildFreqUIService (frequi : FreqUI) : Service :=
  let base :=
    {| svc_Meta := NewMeta (Name (fu_Meta frequi)) (Namespace (fu_Meta frequi)) ∅ ∅;
       svc_Type := "ClusterIP";
       svc_Ports := [ {| sp_Name := "http"; sp_Port := 80; sp_TargetPort := 80; sp_Protocol := "TCP" |} ];
       svc_Selector := frequi_labels frequi;
       svc_LoadBalancerSourceRanges := []; svc_ExternalTrafficPolicy := ""; svc_SessionAffinity := "" |} in
  from_option (applyServiceSpecOverrides base) base (fu_app_field fa_ServiceSpec frequi).

(** ** ingress.go *)

Record TradeBotAPIRoute := { ar_Name : string; ar_ServiceName : string; ar_PathPrefix : string }.

Definition ResolveMainHost (frequi : FreqUI) : string :=
  if nonempty (Host (fu_Spec frequi)) then Host (fu_Spec frequi)
  else Name (fu_Meta frequi) ^^ "." ^^ Namespace (fu_Meta frequi) ^^ ".svc.cluster.local".

(** The host a bot's API is served on. *)
Definition api_host (mainHost : string) (apiRoute : TradeBotAPIRoute) : string :=
  ar_Name apiRoute ^^ "." ^^ mainHost.

Definition service_rule (host service : string) (port : Z) : IngressRule :=
  {| ir_Host := host;
     ir_Paths := [ {| hip_Path := "/"; hip_PathType := "Prefix"; hip_Backend := BackendService service port |} ] |}.

Definition applyIngressSpecOverrides (i : Ingress) (u : FUIngressSpec) : Ingress :=
  {| ing_Meta := ing_Meta i;
     ing_IngressClassName := override_ptr (fi_IngressClassName u) (ing_IngressClassName i);
     ing_Rules := override_list (fi_Rules u) (ing_Rules i);
     ing_TLS := override_list (fi_TLS u) (ing_TLS i);
     ing_DefaultBackend := override_ptr (fi_DefaultBackend u) (ing_DefaultBackend i) |}.

Definition ingress_rules (frequi : FreqUI) (tradeBotAPIRoutes : list TradeBotAPIRoute) : list IngressRule :=
  let mainHost := ResolveMainHost frequi in
  service_rule mainHost (Name (fu_Meta frequi)) 80
  :: map (fun apiRoute => service_rule (api_host mainHost apiRoute) (ar_ServiceName apiRoute) 8080) tradeBotAPIRoutes.

Definition BuildFreqUIIngress (frequi : FreqUI) (tradeBotAPIRoutes : list TradeBotAPIRoute) : Ingress :=
  let spec := fu_Spec frequi in
  let mainHost := ResolveMainHost frequi in
  let override := fu_app_field fa_IngressSpec frequi in
  let tls := match TLS spec with
             | [] => [ {| tls_Hosts := mainHost :: map (api_host mainHost) tradeBotAPIRoutes; tls_SecretName := "" |} ]
             | tls => tls
             end in
  let annotations := from_option fi_Annotations ∅ override ∪ IngressAnnotations spec in
  let base :=
    {| ing_Meta := NewMeta (Name (fu_Meta frequi)) (Namespace (fu_Meta frequi)) ∅ annotations;
       ing_IngressClassName := None; ing_Rules := ingress_rules frequi tradeBotAPIRoutes; ing_TLS := tls;
       ing_DefaultBackend := None |} in
  from_option (applyIngressSpecOverrides base) base override.

(** ** httproute.go *)

Definition FrequiRouteLabelKey : string := "freqtrade.io/frequi".
Definition managedByLabelKey : string := "app.kubernetes.io/managed-by".
Definition managedByLabelValue : string := "freqtrade-operator".
Definition pathPrefixMatchValue : string := "/".

Definition buildHTTPRoute (name namespace : string) (hostnames : list string) (parentRefs : list ParentReference)
    (labels annotations : gmap string string) (backendServiceName : string) (backendPort : Z) : HTTPRoute :=
  {| hr_Meta := NewMeta name namespace labels annotations;
     hr_ParentRefs := parentRefs; hr_Hostnames := hostnames;
     hr_Rules := [ {| hrr_PathType := "PathPrefix"; hrr_PathValue := pathPrefixMatchValue;
                      hrr_BackendName := backendServiceName; hrr_BackendPort := backendPort |} ];
     hr_Status_Parents := [] |}.

Definition route_labels (frequi : FreqUI) : gmap string string :=
  <[managedByLabelKey := managedByLabelValue]>
    (<[FrequiRouteLabelKey := Name (fu_Meta frequi)]> (from_option fg_Labels ∅ (Gateway (fu_Spec frequi)))).

Definition route_name (frequi : FreqUI) (apiRoute : TradeBotAPIRoute) : string :=
  Name (fu_Meta frequi) ^^ "-" ^^ ar_Name apiRoute.

Definition ui_hostnames (frequi : FreqUI) : list string :=
  override_list (from_option fg_Hostnames [] (Gateway (fu_Spec frequi))) [ResolveMainHost frequi].

Section Routes.
Context `{KubeLib}.

Definition BuildFreqUIHTTPRoutes (frequi : FreqUI) (tradeBotAPIRoutes : list TradeBotAPIRoute)
    : list HTTPRoute * list string :=
  let mainHost := ResolveMainHost frequi in
  let gw := Gateway (fu_Spec frequi) in
  let build name hosts := buildHTTPRoute name (Namespace (fu_Meta frequi)) hosts (from_option fg_ParentRefs [] gw)
                            (route_labels frequi) (from_option fg_Annotations ∅ gw) in
  let named apiRoute := IsDNS1123Subdomain (route_name frequi apiRoute) in
  (build (Name (fu_Meta frequi)) (ui_hostnames frequi) (Name (fu_Meta frequi)) 80%Z
   :: map (fun apiRoute => build (route_name frequi apiRoute) [api_host mainHost apiRoute]
                             (ar_ServiceName apiRoute) FreqtradeAPIPort)
          (List.filter named tradeBotAPIRoutes),
   map ar_Name (List.filter (fun apiRoute => negb (named apiRoute)) tradeBotAPIRoutes)).
End Routes.
