(* ===== verification/FreqUI.v ===== *)
(** * controllers/frequi: the FreqUI reconciler

    main.go: the Deployment and Service of a web UI, its exposure - an
    Ingress, HTTPRoutes or nothing -, the pruning of what an earlier exposure
    left behind, and the status.  A reconcile returns [(RequeueAfter, err)]. *)

From S2P Require Import Prelude Prog GoLib Kube Types ConfigTypes Client Shared TradeBotResources FreqUIResources.
Import V1beta1.

Record Reconciler := { hasRecorder : bool; GatewayAPIAvailable : bool }.

Definition fu_with_Status (f : FreqUI) (s : FreqUIStatus) : FreqUI :=
  {| fu_Meta := fu_Meta f; fu_Spec := fu_Spec f; fu_Status := s |}.

#[export] Program Instance frequi_conditioned : ConditionedObject KFreqUI := {|
  StatusT := FreqUIStatus;
  get_status := fu_Status;
  with_status := fu_with_Status;
  SetObservedGeneration s g :=
    {| fst_Phase := fst_Phase s; fst_Message := fst_Message s; fst_URL := fst_URL s;
       fst_Conditions := fst_Conditions s; fst_ObservedGeneration := g |}
|}.
Next Obligation. done. Qed.
Next Obligation. by intros []. Qed.
Next Obligation. done. Qed.

Definition fu_key (f : FreqUI) : NamespacedName := ObjectKeyFromMeta (fu_Meta f).

Definition fu_owner (f : FreqUI) : OwnerReference := ControllerRef "FreqUI" (Name (fu_Meta f)) (UID (fu_Meta f)).

(** A key in the FreqUI's namespace. *)
Definition fu_sibling (f : FreqUI) (name : string) : NamespacedName :=
  {| nn_Namespace := Namespace (fu_Meta f); nn_Name := name |}.

Definition isDeploymentReady (d : Deployment) : bool :=
  (dep_Status_AvailableReplicas d =? dep_Status_Replicas d)%Z && (0 <? dep_Status_Replicas d)%Z.

(** ** The exposure of Gateway mode, from the routes' own status *)

Record route_failure := { rf_routeName : string; rf_pending : bool; rf_reason : string }.

Section FreqUI.
Context `{KubeLib} `{GoLib} (r : Reconciler).

Definition condition_true (c : option Condition) : bool :=
  match c with Some c => bool_decide (cStatus c = ConditionTrue) | None => false end.

(** The reason of a condition that is present and not True. *)
Definition not_true_reason (c : option Condition) : option string :=
  c ← c; if bool_decide (cStatus c = ConditionTrue) then None else Some (cReason c).

(** The loop over a route's parents: has one accepted it, and the first
    reason given against it. *)
Fixpoint scan_parents (parents : list RouteParentStatus) (firstReason : string) : bool * string :=
  match parents with
  | [] => (false, firstReason)
  | parent :: parents' =>
      let acceptedCond := FindStatusCondition (rps_Conditions parent) "Accepted" in
      let resolvedCond := FindStatusCondition (rps_Conditions parent) "ResolvedRefs" in
      if condition_true acceptedCond && condition_true resolvedCond then (true, firstReason)
      else
        scan_parents parents'
          (if nonempty firstReason then firstReason
           else match not_true_reason acceptedCond with
                | Some reason => reason
                | None => default "" (not_true_reason resolvedCond)
                end)
  end.

Definition route_failures (route : HTTPRoute) : list route_failure :=
  match hr_Status_Parents route with
  | [] => [ {| rf_routeName := Name (hr_Meta route); rf_pending := true; rf_reason := "" |} ]
  | parents =>
      let ar := scan_parents parents "" in
      if ar.1 then []
      else [ {| rf_routeName := Name (hr_Meta route); rf_pending := false;
                rf_reason := if nonempty ar.2 then ar.2 else "Unknown" |} ]
  end.

Definition failure_text (f : route_failure) : string :=
  if rf_pending f then rf_routeName f ^^ " (pending)" else rf_routeName f ^^ " (" ^^ rf_reason f ^^ ")".

Definition deriveGatewayExposureCondition (routes : list HTTPRoute) : Condition :=
  let failures := concat (map route_failures routes) in
  match failures with
  | [] => Cond ConditionExposureReady ConditionTrue ReasonAsExpected "every HTTPRoute was accepted by its Gateway"
  | _ =>
      Cond ConditionExposureReady ConditionFalse
        (if existsb rf_pending failures then ReasonRoutePending else ReasonRouteNotAccepted)
        ("not every HTTPRoute has been accepted: " ^^ Join (map failure_text failures) ", ")
  end.

(** ** Pruning *)

(** [owner == nil || owner.UID != frequi.UID], negated. *)
Definition controlled_by (frequi : FreqUI) (m : ObjectMeta) : bool :=
  match GetControllerOf (OwnerReferences m) with
  | Some owner => (or_UID owner =? UID (fu_Meta frequi))%string
  | None => false
  end.

(** [r.Delete], an object already gone being fine. *)
Definition delete_ignoring_absence (k : kind) (m : ObjectMeta) (what : string) : Op (result unit) :=
  del ← trigger (Delete k (ObjectKeyFromMeta m));
  mret match del with
       | Err err => if IsNotFound err then Ok tt else Err (Wrap what err)
       | Ok _ => Ok tt
       end.

Fixpoint prune_loop (frequi : FreqUI) (desired : list string) (routes : list HTTPRoute) : Op (result unit) :=
  match routes with
  | [] => mret (Ok tt)
  | route :: routes' =>
      let name := Name (hr_Meta route) in
      if bool_decide (name ∈ desired) || negb (controlled_by frequi (hr_Meta route)) then
        prune_loop frequi desired routes'
      else
        _ <-? delete_ignoring_absence KHTTPRoute (hr_Meta route) ("failed to delete stale HTTPRoute " ^^ name);
        prune_loop frequi desired routes'
  end.

Definition pruneHTTPRoutes (frequi : FreqUI) (desired : list string) : Op (result unit) :=
  if negb (GatewayAPIAvailable r) then mret (Ok tt)
  else
    routes <-? wrapping "failed to list HTTPRoutes for pruning"
      (trigger (ListLabelled KHTTPRoute (Namespace (fu_Meta frequi)) (FrequiRouteLabelKey, Name (fu_Meta frequi))));
    prune_loop frequi desired routes.

Definition deleteOwnedIngress (frequi : FreqUI) : Op (result unit) :=
  got ← trigger (Get KIngress (fu_sibling frequi (Name (fu_Meta frequi))));
  match got with
  | Err err => mret (if IsNotFound err then Ok tt else Err (Wrap "failed to get Ingress for deletion" err))
  | Ok ingress =>
      if negb (controlled_by frequi (ing_Meta ingress)) then mret (Ok tt)
      else delete_ignoring_absence KIngress (ing_Meta ingress) "failed to delete Ingress"
  end.

(** ** Exposure *)

(** The loop over the desired routes: those applied, and the names another
    owner holds. *)
Fixpoint apply_routes (frequi : FreqUI) (routes appliedRoutes : list HTTPRoute) (conflictNames : list string)
    : Op (result (list HTTPRoute * list string)) :=
  match routes with
  | [] => mret (Ok (appliedRoutes, conflictNames))
  | route :: routes' =>
      applied ← Apply (fu_owner frequi) KHTTPRoute route;
      match applied with
      | Ok stored => apply_routes frequi routes' (appliedRoutes ++ [stored]) conflictNames
      | Err err =>
          if IsAlreadyOwned err
          then apply_routes frequi routes' appliedRoutes (conflictNames ++ [Name (hr_Meta route)])
          else mret (Err (Wrap ("failed to apply HTTPRoute " ^^ Name (hr_Meta route)) err))
      end
  end.

Definition exposure_condition (status : ConditionStatus) (reason message : string) : option Condition :=
  Some (Cond ConditionExposureReady status reason message).

(** spec.exposure: Gateway. *)
Definition reconcileGateway (frequi : FreqUI) (apiRoutes : list TradeBotAPIRoute) : Op (result (option Condition)) :=
  if negb (GatewayAPIAvailable r) then
    mret (Ok (exposure_condition ConditionFalse ReasonGatewayAPINotInstalled
                ("spec.exposure is Gateway, but this cluster does not serve gateway.networking.k8s.io/v1 "
                 ^^ "HTTPRoute. Install Gateway API and restart the operator - availability is only checked at startup.")))
  else
    let built := BuildFreqUIHTTPRoutes frequi apiRoutes in
    applied <-? apply_routes frequi built.1 [] [];
    _ <-? pruneHTTPRoutes frequi (map (fun route => Name (hr_Meta route)) applied.1);
    _ <-? deleteOwnedIngress frequi;
    mret (Ok (match applied.2, built.2 with
              | [], [] => Some (deriveGatewayExposureCondition applied.1)
              | conflictNames, skippedRoutes =>
                  exposure_condition ConditionFalse ReasonRouteNameConflict
                    ("could not reconcile every HTTPRoute: name conflicts=" ^^ fmt_strings conflictNames
                     ^^ ", over-long names=" ^^ fmt_strings skippedRoutes)
              end)).

(** spec.exposure: None. *)
Definition reconcileNone (frequi : FreqUI) : Op (result (option Condition)) :=
  _ <-? pruneHTTPRoutes frequi [];
  _ <-? deleteOwnedIngress frequi;
  mret (Ok (exposure_condition ConditionTrue ReasonExposureNone "no external exposure requested")).

(** spec.exposure: Ingress, or unset. *)
Definition reconcileIngress (frequi : FreqUI) (apiRoutes : list TradeBotAPIRoute) : Op (result (option Condition)) :=
  let ingress := BuildFreqUIIngress frequi apiRoutes in
  applied ← Apply (fu_owner frequi) KIngress ingress;
  match applied with
  | Err err =>
      mret (if IsAlreadyOwned err
            then Ok (exposure_condition ConditionFalse ReasonRouteNameConflict
                       ("could not apply Ingress " ^^ Name (ing_Meta ingress) ^^ ": " ^^ Error err))
            else Err (Wrap "failed to apply ingress" err))
  | Ok _ =>
      _ <-? pruneHTTPRoutes frequi [];
      mret (Ok (exposure_condition ConditionTrue ReasonAsExpected "Ingress applied"))
  end.

Definition reconcileExposure (frequi : FreqUI) (apiRoutes : list TradeBotAPIRoute) : Op (result (option Condition)) :=
  match Exposure (fu_Spec frequi) with
  | FUExposureGateway => reconcileGateway frequi apiRoutes
  | FUExposureNone => reconcileNone frequi
  | FUExposureIngress | FUExposureUnset => reconcileIngress frequi apiRoutes
  end.

(** ** The owned objects *)

(** [tradeBotConfig.Status.Phase == "Valid"] with its API server enabled. *)
Definition serves_api (c : ConfigV1alpha1.TradeBotConfig) : bool :=
  (tcs_Phase (ConfigV1alpha1.Status c) =? "Valid")%string
  && match ConfigV1alpha1.tc_APIServer (ConfigV1alpha1.Spec c) with
     | Some a => is_true_ptr (ConfigV1alpha1.api_Enabled a)
     | None => false
     end.

Definition api_route_of (tradeBotRef : string) : TradeBotAPIRoute :=
  {| ar_Name := tradeBotRef; ar_ServiceName := tradeBotRef; ar_PathPrefix := tradeBotRef |}.

(** The loop over spec.tradeBotRefs: the API routes, and the references that
    name no bot. *)
Fixpoint resolve_refs (frequi : FreqUI) (refs : list LocalObjectReference) (apiRoutes : list TradeBotAPIRoute)
    (unresolvedRefs : list string) : Op (result (list TradeBotAPIRoute * list string)) :=
  match refs with
  | [] => mret (Ok (apiRoutes, unresolvedRefs))
  | ref :: refs' =>
      let tradeBotRef := lor_Name ref in
      got ← trigger (Get KTradeBot (fu_sibling frequi tradeBotRef));
      match got with
      | Err err =>
          if IsNotFound err then resolve_refs frequi refs' apiRoutes (unresolvedRefs ++ [tradeBotRef])
          else mret (Err (Wrap ("failed to get TradeBot " ^^ tradeBotRef) err))
      | Ok tradeBot =>
          cfg ← trigger (Get KTradeBotConfig (fu_sibling frequi (V1alpha1.Config (V1alpha1.Spec tradeBot))));
          match cfg with
          | Err _ => resolve_refs frequi refs' apiRoutes unresolvedRefs
          | Ok tradeBotConfig =>
              resolve_refs frequi refs'
                (if serves_api tradeBotConfig then apiRoutes ++ [api_route_of tradeBotRef] else apiRoutes)
                unresolvedRefs
          end
      end
  end.

Definition reconcileAllResources (frequi : FreqUI) : Op (result (list string * option Condition)) :=
  _ <-? wrapping "failed to apply deployment" (Apply (fu_owner frequi) KDeployment (BuildFreqUIDeployment frequi));
  _ <-? wrapping "failed to apply service" (Apply (fu_owner frequi) KService (BuildFreqUIService frequi));
  resolved <-? resolve_refs frequi (TradeBotRefs (fu_Spec frequi)) [] [];
  exposureCond <-? reconcileExposure frequi resolved.1;
  mret (Ok (resolved.2, exposureCond)).

(** ** Status *)

Definition deriveFreqUIPhase (conditions : list Condition) : string :=
  match FindStatusCondition conditions ConditionWorkloadReady with
  | None => "Initializing"
  | Some c =>
      if (cReason c =? ReasonWorkloadHealthy)%string then
        if IsStatusConditionFalse conditions ConditionExposureReady then "Degraded" else "Running"
      else if (cReason c =? ReasonReconcileError)%string then "ResourceError"
      else "Pending"
  end.

Definition aggregateReadyCondition (conditions : list Condition) (message : string) : Condition :=
  let workloadReady := IsStatusConditionTrue conditions ConditionWorkloadReady in
  let exposureReady := IsStatusConditionTrue conditions ConditionExposureReady in
  if workloadReady && exposureReady then Cond ConditionReady ConditionTrue ReasonAsExpected message
  else
    let cond := FindStatusCondition conditions
                  (if negb workloadReady then ConditionWorkloadReady else ConditionExposureReady) in
    Cond ConditionReady ConditionFalse (from_option cReason ReasonWorkloadProgressing cond) message.

Definition deriveFreqUIURL (frequi : FreqUI) : string :=
  let spec := fu_Spec frequi in
  if decide (Exposure spec = FUExposureNone) then
    "http://" ^^ Name (fu_Meta frequi) ^^ "." ^^ Namespace (fu_Meta frequi) ^^ ".svc.cluster.local"
  else
    let defaultScheme :=
      if bool_decide (Exposure spec ≠ FUExposureGateway) && negb (bool_decide (TLS spec = []))
      then "https" else "http" in
    let sh := InferHostScheme (ResolveMainHost frequi) defaultScheme in
    sh.1 ^^ "://" ^^ sh.2.

Definition tradeBotRefsResolvedCondition (unresolvedRefs : list string) : Condition :=
  match unresolvedRefs with
  | [] => Cond ConditionTradeBotRefsResolved ConditionTrue ReasonAsExpected ""
  | _ => Cond ConditionTradeBotRefsResolved ConditionFalse ReasonUnresolvableTradeBotRefs
           ("spec.tradeBotRefs entries with no matching TradeBot in this namespace: " ^^ Join unresolvedRefs ", ")
  end.

Definition set_fu_condition (c : Condition) (s : FreqUIStatus) : FreqUIStatus :=
  {| fst_Phase := fst_Phase s; fst_Message := fst_Message s; fst_URL := fst_URL s;
     fst_Conditions := SetStatusCondition (fst_Conditions s) c;
     fst_ObservedGeneration := fst_ObservedGeneration s |}.

(** The end of both mutations: the phase of the conditions, and the message. *)
Definition summarize (message url : string) (s : FreqUIStatus) : FreqUIStatus :=
  {| fst_Phase := deriveFreqUIPhase (fst_Conditions s); fst_Message := message; fst_URL := url;
     fst_Conditions := fst_Conditions s; fst_ObservedGeneration := fst_ObservedGeneration s |}.

Definition fail_status (message : string) (s : FreqUIStatus) : FreqUIStatus :=
  summarize message (fst_URL s)
    (set_fu_condition (Cond ConditionReady ConditionFalse ReasonReconcileError message)
       (set_fu_condition (Cond ConditionWorkloadReady ConditionFalse ReasonReconcileError message) s)).

Definition failReconcile (frequi : FreqUI) (message : string) (requeueAfter : Z) (err : error) : Op Result :=
  p ← patch_status KFreqUI frequi (fail_status message);
  match p.2 with
  | Err patchErr => mret (secs 5, Some patchErr)
  | Ok _ =>
      _ ← record_event (hasRecorder r) KFreqUI (fu_key p.1) EventTypeWarning ReasonReconcileError message;
      _ ← trigger (ReconcileErrorsInc "frequi" ReasonReconcileError);
      mret (requeueAfter, Some err)
  end.

Definition workload_condition (ready : bool) (message : string) : Condition :=
  if ready then Cond ConditionWorkloadReady ConditionTrue ReasonWorkloadHealthy message
  else Cond ConditionWorkloadReady ConditionFalse ReasonWorkloadProgressing message.

Definition success_status (ready : bool) (message url : string) (unresolvedRefs : list string)
    (exposureCond : option Condition) (s : FreqUIStatus) : FreqUIStatus :=
  let s := set_fu_condition (workload_condition ready message) s in
  let s := set_fu_condition (tradeBotRefsResolvedCondition unresolvedRefs) s in
  let s := match exposureCond with Some c => set_fu_condition c s | None => s end in
  summarize message url (set_fu_condition (aggregateReadyCondition (fst_Conditions s) message) s).

(** ** Reconcile *)

Definition ready_message (d : Deployment) : string :=
  if isDeploymentReady d then "FreqUI deployed successfully"
  else "Waiting for deployment to be ready (" ^^ Itoa (dep_Status_AvailableReplicas d) ^^ "/"
       ^^ Itoa (dep_Status_Replicas d) ^^ " replicas)".

(** The status of a FreqUI whose objects are applied, from its Deployment. *)
Definition reflectDeployment (frequi : FreqUI) (deployment : Deployment) (unresolvedRefs : list string)
    (exposureCond : option Condition) : Op Result :=
  let ready := isDeploymentReady deployment in
  let url := if ready then deriveFreqUIURL frequi else "" in
  let wasReady := IsStatusConditionTrue (fst_Conditions (fu_Status frequi)) ConditionWorkloadReady in
  p ← patch_status KFreqUI frequi
        (success_status ready (ready_message deployment) url unresolvedRefs exposureCond);
  match p.2 with
  | Err err => mret (secs 5, Some err)
  | Ok _ =>
      _ ← (if negb wasReady && ready
           then record_event (hasRecorder r) KFreqUI (fu_key p.1) EventTypeNormal "WorkloadReady"
                  "FreqUI deployment is ready"
           else mret tt);
      mret (if ready then (5 * Minute)%Z else secs 15, None)
  end.

Definition reconcileFreqUI (frequi : FreqUI) : Op Result :=
  res ← reconcileAllResources frequi;
  match res with
  | Err err => failReconcile frequi ("Failed to reconcile resources: " ^^ Error err) (secs 30) err
  | Ok (unresolvedRefs, exposureCond) =>
      got ← trigger (Get KDeployment (fu_sibling frequi (Name (fu_Meta frequi))));
      match got with
      | Err err => failReconcile frequi ("Failed to get deployment status: " ^^ Error err) (secs 30) err
      | Ok deployment => reflectDeployment frequi deployment unresolvedRefs exposureCond
      end
  end.

Definition Reconcile (key : NamespacedName) : Op Result :=
  got ← trigger (Get KFreqUI key);
  match got with
  | Err err => mret (0%Z, IgnoreNotFound err)
  | Ok frequi => reconcileFreqUI frequi
  end.
End FreqUI.
