(* ===== verification/FreqUIProofs.v ===== *)
(** * The FreqUI reconciler: its properties *)

From S2P Require Import Prelude Prog GoLib Kube Types ConfigTypes Client Shared TradeBotResources FreqUIResources.
From S2P Require Import FreqUI TradeBot.
Import V1beta1.

(** ** Which calls each part makes *)

Definition no_delete {X} (c : Call X) : Prop := match c with Delete _ _ => False | _ => True end.

Section Emits.
Context `{KubeLib} `{GoLib} (r : FreqUI.Reconciler) (P : ∀ X, Call X → Prop).

Lemma fu_fail_emits f msg d err :
  P _ (Get KFreqUI (fu_key f)) → (∀ o, P _ (StatusUpdate KFreqUI o)) →
  (∀ k key ty reason msg, P _ (Event k key ty reason msg)) → (∀ c reason, P _ (ReconcileErrorsInc c reason)) →
  emits P (FreqUI.failReconcile r f msg d err).
Proof.
  intros HG HU HE HI. apply emits_bind; [by apply (patch_status_emits KFreqUI)|]. intros [f' [u|e]]; [|done].
  apply emits_bind; [unfold record_event; case_match; by try split|]. intros ?. by split.
Qed.

Lemma reflect_emits f d refs cond :
  P _ (Get KFreqUI (fu_key f)) → (∀ o, P _ (StatusUpdate KFreqUI o)) →
  (∀ k key ty reason msg, P _ (Event k key ty reason msg)) →
  emits P (reflectDeployment r f d refs cond).
Proof.
  intros HG HU HE. apply emits_bind; [by apply (patch_status_emits KFreqUI)|]. intros [f' [u|e]]; [|done].
  apply emits_bind; [|done]. unfold record_event. repeat case_match; by try split.
Qed.

Lemma resolve_emits f refs routes unresolved :
  (∀ key, P _ (Get KTradeBot key)) → (∀ key, P _ (Get KTradeBotConfig key)) →
  emits P (resolve_refs f refs routes unresolved).
Proof.
  intros HB HC. revert routes unresolved. induction refs as [|ref refs IH]; intros routes unresolved; [done|].
  split; [done|]. intros [bot|e]; cbn; [|destruct (IsNotFound e); [apply IH|done]]. split; [done|]. intros [cfg|e]; apply IH.
Qed.

Lemma prune_loop_emits f desired routes :
  (∀ key, P _ (Delete KHTTPRoute key)) → emits P (prune_loop f desired routes).
Proof.
  intros HD. induction routes as [|route routes IH]; [done|]. cbn [prune_loop]. case_match; [done|].
  apply emits_bind_ok; [by split|]. done.
Qed.

Lemma prune_emits f desired :
  (∀ ns l, P _ (ListLabelled KHTTPRoute ns l)) → (∀ key, P _ (Delete KHTTPRoute key)) →
  emits P (pruneHTTPRoutes r f desired).
Proof.
  intros HL HD. unfold pruneHTTPRoutes. case_match; [done|]. apply emits_bind_ok; [by apply emits_wrapping|].
  intros routes. by apply prune_loop_emits.
Qed.

Lemma ingress_emits f :
  (∀ key, P _ (Get KIngress key)) → (∀ key, P _ (Delete KIngress key)) → emits P (deleteOwnedIngress f).
Proof. intros HG HD. split; [done|]. intros [i|e]; cbn; [|done]. destruct (negb _); [done|]. by split. Qed.

Lemma routes_emits f routes applied conflicts :
  Forall (fun route => OwnerReferences (hr_Meta route) = []) routes →
  (∀ route refs, route ∈ routes → fu_owner f ∈ refs →
     P _ (Patch KHTTPRoute (obj_with_Meta KHTTPRoute route (with_OwnerReferences (hr_Meta route) refs)))) →
  emits P (apply_routes f routes applied conflicts).
Proof.
  revert applied conflicts. induction routes as [|route routes IH]; intros applied conflicts Hf HP; [done|].
  inversion_clear Hf as [|? ? Hfresh Hrest].
  apply emits_bind; [apply (Apply_fresh_emits P (fu_owner f) KHTTPRoute); [done|]; intros refs; apply HP; by left|].
  intros [stored|e]; cbn; [|destruct (IsAlreadyOwned e); [|done]]; apply IH; try done; intros; apply HP; auto; by right.
Qed.
End Emits.

(** ** Pruning *)

(** The answer of a Delete after which the object is gone. *)
Definition gone (x : result unit) : Prop := match x with Ok _ => True | Err e => IsNotFound e = true end.

Section Pruning.
Context `{KubeLib} `{GoLib} (r : FreqUI.Reconciler) (frequi : FreqUI).

Definition route_key (route : HTTPRoute) : NamespacedName := ObjectKeyFromMeta (hr_Meta route).

(** The routes a pass found under the ownership label. *)
Definition listed (h : history Call) (routes : list HTTPRoute) : Prop :=
  Ev (ListLabelled KHTTPRoute (Namespace (fu_Meta frequi)) (FrequiRouteLabelKey, Name (fu_Meta frequi))) (Ok routes) ∈ h.

Definition deleted (k : kind) (key : NamespacedName) (h : history Call) : Prop :=
  ∃ x, Ev (Delete k key) x ∈ h ∧ gone x.

Lemma deleted_app_l k key h h' : deleted k key h → deleted k key (h ++ h').
Proof. intros (x & Hin & Hx). exists x. split; [apply elem_of_app; by left|done]. Qed.

Lemma deleted_app_r k key h h' : deleted k key h' → deleted k key (h ++ h').
Proof. intros (x & Hin & Hx). exists x. split; [apply elem_of_app; by right|done]. Qed.

(** A Delete this FreqUI may send: of a route it listed or of the Ingress of
    its name, its own by controller reference. *)
Definition own_delete (h : history Call) (k : kind) (key : NamespacedName) : Prop :=
  (k = KHTTPRoute ∧ ∃ routes route, listed h routes ∧ route ∈ routes ∧ key = route_key route ∧
     controlled_by frequi (hr_Meta route) = true) ∨
  (k = KIngress ∧ ∃ ingress, Ev (Get KIngress (fu_sibling frequi (Name (fu_Meta frequi)))) (Ok ingress) ∈ h ∧
     key = ObjectKeyFromMeta (ing_Meta ingress) ∧ controlled_by frequi (ing_Meta ingress) = true).

Definition deletes_owned (h : history Call) : Prop :=
  ∀ k key x, Ev (Delete k key) x ∈ h → own_delete h k key.

Lemma own_delete_app h h' k key : own_delete h k key ∨ own_delete h' k key → own_delete (h ++ h') k key.
Proof.
  intros [[[-> (rs & rt & Hl & Hrest)]|[-> (i & Hg & Hrest)]]|[[-> (rs & rt & Hl & Hrest)]|[-> (i & Hg & Hrest)]]];
    [left|right|left|right]; (split; [done|]);
    [exists rs, rt|exists i|exists rs, rt|exists i]; (split; [apply elem_of_app; auto|done]).
Qed.

Lemma deletes_owned_app h h' : deletes_owned h → deletes_owned h' → deletes_owned (h ++ h').
Proof. intros H1 H2 k key x [Hin|Hin]%elem_of_app; apply own_delete_app; eauto. Qed.

(** A route this FreqUI owns and no longer wants. *)
Definition stale (desired : list string) (route : HTTPRoute) : Prop :=
  ¬ Name (hr_Meta route) ∈ desired ∧ controlled_by frequi (hr_Meta route) = true.

Definition stale_delete (desired : list string) (routes : list HTTPRoute) (e : event Call) : Prop :=
  ∃ route x, e = Ev (Delete KHTTPRoute (route_key route)) x ∧ route ∈ routes ∧ stale desired route.

Lemma stale_delete_cons desired route routes e : stale_delete desired routes e → stale_delete desired (route :: routes) e.
Proof. intros (rt & x & -> & Hin & Hs). exists rt, x. split_and!; [done|by right|done]. Qed.

(** One pass over the routes deletes stale ones only, and if it succeeds all
    of them. *)
Definition loop_post (desired : list string) (routes : list HTTPRoute) (h : history Call) (res : result unit) : Prop :=
  Forall (stale_delete desired routes) h ∧
  (res = Ok tt → ∀ route, route ∈ routes → stale desired route → deleted KHTTPRoute (route_key route) h).

Lemma prune_loop_spec desired routes : wp (prune_loop frequi desired routes) [] (loop_post desired routes).
Proof.
  induction routes as [|route routes IH]; cbn [prune_loop].
  { split; [constructor|]. intros _ route Hin. by apply elem_of_nil in Hin. }
  destruct (bool_decide _ || negb _) eqn:Hskip.
  - eapply wp_mono; [|exact IH]. intros h res [Hh Hok]. split.
    + eapply Forall_impl; [exact Hh|]. intros e. apply stale_delete_cons.
    + intros Hres rt [->|Hin]%elem_of_cons [Hd Hc]; [|by apply Hok].
      rewrite Hc, orb_false_r in Hskip. by apply bool_decide_eq_true in Hskip.
  - apply orb_false_iff in Hskip as [Hd%bool_decide_eq_false Hc%negb_false_iff].
    apply wp_bind_ok. intros x. cbn -[wp prune_loop]. set (ev := Ev (Delete KHTTPRoute _) x).
    assert (stale_delete desired (route :: routes) ev) as Hev.
    { exists route, x. split_and!; [done|by left|done..]. }
    assert (gone x → wp (prune_loop frequi desired routes) [ev] (loop_post desired (route :: routes))) as Hrest.
    { intros Hgone. apply wp_frame. eapply wp_mono; [|exact IH]. intros h res [Hh Hok]. split.
      - constructor; [done|]. eapply Forall_impl; [exact Hh|]. intros e. apply stale_delete_cons.
      - intros Hres rt [->|Hin]%elem_of_cons Hst.
        + exists x. split; [by left|done].
        + by apply (deleted_app_r _ _ [ev]), Hok. }
    destruct x as [u|e]; cbn -[wp prune_loop]; [by apply Hrest|].
    destruct (IsNotFound e) eqn:He; cbn -[wp prune_loop]; [by apply Hrest|].
    split; [by constructor|done].
Qed.

(** What pruning leaves behind. *)
Definition pruned (desired : list string) (h : history Call) : Prop :=
  ∃ routes, listed h routes ∧
    ∀ route, route ∈ routes → stale desired route → deleted KHTTPRoute (route_key route) h.

(** The routes deleted are stale ones. *)
Definition prunes_stale (desired : list string) (h : history Call) : Prop :=
  ∀ key x, Ev (Delete KHTTPRoute key) x ∈ h →
    ∃ routes route, listed h routes ∧ route ∈ routes ∧ key = route_key route ∧ stale desired route.

Lemma prune_spec desired :
  wp (pruneHTTPRoutes r frequi desired) [] (fun h res =>
    deletes_owned h ∧ prunes_stale desired h ∧ (res = Ok tt → GatewayAPIAvailable r = true → pruned desired h)).
Proof.
  unfold pruneHTTPRoutes. destruct (GatewayAPIAvailable r) eqn:Hg; cbn [negb].
  2: { split_and!; [by intros k key x Hin%elem_of_nil|by intros key x Hin%elem_of_nil|done]. }
  apply wp_bind_ok, wp_wrapping. intros x.
  set (ev := Ev (ListLabelled KHTTPRoute _ _) x).
  destruct x as [routes|e]; cbn -[wp prune_loop].
  2: { split_and!; [intros k key x Hin%list_elem_of_singleton; subst ev; ev_discr|
                    intros key x Hin%list_elem_of_singleton; subst ev; ev_discr|done]. }
  apply (wp_frame (prune_loop frequi desired routes) [ev]). eapply wp_mono; [|apply prune_loop_spec].
  intros h res [Hh Hok].
  assert (∀ k key x, Ev (Delete k key) x ∈ [ev] ++ h →
    k = KHTTPRoute ∧ ∃ route, route ∈ routes ∧ key = route_key route ∧ stale desired route) as Hdel.
  { intros k key x [Hin%list_elem_of_singleton|Hin]%elem_of_app; [subst ev; ev_discr|].
    rewrite Forall_forall in Hh. destruct (Hh _ Hin) as (rt & y & E & Hrt & Hst).
    apply Delete_inj in E as [-> ->]. split; [done|]. by exists rt. }
  assert (listed ([ev] ++ h) routes) as Hl by by left.
  split_and!.
  - intros k key x Hin. destruct (Hdel _ _ _ Hin) as (-> & rt & Hrt & -> & _ & Hc). left. split; [done|].
    by exists routes, rt.
  - intros key x Hin. destruct (Hdel _ _ _ Hin) as (_ & rt & Hrt & -> & Hst). by exists routes, rt.
  - intros Hres _. exists routes. split; [done|]. intros rt Hrt Hst. by apply deleted_app_r, Hok.
Qed.

(** The Ingress of the FreqUI's name is absent, somebody else's or deleted. *)
Definition ingress_gone (h : history Call) : Prop :=
  ∃ x, Ev (Get KIngress (fu_sibling frequi (Name (fu_Meta frequi)))) x ∈ h ∧
    match x with
    | Err e => IsNotFound e = true
    | Ok ingress => controlled_by frequi (ing_Meta ingress) = true →
                      deleted KIngress (ObjectKeyFromMeta (ing_Meta ingress)) h
    end.

Lemma delete_ingress_spec :
  wp (deleteOwnedIngress frequi) [] (fun h res => deletes_owned h ∧ (res = Ok tt → ingress_gone h)).
Proof.
  intros x. set (ev := Ev (Get _ _) x).
  assert (deletes_owned [ev]) as Hev by (intros k key y Hin%list_elem_of_singleton; subst ev; ev_discr).
  destruct x as [i|e]; cbn -[wp delete_ignoring_absence].
  2: { split; [done|]. intros He. exists (Err e). split; [by left|]. by destruct (IsNotFound e). }
  destruct (controlled_by frequi (ing_Meta i)) eqn:Hc; cbn -[wp].
  2: { split; [done|]. intros _. exists (Ok i). split; [by left|]. congruence. }
  intros x. cbn. split.
  - intros k key y [Hin|Hin%list_elem_of_singleton]%elem_of_cons; [subst ev; ev_discr|].
    apply Delete_inj in Hin as [-> ->]. right. split; [done|]. exists i. split_and!; [by left|done|done].
  - intros Hres. exists (Ok i). split; [by left|]. intros _. exists x. split; [by right; left|].
    destruct x as [u|e]; [done|]. cbn in Hres |- *. by destruct (IsNotFound e).
Qed.
End Pruning.

(** ** Exposure *)

Section Exposure.
Context `{KubeLib} `{GoLib} (r : FreqUI.Reconciler) (frequi : FreqUI).

Definition applied_route (h : history Call) (stored : HTTPRoute) : Prop :=
  ∃ o, Ev (Patch KHTTPRoute o) (Ok stored) ∈ h.

(** The names of the routes applied so far. *)
Definition applied_names (h : history Call) (name : string) : Prop :=
  ∃ stored, applied_route h stored ∧ Name (hr_Meta stored) = name.

Definition fresh_routes (routes : list HTTPRoute) : Prop :=
  Forall (fun route => OwnerReferences (hr_Meta route) = []) routes.

Lemma applied_route_app h h' stored : applied_route (h ++ h') stored ↔ applied_route h stored ∨ applied_route h' stored.
Proof.
  unfold applied_route. split.
  - intros [o [Hin|Hin]%elem_of_app]; eauto.
  - intros [[o Hin]|[o Hin]]; exists o; apply elem_of_app; auto.
Qed.

Lemma applied_route_nil stored : ¬ applied_route [] stored.
Proof. by intros [o Hin%elem_of_nil]. Qed.

(** The routes kept by the loop are those the server accepted. *)
Lemma apply_routes_spec routes applied conflicts :
  fresh_routes routes →
  wp (apply_routes frequi routes applied conflicts) [] (fun h res =>
    ∀ p, res = Ok p → ∀ stored, stored ∈ p.1 ↔ stored ∈ applied ∨ applied_route h stored).
Proof.
  revert applied conflicts. induction routes as [|route routes IH]; intros applied conflicts Hf.
  { intros p [= <-] stored. cbn. split; [auto|]. intros [?|Hn]; [done|]. by apply applied_route_nil in Hn. }
  inversion_clear Hf as [|? ? Hfresh Hrest]. cbn [apply_routes]. apply wp_bind.
  destruct (Apply_fresh (fu_owner frequi) KHTTPRoute route Hfresh) as (refs & _ & ->). intros x.
  set (ev := Ev (Patch KHTTPRoute _) x). cbn -[wp apply_routes].
  assert (∀ stored, applied_route [ev] stored ↔ x = Ok stored) as Hev.
  { intros stored. unfold applied_route. split.
    - intros [o Hin%list_elem_of_singleton]. subst ev. apply (Patch_answer_inj KHTTPRoute) in Hin as [_ Hin].
      by symmetry.
    - intros ->. eexists. by left. }
  destruct x as [stored|e]; cbn [wp].
  - apply (wp_frame (apply_routes _ _ _ _) [ev]). eapply wp_mono; [|by apply IH]. intros h res Hh p Hp rt.
    rewrite (Hh p Hp), applied_route_app, Hev, elem_of_app, list_elem_of_singleton.
    split; [intros [[?| ->]|?]|intros [?|[[= ->]|?]]]; auto.
  - destruct (IsAlreadyOwned e); [|by intros p [=]]. apply (wp_frame (apply_routes _ _ _ _) [ev]).
    eapply wp_mono; [|by apply IH]. intros h res Hh p Hp rt.
    rewrite (Hh p Hp), applied_route_app, Hev. split; [intros [?|?]|intros [?|[?|?]]]; auto; discriminate.
Qed.

Lemma built_fresh apiRoutes : fresh_routes (BuildFreqUIHTTPRoutes frequi apiRoutes).1.
Proof. constructor; [done|]. apply Forall_forall. by intros route (ar & <- & _)%list_elem_of_In%in_map_iff. Qed.

(** Exactly the routes of this pass are left of those the FreqUI owns. *)
Definition routes_exact (h : history Call) : Prop :=
  ∃ desired, (∀ name, name ∈ desired ↔ applied_names h name) ∧ pruned frequi desired h ∧ prunes_stale frequi desired h.

Definition no_patch (k : kind) {X} (c : Call X) : Prop := match c with Patch k' _ => k' ≠ k | _ => True end.

Definition never_applied (k : kind) (h : history Call) : Prop := ∀ o x, ¬ Ev (Patch k o) x ∈ h.

Lemma emits_never_applied {A} k (p : Op A) : emits (@no_patch k) p → wp p [] (fun h _ => never_applied k h).
Proof.
  intros Hp. eapply wp_mono; [|by apply emits_wp]. intros h a Hh o x Hin. rewrite Forall_forall in Hh.
  by apply Hh in Hin.
Qed.

Lemma applied_names_quiet h h' name :
  Forall (ev_sat (@no_patch KHTTPRoute)) h' → applied_names (h ++ h') name ↔ applied_names h name.
Proof.
  intros Hq. unfold applied_names. split; intros (stored & Ha & Hn); exists stored; (split; [|done]);
    [|apply applied_route_app; by left]. apply applied_route_app in Ha as [Ha|[o Ha]]; [done|].
  rewrite Forall_forall in Hq. by apply Hq in Ha.
Qed.

Lemma pruned_app_r desired h h' : pruned frequi desired h' → pruned frequi desired (h ++ h').
Proof.
  intros (routes & Hl & Hd). exists routes. split; [apply elem_of_app; by right|].
  intros route Hin Hst. by apply deleted_app_r, Hd.
Qed.

Lemma pruned_app_l desired h h' : pruned frequi desired h → pruned frequi desired (h ++ h').
Proof.
  intros (routes & Hl & Hd). exists routes. split; [apply elem_of_app; by left|].
  intros route Hin Hst. by apply deleted_app_l, Hd.
Qed.

Lemma prunes_stale_app desired h h' :
  prunes_stale frequi desired h → prunes_stale frequi desired h' → prunes_stale frequi desired (h ++ h').
Proof.
  intros H1 H2 key x [Hin|Hin]%elem_of_app; [destruct (H1 _ _ Hin) as (rs & rt & Hl & Hrest)|
    destruct (H2 _ _ Hin) as (rs & rt & Hl & Hrest)]; exists rs, rt; (split; [apply elem_of_app; auto|done]).
Qed.

Lemma prunes_stale_quiet desired h :
  Forall (ev_sat (fun _ c => match c with Delete k _ => k ≠ KHTTPRoute | _ => True end)) h → prunes_stale frequi desired h.
Proof. intros Hh key x Hin. rewrite Forall_forall in Hh. by apply Hh in Hin. Qed.

Lemma ingress_gone_app_r h h' : ingress_gone frequi h' → ingress_gone frequi (h ++ h').
Proof.
  intros (x & Hin & Hx). exists x. split; [apply elem_of_app; by right|]. destruct x; [|done].
  intros Hc. by apply deleted_app_r, Hx.
Qed.

(** Pruning and the end of the Ingress, from a history [h0] in which nothing
    was deleted. *)
Definition no_route_delete (h : history Call) : Prop :=
  Forall (ev_sat (fun _ c => match c with Delete k _ => k ≠ KHTTPRoute | _ => True end)) h.

Lemma routes_exact_intro h0 h1 h2 desired :
  (∀ name, name ∈ desired ↔ applied_names h0 name) → no_route_delete h0 → no_route_delete h2 →
  Forall (ev_sat (@no_patch KHTTPRoute)) h1 → Forall (ev_sat (@no_patch KHTTPRoute)) h2 →
  prunes_stale frequi desired h1 → pruned frequi desired h1 → routes_exact ((h0 ++ h1) ++ h2).
Proof.
  intros Hd Hn0 Hn2 Hp1 Hp2 Hs Hpr. exists desired. split_and!.
  - intros name. by rewrite !applied_names_quiet.
  - by apply pruned_app_l, pruned_app_r.
  - apply prunes_stale_app; [apply prunes_stale_app; [|done]|]; by apply prunes_stale_quiet.
Qed.

(** What the modes do before they report. *)
Definition exposure_post (h : history Call) (res : result (option Condition)) : Prop :=
  ∀ c, res = Ok (Some c) →
    match Exposure (fu_Spec frequi) with
    | FUExposureGateway =>
        GatewayAPIAvailable r = true → routes_exact h ∧ ingress_gone frequi h ∧ never_applied KIngress h
    | FUExposureNone =>
        (GatewayAPIAvailable r = true → routes_exact h) ∧ ingress_gone frequi h ∧
        never_applied KIngress h ∧ never_applied KHTTPRoute h
    | FUExposureIngress | FUExposureUnset =>
        cStatus c = ConditionTrue → (GatewayAPIAvailable r = true → routes_exact h) ∧
          never_applied KHTTPRoute h ∧ ∃ o stored, Ev (Patch KIngress o) (Ok stored) ∈ h
    end.
Definition no_patches (h : history Call) : Prop :=
  Forall (ev_sat (@no_patch KHTTPRoute)) h ∧ Forall (ev_sat (@no_patch KIngress)) h.

Lemma prune_facts desired :
  wp (pruneHTTPRoutes r frequi desired) [] (fun h res => no_patches h ∧
    prunes_stale frequi desired h ∧ (res = Ok tt → GatewayAPIAvailable r = true → pruned frequi desired h)).
Proof.
  eapply wp_mono; [|apply (wp_conj _ _ _ _ (prune_spec r frequi desired)
    (wp_conj _ _ _ _ (emits_wp _ _ (prune_emits r (@no_patch KHTTPRoute) frequi desired ltac:(done) ltac:(done)))
                     (emits_wp _ _ (prune_emits r (@no_patch KIngress) frequi desired ltac:(done) ltac:(done)))))]; [|done..].
  by intros h res [(_ & Hs & Hp) [H1 H2]].
Qed.

Lemma ingress_facts :
  wp (deleteOwnedIngress frequi) [] (fun h res => no_patches h ∧ no_route_delete h ∧
    (res = Ok tt → ingress_gone frequi h)).
Proof.
  eapply wp_mono; [|apply (wp_conj _ _ _ _ (delete_ingress_spec frequi)
    (wp_conj _ _ _ _ (emits_wp _ _ (ingress_emits (@no_patch KHTTPRoute) frequi ltac:(done) ltac:(done)))
      (wp_conj _ _ _ _ (emits_wp _ _ (ingress_emits (@no_patch KIngress) frequi ltac:(done) ltac:(done)))
         (emits_wp _ _ (ingress_emits (fun _ c => match c with Delete k _ => k ≠ KHTTPRoute | _ => True end) frequi ltac:(done) ltac:(done))))))];
    [|done..].
  by intros h res [[_ Hg] (H1 & H2 & H3)].
Qed.

Lemma never_of_quiet k h : Forall (ev_sat (@no_patch k)) h → never_applied k h.
Proof. intros Hh o x Hin. rewrite Forall_forall in Hh. by apply Hh in Hin. Qed.

(** Pruning, then the Ingress, after [h0]. *)
Lemma prune_then_ingress {A} desired h0 (a : A) :
  (∀ name, name ∈ desired ↔ applied_names h0 name) → no_route_delete h0 → Forall (ev_sat (@no_patch KIngress)) h0 →
  wp (_ <-? pruneHTTPRoutes r frequi desired; _ <-? deleteOwnedIngress frequi; mret (Ok a)) h0 (fun h res =>
    is_ok res = true → (GatewayAPIAvailable r = true → routes_exact h) ∧ ingress_gone frequi h ∧
      never_applied KIngress h ∧ (Forall (ev_sat (@no_patch KHTTPRoute)) h0 → never_applied KHTTPRoute h)).
Proof.
  intros Hd Hn0 Hi0. apply wp_bind_ok, wp_frame. eapply wp_mono; [|apply prune_facts].
  intros h1 [[]|e] ([Hr1 Hi1] & Hs & Hp); [|done]. apply wp_bind_ok, wp_frame. eapply wp_mono; [|apply ingress_facts].
  intros h2 [[]|e] ([Hr2 Hi2] & Hn2 & Hg); [|done]. intros _. split_and!.
  - intros Ha. eapply routes_exact_intro; eauto.
  - by apply ingress_gone_app_r, Hg.
  - apply never_of_quiet. by repeat apply Forall_app_2.
  - intros Hr0. apply never_of_quiet. by repeat apply Forall_app_2.
Qed.

Lemma no_names name : name ∈ [] ↔ applied_names [] name.
Proof. split; [by intros ?%elem_of_nil|]. by intros (st & Ha%applied_route_nil & _). Qed.

Lemma none_exposure :
  Exposure (fu_Spec frequi) = FUExposureNone →
  wp (reconcileNone r frequi) [] exposure_post.
Proof.
  intros He. eapply wp_mono; [|apply (prune_then_ingress []); [apply no_names|constructor..]].
  intros h' res' Hh c ->. rewrite He. destruct (Hh eq_refl) as (? & ? & ? & Hn). split_and!; [done..|by apply Hn].
Qed.

Lemma gateway_exposure apiRoutes :
  Exposure (fu_Spec frequi) = FUExposureGateway →
  wp (reconcileGateway r frequi apiRoutes) [] exposure_post.
Proof.
  intros He. unfold reconcileGateway, exposure_post. rewrite He.
  destruct (GatewayAPIAvailable r) eqn:Ha; cbn [negb]; [|by intros c _].
  apply wp_bind_ok. eapply wp_mono; [|apply (wp_conj _ _ _ _ (apply_routes_spec _ [] [] (built_fresh apiRoutes))
    (wp_conj _ _ _ _ (emits_wp _ _ (routes_emits (@no_patch KIngress) frequi _ [] [] (built_fresh apiRoutes) ltac:(done)))
       (emits_wp _ _ (routes_emits (fun _ c => match c with Delete k _ => k ≠ KHTTPRoute | _ => True end)
                        frequi _ [] [] (built_fresh apiRoutes) ltac:(done)))))]; [|done..].
  intros h0 [[applied conflicts]|e] (Hs & Hi & Hn); [|by intros c [=]].
  eapply wp_mono; [|apply prune_then_ingress; [|done..]].
  - intros h res Hh c -> _. destruct (Hh eq_refl) as (Hex & Hg & Hni & _). by split_and!; [apply Hex| |].
  - intros name. cbn. rewrite list_elem_of_fmap. unfold applied_names. specialize (Hs _ eq_refl). cbn in Hs.
    split.
    + intros (st & -> & Hin). exists st. split; [|done]. apply Hs in Hin as [Hin%elem_of_nil|Hin]; done.
    + intros (st & Hap & <-). exists st. split; [done|]. apply Hs. by right.
Qed.

Lemma ingress_exposure apiRoutes :
  Exposure (fu_Spec frequi) ≠ FUExposureGateway → Exposure (fu_Spec frequi) ≠ FUExposureNone →
  wp (reconcileIngress r frequi apiRoutes) [] exposure_post.
Proof.
  intros Hg Hn. unfold reconcileIngress.
  destruct (Apply_fresh (fu_owner frequi) KIngress (BuildFreqUIIngress frequi apiRoutes)) as (refs & _ & Hap).
  { unfold BuildFreqUIIngress. by destruct (fu_app_field _ _). }
  rewrite Hap. intros x. cbn [wp mbind prog_mbind prog_bind trigger]. set (ev := Ev (Patch KIngress _) x).
  assert (∀ h res, (∀ c, res = Ok (Some c) → cStatus c = ConditionTrue → (GatewayAPIAvailable r = true → routes_exact h) ∧
          never_applied KHTTPRoute h ∧ ∃ o stored, Ev (Patch KIngress o) (Ok stored) ∈ h) → exposure_post h res) as Hpost.
  { intros h res Hh c Hres. specialize (Hh c Hres). by destruct (Exposure (fu_Spec frequi)). }
  destruct x as [stored|e]; cbn [wp].
  2: { apply Hpost. intros c. destruct (IsAlreadyOwned e); by intros [= <-]. }
  apply wp_bind_ok, (wp_frame _ [ev]). eapply wp_mono; [|apply prune_facts].
  intros h1 [[]|e] ([Hr1 _] & Hs & Hp); cbn -[exposure_post]; apply Hpost; [|by intros c [=]]. intros c [= <-] _.
  assert (Forall (ev_sat (@no_patch KHTTPRoute)) [ev]) as Hev by (constructor; [done|constructor]).
  split_and!.
  - intros Ha. change (ev :: h1) with ([ev] ++ h1). rewrite <- (app_nil_r ([ev] ++ h1)).
    eapply (routes_exact_intro [ev] h1 []); try done.
    + intros name. etrans; [apply no_names|]. symmetry. exact (applied_names_quiet [] [ev] name Hev).
    + by constructor; [|constructor].
    + constructor.
    + by apply Hp.
  - apply never_of_quiet. by apply (Forall_app_2 _ [ev]).
  - eexists _, stored. by left.
Qed.

(** C11: whatever spec.exposure says now, nothing is left of what it said
    before: once the reconcile reports an exposure, the routes carrying the
    FreqUI's label and controller reference are exactly those applied by this
    pass (the others were deleted), the Ingress is gone in Gateway and None
    mode, no Ingress is applied in those modes and no route outside Gateway
    mode. *)
Theorem exposure_exclusive apiRoutes :
  wp (reconcileExposure r frequi apiRoutes) [] exposure_post.
Proof.
  unfold reconcileExposure. destruct (Exposure (fu_Spec frequi)) eqn:He.
  - apply ingress_exposure; by rewrite He.
  - apply ingress_exposure; by rewrite He.
  - by apply gateway_exposure.
  - by apply none_exposure.
Qed.
End Exposure.

(** ** The whole reconcile *)

Section Reconcile.
Context `{KubeLib} `{GoLib} (r : FreqUI.Reconciler) (frequi : FreqUI).

(** The objects of a FreqUI [n], by kind and name. *)
Definition frequi_object (n : string) (k : kind) (name : string) : Prop :=
  match k with
  | KDeployment | KService | KIngress => name = n
  | KHTTPRoute => name = n ∨ ∃ bot, name = n ^^ "-" ^^ bot
  | _ => False
  end.

(** A call the reconcile of [frequi] may make: it applies its own kinds, in
    its namespace and with it as controller, deletes only routes and
    Ingresses, and otherwise writes a FreqUI's status ([writes_own_status]
    says whose). *)
Definition frequi_call {X} (c : Call X) : Prop :=
  match c with
  | Patch k o => frequi_object (Name (fu_Meta frequi)) k (Name (obj_Meta k o)) ∧ Namespace (obj_Meta k o) = Namespace (fu_Meta frequi) ∧
      fu_owner frequi ∈ OwnerReferences (obj_Meta k o)
  | StatusUpdate k _ => k = KFreqUI
  | Delete k _ => k = KHTTPRoute ∨ k = KIngress
  | Create _ _ | Update _ _ | HttpDo _ | RandRead _ | GaugeSet _ _ _ | GaugeDelete _ _ => False
  | _ => True
  end.

Lemma owned_call k o :
  frequi_object (Name (fu_Meta frequi)) k (Name (obj_Meta k o)) →
  OwnerReferences (obj_Meta k o) = [] → Namespace (obj_Meta k o) = Namespace (fu_Meta frequi) →
  emits (@frequi_call) (Apply (fu_owner frequi) k o).
Proof.
  intros Hk Ho Hn. apply Apply_fresh_emits; [done|]. intros refs Hin. cbn -[frequi_object].
  by rewrite !obj_Meta_with.
Qed.

Lemma exposure_emits (P : ∀ X, Call X → Prop) apiRoutes :
  (∀ ns l, P _ (ListLabelled KHTTPRoute ns l)) → (∀ key, P _ (Delete KHTTPRoute key)) →
  (∀ key, P _ (Get KIngress key)) → (∀ key, P _ (Delete KIngress key)) →
  (∀ k o, k ∈ [KIngress; KHTTPRoute] → frequi_object (Name (fu_Meta frequi)) k (Name (obj_Meta k o)) →
     Namespace (obj_Meta k o) = Namespace (fu_Meta frequi) → fu_owner frequi ∈ OwnerReferences (obj_Meta k o) → P _ (Patch k o)) →
  emits P (reconcileExposure r frequi apiRoutes).
Proof.
  intros HL HD HG HDI HP.
  assert (∀ desired, emits P (pruneHTTPRoutes r frequi desired)) as Hp by (intros; by apply prune_emits).
  assert (emits P (deleteOwnedIngress frequi)) as Hi by (by apply ingress_emits).
  assert (emits P (reconcileIngress r frequi apiRoutes)) as Hing.
  { apply emits_bind.
    - assert (OwnerReferences (ing_Meta (BuildFreqUIIngress frequi apiRoutes)) = [] ∧
        Namespace (ing_Meta (BuildFreqUIIngress frequi apiRoutes)) = Namespace (fu_Meta frequi) ∧
        Name (ing_Meta (BuildFreqUIIngress frequi apiRoutes)) = Name (fu_Meta frequi)) as (Ho & Hn & Hm).
      { unfold BuildFreqUIIngress. by destruct (fu_app_field _ _). }
      apply Apply_fresh_emits; [exact Ho|]. intros refs Hin.
      apply HP; [set_solver|..]; cbn -[BuildFreqUIIngress]; rewrite ?obj_Meta_with; done.
    - intros [st|e]; [|done]. apply emits_bind_ok; [done|]. done. }
  unfold reconcileExposure. destruct (Exposure _); [exact Hing|exact Hing|..].
  - unfold reconcileGateway. case_match; [done|]. apply emits_bind_ok; [apply routes_emits; [apply built_fresh|]|].
    + intros route refs Hin Hrefs. apply HP; [set_solver|..]; [| |done].
      all: apply elem_of_cons in Hin as [->|(ar & <- & _)%list_elem_of_In%in_map_iff]; try done.
      1: by left. all: right; by exists (ar_Name ar).
    + intros p. apply emits_bind_ok; [done|]. intros ?. by apply emits_bind_ok.
  - apply emits_bind_ok; [done|]. intros ?. by apply emits_bind_ok.
Qed.

Lemma frequi_calls : emits (@frequi_call) (reconcileFreqUI r frequi).
Proof.
  assert (∀ msg d err, emits (@frequi_call) (FreqUI.failReconcile r frequi msg d err)) as Hfail.
  { intros. by apply fu_fail_emits. }
  apply emits_bind.
  - apply emits_bind_ok; [by apply emits_wrapping, owned_call|]. intros ?.
    apply emits_bind_ok.
    { apply emits_wrapping, owned_call; unfold BuildFreqUIService; by destruct (fu_app_field _ _). }
    intros ?. apply emits_bind_ok; [by apply resolve_emits|]. intros p.
    apply emits_bind_ok; [|done].
    apply exposure_emits; [done|by left|done|by right|]. by intros k o Hk ? ? ?.
  - intros [[refs cond]|e]; [|apply Hfail]. split; [done|]. intros [d|e]; [by apply reflect_emits|apply Hfail].
Qed.

(** What the FreqUI deletes it owns, through every part of the reconcile. *)
Lemma owned_preserved {A} (p : Op A) : wp p [] (fun h _ => deletes_owned frequi h) → preserves (deletes_owned frequi) p.
Proof.
  intros Hp h Hh. apply wp_frame. eapply wp_mono; [|exact Hp]. intros h1 a Hh1. by apply deletes_owned_app.
Qed.

Lemma quiet_owned {A} (p : Op A) : emits (@no_delete) p → preserves (deletes_owned frequi) p.
Proof.
  intros Hp. apply owned_preserved. eapply wp_mono; [|by apply emits_wp]. intros h a Hh k key x Hin.
  rewrite Forall_forall in Hh. by apply Hh in Hin.
Qed.

Lemma prune_owned desired : preserves (deletes_owned frequi) (pruneHTTPRoutes r frequi desired).
Proof. apply owned_preserved. eapply wp_mono; [|apply prune_spec]. by intros h res (Hd & _). Qed.

Lemma ingress_owned : preserves (deletes_owned frequi) (deleteOwnedIngress frequi).
Proof. apply owned_preserved. eapply wp_mono; [|apply delete_ingress_spec]. by intros h res (Hd & _). Qed.

Lemma exposure_owned apiRoutes : preserves (deletes_owned frequi) (reconcileExposure r frequi apiRoutes).
Proof.
  assert (preserves (deletes_owned frequi) (reconcileIngress r frequi apiRoutes)) as Hing.
  { apply preserves_bind; [by apply quiet_owned, Apply_emits|]. intros [st|e]; [|by apply quiet_owned].
    apply preserves_bind_ok; [apply prune_owned|]. intros ?. by apply quiet_owned. }
  unfold reconcileExposure. destruct (Exposure _); [exact Hing|exact Hing|..].
  - unfold reconcileGateway. case_match; [by apply quiet_owned|].
    apply preserves_bind_ok; [apply quiet_owned, routes_emits; [apply built_fresh|done]|]. intros p.
    apply preserves_bind_ok; [apply prune_owned|]. intros ?. apply preserves_bind_ok; [apply ingress_owned|].
    intros ?. by apply quiet_owned.
  - apply preserves_bind_ok; [apply prune_owned|]. intros ?. apply preserves_bind_ok; [apply ingress_owned|].
    intros ?. by apply quiet_owned.
Qed.

Lemma reconcile_owned : preserves (deletes_owned frequi) (reconcileFreqUI r frequi).
Proof.
  assert (∀ msg d err, preserves (deletes_owned frequi) (FreqUI.failReconcile r frequi msg d err)) as Hfail.
  { intros. apply quiet_owned. by apply fu_fail_emits. }
  apply preserves_bind.
  - apply preserves_bind_ok; [by apply quiet_owned, emits_wrapping, Apply_emits|]. intros ?.
    apply preserves_bind_ok; [by apply quiet_owned, emits_wrapping, Apply_emits|]. intros ?.
    apply preserves_bind_ok; [apply quiet_owned; by apply resolve_emits|]. intros p.
    apply preserves_bind_ok; [apply exposure_owned|]. intros ?. by apply quiet_owned.
  - intros [[refs cond]|e]; [|apply Hfail]. apply preserves_bind; [by apply quiet_owned|].
    intros [d|e]; [|apply Hfail]. apply quiet_owned. by apply reflect_emits.
Qed.

(** *** Its status, and no other *)

(** The status writes of a history: objects read under the FreqUI's own key,
    metadata and spec as read. *)
Definition writes_own_status (h : history Call) : Prop :=
  ∀ o x, Ev (StatusUpdate KFreqUI o) x ∈ h →
    ∃ o0, Ev (Get KFreqUI (fu_key frequi)) (Ok o0) ∈ h ∧ fu_Meta o = fu_Meta o0 ∧ fu_Spec o = fu_Spec o0.

Definition no_status {X} (c : Call X) : Prop := match c with StatusUpdate _ _ => False | _ => True end.

Lemma own_status_app h h' : writes_own_status h → writes_own_status h' → writes_own_status (h ++ h').
Proof.
  intros H1 H2 o x [Hin|Hin]%elem_of_app; [destruct (H1 _ _ Hin) as (o0 & Hg & Ho)|destruct (H2 _ _ Hin) as (o0 & Hg & Ho)];
    exists o0; (split; [apply elem_of_app; auto|done]).
Qed.

Lemma quiet_status {A} (p : Op A) : emits (@no_status) p → preserves writes_own_status p.
Proof.
  intros Hp h Hh. eapply wp_mono; [|by apply emits_wp_app]. intros h' a (h1 & -> & Hh1).
  apply own_status_app; [done|]. intros o x Hin. rewrite Forall_forall in Hh1. by apply Hh1 in Hin.
Qed.

Lemma patch_own_status f : preserves writes_own_status (patch_status KFreqUI frequi f).
Proof.
  intros h Hh. eapply wp_mono; [|apply (patch_status_spec KFreqUI frequi f h)]. intros h' p (h1 & -> & Hw & _).
  apply own_status_app; [done|]. intros o x Hin. destruct (Hw _ _ Hin) as (o0 & Hg & ->). by exists o0.
Qed.

Lemma all_no_status : emits (@no_status) (reconcileAllResources r frequi).
Proof.
  apply emits_bind_ok; [by apply emits_wrapping, Apply_emits|]. intros ?.
  apply emits_bind_ok; [by apply emits_wrapping, Apply_emits|]. intros ?.
  apply emits_bind_ok; [by apply resolve_emits|]. intros p. apply emits_bind_ok; [|done]. by apply exposure_emits.
Qed.

Lemma reconcile_own_status : preserves writes_own_status (reconcileFreqUI r frequi).
Proof.
  assert (∀ msg d err, preserves writes_own_status (FreqUI.failReconcile r frequi msg d err)) as Hfail.
  { intros msg d err. apply preserves_bind; [apply patch_own_status|]. intros [p [[]|e]]; [|by apply quiet_status].
    apply quiet_status. apply emits_bind; [unfold record_event; case_match; by repeat split|]. intros ?. by split. }
  apply preserves_bind; [by apply quiet_status, all_no_status|]. intros [[refs cond]|e]; [|apply Hfail].
  apply preserves_bind; [by apply quiet_status|]. intros [d|e]; [|apply Hfail].
  apply preserves_bind; [apply patch_own_status|]. intros [p [[]|e]]; [|by apply quiet_status].
  apply quiet_status. apply emits_bind; [unfold record_event; repeat case_match; by repeat split|done].
Qed.

(** C29: a FreqUI touches nothing that is not its own: every object it applies
    is a Deployment, Service, Ingress or HTTPRoute in its namespace with it
    as controller; every object it deletes is a route it listed under its
    label, or the Ingress of its name, whose controller reference carries its
    UID - a hand-made object with its label survives; and the only other
    writes are of the status of the FreqUI the API server holds under its own
    namespace and name, with metadata and spec as they were read there. *)
Theorem frequi_touches_own :
  wp (reconcileFreqUI r frequi) [] (fun h _ =>
    Forall (ev_sat (@frequi_call)) h ∧ deletes_owned frequi h ∧ writes_own_status h).
Proof.
  apply wp_conj; [apply emits_wp, frequi_calls|]. apply wp_conj.
  - apply reconcile_owned. by intros k key x Hin%elem_of_nil.
  - apply reconcile_own_status. by intros o x Hin%elem_of_nil.
Qed.
End Reconcile.

(** ** The status *)

Section Status.
Context `{KubeLib} `{GoLib} (r : FreqUI.Reconciler) (frequi : FreqUI).

(** The ExposureReady condition a pass arrives at, by mode. *)
Definition exposure_outcome (h : history Call) (c : Condition) : Prop :=
  cType c = ConditionExposureReady ∧
  match Exposure (fu_Spec frequi) with
  | FUExposureNone => cStatus c = ConditionTrue
  | FUExposureGateway =>
      if GatewayAPIAvailable r then
        (∃ routes, (∀ st, st ∈ routes ↔ applied_route h st) ∧ c = deriveGatewayExposureCondition routes) ∨
        (cStatus c = ConditionFalse ∧ cReason c = ReasonRouteNameConflict)
      else cStatus c = ConditionFalse ∧ cReason c = ReasonGatewayAPINotInstalled
  | FUExposureIngress | FUExposureUnset =>
      (cStatus c = ConditionTrue ∧ ∃ o stored, Ev (Patch KIngress o) (Ok stored) ∈ h) ∨
      (cStatus c = ConditionFalse ∧ cReason c = ReasonRouteNameConflict)
  end.

Lemma derived_type routes : cType (deriveGatewayExposureCondition routes) = ConditionExposureReady.
Proof. unfold deriveGatewayExposureCondition. by destruct (concat _). Qed.

Lemma derived_status routes :
  cStatus (deriveGatewayExposureCondition routes) = ConditionTrue ∨
  cStatus (deriveGatewayExposureCondition routes) = ConditionFalse.
Proof. unfold deriveGatewayExposureCondition. destruct (concat _); [by left|by right]. Qed.

Lemma outcome_status h c : exposure_outcome h c → cStatus c = ConditionTrue ∨ cStatus c = ConditionFalse.
Proof.
  intros [_ Ho]. destruct (Exposure _); try (destruct Ho as [[? _]|[? _]]; by auto); [|by left].
  destruct (GatewayAPIAvailable r); [|destruct Ho; by right].
  destruct Ho as [(routes & _ & ->)|[? _]]; [apply derived_status|by right].
Qed.

(** Calls that leave the outcome as it is. *)
Definition exposes_nothing {X} (c : Call X) : Prop := match c with Patch k _ => k ≠ KHTTPRoute | _ => True end.

Lemma applied_route_quiet h h' st : Forall (ev_sat (@exposes_nothing)) h' → applied_route (h ++ h') st ↔ applied_route h st.
Proof.
  intros Hq. rewrite applied_route_app. split; [|by left]. intros [?|[o Hin]]; [done|].
  rewrite Forall_forall in Hq. by apply Hq in Hin.
Qed.

Lemma applied_route_before h h' st : Forall (ev_sat (@exposes_nothing)) h → applied_route (h ++ h') st ↔ applied_route h' st.
Proof.
  intros Hq. rewrite applied_route_app. split; [|by right]. intros [[o Hin]|?]; [|done].
  rewrite Forall_forall in Hq. by apply Hq in Hin.
Qed.

Lemma outcome_app h0 h h' c :
  Forall (ev_sat (@exposes_nothing)) h0 → Forall (ev_sat (@exposes_nothing)) h' →
  exposure_outcome h c → exposure_outcome (h0 ++ (h ++ h')) c.
Proof.
  intros Hbefore Hafter [Ht Ho]. split; [done|]. destruct (Exposure _).
  1,2: destruct Ho as [[? (o & st & Hin)]|?]; [left|by right]; (split; [done|]); exists o, st; set_solver.
  - destruct (GatewayAPIAvailable r); [|done]. destruct Ho as [(routes & Hr & ->)|?]; [left|by right].
    exists routes. split; [|done]. intros st. by rewrite Hr, applied_route_before, applied_route_quiet.
  - done.
Qed.

Lemma prune_quiet desired : emits (@exposes_nothing) (pruneHTTPRoutes r frequi desired).
Proof. by apply prune_emits. Qed.

(** A quiet tail that ends in [a]. *)
Lemma quiet_tail {A B} (p : Op (result B)) (a : A) h :
  emits (@exposes_nothing) p →
  wp (_ <-? p; mret (Ok a)) h (fun h' res => ∃ h1, h' = h ++ h1 ∧ Forall (ev_sat (@exposes_nothing)) h1 ∧
    ∀ b, res = Ok b → b = a).
Proof.
  intros Hp. apply wp_bind_ok. eapply wp_mono; [|by apply emits_wp_app].
  intros h' [b|e] (h1 & -> & Hh1); exists h1; split_and!; try done. by intros ? [= <-].
Qed.

Definition prune_and_ingress (desired : list string) : Op (result unit) :=
  _ <-? pruneHTTPRoutes r frequi desired; deleteOwnedIngress frequi.

Lemma prune_and_ingress_eq {A} desired (a : A) h Q :
  wp (_ <-? prune_and_ingress desired; mret (Ok a)) h Q →
  wp (_ <-? pruneHTTPRoutes r frequi desired; _ <-? deleteOwnedIngress frequi; mret (Ok a)) h Q.
Proof.
  intros Hw. apply wp_bind_ok. unfold prune_and_ingress in Hw. do 2 apply (proj1 (wp_bind_ok _ _ _ _)) in Hw.
  eapply wp_mono; [|exact Hw].
  intros h' [u|e] Hh; [|exact Hh]. by apply wp_bind_ok.
Qed.

Lemma prune_and_ingress_quiet desired : emits (@exposes_nothing) (prune_and_ingress desired).
Proof. apply emits_bind_ok; [apply prune_quiet|]. intros ?. by apply ingress_emits. Qed.

Lemma gateway_outcome apiRoutes :
  Exposure (fu_Spec frequi) = FUExposureGateway →
  wp (reconcileGateway r frequi apiRoutes) [] (fun h res => ∀ oc, res = Ok oc → ∃ c, oc = Some c ∧ exposure_outcome h c).
Proof.
  intros He. unfold reconcileGateway, exposure_outcome. rewrite He.
  destruct (GatewayAPIAvailable r) eqn:Ha; cbn [negb]; [|intros oc [= <-]; by eexists].
  apply wp_bind_ok. eapply wp_mono; [|apply (apply_routes_spec _ _ [] [] (built_fresh frequi apiRoutes))].
  intros h0 [[applied conflicts]|e] Hs; [|by intros oc [=]]. specialize (Hs _ eq_refl).
  apply prune_and_ingress_eq. eapply wp_mono; [|apply quiet_tail, prune_and_ingress_quiet].
  intros h res (h1 & -> & Hq & Hres) oc Hoc. rewrite (Hres _ Hoc). cbn -[deriveGatewayExposureCondition BuildFreqUIHTTPRoutes].
  assert (∀ st, st ∈ applied ↔ applied_route (h0 ++ h1) st) as Hst.
  { intros st. rewrite applied_route_quiet by done. rewrite (Hs st). cbn. split; [|by right].
    intros [Hin%elem_of_nil|?]; done. }
  destruct conflicts; [destruct (BuildFreqUIHTTPRoutes frequi apiRoutes).2|]; eexists; (split; [done|]).
  - split; [apply derived_type|]. left. by exists applied.
  - split; [done|]. by right.
  - split; [done|]. by right.
Qed.

Lemma ingress_outcome apiRoutes :
  Exposure (fu_Spec frequi) ≠ FUExposureGateway → Exposure (fu_Spec frequi) ≠ FUExposureNone →
  wp (reconcileIngress r frequi apiRoutes) [] (fun h res => ∀ oc, res = Ok oc → ∃ c, oc = Some c ∧ exposure_outcome h c).
Proof.
  intros Hg Hn. unfold reconcileIngress.
  destruct (Apply_fresh (fu_owner frequi) KIngress (BuildFreqUIIngress frequi apiRoutes)) as (refs & _ & Hap).
  { unfold BuildFreqUIIngress. by destruct (fu_app_field _ _). }
  rewrite Hap. intros x. cbn [wp mbind prog_mbind prog_bind trigger]. set (ev := Ev (Patch KIngress _) x).
  assert (∀ h c, cType c = ConditionExposureReady →
    (cStatus c = ConditionTrue ∧ ∃ o stored, Ev (Patch KIngress o) (Ok stored) ∈ h) ∨
    (cStatus c = ConditionFalse ∧ cReason c = ReasonRouteNameConflict) → exposure_outcome h c) as Hout.
  { intros h c Ht Ho. split; [done|]. by destruct (Exposure (fu_Spec frequi)). }
  destruct x as [stored|e]; cbn [wp].
  - eapply wp_mono; [|apply (quiet_tail _ _ [ev]), prune_quiet]. intros h res (h1 & -> & _ & Hres) oc Hoc.
    rewrite (Hres _ Hoc). eexists; split; [done|]. apply Hout; [done|]. left. split; [done|]. eexists _, stored. by left.
  - destruct (IsAlreadyOwned e); intros oc; [|by intros [=]]. intros [= <-]. eexists; split; [done|].
    apply Hout; [done|]. by right.
Qed.

Lemma exposure_outcome_spec apiRoutes :
  wp (reconcileExposure r frequi apiRoutes) [] (fun h res => ∀ oc, res = Ok oc → ∃ c, oc = Some c ∧ exposure_outcome h c).
Proof.
  unfold reconcileExposure. destruct (Exposure (fu_Spec frequi)) eqn:He.
  - apply ingress_outcome; by rewrite He.
  - apply ingress_outcome; by rewrite He.
  - by apply gateway_outcome.
  - apply prune_and_ingress_eq. eapply wp_mono; [|apply (quiet_tail _ _ []), prune_and_ingress_quiet].
    intros h res (h1 & -> & _ & Hres) oc Hoc. rewrite (Hres _ Hoc). eexists. split; [done|]. split; [done|]. by rewrite He.
Qed.
(** A bot asked for and not found. *)
Definition bot_missing (h : history Call) (name : string) : Prop :=
  ∃ e, Ev (Get KTradeBot (fu_sibling frequi name)) (Err e) ∈ h ∧ IsNotFound e = true.

Lemma bot_missing_app h h' name : bot_missing (h ++ h') name ↔ bot_missing h name ∨ bot_missing h' name.
Proof.
  split.
  - intros (e & [Hin|Hin]%elem_of_app & He); [left|right]; by exists e.
  - intros [(e & Hin & He)|(e & Hin & He)]; exists e; (split; [apply elem_of_app; auto|done]).
Qed.

Lemma bot_missing_nil name : ¬ bot_missing [] name.
Proof. by intros (e & Hin%elem_of_nil & _). Qed.

(** The answer decides for the one reference asked about. *)
Lemma bot_missing_one name name' x :
  bot_missing [Ev (Get KTradeBot (fu_sibling frequi name)) x] name' ↔
  name' = name ∧ ∃ e, x = Err e ∧ IsNotFound e = true.
Proof.
  split.
  - intros (e & Hin%list_elem_of_singleton & He). apply (ev_get_inj KTradeBot) in Hin as [Hk Hx].
    injection Hk as ->. split; [done|]. by exists e.
  - intros (-> & e & -> & He). exists e. split; [by left|done].
Qed.

Lemma config_not_missing name key x : ¬ bot_missing [Ev (Get KTradeBotConfig key) x] name.
Proof. intros (e & Hin%list_elem_of_singleton & He). by apply (f_equal ev_get) in Hin. Qed.

Lemma resolve_refs_spec refs routes unresolved :
  wp (resolve_refs frequi refs routes unresolved) [] (fun h res =>
    Forall (ev_sat (fun _ c => match c with Get _ _ => True | _ => False end)) h ∧
    ∀ p, res = Ok p → ∀ name, name ∈ p.2 ↔ name ∈ unresolved ∨ bot_missing h name).
Proof.
  revert routes unresolved. induction refs as [|ref refs IH]; intros routes unresolved.
  { split; [constructor|]. intros p [= <-] name. cbn. split; [auto|]. intros [?|Hn]; [done|].
    by apply bot_missing_nil in Hn. }
  assert (∀ h0 routes unresolved', Forall (ev_sat (fun _ c => match c with Get _ _ => True | _ => False end)) h0 →
    (∀ name, name ∈ unresolved' ↔ name ∈ unresolved ∨ bot_missing h0 name) →
    wp (resolve_refs frequi refs routes unresolved') h0 (fun h res =>
      Forall (ev_sat (fun _ c => match c with Get _ _ => True | _ => False end)) h ∧
      ∀ p, res = Ok p → ∀ name, name ∈ p.2 ↔ name ∈ unresolved ∨ bot_missing h name)) as Hrest.
  { intros h0 routes' unresolved' Hg Hu. apply wp_frame. eapply wp_mono; [|apply IH]. intros h res [Hh Hp].
    split; [by apply Forall_app|]. intros p Hres name. rewrite (Hp p Hres), Hu, bot_missing_app. tauto. }
  cbn [resolve_refs]. intros x. cbn [wp mbind prog_mbind prog_bind trigger].
  destruct x as [bot|e].
  - intros y. cbn [app].
    assert (∀ name, name ∈ unresolved ↔ name ∈ unresolved ∨ bot_missing
        ([Ev (Get KTradeBot (fu_sibling frequi (lor_Name ref))) (Ok bot)] ++
         [Ev (Get KTradeBotConfig (fu_sibling frequi (V1alpha1.Config (V1alpha1.Spec bot)))) y]) name) as Hu.
    { intros name. rewrite bot_missing_app. split; [auto|]. intros [?|[Hm|Hn]]; [done| |].
      - by apply bot_missing_one in Hm as (_ & e & [=] & _).
      - by apply config_not_missing in Hn. }
    destruct y as [cfg|e]; cbn [wp]; apply Hrest; (done || by repeat constructor).
  - cbn [wp]. destruct (IsNotFound e) eqn:He.
    + apply Hrest; [by repeat constructor|]. intros name. rewrite elem_of_app, list_elem_of_singleton. split.
      * intros [?|?]; [by left|right]. apply bot_missing_one. split; [done|by exists e].
      * intros [?|Hm]; [by left|right]. by apply bot_missing_one in Hm as [? _].
    + split; [by repeat constructor|]. by intros p [=].
Qed.
(** What a status mutation makes of any status: Ready exactly if the
    Deployment is ready and the exposure is, the phase and the URL to match,
    and the references without a bot named. *)
Definition reflects (d : Deployment) (c : Condition) (unresolved : list string) (f : FreqUIStatus → FreqUIStatus) : Prop :=
  ∀ s, IsStatusConditionTrue (fst_Conditions (f s)) ConditionReady =
         isDeploymentReady d && bool_decide (cStatus c = ConditionTrue) ∧
       fst_Phase (f s) = (if isDeploymentReady d
                          then if bool_decide (cStatus c = ConditionTrue) then "Running" else "Degraded"
                          else "Pending") ∧
       fst_URL (f s) = (if isDeploymentReady d then deriveFreqUIURL frequi else "") ∧
       IsStatusConditionTrue (fst_Conditions (f s)) ConditionTradeBotRefsResolved = bool_decide (unresolved = []).

Lemma success_reflects d c refs :
  cType c = ConditionExposureReady → cStatus c = ConditionTrue ∨ cStatus c = ConditionFalse →
  reflects d c refs (FreqUI.success_status (isDeploymentReady d) (ready_message d)
                       (if isDeploymentReady d then deriveFreqUIURL frequi else "") refs (Some c)).
Proof.
  intros Ht Hs s. destruct c as [ty st reason msg gen]. cbn in Ht, Hs. subst ty.
  unfold FreqUI.success_status, summarize, set_fu_condition. cbn [fst_Conditions fst_Phase fst_URL].
  set (exposure := {| cType := ConditionExposureReady |}).
  set (cs := fst_Conditions s). generalize (ready_message d) as m. intros m.
  set (refsCond := tradeBotRefsResolvedCondition refs).
  assert (cType refsCond = ConditionTradeBotRefsResolved) as Hr by (by destruct refs).
  assert (cStatus refsCond = if bool_decide (refs = []) then ConditionTrue else ConditionFalse) as Hrs by (by destruct refs).
  set (wl := workload_condition (isDeploymentReady d) m).
  assert (cType wl = ConditionWorkloadReady) as Hw by (unfold wl, workload_condition; by destruct (isDeploymentReady d)).
  set (cs' := SetStatusCondition (SetStatusCondition (SetStatusCondition cs wl) refsCond) exposure).
  assert (FindStatusCondition cs' ConditionExposureReady = Some exposure) as Fe by apply (find_set_eq _ exposure).
  assert (FindStatusCondition cs' ConditionWorkloadReady = Some wl) as Fw.
  { unfold cs'. rewrite find_set_ne by done. rewrite find_set_ne by by rewrite Hr. rewrite <- Hw. apply find_set_eq. }
  assert (FindStatusCondition cs' ConditionTradeBotRefsResolved = Some refsCond) as Fr.
  { unfold cs'. rewrite find_set_ne by done. rewrite <- Hr. apply find_set_eq. }
  set (agg := aggregateReadyCondition cs' m).
  assert (cType agg = ConditionReady ∧
    cStatus agg = if isDeploymentReady d && bool_decide (st = ConditionTrue) then ConditionTrue else ConditionFalse)
    as [Ha Has].
  { unfold agg, aggregateReadyCondition, IsStatusConditionTrue. rewrite Fe, Fw.
    unfold wl, workload_condition. destruct (isDeploymentReady d), Hs as [-> | ->]; done. }
  assert (∀ ty, ty ≠ ConditionReady → FindStatusCondition (SetStatusCondition cs' agg) ty = FindStatusCondition cs' ty) as Fo.
  { intros ty Hne. apply find_set_ne. by rewrite Ha. }
  split_and!.
  - unfold IsStatusConditionTrue. rewrite <- Ha, find_set_eq, Has.
    destruct (isDeploymentReady d), Hs as [-> | ->]; reflexivity.
  - unfold deriveFreqUIPhase, IsStatusConditionFalse. rewrite !Fo, Fw, Fe by done.
    unfold wl, workload_condition. destruct (isDeploymentReady d), Hs as [-> | ->]; reflexivity.
  - done.
  - unfold IsStatusConditionTrue. rewrite Fo, Fr, Hrs by done. by destruct (bool_decide (refs = [])).
Qed.

(** Asks for no bot, and applies no route. *)
Definition asks_no_bot {X} (c : Call X) : Prop := match c with Get k _ => k ≠ KTradeBot | _ => True end.
Definition aside {X} (c : Call X) : Prop := exposes_nothing c ∧ asks_no_bot c.

Lemma bot_missing_quiet h name : Forall (ev_sat (@asks_no_bot)) h → ¬ bot_missing h name.
Proof. intros Hh (e & Hin & _). rewrite Forall_forall in Hh. by apply Hh in Hin. Qed.

Lemma all_resources_spec :
  wp (reconcileAllResources r frequi) [] (fun h res => ∀ p, res = Ok p →
    ∃ c, p.2 = Some c ∧ exposure_outcome h c ∧ ∀ name, name ∈ p.1 ↔ bot_missing h name).
Proof.
  assert (∀ what k o, k ≠ KHTTPRoute → emits (@aside) (wrapping what (Apply (fu_owner frequi) k o))) as Hap.
  { intros. apply emits_wrapping, Apply_emits. intros m. by split. }
  apply wp_bind_ok. eapply wp_mono; [|by apply emits_wp_app, Hap]. intros h1 [?|e] (h1' & -> & Hh1); [|by intros p [=]].
  apply wp_bind_ok. eapply wp_mono; [|by apply emits_wp_app, Hap]. intros h2 [?|e] (h2' & -> & Hh2); [|by intros p [=]].
  assert (Forall (ev_sat (@aside)) (([] ++ h1') ++ h2')) as Hh0 by (by apply Forall_app).
  generalize (([] ++ h1') ++ h2') Hh0. clear h1' h2' Hh1 Hh2 Hh0. intros h0 Hh0.
  apply wp_bind_ok, wp_frame. eapply wp_mono; [|apply resolve_refs_spec]. intros hr [[routes refs]|e] [Hget Hrefs]; [|by intros p [=]].
  specialize (Hrefs _ eq_refl). cbn in Hrefs.
  apply wp_bind_ok, wp_frame. eapply wp_mono; [|apply (wp_conj _ _ _ _ (exposure_outcome_spec routes)
    (emits_wp (@asks_no_bot) _ (exposure_emits r frequi (@asks_no_bot) routes ltac:(done) ltac:(done) ltac:(done)
       ltac:(done) ltac:(done))))].
  intros he [oc|e] [Ho Hq]; [|by intros p [=]]. intros p [= <-]. destruct (Ho _ eq_refl) as (c & -> & Hc).
  exists c. split; [done|]. split.
  - rewrite <- (app_nil_r he). apply outcome_app; [|constructor|done]. apply Forall_app; split.
    + eapply Forall_impl; [exact Hh0|]. by intros [X call x] [? _].
    + eapply Forall_impl; [exact Hget|]. intros [X call x] Hg. by destruct call.
  - intros name. cbn. rewrite (Hrefs name), !bot_missing_app. split.
    + intros [Hin%elem_of_nil|?]; [done|]. left; by right.
    + intros [[Hb|Hb]|Hb]; [|by right|]; exfalso; revert Hb; apply bot_missing_quiet; [|done].
      eapply Forall_impl; [exact Hh0|]. by intros [X call x] [_ ?].
Qed.

(** C36: status reflects the cluster: when a reconcile succeeds, what is
    recorded in the FreqUI's status was computed from the Deployment it read
    and the exposure it arrived at - Ready exactly if both are up, "Running",
    "Degraded" or "Pending" to match, a URL only for a ready Deployment - and
    TradeBotRefsResolved is true exactly if every reference named a bot. *)
Theorem frequi_status_reflects :
  wp (reconcileFreqUI r frequi) [] (fun h res => res.2 = None → ∃ d c refs f,
    Ev (Get KDeployment (fu_sibling frequi (Name (fu_Meta frequi)))) (Ok d) ∈ h ∧
    exposure_outcome h c ∧ (∀ name, name ∈ refs ↔ bot_missing h name) ∧
    recorded KFreqUI f (fu_key frequi) h ∧ reflects d c refs f).
Proof.
  assert (∀ msg d err h Q, wp (FreqUI.failReconcile r frequi msg d err) h (fun h' res => res.2 = None → Q h')) as Hfail.
  { intros msg d err h Q. apply wp_bind. eapply wp_mono; [|apply (wp_extends _ _)]. intros h' [f' [u|e]] _; [|by intros [=]].
    apply wp_bind. eapply wp_mono; [|apply (wp_extends _ _)]. intros h2 ? _ ?. by intros [=]. }
  apply wp_bind. eapply wp_mono; [|apply all_resources_spec]. intros h0 [[refs oc]|e] Hres; [|apply Hfail].
  destruct (Hres _ eq_refl) as (c & E & Hc & Hrefs). cbn in E, Hrefs. subst oc. intros x.
  set (ev := Ev (Get KDeployment _) x). destruct x as [d|e]; [|apply Hfail].
  apply wp_bind, wp_frame. eapply wp_mono; [|apply (wp_conj _ _ _ _ (patch_status_spec KFreqUI frequi _ [])
    (emits_wp (@aside) _ (patch_status_emits KFreqUI (@aside) frequi _ ltac:(by split) ltac:(by split))))].
  intros h1 [f' [[]|e]] [(h1' & E & _ & Hrec) Hq1]; [|by intros [=]]. cbn in E. subst h1'. specialize (Hrec eq_refl).
  apply wp_bind. eapply wp_mono; [|apply (emits_wp_app (@aside)); unfold record_event; repeat case_match; by repeat split].
  intros h ? (h2 & -> & Hq2) _. exists d, c, refs. eexists.
  assert (Forall (ev_sat (@aside)) ([ev] ++ h1 ++ h2)) as Hq.
  { apply Forall_app; split; [|by apply Forall_app]. by repeat constructor. }
  rewrite <- !app_assoc. split_and!.
  - apply elem_of_app; right. by left.
  - apply (outcome_app []); [constructor| |done]. eapply Forall_impl; [exact Hq|]. by intros [X call x] [? _].
  - intros name. rewrite bot_missing_app, Hrefs. split; [auto|]. intros [?|Hb]; [done|]. exfalso. revert Hb.
    apply bot_missing_quiet. eapply Forall_impl; [exact Hq|]. by intros [X call x] [_ ?].
  - apply recorded_app, recorded_app, recorded_app_l, Hrec.
  - apply success_reflects; [by destruct Hc|by eapply outcome_status].
Qed.
End Status.

(** ** Pure parts *)

Section Pure.
Context `{KubeLib} `{GoLib}.

(** A Gateway serves the route: Accepted and ResolvedRefs are both True. *)
Definition accepts (parent : RouteParentStatus) : bool :=
  condition_true (FindStatusCondition (rps_Conditions parent) "Accepted")
  && condition_true (FindStatusCondition (rps_Conditions parent) "ResolvedRefs").

Definition served (route : HTTPRoute) : bool := existsb accepts (hr_Status_Parents route).
Definition unclaimed (route : HTTPRoute) : bool := match hr_Status_Parents route with [] => true | _ => false end.

Lemma scan_accepts parents reason : (scan_parents parents reason).1 = existsb accepts parents.
Proof.
  revert reason. induction parents as [|p parents IH]; intros reason; [done|]. cbn. unfold accepts at 1.
  destruct (condition_true _ && condition_true _); [done|apply IH].
Qed.

Lemma route_failures_served route : route_failures route = [] ↔ served route = true.
Proof.
  unfold route_failures, served. destruct (hr_Status_Parents route) as [|p ps] eqn:E; [done|].
  rewrite scan_accepts. by destruct (existsb _ _).
Qed.

Lemma route_failures_pending route : existsb rf_pending (route_failures route) = unclaimed route.
Proof.
  unfold route_failures, unclaimed. destruct (hr_Status_Parents route); [done|]. by destruct (scan_parents _ _).1.
Qed.

Lemma concat_nil_forall {A} (l : list (list A)) : concat l = [] ↔ ∀ x, x ∈ l → x = [].
Proof.
  induction l as [|x l IH]; [split; [by intros _ x ?%elem_of_nil|done]|]. cbn. split.
  - intros [-> Hl]%app_eq_nil y [->|Hy]%elem_of_cons; [done|]. by apply IH.
  - intros Hall. rewrite (Hall x) by by left. apply IH. intros y Hy. apply Hall. by right.
Qed.

Lemma routes_pending routes : existsb rf_pending (concat (map route_failures routes)) = existsb unclaimed routes.
Proof. induction routes as [|route routes IH]; [done|]. cbn. by rewrite existsb_app, route_failures_pending, IH. Qed.

(** ExposureReady in Gateway mode is the routes' own verdict: True exactly
    if every route is accepted, with its references resolved, by one of its
    parents; pending exactly if some route has not been claimed by any
    Gateway controller; not accepted otherwise. *)
Theorem gateway_verdict routes :
  let c := deriveGatewayExposureCondition routes in
  (cStatus c = ConditionTrue ↔ ∀ route, route ∈ routes → served route = true) ∧
  (cReason c = ReasonRoutePending ↔ ∃ route, route ∈ routes ∧ unclaimed route = true) ∧
  (cReason c = ReasonRouteNotAccepted ↔
     (∃ route, route ∈ routes ∧ served route = false) ∧ ∀ route, route ∈ routes → unclaimed route = false).
Proof.
  assert (concat (map route_failures routes) = [] ↔ forallb served routes = true) as Hnil.
  { rewrite concat_nil_forall, forallb_iff. split.
    - intros Hall route Hin. apply route_failures_served, Hall, list_elem_of_fmap. eauto.
    - intros Hall fs (route & -> & Hin)%list_elem_of_fmap. by apply route_failures_served, Hall. }
  cbv zeta. rewrite <- (forallb_iff served routes), <- (forallb_false_iff served routes), <- (existsb_iff unclaimed routes),
    <- (existsb_false_iff unclaimed routes).
  assert (forallb served routes = true → existsb unclaimed routes = false) as Hun.
  { rewrite forallb_iff, existsb_false_iff. intros Hall route Hin. specialize (Hall route Hin).
    unfold served, unclaimed in *. by destruct (hr_Status_Parents route). }
  unfold deriveGatewayExposureCondition. rewrite routes_pending.
  destruct (concat (map route_failures routes)) as [|f fs].
  - specialize (proj1 Hnil eq_refl) as E. rewrite (Hun E), E. cbn. split_and!; naive_solver.
  - destruct (forallb served routes); [discriminate (proj2 Hnil eq_refl)|].
    destruct (existsb unclaimed routes); cbn; split_and!; naive_solver.
Qed.
(** *** The hosts served in both modes *)

(** Who answers for a host and a path: (host, path, backend). *)
Definition route_entry : Type := string * string * IngressBackend.

Definition rule_entries (rule : IngressRule) : list route_entry :=
  map (fun p => (ir_Host rule, hip_Path p, hip_Backend p)) (ir_Paths rule).

Definition ingress_table (ingress : Ingress) : list route_entry := concat (map rule_entries (ing_Rules ingress)).

Definition route_entries (route : HTTPRoute) : list route_entry :=
  concat (map (fun host => map (fun rule => (host, hrr_PathValue rule, BackendService (hrr_BackendName rule) (hrr_BackendPort rule)))
                             (hr_Rules route)) (hr_Hostnames route)).

Definition route_table (routes : list HTTPRoute) : list route_entry := concat (map route_entries routes).

Lemma filter_negb_nil {A} (f : A → bool) l : List.filter (fun x => negb (f x)) l = [] → List.filter f l = l.
Proof. induction l as [|x l IH]; [done|]. cbn. destruct (f x); cbn; [|done]. intros ?. by rewrite IH. Qed.

(** The two exposures route alike: as long as neither the Ingress rules
    nor the gateway's hostnames are overridden and no route is skipped for its
    length, each host of the FreqUI - its own and one per bot - is served by
    the same service on the same port under spec.exposure Ingress and
    Gateway. *)
Theorem exposures_route_alike frequi apiRoutes :
  from_option fi_Rules [] (fu_app_field fa_IngressSpec frequi) = [] →
  from_option fg_Hostnames [] (Gateway (fu_Spec frequi)) = [] →
  (BuildFreqUIHTTPRoutes frequi apiRoutes).2 = [] →
  ingress_table (BuildFreqUIIngress frequi apiRoutes) = route_table (BuildFreqUIHTTPRoutes frequi apiRoutes).1.
Proof.
  intros Hr Hg Hskip%map_eq_nil%filter_negb_nil.
  assert (ing_Rules (BuildFreqUIIngress frequi apiRoutes) = ingress_rules frequi apiRoutes) as Hrules.
  { unfold BuildFreqUIIngress. destruct (fu_app_field fa_IngressSpec frequi) as [u|]; [|done].
    cbn in Hr |- *. by rewrite Hr. }
  unfold ingress_table, route_table. rewrite Hrules. unfold BuildFreqUIHTTPRoutes, ingress_rules. cbn [fst map concat].
  rewrite Hskip, !map_map. f_equal. unfold ui_hostnames. by rewrite Hg.
Qed.

(** *** The URL and the allowed origins *)

(** The host names its scheme: a URL, or localhost. *)
Definition scheme_known (host : string) : bool := nonempty (InferHostScheme host "").1.

Lemma infer_cases host :
  (scheme_known host = true ∧ ∀ d, InferHostScheme host d = InferHostScheme host "") ∨
  (scheme_known host = false ∧ ∀ d, InferHostScheme host d = (d, host)).
Proof.
  unfold scheme_known, InferHostScheme. destruct (HasPrefix host "http://") eqn:E1; cbn [orb].
  - destruct (url_Parse host) as [[sch h]|] eqn:Eu; [|by right].
    destruct (nonempty h); [|by right]. left. by rewrite (url_Parse_http _ _ _ E1 Eu).
  - destruct (HasPrefix host "https://") eqn:E2.
    + destruct (url_Parse host) as [[sch h]|] eqn:Eu; [|by right].
      destruct (nonempty h); [|by right]. left. by rewrite (url_Parse_https _ _ _ E2 Eu).
    + destruct (HasPrefix host "localhost"); [by left|by right].
Qed.

(** The origin a FreqUI advertises and the one its bots allow: with a
    host, the URL of the status is among the CORS origins the operator
    configures in the bots exactly if the host names its scheme or the FreqUI
    is exposed by an Ingress with its TLS spelled out; else the status says
    http and the bots allow https only. *)
Theorem url_origin_allowed frequi :
  Host (fu_Spec frequi) ≠ "" → Exposure (fu_Spec frequi) ≠ FUExposureNone →
  deriveFreqUIURL frequi ∈ cors_candidates frequi ↔
  scheme_known (Host (fu_Spec frequi)) = true ∨
  Exposure (fu_Spec frequi) ≠ FUExposureGateway ∧ TLS (fu_Spec frequi) ≠ [].
Proof.
  intros Hh%nonempty_spec Hn. unfold deriveFreqUIURL, cors_candidates, ResolveMainHost.
  rewrite decide_False, Hh, list_elem_of_singleton by done.
  assert (bool_decide (Exposure (fu_Spec frequi) ≠ FUExposureGateway) && negb (bool_decide (TLS (fu_Spec frequi) = []))
    = true ↔ Exposure (fu_Spec frequi) ≠ FUExposureGateway ∧ TLS (fu_Spec frequi) ≠ []) as Htls.
  { rewrite andb_true_iff, bool_decide_eq_true, negb_true_iff, bool_decide_eq_false. done. }
  rewrite <- Htls. generalize (bool_decide (Exposure (fu_Spec frequi) ≠ FUExposureGateway) &&
    negb (bool_decide (TLS (fu_Spec frequi) = []))). intros [].
  all: destruct (infer_cases (Host (fu_Spec frequi))) as [[Hk Hi]|[Hk Hi]]; rewrite Hk, (Hi "https"), ?(Hi "http"); cbn; naive_solver.
Qed.
End Pure.

(** ** Concrete FreqUIs *)

Module Example.
#[local] Existing Instance kubelib_instance.
#[local] Existing Instance golib_instance.

Definition ui (exposure : FUExposureType) : FreqUI :=
  {| fu_Meta := NewMeta "ui" "default" ∅ ∅;
     fu_Spec := {| Host := "ui.example.org"; TLS := []; IngressAnnotations := ∅; FUApp := None; TradeBotRefs := [];
                   Exposure := exposure; Gateway := None |};
     fu_Status := {| fst_Phase := ""; fst_Message := ""; fst_URL := ""; fst_Conditions := [];
                     fst_ObservedGeneration := 0 |} |}.

Lemma exposures_route_alike_witness :
  ingress_table (BuildFreqUIIngress (ui FUExposureIngress) [api_route_of "bot"]) =
  route_table (BuildFreqUIHTTPRoutes (ui FUExposureIngress) [api_route_of "bot"]).1 ∧
  ingress_table (BuildFreqUIIngress (ui FUExposureIngress) [api_route_of "bot"]) =
    [("ui.example.org", "/", BackendService "ui" 80); ("bot.ui.example.org", "/", BackendService "bot" 8080)].
Proof. split; [apply exposures_route_alike|]; vm_compute; reflexivity. Defined.

(** In Gateway mode, the origin of the status is refused. *)
Lemma url_origin_allowed_witness : ¬ deriveFreqUIURL (ui FUExposureGateway) ∈ cors_candidates (ui FUExposureGateway).
Proof.
  intros Hin. destruct (proj1 (url_origin_allowed (ui FUExposureGateway) ltac:(done) ltac:(done)) Hin) as [Hk|[Hg _]].
  - vm_compute in Hk. discriminate Hk.
  - by apply Hg.
Defined.
End Example.
