(* ===== verification/Admission.v ===== *)
(** * The validating webhooks

    api/v1alpha1/tradebot_webhook.go, strategy_webhook.go and
    tradebotconfig_webhook.go; api/v1beta1/tradebotconfig_webhook.go and
    backtest_webhook.go.  A validator returns the error of Go's
    [(admission.Warnings, error)], [None] being an admitted request; the
    warnings are always nil.  FreqUI has no validation. *)

From S2P Require Import Prelude Prog GoLib Kube Types ConfigTypes Client Conversion.

(** The first error of a sequence of checks, [for _, x := range l { if ... { return err } }]. *)
Fixpoint first_error {A} (check : A → option error) (l : list A) : option error :=
  match l with
  | [] => None
  | x :: l' => match check x with Some err => Some err | None => first_error check l' end
  end.

Lemma first_error_None {A} (check : A → option error) l : first_error check l = None ↔ ∀ x, x ∈ l → check x = None.
Proof.
  induction l as [|y l IH]; [split; [by intros _ x ?%elem_of_nil|done]|]. cbn. destruct (check y) eqn:E.
  - split; [done|]. intros Hall. rewrite (Hall y) in E; [done|by left].
  - rewrite IH. split; [|intros Hall x Hin; apply Hall; by right].
    intros Hall x [->|Hin]%elem_of_cons; auto.
Qed.

(** ** TradeBot, v1alpha1 *)

Module TradeBotWebhook.
Import V1alpha1.

Definition minIntrospectionInterval : Z := (10 * Second)%Z.

Definition ownedFreqtradeFlags : list string :=
  ["--config"; "--strategy"; "--strategy-path"; "--db-url"; "--logfile"; "--userdir"; "--datadir"].

(** The character class of the regular expression. *)
Definition shellMetacharacters : string := ";&|`$(){}<>" ^^ String backslash nl.

Definition check_arg (arg : string) : option error :=
  if ContainsAny arg shellMetacharacters then
    Some (Errorf ("spec.freqtrade_arguments: " ^^ Quote arg ^^ " contains a shell metacharacter, which is not allowed"))
  else if decide (arg ∈ ownedFreqtradeFlags) then
    Some (Errorf ("spec.freqtrade_arguments: " ^^ Quote arg ^^ " is set by the operator and cannot be overridden"))
  else None.

Section Validate.
Context `{GoLib}.

Definition check_interval (tradeBot : TradeBot) : option error :=
  match Introspection (Spec tradeBot) with
  | Some i =>
      if negb (in_Interval i =? 0)%Z && (in_Interval i <? minIntrospectionInterval)%Z then
        Some (Errorf ("spec.introspection.interval: must be at least " ^^ FormatDuration minIntrospectionInterval
                      ^^ ", got " ^^ FormatDuration (in_Interval i)))
      else None
  | None => None
  end.

(** [v.Client.Get] of a referenced object that must exist. *)
Definition must_exist (k : kind) (field what name ns : string) : Op (option error) :=
  got ← trigger (Get k {| nn_Name := name; nn_Namespace := ns |});
  mret match got with
       | Ok _ => None
       | Err err =>
           Some (if IsNotFound err
                 then Errorf (field ^^ ": " ^^ what ^^ " " ^^ Quote name ^^ " not found in namespace " ^^ Quote ns)
                 else Wrap (field ^^ ": failed to look up " ^^ what ^^ " " ^^ Quote name) err)
       end.

(** The checks of the object alone. *)
Definition check_spec (tradeBot : TradeBot) : option error :=
  match first_error check_arg (FreqtradeArguments (Spec tradeBot)) with
  | Some err => Some err
  | None => check_interval tradeBot
  end.

(** The stored object must not be stopped: this version cannot say so. *)
Definition check_stored (tradeBot : TradeBot) : Op (option error) :=
  got ← trigger (Get KTradeBotBeta (ObjectKeyFromMeta (Meta tradeBot)));
  mret match got with
       | Ok stored =>
           if (V1beta1.State (V1beta1.Spec stored) =? V1beta1.TradeBotStateStopped)%string then
             Some (Errorf ("TradeBot " ^^ Namespace (Meta tradeBot) ^^ "/" ^^ Name (Meta tradeBot)
               ^^ " has spec.state=Stopped (set via v1beta1) - writing it via v1alpha1 would silently "
               ^^ "reset that back to Running, since v1alpha1 has no field for it at all; use v1beta1 for this "
               ^^ "object from now on"))
           else None
       | Err _ => None
       end.

Definition validate (tradeBot : TradeBot) : Op (option error) :=
  let spec := Spec tradeBot in
  let ns := Namespace (Meta tradeBot) in
  strategyErr ← must_exist KStrategy "spec.strategy" "Strategy" (StrategyName spec) ns;
  match strategyErr with
  | Some err => mret (Some err)
  | None =>
      configErr ← must_exist KTradeBotConfig "spec.config" "TradeBotConfig" (Config spec) ns;
      match configErr with
      | Some err => mret (Some err)
      | None =>
          match check_spec tradeBot with
          | Some err => mret (Some err)
          | None => check_stored tradeBot
          end
      end
  end.

Definition ValidateCreate (tradeBot : TradeBot) : Op (option error) := validate tradeBot.

Definition ValidateUpdate (old tradeBot : TradeBot) : Op (option error) :=
  match DeletionTimestamp (Meta tradeBot) with
  | Some _ => mret None
  | None => validate tradeBot
  end.

Definition ValidateDelete (tradeBot : TradeBot) : Op (option error) := mret None.
End Validate.
End TradeBotWebhook.

(** ** Strategy, v1alpha1 *)

Module StrategyWebhook.

Definition between (lo hi : string) (c : ascii) : bool :=
  match lo, hi with
  | String l _, String h _ => (nat_of_ascii l <=? nat_of_ascii c)%nat && (nat_of_ascii c <=? nat_of_ascii h)%nat
  | _, _ => false
  end.

Definition validStart (c : ascii) : bool := between "A" "Z" c || between "a" "z" c || between "_" "_" c.
Definition validRest (c : ascii) : bool :=
  between "A" "Z" c || between "a" "z" c || between "0" "9" c || between "_" "_" c.

(** Go ranges over the runes of [name[1:]]: no byte of a rune beyond ASCII is
    valid, so ranging over bytes decides the same. *)
Definition IsValidPythonClassName (name : string) : bool :=
  match name with
  | EmptyString => false
  | String first rest => if negb (validStart first) then false else forallb validRest (bytes rest)
  end.

Definition requiredMethods : list string := ["populate_indicators"; "populate_entry_trend"; "populate_exit_trend"].
Definition requiredImports : list string := ["import freqtrade"; "from freqtrade.strategy"].

Definition ValidateStrategyScript (script strategyName : string) : option error :=
  if (TrimSpace script =? "")%string then Some (Errorf "strategy script cannot be empty")
  else
    let expectedClassDef := "class " ^^ strategyName in
    if negb (Contains script expectedClassDef) then
      Some (Errorf ("strategy script must contain class definition: " ^^ expectedClassDef))
    else
      match first_error (fun method =>
              if negb (Contains script ("def " ^^ method))
              then Some (Errorf ("strategy script must contain method: " ^^ method)) else None) requiredMethods with
      | Some err => Some err
      | None =>
          if negb (existsb (Contains script) requiredImports)
          then Some (Errorf "strategy script must contain freqtrade imports") else None
      end.

Definition validateStrategySpec (strategy : Strategy) : option error :=
  let spec := str_Spec strategy in
  if (sspec_Name spec =? "")%string then Some (Errorf "spec.name is required")
  else if (sspec_Script spec =? "")%string then Some (Errorf "spec.script is required")
  else if negb (IsValidPythonClassName (sspec_Name spec)) then
    Some (Errorf ("spec.name " ^^ Quote (sspec_Name spec) ^^ " is not a valid Python class name"))
  else ValidateStrategyScript (sspec_Script spec) (sspec_Name spec).

Definition ValidateCreate (strategy : Strategy) : option error := validateStrategySpec strategy.
Definition ValidateUpdate (old strategy : Strategy) : option error := validateStrategySpec strategy.
Definition ValidateDelete (strategy : Strategy) : option error := None.
End StrategyWebhook.

(** ** TradeBotConfig, v1alpha1: the plaintext credentials *)

Module PlaintextWebhook.
Import ConfigV1alpha1 Conversion.TradeBotConfigConversion.

Definition allowPlaintextCredentialsAnnotation : string := "freqtrade.io/allow-plaintext-credentials".

(** The validator's Recorder may be nil. *)
Record TradeBotConfigCustomValidator := { hasRecorder : bool }.

Definition warnPlaintextCredentialsUsed (v : TradeBotConfigCustomValidator) (cfg : TradeBotConfig)
    (fields : list string) : Op unit :=
  record_event (hasRecorder v) KTradeBotConfig (ObjectKeyFromMeta (Meta cfg)) EventTypeWarning
    "PlaintextCredentialsUsed"
    ("Admitted via " ^^ allowPlaintextCredentialsAnnotation ^^ ": deprecated plaintext credential field(s) ["
     ^^ Join fields ", " ^^ "] - migrate to secretRef").

Definition validate (v : TradeBotConfigCustomValidator) (cfg : TradeBotConfig) : Op (option error) :=
  match plaintextCredentialFields cfg with
  | [] => mret None
  | fields =>
      if decide (Annotations (Meta cfg) !! allowPlaintextCredentialsAnnotation = Some "true") then
        _ ← warnPlaintextCredentialsUsed v cfg fields;
        mret None
      else
        mret (Some (Errorf ("spec sets deprecated plaintext credential field(s) [" ^^ Join fields ", "
          ^^ "]; use a secretRef instead. Setting the " ^^ Quote allowPlaintextCredentialsAnnotation
          ^^ " annotation only bypasses this specific check - v1beta1 (the storage version, B2) has no field "
          ^^ "for these at all, so the write is still rejected at conversion regardless of this annotation; "
          ^^ "there is no way to persist a plaintext credential")))
  end.

Definition ValidateCreate (v : TradeBotConfigCustomValidator) (cfg : TradeBotConfig) : Op (option error) :=
  validate v cfg.

Definition ValidateUpdate (v : TradeBotConfigCustomValidator) (old cfg : TradeBotConfig) : Op (option error) :=
  match DeletionTimestamp (Meta cfg) with
  | Some _ => mret None
  | None => validate v cfg
  end.

Definition ValidateDelete (v : TradeBotConfigCustomValidator) (cfg : TradeBotConfig) : Op (option error) := mret None.
End PlaintextWebhook.

(** ** TradeBotConfig, v1beta1: does this configuration make sense *)

Module ConfigWebhook.
Import ConfigV1beta1.

Definition knownCredentialSecretKeys : list string :=
  ["api-key"; "secret"; "password"; "uid"; "account_id"; "wallet_address"; "private_key"].

(** A nil [spec.bot] - the CRD schema requires it - is dereferenced; the
    webhook server turns the panic into a denial. *)
Definition nil_dereference : error := Errorf "panic: runtime error: invalid memory address or nil pointer dereference".

(** The Secret, and a key it must have one of. *)
Definition check_secret (cfg : TradeBotConfig) (name : string) : Op (option error) :=
  got ← trigger (Get KSecret {| nn_Name := name; nn_Namespace := Namespace (Meta cfg) |});
  mret match got with
       | Err err =>
           Some (if IsNotFound err
                 then Errorf ("spec.exchange.secretRef: Secret " ^^ Quote name ^^ " not found in namespace "
                              ^^ Quote (Namespace (Meta cfg)))
                 else Wrap ("spec.exchange.secretRef: failed to look up Secret " ^^ Quote name) err)
       | Ok secret =>
           if existsb (fun key => bool_decide (is_Some (secret_Data secret !! key))) knownCredentialSecretKeys
           then None
           else Some (Errorf ("spec.exchange.secretRef: Secret " ^^ Quote name
                  ^^ " has none of the expected credential keys (" ^^ Join knownCredentialSecretKeys ", " ^^ ")"))
       end.

Definition validate (cfg : TradeBotConfig) : Op (option error) :=
  match tc_Exchange (Spec cfg) with
  | None => mret (Some (Errorf "spec.exchange is required"))
  | Some exchange =>
      match tc_Bot (Spec cfg) with
      | None => mret (Some nil_dereference)
      | Some bot =>
          let dryRun := is_true_ptr (bc_DryRun bot) in
          let name := lor_Name (ex_SecretRef exchange) in
          if negb dryRun && (name =? "")%string then
            mret (Some (Errorf "spec.exchange.secretRef is required when spec.bot.dry_run is not explicitly true"))
          else if (name =? "")%string then mret None
          else check_secret cfg name
      end
  end.

Definition ValidateCreate (cfg : TradeBotConfig) : Op (option error) := validate cfg.

Definition ValidateUpdate (old cfg : TradeBotConfig) : Op (option error) :=
  match DeletionTimestamp (Meta cfg) with
  | Some _ => mret None
  | None => validate cfg
  end.

Definition ValidateDelete (cfg : TradeBotConfig) : Op (option error) := mret None.
End ConfigWebhook.

(** ** Backtest, v1beta1 *)

Module BacktestWebhook.

Definition allowExtraArgsAnnotation : string := "freqtrade.io/allow-extra-args".

Definition denylistedExtraArgs : list string :=
  ["--config"; "--strategy"; "--strategy-path"; "--db-url"; "--logfile"; "--userdir"; "--datadir"].

Definition shellMetacharacters : string := ";&|$`<>(){}" ^^ nl.

Definition denies (arg denied : string) : bool := (arg =? denied)%string || HasPrefix arg (denied ^^ "=").

Definition check_extra_arg (arg : string) : option error :=
  if ContainsAny arg shellMetacharacters then
    Some (Errorf ("spec.extraArgs value " ^^ Quote arg ^^ " contains a disallowed shell metacharacter"))
  else
    first_error (fun denied =>
      if denies arg denied
      then Some (Errorf ("spec.extraArgs may not set " ^^ Quote denied ^^ " - this operator manages it directly"))
      else None) denylistedExtraArgs.

Definition validateExtraArgs (backtest : Backtest) : option error :=
  match run_ExtraArgs (bt_RunSpec (bt_Spec backtest)) with
  | [] => None
  | extraArgs =>
      if decide (Annotations (bt_Meta backtest) !! allowExtraArgsAnnotation = Some "true")
      then first_error check_extra_arg extraArgs
      else Some (Errorf ("spec.extraArgs is set but the " ^^ Quote allowExtraArgsAnnotation
             ^^ " annotation is not " ^^ Quote "true" ^^ " - "
             ^^ "extraArgs is a deliberate escape hatch for flags the typed spec doesn't cover yet, "
             ^^ "not a default-on surface"))
  end.

Definition validateBacktestSpec (backtest : Backtest) : option error :=
  let run := bt_RunSpec (bt_Spec backtest) in
  if (TrimSpace (lor_Name (run_ConfigRef run)) =? "")%string then Some (Errorf "spec.configRef.name is required")
  else if (TrimSpace (lor_Name (run_StrategyRef run)) =? "")%string then
    Some (Errorf "spec.strategyRef.name is required")
  else validateExtraArgs backtest.

Definition ValidateCreate (backtest : Backtest) : option error := validateBacktestSpec backtest.
Definition ValidateUpdate (old backtest : Backtest) : option error := validateBacktestSpec backtest.
Definition ValidateDelete (backtest : Backtest) : option error := None.
End BacktestWebhook.
