(* ===== verification/BacktestResources.v ===== *)
(** * controllers/backtest/resources

    The builders of the objects of a Backtest run: the config Secret, the
    strategy ConfigMap, the results PVC, the sidecar's ServiceAccount, Role
    and RoleBinding, and the Job with its pod: a download container when a
    data cache is mounted, the freqtrade container, and the
    results-collection sidecar. *)

From S2P Require Import Prelude Kube Types Client Shared.

Definition ContainsCredentialsLabel : string := "freqtrade.io/contains-credentials".
Definition userDataVolumeName : string := "user-data".
Definition userDataMountPath : string := "/freqtrade/user_data".
Definition cacheVolumeName : string := "cache".
Definition cacheMountPath : string := "/cache".
Definition freqtradeContainerName : string := "freqtrade".
Definition defaultTTLSecondsAfterFinished : Z := 86400.
Definition jobBackoffLimit : Z := 1.
Definition defaultResultsSize : Quantity := "1Gi".
Definition SidecarServiceAccountName : string := "freqtrade-backtest-sidecar".
Definition ResultsPVCMountPath : string := "/results".
Definition sidecarTokenServiceAccountMountPath : string := "/var/run/secrets/kubernetes.io/serviceaccount".

Definition run (b : Backtest) : RunSpec := bt_RunSpec (bt_Spec b).

(** ** secret.go, configmap.go, pvc.go *)

Definition BuildConfigSecret (backtest : Backtest) (secretData : gmap string string) : Secret :=
  {| secret_Meta := NewMeta (Name (bt_Meta backtest) ^^ "-config") (Namespace (bt_Meta backtest))
                      {[ "app" := "freqtrade-backtest"; "name" := Name (bt_Meta backtest);
                         ContainsCredentialsLabel := "true" ]} ∅;
     secret_Data := ∅; secret_StringData := secretData; secret_Type := "Opaque" |}.

Definition BuildStrategyConfigMap (backtest : Backtest) (strategyName script : string) : ConfigMap :=
  {| cm_Meta := NewMeta (Name (bt_Meta backtest) ^^ "-strategy") (Namespace (bt_Meta backtest)) ∅ ∅;
     cm_Data := {[ (strategyName ^^ ".py") := script ]} |}.

Definition ResultsPVCName (backtestName : string) : string := backtestName ^^ "-results".
Definition ResultsConfigMapName (backtestName : string) : string := backtestName ^^ "-results".

Section Build.
Context `{KubeLib}.

Definition BuildResultsPVC (backtest : Backtest) : PersistentVolumeClaim :=
  let results := run_Results (run backtest) in
  let size := match results with
              | Some r => if Quantity_IsZero (rs_Size r) then defaultResultsSize else rs_Size r
              | None => defaultResultsSize
              end in
  {| pvc_Meta := NewMeta (ResultsPVCName (Name (bt_Meta backtest))) (Namespace (bt_Meta backtest)) ∅ ∅;
     pvc_AccessModes := ["ReadWriteOnce"];
     pvc_Requests := {[ "storage" := size ]};
     pvc_StorageClassName := results ≫= rs_StorageClassName;
     pvc_VolumeName := "" |}.

Definition ResultsRetentionPolicy (backtest : Backtest) : string :=
  match run_Results (run backtest) with
  | Some r => if nonempty (rs_RetentionPolicy r) then rs_RetentionPolicy r else "Delete"
  | None => "Delete"
  end.

(** ** rbac.go *)

Definition BuildSidecarServiceAccount (ns : string) : ServiceAccount :=
  {| sa_Meta := NewMeta SidecarServiceAccountName ns ∅ ∅ |}.

Definition BuildSidecarRole (ns : string) : Role :=
  {| role_Meta := NewMeta SidecarServiceAccountName ns ∅ ∅;
     role_Rules := [ {| rule_APIGroups := [""]; rule_Resources := ["configmaps"];
                        rule_Verbs := ["get"; "create"; "update"] |};
                     {| rule_APIGroups := [""]; rule_Resources := ["pods"]; rule_Verbs := ["get"] |} ] |}.

Definition BuildSidecarRoleBinding (ns : string) : RoleBinding :=
  {| rb_Meta := NewMeta SidecarServiceAccountName ns ∅ ∅;
     rb_RoleRef := SidecarServiceAccountName;
     rb_Subjects := [ {| nn_Namespace := ns; nn_Name := SidecarServiceAccountName |} ] |}.

(** ** pod.go *)

(** A flag with its value, when the value is set. *)
Definition flag_if (name value : string) : list string := if nonempty value then [name; value] else [].
Definition flag_opt (name : string) (value : option string) : list string :=
  match value with Some v => [name; v] | None => [] end.
Definition flag_list (name : string) (values : list string) : list string :=
  match values with [] => [] | _ => name :: values end.

Definition fixed_args (strategyName : string) : list string :=
  [ "backtesting"; "--config"; "/config/config.json"; "--strategy-path"; "/strategy";
    "--strategy"; strategyName; "--userdir"; userDataMountPath;
    "--logfile"; "/freqtrade/user_data/logs/freqtrade.log" ].

Definition buildArgs (spec : BacktestSpec) (strategyName : string) (hasCache : bool) (extraArgs : list string)
    : list string :=
  fixed_args strategyName
  ++ (if hasCache then ["--datadir"; cacheMountPath] else [])
  ++ flag_if "--timerange" (run_Timerange (bt_RunSpec spec))
  ++ flag_if "--timeframe" (run_Timeframe (bt_RunSpec spec))
  ++ flag_if "--timeframe-detail" (bt_TimeframeDetail spec)
  ++ flag_list "--pairs" (run_Pairs (bt_RunSpec spec))
  ++ flag_opt "--max-open-trades" (Itoa <$> bt_MaxOpenTrades spec)
  ++ flag_if "--stake-amount" (bt_StakeAmount spec)
  ++ flag_opt "--dry-run-wallet" (Quantity_AsDec <$> bt_DryRunWallet spec)
  ++ flag_opt "--fee" (bt_Fee spec)
  ++ (if is_true_ptr (bt_EnableProtections spec) then ["--enable-protections"] else [])
  ++ flag_list "--breakdown" (bt_Breakdown spec)
  ++ flag_if "--cache" (bt_Cache spec)
  ++ extraArgs.

Definition mount (name path : string) (readOnly : bool) : VolumeMount :=
  {| vm_Name := name; vm_MountPath := path; vm_ReadOnly := readOnly |}.

(** A container with the settings all of them share. *)
Definition container (name image : string) (command args : list string) (mounts : list VolumeMount) : Container :=
  {| c_Name := name; c_Image := image; c_ImagePullPolicy := "IfNotPresent"; c_Command := command;
     c_Args := args; c_Env := []; c_Resources := NoResources; c_VolumeMounts := mounts;
     c_SecurityContext := Some RestrictedSecurityContext; c_Ports := []; c_LivenessProbe := None;
     c_ReadinessProbe := None; c_RestartPolicy := None;
       c_TerminationMessagePath := ""; c_TerminationMessagePolicy := "" |}.

Definition download_args (spec : BacktestSpec) : list string :=
  [ "download-data"; "--config"; "/config/config.json"; "--userdir"; userDataMountPath;
    "--datadir"; cacheMountPath ]
  ++ flag_if "--timerange" (run_Timerange (bt_RunSpec spec))
  ++ flag_if "-t" (run_Timeframe (bt_RunSpec spec))
  ++ flag_list "--pairs" (run_Pairs (bt_RunSpec spec))
  ++ match run_Data (bt_RunSpec spec) with Some d => ds_DownloadArgs d | None => [] end.

Definition ifmissing_script : string :=
  "if [ -z " ^^ dquote ^^ "$(ls -A /cache 2>/dev/null)" ^^ dquote ^^ " ]; then exec freqtrade "
  ^^ dquote ^^ "$@" ^^ dquote ^^ "; fi".

(** Only called with [spec.Data] set. *)
Definition buildDownloadDataInitContainer (spec : BacktestSpec) (data : DataSourceSpec) (image : string)
    (mounts : list VolumeMount) : Container :=
  let dlArgs := download_args spec in
  let policy := ToLower (TrimSpace (ds_DownloadPolicy data)) in
  let policy := if nonempty policy then policy else "always" in
  let base command args := container "init-download-data" image command args mounts in
  if (policy =? "never")%string then base ["true"] []
  else if (policy =? "ifmissing")%string then base ["sh"; "-c"; ifmissing_script; "init-download-data"] dlArgs
  else base [freqtradeContainerName] dlArgs.

Definition sidecarTokenVolume : Volume :=
  {| v_Name := "sidecar-token";
     v_Source := VSProjected [ ProjectServiceAccountToken "token" 3607;
                               ProjectConfigMap "kube-root-ca.crt" [("ca.crt", "ca.crt")];
                               ProjectDownwardAPI [("metadata.namespace", "namespace")] ] |}.

Definition buildSidecarContainer (operatorImage backtestName strategyName : string) : Container :=
  {| c_Name := "collect-results"; c_Image := operatorImage; c_ImagePullPolicy := "IfNotPresent";
     c_Command := [];
     c_Args := [ "collect-results"; "--backtest-name"; backtestName; "--strategy-name"; strategyName;
                 "--results-pvc-dir"; ResultsPVCMountPath ];
     c_Env := [ {| ev_Name := "POD_NAME"; ev_Value := ""; ev_FieldPath := "metadata.name" |};
                {| ev_Name := "POD_NAMESPACE"; ev_Value := ""; ev_FieldPath := "metadata.namespace" |} ];
     c_Resources := NoResources;
     c_VolumeMounts := [ mount userDataVolumeName userDataMountPath true;
                         mount "sidecar-token" sidecarTokenServiceAccountMountPath true;
                         mount "results" ResultsPVCMountPath false ];
     c_SecurityContext := Some RestrictedSecurityContext; c_Ports := []; c_LivenessProbe := None;
     c_ReadinessProbe := None; c_RestartPolicy := Some "Always";
       c_TerminationMessagePath := ""; c_TerminationMessagePolicy := "" |}.

Definition merge_container_overrides (o : BacktestPodSpec) (c : Container) : Container :=
  {| c_Name := c_Name c;
     c_Image := if nonempty (bp_Image o) then bp_Image o else c_Image c;
     c_ImagePullPolicy := c_ImagePullPolicy c;
     c_Command := c_Command c;
     c_Args := c_Args c;
     c_Env := override_list (bp_Env o) (c_Env c);
     c_Resources := if decide (bp_Resources o = NoResources) then c_Resources c else bp_Resources o;
     c_VolumeMounts := override_list (bp_VolumeMounts o) (c_VolumeMounts c);
     c_SecurityContext := c_SecurityContext c;
     c_Ports := c_Ports c;
     c_LivenessProbe := c_LivenessProbe c;
     c_ReadinessProbe := c_ReadinessProbe c;
     c_RestartPolicy := c_RestartPolicy c;
     c_TerminationMessagePath := c_TerminationMessagePath c;
     c_TerminationMessagePolicy := c_TerminationMessagePolicy c |}.

Definition mergePodSpecOverrides (p : PodSpec) (o : BacktestPodSpec) : PodSpec :=
  {| ps_SecurityContext := override_ptr (bp_SecurityContext o) (ps_SecurityContext p);
     ps_ServiceAccountName := ps_ServiceAccountName p;
     ps_AutomountServiceAccountToken := ps_AutomountServiceAccountToken p;
     ps_RestartPolicy := ps_RestartPolicy p;
     ps_InitContainers := override_list (bp_InitContainers o) (ps_InitContainers p);
     ps_Containers := map_first_container (merge_container_overrides o) (ps_Containers p);
     ps_Volumes := override_list (bp_Volumes o) (ps_Volumes p);
     ps_ImagePullSecrets := override_list (bp_ImagePullSecrets o) (ps_ImagePullSecrets p);
     ps_Affinity := override_ptr (bp_Affinity o) (ps_Affinity p);
     ps_NodeSelector := if decide (bp_NodeSelector o = ∅) then ps_NodeSelector p else bp_NodeSelector o;
     ps_Tolerations := override_list (bp_Tolerations o) (ps_Tolerations p);
     ps_TopologySpreadConstraints :=
       override_list (bp_TopologySpreadConstraints o) (ps_TopologySpreadConstraints p);
     ps_TerminationGracePeriodSeconds := ps_TerminationGracePeriodSeconds p;
     ps_DNSPolicy := ps_DNSPolicy p |}.

(** [hasCache], with the data source it is about. *)
Definition cache_of (spec : BacktestSpec) : option DataSourceSpec :=
  match run_Data (bt_RunSpec spec) with
  | Some d => if nonempty (TrimSpace (ds_PVCName d)) then Some d else None
  | None => None
  end.

Definition has_cache (spec : BacktestSpec) : bool := match cache_of spec with Some _ => true | None => false end.

Definition BuildPod (backtest : Backtest)
    (image operatorImage strategyName configSecretName strategyConfigMapName : string) : PodSpec :=
  let spec := bt_Spec backtest in
  let name := Name (bt_Meta backtest) in
  let cache := cache_of spec in
  let base_mounts := [ mount "config" "/config" true; mount "strategy" "/strategy" true;
                       mount userDataVolumeName userDataMountPath false ] in
  let cache_mount ro := match cache with Some _ => [mount cacheVolumeName cacheMountPath ro] | None => [] end in
  let volumes :=
    [ {| v_Name := "config"; v_Source := VSSecret configSecretName |};
      {| v_Name := "strategy"; v_Source := VSConfigMap strategyConfigMapName |};
      {| v_Name := userDataVolumeName; v_Source := VSEmptyDir |};
      {| v_Name := "results"; v_Source := VSPersistentVolumeClaim (ResultsPVCName name) |} ]
    ++ match cache with
       | Some d => [ {| v_Name := cacheVolumeName; v_Source := VSPersistentVolumeClaim (ds_PVCName d) |} ]
       | None => []
       end
    ++ [sidecarTokenVolume] in
  let initContainers :=
    [ container "init-user-data" "busybox:latest" ["sh"; "-c"]
        ["mkdir -p /freqtrade/user_data/logs /freqtrade/user_data/data"]
        [mount userDataVolumeName userDataMountPath false] ]
    ++ match cache with
       | Some d => [buildDownloadDataInitContainer spec d image (base_mounts ++ cache_mount false)]
       | None => []
       end
    ++ [buildSidecarContainer operatorImage name strategyName] in
  let main :=
    {| c_Name := freqtradeContainerName; c_Image := image; c_ImagePullPolicy := "IfNotPresent";
       c_Command := [freqtradeContainerName];
       c_Args := buildArgs spec strategyName (has_cache spec) (run_ExtraArgs (bt_RunSpec spec));
       c_Env := []; c_Resources := DefaultContainerResources;
       c_VolumeMounts := base_mounts ++ cache_mount true;
       c_SecurityContext := Some RestrictedSecurityContext; c_Ports := []; c_LivenessProbe := None;
       c_ReadinessProbe := None; c_RestartPolicy := None;
       c_TerminationMessagePath := ""; c_TerminationMessagePolicy := "" |} in
  let podSpec :=
    {| ps_SecurityContext := Some {| psc_RunAsUser := Some 1000%Z; psc_RunAsGroup := Some 1000%Z;
                                     psc_FSGroup := Some 1000%Z |};
       ps_ServiceAccountName := SidecarServiceAccountName;
       ps_AutomountServiceAccountToken := Some false;
       ps_RestartPolicy := "Never";
       ps_InitContainers := initContainers; ps_Containers := [main]; ps_Volumes := volumes;
       ps_ImagePullSecrets := []; ps_Affinity := None; ps_NodeSelector := ∅; ps_Tolerations := [];
       ps_TopologySpreadConstraints := []; ps_TerminationGracePeriodSeconds := None; ps_DNSPolicy := "" |} in
  from_option (mergePodSpecOverrides podSpec) podSpec (run_Pod (bt_RunSpec spec)).

(** ** job.go *)

Definition job_labels (backtest : Backtest) : gmap string string :=
  {[ "name" := Name (bt_Meta backtest); "app" := "freqtrade-backtest" ]}.

Definition BuildJob (backtest : Backtest)
    (image operatorImage strategyName configSecretName strategyConfigMapName : string) : Job :=
  {| job_Meta := NewMeta (Name (bt_Meta backtest)) (Namespace (bt_Meta backtest)) (job_labels backtest) ∅;
     job_BackoffLimit := Some jobBackoffLimit;
     job_TTLSecondsAfterFinished :=
       Some (default defaultTTLSecondsAfterFinished (run_TTLSecondsAfterFinished (run backtest)));
     job_Template :=
       {| pt_Labels := job_labels backtest; pt_Annotations := ∅;
          pt_Spec := BuildPod backtest image operatorImage strategyName configSecretName strategyConfigMapName |};
     job_Status_Active := 0; job_Status_Succeeded := 0; job_Status_Failed := 0;
     job_Status_StartTime := None; job_Status_CompletionTime := None |}.
End Build.
