(* ===== verification/Backtest.v ===== *)
(** * controllers/backtest: the Backtest reconciler

    main.go, resources.go, results.go and finalizers.go: a one-shot run.  The
    objects of the run are created once; afterwards a reconcile only follows
    the Job, remembers its outcome and adopts the results ConfigMap the
    sidecar leaves behind. *)

From S2P Require Import Prelude Prog GoLib Kube Types ConfigTypes Client Shared ConfigBuilder BacktestResources.

Definition BacktestFinalizer : string := "freqtrade.io/finalizer".

Record Reconciler := { hasRecorder : bool; DefaultImage : string; OperatorImage : string }.


Definition bt_with_Status (b : Backtest) (s : BacktestStatus) : Backtest :=
  {| bt_Meta := bt_Meta b; bt_Spec := bt_Spec b; bt_Status := s |}.

#[export] Program Instance backtest_conditioned : ConditionedObject KBacktest := {|
  StatusT := BacktestStatus;
  get_status := bt_Status;
  with_status := bt_with_Status;
  SetObservedGeneration s g :=
    {| bst_Phase := bst_Phase s; bst_Message := bst_Message s; bst_Conditions := bst_Conditions s;
       bst_ObservedGeneration := g; bst_JobName := bst_JobName s; bst_ResultsPVCName := bst_ResultsPVCName s;
       bst_StartTime := bst_StartTime s; bst_CompletionTime := bst_CompletionTime s;
       bst_Results := bst_Results s |}
|}.
Next Obligation. done. Qed.
Next Obligation. by intros []. Qed.
Next Obligation. done. Qed.

Definition bt_key (b : Backtest) : NamespacedName := ObjectKeyFromMeta (bt_Meta b).

(** ** The Job's outcome *)

Record workloadStatus := {
  running : bool; succeeded : bool; failed : bool;
  message : string;
  requeueAfter : Z;
  startTime : option Z; completionTime : option Z
}.

Definition conditionStatusAndReason (w : workloadStatus) : ConditionStatus * string :=
  if failed w then (ConditionFalse, ReasonWorkloadFailed)
  else if succeeded w then (ConditionTrue, ReasonWorkloadSucceeded)
  else (ConditionFalse, ReasonWorkloadProgressing).

Definition deriveBacktestPhase (w : workloadStatus) : string :=
  if succeeded w then "Succeeded" else if failed w then "Failed"
  else if running w then "Running" else "Pending".

(** [computeWorkloadStatus] of a Job that exists. *)
Definition workload_of_job (job : Job) : workloadStatus :=
  let ws run succ fail msg req :=
    {| running := run; succeeded := succ; failed := fail; message := msg; requeueAfter := req;
       startTime := job_Status_StartTime job; completionTime := job_Status_CompletionTime job |} in
  if (0 <? job_Status_Succeeded job)%Z then ws false true false "" 0%Z
  else if (0 <? job_Status_Failed job)%Z then ws false false true "Job failed; check pod logs" 0%Z
  else if (0 <? job_Status_Active job)%Z then ws true false false "Job is running" (secs 15)
  else ws false false false "Waiting for Job to start" (secs 15).

Section Backtest.
Context `{KubeLib} `{GoLib} (r : Reconciler).

Definition recordedOutcome (backtest : Backtest) : option workloadStatus :=
  let s := bt_Status backtest in
  let ws succ fail :=
    {| running := false; succeeded := succ; failed := fail; message := bst_Message s; requeueAfter := 0;
       startTime := bst_StartTime s; completionTime := bst_CompletionTime s |} in
  match FindStatusCondition (bst_Conditions s) ConditionWorkloadReady with
  | None => None
  | Some cond =>
      if (cReason cond =? ReasonWorkloadSucceeded)%string then Some (ws true false)
      else if (cReason cond =? ReasonWorkloadFailed)%string then Some (ws false true)
      else None
  end.

Definition computeWorkloadStatus (backtest : Backtest) : Op (result workloadStatus) :=
  got ← trigger (Get KJob (bt_key backtest));
  mret match got with
       | Ok job => Ok (workload_of_job job)
       | Err err =>
           match recordedOutcome backtest with
           | Some ws => if IsNotFound err then Ok ws else Err (Wrap "failed to get Job" err)
           | None => Err (Wrap "failed to get Job" err)
           end
       end.

(** ** Failure *)

Definition with_conditions (s : BacktestStatus) (cs : list Condition) : BacktestStatus :=
  {| bst_Phase := bst_Phase s; bst_Message := bst_Message s; bst_Conditions := cs;
     bst_ObservedGeneration := bst_ObservedGeneration s; bst_JobName := bst_JobName s;
     bst_ResultsPVCName := bst_ResultsPVCName s; bst_StartTime := bst_StartTime s;
     bst_CompletionTime := bst_CompletionTime s; bst_Results := bst_Results s |}.

Definition set_condition (c : Condition) (s : BacktestStatus) : BacktestStatus :=
  with_conditions s (SetStatusCondition (bst_Conditions s) c).

Definition set_phase (phase message : string) (s : BacktestStatus) : BacktestStatus :=
  {| bst_Phase := phase; bst_Message := message; bst_Conditions := bst_Conditions s;
     bst_ObservedGeneration := bst_ObservedGeneration s; bst_JobName := bst_JobName s;
     bst_ResultsPVCName := bst_ResultsPVCName s; bst_StartTime := bst_StartTime s;
     bst_CompletionTime := bst_CompletionTime s; bst_Results := bst_Results s |}.

Definition failReconcileRequeueAfter : Z := secs 30.

Definition fail_status (conditionType reason message : string) (s : BacktestStatus) : BacktestStatus :=
  set_phase "Error" message
    (set_condition (Cond ConditionReady ConditionFalse reason message)
       (set_condition (Cond conditionType ConditionFalse reason message) s)).

Definition failReconcile (backtest : Backtest) (conditionType reason message : string) (err : option error)
    : Op Result :=
  p ← patch_status KBacktest backtest (fail_status conditionType reason message);
  match p.2 with
  | Err patchErr => mret (secs 5, Some patchErr)
  | Ok _ =>
      _ ← record_event (hasRecorder r) KBacktest (bt_key p.1) EventTypeWarning reason message;
      _ ← trigger (ReconcileErrorsInc "backtest" reason);
      mret (failReconcileRequeueAfter, err)
  end.

(** ** finalizers.go *)

Definition results_pvc_key (backtest : Backtest) : NamespacedName :=
  {| nn_Name := Name (bt_Meta backtest) ^^ "-results"; nn_Namespace := Namespace (bt_Meta backtest) |}.

Definition finalizeBacktest (backtest : Backtest) : Op (result unit) :=
  if negb (ResultsRetentionPolicy backtest =? "Retain")%string then mret (Ok tt)
  else
    got ← trigger (Get KPersistentVolumeClaim (results_pvc_key backtest));
    match got with
    | Err err => mret (if IsNotFound err then Ok tt
                       else Err (Wrap "failed to get results PVC during finalization" err))
    | Ok pvc =>
        let m := pvc_Meta pvc in
        let newOwnerRefs :=
          List.filter (fun o => negb (or_UID o =? UID (bt_Meta backtest))%string) (OwnerReferences m) in
        now ← trigger Now;
        let annotations :=
          <["freqtrade.io/preserved-at" := FormatRFC3339 now]>
            (<["freqtrade.io/preserved-from" := Name (bt_Meta backtest)]> (Annotations m)) in
        upd ← trigger (Update KPersistentVolumeClaim
                 (with_pvc_Meta pvc (with_Annotations (with_OwnerReferences m newOwnerRefs) annotations)));
        mret match upd with
             | Err err => Err (Wrap "failed to update results PVC to preserve it" err)
             | Ok _ => Ok tt
             end
    end.

(** ** resources.go *)

Definition fetchReferencedObjects (backtest : Backtest) : Op (result (Strategy * ConfigV1alpha1.TradeBotConfig)) :=
  let strategyName := lor_Name (run_StrategyRef (run backtest)) in
  let configName := lor_Name (run_ConfigRef (run backtest)) in
  strategy <-? wrapping ("failed to get Strategy " ^^ strategyName)
    (trigger (Get KStrategy {| nn_Name := strategyName; nn_Namespace := Namespace (bt_Meta backtest) |}));
  tradeBotConfig <-? wrapping ("failed to get TradeBotConfig " ^^ configName)
    (trigger (Get KTradeBotConfig {| nn_Name := configName; nn_Namespace := Namespace (bt_Meta backtest) |}));
  mret (Ok (strategy, tradeBotConfig)).

Definition defaultImage : string := if nonempty (DefaultImage r) then DefaultImage r else DefaultFreqtradeImage.

Definition owner_of (backtest : Backtest) : OwnerReference :=
  ControllerRef "Backtest" (Name (bt_Meta backtest)) (UID (bt_Meta backtest)).

Definition apply_owned (backtest : Backtest) (what : string) (k : kind) (o : Obj k) : Op (result (Obj k)) :=
  wrapping ("failed to apply " ^^ what) (Apply (owner_of backtest) k o).

Definition ensureSidecarRBAC (ns : string) : Op (result unit) :=
  _ <-? wrapping "failed to apply sidecar ServiceAccount"
          (ApplyUnowned KServiceAccount (BuildSidecarServiceAccount ns));
  _ <-? wrapping "failed to apply sidecar Role" (ApplyUnowned KRole (BuildSidecarRole ns));
  _ <-? wrapping "failed to apply sidecar RoleBinding" (ApplyUnowned KRoleBinding (BuildSidecarRoleBinding ns));
  mret (Ok tt).

(** The objects of a run that has none yet. *)
Definition createResources (backtest : Backtest) : Op (result string) :=
  refs <-? fetchReferencedObjects backtest;
  let strategy := sspec_Name (str_Spec refs.1) in
  configData <-? wrapping "failed to build config"
                   (BuildConfig (Name (bt_Meta backtest)) (Namespace (bt_Meta backtest)) refs.2 []);
  configSecret <-? apply_owned backtest "config Secret" KSecret (BuildConfigSecret backtest configData);
  strategyConfigMap <-? apply_owned backtest "strategy ConfigMap" KConfigMap
                          (BuildStrategyConfigMap backtest strategy (sspec_Script (str_Spec refs.1)));
  _ <-? apply_owned backtest "results PVC" KPersistentVolumeClaim (BuildResultsPVC backtest);
  _ <-? wrapping "failed to provision the results-collection sidecar's RBAC"
          (ensureSidecarRBAC (Namespace (bt_Meta backtest)));
  _ <-? apply_owned backtest "Job" KJob
          (BuildJob backtest defaultImage (OperatorImage r) strategy
             (Name (secret_Meta configSecret)) (Name (cm_Meta strategyConfigMap)));
  mret (Ok (Name (bt_Meta backtest))).

Definition reconcileResources (backtest : Backtest) : Op (result string) :=
  got ← trigger (Get KJob (bt_key backtest));
  match got with
  | Ok _ => mret (Ok (Name (bt_Meta backtest)))
  | Err err =>
      if negb (IsNotFound err) then mret (Err (Wrap "failed to check for an existing Job" err))
      else match recordedOutcome backtest with
           | Some _ => mret (Ok (Name (bt_Meta backtest)))
           | None => createResources backtest
           end
  end.

(** ** results.go *)

Definition resultsDataKey : string := "results.json".
Definition errorDataKey : string := "error".

Definition unavailableCondition (message : string) (generation : Z) : Condition :=
  {| cType := ConditionResultsAvailable; cStatus := ConditionFalse; cReason := ReasonResultsUnavailable;
     cMessage := message; cObservedGeneration := generation |}.

Definition availableCondition (generation : Z) : Condition :=
  {| cType := ConditionResultsAvailable; cStatus := ConditionTrue; cReason := ReasonAsExpected;
     cMessage := ""; cObservedGeneration := generation |}.

(** json.Unmarshal into a BacktestResults. *)
Definition decode_results (j : json) : option BacktestResults :=
  total ← decode_member decode_int "totalTrades" 0%Z j;
  profitAbs ← decode_member decode_string "profitAbs" "" j;
  profitPct ← decode_member decode_string "profitPct" "" j;
  winRate ← decode_member decode_string "winRatePct" "" j;
  drawdown ← decode_member decode_string "maxDrawdownPct" "" j;
  sharpe ← decode_member decode_string "sharpeRatio" "" j;
  sortino ← decode_member decode_string "sortinoRatio" "" j;
  cagr ← decode_member decode_string "cagrPct" "" j;
  best ← decode_member decode_string "bestPair" "" j;
  worst ← decode_member decode_string "worstPair" "" j;
  file ← decode_member decode_string "resultFile" "" j;
  Some {| br_TotalTrades := total; br_ProfitAbs := profitAbs; br_ProfitPct := profitPct;
          br_WinRatePct := winRate; br_MaxDrawdownPct := drawdown; br_SharpeRatio := sharpe;
          br_SortinoRatio := sortino; br_CAGRPct := cagr; br_BestPair := best; br_WorstPair := worst;
          br_ResultFile := file |}.

(** What the ConfigMap says: the results if they are there, and the condition. *)
Definition parse_results (cm : ConfigMap) (generation : Z) : option BacktestResults * Condition :=
  match cm_Data cm !! errorDataKey with
  | Some errMsg => (None, unavailableCondition errMsg generation)
  | None =>
      match cm_Data cm !! resultsDataKey with
      | None =>
          (None, unavailableCondition
             ("results ConfigMap " ^^ Name (cm_Meta cm) ^^ " has neither " ^^ Quote resultsDataKey ^^ " nor "
              ^^ Quote errorDataKey) generation)
      | Some raw =>
          match unmarshal decode_results raw with
          | Err err =>
              (None, unavailableCondition
                 ("results ConfigMap " ^^ Name (cm_Meta cm) ^^ "'s " ^^ resultsDataKey ^^ " is malformed: "
                  ^^ Error err) generation)
          | Ok results => (Some results, availableCondition generation)
          end
      end
  end.

Definition ensureOwned (owner : Backtest) (cm : ConfigMap) : Op (result ConfigMap) :=
  if existsb (fun ref => (or_UID ref =? UID (bt_Meta owner))%string) (OwnerReferences (cm_Meta cm))
  then mret (Ok cm)
  else
    match SetControllerReference (owner_of owner) (OwnerReferences (cm_Meta cm)) with
    | Err e => mret (Err e)
    | Ok refs => trigger (Update KConfigMap (with_cm_Meta cm (with_OwnerReferences (cm_Meta cm) refs)))
    end.

Definition results_cm_key (backtest : Backtest) : NamespacedName :=
  {| nn_Name := ResultsConfigMapName (Name (bt_Meta backtest)); nn_Namespace := Namespace (bt_Meta backtest) |}.

(** (results, condition, requeue), or an error. *)
Definition adoptAndParseResults (backtest : Backtest)
    : Op (result (option BacktestResults * option Condition * bool)) :=
  got ← trigger (Get KConfigMap (results_cm_key backtest));
  match got with
  | Err err => mret (if IsNotFound err then Ok (None, None, true)
                     else Err (Wrap "failed to get results ConfigMap" err))
  | Ok cm =>
      cm <-? wrapping "failed to adopt results ConfigMap" (ensureOwned backtest cm);
      let p := parse_results cm (Generation (bt_Meta backtest)) in
      mret (Ok (p.1, Some p.2, false))
  end.

(** ** Reconcile *)

Definition resultsRequeueAfter : Z := secs 5.

(** The mutation of the success path. *)
Definition success_status (backtest : Backtest) (workload : workloadStatus) (jobName : string)
    (results : option BacktestResults) (resultsCondition : option Condition) (s : BacktestStatus)
    : BacktestStatus :=
  let sr := conditionStatusAndReason workload in
  let s := set_condition (Cond ConditionConfigResolved ConditionTrue ReasonAsExpected "") s in
  let s := set_condition (Cond ConditionWorkloadReady sr.1 sr.2 (message workload)) s in
  let s := set_condition (Cond ConditionReady sr.1 sr.2 (message workload)) s in
  let s := match resultsCondition with Some c => set_condition c s | None => s end in
  {| bst_Phase := deriveBacktestPhase workload; bst_Message := message workload;
     bst_Conditions := bst_Conditions s; bst_ObservedGeneration := bst_ObservedGeneration s;
     bst_JobName := jobName; bst_ResultsPVCName := Name (bt_Meta backtest) ^^ "-results";
     bst_StartTime := match startTime workload with Some t => Some t | None => bst_StartTime s end;
     bst_CompletionTime := match completionTime workload with Some t => Some t | None => bst_CompletionTime s end;
     bst_Results := match results with Some x => Some x | None => bst_Results s end |}.

(** The status write and the requeue. *)
Definition recordOutcome (backtest : Backtest) (workload : workloadStatus) (jobName : string)
    (results : option BacktestResults) (resultsCondition : option Condition) (resultsRequeue : bool)
    : Op Result :=
  p ← patch_status KBacktest backtest (success_status backtest workload jobName results resultsCondition);
  match p.2 with
  | Err err => mret (secs 5, Some err)
  | Ok _ =>
      mret (if resultsRequeue && (requeueAfter workload =? 0)%Z then resultsRequeueAfter
            else requeueAfter workload, None)
  end.

(** The Job's outcome, its results, and the status. *)
Definition followJob (backtest : Backtest) (jobName : string) : Op Result :=
  workload ← computeWorkloadStatus backtest;
  match workload with
  | Err err =>
      failReconcile backtest ConditionWorkloadReady ReasonReconcileError
        ("failed to read workload status: " ^^ Error err) (Some err)
  | Ok workload =>
      adopted ← (if succeeded workload && bool_decide (bst_Results (bt_Status backtest) = None)
                 then adoptAndParseResults backtest else mret (Ok (None, None, false)));
      match adopted with
      | Err err =>
          failReconcile backtest ConditionResultsAvailable ReasonReconcileError
            ("failed to adopt results ConfigMap: " ^^ Error err) (Some err)
      | Ok (results, resultsCondition, resultsRequeue) =>
          recordOutcome backtest workload jobName results resultsCondition resultsRequeue
      end
  end.

(** A Backtest that is neither deleted nor without finalizer. *)
Definition reconcileRun (backtest : Backtest) : Op Result :=
  jobName ← reconcileResources backtest;
  match jobName with
  | Err err =>
      failReconcile backtest ConditionConfigResolved
        (if IsNotFound err then ReasonReferenceNotFound else ReasonReconcileError)
        ("failed to reconcile resources: " ^^ Error err) (Some err)
  | Ok jobName => followJob backtest jobName
  end.

Definition with_bt_finalizers (b : Backtest) (f : list string) : Backtest :=
  {| bt_Meta := with_Finalizers (bt_Meta b) f; bt_Spec := bt_Spec b; bt_Status := bt_Status b |}.

Definition update_finalizers (b : Backtest) (f : list string) (d : Z) : Op Result :=
  upd ← trigger (Update KBacktest (with_bt_finalizers b f));
  mret match upd with Err err => (secs 5, Some err) | Ok _ => (d, None) end.

Definition reconcileDeletion (backtest : Backtest) : Op Result :=
  if ContainsFinalizer (Finalizers (bt_Meta backtest)) BacktestFinalizer then
    fin ← finalizeBacktest backtest;
    match fin with
    | Err err => mret (secs 10, Some err)
    | Ok _ => update_finalizers backtest (RemoveFinalizer (Finalizers (bt_Meta backtest)) BacktestFinalizer) 0
    end
  else mret (0%Z, None).

Definition Reconcile (key : NamespacedName) : Op Result :=
  got ← trigger (Get KBacktest key);
  match got with
  | Err err => mret (0%Z, IgnoreNotFound err)
  | Ok backtest =>
      match DeletionTimestamp (bt_Meta backtest) with
      | Some _ => reconcileDeletion backtest
      | None =>
          if negb (ContainsFinalizer (Finalizers (bt_Meta backtest)) BacktestFinalizer) then
            update_finalizers backtest (AddFinalizer (Finalizers (bt_Meta backtest)) BacktestFinalizer) (secs 5)
          else reconcileRun backtest
      end
  end.
End Backtest.
