(* ===== verification/BacktestProofs.v ===== *)
(** * The Backtest reconciler: its properties *)

From S2P Require Import Prelude Prog GoLib Kube Types ConfigTypes Client Shared ConfigBuilder.
From S2P Require Import BacktestResources Backtest.

(** ** Which calls each part makes *)

Section Emits.
Context `{KubeLib} `{GoLib} (r : Reconciler) (P : ∀ X, Call X → Prop).

Lemma bt_fail_emits b ty reason msg err :
  P _ (Get KBacktest (bt_key b)) → (∀ o, P _ (StatusUpdate KBacktest o)) →
  (∀ k key ty reason msg, P _ (Event k key ty reason msg)) → (∀ c reason, P _ (ReconcileErrorsInc c reason)) →
  emits P (failReconcile r b ty reason msg err).
Proof.
  intros HG HU HE HI. apply emits_bind; [by apply (patch_status_emits KBacktest)|]. intros [b' [u|e]]; [|done].
  apply emits_bind; [unfold record_event; case_match; by try split|]. intros ?. by split.
Qed.

Lemma record_emits b w job res cond req :
  P _ (Get KBacktest (bt_key b)) → (∀ o, P _ (StatusUpdate KBacktest o)) →
  emits P (recordOutcome b w job res cond req).
Proof. intros HG HU. apply emits_bind; [by apply (patch_status_emits KBacktest)|]. by intros [b' [u|e]]. Qed.

Lemma bt_finalize_emits b :
  (∀ key, P _ (Get KPersistentVolumeClaim key)) → (∀ o, P _ (Update KPersistentVolumeClaim o)) → P _ Now →
  emits P (finalizeBacktest b).
Proof.
  intros HG HU HN. unfold finalizeBacktest. case_match; [done|]. split; [done|]. intros [pvc|e]; [|done].
  split; [done|]. intros now. by split.
Qed.

Lemma adopt_emits b :
  P _ (Get KConfigMap (results_cm_key b)) → (∀ o, P _ (Update KConfigMap o)) → emits P (adoptAndParseResults b).
Proof.
  intros HG HU. split; [done|]. intros [cm|e]; [|done]. apply emits_bind_ok; [|done]. apply emits_wrapping.
  unfold ensureOwned. case_match; [done|]. case_match; [|done]. by split.
Qed.

(** Everything after the resources. *)
Lemma follow_emits b job :
  P _ (Get KJob (bt_key b)) → P _ (Get KBacktest (bt_key b)) → P _ (Get KConfigMap (results_cm_key b)) →
  (∀ o, P _ (StatusUpdate KBacktest o)) → (∀ o, P _ (Update KConfigMap o)) →
  (∀ k key ty reason msg, P _ (Event k key ty reason msg)) → (∀ c reason, P _ (ReconcileErrorsInc c reason)) →
  emits P (followJob r b job).
Proof.
  intros HJ HG HM HU HC HE HI. apply emits_bind; [by split|]. intros [w|e]; [|by apply bt_fail_emits]. apply emits_bind.
  { case_match; [by apply adopt_emits|done]. }
  intros [[[res cond] req]|e]; [by apply record_emits|by apply bt_fail_emits].
Qed.
End Emits.

(** ** The calls of a reconcile *)

Definition run_kinds : list kind :=
  [KSecret; KConfigMap; KPersistentVolumeClaim; KServiceAccount; KRole; KRoleBinding; KJob].

(** Shared by the runs of a namespace, so owned by none. *)
Definition unowned_kinds : list kind := [KServiceAccount; KRole; KRoleBinding].

(** The objects of a run [n], by kind and name. *)
Definition run_object (n : string) (k : kind) (name : string) : Prop :=
  match k with
  | KSecret => name = n ^^ "-config"
  | KConfigMap => name = n ^^ "-strategy"
  | KPersistentVolumeClaim => name = n ^^ "-results"
  | KJob => name = n
  | KServiceAccount | KRole | KRoleBinding => name = SidecarServiceAccountName
  | _ => False
  end.

(** What a reconcile of a live Backtest may call: reads in its namespace, the
    apply of the objects of its run, the adoption of a ConfigMap, its status. *)
Definition run_call (b : Backtest) {X} (c : Call X) : Prop :=
  match c with
  | Get _ key => nn_Namespace key = Namespace (bt_Meta b)
  | Patch k o =>
      run_object (Name (bt_Meta b)) k (Name (obj_Meta k o)) ∧ Namespace (obj_Meta k o) = Namespace (bt_Meta b) ∧
      (if decide (k ∈ unowned_kinds) then OwnerReferences (obj_Meta k o) = []
       else owner_of b ∈ OwnerReferences (obj_Meta k o))
  | Update k _ => k = KConfigMap
  | StatusUpdate k _ => k = KBacktest
  | Event _ _ _ _ _ | ReconcileErrorsInc _ _ | RandRead _ => True
  | _ => False
  end.

(** ** The outcome on record

    A run is over when the WorkloadReady condition of its status gives one of
    two reasons. *)

Definition outcome_reason (success : bool) : string :=
  if success then ReasonWorkloadSucceeded else ReasonWorkloadFailed.

Section Recorded.
Context `{KubeLib}.

Definition concluded (s : BacktestStatus) (success : bool) : Prop :=
  ∃ c, FindStatusCondition (bst_Conditions s) ConditionWorkloadReady = Some c ∧ cReason c = outcome_reason success.

(** [w] is the outcome the status of [b] records. *)
Definition recorded_as (b : Backtest) (w : workloadStatus) : Prop :=
  concluded (bt_Status b) (succeeded w) ∧ failed w = negb (succeeded w) ∧ running w = false ∧ requeueAfter w = 0%Z ∧
  message w = bst_Message (bt_Status b) ∧ startTime w = bst_StartTime (bt_Status b) ∧
  completionTime w = bst_CompletionTime (bt_Status b).

Lemma recordedOutcome_as b w : recordedOutcome b = Some w → recorded_as b w.
Proof.
  unfold recordedOutcome. destruct (FindStatusCondition _ _) as [c|] eqn:Hc; [|done].
  destruct (String.eqb_spec (cReason c) ReasonWorkloadSucceeded) as [Hr|_].
  { intros [= <-]. split; [exists c; split; [exact Hc|exact Hr]|done]. }
  destruct (String.eqb_spec (cReason c) ReasonWorkloadFailed) as [Hr|_]; [|done].
  intros [= <-]. split; [exists c; split; [exact Hc|exact Hr]|done].
Qed.

Lemma concluded_recorded b success :
  concluded (bt_Status b) success → ∃ w, recordedOutcome b = Some w ∧ succeeded w = success.
Proof.
  intros (c & Hc & Hr). unfold recordedOutcome. rewrite Hc, Hr. destruct success; cbn; by eexists.
Qed.

Lemma recordedOutcome_none b : recordedOutcome b = None ↔ ∀ success, ¬ concluded (bt_Status b) success.
Proof.
  split.
  - intros Hn success Hc. destruct (concluded_recorded b success Hc) as (w & Hw & _). by rewrite Hn in Hw.
  - intros Hn. destruct (recordedOutcome b) as [w|] eqn:Hw; [|done].
    destruct (recordedOutcome_as b w Hw) as [Hc _]. by destruct (Hn _ Hc).
Qed.
End Recorded.

Section Run.
Context `{KubeLib} `{GoLib} (r : Reconciler).

Lemma owned_run b what k o :
  run_object (Name (bt_Meta b)) k (Name (obj_Meta k o)) → k ∉ unowned_kinds → OwnerReferences (obj_Meta k o) = [] →
  Namespace (obj_Meta k o) = Namespace (bt_Meta b) → emits (fun _ c => run_call b c) (apply_owned b what k o).
Proof.
  intros Hk Hu Ho Hn. apply emits_wrapping. destruct (Apply_fresh (owner_of b) k o Ho) as (refs & Hin & ->).
  split; [|done]. cbn -[run_object unowned_kinds]. rewrite obj_Meta_with, decide_False by done. done.
Qed.

Lemma create_run b : emits (fun _ c => run_call b c) (createResources r b).
Proof.
  unfold createResources. apply emits_bind_ok.
  { apply emits_bind_ok; [by split|]. intros s. apply emits_bind_ok; [by split|]. done. }
  intros refs. apply emits_bind_ok; [apply emits_wrapping, BuildConfig_emits; [by intros|done]|]. intros data.
  apply emits_bind_ok; [apply owned_run; [done|set_solver|done|done]|]. intros s.
  apply emits_bind_ok; [apply owned_run; [done|set_solver|done|done]|]. intros cm.
  apply emits_bind_ok; [apply owned_run; [done|set_solver|done|done]|]. intros pvc.
  apply emits_bind_ok.
  { apply emits_wrapping. do 3 (apply emits_bind_ok; [split; [|done]; split; [done|]; split; [done|]; by rewrite decide_True by set_solver|]; intros ?). done. }
  intros ?. apply emits_bind_ok; [apply owned_run; [done|set_solver|done|done]|]. done.
Qed.

Lemma resources_run b : emits (fun _ c => run_call b c) (reconcileResources r b).
Proof.
  split; [done|]. intros [job|e]; [done|]. cbn -[createResources]. case_match; [done|].
  case_match; [done|apply create_run].
Qed.

Lemma create_in_order b : applies_in_order run_kinds (createResources r b).
Proof.
  assert (∀ what k o, OwnerReferences (obj_Meta k o) = [] → applies_in_order [k] (apply_owned b what k o)) as Hown.
  { intros. by apply in_order_wrapping, in_order_Apply. }
  unfold createResources. apply (in_order_bind []); [apply in_order_quiet|intros refs].
  { apply emits_bind_ok; [done|]. intros s. by apply emits_bind_ok. }
  apply (in_order_bind []); [by apply in_order_quiet, emits_wrapping, BuildConfig_emits|]. intros data.
  apply (in_order_bind [_]); [by apply Hown|]. intros s.
  apply (in_order_bind [_]); [by apply Hown|]. intros cm.
  apply (in_order_bind [_]); [by apply Hown|]. intros pvc.
  apply (in_order_bind [_; _; _]); [|intros u; apply (in_order_bind [_]); [by apply Hown|]; intros j; apply in_order_ret].
  apply in_order_wrapping. unfold ensureSidecarRBAC.
  do 3 (apply (in_order_bind [_]); [apply in_order_wrapping, in_order_Patch|]; intros ?). apply in_order_ret.
Qed.

(** The resources of a run: nothing is applied unless the Job was read absent
    and no outcome is recorded. *)
Definition may_create (b : Backtest) (h : history Call) : Prop :=
  (∀ success, ¬ concluded (bt_Status b) success) ∧ ∃ e, Ev (Get KJob (bt_key b)) (Err e) ∈ h ∧ IsNotFound e = true.

Definition created_once (b : Backtest) (h : history Call) : Prop :=
  applied_so_far h ≠ [] → may_create b h ∧ applied_so_far h `prefix_of` run_kinds.

Lemma resources_spec b h :
  applied_so_far h = [] → wp (reconcileResources r b) h (fun h' _ => created_once b h').
Proof.
  intros Hh got. set (g := Ev _ got).
  assert (applied_so_far (h ++ [g]) = []) as Hg by (unfold applied_so_far in *; by rewrite omap_app, Hh).
  assert (created_once b (h ++ [g])) as Hret by done.
  destruct got as [job|e]; [exact Hret|]. cbn -[wp createResources].
  destruct (IsNotFound e) eqn:He; cbn -[wp createResources]; [|exact Hret].
  destruct (recordedOutcome b) eqn:Ho; [exact Hret|].
  eapply wp_mono; [|apply (wp_conj _ _ _ _ (create_in_order b _) (wp_extends _ _))].
  intros h' res [(l & Hl & Hh' & _) Hpre] _. split.
  - split; [by apply (proj1 (recordedOutcome_none b))|]. exists e. split; [|done]. eapply elem_of_prefix; [|exact Hpre]. apply elem_of_app; right; by left.
  - by rewrite Hh', Hg.
Qed.

Lemma created_once_extend b h h' :
  h `prefix_of` h' → applied_so_far h' = applied_so_far h → created_once b h → created_once b h'.
Proof.
  intros Hpre Heq Hh Hne. rewrite Heq in *. destruct (Hh Hne) as [(Ho & e & Hin & He) Hk].
  split; [|done]. split; [done|]. exists e. split; [by eapply elem_of_prefix|done].
Qed.

Lemma run_creates_once b h :
  applied_so_far h = [] → wp (reconcileRun r b) h (fun h' _ => created_once b h').
Proof.
  intros Hh. apply wp_bind. eapply wp_mono; [|by apply resources_spec]. intros h1 job Hh1.
  assert (∀ A (p : Op A), emits (@no_apply) p → wp p h1 (fun h' _ => created_once b h')) as Hrest.
  { intros A p Hp. eapply wp_mono; [|apply (wp_conj _ _ _ _ (no_apply_same p h1 Hp) (wp_extends p h1))].
    intros h' ? [Heq Hpre]. by eapply created_once_extend. }
  destruct job as [job|e]; [by apply Hrest, follow_emits|by apply Hrest, bt_fail_emits].
Qed.
End Run.

(** ** The recorded outcome *)

(** Two condition types of the sources are different. *)
Ltac cond_ne := let E := fresh in intros E; vm_compute in E; discriminate E.

Section Outcome.
Context `{KubeLib} `{GoLib} (r : Reconciler).

Lemma success_workload_condition b w job res cond s :
  (∀ c, cond = Some c → cType c = ConditionResultsAvailable) →
  FindStatusCondition (bst_Conditions (success_status b w job res cond s)) ConditionWorkloadReady =
    Some (Cond ConditionWorkloadReady (conditionStatusAndReason w).1 (conditionStatusAndReason w).2 (message w)).
Proof.
  intros Hc. unfold success_status, set_condition. cbn [bst_Conditions with_conditions].
  assert (∀ cs, FindStatusCondition (SetStatusCondition (SetStatusCondition cs
      (Cond ConditionWorkloadReady (conditionStatusAndReason w).1 (conditionStatusAndReason w).2 (message w)))
      (Cond ConditionReady (conditionStatusAndReason w).1 (conditionStatusAndReason w).2 (message w)))
      ConditionWorkloadReady =
    Some (Cond ConditionWorkloadReady (conditionStatusAndReason w).1 (conditionStatusAndReason w).2 (message w))) as Hs.
  { intros cs. rewrite find_set_ne by cond_ne. apply (find_set_eq _ (Cond ConditionWorkloadReady _ _ _)). }
  destruct cond as [c|]; cbn [bst_Conditions with_conditions]; [|apply Hs].
  rewrite find_set_ne; [apply Hs|]. rewrite (Hc _ eq_refl). cond_ne.
Qed.

Lemma fail_workload_condition ty reason msg s :
  ty ≠ ConditionWorkloadReady →
  FindStatusCondition (bst_Conditions (fail_status ty reason msg s)) ConditionWorkloadReady =
  FindStatusCondition (bst_Conditions s) ConditionWorkloadReady.
Proof.
  intros Hty. unfold fail_status, set_phase, set_condition. cbn [bst_Conditions with_conditions].
  rewrite find_set_ne by cond_ne. by apply find_set_ne.
Qed.

Lemma parse_results_type cm g : cType (parse_results cm g).2 = ConditionResultsAvailable.
Proof. unfold parse_results. by repeat case_match. Qed.

Lemma adopt_condition b h :
  wp (adoptAndParseResults b) h (fun _ res => ∀ results cond req, res = Ok (results, cond, req) →
    ∀ c, cond = Some c → cType c = ConditionResultsAvailable).
Proof.
  intros [cm|e].
  - cbn -[wp ensureOwned wrapping]. apply wp_bind_ok, wp_wrapping. eapply wp_mono; [|apply wp_extends].
    intros h' [cm'|e] _; cbn; [|done]. intros ? ? ? [= <- <- <-] ? [= <-]. apply parse_results_type.
  - cbn. case_match; [|done]. by intros ? ? ? [= <- <- <-].
Qed.

(** The status keeps the outcome: WorkloadReady is as stored, or again has
    the status and reason of that outcome, and the phase with it. *)
Definition keeps_outcome (success : bool) (old new : BacktestStatus) : Prop :=
  FindStatusCondition (bst_Conditions new) ConditionWorkloadReady =
    FindStatusCondition (bst_Conditions old) ConditionWorkloadReady ∨
  (∃ c, FindStatusCondition (bst_Conditions new) ConditionWorkloadReady = Some c ∧ cReason c = outcome_reason success ∧
     cStatus c = if success then ConditionTrue else ConditionFalse) ∧
  bst_Phase new = if success then "Succeeded" else "Failed".

(** The status writes of a history, from objects read in it under the key of
    [b]. *)
Definition writes_keep (b : Backtest) (w : bool) (h : history Call) : Prop :=
  ∀ o x, Ev (StatusUpdate KBacktest o) x ∈ h →
    ∃ o0, Ev (Get KBacktest (bt_key b)) (Ok o0) ∈ h ∧ bt_Meta o = bt_Meta o0 ∧ bt_Spec o = bt_Spec o0 ∧
      keeps_outcome w (bt_Status o0) (bt_Status o).

Definition no_status_write {X} (c : Call X) : Prop :=
  match c with StatusUpdate k _ => k ≠ KBacktest | _ => True end.

Lemma writes_keep_app b w h h' : writes_keep b w h → writes_keep b w h' → writes_keep b w (h ++ h').
Proof.
  intros H1 H2 o x [Hin|Hin]%elem_of_app; [destruct (H1 _ _ Hin) as (o0 & Hget & Hk)|
    destruct (H2 _ _ Hin) as (o0 & Hget & Hk)]; exists o0; (split; [apply elem_of_app; auto|done]).
Qed.

Lemma writes_keep_quiet b w h : Forall (ev_sat (@no_status_write)) h → writes_keep b w h.
Proof. intros Hh o x Hin. rewrite Forall_forall in Hh. by apply Hh in Hin. Qed.

Lemma quiet_keeps {A} b w (p : Op A) h :
  emits (@no_status_write) p → writes_keep b w h → wp p h (fun h' _ => writes_keep b w h').
Proof.
  intros Hp Hh. eapply wp_mono; [|by apply emits_wp_app]. intros h' a (h1 & -> & Hh1).
  by apply writes_keep_app, writes_keep_quiet.
Qed.

Lemma patch_keeps w b f h :
  (∀ s, keeps_outcome w s (f s)) → writes_keep b w h → wp (patch_status KBacktest b f) h (fun h' _ => writes_keep b w h').
Proof.
  intros Hf Hh. eapply wp_mono; [|apply (patch_status_spec KBacktest)].
  intros h' [bu res] (h1 & -> & Hh1 & _). apply writes_keep_app; [done|]. intros o x Hin.
  destruct (Hh1 _ _ Hin) as (o0 & Hget & ->). exists o0. split_and!; [done..|].
  destruct (Hf (bt_Status o0)) as [Hk|[(c & Hk) Hph]]; [by left|right]. split; [by exists c|done].
Qed.

Lemma fail_keeps w b ty reason msg err h :
  ty ≠ ConditionWorkloadReady → writes_keep b w h →
  wp (failReconcile r b ty reason msg err) h (fun h' _ => writes_keep b w h').
Proof.
  intros Hty Hh. apply wp_bind. eapply wp_mono.
  2: { apply (patch_keeps w); [|exact Hh]. intros s. left. by apply fail_workload_condition. }
  intros h1 [b' [u|e]] Hh1; [|exact Hh1]. apply quiet_keeps; [|done].
  apply emits_bind; [unfold record_event; case_match; by try split|]. intros ?. by split.
Qed.

(** Every Job read so far answered that there is none. *)
Definition job_reaped (b : Backtest) (h : history Call) : Prop :=
  ∀ x, Ev (Get KJob (bt_key b)) x ∈ h → ∃ e, x = Err e ∧ IsNotFound e = true.

Lemma success_keeps b w job res cond s :
  (∀ c, cond = Some c → cType c = ConditionResultsAvailable) → failed w = negb (succeeded w) →
  keeps_outcome (succeeded w) s (success_status b w job res cond s).
Proof.
  intros Hc Hw. right. rewrite (success_workload_condition b w job res cond s Hc).
  cbn. unfold conditionStatusAndReason, deriveBacktestPhase. rewrite Hw. destruct (succeeded w); (split; [by eexists|done]).
Qed.

(** What follows the Job's outcome keeps it, if the Job is gone. *)
Lemma follow_keeps w b job h :
  recordedOutcome b = Some w → writes_keep b (succeeded w) h →
  wp (followJob r b job) h (fun h' _ => job_reaped b h' → writes_keep b (succeeded w) h').
Proof.
  intros Ho Hh. destruct (recordedOutcome_as b w Ho) as (_ & Hw & _).
  intros g. cbn -[wp failReconcile adoptAndParseResults recordOutcome]. set (ev := Ev (Get KJob (bt_key b)) g).
  assert (writes_keep b (succeeded w) (h ++ [ev])) as He.
  { apply writes_keep_app; [done|]. intros o x Hin. apply list_elem_of_singleton in Hin. subst ev. ev_discr. }
  assert (∀ (p : Op Result) h1, wp p h1 (fun h' _ => writes_keep b (succeeded w) h') →
     wp p h1 (fun h' _ => job_reaped b h' → writes_keep b (succeeded w) h')) as Hdrop.
  { intros p h1. apply wp_mono. auto. }
  assert (∀ (p : Op Result), (∀ e, g ≠ Err e ∨ IsNotFound e = false) →
     wp p (h ++ [ev]) (fun h' _ => job_reaped b h' → writes_keep b (succeeded w) h')) as Hnot.
  { intros p Hg. eapply wp_mono; [|apply wp_extends]. intros h' ? Hpre Hr.
    destruct (Hr g) as (e' & Hge & Hn).
    { eapply elem_of_prefix; [|exact Hpre]. apply elem_of_app; right; by left. }
    destruct (Hg e') as [?|Hf]; congruence. }
  destruct g as [j|err]; [by apply Hnot; left|].
  destruct (IsNotFound err) eqn:Herr; [|apply Hnot; intros e'; destruct (decide (e' = err)) as [->|]; [by right|left; congruence]].
  rewrite Ho. cbn -[wp failReconcile adoptAndParseResults recordOutcome]. apply Hdrop, wp_bind.
  apply (wp_mono _ _ (fun h' res => writes_keep b (succeeded w) h' ∧ ∀ results cond req, res = Ok (results, cond, req) →
    ∀ c, cond = Some c → cType c = ConditionResultsAvailable)).
  - intros h1 [[[res cond] req]|e'] [Hh1 Hc].
    + apply wp_bind. eapply wp_mono; [|apply (patch_keeps (succeeded w))].
      * intros h2 [b' [u|e']] Hh2; exact Hh2.
      * intros s. apply success_keeps; [by eapply Hc|done].
      * done.
    + by apply fail_keeps; [cond_ne|].
  - case_match.
    + apply wp_conj; [|apply adopt_condition]. apply quiet_keeps; [by apply adopt_emits|done].
    + split; [done|]. by intros ? ? ? [= <- <- <-].
Qed.
End Outcome.

(** An Update of a Backtest keeps our finalizer. *)
Definition holds_finalizer {X} (c : Call X) : Prop :=
  match c with
  | Update k o => (match k return Obj k → Prop with
                   | KBacktest => fun b => BacktestFinalizer ∈ Finalizers (bt_Meta b)
                   | _ => fun _ => True
                   end) o
  | _ => True
  end.

Definition keeps_finalizer (e : event Call) : Prop := ev_sat (@holds_finalizer) e.

(** ** Theorems *)

Section Properties.
Context `{KubeLib} `{GoLib} (r : Reconciler).

(** C28: a Backtest runs once: a reconcile applies anything at all only if it
    has read the Job absent and the Backtest it read records no outcome - its
    WorkloadReady condition gives neither of the two final reasons -, and
    then the objects of the run in a fixed order - Secret, ConfigMap and PVC,
    the sidecar's identity, the Job last - each once. *)
Theorem run_created_once key :
  wp (Reconcile r key) [] (fun h _ => applied_so_far h ≠ [] →
    ∃ b e, Ev (Get KBacktest key) (Ok b) ∈ h ∧ DeletionTimestamp (bt_Meta b) = None ∧
      (∀ success, ¬ concluded (bt_Status b) success) ∧ Ev (Get KJob (bt_key b)) (Err e) ∈ h ∧ IsNotFound e = true ∧
      applied_so_far h `prefix_of` run_kinds).
Proof.
  set (Q := fun h _ => _).
  assert (∀ g (p : Op Result), applied_so_far [g] = [] → emits (@no_apply) p → wp p [g] Q) as Hquiet.
  { intros g p Hg Hp. eapply wp_mono; [|by apply no_apply_same]. intros h res Hh Hne. congruence. }
  intros [b|e]; cbn -[wp reconcileDeletion update_finalizers reconcileRun]; [|by intros []].
  destruct (DeletionTimestamp (bt_Meta b)) as [dt|] eqn:Hd.
  { apply Hquiet; [done|]. unfold reconcileDeletion. case_match; [|done].
    apply emits_bind; [by apply bt_finalize_emits|]. intros [u|e]; [|done]. by split. }
  case_match; [by apply Hquiet|].
  eapply wp_mono; [|apply (wp_conj _ _ _ _ (run_creates_once r b [Ev (Get KBacktest key) (Ok b)] eq_refl) (wp_extends _ _))].
  intros h res [Hh Hpre] Hne. destruct (Hh Hne) as [(Ho & e & Hin & He) Hk].
  exists b, e. split_and!; try done. eapply elem_of_prefix; [|exact Hpre]. by left.
Qed.

(** C31: the outcome of a run survives its Job: once the WorkloadReady
    condition of the status gives success or failure as its reason and the
    Job has been reaped (spec.ttlSecondsAfterFinished), a reconcile applies
    nothing again, and every status write is of the Backtest as just read
    under its own key and keeps that condition as stored or writes the same
    outcome - success with status True and phase Succeeded, failure with False
    and Failed -, so later reconciles see it too. *)
Theorem reaped_job_keeps_outcome b success :
  concluded (bt_Status b) success →
  wp (reconcileRun r b) [] (fun h _ => job_reaped b h → applied_so_far h = [] ∧ writes_keep b success h).
Proof.
  intros Hc. destruct (concluded_recorded b success Hc) as (w & Ho & <-).
  apply (wp_mono _ _ (fun h _ => created_once b h ∧ (job_reaped b h → writes_keep b (succeeded w) h))).
  { intros h _ [Hh Hk] Hr. split; [|by apply Hk]. destruct (decide (applied_so_far h = [])) as [|Hne]; [done|].
    destruct (Hh Hne) as [[Hn _] _]. by destruct (Hn _ Hc). }
  apply wp_conj; [by apply run_creates_once|].
  intros g. set (ev := Ev (Get KJob (bt_key b)) g).
  assert (writes_keep b (succeeded w) [ev]) as He by (intros o x Hin; apply list_elem_of_singleton in Hin; subst ev; ev_discr).
  destruct g as [job|err]; [by apply follow_keeps|]. cbn -[wp followJob failReconcile createResources].
  destruct (IsNotFound err); cbn -[wp followJob failReconcile createResources].
  - rewrite Ho. by apply follow_keeps.
  - eapply wp_mono; [|apply (fail_keeps r (succeeded w)); [cond_ne|exact He]]. auto.
Qed.

(** A read of the Job that fails for any reason but absence makes the status
    forget the recorded outcome - and the next reconcile that finds the Job
    absent runs the Backtest again. *)
Lemma failed_job_read_forgets_outcome b msg s :
  recordedOutcome (bt_with_Status b (fail_status ConditionWorkloadReady ReasonReconcileError msg s)) = None.
Proof.
  unfold recordedOutcome, fail_status, set_phase, set_condition. cbn [bt_Status bt_with_Status bst_Conditions with_conditions].
  rewrite find_set_ne by cond_ne. by rewrite (find_set_eq _ (Cond ConditionWorkloadReady _ _ _)).
Qed.

(** What finalizeBacktest has done when it reports success. *)
Definition results_kept (b : Backtest) (h : history Call) : Prop :=
  (ResultsRetentionPolicy b = "Retain" →
     (∃ e, Ev (Get KPersistentVolumeClaim (results_pvc_key b)) (Err e) ∈ h ∧ IsNotFound e = true) ∨
     (∃ pvc old pvc', Ev (Get KPersistentVolumeClaim (results_pvc_key b)) (Ok old) ∈ h ∧
        Ev (Update KPersistentVolumeClaim pvc) (Ok pvc') ∈ h ∧ pvc = with_pvc_Meta old (pvc_Meta pvc) ∧
        ∀ ref, ref ∈ OwnerReferences (pvc_Meta pvc) ↔
               ref ∈ OwnerReferences (pvc_Meta old) ∧ or_UID ref ≠ UID (bt_Meta b))) ∧
  (ResultsRetentionPolicy b ≠ "Retain" → ∀ pvc x, Ev (Update KPersistentVolumeClaim pvc) x ∉ h).

Lemma results_kept_mono b h h' :
  (∀ e, e ∈ h → e ∈ h') →
  (∀ pvc x, Ev (Update KPersistentVolumeClaim pvc) x ∈ h' → Ev (Update KPersistentVolumeClaim pvc) x ∈ h) →
  results_kept b h → results_kept b h'.
Proof.
  intros Hsub Hback [Hr Hn]. split.
  - intros Hp. destruct (Hr Hp) as [(e & Hin & He)|(pvc & old & pvc' & Hg & Hu & Hs)]; [left|right]; eauto 10.
  - intros Hp pvc x Hin. by eapply (Hn Hp), Hback.
Qed.

Lemma bt_finalize_spec b :
  wp (finalizeBacktest b) [] (fun h res => is_ok res = true → results_kept b h).
Proof.
  unfold finalizeBacktest. destruct (String.eqb_spec (ResultsRetentionPolicy b) "Retain") as [Hp|Hp]; cbn [negb].
  2: { intros _. split; [done|]. by intros _ pvc x Hin%elem_of_nil. }
  intros [old|e]; cbn -[wp results_pvc_key].
  - intros now [pvc'|e]; cbn; [|done]. intros _. split; [|done]. intros _. right.
    eexists _, old, pvc'. split_and!; [by left|by right; right; left|done|].
    intros ref. cbn. by rewrite list_elem_of_In, List.filter_In, <- list_elem_of_In, negb_true_iff, String.eqb_neq.
  - intros Hok. split; [|done]. intros _. left. exists e. split; [by left|]. by destruct (IsNotFound e).
Qed.

(** C32: spec.results.retentionPolicy: the finalizer of a Backtest is removed
    only under deletion, and with Retain only when its results PVC is gone or
    has been stored without the Backtest's owner references, so the garbage
    collector leaves it behind; with any other policy no PVC is touched. *)
Theorem retained_before_release key :
  wp (Reconcile r key) [] (fun h _ => ∀ b' x,
    Ev (Update KBacktest b') x ∈ h → BacktestFinalizer ∉ Finalizers (bt_Meta b') →
    ∃ b dt, Ev (Get KBacktest key) (Ok b) ∈ h ∧ DeletionTimestamp (bt_Meta b) = Some dt ∧ results_kept b h).
Proof.
  set (Q := fun h _ => _).
  assert (∀ g (p : Op Result), keeps_finalizer g → emits (@holds_finalizer) p → wp p [g] Q) as Hkeep.
  { intros g p Hg Hp. eapply wp_mono; [|by apply emits_wp_app]. intros h res (h1 & -> & Hh1) b' x Hin Hb.
    destruct Hb. apply elem_of_app in Hin as [Hin%list_elem_of_singleton|Hin]; [by rewrite <- Hin in Hg|].
    rewrite Forall_forall in Hh1. by specialize (Hh1 _ Hin). }
  intros got. set (g := Ev (Get KBacktest key) got).
  assert (keeps_finalizer g) as Hg by done.
  destruct got as [b|e]; cbn -[wp reconcileDeletion update_finalizers reconcileRun]; [|by apply (Hkeep _ (mret _))].
  destruct (DeletionTimestamp (bt_Meta b)) as [dt|] eqn:Hd.
  - unfold reconcileDeletion. destruct (ContainsFinalizer _ _); [|by apply (Hkeep _ (mret _))].
    apply wp_bind, wp_frame. eapply wp_mono; [|apply (wp_conj _ _ _ _ (bt_finalize_spec b) (emits_wp (@holds_finalizer) _ ltac:(by apply bt_finalize_emits)))].
    intros h1 [u|e] [Hok Hh1].
    2: { intros b' x [Hin%list_elem_of_singleton|Hin]%elem_of_app Hb; [destruct Hb; by rewrite <- Hin in Hg|].
         rewrite Forall_forall in Hh1. by specialize (Hh1 _ Hin). }
    intros upd b' x _ _. exists b, dt. split_and!; [apply elem_of_app; left; apply elem_of_app; left; by left|done|].
    eapply results_kept_mono; [..|by apply Hok].
    + intros e' He'. apply elem_of_app; left. apply elem_of_app; by right.
    + intros pvc y [[Hin%list_elem_of_singleton|Hin]%elem_of_app|Hin%list_elem_of_singleton]%elem_of_app;
        [subst g; ev_discr|done|apply (f_equal ev_written) in Hin; discriminate Hin].
  - case_match; (apply Hkeep; [done|]).
    + split; [|by intros [?|?]]. cbn. apply elem_of_add_finalizer. by right.
    + unfold reconcileRun. apply emits_bind; [|intros [job|e]; [by apply follow_emits|by apply bt_fail_emits]].
      apply (emits_mono (fun _ c => run_call b c)); [|by apply resources_run].
      intros X c. destruct c as [| | |k o| | | | | | | | | | | |]; try done. intros Hk. cbn in Hk |- *. by destruct k.
Qed.

Lemma run_calls b : emits (fun _ c => run_call b c) (reconcileRun r b).
Proof.
  apply emits_bind; [by apply resources_run|]. intros [job|e]; [by apply follow_emits|by apply bt_fail_emits].
Qed.

(** A reconcile of a live Backtest touches nothing that is not its run's:
    it applies the run's own objects, in its namespace and with it as
    controller, except the sidecar's identity, which all runs of the namespace
    share and none owns; it adopts a ConfigMap and writes its status, and
    never deletes or creates anything else. *)
Theorem run_stays_in_bounds b : emits (fun _ c => run_call b c) (reconcileRun r b).
Proof. apply run_calls. Qed.
End Properties.

(** ** A finished run *)

Module Example.
#[local] Existing Instance kubelib_instance.
#[local] Existing Instance golib_instance.

Definition finished : Backtest :=
  {| bt_Meta := NewMeta "run" "default" ∅ ∅;
     bt_Spec :=
       {| bt_RunSpec := {| run_ConfigRef := {| lor_Name := "cfg" |}; run_StrategyRef := {| lor_Name := "strat" |};
                           run_Timerange := ""; run_Timeframe := ""; run_Pairs := []; run_Data := None;
                           run_Results := None; run_Pod := None; run_TTLSecondsAfterFinished := None;
                           run_ExtraArgs := [] |};
          bt_TimeframeDetail := ""; bt_MaxOpenTrades := None; bt_StakeAmount := ""; bt_DryRunWallet := None;
          bt_Fee := None; bt_EnableProtections := None; bt_Breakdown := []; bt_Cache := "" |};
     bt_Status :=
       {| bst_Phase := "Failed"; bst_Message := "Job failed; check pod logs";
          bst_Conditions := [Cond ConditionWorkloadReady ConditionFalse ReasonWorkloadFailed ""];
          bst_ObservedGeneration := 0; bst_JobName := "run"; bst_ResultsPVCName := "run-results";
          bst_StartTime := None; bst_CompletionTime := None; bst_Results := None |} |}.

Definition reconciler : Reconciler := {| hasRecorder := true; DefaultImage := ""; OperatorImage := "operator" |}.

(** With every object gone, nothing is applied. *)
Lemma reaped_job_keeps_outcome_witness :
  applied_so_far (exec empty_env (reconcileRun reconciler finished)).2 = [].
Proof.
  assert (concluded (bt_Status finished) false) as Hc.
  { exists (Cond ConditionWorkloadReady ConditionFalse ReasonWorkloadFailed ""). split; reflexivity. }
  apply (exec_wp empty_env _ _ (reaped_job_keeps_outcome reconciler finished false Hc)).
  intros x Hx. apply exec_get in Hx as ->. exists NotFoundErr. split; reflexivity.
Defined.
End Example.
