(* ===== verification/Settled.v ===== *)
(** * A run in a healthy cluster

    What Healthy.v shows of bots, for the Backtest reconciler: in a cluster
    that holds what a run refers to, whose API server accepts what it is sent,
    a reconcile returns without an error, has applied all objects of the run
    or none of them, and records the outcome of the Job and the results the
    sidecar left; it asks to be called again exactly while something is
    missing ([run_settles]). *)

From S2P Require Import Prelude Prog GoLib Kube Types ConfigTypes Client Shared ConfigBuilder.
From S2P Require Import BacktestResources Backtest Convergence Healthy BacktestProofs.

(** ** Parts that cannot fail *)

Section Run.
Context `{KubeLib} `{GoLib} (r : Reconciler).

(** What the cluster holds of a run [b], read at [key]. *)
Record contents := {
  k_config : ConfigV1alpha1.TradeBotConfig;
  k_strategy : Strategy;
  k_secrets : string → gmap string string
}.

Context (key : NamespacedName) (b : Backtest) (K : contents).

Definition run_ref (r : LocalObjectReference) : NamespacedName :=
  {| nn_Name := lor_Name r; nn_Namespace := Namespace (bt_Meta b) |}.

(** The ConfigMap is the run's already, or it can become it. *)
Definition adoptable (cm : ConfigMap) : Prop :=
  existsb (fun ref => (or_UID ref =? UID (bt_Meta b))%string) (OwnerReferences (cm_Meta cm)) = true ∨
  is_ok (SetControllerReference (owner_of b) (OwnerReferences (cm_Meta cm))) = true.

(** The API server serves these and takes what it is sent; the Job and the
    results may be absent, the Job only until it has been applied or seen. *)
Record healthy (h : history Call) : Prop := {
  he_run x : Ev (Get KBacktest key) x ∈ h → x = Ok b;
  he_reread e : Ev (Get KBacktest (bt_key b)) (Err e) ∉ h;
  he_config x : Ev (Get KTradeBotConfig (run_ref (run_ConfigRef (run b)))) x ∈ h → x = Ok (k_config K);
  he_strategy x : Ev (Get KStrategy (run_ref (run_StrategyRef (run b)))) x ∈ h → x = Ok (k_strategy K);
  he_secrets : secrets_answered (Name (bt_Meta b)) (Namespace (bt_Meta b)) (k_secrets K) h;
  he_applied k o e : Ev (Patch k o) (Err e) ∉ h;
  he_status o e : Ev (StatusUpdate KBacktest o) (Err e) ∉ h;
  he_job e : Ev (Get KJob (bt_key b)) (Err e) ∈ h → IsNotFound e = true;
  he_sees h1 h2 o x e : h = h1 ++ h2 → Ev (Patch KJob o) (Ok x) ∈ h1 → Ev (Get KJob (bt_key b)) (Err e) ∉ h2;
  he_stays h1 h2 x e : h = h1 ++ h2 → Ev (Get KJob (bt_key b)) (Ok x) ∈ h1 → Ev (Get KJob (bt_key b)) (Err e) ∉ h2;
  he_results e : Ev (Get KConfigMap (results_cm_key b)) (Err e) ∈ h → IsNotFound e = true;
  he_free cm : Ev (Get KConfigMap (results_cm_key b)) (Ok cm) ∈ h → adoptable cm;
  he_adopted o x : Ev (Update KConfigMap o) x ∈ h →
    ∃ cm, x = Ok cm ∧ cm_Data cm = cm_Data o ∧ Name (cm_Meta cm) = Name (cm_Meta o)
}.

Lemma run_healthy_prefix h h' : h `prefix_of` h' → healthy h' → healthy h.
Proof.
  intros Hp [Hrun Hre Hcfg Hstr Hsec Happ Hst Hjob Hsees Hstays Hres Hfree Had].
  assert (∀ e, e ∈ h → e ∈ h') as Hin by (intros; by eapply elem_of_prefix).
  destruct Hp as [h3 ->].
  split; eauto using secrets_answered_prefix, prefix_app_r.
  1: intros e Hx%Hin; by eapply Hre.
  1: intros k o e Hx%Hin; by eapply Happ.
  1: intros o e Hx%Hin; by eapply Hst.
  1: intros h1 h2 o x e -> Ho Hget; apply (Hsees h1 (h2 ++ h3) o x e); [by rewrite app_assoc|done|apply elem_of_app; by left].
  intros h1 h2 x e -> Ho Hget. apply (Hstays h1 (h2 ++ h3) x e); [by rewrite app_assoc|done|apply elem_of_app; by left].
Qed.

Abbreviation fine := (fine healthy).

Lemma run_fine_apply what k o h :
  OwnerReferences (obj_Meta k o) = [] → fine (apply_owned b what k o) h (succeeds (fun _ _ => True)).
Proof.
  intros Ho. apply fine_wrapping. eapply fine_mono; [|apply (fine_Apply healthy)]; [|done|].
  - intros h' x _ _ (o' & -> & _). by exists o'.
  - intros h' o' e Hh. apply he_applied, Hh.
Qed.

Lemma fine_unowned what k o h : fine (wrapping what (ApplyUnowned k o)) h (succeeds (fun _ _ => True)).
Proof. apply fine_wrapping. intros [o'|e] Hh; [by exists o'|by destruct (he_applied _ Hh k _ _ (asked _ _ _))]. Qed.

Lemma run_fine_fetch h :
  fine (fetchReferencedObjects b) h (succeeds (fun _ x => x = (k_strategy K, k_config K))).
Proof.
  unfold fetchReferencedObjects.
  eapply fine_bind_ok; [apply run_healthy_prefix|apply fine_wrapping, (fine_read _ _ (k_strategy K)); intros x h0 Hh; apply (he_strategy _ Hh)|].
  intros h1 ? _ _ ->.
  eapply fine_bind_ok; [apply run_healthy_prefix|apply fine_wrapping, (fine_read _ _ (k_config K)); intros x h0 Hh; apply (he_config _ Hh)|].
  intros h2 ? _ _ ->. apply fine_ret. by eexists.
Qed.

Lemma run_fine_render h :
  renderable (Name (bt_Meta b)) (k_config K) (k_secrets K) →
  fine (BuildConfig (Name (bt_Meta b)) (Namespace (bt_Meta b)) (k_config K) []) h (succeeds (fun _ _ => True)).
Proof.
  intros Hr. eapply wp_mono; [|exact (renderable_renders _ (Namespace (bt_Meta b)) _ (k_secrets K) [] h Hr)].
  intros h' x Hx Hh. apply Hx, Hh.
Qed.

Lemma fine_create h :
  renderable (Name (bt_Meta b)) (k_config K) (k_secrets K) →
  fine (createResources r b) h (succeeds (fun _ job => job = Name (bt_Meta b))).
Proof.
  intros Hr. unfold createResources.
  eapply fine_bind_ok; [apply run_healthy_prefix|apply run_fine_fetch|]. intros h1 ? _ _ ->. cbv zeta. cbn [fst snd].
  eapply fine_bind_ok; [apply run_healthy_prefix|by apply fine_wrapping, run_fine_render|]. intros h2 files _ _ _.
  eapply fine_bind_ok; [apply run_healthy_prefix|by apply run_fine_apply|]. intros h3 secret _ _ _.
  eapply fine_bind_ok; [apply run_healthy_prefix|by apply run_fine_apply|]. intros h4 cm _ _ _.
  eapply fine_bind_ok; [apply run_healthy_prefix|by apply run_fine_apply|]. intros h5 pvc _ _ _.
  eapply (fine_bind_ok _ run_healthy_prefix _ _ _ (fun _ _ => True)); [apply fine_wrapping|intros h6 u _ _ _].
  { unfold ensureSidecarRBAC. do 3 (eapply fine_bind_ok; [apply run_healthy_prefix|apply fine_unowned|intros ? ? _ _ _]).
    apply fine_ret. intros _. by exists tt. }
  eapply fine_bind_ok; [apply run_healthy_prefix|by apply run_fine_apply|]. intros h7 job _ _ _. apply fine_ret. by eexists.
Qed.

(** ** The resources *)

(** All objects of the run were applied, or none. *)
Definition created (h : history Call) : Prop :=
  applied_so_far h = run_kinds ∧ (∀ success, ¬ concluded (bt_Status b) success) ∧ (∃ e, Ev (Get KJob (bt_key b)) (Err e) ∈ h) ∨
  applied_so_far h = [] ∧ ((∃ success, concluded (bt_Status b) success) ∨ ∃ job, Ev (Get KJob (bt_key b)) (Ok job) ∈ h).

Lemma created_mono h h' : h `prefix_of` h' → applied_so_far h' = applied_so_far h → created h → created h'.
Proof.
  intros Hp Ha. unfold created. rewrite Ha. intros [(Hk & Ho & e & Hin)|[Hk [Ho|[job Hin]]]].
  - left. split_and!; [done..|]. exists e. by eapply elem_of_prefix.
  - right. split; [done|by left].
  - right. split; [done|]. right. exists job. by eapply elem_of_prefix.
Qed.

Lemma run_fine_resources h :
  applied_so_far h = [] → renderable (Name (bt_Meta b)) (k_config K) (k_secrets K) →
  fine (reconcileResources r b) h (succeeds (fun h' job => job = Name (bt_Meta b) ∧ created h')).
Proof.
  intros Hh Hr got. set (g := Ev _ got).
  assert (applied_so_far (h ++ [g]) = []) as Hg by (unfold applied_so_far in *; by rewrite omap_app, Hh).
  destruct got as [job|e]; cbn -[wp createResources].
  { eexists. split; [done|]. split; [done|]. right. split; [done|]. right. exists job. apply asked. }
  destruct (IsNotFound e) eqn:He; cbn -[wp createResources].
  2: { intros Hh1. rewrite (he_job _ Hh1 e) in He; [done|apply asked]. }
  destruct (recordedOutcome b) as [w|] eqn:Ho.
  { intros _. eexists. split; [done|]. split; [done|]. right. split; [done|]. left. exists (succeeded w). by apply recordedOutcome_as. }
  eapply fine_mono; [|apply fine_and; [apply (create_in_order r b)|by apply fine_create]].
  intros h' res Hpre _ [(l & _ & Hl & Hall) (job & -> & ->)]. eexists. split; [done|]. split; [done|]. left.
  rewrite Hl, Hg, (Hall eq_refl). split_and!; [done|by apply (proj1 (recordedOutcome_none b))|]. exists e. eapply elem_of_prefix; [apply asked|exact Hpre].
Qed.

(** ** The Job and its results *)

Definition followed (h : history Call) (w : workloadStatus) : Prop :=
  (∃ job, Ev (Get KJob (bt_key b)) (Ok job) ∈ h ∧ w = workload_of_job job) ∨
  (recorded_as b w ∧ ∃ e, Ev (Get KJob (bt_key b)) (Err e) ∈ h).

Lemma followed_mono h h' w : h `prefix_of` h' → followed h w → followed h' w.
Proof.
  intros Hp [(job & Hin & Hw)|(Ho & e & Hin)]; [left; exists job|right; split; [done|]; exists e];
    try (split; [|done]); by eapply elem_of_prefix.
Qed.

(** What was applied has been applied. *)
Lemma applied_event k h : healthy h → k ∈ applied_so_far h → ∃ o x, Ev (Patch k o) (Ok x) ∈ h.
Proof.
  intros Hh ([X c x] & Hin & Hk)%list_elem_of_omap. destruct c; try discriminate Hk. injection Hk as ->.
  destruct x as [x|e]; [by eexists _, _|]. by destruct (he_applied _ Hh _ _ _ Hin).
Qed.

Lemma run_fine_workload h : created h → fine (computeWorkloadStatus b) h (succeeds followed).
Proof.
  intros Hc [job|e]; cbn.
  { intros _. eexists. split; [done|]. left. exists job. split; [apply asked|done]. }
  intros Hh. destruct (recordedOutcome b) as [w|] eqn:Ho.
  { rewrite (he_job _ Hh e (asked _ _ _)). eexists. split; [done|]. right. split; [by apply recordedOutcome_as|]. exists e. apply asked. }
  exfalso. destruct Hc as [(Ha & _)|[_ [[success Hs]|[job Hjob]]]]; [|by destruct (proj1 (recordedOutcome_none b) Ho _ Hs)|].
  - destruct (applied_event KJob h) as (o & x & Hin); [eapply run_healthy_prefix; [|exact Hh]; by apply prefix_app_r|rewrite Ha; set_solver|].
    eapply (he_sees _ Hh h _ o x e); [done|exact Hin|by left].
  - eapply (he_stays _ Hh h _ job e); [done|exact Hjob|by left].
Qed.

(** The results of the status, and whether they are still to come. *)
Definition awaits_results (w : workloadStatus) : bool := succeeded w && bool_decide (bst_Results (bt_Status b) = None).

Definition collected (h : history Call) (w : workloadStatus) (results : option BacktestResults)
    (cond : option Condition) (again : bool) : Prop :=
  if awaits_results w then
    (∃ cm, Ev (Get KConfigMap (results_cm_key b)) (Ok cm) ∈ h ∧ again = false ∧
       (results, cond) = prod_map id Some (parse_results cm (Generation (bt_Meta b)))) ∨
    ((∃ e, Ev (Get KConfigMap (results_cm_key b)) (Err e) ∈ h) ∧ again = true ∧ results = None ∧ cond = None)
  else again = false ∧ results = None ∧ cond = None.

Lemma collected_mono h h' w results cond again :
  h `prefix_of` h' → collected h w results cond again → collected h' w results cond again.
Proof.
  intros Hp. unfold collected. destruct (awaits_results w); [|done].
  intros [(cm & Hin & Hr)|((e & Hin) & Hr)]; [left; exists cm|right]; (split; [|done]); [|exists e]; by eapply elem_of_prefix.
Qed.

(** Adoption changes nothing that is parsed. *)
Lemma parse_results_ext cm cm' g :
  cm_Data cm' = cm_Data cm → Name (cm_Meta cm') = Name (cm_Meta cm) → parse_results cm' g = parse_results cm g.
Proof. unfold parse_results. by intros -> ->. Qed.

Lemma fine_adopt h :
  fine (adoptAndParseResults b) h (succeeds (fun h' x =>
    (∃ cm, Ev (Get KConfigMap (results_cm_key b)) (Ok cm) ∈ h' ∧ x.2 = false ∧
       x.1 = prod_map id Some (parse_results cm (Generation (bt_Meta b)))) ∨
    ((∃ e, Ev (Get KConfigMap (results_cm_key b)) (Err e) ∈ h') ∧ x.2 = true ∧ x.1 = (None, None)))).
Proof.
  intros [cm|e]; cbn -[wp ensureOwned wrapping].
  2: { intros Hh. rewrite (he_results _ Hh e (asked _ _ _)). eexists. split; [done|]. right. split; [|done]. exists e. apply asked. }
  eapply (fine_bind_ok _ run_healthy_prefix _ _ _ (fun h' cm' => Ev (Get KConfigMap (results_cm_key b)) (Ok cm) ∈ h' ∧
    cm_Data cm' = cm_Data cm ∧ Name (cm_Meta cm') = Name (cm_Meta cm))).
  - apply fine_wrapping. unfold ensureOwned. destruct (existsb _ _) eqn:Hown.
    { intros _. exists cm. split; [done|]. split; [apply asked|done]. }
    destruct (SetControllerReference _ _) as [refs|e] eqn:Hset.
    2: { intros Hh. destruct (he_free _ Hh cm (asked _ _ _)) as [Hf|Hf]; [congruence|]. by rewrite Hset in Hf. }
    intros x Hh. destruct (he_adopted _ Hh _ _ (asked _ _ _)) as (cm' & -> & Hd & Hn). exists cm'. split; [done|].
    split; [apply elem_of_app; left; apply asked|done].
  - intros h1 cm' _ _ (Hin & Hd & Hn). intros _. eexists. split; [done|]. left. exists cm. split; [done|]. split; [done|].
    cbn. by rewrite (parse_results_ext cm cm').
Qed.

(** When the next reconcile is wanted. *)
Definition next_look (w : workloadStatus) (again : bool) : Z :=
  if again then resultsRequeueAfter else if succeeded w || failed w then 0%Z else secs 15.

Lemma followed_requeue h w : followed h w → requeueAfter w = if succeeded w || failed w then 0%Z else secs 15.
Proof.
  intros [(job & _ & ->)|[Ho _]].
  - unfold workload_of_job. by repeat case_match.
  - destruct Ho as (_ & -> & _ & -> & _). by rewrite orb_negb_r.
Qed.

(** The status of a run that was followed, and the answer to the queue. *)
Definition settled (h : history Call) (res : Result) : Prop :=
  res.2 = None ∧ ∃ w results cond again,
    followed h w ∧ collected h w results cond again ∧ res.1 = next_look w again ∧
    Shared.recorded KBacktest (success_status b w (Name (bt_Meta b)) results cond) (bt_key b) h.

Lemma fine_follow h : created h → fine (followJob r b (Name (bt_Meta b))) h settled.
Proof.
  intros Hc. unfold followJob. eapply fine_bind; [apply run_healthy_prefix|by apply run_fine_workload|].
  intros h1 ? _ _ (w & -> & Hw).
  eapply (fine_bind _ run_healthy_prefix _ _ _ (succeeds (fun h' x => collected h' w x.1.1 x.1.2 x.2))).
  { unfold collected. fold (awaits_results w). destruct (awaits_results w) eqn:Ha; [|apply fine_ret; intros _; by eexists].
    eapply fine_mono; [|apply fine_adopt]. intros h' x _ _ ([[results cond] again] & -> & Hx). eexists. split; [done|]. cbn in *.
    destruct Hx as [(cm & Hin & Hag & Hp)|(He & Hag & Hp)]; [left; by exists cm|right; by injection Hp as -> ->]. }
  intros h2 ? Hp2 _ ([[results cond] again] & -> & Hcol). cbn in Hcol.
  unfold recordOutcome. eapply fine_bind; [apply run_healthy_prefix|apply fine_patched|].
  { apply run_healthy_prefix. }
  { intros h' e Hh. apply he_reread, Hh. }
  { intros h' o e Hh. apply he_status, Hh. }
  intros h3 [b' x] Hp3 _ [Hx Hrec]. cbn in Hx. subst x. cbn [snd]. apply fine_ret. intros _. split; [done|].
  exists w, results, cond, again. split_and!; [eapply followed_mono; [etrans; [exact Hp2|exact Hp3]|exact Hw]|by eapply collected_mono| |exact Hrec].
  cbn. rewrite (followed_requeue _ _ Hw). unfold next_look, collected in *.
  destruct (awaits_results w) eqn:Ha; [|by destruct Hcol as [-> _]].
  destruct again; [|done]. unfold awaits_results in Ha. by destruct (succeeded w).
Qed.

End Run.

(** ** A run's first pass and its last

    A cluster that stores the Job it is sent, with everything else a run
    needs; the sidecar has left its results. *)
Module Cluster.
Import TwoPasses BroughtUp.
#[local] Existing Instance kubelib_instance.
#[local] Existing Instance golib_instance.

Definition backtest : Backtest :=
  {| bt_Meta := {| Name := "run"; Namespace := "ns"; UID := "uid-run"; ResourceVersion := ""; Labels := ∅; Annotations := ∅;
                   Finalizers := [BacktestFinalizer]; OwnerReferences := []; Generation := 1; DeletionTimestamp := None |};
     bt_Spec := bt_Spec Example.finished;
     bt_Status := {| bst_Phase := ""; bst_Message := ""; bst_Conditions := []; bst_ObservedGeneration := 0;
                     bst_JobName := ""; bst_ResultsPVCName := ""; bst_StartTime := None; bst_CompletionTime := None;
                     bst_Results := None |} |}.

Definition key : NamespacedName := bt_key backtest.
Definition operator : Backtest.Reconciler := Example.reconciler.

Definition results : ConfigMap :=
  {| cm_Meta := NewMeta "run-results" "ns" ∅ ∅;
     cm_Data := {[ resultsDataKey := json_Marshal (JObj [("totalTrades", JInt 12); ("profitAbs", JString "3.5")]) ]} |}.

Definition there : contents :=
  {| k_config := plain_config; k_strategy := strategy; k_secrets := fun _ => {[ "api-key" := "s3cret" ]} |}.

Definition env (job : option Job) : Env :=
  {| env_get := fun k key' =>
       match k with
       | KBacktest => Ok backtest
       | KTradeBotConfig => Ok plain_config
       | KStrategy => Ok strategy
       | KSecret => if decide (key' = config_secret_key "run" "ns") then Err NotFoundErr else Ok exchange_secret
       | KConfigMap => Ok results
       | KJob => match job with Some j => Ok j | None => Err NotFoundErr end
       | _ => Err NotFoundErr
       end;
     env_list := fun _ => Ok []; env_now := 0; env_http := fun _ => Err (Errorf "connection refused") |}.

Definition stored {X} (c : Call X) (job : option Job) : option Job :=
  match c with
  | Patch k o => (match k return Obj k → option Job with KJob => Some | _ => fun _ => job end) o
  | _ => job
  end.

Definition serve (X : Type) (c : Call X) (job : option Job) : X * option Job :=
  ((answer (env job) X c tt).1, stored c job).

(** What [healthy] says of the Job. *)
Definition job_seen (e : event Call) : bool :=
  match e with
  | @Ev _ _ c x =>
      match c in Call X return X → bool with
      | Get k _ => match k return result (Obj k) → bool with KJob => is_ok | _ => fun _ => false end
      | Patch k _ => fun _ => bool_decide (k = KJob)
      | _ => fun _ => false
      end x
  end.

Definition job_missed (e : event Call) : bool :=
  match e with
  | @Ev _ _ c x =>
      match c in Call X return X → bool with
      | Get k _ => match k return result (Obj k) → bool with KJob => fun r => negb (is_ok r) | _ => fun _ => false end
      | _ => fun _ => false
      end x
  end.

Record served (job : option Job) (h : history Call) : Prop := {
  sv_answers : Forall (fun e => ∃ job, answered (env job) e) h;
  sv_absent : job = None → existsb job_seen h = false;
  sv_kept h1 h2 : h = h1 ++ h2 → existsb job_seen h1 = true → existsb job_missed h2 = false
}.

Lemma served_step {X} (c : Call X) job h :
  served job h → served (stored c job) (h ++ [Ev c (answer (env job) X c tt).1]).
Proof.
  intros [Hans Habs Hkept].
  assert (∀ e, job_missed e = true → e = Ev c (answer (env job) X c tt).1 → job = None) as Hmiss.
  { intros e Hm ->. destruct c; try discriminate Hm. destruct k; try discriminate Hm. by destruct job. }
  split.
  - apply Forall_app. split; [done|]. constructor; [|constructor]. by exists job.
  - intros Hs. rewrite existsb_app. apply orb_false_intro; [apply Habs; destruct c; try done; by destruct k|].
    destruct c; try done; destruct k; try done. cbn in Hs. by subst job.
  - intros h1 h2 E Hseen. destruct h2 as [|e h2 _] using rev_ind; [done|]. rewrite app_assoc in E.
    apply app_inj_tail in E as [-> E]. rewrite existsb_app. apply orb_false_intro; [by eapply Hkept|]. cbn.
    destruct (job_missed e) eqn:Hm; [|done]. specialize (Habs (Hmiss _ Hm (eq_sym E))).
    rewrite existsb_app, Hseen in Habs. discriminate Habs.
Qed.

Lemma served_run {A} (p : Op A) job h : served job h → ∃ job', served job' (Prog.run serve p job h).2.
Proof.
  revert job h; induction p as [a|X c f IH]; intros job h Hh; cbn [Prog.run]; [by exists job|]. by apply IH, served_step.
Qed.

Lemma run_renderable : renderable "run" plain_config (k_secrets there).
Proof. apply plain_renderable. vm_compute. set_solver. Qed.

Lemma cluster_healthy job h : served job h → healthy key backtest there h.
Proof.
  intros [Hans _ Hkept]. rewrite Forall_forall in Hans.
  assert (∀ h1 h2 c e, h = h1 ++ h2 → c ∈ h1 → job_seen c = true → Ev (Get KJob key) (Err e) ∉ h2) as Hjob.
  { intros h1 h2 c e E Hc Hs He. enough (existsb job_missed h2 = true) as Hm.
    - rewrite (Hkept h1 h2 E) in Hm; [discriminate Hm|]. apply existsb_exists. exists c. by rewrite <- list_elem_of_In.
    - apply existsb_exists. eexists. split; [by apply list_elem_of_In|reflexivity]. }
  split.
  - by intros x [j ->]%Hans.
  - intros e [j He]%Hans. discriminate He.
  - by intros x [j ->]%Hans.
  - by intros x [j ->]%Hans.
  - split.
    + intros ref x Hne [j ->]%Hans. cbn. rewrite decide_False; [by eexists|]. intros [=]. by apply Hne.
    + intros e [j He]%Hans. cbn in He. rewrite decide_True in He by done. injection He as ->. reflexivity.
    + intros e [j He]%Hans. discriminate He.
  - intros k o e [j He]%Hans. discriminate He.
  - intros o e [j He]%Hans. discriminate He.
  - intros e [[j|] He]%Hans; [discriminate He|]. injection He as ->. reflexivity.
  - intros h1 h2 o x e E Hin. eapply Hjob; [exact E|exact Hin|reflexivity].
  - intros h1 h2 x e E Hin. eapply Hjob; [exact E|exact Hin|reflexivity].
  - intros e [j He]%Hans. discriminate He.
  - intros cm [j Hcm]%Hans. injection Hcm as ->. by right.
  - intros o x [j ->]%Hans. by exists o.
Qed.

Lemma served_nothing job : served job [].
Proof. split; [done|done|]. by intros h1 h2 [-> ->]%eq_sym%app_eq_nil. Qed.

(** The first pass, from no Job. *)
Definition first := Prog.run serve (Reconcile operator key) None [].

Lemma first_healthy : healthy key backtest there first.2.
Proof. destruct (served_run (Reconcile operator key) None [] (served_nothing None)) as [j Hj]. by eapply cluster_healthy. Qed.

(** The last one, with the Job done. *)
Definition finished_job : Job :=
  {| job_Meta := NewMeta "run" "ns" ∅ ∅; job_BackoffLimit := Some 1%Z; job_TTLSecondsAfterFinished := None;
     job_Template := job_Template (BuildJob backtest "image" "operator" "strat" "run-config" "run-strategy");
     job_Status_Active := 0; job_Status_Succeeded := 1; job_Status_Failed := 0;
     job_Status_StartTime := Some 10%Z; job_Status_CompletionTime := Some 20%Z |}.

Definition last := exec (env (Some finished_job)) (Reconcile operator key).

Lemma last_healthy : healthy key backtest there last.2.
Proof.
  pose proof (exec_answered (env (Some finished_job)) (Reconcile operator key)) as Hall.
  apply (cluster_healthy (Some finished_job)). split.
  - eapply Forall_impl; [exact Hall|]. intros e He. by eexists.
  - done.
  - intros h1 h2 E _. fold last in Hall. rewrite E in Hall. apply Forall_app in Hall as [_ Hall]. clear E.
    induction Hall as [|[X c x] l He _ IH]; [done|]. cbn [existsb]. apply orb_false_intro; [|done].
    destruct c; try done. destruct k; try done. cbn in He. by subst x.
Qed.

End Cluster.
