(* ===== verification/Served.v ===== *)
(** * A web UI in a healthy cluster

    What Healthy.v shows of bots and Settled.v of runs, for the FreqUI
    reconciler: in a cluster whose API server answers and accepts what it is
    sent, a reconcile returns without an error, has applied the Deployment, the
    Service and exactly the objects of the exposure asked for, with a route to
    every bot that serves its API, and the status records how it stands
    ([ui_served]). *)

From S2P Require Import Prelude Prog GoLib Kube Types ConfigTypes Client Shared TradeBotResources.
From S2P Require Import FreqUIResources FreqUI FreqUIProofs Convergence.
From S2P Require ConfigBuilder.
Import V1beta1.

Section Ui.
Context `{KubeLib} `{GoLib} (r : Reconciler).

(** What the cluster holds in the namespace of a FreqUI: bots and configs by
    name. *)
Record contents := {
  k_bots : string → option V1alpha1.TradeBot;
  k_configs : string → option ConfigV1alpha1.TradeBotConfig
}.

Context (key : NamespacedName) (f : FreqUI) (K : contents).

(** The API server serves these and takes what it is sent; what is to be
    deleted, and the Ingress looked for, may be absent. *)
Record healthy (h : history Call) : Prop := {
  he_ui x : Ev (Get KFreqUI key) x ∈ h → x = Ok f;
  he_reread e : Ev (Get KFreqUI (fu_key f)) (Err e) ∉ h;
  he_bots name x : Ev (Get KTradeBot (fu_sibling f name)) x ∈ h →
    match k_bots K name with Some t => x = Ok t | None => ∃ e, x = Err e ∧ IsNotFound e = true end;
  he_configs name x : Ev (Get KTradeBotConfig (fu_sibling f name)) x ∈ h →
    match k_configs K name with Some c => x = Ok c | None => ∃ e, x = Err e end;
  he_applied k o e : Ev (Patch k o) (Err e) ∉ h;
  he_status o e : Ev (StatusUpdate KFreqUI o) (Err e) ∉ h;
  he_listed ns l e : Ev (ListLabelled KHTTPRoute ns l) (Err e) ∉ h;
  he_deleted k key' e : Ev (Delete k key') (Err e) ∈ h → IsNotFound e = true;
  he_ingress e : Ev (Get KIngress (fu_sibling f (Name (fu_Meta f)))) (Err e) ∈ h → IsNotFound e = true;
  he_sees h1 h2 o x e : h = h1 ++ h2 → Ev (Patch KDeployment o) (Ok x) ∈ h1 →
    Ev (Get KDeployment (fu_sibling f (Name (fu_Meta f)))) (Err e) ∉ h2
}.

Lemma ui_healthy_prefix h h' : h `prefix_of` h' → healthy h' → healthy h.
Proof.
  intros Hp [Hui Hre Hbots Hcfg Happ Hst Hls Hdel Hing Hsees].
  assert (∀ e, e ∈ h → e ∈ h') as Hin by (intros; by eapply elem_of_prefix).
  destruct Hp as [h3 ->].
  split; eauto.
  1: intros e Hx%Hin; by eapply Hre.
  1: intros name x Hx%Hin; by apply Hbots.
  1: intros name x Hx%Hin; by apply Hcfg.
  1: intros k o e Hx%Hin; by eapply Happ.
  1: intros o e Hx%Hin; by eapply Hst.
  1: intros ns l e Hx%Hin; by eapply Hls.
  intros h1 h2 o x e -> Ho Hget. apply (Hsees h1 (h2 ++ h3) o x e); [by rewrite app_assoc|done|apply elem_of_app; by left].
Qed.

Abbreviation fine := (fine healthy).

(** Nothing is applied along the way. *)
Lemma fine_quiet {A} (p : Op A) h R :
  emits (@no_apply) p → fine p h R → fine p h (fun h' a => R h' a ∧ writes h' = writes h).
Proof.
  intros Hq Hp. eapply fine_mono; [|apply fine_and; [by apply no_apply_writes|exact Hp]]. by intros h' a _ _ [[_ Hw] HR].
Qed.

(** The object as it is sent: the FreqUI is its only owner. *)
Definition ui_object {k} (o : Obj k) : Obj k :=
  match SetControllerReference (fu_owner f) [] with
  | Ok refs => obj_with_Meta k o (with_OwnerReferences (obj_Meta k o) refs)
  | Err _ => o
  end.

Lemma fine_ui_apply k (o : Obj k) h :
  OwnerReferences (obj_Meta k o) = [] →
  fine (Apply (fu_owner f) k o) h (succeeds (fun h' o' =>
    writes h' = writes h ++ [existT k (ui_object o)] ∧ Ev (Patch k (ui_object o)) (Ok o') ∈ h')).
Proof.
  intros Ho. unfold Apply, ui_object. rewrite Ho. destruct (set_controller_fresh (fu_owner f) []) as (refs & -> & _); [constructor|].
  intros [o'|e] Hh; [|by destruct (he_applied _ Hh _ _ _ (asked _ _ _))]. exists o'. split; [done|].
  split; [apply writes_app|apply asked].
Qed.

(** *** The references *)

(** The bot of a reference serves its API. *)
Definition serves (ref : LocalObjectReference) : bool :=
  match k_bots K (lor_Name ref) ≫= fun t => k_configs K (V1alpha1.Config (V1alpha1.Spec t)) with
  | Some c => serves_api c
  | None => false
  end.

Definition api_routes (refs : list LocalObjectReference) : list TradeBotAPIRoute :=
  map (fun ref => api_route_of (lor_Name ref)) (List.filter serves refs).

Definition missing (refs : list LocalObjectReference) : list string :=
  map lor_Name (List.filter (fun ref => bool_decide (k_bots K (lor_Name ref) = None)) refs).

Lemma fine_resolve refs routes unresolved h :
  fine (resolve_refs f refs routes unresolved) h
    (succeeds (fun _ p => p = (routes ++ api_routes refs, unresolved ++ missing refs))).
Proof.
  revert routes unresolved h. induction refs as [|ref refs IH]; intros routes unresolved h.
  { intros _. eexists. split; [done|]. unfold api_routes, missing. cbn. by rewrite !app_nil_r. }
  cbn [resolve_refs].
  eapply (fine_bind _ ui_healthy_prefix _ _ _ (fun _ x => match k_bots K (lor_Name ref) with
    | Some t => x = Ok t | None => ∃ e, x = Err e ∧ IsNotFound e = true end)).
  { intros x Hh. exact (he_bots _ Hh _ x (asked _ _ _)). }
  intros h1 got _ _ Hgot. unfold api_routes, missing. cbn [List.filter]. unfold serves at 1.
  destruct (k_bots K (lor_Name ref)) as [t|]; cbn [mbind option_bind].
  - subst got. eapply (fine_bind _ ui_healthy_prefix _ _ _ (fun _ x => match k_configs K (V1alpha1.Config (V1alpha1.Spec t)) with
      | Some c => x = Ok c | None => ∃ e, x = Err e end)).
    { intros x Hh. exact (he_configs _ Hh _ x (asked _ _ _)). }
    intros h2 got _ _ Hgot. destruct (k_configs K _) as [c|].
    + subst got. eapply fine_mono; [|apply IH]. intros h3 x _ _ (p & -> & ->). eexists. split; [done|].
      destruct (serves_api c); cbn; by rewrite <- ?app_assoc.
    + destruct Hgot as [e ->]. apply IH.
  - destruct Hgot as (e & -> & ->). eapply fine_mono; [|apply IH]. intros h3 x _ _ (p & -> & ->). eexists. split; [done|].
    cbn. by rewrite <- app_assoc.
Qed.

(** *** The exposure *)

Lemma fine_delete k m what h :
  fine (delete_ignoring_absence k m what) h (succeeds (fun _ _ => True)).
Proof.
  intros [[]|e] Hh; [by eexists|]. cbn. rewrite (he_deleted _ Hh k _ e (asked _ _ _)). by eexists.
Qed.

Lemma fine_prune_loop desired routes h : fine (prune_loop f desired routes) h (succeeds (fun _ _ => True)).
Proof.
  revert h. induction routes as [|route routes IH]; intros h; cbn [prune_loop]; [by intros _; exists tt|].
  destruct (_ || _); [apply IH|]. eapply fine_bind_ok; [apply ui_healthy_prefix|apply fine_delete|]. intros h1 u _ _ _. apply IH.
Qed.

Lemma fine_prune desired h : fine (pruneHTTPRoutes r f desired) h (succeeds (fun _ _ => True)).
Proof.
  unfold pruneHTTPRoutes. destruct (negb _); [by intros _; exists tt|].
  eapply (fine_bind_ok _ ui_healthy_prefix _ _ _ (fun _ _ => True)); [|intros; apply fine_prune_loop].
  apply fine_wrapping. intros [routes|e] Hh; [by eexists|by destruct (he_listed _ Hh _ _ _ (asked _ _ _))].
Qed.

Lemma fine_delete_ingress h : fine (deleteOwnedIngress f) h (succeeds (fun _ _ => True)).
Proof.
  intros [ingress|e]; cbn -[wp delete_ignoring_absence].
  - destruct (negb _); [by intros _; exists tt|apply fine_delete].
  - intros Hh. rewrite (he_ingress _ Hh e (asked _ _ _)). by exists tt.
Qed.

(** The routes as the API server stored them. *)
Definition stored_routes (h : history Call) (routes stored : list HTTPRoute) : Prop :=
  Forall2 (fun route s => Ev (Patch KHTTPRoute (ui_object (k := KHTTPRoute) route)) (Ok s) ∈ h) routes stored.

Lemma stored_routes_mono h h' routes stored : h `prefix_of` h' → stored_routes h routes stored → stored_routes h' routes stored.
Proof. intros Hp Hs. eapply Forall2_impl; [exact Hs|]. cbn. intros route s Hin. by eapply elem_of_prefix. Qed.

Definition route_objects (routes : list HTTPRoute) : list sent :=
  map (fun route => existT KHTTPRoute (ui_object (k := KHTTPRoute) route)) routes.

Lemma fine_apply_routes routes acc h :
  Forall (fun route => OwnerReferences (hr_Meta route) = []) routes →
  fine (apply_routes f routes acc []) h (succeeds (fun h' p => p.2 = [] ∧ writes h' = writes h ++ route_objects routes ∧
    ∃ stored, p.1 = acc ++ stored ∧ stored_routes h' routes stored)).
Proof.
  intros Hr. revert acc h. induction Hr as [|route routes Ho _ IH]; intros acc h; cbn [apply_routes].
  { intros _. eexists. split; [done|]. split; [done|]. unfold route_objects. cbn. rewrite app_nil_r. split; [done|].
    exists []. rewrite app_nil_r. split; [done|constructor]. }
  eapply fine_bind; [apply ui_healthy_prefix|by apply (fine_ui_apply KHTTPRoute route)|]. intros h1 ? _ _ (s & -> & Hw & Hin).
  eapply fine_mono; [|apply IH]. intros h2 x Hp _ (p & -> & Hc & Hw2 & stored & Hst & Hs). eexists. split; [done|]. split; [done|].
  rewrite Hw2, Hw, <- app_assoc. split; [done|]. exists (s :: stored). rewrite Hst, <- app_assoc. split; [done|].
  constructor; [by eapply elem_of_prefix|exact Hs].
Qed.

Definition exposure_objects (routes : list TradeBotAPIRoute) : list sent :=
  match Exposure (fu_Spec f) with
  | FUExposureGateway => if GatewayAPIAvailable r then route_objects (BuildFreqUIHTTPRoutes f routes).1 else []
  | FUExposureNone => []
  | FUExposureIngress | FUExposureUnset => [existT KIngress (ui_object (k := KIngress) (BuildFreqUIIngress f routes))]
  end.

(** The exposure is up: always, but behind a Gateway only if it serves every
    route, none of which has too long a name. *)
Definition exposure_up (routes : list TradeBotAPIRoute) (h : history Call) (up : bool) : Prop :=
  match Exposure (fu_Spec f) with
  | FUExposureGateway =>
      if GatewayAPIAvailable r then
        ∃ stored, stored_routes h (BuildFreqUIHTTPRoutes f routes).1 stored ∧
          up = bool_decide ((BuildFreqUIHTTPRoutes f routes).2 = []) && forallb served stored
      else up = false
  | _ => up = true
  end.

Lemma exposure_up_mono routes h h' up : h `prefix_of` h' → exposure_up routes h up → exposure_up routes h' up.
Proof.
  intros Hp. unfold exposure_up. destruct (Exposure _), (GatewayAPIAvailable r); try done.
  intros (stored & Hs & Hup). exists stored. split; [by eapply stored_routes_mono|done].
Qed.

Definition is_exposure_condition (c : Condition) (up : bool) : Prop :=
  cType c = ConditionExposureReady ∧ cStatus c = if up then ConditionTrue else ConditionFalse.

Lemma derived_verdict stored : is_exposure_condition (deriveGatewayExposureCondition stored) (forallb served stored).
Proof.
  unfold is_exposure_condition, deriveGatewayExposureCondition.
  destruct (concat (map route_failures stored)) as [|x l] eqn:E; (split; [done|]); cbn.
  - rewrite (proj2 (forallb_iff served stored)); [done|]. intros route Hin. apply route_failures_served.
    apply (proj1 (concat_nil_forall _) E), list_elem_of_fmap. by exists route.
  - destruct (forallb served stored) eqn:Hs; [|done]. rewrite forallb_iff in Hs.
    enough (concat (map route_failures stored) = []) as E' by (rewrite E' in E; discriminate E).
    apply concat_nil_forall. intros fs (route & -> & Hin)%list_elem_of_fmap. by apply route_failures_served, Hs.
Qed.

Definition exposure_done (routes : list TradeBotAPIRoute) (h h' : history Call) (oc : option Condition) : Prop :=
  writes h' = writes h ++ exposure_objects routes ∧
  ∃ c up, oc = Some c ∧ is_exposure_condition c up ∧ exposure_up routes h' up.

(** The end of two of the modes: prune, remove the Ingress, answer. *)
Lemma fine_tidy {A} desired (a : A) h h0 l (Q : history Call → A → Prop) :
  writes h = writes h0 ++ l → (∀ h', h `prefix_of` h' → writes h' = writes h0 ++ l → Q h' a) →
  fine (_ <-? pruneHTTPRoutes r f desired; _ <-? deleteOwnedIngress f; mret (Ok a)) h (succeeds Q).
Proof.
  intros Hw HQ.
  eapply fine_mono; [|apply (fine_quiet _ _ (succeeds (fun _ b => b = a)))].
  - intros h' x Hp _ [(b & -> & ->) Hw']. exists a. split; [done|]. apply HQ; [done|]. by rewrite Hw'.
  - apply emits_bind_ok; [by apply prune_emits|]. intros ?. apply emits_bind_ok; [by apply ingress_emits|done].
  - eapply fine_bind_ok; [apply ui_healthy_prefix|apply fine_prune|]. intros h1 u1 _ _ _.
    eapply fine_bind_ok; [apply ui_healthy_prefix|apply fine_delete_ingress|]. intros h2 u2 _ _ _. apply fine_ret. intros _. by eexists.
Qed.

Lemma fine_exposure routes h :
  fine (reconcileExposure r f routes) h (succeeds (exposure_done routes h)).
Proof.
  unfold exposure_done, exposure_up, exposure_objects, reconcileExposure.
  assert (fine (reconcileIngress r f routes) h (succeeds (fun h' oc =>
    writes h' = writes h ++ [existT KIngress (ui_object (k := KIngress) (BuildFreqUIIngress f routes))] ∧
    ∃ c up, oc = Some c ∧ is_exposure_condition c up ∧ up = true))) as Hing.
  { unfold reconcileIngress. eapply fine_bind; [apply ui_healthy_prefix|apply (fine_ui_apply KIngress)|].
    { unfold BuildFreqUIIngress. by destruct (fu_app_field _ _). }
    intros h1 ? _ _ (o & -> & Hw & _).
    eapply fine_mono; [|apply (fine_quiet _ _ (succeeds (fun _ b => b = exposure_condition ConditionTrue ReasonAsExpected "Ingress applied")))].
    - intros h' x Hp _ [(b & -> & ->) Hw']. eexists. split; [done|]. split; [by rewrite Hw'|]. eexists _, true. by split_and!.
    - apply emits_bind_ok; [by apply prune_emits|done].
    - eapply fine_bind_ok; [apply ui_healthy_prefix|apply fine_prune|]. intros h2 u _ _ _. apply fine_ret. intros _. by eexists. }
  destruct (Exposure (fu_Spec f)); [exact Hing|exact Hing|..].
  - unfold reconcileGateway. destruct (GatewayAPIAvailable r); cbn [negb].
    2: { intros _. eexists. split; [done|]. rewrite app_nil_r. split; [done|]. eexists _, false. by split_and!. }
    set (built := BuildFreqUIHTTPRoutes f routes).
    eapply fine_bind_ok; [apply ui_healthy_prefix|apply fine_apply_routes, built_fresh|].
    intros h1 [stored conflicts] _ _ (Hc & Hw & st & Hst & Hs). cbn in Hc, Hst. subst stored conflicts. cbn [fst snd].
    eapply fine_tidy; [exact Hw|]. intros h' Hp Hw'. split; [exact Hw'|].
    destruct built.2 as [|n ns] eqn:Hskip.
    + eexists _, _. split; [done|]. split; [apply derived_verdict|]. exists st. split; [by eapply stored_routes_mono|done].
    + eexists _, false. split; [done|]. split; [done|]. exists st. split; [by eapply stored_routes_mono|done].
  - eapply (fine_tidy []); [by rewrite app_nil_r|]. intros h' _ Hw. split; [exact Hw|]. eexists _, true. by split_and!.
Qed.

(** ** A reconcile *)

Definition ui_objects (routes : list TradeBotAPIRoute) : list sent :=
  [ existT KDeployment (ui_object (k := KDeployment) (BuildFreqUIDeployment f));
    existT KService (ui_object (k := KService) (BuildFreqUIService f)) ] ++ exposure_objects routes.

Lemma fine_all h :
  writes h = [] →
  fine (reconcileAllResources r f) h (succeeds (fun h' p =>
    writes h' = ui_objects (api_routes (TradeBotRefs (fu_Spec f))) ∧ p.1 = missing (TradeBotRefs (fu_Spec f)) ∧
    (∃ o x, Ev (Patch KDeployment o) (Ok x) ∈ h') ∧
    ∃ c up, p.2 = Some c ∧ is_exposure_condition c up ∧ exposure_up (api_routes (TradeBotRefs (fu_Spec f))) h' up)).
Proof.
  intros Hh. unfold reconcileAllResources.
  eapply fine_bind_ok; [apply ui_healthy_prefix|by apply fine_wrapping, (fine_ui_apply KDeployment)|]. intros h1 d _ _ [Hw1 Hd].
  eapply fine_bind_ok; [apply ui_healthy_prefix|apply fine_wrapping, (fine_ui_apply KService)|].
  { unfold BuildFreqUIService. by destruct (fu_app_field _ _). }
  intros h2 s Hp2 _ [Hw2 _].
  eapply (fine_bind _ ui_healthy_prefix _ _ _ (fun h' x => succeeds (fun _ p => p = ([] ++ api_routes (TradeBotRefs (fu_Spec f)),
    [] ++ missing (TradeBotRefs (fu_Spec f)))) h' x ∧ writes h' = writes h2)); [apply fine_quiet; [by apply resolve_emits|apply fine_resolve]|].
  intros h3 ? Hp3 _ [(? & -> & ->) Hw3]. cbn [fst snd app].
  eapply fine_bind_ok; [apply ui_healthy_prefix|apply fine_exposure|]. intros h4 oc Hp4 _ (Hw4 & c & up & -> & Hc & Hup).
  apply fine_ret. intros _. eexists. split; [done|]. split_and!; [|done| |].
  - rewrite Hw4, Hw3, Hw2, Hw1, Hh. done.
  - eexists _, d. eapply elem_of_prefix; [exact Hd|]. by do 2 (etrans; [done|]).
  - eexists _, _. by split_and!.
Qed.

End Ui.

(** ** An Ingress with a route to one bot of two *)
Module Web.
Import TwoPasses.
#[local] Existing Instance kubelib_instance.
#[local] Existing Instance golib_instance.

Definition ui : FreqUI :=
  {| fu_Meta := NewMeta "ui" "ns" ∅ ∅;
     fu_Spec := {| Host := "ui.example.org"; TLS := []; IngressAnnotations := ∅; FUApp := None;
                   TradeBotRefs := [ {| lor_Name := "bot" |}; {| lor_Name := "gone" |} ];
                   Exposure := FUExposureIngress; Gateway := None |};
     fu_Status := {| fst_Phase := ""; fst_Message := ""; fst_URL := ""; fst_Conditions := []; fst_ObservedGeneration := 0 |} |}.

Definition running : Deployment :=
  let d := BuildFreqUIDeployment ui in
  {| dep_Meta := dep_Meta d; dep_Replicas := dep_Replicas d; dep_Selector := dep_Selector d; dep_Template := dep_Template d;
     dep_Status_Replicas := 1; dep_Status_AvailableReplicas := 1 |}.

Definition serving : ConfigV1alpha1.TradeBotConfig :=
  {| ConfigV1alpha1.Meta := NewMeta "conf" "ns" ∅ ∅;
     ConfigV1alpha1.Spec := ConfigV1alpha1.Spec ConfigBuilder.sample_config;
     ConfigV1alpha1.Status := {| tcs_Phase := "Valid"; tcs_Message := ""; tcs_Conditions := []; tcs_ObservedGeneration := 1 |} |}.

Definition there : contents :=
  {| k_bots := fun name => if decide (name = "bot") then Some bot else None; k_configs := fun _ => Some serving |}.

Definition served : Env :=
  {| env_get := fun k key' =>
       match k with
       | KFreqUI => Ok ui
       | KTradeBot => if decide (nn_Name key' = "bot") then Ok bot else Err NotFoundErr
       | KTradeBotConfig => Ok serving
       | KDeployment => Ok running
       | _ => Err NotFoundErr
       end;
     env_list := fun _ => Ok []; env_now := 0; env_http := fun _ => Err (Errorf "connection refused") |}.

Definition operator : FreqUI.Reconciler := {| hasRecorder := true; GatewayAPIAvailable := true |}.
Definition key : NamespacedName := fu_key ui.
Definition pass := exec served (FreqUI.Reconcile operator key).

Lemma pass_healthy : healthy key ui there pass.2.
Proof.
  pose proof (exec_answered served (FreqUI.Reconcile operator key)) as Hans. fold pass in Hans. rewrite Forall_forall in Hans.
  split.
  - by intros x ->%Hans.
  - intros e He%Hans. discriminate He.
  - intros name x Hx%Hans. cbn in *. case_decide; subst x; [done|]. eexists. by split.
  - by intros name x ->%Hans.
  - intros k o e He%Hans. discriminate He.
  - intros o e He%Hans. discriminate He.
  - intros ns l e He%Hans. discriminate He.
  - intros k key' e He%Hans. discriminate He.
  - intros e He%Hans. injection He as ->. reflexivity.
  - intros h1 h2 o x e E _ Hin. assert (Ev (Get KDeployment (fu_sibling ui (Name (fu_Meta ui)))) (Err e) ∈ pass.2) as He%Hans.
    { rewrite E. apply elem_of_app. by right. }
    discriminate He.
Qed.

End Web.
