(* ===== verification/Ownership.v ===== *)
(** * Who applies what: the reconcilers together

    The three reconcilers that create objects - of TradeBots, Backtests and
    FreqUIs - name them after their resource.  Server-side apply under the one
    field owner of the operator takes an object over, owner and all, from
    whoever applied it before, so two resources whose objects share a name
    would fight over them.  [controllers_stay_apart] shows that they do not,
    but for the names [may_share] lists; [same_name_shares] shows that those
    do. *)

From S2P Require Import Prelude Prog GoLib Kube Types ConfigTypes Client Shared ConfigBuilder.
From S2P Require Import BacktestResources TradeBotResources FreqUIResources.
From S2P Require TradeBot TradeBotProofs Backtest BacktestProofs FreqUI FreqUIProofs Convergence Healthy.

(** ** Names *)

Lemma append_inj_r s s' t : s ^^ t = s' ^^ t → s = s'.
Proof.
  intros E. apply (f_equal list_ascii_of_string) in E. rewrite !chars_append in E.
  apply app_inv_tail in E. apply (f_equal string_of_list_ascii) in E. by rewrite !string_of_list_ascii_of_string in E.
Qed.

(** Two suffixes that end differently. *)
Lemma append_last s s' t t' :
  last (list_ascii_of_string t) ≠ None → last (list_ascii_of_string t') ≠ None →
  last (list_ascii_of_string t) ≠ last (list_ascii_of_string t') → s ^^ t ≠ s' ^^ t'.
Proof.
  intros Ht Ht' Hne E. apply (f_equal (last ∘ list_ascii_of_string)) in E. cbn in E.
  rewrite !chars_append, !last_app in E.
  destruct (last (list_ascii_of_string t)), (last (list_ascii_of_string t')); done.
Qed.

(** [n-b] and [m-b'] the same: one of [n] and [m] is within the other. *)
Definition within (n m : string) : Prop := ∃ x, m = n ^^ "-" ^^ x.

Lemma dashed_names n m b b' : n ^^ "-" ^^ b = m ^^ "-" ^^ b' → n = m ∨ within n m ∨ within m n.
Proof.
  revert m; induction n as [|c n IH]; intros [|c' m] E.
  - by left.
  - right. left. exists m. injection E as <- _. done.
  - right. right. exists n. injection E as -> _. done.
  - assert (c = c' ∧ n ^^ "-" ^^ b = m ^^ "-" ^^ b') as [<- E'] by (by injection E).
    destruct (IH m E') as [->|[[x ->]|[x ->]]]; [by left|right; left|right; right]; by exists x.
Qed.

(** ** Resources and their reconcilers *)

Inductive custom := Bot (t : V1alpha1.TradeBot) | Run (b : Backtest) | UI (f : V1beta1.FreqUI).

Definition custom_Meta (a : custom) : ObjectMeta :=
  match a with Bot t => V1alpha1.Meta t | Run b => bt_Meta b | UI f => V1beta1.fu_Meta f end.

Definition custom_object (a : custom) : kind → string → Prop :=
  match a with
  | Bot t => TradeBotProofs.bot_object (Name (V1alpha1.Meta t))
  | Run b => BacktestProofs.run_object (Name (bt_Meta b))
  | UI f => FreqUIProofs.frequi_object (Name (V1beta1.fu_Meta f))
  end.

(** The names that two resources of a namespace may not have. *)
Definition may_share (a b : custom) : Prop :=
  let n := Name (custom_Meta a) in
  let m := Name (custom_Meta b) in
  Namespace (custom_Meta a) = Namespace (custom_Meta b) ∧
  match a, b with
  | UI _, UI _ => n = m ∨ within n m ∨ within m n      (* HTTPRoutes *)
  | Run _, UI _ | UI _, Run _ => False
  | _, _ => n = m                                       (* Secret, ConfigMap; Service *)
  end.

(** Objects of one name belong to resources that may share it, or are the
    sidecar's identity. *)
Lemma shared_names a b k name :
  Namespace (custom_Meta a) = Namespace (custom_Meta b) →
  custom_object a k name → custom_object b k name → may_share a b ∨ k ∈ BacktestProofs.unowned_kinds.
Proof.
  intros Hns Ha Hb. unfold may_share. rewrite Hns.
  assert (∀ n m t, name = n ^^ t → name = m ^^ t → n = m) as Hinj by (intros n m t -> E; by eapply append_inj_r).
  destruct a as [t|r|f], b as [t'|r'|f']; cbn in Ha, Hb |- *; destruct k; cbn in Ha, Hb; try done;
    try (by left; split; [done|]; eauto || congruence); try (by left; split; [done|]; left; congruence); try (right; set_solver).
  - exfalso. subst name. revert Hb. by apply append_last.
  - exfalso. subst name. revert Hb. by apply append_last.
  - left. split; [done|]. destruct Ha as [->|[x ->]], Hb as [E|[x' E]].
    + by left.
    + right. right. by exists x'.
    + right. left. exists x. done.
    + by eapply dashed_names.
Qed.

Section Reconcilers.
Context `{KubeLib} `{GoLib} (bots : TradeBot.Reconciler) (runs : Backtest.Reconciler) (uis : FreqUI.Reconciler).

Definition reconcile_of (a : custom) : Op Result :=
  match a with
  | Bot t => TradeBot.reconcileNormal bots (TradeBot.bot_key t) t
  | Run b => Backtest.reconcileRun runs b
  | UI f => FreqUI.reconcileFreqUI uis f
  end.

(** Every object a reconcile applies is one of its resource's, in its
    namespace. *)
Definition applies_own (a : custom) (X : Type) (c : Call X) : Prop :=
  match c with
  | Patch k o => custom_object a k (Name (obj_Meta k o)) ∧ Namespace (obj_Meta k o) = Namespace (custom_Meta a)
  | _ => True
  end.

Lemma reconcile_applies_own a : emits (applies_own a) (reconcile_of a).
Proof.
  destruct a as [t|b|f].
  - eapply emits_mono; [|apply TradeBotProofs.normal_live]. intros X c. destruct c; cbn -[TradeBotProofs.bot_object]; try done. tauto.
  - eapply emits_mono; [|apply BacktestProofs.run_calls]. intros X c. destruct c; cbn -[BacktestProofs.run_object]; try done. tauto.
  - eapply emits_mono; [|apply FreqUIProofs.frequi_calls]. intros X c. destruct c; cbn -[FreqUIProofs.frequi_object]; try done. tauto.
Qed.

Definition applied_in (h : history Call) (k : kind) (o : Obj k) : Prop := ∃ x, Ev (Patch k o) x ∈ h.

Lemma applied_own a : wp (reconcile_of a) [] (fun h _ => ∀ k o, applied_in h k o →
  custom_object a k (Name (obj_Meta k o)) ∧ Namespace (obj_Meta k o) = Namespace (custom_Meta a)).
Proof.
  eapply wp_mono; [|apply emits_wp, reconcile_applies_own]. cbn. intros h _ Hh k o [x Hin].
  rewrite Forall_forall in Hh. exact (Hh _ Hin).
Qed.

(** C8: the reconcilers stay out of each other's way: whatever two different
    resources - bots, runs, web UIs - and whatever is answered, the objects
    their reconciles apply have different keys, the sidecar's shared identity
    aside, unless the two are in one namespace and named as [may_share] says:
    a bot and a run, or a bot and a UI, of one name; two UIs of which one is
    named after the other and a dash. *)
Theorem controllers_stay_apart a b :
  ¬ may_share a b →
  wp (reconcile_of a) [] (fun h1 _ => wp (reconcile_of b) [] (fun h2 _ => ∀ k o1 o2,
    applied_in h1 k o1 → applied_in h2 k o2 →
    ObjectKeyFromMeta (obj_Meta k o1) = ObjectKeyFromMeta (obj_Meta k o2) → k ∈ BacktestProofs.unowned_kinds)).
Proof.
  intros Hshare. eapply wp_mono; [|apply applied_own]. cbn beta. intros h1 _ Ha.
  eapply wp_mono; [|apply applied_own]. cbn beta. intros h2 _ Hb k o1 o2 H1 H2 Hkey.
  destruct (Ha _ _ H1) as [Ho1 Hn1], (Hb _ _ H2) as [Ho2 Hn2]. injection Hkey as Hn Hm. rewrite <- Hm in Ho2.
  destruct (shared_names a b k (Name (obj_Meta k o1))) as [?|?]; [congruence|done..].
Qed.
End Reconcilers.

(** ** One name for two *)

Module SameName.
#[local] Existing Instance kubelib_instance.
#[local] Existing Instance golib_instance.
Import Convergence.TwoPasses Healthy.BroughtUp.

Definition run_named (name : string) : Backtest :=
  {| bt_Meta := NewMeta name "ns" ∅ ∅; bt_Spec := bt_Spec BacktestProofs.Example.finished;
     bt_Status :=
       {| bst_Phase := ""; bst_Message := ""; bst_Conditions := []; bst_ObservedGeneration := 0; bst_JobName := "";
          bst_ResultsPVCName := ""; bst_StartTime := None; bst_CompletionTime := None; bst_Results := None |} |}.

(** The key and the owners of the Secret that was applied. *)
Fixpoint secret_sent (l : list Convergence.sent) : option (NamespacedName * list OwnerReference) :=
  match l with
  | [] => None
  | existT KSecret o :: _ => Some (ObjectKeyFromMeta (secret_Meta o), OwnerReferences (secret_Meta o))
  | _ :: l => secret_sent l
  end.

Definition bot_history := (exec served (reconcile_of operator BacktestProofs.Example.reconciler
  {| FreqUI.hasRecorder := true; FreqUI.GatewayAPIAvailable := false |} (Bot bot))).2.
Definition run_history name := (exec served (reconcile_of operator BacktestProofs.Example.reconciler
  {| FreqUI.hasRecorder := true; FreqUI.GatewayAPIAvailable := false |} (Run (run_named name)))).2.

(** A bot and a run of one name apply one Secret, each as its own. *)
Example same_name_shares :
  secret_sent (Convergence.writes bot_history) = Some (Convergence.TwoPasses.own, [TradeBot.owner_of bot]) ∧
  secret_sent (Convergence.writes (run_history "bot")) =
    Some (Convergence.TwoPasses.own, [Backtest.owner_of (run_named "bot")]).
Proof. split; vm_compute; reflexivity. Qed.

Lemma controllers_stay_apart_witness :
  secret_sent (Convergence.writes (run_history "nightly")) ≠ None ∧
  ¬ ∃ o1 o2, applied_in bot_history KSecret o1 ∧ applied_in (run_history "nightly") KSecret o2 ∧
    ObjectKeyFromMeta (secret_Meta o1) = ObjectKeyFromMeta (secret_Meta o2).
Proof.
  split; [vm_compute; discriminate|]. intros (o1 & o2 & H1 & H2 & Hkey).
  assert (¬ may_share (Bot bot) (Run (run_named "nightly"))) as Hshare by (intros [_ [=]]).
  pose proof (exec_wp served _ _ (controllers_stay_apart operator BacktestProofs.Example.reconciler
    {| FreqUI.hasRecorder := true; FreqUI.GatewayAPIAvailable := false |} _ _ Hshare)) as Hbot.
  pose proof (exec_wp served _ _ Hbot KSecret o1 o2 H1 H2 Hkey) as Hk.
  revert Hk. apply (bool_decide_unpack _). vm_compute. exact I.
Defined.
End SameName.
