(* ===== verification/AdmissionProofs.v ===== *)
(** * The validating webhooks: their properties

    Which requests each validator admits, exactly; what an admitted object
    means to the code that uses it later (the argv of a Backtest, the exchange
    section of a live bot); and what the TradeBot validator does to the writes
    of a stopped bot. *)

From S2P Require Import Prelude Prog GoLib Kube Types ConfigTypes Conversion Client ConfigBuilder Admission BacktestResources.

(** A program that ends here. *)
Ltac wp_ret := unfold mret, prog_ret; cbn [wp].

(** ** Answers the validators look for *)

Definition exists_in (h : history Call) (k : kind) (ns name : string) : Prop :=
  ∃ o, Ev (Get k {| nn_Name := name; nn_Namespace := ns |}) (Ok o) ∈ h.

Lemma contains_none s chars :
  ContainsAny s chars = false ↔ ∀ c, c ∈ bytes s → ¬ c ∈ bytes chars.
Proof.
  unfold ContainsAny. rewrite existsb_false_iff. split; intros Hall c Hc; specialize (Hall c Hc).
  - rewrite existsb_false_iff in Hall. intros Hin. specialize (Hall c Hin). by rewrite Ascii.eqb_refl in Hall.
  - apply existsb_false_iff. intros c' Hc'. apply Ascii.eqb_neq. by intros ->.
Qed.

Section TradeBots.
Import V1alpha1 TradeBotWebhook.
Context `{GoLib}.

(** An argument without shell characters that names none of the operator's
    own flags. *)
Definition clean_arg (arg : string) : Prop :=
  (∀ c, c ∈ bytes arg → ¬ c ∈ bytes shellMetacharacters) ∧ ¬ arg ∈ ownedFreqtradeFlags.

Definition interval_ok (i : option IntrospectionSpec) : Prop :=
  match i with Some i => in_Interval i = 0%Z ∨ (10 * Second <= in_Interval i)%Z | None => True end.

Definition bot_spec_ok (tradeBot : TradeBot) : Prop :=
  (∀ arg, arg ∈ FreqtradeArguments (Spec tradeBot) → clean_arg arg) ∧ interval_ok (Introspection (Spec tradeBot)).

(** The API server holds a stopped bot of this name. *)
Definition stored_stopped (h : history Call) (key : NamespacedName) : Prop :=
  ∃ stored, Ev (Get KTradeBotBeta key) (Ok stored) ∈ h ∧
    V1beta1.State (V1beta1.Spec stored) = V1beta1.TradeBotStateStopped.

Lemma check_arg_None arg : check_arg arg = None ↔ clean_arg arg.
Proof.
  unfold check_arg, clean_arg. rewrite <- contains_none. destruct (ContainsAny _ _); [by split; [|intros []]|].
  case_decide as Ho; [|done]. split; [done|]. by intros [_ Hn].
Qed.

Lemma check_spec_None tradeBot : check_spec tradeBot = None ↔ bot_spec_ok tradeBot.
Proof.
  unfold check_spec, bot_spec_ok. setoid_rewrite <- check_arg_None. rewrite <- first_error_None.
  assert (check_interval tradeBot = None ↔ interval_ok (Introspection (Spec tradeBot))) as Hi.
  { unfold check_interval, interval_ok, minIntrospectionInterval. destruct (Introspection _) as [i|]; [|done].
    destruct (negb (in_Interval i =? 0)%Z && _) eqn:E.
    - apply andb_true_iff in E as [Hz%negb_true_iff%Z.eqb_neq Hl%Z.ltb_lt]. split; [done|]. intros [?|?]; lia.
    - split; [intros _|done]. apply andb_false_iff in E as [Hz%negb_false_iff%Z.eqb_eq|Hl%Z.ltb_ge]; auto. }
  rewrite <- Hi. destruct (first_error _ _); [by split; [|intros []]|]. by split; [|intros []].
Qed.

(** The verdict of [validate], from the three answers. *)
Definition admitted (tradeBot : TradeBot) (h : history Call) : Prop :=
  exists_in h KStrategy (Namespace (Meta tradeBot)) (StrategyName (Spec tradeBot)) ∧
  exists_in h KTradeBotConfig (Namespace (Meta tradeBot)) (Config (Spec tradeBot)) ∧
  bot_spec_ok tradeBot ∧ ¬ stored_stopped h (ObjectKeyFromMeta (Meta tradeBot)).

Lemma validate_spec tradeBot : wp (validate tradeBot) [] (fun h res => res = None ↔ admitted tradeBot h).
Proof.
  assert (∀ A (a : A), Some a = None ↔ False) as Hno by done.
  unfold admitted, exists_in, stored_stopped. intros [st|e]; cbn -[wp].
  2: { wp_ret. rewrite Hno. split; [done|]. intros ([o Ho] & _). apply (got_eq KStrategy) in Ho as [[_ [=]]|[]%got_nil]. }
  intros [c|e]; cbn -[wp].
  2: { wp_ret. rewrite Hno. split; [done|]. intros (_ & [o Ho] & _). apply (got_ne KTradeBotConfig KStrategy), (got_eq KTradeBotConfig) in Ho as [[_ [=]]|[]%got_nil]; done. }
  destruct (check_spec tradeBot) as [err|] eqn:Hspec; cbn -[wp].
  { wp_ret. rewrite Hno, <- check_spec_None, Hspec. naive_solver. }
  apply check_spec_None in Hspec. intros x. cbn.
  assert (∀ stored, Ev (Get KTradeBotBeta (ObjectKeyFromMeta (Meta tradeBot))) (Ok stored) ∈
    [Ev (Get KStrategy {| nn_Name := StrategyName (Spec tradeBot); nn_Namespace := Namespace (Meta tradeBot) |}) (Ok st);
     Ev (Get KTradeBotConfig {| nn_Name := Config (Spec tradeBot); nn_Namespace := Namespace (Meta tradeBot) |}) (Ok c);
     Ev (Get KTradeBotBeta (ObjectKeyFromMeta (Meta tradeBot))) x] ↔ x = Ok stored) as Hst.
  { intros stored. etrans; [by apply (got_ne KTradeBotBeta KStrategy)|]. etrans; [by apply (got_ne KTradeBotBeta KTradeBotConfig)|].
    etrans; [apply (got_eq KTradeBotBeta)|]. rewrite got_nil. naive_solver. }
  setoid_rewrite Hst. trans (¬ ∃ stored, x = Ok stored ∧ V1beta1.State (V1beta1.Spec stored) = V1beta1.TradeBotStateStopped).
  - destruct x as [stored|e]; [|naive_solver]. destruct (String.eqb_spec (V1beta1.State (V1beta1.Spec stored))
      V1beta1.TradeBotStateStopped); naive_solver.
  - split; [|by intros (_ & _ & _ & ?)]. intros Hn. split_and!; [eexists; by left|eexists; by right; left|done..].
Qed.

(** Which TradeBot writes are admitted: an update of a bot under deletion
    always, without a look at the cluster; any other exactly if its Strategy
    and TradeBotConfig exist, its arguments hold no shell character and none
    of the operator's own flags, its introspection interval is unset or at
    least ten seconds, and the API server does not hold it as stopped. *)
Theorem tradebot_admitted_iff old tradeBot :
  wp (ValidateUpdate old tradeBot) [] (fun h res =>
    match DeletionTimestamp (Meta tradeBot) with
    | Some _ => res = None ∧ h = []
    | None => res = None ↔ admitted tradeBot h
    end).
Proof. unfold ValidateUpdate. destruct (DeletionTimestamp _); [done|]. apply validate_spec. Qed.

(** While the stored bot is stopped, an update of it is denied. *)
Lemma update_of_stopped_denied old stored tradeBot :
  V1beta1.State (V1beta1.Spec stored) = V1beta1.TradeBotStateStopped →
  DeletionTimestamp (Meta tradeBot) = None →
  wp (ValidateUpdate old tradeBot) [] (fun h res =>
    (∀ x, Ev (Get KTradeBotBeta (ObjectKeyFromMeta (Meta tradeBot))) x ∈ h → x = Ok stored) → res ≠ None).
Proof.
  intros Hst Hd. unfold ValidateUpdate. rewrite Hd.
  intros [s|e]; cbn -[wp]; [|wp_ret; by intros ?]. intros [c|e]; cbn -[wp]; [|wp_ret; by intros ?].
  destruct (check_spec tradeBot); cbn -[wp]; [by intros ?|]. intros x Hx. rewrite (Hx x) by (right; right; left; done).
  rewrite (proj2 (String.eqb_eq _ _) Hst). done.
Qed.

(** C12: no v1alpha1 write starts a stopped bot by accident. What is stored
    of a v1alpha1 object never says Stopped, as that version has no
    spec.state; so the v1alpha1 validator denies every update, whatever the
    new object, while the API server holds the bot as stopped - except while
    the bot is being deleted, when it admits each without a look at the
    cluster, so that its finalizer can go. *)
Theorem stopped_bot_frozen old stored tradeBot :
  V1beta1.State (V1beta1.Spec stored) = V1beta1.TradeBotStateStopped →
  (∀ written, TradeBotConversion.ConvertTo tradeBot TradeBotConversion.ZeroBeta = Ok written →
     V1beta1.State (V1beta1.Spec written) ≠ V1beta1.TradeBotStateStopped) ∧
  wp (ValidateUpdate old tradeBot) [] (fun h res =>
    match DeletionTimestamp (Meta tradeBot) with
    | Some _ => res = None ∧ h = []
    | None => (∀ x, Ev (Get KTradeBotBeta (ObjectKeyFromMeta (Meta tradeBot))) x ∈ h → x = Ok stored) → res ≠ None
    end).
Proof.
  intros Hst. split.
  - intros written Hc. unfold TradeBotConversion.ConvertTo in Hc. case_match; [done|].
    repeat (apply result_bind_ok in Hc as (? & _ & Hc)). by injection Hc as <-.
  - destruct (DeletionTimestamp (Meta tradeBot)) eqn:Hd; [unfold ValidateUpdate; by rewrite Hd|].
    by apply update_of_stopped_denied.
Qed.

(** The same validator is asked about v1beta1 writes, converted to its
    version (matchPolicy Equivalent), and denies them too: also the one that
    sets spec.state back to Running. *)
Lemma stopped_bot_never_started old stored new tradeBot :
  V1beta1.State (V1beta1.Spec stored) = V1beta1.TradeBotStateStopped →
  DeletionTimestamp (V1beta1.Meta new) = None →
  TradeBotConversion.ConvertFrom new TradeBotConversion.ZeroAlpha = Ok tradeBot →
  wp (ValidateUpdate old tradeBot) [] (fun h res =>
    (∀ x, Ev (Get KTradeBotBeta (ObjectKeyFromMeta (V1beta1.Meta new))) x ∈ h → x = Ok stored) → res ≠ None).
Proof.
  intros Hst Hd Hc. assert (Meta tradeBot = V1beta1.Meta new) as Hm.
  { unfold TradeBotConversion.ConvertFrom in Hc. repeat (apply result_bind_ok in Hc as (? & _ & Hc)). by injection Hc as <-. }
  rewrite <- Hm in *. by apply update_of_stopped_denied.
Qed.
End TradeBots.

(** ** Strategy *)

Section Strategies.
Import StrategyWebhook.

(** An identifier: a letter or underscore, then letters, digits and
    underscores. *)
Definition letter (c : ascii) : Prop :=
  (65 <= nat_of_ascii c <= 90)%nat ∨ (97 <= nat_of_ascii c <= 122)%nat ∨ c = "_"%char.
Definition digit (c : ascii) : Prop := (48 <= nat_of_ascii c <= 57)%nat.

Definition identifier (name : string) : Prop :=
  match bytes name with
  | first :: rest => letter first ∧ ∀ c, c ∈ rest → letter c ∨ digit c
  | [] => False
  end.

(** What freqtrade needs to find in the script. *)
Definition script_defines (script name : string) : Prop :=
  Contains script ("class " ^^ name) = true ∧
  (∀ method, method ∈ requiredMethods → Contains script ("def " ^^ method) = true) ∧
  (Contains script "import freqtrade" = true ∨ Contains script "from freqtrade.strategy" = true).

Definition strategy_ok (strategy : Strategy) : Prop :=
  identifier (sspec_Name (str_Spec strategy)) ∧
  script_defines (sspec_Script (str_Spec strategy)) (sspec_Name (str_Spec strategy)).

Lemma between_underscore c : between "_" "_" c = true ↔ c = "_"%char.
Proof.
  unfold between. rewrite andb_true_iff, !Nat.leb_le. split; [|by intros ->]. intros [H1 H2].
  assert (nat_of_ascii c = nat_of_ascii "_"%char) as Hn by (cbn in *; lia).
  by rewrite <- (ascii_nat_embedding c), Hn.
Qed.

Lemma validStart_spec c : validStart c = true ↔ letter c.
Proof.
  unfold validStart, letter. rewrite !orb_true_iff, between_underscore. unfold between.
  rewrite !andb_true_iff, !Nat.leb_le. cbn. tauto.
Qed.

Lemma validRest_spec c : validRest c = true ↔ letter c ∨ digit c.
Proof.
  unfold validRest, letter, digit. rewrite !orb_true_iff, between_underscore. unfold between.
  rewrite !andb_true_iff, !Nat.leb_le. cbn. tauto.
Qed.

Lemma class_name_spec name : IsValidPythonClassName name = true ↔ identifier name.
Proof.
  unfold identifier. destruct name as [|c rest]; [done|]. cbn. rewrite <- validStart_spec.
  setoid_rewrite <- validRest_spec. rewrite <- forallb_iff. destruct (validStart c), (forallb _ _); naive_solver.
Qed.

(** A text of blanks holds no class definition. *)
Lemma contains_cons s (c : ascii) sub : Contains s (String c sub) = true → c ∈ bytes s.
Proof.
  induction s as [|b s IH]; [done|]. cbn. intros [[->%Ascii.eqb_eq _]%andb_true_iff|Hs]%orb_true_iff; [by left|].
  right. by apply IH.
Qed.

Lemma blank_spec s : TrimSpace s = "" → ∀ c, c ∈ bytes s → is_space c = true.
Proof.
  assert (∀ t, TrimRight t = "" → ∀ c, c ∈ bytes t → is_space c = true) as Hr.
  { induction t as [|b t IH]; [by intros _ c ?%elem_of_nil|]. cbn. destruct (TrimRight t); [|done].
    destruct (is_space b) eqn:Hb; [|done]. intros _ c [->|Hc]%elem_of_cons; auto. }
  unfold TrimSpace. induction s as [|b s IH]; cbn; [by intros _ c ?%elem_of_nil|].
  destruct (is_space b) eqn:Hb.
  - intros Hs c [->|Hc]%elem_of_cons; auto.
  - intros Hs c Hc. by apply (Hr (String b s)).
Qed.

Lemma script_spec script name : ValidateStrategyScript script name = None ↔ script_defines script name.
Proof.
  unfold ValidateStrategyScript, script_defines. destruct (String.eqb_spec (TrimSpace script) "") as [Hb|_].
  { split; [done|]. intros [Hc _]. apply contains_cons, (blank_spec script Hb) in Hc. discriminate Hc. }
  destruct (Contains script _); cbn [negb]; [|by split; [|intros [? _]]].
  assert (∀ f, first_error (fun method => if negb (Contains script ("def " ^^ method)) then Some (f method) else None)
    requiredMethods = None ↔ ∀ method, method ∈ requiredMethods → Contains script ("def " ^^ method) = true) as Hm.
  { intros f. rewrite first_error_None. split; intros Hall m Hin; specialize (Hall m Hin); by destruct (Contains _ _). }
  rewrite <- (Hm (fun method => Errorf ("strategy script must contain method: " ^^ method))).
  destruct (first_error _ _); [by split; [|intros (_ & ? & _)]|].
  unfold requiredImports. cbn [existsb]. rewrite orb_false_r.
  destruct (Contains script "import freqtrade"), (Contains script "from freqtrade.strategy"); cbn; naive_solver.
Qed.

Lemma strategy_spec strategy : validateStrategySpec strategy = None ↔ strategy_ok strategy.
Proof.
  unfold validateStrategySpec, strategy_ok. rewrite <- class_name_spec, <- script_spec.
  destruct (String.eqb_spec (sspec_Name (str_Spec strategy)) "") as [->|_]; [by split; [|intros []]|].
  destruct (String.eqb_spec (sspec_Script (str_Spec strategy)) "") as [->|_]; [by split; [|intros []]|].
  by destruct (IsValidPythonClassName _); cbn; split; [|intros []| |intros []].
Qed.
End Strategies.

(** ** TradeBotConfig *)

Section Plaintext.
Import ConfigV1alpha1 PlaintextWebhook TradeBotConfigConversion.

Lemma storable_plain cfg : is_ok (ConvertTo cfg ZeroBeta) = true → plaintextCredentialFields cfg = [].
Proof.
  unfold ConvertTo. case_decide as Hf; [done|]. intros _. destruct (plaintextCredentialFields cfg); [done|].
  by destruct Hf.
Qed.

(** The opt-out annotation opens nothing: whatever can be stored at all -
    converted to v1beta1 - is admitted without the annotation being looked at
    and without a warning; what the annotation admits has a plaintext
    credential and fails to convert. *)
Theorem plaintext_annotation_moot v cfg :
  wp (validate v cfg) [] (fun h res =>
    (is_ok (ConvertTo cfg ZeroBeta) = true → res = None ∧ h = []) ∧
    (h ≠ [] → is_ok (ConvertTo cfg ZeroBeta) = false)).
Proof.
  unfold validate. destruct (plaintextCredentialFields cfg) as [|f fs] eqn:Hf; [done|].
  assert (is_ok (ConvertTo cfg ZeroBeta) = false) as ->.
  { apply not_true_iff_false. intros Hok%storable_plain. congruence. }
  case_decide; [|done]. unfold warnPlaintextCredentialsUsed, record_event. by destruct (hasRecorder v).
Qed.
End Plaintext.

Section Configs.
Import ConfigV1beta1 ConfigWebhook TradeBotConfigConversion.
Context `{GoLib}.

(** What conversion makes of an exchange section. *)
Lemma converted_exchange cfg a exchange :
  ConvertFrom cfg ZeroAlpha = Ok a → tc_Exchange (Spec cfg) = Some exchange →
  ∃ e, ConfigV1alpha1.tc_Exchange (ConfigV1alpha1.Spec a) = Some e ∧
    ConfigV1alpha1.ex_SecretRef e = lor_Name (ex_SecretRef exchange).
Proof.
  unfold ConvertFrom. intros Hc Hex. rewrite Hex in Hc. apply result_bind_ok in Hc as (simple & _ & Hc).
  apply result_bind_ok in Hc as (oe & Hoe & Hc). apply result_bind_ok in Hc as (no & _ & [= <-]). cbn.
  unfold convertExchangeSpecFromBeta in Hoe. destruct (convert_field "converting whitelist" _ _); [|discriminate Hoe].
  cbn in Hoe. destruct (convert_field "converting blacklist" _ _); [|discriminate Hoe]. cbn in Hoe.
  injection Hoe as <-. by eexists.
Qed.

(** A key the validator accepts is one the renderer reads. *)
Lemma known_key_read e key :
  key ∈ knownCredentialSecretKeys → ∃ k plain, (k, key, plain) ∈ exchange_credential_table e.
Proof.
  unfold knownCredentialSecretKeys, exchange_credential_table. intros Hin.
  repeat (apply elem_of_cons in Hin as [->|Hin]; [do 2 eexists; repeat first [by left|right]|]). by apply elem_of_nil in Hin.
Qed.

Lemma check_secret_spec cfg name :
  wp (check_secret cfg name) [] (fun h res => res = None → ∃ secret key v,
    Ev (Get KSecret {| nn_Name := name; nn_Namespace := Namespace (Meta cfg) |}) (Ok secret) ∈ h ∧
    key ∈ knownCredentialSecretKeys ∧ secret_Data secret !! key = Some v).
Proof.
  intros [secret|e]; [|done]. cbn -[existsb]. intros Hres. exists secret.
  destruct (existsb _ _) eqn:E; [|done]. apply existsb_iff in E as (key & Hin & [v Hv]%bool_decide_eq_true).
  exists key, v. split_and!; [by left|done..].
Qed.

(** C13: a live bot trades with the credentials of its Secret: when a
    TradeBotConfig that is not explicitly a dry run is admitted, its exchange
    section survives the conversion the controllers read it through, the
    Secret it names was found, and rendering with that Secret puts one of its
    values in the exchange section of config.json. *)
Theorem live_bot_has_credentials cfg :
  wp (ConfigWebhook.validate cfg) [] (fun h res => res = None →
    ∀ bot a, tc_Bot (Spec cfg) = Some bot → bc_DryRun bot ≠ Some true → ConvertFrom cfg ZeroAlpha = Ok a →
    ∃ e secret k key v,
      ConfigV1alpha1.tc_Exchange (ConfigV1alpha1.Spec a) = Some e ∧
      Ev (Get KSecret {| nn_Name := ConfigV1alpha1.ex_SecretRef e; nn_Namespace := Namespace (Meta cfg) |})
         (Ok secret) ∈ h ∧
      secret_Data secret !! key = Some v ∧
      obj (exchange_fields e (Some (secret_Data secret))) !! k = Some (JString v)).
Proof.
  unfold validate. destruct (tc_Exchange (Spec cfg)) as [exchange|] eqn:Hex; [|done].
  destruct (tc_Bot (Spec cfg)) as [bot|] eqn:Hbot; [|done].
  assert (bc_DryRun bot ≠ Some true → is_true_ptr (bc_DryRun bot) = false) as Hdry by (destruct (bc_DryRun bot) as [[]|]; naive_solver).
  destruct (String.eqb_spec (lor_Name (ex_SecretRef exchange)) "") as [Hn|Hn].
  - destruct (is_true_ptr _) eqn:Hd; cbn [negb andb]; wp_ret; [|done]. intros _ b a [= <-] Hlive.
    discriminate (Hdry Hlive).
  - rewrite andb_false_r. eapply wp_mono; [|apply check_secret_spec].
    intros h res Hs Hres b a [= <-] _ Ha. destruct (Hs Hres) as (secret & key & v & Hin & Hkey & Hv).
    destruct (converted_exchange _ _ _ Ha Hex) as (e & He & Href).
    destruct (known_key_read e key Hkey) as (k & plain & Htab). exists e, secret, k, key, v.
    rewrite Href. split_and!; [done..|]. rewrite (exchange_credential_lookup _ _ _ _ _ Htab), Href. cbn.
    apply nonempty_spec in Hn as ->. by rewrite Hv.
Qed.
End Configs.

(** ** Backtest *)

Section Backtests.
Import BacktestWebhook.

(** An argument that sets a flag: alone, its value following, or as flag=value. *)
Definition sets_flag (flag arg : string) : Prop := arg = flag ∨ ∃ value, arg = flag ^^ "=" ^^ value.

Lemma append_assoc (s t u : string) : (s ^^ t) ^^ u = s ^^ t ^^ u.
Proof. induction s as [|c s IH]; [done|]. exact (f_equal (String c) IH). Qed.

Lemma denies_spec arg flag : denies arg flag = true ↔ sets_flag flag arg.
Proof.
  unfold denies, sets_flag. rewrite orb_true_iff, String.eqb_eq, HasPrefix_spec.
  by setoid_rewrite append_assoc.
Qed.

#[global] Instance sets_flag_dec flag arg : Decision (sets_flag flag arg).
Proof. refine (cast_if (decide (denies arg flag = true))); by rewrite <- denies_spec. Defined.

Definition extra_arg_ok (arg : string) : Prop :=
  (∀ c, c ∈ bytes arg → ¬ c ∈ bytes shellMetacharacters) ∧ ∀ flag, flag ∈ denylistedExtraArgs → ¬ sets_flag flag arg.

Definition extra_args (backtest : Backtest) : list string := run_ExtraArgs (bt_RunSpec (bt_Spec backtest)).

Lemma check_extra_arg_None arg : check_extra_arg arg = None ↔ extra_arg_ok arg.
Proof.
  unfold check_extra_arg, extra_arg_ok. rewrite <- contains_none. destruct (ContainsAny _ _); [naive_solver|].
  rewrite first_error_None. split.
  - intros Hall. split; [done|]. intros flag Hin. specialize (Hall flag Hin). rewrite <- denies_spec. by destruct (denies arg flag).
  - intros [_ Hall] flag Hin. specialize (Hall flag Hin). rewrite <- denies_spec in Hall. by destruct (denies arg flag).
Qed.

(** Which Backtests are admitted: those with a configRef and a
    strategyRef that are not blank, and with extra arguments only under the
    opt-in annotation, none of them holding a shell character or setting a
    flag the operator manages, in either form. *)
Theorem backtest_admitted_iff backtest :
  ValidateCreate backtest = None ↔
  TrimSpace (lor_Name (run_ConfigRef (bt_RunSpec (bt_Spec backtest)))) ≠ "" ∧
  TrimSpace (lor_Name (run_StrategyRef (bt_RunSpec (bt_Spec backtest)))) ≠ "" ∧
  (extra_args backtest ≠ [] → Annotations (bt_Meta backtest) !! allowExtraArgsAnnotation = Some "true" ∧
     ∀ arg, arg ∈ extra_args backtest → extra_arg_ok arg).
Proof.
  unfold ValidateCreate, validateBacktestSpec, validateExtraArgs, extra_args.
  destruct (String.eqb_spec (TrimSpace (lor_Name (run_ConfigRef (bt_RunSpec (bt_Spec backtest))))) ""); [naive_solver|].
  destruct (String.eqb_spec (TrimSpace (lor_Name (run_StrategyRef (bt_RunSpec (bt_Spec backtest))))) ""); [naive_solver|].
  destruct (run_ExtraArgs _) as [|arg args]; [naive_solver|].
  setoid_rewrite <- check_extra_arg_None. rewrite <- first_error_None. case_decide; naive_solver.
Qed.

Lemma filter_none {A} (P : A → Prop) `{∀ x, Decision (P x)} l : (∀ x, x ∈ l → ¬ P x) → filter P l = [].
Proof.
  induction l as [|x l IH]; [done|]. intros Hall. rewrite filter_cons_False by (apply Hall; by left).
  apply IH. intros y Hy. apply Hall. by right.
Qed.

(** C30: the operator's flags stay the operator's: in the argv of an admitted
    Backtest the occurrences of a managed flag - alone or as flag=value - are
    those of the argv without extra arguments, so none of them names another
    config, strategy, database, log or directory. *)
Theorem managed_flags_stay `{KubeLib} backtest strategyName hasCache flag :
  ValidateCreate backtest = None → flag ∈ denylistedExtraArgs →
  filter (sets_flag flag) (buildArgs (bt_Spec backtest) strategyName hasCache (extra_args backtest)) =
  filter (sets_flag flag) (buildArgs (bt_Spec backtest) strategyName hasCache []).
Proof.
  intros Hv Hflag. unfold buildArgs. rewrite app_nil_r, !app_assoc, filter_app.
  rewrite (filter_none _ (extra_args backtest)); [by rewrite app_nil_r|].
  unfold ValidateCreate, validateBacktestSpec in Hv. case_match; [done|]. case_match; [done|].
  unfold validateExtraArgs in Hv. unfold extra_args. destruct (run_ExtraArgs _) as [|a args]; [by intros arg ?%elem_of_nil|].
  case_decide; [|done]. intros arg Hin. eapply (proj1 (first_error_None _ _)) in Hv as [_ Hall]%check_extra_arg_None; [|done].
  by apply Hall.
Qed.
End Backtests.

(** ** Concrete requests *)

Module Example.
#[local] Existing Instance kubelib_instance.
#[local] Existing Instance golib_instance.

Definition beta_bot (state : string) : V1beta1.TradeBot :=
  {| V1beta1.Meta := NewMeta "bot" "trading" ∅ ∅;
     V1beta1.Spec := {| V1beta1.ConfigRef := {| lor_Name := "cfg" |}; V1beta1.StrategyRef := {| lor_Name := "strat" |};
                        V1beta1.App := None; V1beta1.UpdateStrategy := ""; V1beta1.Introspection := None;
                        V1beta1.State := state |};
     V1beta1.Status := ZeroTradeBotStatus |}.

Definition alpha_bot : V1alpha1.TradeBot :=
  {| V1alpha1.Meta := NewMeta "bot" "trading" ∅ ∅; V1alpha1.Spec := V1alpha1.Spec TradeBotConversion.ZeroAlpha;
     V1alpha1.Status := ZeroTradeBotStatus |}.

(** An update of a bot stored as stopped is denied. *)
Lemma stopped_bot_frozen_witness :
  wp (TradeBotWebhook.ValidateUpdate alpha_bot alpha_bot) [] (fun h res =>
    (∀ x, Ev (Get KTradeBotBeta {| nn_Namespace := "trading"; nn_Name := "bot" |}) x ∈ h → x = Ok (beta_bot "Stopped")) →
    res ≠ None).
Proof. apply (stopped_bot_frozen alpha_bot (beta_bot "Stopped") alpha_bot eq_refl). Defined.

Definition run (extraArgs : list string) : Backtest :=
  {| bt_Meta := NewMeta "run" "trading" ∅ {[ "freqtrade.io/allow-extra-args" := "true" ]};
     bt_Spec :=
       {| bt_RunSpec := {| run_ConfigRef := {| lor_Name := "cfg" |}; run_StrategyRef := {| lor_Name := "strat" |};
                           run_Timerange := ""; run_Timeframe := ""; run_Pairs := []; run_Data := None;
                           run_Results := None; run_Pod := None; run_TTLSecondsAfterFinished := None;
                           run_ExtraArgs := extraArgs |};
          bt_TimeframeDetail := ""; bt_MaxOpenTrades := None; bt_StakeAmount := ""; bt_DryRunWallet := None;
          bt_Fee := None; bt_EnableProtections := None; bt_Breakdown := []; bt_Cache := "" |};
     bt_Status :=
       {| bst_Phase := ""; bst_Message := ""; bst_Conditions := []; bst_ObservedGeneration := 0; bst_JobName := "";
          bst_ResultsPVCName := ""; bst_StartTime := None; bst_CompletionTime := None; bst_Results := None |} |}.

Lemma managed_flags_stay_witness :
  filter (sets_flag "--strategy")
    (buildArgs (bt_Spec (run ["--fee"; "0.1"])) "MyStrategy" false (extra_args (run ["--fee"; "0.1"]))) = ["--strategy"].
Proof.
  rewrite (managed_flags_stay (run ["--fee"; "0.1"]) "MyStrategy" false "--strategy");
    [vm_compute; reflexivity|vm_compute; reflexivity|right; left].
Defined.

Example smuggled_strategy_denied : BacktestWebhook.ValidateCreate (run ["--strategy=Other"]) ≠ None.
Proof. vm_compute. discriminate. Qed.
End Example.
