(* ===== verification/SpecControllers.v ===== *)
(** * controllers/strategy and controllers/tradebotconfig

    The two reconcilers without owned objects: they set the Ready condition
    and the phase.  Strategy validates its spec once more, with its own copy
    of the webhook's orchestration; TradeBotConfig is always ready. *)

From S2P Require Import Prelude Prog GoLib Kube Types ConfigTypes Client Shared TradeBotResources Admission AdmissionProofs FreqUI.

Record Reconciler := { hasRecorder : bool }.

(** The phase that the Ready condition stands for. *)
Definition deriveStrategyPhase `{KubeLib} (conditions : list Condition) : string :=
  match FindStatusCondition conditions ConditionReady with
  | None => "Validating"
  | Some ready => if decide (cStatus ready = ConditionTrue) then "Valid" else "Invalid"
  end.

(** The end of both: what PatchStatus says. *)
Definition patch_error : Z := secs 10.

(** ** Strategy *)

Module StrategyController.
Definition with_Status (s : Strategy) (st : StrategyStatus) : Strategy :=
  {| str_Meta := str_Meta s; str_Spec := str_Spec s; str_Status := st |}.

#[global] Program Instance strategy_conditioned : ConditionedObject KStrategy := {|
  StatusT := StrategyStatus;
  get_status := str_Status;
  with_status := with_Status;
  SetObservedGeneration s g :=
    {| sst_Phase := sst_Phase s; sst_Message := sst_Message s; sst_Conditions := sst_Conditions s;
       sst_ObservedGeneration := g |}
|}.
Next Obligation. done. Qed.
Next Obligation. by intros []. Qed.
Next Obligation. done. Qed.

Definition validateStrategy (strategy : Strategy) : option error :=
  let spec := str_Spec strategy in
  if (sspec_Name spec =? "")%string then Some (Errorf "strategy name is required")
  else if (sspec_Script spec =? "")%string then Some (Errorf "strategy script is required")
  else if negb (StrategyWebhook.IsValidPythonClassName (sspec_Name spec)) then
    Some (Errorf ("strategy name '" ^^ sspec_Name spec ^^ "' is not a valid Python class name"))
  else Wrap "strategy script validation failed"
       <$> StrategyWebhook.ValidateStrategyScript (sspec_Script spec) (sspec_Name spec).

Section Reconcile.
Context `{KubeLib} (r : Reconciler).

Definition ready_condition (validateErr : option error) : Condition :=
  match validateErr with
  | None => Cond ConditionReady ConditionTrue ReasonAsExpected "Strategy configuration is valid"
  | Some err => Cond ConditionReady ConditionFalse ReasonConfigInvalid (Error err)
  end.

Definition strategy_status (validateErr : option error) (s : StrategyStatus) : StrategyStatus :=
  let conditions := SetStatusCondition (sst_Conditions s) (ready_condition validateErr) in
  {| sst_Phase := deriveStrategyPhase conditions; sst_Message := sst_Message s; sst_Conditions := conditions;
     sst_ObservedGeneration := sst_ObservedGeneration s |}.

Definition reconcileStrategy (strategy : Strategy) : Op Result :=
  let validateErr := validateStrategy strategy in
  p ← patch_status KStrategy strategy (strategy_status validateErr);
  match p.2 with
  | Err err => mret (patch_error, Some err)
  | Ok _ =>
      match validateErr with
      | Some err =>
          _ ← record_event (hasRecorder r) KStrategy (ObjectKeyFromMeta (str_Meta p.1)) EventTypeWarning
                "ValidationFailed" (Error err);
          _ ← trigger (ReconcileErrorsInc "strategy" "ValidationFailed");
          mret (0%Z, None)
      | None => mret (0%Z, None)
      end
  end.

Definition Reconcile (key : NamespacedName) : Op Result :=
  got ← trigger (Get KStrategy key);
  match got with
  | Err err => mret (0%Z, IgnoreNotFound err)
  | Ok strategy => reconcileStrategy strategy
  end.
End Reconcile.
End StrategyController.

(** ** TradeBotConfig *)

Module ConfigController.
Import ConfigV1alpha1.

Definition with_Status (c : TradeBotConfig) (st : TradeBotConfigStatus) : TradeBotConfig :=
  {| Meta := Meta c; Spec := Spec c; Status := st |}.

#[global] Program Instance config_conditioned : ConditionedObject KTradeBotConfig := {|
  StatusT := TradeBotConfigStatus;
  get_status := Status;
  with_status := with_Status;
  SetObservedGeneration s g :=
    {| tcs_Phase := tcs_Phase s; tcs_Message := tcs_Message s; tcs_Conditions := tcs_Conditions s;
       tcs_ObservedGeneration := g |}
|}.
Next Obligation. done. Qed.
Next Obligation. by intros []. Qed.
Next Obligation. done. Qed.

Section Reconcile.
Context `{KubeLib}.

(** The same code under another name. *)
Definition deriveTradeBotConfigPhase (conditions : list Condition) : string := deriveStrategyPhase conditions.

Definition config_status (s : TradeBotConfigStatus) : TradeBotConfigStatus :=
  let conditions := SetStatusCondition (tcs_Conditions s)
    (Cond ConditionReady ConditionTrue ReasonAsExpected "TradeBotConfig configuration is valid") in
  {| tcs_Phase := deriveTradeBotConfigPhase conditions; tcs_Message := tcs_Message s; tcs_Conditions := conditions;
     tcs_ObservedGeneration := tcs_ObservedGeneration s |}.

Definition reconcileConfig (cfg : TradeBotConfig) : Op Result :=
  p ← patch_status KTradeBotConfig cfg config_status;
  mret match p.2 with
       | Err err => (patch_error, Some err)
       | Ok _ => (0%Z, None)
       end.

Definition Reconcile (key : NamespacedName) : Op Result :=
  got ← trigger (Get KTradeBotConfig key);
  match got with
  | Err err => mret (0%Z, IgnoreNotFound err)
  | Ok cfg => reconcileConfig cfg
  end.
End Reconcile.
End ConfigController.

(** ** Properties *)

(** The controller's copy of the checks accepts what the webhook's does. *)
Lemma strategy_checks_agree strategy :
  StrategyController.validateStrategy strategy = None ↔ StrategyWebhook.validateStrategySpec strategy = None.
Proof.
  unfold StrategyController.validateStrategy, StrategyWebhook.validateStrategySpec.
  do 3 (case_match; [done|]). by destruct (StrategyWebhook.ValidateStrategyScript _ _).
Qed.

Section Properties.
Context `{KubeLib} `{GoLib} (r : Reconciler).

Lemma ready_after cs c :
  cType c = ConditionReady →
  IsStatusConditionTrue (SetStatusCondition cs c) ConditionReady = bool_decide (cStatus c = ConditionTrue) ∧
  deriveStrategyPhase (SetStatusCondition cs c) = (if bool_decide (cStatus c = ConditionTrue) then "Valid" else "Invalid").
Proof.
  intros Hc. unfold IsStatusConditionTrue, deriveStrategyPhase. rewrite <- Hc, find_set_eq. split; [done|].
  by case_decide as Ht; [rewrite bool_decide_true|rewrite bool_decide_false].
Qed.

(** A status mutation that says whether the strategy is valid. *)
Definition tells (valid : bool) (f : StrategyStatus → StrategyStatus) : Prop :=
  ∀ s, IsStatusConditionTrue (sst_Conditions (f s)) ConditionReady = valid ∧
       sst_Phase (f s) = if valid then "Valid" else "Invalid".

Lemma strategy_status_tells err : tells (bool_decide (err = None)) (StrategyController.strategy_status err).
Proof.
  intros s. cbn. destruct (ready_after (sst_Conditions s) (StrategyController.ready_condition err)) as [-> ->];
    by destruct err.
Qed.

Definition counted (h : history Call) : Prop :=
  ∃ x, Ev (ReconcileErrorsInc "strategy" "ValidationFailed") x ∈ h.

(** A Strategy's status and the webhook agree: when a reconcile succeeds,
    the recorded status has Ready true and phase Valid exactly if the
    admission webhook accepts the Strategy it read - its name an identifier,
    its script defining that class with the three required methods and
    importing freqtrade -, and it counts a validation error exactly if not. *)
Theorem strategy_ready_iff_admitted strategy :
  (StrategyWebhook.ValidateCreate strategy = None ↔ strategy_ok strategy) ∧
  wp (StrategyController.reconcileStrategy r strategy) [] (fun h res => res.2 = None → ∃ valid f,
    (valid = true ↔ StrategyWebhook.ValidateCreate strategy = None) ∧
    recorded KStrategy f (ObjectKeyFromMeta (str_Meta strategy)) h ∧ tells valid f ∧ (counted h ↔ valid = false)).
Proof.
  split; [apply strategy_spec|]. unfold StrategyWebhook.ValidateCreate.
  pose proof (strategy_checks_agree strategy) as Hagree. revert Hagree. unfold StrategyController.reconcileStrategy.
  generalize (StrategyController.validateStrategy strategy) as err. intros err Hagree.
  assert (∀ P : ∀ X, Call X → Prop, P _ (Get KStrategy (ObjectKeyFromMeta (str_Meta strategy))) →
    (∀ o, P _ (StatusUpdate KStrategy o)) →
    emits P (patch_status KStrategy strategy (StrategyController.strategy_status err))) as Hem.
  { intros P HG HU. by apply (patch_status_emits KStrategy). }
  apply wp_bind. eapply wp_mono; [|apply (wp_conj _ _ _ _ (patch_status_spec KStrategy strategy _ [])
    (emits_wp (fun _ c => match c with ReconcileErrorsInc _ _ => False | _ => True end) _ (Hem _ I (fun _ => I))))].
  intros h [s' [[]|e]] [(h1 & E & _ & Hrec) Hq]; [|by intros [=]]. cbn in E. subst h1. specialize (Hrec eq_refl).
  assert (¬ counted h) as Hnc by (intros [x Hin]; rewrite Forall_forall in Hq; by apply Hq in Hin).
  pose proof (strategy_status_tells err) as Htell. cbn. destruct err as [err|]; cbn in Htell.
  - apply wp_bind. eapply wp_mono; [|apply (wp_extends _ _)]. intros h2 [] [h3 ->]. intros x _.
    eexists false, _. split_and!; [by rewrite <- Hagree| |exact Htell|].
    + by apply recorded_app_l, recorded_app_l.
    + split; [done|]. intros _. exists x. apply elem_of_app; right. by left.
  - intros _. eexists true, _. split_and!; [by rewrite <- Hagree|exact Hrec|exact Htell|]. split; [done|]. intros [=].
Qed.

(** The API server of a TradeBotConfig is enabled in its spec. *)
Definition api_enabled (c : ConfigV1alpha1.TradeBotConfig) : bool :=
  match ConfigV1alpha1.tc_APIServer (ConfigV1alpha1.Spec c) with
  | Some a => is_true_ptr (ConfigV1alpha1.api_Enabled a)
  | None => false
  end.

(** Any TradeBotConfig becomes Valid: a successful reconcile records
    Ready and the phase a FreqUI looks for, whatever the spec, so that from
    then on a FreqUI routes to exactly the bots whose API server is enabled. *)
Theorem config_valid_serves cfg :
  wp (ConfigController.reconcileConfig cfg) [] (fun h res => res.2 = None → ∃ f,
    recorded KTradeBotConfig f (ObjectKeyFromMeta (ConfigV1alpha1.Meta cfg)) h ∧
    ∀ c s, IsStatusConditionTrue (tcs_Conditions (f s)) ConditionReady = true ∧
           serves_api (ConfigController.with_Status c (f s)) = api_enabled c).
Proof.
  apply wp_bind. eapply wp_mono; [|apply (patch_status_spec KTradeBotConfig cfg _ [])].
  intros h [c' [[]|e]] (h1 & E & _ & Hrec); [|by intros [=]]. cbn in E. subst h1. intros _.
  eexists. split; [exact (Hrec eq_refl)|]. intros c s. unfold serves_api. cbn. unfold ConfigController.deriveTradeBotConfigPhase.
  by destruct (ready_after (tcs_Conditions s)
    (Cond ConditionReady ConditionTrue ReasonAsExpected "TradeBotConfig configuration is valid") eq_refl) as [-> ->].
Qed.
End Properties.
