(* ===== verification/Schema.v ===== *)
(** * The CRD schemas

    The validation markers of api/v1alpha1 and api/v1beta1 as predicates on
    the Go values: an omitted field (its zero value under [omitempty]) is
    valid.  The API server enforces them on what clients write; the theorems
    show that conversion between the versions keeps a valid object valid, and
    that the objects built from a valid FreqUI are within the bounds of their
    own schema.

    Left out are the schemas of the Kubernetes types a pod or Ingress section
    embeds, which conversion copies, and the difference between a nil and an
    empty slice, which the values here do not have. *)

From S2P Require Import Prelude GoLib Kube Types ConfigTypes Conversion TradeBotResources FreqUIResources.

(** A required relation between optional fields. *)
Definition both {A B} (P : A → B → Prop) (a : option A) (b : option B) : Prop :=
  match a, b with Some a, Some b => P a b | _, _ => True end.

Definition present {A} (P : A → Prop) (o : option A) : Prop := match o with Some a => P a | None => True end.

(** A required field: nil is written as null, which is no object. *)
Definition required {A} (P : A → Prop) (o : option A) : Prop := match o with Some a => P a | None => False end.

(** An enum on an [omitempty] string. *)
Definition enum (values : list string) (s : string) : Prop := s = "" ∨ s ∈ values.

(** ** Patterns *)

Definition ascii_digit (c : ascii) : bool := (48 <=? nat_of_ascii c)%nat && (nat_of_ascii c <=? 57)%nat.
Definition lower_alnum (c : ascii) : bool :=
  ascii_digit c || ((97 <=? nat_of_ascii c)%nat && (nat_of_ascii c <=? 122)%nat).

(** [^[a-z0-9]([-a-z0-9]*[a-z0-9])?$] *)
Definition name_pattern (s : string) : bool :=
  let l := list_ascii_of_string s in
  forallb (fun c => lower_alnum c || Ascii.eqb c "-"%char) l &&
  match l with [] => false | c :: _ => lower_alnum c end &&
  match rev l with [] => false | c :: _ => lower_alnum c end.

(** [^\d{8}-(\d{8})?$] *)
Definition timerange_pattern (s : string) : bool :=
  let l := list_ascii_of_string s in
  ((List.length l =? 9)%nat || (List.length l =? 17)%nat) && forallb ascii_digit (take 8 l) &&
  match drop 8 l with c :: l => Ascii.eqb c "-"%char && forallb ascii_digit l | [] => false end.

(** [^\d+[mhdw]$] *)
Definition timeframe_pattern (s : string) : bool :=
  match rev (list_ascii_of_string s) with
  | unit :: ds => existsb (Ascii.eqb unit) ["m"%char; "h"%char; "d"%char; "w"%char] && negb (bool_decide (ds = [])) && forallb ascii_digit ds
  | [] => false
  end.

(** An [omitempty] string with a pattern. *)
Definition matches (p : string → bool) (s : string) : Prop := s = "" ∨ p s = true.

(** The labels of a dotted name. *)
Fixpoint split_dots (l : list ascii) : list (list ascii) :=
  match l with
  | [] => [[]]
  | c :: l =>
      if Ascii.eqb c "."%char then [] :: split_dots l
      else match split_dots l with [] => [[c]] | label :: labels => (c :: label) :: labels end
  end.

(** [^[a-z0-9]([-a-z0-9]*[a-z0-9])?(\.[a-z0-9]([-a-z0-9]*[a-z0-9])?)*$] *)
Definition subdomain_pattern (s : string) : bool :=
  forallb (fun label => name_pattern (string_of_list_ascii label)) (split_dots (list_ascii_of_string s)).

(** [^(\*\.)?] and then a subdomain. *)
Definition hostname_pattern (s : string) : bool :=
  subdomain_pattern (match s with String "*" (String "." domain) => domain | _ => s end).

(** [^[a-zA-Z]([-a-zA-Z0-9]*[a-zA-Z0-9])?$] *)
Definition upper (c : ascii) : bool := (65 <=? nat_of_ascii c)%nat && (nat_of_ascii c <=? 90)%nat.
Definition kind_pattern (s : string) : bool :=
  let l := list_ascii_of_string s in
  forallb (fun c => lower_alnum c || upper c || Ascii.eqb c "-"%char) l &&
  match l with [] => false | c :: _ => (lower_alnum c || upper c) && negb (ascii_digit c) end &&
  match rev l with [] => false | c :: _ => lower_alnum c || upper c end.

(** The characters of a text: each has one byte that continues no other. *)
Definition rune_count (s : string) : nat :=
  List.length (List.filter (fun c => negb (cont c)) (list_ascii_of_string s)).

(** minLength and maxLength *)
Definition length_in (lo hi : nat) (s : string) : Prop := (lo <= rune_count s <= hi)%nat.

(** ** Sections shared by the versions *)

Definition bot_config_valid (b : BotConfig) : Prop :=
  enum ["spot"; "margin"; "futures"] (bc_TradingMode b) ∧
  present (fun wallet => SFleb (S754_zero false) wallet = true) (bc_DryRunWallet b) ∧
  present (fun n => (-1 <= n)%Z) (bc_MaxOpenTrades b).

Definition risk_management_valid (r : RiskManagementSpec) : Prop :=
  both (fun offset positive => SFltb positive offset = true)
    (rm_TrailingStopPositiveOffset r) (rm_TrailingStopPositive r).

Definition port_valid (p : Z) : Prop := (1 <= p <= 65535)%Z.

(** ** TradeBotConfig *)

Definition alpha_config_valid (s : ConfigV1alpha1.TradeBotConfigSpec) : Prop :=
  required bot_config_valid (ConfigV1alpha1.tc_Bot s) ∧
  present risk_management_valid (ConfigV1alpha1.tc_RiskManagement s) ∧
  present (fun a => present port_valid (ConfigV1alpha1.api_ListenPort a)) (ConfigV1alpha1.tc_APIServer s).

Definition beta_config_valid (s : ConfigV1beta1.TradeBotConfigSpec) : Prop :=
  required bot_config_valid (ConfigV1beta1.tc_Bot s) ∧
  present risk_management_valid (ConfigV1beta1.tc_RiskManagement s) ∧
  present (fun a => present port_valid (ConfigV1beta1.api_ListenPort a)) (ConfigV1beta1.tc_APIServer s).

(** ** FreqUI *)

(** The markers of the Gateway API's ParentReference, part of the CRD. *)
Definition parent_valid (p : ParentReference) : Prop :=
  present (fun s => length_in 0 253 s ∧ (s = "" ∨ subdomain_pattern s = true)) (pref_Group p) ∧
  present (fun s => length_in 1 63 s ∧ kind_pattern s = true) (pref_Kind p) ∧
  present (fun s => length_in 1 63 s ∧ name_pattern s = true) (pref_Namespace p) ∧
  length_in 1 253 (pref_Name p) ∧
  present (fun s => length_in 1 253 s ∧ subdomain_pattern s = true) (pref_SectionName p) ∧
  present port_valid (pref_Port p).

Definition hostname_valid (h : string) : Prop := length_in 1 253 h ∧ hostname_pattern h = true.

Definition gateway_valid (g : FUGatewaySpec) : Prop :=
  (1 <= List.length (fg_ParentRefs g) <= 16)%nat ∧ Forall parent_valid (fg_ParentRefs g) ∧
  (List.length (fg_Hostnames g) <= 16)%nat ∧ Forall hostname_valid (fg_Hostnames g).

(** The rules on spec.exposure, spec.gateway and spec.tls. *)
Definition exposure_valid (exposure : FUExposureType) (gateway : option FUGatewaySpec) (tls : list IngressTLS) : Prop :=
  (exposure = FUExposureGateway → gateway ≠ None) ∧
  (exposure = FUExposureGateway → tls = []) ∧
  (exposure = FUExposureGateway ∨ gateway = None) ∧
  present gateway_valid gateway.

Definition alpha_frequi_valid (s : V1alpha1.FreqUISpec) : Prop :=
  exposure_valid (V1alpha1.Exposure s) (V1alpha1.Gateway s) (V1alpha1.TLS s).
Definition beta_frequi_valid (s : V1beta1.FreqUISpec) : Prop :=
  exposure_valid (V1beta1.Exposure s) (V1beta1.Gateway s) (V1beta1.TLS s).

(** ** TradeBot *)

Definition commands : list string := ["trade"; "backtesting"; "hyperopt"; "download-data"; "lookahead-analysis"].
Definition download_policies : list string := ["always"; "ifMissing"; "never"].

Definition data_valid (d : DataSourceSpec) : Prop := enum download_policies (ds_DownloadPolicy d).

Definition alpha_tradebot_valid (s : V1alpha1.TradeBotSpec) : Prop :=
  (V1alpha1.Data s = None ∨ V1alpha1.FreqtradeCommand s ≠ "trade") ∧
  enum commands (V1alpha1.FreqtradeCommand s) ∧ (List.length (V1alpha1.FreqtradeArguments s) <= 64)%nat ∧
  name_pattern (V1alpha1.Config s) = true ∧ name_pattern (V1alpha1.StrategyName s) = true ∧
  enum ["Manual"; "Auto"] (V1alpha1.UpdateStrategy s) ∧ present data_valid (V1alpha1.Data s).

Definition beta_tradebot_valid (s : V1beta1.TradeBotSpec) : Prop :=
  enum ["Manual"; "Auto"] (V1beta1.UpdateStrategy s) ∧ enum ["Running"; "Stopped"] (V1beta1.State s).

(** ** Backtest *)

Definition results_valid (r : ResultsSpec) : Prop := enum ["Delete"; "Retain"] (rs_RetentionPolicy r).

Definition run_valid (r : RunSpec) : Prop :=
  matches timerange_pattern (run_Timerange r) ∧ matches timeframe_pattern (run_Timeframe r) ∧
  (List.length (run_Pairs r) <= 256)%nat ∧ (List.length (run_ExtraArgs r) <= 64)%nat ∧
  present data_valid (run_Data r) ∧ present results_valid (run_Results r).

(** The marker is on the list, not on its items: the list itself has to be one
    of the strings. *)
Definition breakdown_valid (l : list string) : Prop :=
  l = [] ∨ JList (map JString l) ∈ map JString ["day"; "week"; "month"].

Definition backtest_valid (s : BacktestSpec) : Prop :=
  run_valid (bt_RunSpec s) ∧ breakdown_valid (bt_Breakdown s) ∧ enum ["none"; "day"; "week"; "month"] (bt_Cache s).

(** [self == oldSelf] *)
Definition backtest_update_valid (old new : BacktestSpec) : Prop := backtest_valid new ∧ new = old.

(** ** Conversion *)

(** A section after its JSON trip. *)
Lemma converted_present {A} `{JsonRoundTrip A} (P : A → Prop) pre src dst b :
  (∀ a, P a → P (json_norm a)) → present P src → present P dst → convert_field pre src dst = Ok b → present P b.
Proof.
  intros HP Hs Hd. destruct src as [a|]; cbn; [|by intros [= <-]]. unfold convertJSON.
  destruct (List.find _ _); [done|]. intros [= <-]. by apply HP.
Qed.

Lemma converted_required {A} `{JsonRoundTrip A} (P : A → Prop) pre src b :
  (∀ a, P a → P (json_norm a)) → required P src → convert_field pre src None = Ok b → required P b.
Proof.
  intros HP Hs. destruct src as [a|]; cbn; [|done]. unfold convertJSON.
  destruct (List.find _ _); [done|]. intros [= <-]. by apply HP.
Qed.

Lemma convert_field_result {A} `{JsonRoundTrip A} pre (src : option A) b :
  convert_field pre src None = Ok b → b = json_norm <$> src.
Proof. by intros [_ ->]%convert_field_fresh. Qed.

Ltac open_result H :=
  repeat (let x := fresh "x" in let E := fresh "E" in apply result_bind_ok in H as (x & E & H));
  injection H as <-.

Lemma risk_norm_valid r : risk_management_valid r → risk_management_valid (json_norm r).
Proof. done. Qed.

Section Configs.
Import TradeBotConfigConversion.

(** The section a conversion made of another, found by its error prefix. *)
Ltac section_valid P pre := match goal with
  | E : convert_field pre _ _ = Ok _ |- _ =>
      first [eapply (converted_required P); [..|exact E]; solve [done]
            |eapply (converted_present P); [..|exact E]; solve [done]]
  end.

Lemma simple_to_beta_valid s simple :
  convertSimpleSpecFieldsToBeta s (ConfigV1beta1.Spec ZeroBeta) = Ok simple → alpha_config_valid s →
  required bot_config_valid (ConfigV1beta1.tc_Bot simple) ∧
  present risk_management_valid (ConfigV1beta1.tc_RiskManagement simple) ∧ ConfigV1beta1.tc_APIServer simple = None.
Proof.
  intros Hc (Hbot & Hrisk & _). unfold convertSimpleSpecFieldsToBeta in Hc. open_result Hc. cbn. split_and!; [| |done].
  - section_valid bot_config_valid "converting spec.bot".
  - section_valid risk_management_valid "converting spec.risk_management".
Qed.

Lemma simple_from_beta_valid s simple :
  convertSimpleSpecFieldsFromBeta s (ConfigV1alpha1.Spec ZeroAlpha) = Ok simple → beta_config_valid s →
  required bot_config_valid (ConfigV1alpha1.tc_Bot simple) ∧
  present risk_management_valid (ConfigV1alpha1.tc_RiskManagement simple) ∧ ConfigV1alpha1.tc_APIServer simple = None.
Proof.
  intros Hc (Hbot & Hrisk & _). unfold convertSimpleSpecFieldsFromBeta in Hc. open_result Hc. cbn. split_and!; [| |done].
  - section_valid bot_config_valid "converting spec.bot".
  - section_valid risk_management_valid "converting spec.risk_management".
Qed.

Lemma config_up_valid a b :
  ConvertTo a ZeroBeta = Ok b → alpha_config_valid (ConfigV1alpha1.Spec a) → beta_config_valid (ConfigV1beta1.Spec b).
Proof.
  unfold ConvertTo. case_decide; [done|]. intros Hc Hv. apply result_bind_ok in Hc as (simple & Hs & Hc). open_result Hc.
  destruct (simple_to_beta_valid _ _ Hs Hv) as (Hb & Hr & Ha). split_and!; [done..|]. cbn.
  destruct Hv as (_ & _ & Hport). destruct (ConfigV1alpha1.tc_APIServer _); [exact Hport|]. by rewrite Ha.
Qed.

Lemma config_down_valid b a :
  ConvertFrom b ZeroAlpha = Ok a → beta_config_valid (ConfigV1beta1.Spec b) → alpha_config_valid (ConfigV1alpha1.Spec a).
Proof.
  unfold ConvertFrom. intros Hc Hv. apply result_bind_ok in Hc as (simple & Hs & Hc). open_result Hc.
  destruct (simple_from_beta_valid _ _ Hs Hv) as (Hb & Hr & Ha). split_and!; [done..|]. cbn.
  destruct Hv as (_ & _ & Hport). destruct (ConfigV1beta1.tc_APIServer _); [exact Hport|]. by rewrite Ha.
Qed.
End Configs.

Lemma frequi_up_valid a b :
  FreqUIConversion.ConvertTo a FreqUIConversion.ZeroBeta = Ok b → alpha_frequi_valid (V1alpha1.fu_Spec a) →
  beta_frequi_valid (V1beta1.fu_Spec b).
Proof.
  unfold FreqUIConversion.ConvertTo. intros Hc Hv. open_result Hc. unfold beta_frequi_valid. cbn.
  match goal with E : convert_field "converting spec.gateway" _ _ = Ok _ |- _ => apply convert_field_result in E as -> end.
  revert Hv. unfold alpha_frequi_valid. by destruct (V1alpha1.Gateway _).
Qed.

Lemma frequi_down_valid b a :
  FreqUIConversion.ConvertFrom b FreqUIConversion.ZeroAlpha = Ok a → beta_frequi_valid (V1beta1.fu_Spec b) →
  alpha_frequi_valid (V1alpha1.fu_Spec a).
Proof.
  unfold FreqUIConversion.ConvertFrom. intros Hc Hv. open_result Hc. unfold alpha_frequi_valid. cbn.
  match goal with E : convert_field "converting spec.gateway" _ _ = Ok _ |- _ => apply convert_field_result in E as -> end.
  revert Hv. unfold beta_frequi_valid. by destruct (V1beta1.Gateway _).
Qed.

Lemma tradebot_up_valid a b :
  TradeBotConversion.ConvertTo a TradeBotConversion.ZeroBeta = Ok b → alpha_tradebot_valid (V1alpha1.Spec a) →
  beta_tradebot_valid (V1beta1.Spec b).
Proof.
  unfold TradeBotConversion.ConvertTo. case_match; [done|]. intros Hc (_ & _ & _ & _ & _ & Hu & _). open_result Hc.
  split; [exact Hu|by left].
Qed.

(** What a v1beta1 TradeBot lacks of the v1alpha1 schema is the pattern of the
    names it refers to. *)
Lemma tradebot_down_valid b a :
  TradeBotConversion.ConvertFrom b TradeBotConversion.ZeroAlpha = Ok a → beta_tradebot_valid (V1beta1.Spec b) →
  (alpha_tradebot_valid (V1alpha1.Spec a) ↔
   name_pattern (lor_Name (V1beta1.ConfigRef (V1beta1.Spec b))) = true ∧
   name_pattern (lor_Name (V1beta1.StrategyRef (V1beta1.Spec b))) = true).
Proof.
  unfold TradeBotConversion.ConvertFrom. intros Hc [Hu _]. open_result Hc. unfold alpha_tradebot_valid. cbn.
  split; [by intros (_ & _ & _ & ? & ? & _)|]. intros [Hn Hs]. split_and!; try done; try (by left); lia.
Qed.

(** C39: conversion is well-typed: a TradeBot, TradeBotConfig or FreqUI that
    satisfies the CRD schema of the version it is in satisfies the schema of
    the other version after conversion, in both directions: update strategy,
    command and references, the required bot section, trading mode, wallet,
    open trades, the trailing stop rule, the API port, the rules between
    exposure, gateway and TLS, and the gateway's hostnames and parentRefs.
    The one exception is exact: a v1beta1 TradeBot is valid as v1alpha1 iff
    the names it refers to are DNS labels, which v1beta1 does not ask. *)
Theorem conversion_keeps_schema :
  (∀ a b, TradeBotConversion.ConvertTo a TradeBotConversion.ZeroBeta = Ok b →
     alpha_tradebot_valid (V1alpha1.Spec a) → beta_tradebot_valid (V1beta1.Spec b)) ∧
  (∀ b a, TradeBotConversion.ConvertFrom b TradeBotConversion.ZeroAlpha = Ok a → beta_tradebot_valid (V1beta1.Spec b) →
     (alpha_tradebot_valid (V1alpha1.Spec a) ↔
      name_pattern (lor_Name (V1beta1.ConfigRef (V1beta1.Spec b))) = true ∧
      name_pattern (lor_Name (V1beta1.StrategyRef (V1beta1.Spec b))) = true)) ∧
  (∀ a b, TradeBotConfigConversion.ConvertTo a TradeBotConfigConversion.ZeroBeta = Ok b →
     alpha_config_valid (ConfigV1alpha1.Spec a) → beta_config_valid (ConfigV1beta1.Spec b)) ∧
  (∀ b a, TradeBotConfigConversion.ConvertFrom b TradeBotConfigConversion.ZeroAlpha = Ok a →
     beta_config_valid (ConfigV1beta1.Spec b) → alpha_config_valid (ConfigV1alpha1.Spec a)) ∧
  (∀ a b, FreqUIConversion.ConvertTo a FreqUIConversion.ZeroBeta = Ok b →
     alpha_frequi_valid (V1alpha1.fu_Spec a) → beta_frequi_valid (V1beta1.fu_Spec b)) ∧
  (∀ b a, FreqUIConversion.ConvertFrom b FreqUIConversion.ZeroAlpha = Ok a →
     beta_frequi_valid (V1beta1.fu_Spec b) → alpha_frequi_valid (V1alpha1.fu_Spec a)).
Proof.
  split_and!; [exact tradebot_up_valid|exact tradebot_down_valid|exact config_up_valid|exact config_down_valid|exact frequi_up_valid|exact frequi_down_valid].
Qed.

(** ** The routes of a valid FreqUI *)

(** What the HTTPRoute schema bounds: parents, hostnames and rules. *)
Definition route_valid (route : HTTPRoute) : Prop :=
  (1 <= List.length (hr_ParentRefs route) <= 32)%nat ∧ (1 <= List.length (hr_Hostnames route) <= 16)%nat ∧
  (1 <= List.length (hr_Rules route) <= 16)%nat.

(** The routes are well-typed: a FreqUI that satisfies its schema in
    Gateway mode builds only HTTPRoutes with at least one parent, at least one
    hostname and one rule, within the bounds of the HTTPRoute schema, and all
    but its own under a name checked to be a DNS subdomain. *)
Theorem routes_well_typed `{KubeLib} frequi apiRoutes :
  beta_frequi_valid (V1beta1.fu_Spec frequi) → V1beta1.Exposure (V1beta1.fu_Spec frequi) = FUExposureGateway →
  ∀ route, route ∈ (BuildFreqUIHTTPRoutes frequi apiRoutes).1 →
    route_valid route ∧
    (Name (hr_Meta route) = Name (V1beta1.fu_Meta frequi) ∨ IsDNS1123Subdomain (Name (hr_Meta route)) = true).
Proof.
  intros (Hgw & _ & _ & Hg) He route. specialize (Hgw He). destruct (V1beta1.Gateway (V1beta1.fu_Spec frequi)) as [g|] eqn:Eg; [|done].
  destruct Hg as (Hp & _ & Hh & _). intros [->|(ar & <- & [_ Hn]%List.filter_In)%list_elem_of_In%in_map_iff]%elem_of_cons.
  - split; [|by left]. unfold route_valid, buildHTTPRoute. cbn. rewrite Eg. cbn. unfold ui_hostnames. rewrite Eg. cbn.
    split_and!; try lia; by destruct (fg_Hostnames g); cbn in *; try lia.
  - split; [|by right]. unfold route_valid, buildHTTPRoute. cbn. rewrite Eg. cbn. lia.
Qed.

(** ** A FreqUI behind a Gateway *)

Module Example.
#[local] Existing Instance kubelib_instance.

Definition gateway : FUGatewaySpec :=
  {| fg_ParentRefs := [ {| pref_Group := Some "gateway.networking.k8s.io"; pref_Kind := Some "Gateway";
                           pref_Namespace := Some "infra"; pref_Name := "public"; pref_SectionName := Some "https";
                           pref_Port := Some 443%Z |} ];
     fg_Hostnames := ["ui.example.org"; "*.example.org"];
     fg_Annotations := ∅; fg_Labels := ∅ |}.

Definition behind_gateway : V1beta1.FreqUI :=
  {| V1beta1.fu_Meta := NewMeta "ui" "trading" ∅ ∅;
     V1beta1.fu_Spec :=
       {| V1beta1.Host := "ui.example.org"; V1beta1.TLS := []; V1beta1.IngressAnnotations := ∅; V1beta1.FUApp := None;
          V1beta1.TradeBotRefs := []; V1beta1.Exposure := FUExposureGateway; V1beta1.Gateway := Some gateway |};
     V1beta1.fu_Status := ZeroFreqUIStatus |}.

Lemma behind_gateway_valid : beta_frequi_valid (V1beta1.fu_Spec behind_gateway).
Proof.
  unfold beta_frequi_valid, exposure_valid; cbn. split_and!; try (by left) || done.
  assert (∀ lo hi s, (lo <=? rune_count s)%nat && (rune_count s <=? hi)%nat = true → length_in lo hi s) as Hlen.
  { intros lo hi s [?%Nat.leb_le ?%Nat.leb_le]%andb_true_iff. by split. }
  split_and!; cbn [fg_ParentRefs fg_Hostnames gateway List.length]; [lia|lia| |lia|].
  - apply Forall_singleton. unfold parent_valid, present, port_valid.
    cbn [pref_Group pref_Kind pref_Namespace pref_Name pref_SectionName pref_Port].
    split_and!; first [apply Hlen; vm_compute; reflexivity|vm_compute; reflexivity|right; vm_compute; reflexivity|lia].
  - apply Forall_cons; split; [|apply Forall_singleton]; (split; [apply Hlen; vm_compute; reflexivity|vm_compute; reflexivity]).
Qed.

Lemma conversion_keeps_schema_witness :
  ∃ a, FreqUIConversion.ConvertFrom behind_gateway FreqUIConversion.ZeroAlpha = Ok a ∧
    alpha_frequi_valid (V1alpha1.fu_Spec a).
Proof.
  eexists. split; [reflexivity|]. apply (proj2 (proj2 (proj2 (proj2 (proj2 conversion_keeps_schema)))) behind_gateway); [reflexivity|].
  apply behind_gateway_valid.
Defined.

Lemma routes_well_typed_witness :
  Forall route_valid (BuildFreqUIHTTPRoutes behind_gateway
    [ {| ar_Name := "bot"; ar_ServiceName := "bot"; ar_PathPrefix := "bot" |} ]).1.
Proof.
  apply Forall_forall. intros route Hin.
  by apply (routes_well_typed behind_gateway _ behind_gateway_valid eq_refl route Hin).
Defined.
End Example.
