(* ===== verification/SchemaDefaults.v ===== *)
(** * The defaults of the CRD schemas

    What the API server fills in for omitted fields, and that the operator
    does not depend on it: every definition that reads a defaulted field gives
    the same for the object as written and for the object as defaulted.  Objects
    stored before a default was added, and Go literals in clients, behave the
    same.  [breakdown_unusable] is about a marker that defeats its field. *)

From S2P Require Import Prelude Prog GoLib Kube Types Client Shared Conversion TradeBotResources BotClient Poller.
From S2P Require Import BacktestResources Schema.
From Stdlib Require Import FunctionalExtensionality.
From S2P Require TradeBot FreqUI.

(** A default on an [omitempty] string. *)
Definition or_default (d s : string) : string := if nonempty s then s else d.

Definition default_introspection (i : IntrospectionSpec) : IntrospectionSpec :=
  {| in_Enabled := Some (default true (in_Enabled i));
     in_Interval := if decide (in_Interval i = 0%Z) then secs 60 else in_Interval i |}.

Definition default_data (d : DataSourceSpec) : DataSourceSpec :=
  {| ds_PVCName := ds_PVCName d; ds_DownloadArgs := ds_DownloadArgs d;
     ds_DownloadPolicy := or_default "always" (ds_DownloadPolicy d) |}.

(** ** TradeBot *)

Definition default_alpha_tradebot (t : V1alpha1.TradeBot) : V1alpha1.TradeBot :=
  let s := V1alpha1.Spec t in
  {| V1alpha1.Meta := V1alpha1.Meta t;
     V1alpha1.Spec :=
       {| V1alpha1.FreqtradeCommand := or_default "trade" (V1alpha1.FreqtradeCommand s);
          V1alpha1.FreqtradeArguments := V1alpha1.FreqtradeArguments s;
          V1alpha1.Config := V1alpha1.Config s; V1alpha1.StrategyName := V1alpha1.StrategyName s;
          V1alpha1.App := V1alpha1.App s; V1alpha1.Data := default_data <$> V1alpha1.Data s;
          V1alpha1.UpdateStrategy := or_default "Manual" (V1alpha1.UpdateStrategy s);
          V1alpha1.Introspection := default_introspection <$> V1alpha1.Introspection s |};
     V1alpha1.Status := V1alpha1.Status t |}.

Definition default_beta_tradebot (t : V1beta1.TradeBot) : V1beta1.TradeBot :=
  let s := V1beta1.Spec t in
  {| V1beta1.Meta := V1beta1.Meta t;
     V1beta1.Spec :=
       {| V1beta1.ConfigRef := V1beta1.ConfigRef s; V1beta1.StrategyRef := V1beta1.StrategyRef s;
          V1beta1.App := V1beta1.App s; V1beta1.UpdateStrategy := or_default "Manual" (V1beta1.UpdateStrategy s);
          V1beta1.Introspection := default_introspection <$> V1beta1.Introspection s;
          V1beta1.State := or_default "Running" (V1beta1.State s) |};
     V1beta1.Status := V1beta1.Status t |}.

(** ** FreqUI *)

Definition default_frequi (f : V1beta1.FreqUI) : V1beta1.FreqUI :=
  let s := V1beta1.fu_Spec f in
  {| V1beta1.fu_Meta := V1beta1.fu_Meta f;
     V1beta1.fu_Spec :=
       {| V1beta1.Host := V1beta1.Host s; V1beta1.TLS := V1beta1.TLS s;
          V1beta1.IngressAnnotations := V1beta1.IngressAnnotations s; V1beta1.FUApp := V1beta1.FUApp s;
          V1beta1.TradeBotRefs := V1beta1.TradeBotRefs s;
          V1beta1.Exposure := match V1beta1.Exposure s with FUExposureUnset => FUExposureIngress | e => e end;
          V1beta1.Gateway := V1beta1.Gateway s |};
     V1beta1.fu_Status := V1beta1.fu_Status f |}.

(** ** Backtest *)

Section Defaults.
Context `{KubeLib} `{GoLib}.

Definition default_results (r : ResultsSpec) : ResultsSpec :=
  {| rs_Size := if Quantity_IsZero (rs_Size r) then defaultResultsSize else rs_Size r;
     rs_StorageClassName := rs_StorageClassName r; rs_RetentionPolicy := or_default "Delete" (rs_RetentionPolicy r) |}.

Definition default_run (r : RunSpec) : RunSpec :=
  {| run_ConfigRef := run_ConfigRef r; run_StrategyRef := run_StrategyRef r; run_Timerange := run_Timerange r;
     run_Timeframe := run_Timeframe r; run_Pairs := run_Pairs r; run_Data := default_data <$> run_Data r;
     run_Results := default_results <$> run_Results r; run_Pod := run_Pod r;
     run_TTLSecondsAfterFinished := Some (default 86400%Z (run_TTLSecondsAfterFinished r));
     run_ExtraArgs := run_ExtraArgs r |}.

Definition default_backtest (b : Backtest) : Backtest :=
  let s := bt_Spec b in
  {| bt_Meta := bt_Meta b;
     bt_Spec :=
       {| bt_RunSpec := default_run (bt_RunSpec s); bt_TimeframeDetail := bt_TimeframeDetail s;
          bt_MaxOpenTrades := bt_MaxOpenTrades s; bt_StakeAmount := bt_StakeAmount s; bt_DryRunWallet := bt_DryRunWallet s;
          bt_Fee := bt_Fee s; bt_EnableProtections := bt_EnableProtections s; bt_Breakdown := bt_Breakdown s;
          bt_Cache := bt_Cache s |};
     bt_Status := bt_Status b |}.

(** ** What reads a defaulted field *)

Lemma default_is_trade t : isTradeMode (default_alpha_tradebot t) = isTradeMode t.
Proof. unfold isTradeMode. cbn. unfold or_default. by destruct (V1alpha1.FreqtradeCommand (V1alpha1.Spec t)). Qed.

Lemma default_enabled t : introspectionEnabled (default_alpha_tradebot t) = introspectionEnabled t.
Proof. unfold introspectionEnabled. cbn. destruct (V1alpha1.Introspection _) as [[[b|] i]|]; done. Qed.

Lemma default_interval t : pollInterval (default_alpha_tradebot t) = pollInterval t.
Proof.
  unfold pollInterval. cbn. destruct (V1alpha1.Introspection _) as [[b i]|]; [|done]. cbn.
  case_decide as Hi; [by subst|done].
Qed.

Lemma default_auto t : TradeBot.is_auto (default_alpha_tradebot t) = TradeBot.is_auto t.
Proof. unfold TradeBot.is_auto. cbn. unfold or_default. by destruct (V1alpha1.UpdateStrategy (V1alpha1.Spec t)). Qed.

Lemma default_desired b : TradeBot.desired_state (default_beta_tradebot b) = TradeBot.desired_state b.
Proof. unfold TradeBot.desired_state. cbn. unfold or_default. by destruct (V1beta1.State (V1beta1.Spec b)). Qed.

(** Nothing of the FreqUI but its metadata is read past the choice of mode. *)
Lemma prune_loop_meta f g desired routes : V1beta1.fu_Meta f = V1beta1.fu_Meta g →
  FreqUI.prune_loop f desired routes = FreqUI.prune_loop g desired routes.
Proof.
  intros Hm. induction routes as [|route routes IH]; [done|]. cbn [FreqUI.prune_loop].
  unfold FreqUI.controlled_by. rewrite Hm. destruct (bool_decide _ || _); [exact IH|]. by rewrite IH.
Qed.

Lemma pruneHTTPRoutes_meta r f g desired : V1beta1.fu_Meta f = V1beta1.fu_Meta g →
  FreqUI.pruneHTTPRoutes r f desired = FreqUI.pruneHTTPRoutes r g desired.
Proof.
  intros Hm. unfold FreqUI.pruneHTTPRoutes. rewrite Hm. destruct (negb _); [done|].
  assert (FreqUI.prune_loop f desired = FreqUI.prune_loop g desired) as ->; [|done].
  apply functional_extensionality. intros routes. by apply prune_loop_meta.
Qed.

Lemma default_exposure r f routes : FreqUI.reconcileExposure r (default_frequi f) routes = FreqUI.reconcileExposure r f routes.
Proof.
  destruct f as [m [h tls ann app refs [] gw] st]; [|reflexivity..].
  unfold default_frequi, FreqUI.reconcileExposure. cbn [V1beta1.Exposure V1beta1.fu_Spec V1beta1.fu_Meta].
  unfold FreqUI.reconcileIngress.
  erewrite (pruneHTTPRoutes_meta r); [reflexivity|reflexivity].
Qed.

Lemma default_url f : FreqUI.deriveFreqUIURL (default_frequi f) = FreqUI.deriveFreqUIURL f.
Proof. by destruct f as [m [h tls ann app refs [] gw] st]. Qed.

Lemma default_pvc b : BuildResultsPVC (default_backtest b) = BuildResultsPVC b.
Proof.
  unfold BuildResultsPVC. cbn. destruct (run_Results _) as [[size sc pol]|]; [|done]. cbn.
  destruct (Quantity_IsZero size) eqn:Hz; [|by rewrite Hz]. by destruct (Quantity_IsZero defaultResultsSize).
Qed.

Lemma default_retention b : ResultsRetentionPolicy (default_backtest b) = ResultsRetentionPolicy b.
Proof.
  unfold ResultsRetentionPolicy. cbn. destruct (run_Results _) as [[size sc pol]|]; [|done]. cbn. unfold or_default.
  by destruct (nonempty pol) eqn:Hp; rewrite ?Hp.
Qed.

Lemma default_download s s' d image mounts : download_args s = download_args s' →
  buildDownloadDataInitContainer s (default_data d) image mounts = buildDownloadDataInitContainer s' d image mounts.
Proof. intros Ha. unfold buildDownloadDataInitContainer. rewrite Ha. by destruct d as [p a []]. Qed.

Lemma default_pod b image operatorImage strategyName secret cm :
  BuildPod (default_backtest b) image operatorImage strategyName secret cm = BuildPod b image operatorImage strategyName secret cm.
Proof.
  set (b' := default_backtest b).
  assert (cache_of (bt_Spec b') = default_data <$> cache_of (bt_Spec b)) as Hc.
  { unfold cache_of. cbn. destruct (run_Data _) as [d|]; [|done]. cbn. by destruct (nonempty _). }
  assert (download_args (bt_Spec b') = download_args (bt_Spec b)) as Ha.
  { unfold download_args. cbn. by destruct (run_Data _). }
  unfold BuildPod, has_cache. rewrite Hc. destruct (cache_of (bt_Spec b)) as [d|]; [|reflexivity].
  cbn [fmap option_fmap option_map]. rewrite (default_download _ _ d _ _ Ha). reflexivity.
Qed.

Lemma default_job b image operatorImage strategyName secret cm :
  BuildJob (default_backtest b) image operatorImage strategyName secret cm = BuildJob b image operatorImage strategyName secret cm.
Proof.
  unfold BuildJob. rewrite default_pod. by destruct b as [m [[c s tr tf pairs da res pod [ttl|] extra] td mo sa dw fee ep br ca] st].
Qed.

(** C37: a controller's work does not depend on the API server having filled
    the schema's defaults in.  A v1alpha1 TradeBot is taken for a trade or a job
    bot, for polled or not, at the same interval, and for auto-updated or not
    alike before and after defaulting, a v1beta1 TradeBot has the same desired
    state, a FreqUI the same exposure and the same URL, a Backtest the same
    results claim, retention and Job: every default in the code is the
    schema's. *)
Theorem defaults_change_nothing :
  (∀ t, isTradeMode (default_alpha_tradebot t) = isTradeMode t
        ∧ introspectionEnabled (default_alpha_tradebot t) = introspectionEnabled t
        ∧ pollInterval (default_alpha_tradebot t) = pollInterval t
        ∧ TradeBot.is_auto (default_alpha_tradebot t) = TradeBot.is_auto t)
  ∧ (∀ b, TradeBot.desired_state (default_beta_tradebot b) = TradeBot.desired_state b)
  ∧ (∀ r f routes, FreqUI.reconcileExposure r (default_frequi f) routes = FreqUI.reconcileExposure r f routes
                   ∧ FreqUI.deriveFreqUIURL (default_frequi f) = FreqUI.deriveFreqUIURL f)
  ∧ (∀ b image operatorImage strategyName secret cm,
        BuildResultsPVC (default_backtest b) = BuildResultsPVC b
        ∧ ResultsRetentionPolicy (default_backtest b) = ResultsRetentionPolicy b
        ∧ BuildJob (default_backtest b) image operatorImage strategyName secret cm
          = BuildJob b image operatorImage strategyName secret cm).
Proof.
  split_and!; intros; auto using default_is_trade, default_enabled, default_interval, default_auto, default_desired,
    default_exposure, default_url, default_pvc, default_retention, default_job.
Qed.
End Defaults.

(** The enumeration on the breakdown is the list's, not its items': a Backtest
    the API server admits asks for no breakdown, whatever [buildArgs] would do
    with one. *)
Theorem breakdown_unusable s : backtest_valid s → bt_Breakdown s = [].
Proof.
  intros (_ & [Hb|Hb] & _); [done|]. repeat (apply elem_of_cons in Hb as [Hb|Hb]; [done|]). by apply not_elem_of_nil in Hb.
Qed.

Module DefaultsExample.
#[local] Existing Instance kubelib_instance.
#[local] Existing Instance golib_instance.

Definition asking (breakdown : list string) : BacktestSpec :=
  {| bt_RunSpec := {| run_ConfigRef := {| lor_Name := "cfg" |}; run_StrategyRef := {| lor_Name := "strat" |};
                      run_Timerange := "20250101-"; run_Timeframe := "5m"; run_Pairs := ["BTC/USDT"]; run_Data := None;
                      run_Results := None; run_Pod := None; run_TTLSecondsAfterFinished := None; run_ExtraArgs := [] |};
     bt_TimeframeDetail := ""; bt_MaxOpenTrades := None; bt_StakeAmount := ""; bt_DryRunWallet := None;
     bt_Fee := None; bt_EnableProtections := None; bt_Breakdown := breakdown; bt_Cache := "day" |}.

Lemma asking_nothing_valid : backtest_valid (asking []).
Proof.
  split_and!; [split_and!| |].
  - by right; vm_compute.
  - by right; vm_compute.
  - cbn. lia.
  - cbn. lia.
  - exact I.
  - exact I.
  - by left.
  - right. cbn. set_solver.
Qed.

(** The argument the schema keeps anyone from asking for. *)
Lemma breakdown_unusable_witness :
  bt_Breakdown (asking []) = [] ∧ ¬ backtest_valid (asking ["day"]).
Proof. split; [apply breakdown_unusable, asking_nothing_valid|by intros Hv%breakdown_unusable]. Defined.

Example breakdown_argument :
  "--breakdown" ∈ buildArgs (asking ["day"]) "strat" false [].
Proof. apply (bool_decide_unpack _). vm_compute. exact I. Qed.
End DefaultsExample.
