(* ===== verification/Store.v ===== *)
(** * PatchStatus against an API server with concurrent clients

    PatchStatus reads the object, computes its status, writes it back and
    starts over when the write conflicts.  Here it runs against the API
    server's optimistic concurrency: an object carries a resourceVersion, every
    write publishes a fresh one, and a status update is applied only if the
    version it was computed from is still the stored one.  Other clients write
    whatever they like between any two calls, and a read may be served from a
    cache: it returns any version the object has had.

    The specification is the atomic read-modify-write that PatchStatus stands
    for: [patch_status_atomic] shows that the interleaved system implements
    it, step for step. *)

From S2P Require Import Prelude Prog GoLib Kube Types ConfigTypes Client Shared SpecControllers.

Section Store.
Context `{KubeLib} (k : kind) `{ConditionedObject k} (key : NamespacedName).

Definition version (o : Obj k) : string := ResourceVersion (obj_Meta k o).
Definition with_version (o : Obj k) (v : string) : Obj k :=
  obj_with_Meta k o (with_ResourceVersion (obj_Meta k o) v).

Lemma version_with o v : version (with_version o v) = v.
Proof. unfold version, with_version. by rewrite obj_Meta_with. Qed.

(** The object stored under the key, what was stored before, and the next
    version to hand out. *)
Record store := { st_obj : option (Obj k); st_past : list (Obj k); st_next : N }.

Definition publish (st : store) (o : option (Obj k)) : store :=
  {| st_obj := (fun o => with_version o (pretty (st_next st))) <$> o;
     st_past := match st_obj st with Some old => old :: st_past st | None => st_past st end;
     st_next := N.succ (st_next st) |}.

(** What a read can see. *)
Definition known (st : store) (o : Obj k) : Prop := st_obj st = Some o ∨ o ∈ st_past st.

(** A step of the system: whose it was - a call of the program, answered, or
    another client's write - and the object before and after. *)
Record entry := { en_call : option (event Call); en_before : option (Obj k); en_after : option (Obj k) }.

(** A Get answers with a version the object has or had, or fails; a status update replaces
    the status of the version it names, and its answer may get lost; or it is
    refused, and nothing is stored. *)
Inductive step {A} : Op A → store → entry → Op A → store → Prop :=
  | step_other p st o :
      step p st {| en_call := None; en_before := st_obj st; en_after := st_obj (publish st o) |} p (publish st o)
  | step_get kont st o :
      known st o →
      step (Vis (Get k key) kont) st
        {| en_call := Some (Ev (Get k key) (Ok o)); en_before := st_obj st; en_after := st_obj st |} (kont (Ok o)) st
  | step_get_fails kont st e :
      step (Vis (Get k key) kont) st
        {| en_call := Some (Ev (Get k key) (Err e)); en_before := st_obj st; en_after := st_obj st |} (kont (Err e)) st
  | step_write kont st o cur new x :
      st_obj st = Some cur → version o = version cur →
      st_obj (publish st (Some (with_status cur (get_status o)))) = Some new →
      x = Ok new ∨ (∃ e, x = Err e) →
      step (Vis (StatusUpdate k o) kont) st
        {| en_call := Some (Ev (StatusUpdate k o) x); en_before := Some cur; en_after := Some new |}
        (kont x) (publish st (Some (with_status cur (get_status o))))
  | step_refused kont st o e :
      step (Vis (StatusUpdate k o) kont) st
        {| en_call := Some (Ev (StatusUpdate k o) (Err e)); en_before := st_obj st; en_after := st_obj st |}
        (kont (Err e)) st.

(** An execution from [p0] and [st0]: what happened, the program left to run
    and the store. *)
Inductive execution {A} (p0 : Op A) (st0 : store) : list entry → Op A → store → Prop :=
  | execution_nil : execution p0 st0 [] p0 st0
  | execution_step tr p st e p' st' :
      execution p0 st0 tr p st → step p st e p' st' → execution p0 st0 (tr ++ [e]) p' st'.

(** The program's own calls. *)
Definition calls (tr : list entry) : history Call := omap en_call tr.

Lemma calls_app tr tr' : calls (tr ++ tr') = calls tr ++ calls tr'.
Proof. apply omap_app. Qed.

Lemma step_calls {A} (p : Op A) st e p' st' Q h :
  step p st e p' st' → wp p h Q → wp p' (h ++ calls [e]) Q.
Proof. intros []; cbn; rewrite ?app_nil_r; auto. Qed.

Lemma execution_wp {A} (p0 : Op A) st0 tr p st Q :
  execution p0 st0 tr p st → wp p0 [] Q → wp p (calls tr) Q.
Proof.
  intros Hex Hwp. induction Hex as [|tr p st e p' st' _ IH Hs]; [done|]. rewrite calls_app. by eapply step_calls.
Qed.

Lemma execution_emits {A} (p0 : Op A) st0 tr p st P :
  execution p0 st0 tr p st → emits_after P p0 [] → emits_after P p (calls tr).
Proof.
  intros Hex Hp. induction Hex as [|tr p st e p' st' _ IH Hs]; [done|]. rewrite calls_app.
  destruct Hs; cbn [emits_after] in IH; cbn; rewrite ?app_nil_r; try done; apply IH.
Qed.

(** *** The specification: an atomic read-modify-write *)

Section Atomic.
Context (f : StatusT k → StatusT k).

(** The status of the stored object replaced by what [f] makes of it, under a
    new version, and nothing else touched. *)
Definition atomic (o o' : Obj k) : Prop := ∃ v, o' = with_version (patched k f o) v.

Definition refines (e : entry) : Prop :=
  match en_call e with
  | None => True
  | Some _ => en_after e = en_before e ∨ ∃ o o', en_before e = Some o ∧ en_after e = Some o' ∧ atomic o o'
  end.

(** The moment the patch took effect. *)
Definition took_effect (e : entry) : Prop :=
  ∃ o o', en_before e = Some o ∧ en_after e = Some o' ∧ atomic o o'.

(** An object that was stored at some moment. *)
Definition was_stored (o0 : Obj k) (tr : list entry) (o : Obj k) : Prop :=
  o = o0 ∨ ∃ e, e ∈ tr ∧ en_after e = Some o.

(** *** The calls PatchStatus makes *)

Definition patches (h : history Call) (X : Type) (c : Call X) : Prop :=
  match c with
  | StatusUpdate k' o => ∃ o0, existT k' o = existT k (patched k f o0) ∧ Ev (Get k key) (Ok o0) ∈ h
  | _ => True
  end.

Lemma attempt_patches s h : emits_after patches (patch_attempt k key (pure_mutation k f) s) h.
Proof using.
  split; [done|]. intros [o|e]; cbn; [|done]. case_decide; cbn; [done|]. split; [|by intros []].
  exists o. split; [done|]. apply elem_of_app; right. by left.
Qed.

Lemma retry_patches n s h : emits_after patches (retry n (patch_attempt k key (pure_mutation k f)) s) h.
Proof using.
  revert s h; induction n as [|n IH]; intros s h; cbn [retry]; (apply emits_after_bind; [apply attempt_patches|]);
    (eapply wp_mono; [|apply wp_extends]); intros h' [s' [u|e]] _; cbn; try done.
  destruct n as [|n]; [done|]. destruct (IsConflict e); [apply IH|done].
Qed.

(** *** Versions tell copies apart *)

(** A version handed out already. *)
Definition issued (st : store) (o : Obj k) : Prop := ∃ n, version o = pretty n ∧ (n < st_next st)%N.

(** An object is the stored one if it has its version. *)
Definition current (st : store) (o : Obj k) : Prop :=
  issued st o ∧ ∀ cur, st_obj st = Some cur → version o = version cur → cur = o.

Definition well_versioned (st : store) (h : history Call) : Prop :=
  (∀ o, known st o → current st o) ∧ ∀ o, Ev (Get k key) (Ok o) ∈ h → known st o.

Lemma known_published st o o' : known st o' → known (publish st o) o'.
Proof using.
  intros Hk. right. cbn. destruct Hk as [->|Hk]; [by left|]. destruct (st_obj st); [by right|done].
Qed.

Lemma published_known st o o' :
  known (publish st o) o' → st_obj (publish st o) = Some o' ∨ known st o'.
Proof using.
  intros [Hk|Hk]; [by left|right]. cbn in Hk. unfold known. destruct (st_obj st) as [old|]; [|by right].
  apply elem_of_cons in Hk as [->|Hk]; [by left|by right].
Qed.

Lemma publish_well_versioned st h o : well_versioned st h → well_versioned (publish st o) h.
Proof using.
  intros [Hst Hh]. split; [|by intros o' Ho%Hh; apply known_published].
  intros o' [Hnew|((n & Hv & Hn) & _)%Hst]%published_known.
  - destruct o as [o|]; [|done]. injection Hnew as <-. split; [|by intros cur [= <-]].
    exists (st_next st). split; [apply version_with|cbn; lia].
  - split; [exists n; split; [done|cbn; lia]|]. intros cur Hc. destruct o as [o|]; [|done]. injection Hc as <-.
    rewrite version_with, Hv. intros E%(inj pretty). lia.
Qed.

Lemma read_well_versioned st h o : well_versioned st h → known st o → well_versioned st (h ++ [Ev (Get k key) (Ok o)]).
Proof using.
  intros [Hst Hh] Ho. split; [done|]. intros o' [Hin|Hin%list_elem_of_singleton]%elem_of_app; [by apply Hh|].
  by apply ev_get_inj in Hin as [_ [= ->]].
Qed.

Lemma other_well_versioned st h (e : event Call) :
  (∀ o, e ≠ Ev (Get k key) (Ok o)) → well_versioned st h → well_versioned st (h ++ [e]).
Proof using.
  intros He [Hst Hh]. split; [done|]. intros o [Hin|Hin%list_elem_of_singleton]%elem_of_app; [by apply Hh|].
  by destruct (He o).
Qed.

Definition entry_ok (e : entry) : Prop :=
  refines e ∧ ∀ o s, en_call e = Some (Ev (StatusUpdate k o) (Ok s)) → took_effect e.

(** A step reveals no object but the one it stores. *)
Lemma step_known {A} (p : Op A) st e p' st' o : step p st e p' st' → known st' o → known st o ∨ en_after e = Some o.
Proof using.
  intros [] Hk; cbn; try (by left); apply published_known in Hk as [Hk|Hk]; try (by left); right; try done.
  by rewrite <- Hk.
Qed.

(** Each step of a program that writes only what it patched keeps the store
    in order and implements a step of the specification. *)
Lemma step_ok {A} (p : Op A) st e p' st' h :
  step p st e p' st' → emits_after patches p h → well_versioned st h →
  well_versioned st' (h ++ calls [e]) ∧ entry_ok e.
Proof using.
  intros Hs Hp Hw. destruct Hs as [p st o|kont st o Ho|kont st err|kont st o cur new x Ho Hv Hnew Hx|kont st o err]; cbn in Hp |- *.
  - rewrite app_nil_r. split; [by apply publish_well_versioned|]. by split_and!.
  - split; [by apply read_well_versioned|]. split; [by left|]. intros o' s E%Some_inj. ev_discr.
  - split; [|split; [by left|]].
    + apply other_well_versioned; [|done]. intros o E. apply ev_get_inj in E as [_ [=]].
    + intros o' s E%Some_inj. ev_discr.
  - destruct Hp as [(o0 & E & Hget) _]. apply (inj_pair2_eq_dec _ (fun a b => decide (a = b))) in E as ->.
    assert (cur = o0) as ->.
    { destruct Hw as [Hst Hh]. destruct (Hst o0 (Hh o0 Hget)) as [_ Hcur]. apply Hcur; [done|]. rewrite <- Hv.
      unfold version, patched. by rewrite with_status_Meta. }
    assert (atomic o0 new) as Hat.
    { injection Hnew as <-. exists (pretty (st_next st)). unfold patched. by rewrite get_with_status. }
    split.
    + apply other_well_versioned; [|by apply publish_well_versioned]. intros o' E. ev_discr.
    + split; [right; by exists o0, new|]. intros o' s _. by exists o0, new.
  - split; [|split; [by left|]].
    + apply other_well_versioned; [|done]. intros o' E. ev_discr.
    + intros o' s E%Some_inj. apply (f_equal ev_accepted) in E. discriminate E.
Qed.

Definition start (o : Obj k) : store :=
  {| st_obj := Some (with_version o (pretty 0%N)); st_past := []; st_next := 1 |}.

(** The object of [start]. *)
Definition started (o : Obj k) : Obj k := with_version o (pretty 0%N).

Lemma execution_ok {A} (p0 : Op A) o tr p st :
  execution p0 (start o) tr p st → emits_after patches p0 [] →
  well_versioned st (calls tr) ∧ (∀ o', known st o' → was_stored (started o) tr o') ∧ Forall entry_ok tr.
Proof using.
  intros Hex Hp. induction Hex as [|tr p st e p' st' Hex IH Hs].
  - split_and!; [split; [|by intros ? ?%elem_of_nil]| |constructor]; intros o' [[= <-]|[]%elem_of_nil].
    + split; [|by intros cur [= <-]]. exists 0%N. split; [apply version_with|done].
    + by left.
  - destruct IH as (Hw & Hseen & Hok). destruct (step_ok p st e p' st' (calls tr)) as [Hw' He]; [done| |done|].
    { by eapply execution_emits. }
    rewrite calls_app. split_and!; [done| |by apply Forall_app_2; [|constructor]].
    intros o' [[->|(e' & Hin & He')]%Hseen|Ha]%(step_known _ _ _ _ _ _ Hs); [by left|..]; right.
    + exists e'. split; [apply elem_of_app; by left|done].
    + exists e. split; [apply elem_of_app; right; by left|done].
Qed.

Lemma recorded_took_effect o0 st tr :
  well_versioned st (calls tr) → (∀ o, known st o → was_stored o0 tr o) → Forall entry_ok tr →
  recorded k f key (calls tr) →
  (∃ e, e ∈ tr ∧ took_effect e) ∨ ∃ o, was_stored o0 tr o ∧ patched k f o = o.
Proof using.
  intros [_ Hh] Hseen Hok (o & Hget & [Hsame|[stored Hput]]); [right|left].
  - exists o. by split; [apply Hseen, Hh|].
  - apply list_elem_of_omap in Hput as (e & Hin & He). rewrite Forall_forall in Hok.
    destruct (Hok e Hin) as [_ Hwrite]. eauto.
Qed.
End Atomic.
End Store.

(** C9: PatchStatus is an atomic read-modify-write: run against an API server
    with optimistic concurrency, where other clients write between any two of
    its calls, its reads may be stale and any of its calls may fail or lose its
    answer, each of its steps leaves the stored object as it is or replaces it
    by what the mutation makes of that very object - no write of another client
    is ever lost or mixed in -, and when it returns without an error there was
    such a replacement, or the object had that status already at some moment. *)
Theorem patch_status_atomic `{KubeLib} k `{ConditionedObject k} (obj o : Obj k) f tr p st :
  execution k (ObjectKeyFromMeta (obj_Meta k obj)) (patch_status k obj f) (start k o) tr p st →
  Forall (refines k f) tr ∧
  ∀ obj', p = mret (obj', Ok tt) →
    (∃ e, e ∈ tr ∧ took_effect k f e) ∨
    ∃ o', was_stored k (started k o) tr o' ∧ patched k f o' = o'.
Proof.
  intros Hex.
  assert (emits_after (patches k (ObjectKeyFromMeta (obj_Meta k obj)) f) (patch_status k obj f) []) as Hp.
  { apply emits_after_bind; [apply retry_patches|]. eapply wp_mono; [|apply (wp_extends _ _)]. done. }
  destruct (execution_ok _ _ _ _ _ _ _ _ Hex Hp) as (Hw & Hseen & Hok). split.
  - eapply Forall_impl; [exact Hok|]. by intros e [He _].
  - intros obj' ->. eapply recorded_took_effect; [done..|].
    pose proof (execution_wp _ _ _ _ _ _ _ _ Hex (patch_status_spec k obj f [])) as (h1 & -> & _ & Hrec).
    by apply Hrec.
Qed.

(** ** An execution with a conflict *)

Module Example.
#[local] Existing Instance kubelib_instance.

Definition strategy (script : string) : Strategy :=
  {| str_Meta := NewMeta "strat" "trading" ∅ ∅; str_Spec := {| sspec_Name := "Strat"; sspec_Script := script |};
     str_Status := {| sst_Phase := ""; sst_Message := ""; sst_Conditions := []; sst_ObservedGeneration := 0 |} |}.

Definition set_phase (s : StrategyStatus) : StrategyStatus :=
  {| sst_Phase := "Valid"; sst_Message := sst_Message s; sst_Conditions := sst_Conditions s;
     sst_ObservedGeneration := sst_ObservedGeneration s |}.

(** Read, another client edits the script, the write is refused, read again
    and write. *)
Lemma conflicting_execution :
  ∃ tr p st obj',
    execution KStrategy (ObjectKeyFromMeta (str_Meta (strategy "v1"))) (patch_status KStrategy (strategy "v1") set_phase)
      (start KStrategy (strategy "v1")) tr p st ∧
    p = mret (obj', Ok tt) ∧
    (sspec_Script ∘ str_Spec <$> st_obj KStrategy st) = Some "v2" ∧
    (sst_Phase ∘ str_Status <$> st_obj KStrategy st) = Some "Valid".
Proof.
  do 4 eexists. split.
  - eapply execution_step; [eapply execution_step; [eapply execution_step; [eapply execution_step;
      [eapply execution_step; [apply execution_nil|]|]|]|]|].
    + apply step_get. left; reflexivity.
    + apply (step_other KStrategy _ _ _ (Some (strategy "v2") : option (Obj KStrategy))).
    + apply (step_refused KStrategy _ _ _ _ (Leaf Conflict "conflict")).
    + apply step_get. left; reflexivity.
    + match goal with |- step _ _ ?p _ _ _ _ => let q := eval hnf in p in change p with q end.
      eapply (step_write KStrategy); [reflexivity|reflexivity|reflexivity|left; reflexivity].
  - split_and!; reflexivity.
Defined.

Lemma patch_status_atomic_witness :
  ∃ tr, Forall (refines KStrategy set_phase) tr ∧
    ((∃ e, e ∈ tr ∧ took_effect KStrategy set_phase e) ∨
     ∃ o, was_stored KStrategy (started KStrategy (strategy "v1")) tr o ∧ patched KStrategy set_phase o = o).
Proof.
  destruct conflicting_execution as (tr & p & st & obj' & Hex & Hp & _). exists tr. split.
  - apply (patch_status_atomic _ _ _ _ _ _ _ Hex).
  - by apply (proj2 (patch_status_atomic _ _ _ _ _ _ _ Hex) obj').
Defined.
End Example.
