(* ===== verification/CollectResults.v ===== *)
(** * controllers/backtest/collectresults: the results sidecar

    A process of its own in the pod of a Backtest's Job: it waits for the
    freqtrade container to exit, copies the result file to the results PVC,
    extracts a summary and creates the results ConfigMap that the Backtest
    reconciler adopts ([parse_results] of Backtest.v).

    Its calls are its own: its Pod, the clock, the wait for SIGTERM or the
    next poll, and files. *)

From S2P Require Import Prelude Prog GoLib Kube Types BacktestResources Backtest.

Inductive SideCall : Type → Type :=
  | InClusterConfig : SideCall (result unit)
  | NewClient : SideCall (result unit)
  | GetPod (key : NamespacedName) : SideCall (result (list (string * bool)))
      (* Status.ContainerStatuses: name, and whether State.Terminated is set *)
  | SNow : SideCall Z
  | Wait (watching : bool) : SideCall bool
      (* the select: true when the signal is taken, only possible while watching *)
  | ReadFile (path : string) : SideCall (result string)
  | OpenZip (path : string) : SideCall (result (list (string * result (result string))))
      (* the entries: name, Open, ReadAll *)
  | WriteFile (path content : string) : SideCall (result unit)
  | CreateConfigMap (cm : ConfigMap) : SideCall (result unit).

Abbreviation SOp := (Prog SideCall).

Definition pollInterval : Z := (2 * Second)%Z.
Definition maxWait : Z := (24 * 3600 * Second)%Z.
Definition resultsConfigMapDataKey : string := "results.json".
Definition errorConfigMapDataKey : string := "error".

Record Options := {
  BacktestName : string; StrategyName : string; PodName : string; opt_Namespace : string;
  MainContainerName : string; ResultsDir : string; ResultsPVCDir : string
}.

Section Collect.
Context `{GoLib}.

(** ** Waiting *)

Definition mainContainerExited (opts : Options) : SOp (result bool) :=
  let key := {| nn_Name := PodName opts; nn_Namespace := opt_Namespace opts |} in
  pod ← trigger (GetPod key);
  mret match pod with
       | Err err => Err (Wrap ("failed to get own Pod " ^^ nn_String key) err)
       | Ok statuses => Ok (existsb (fun cs => (cs.1 =? MainContainerName opts)%string && cs.2) statuses)
       end.

Definition timed_out (opts : Options) : error :=
  Errorf ("timed out after " ^^ FormatDuration maxWait ^^ " waiting for container "
          ^^ Quote (MainContainerName opts) ^^ " to exit").

(** The loop, with a bound on its iterations; [watching] is [sigDone != nil].
    [None] is the bound running out. *)
Fixpoint wait_loop (n : nat) (opts : Options) (deadline : Z) (watching : bool) : SOp (option (result unit)) :=
  match n with
  | O => mret None
  | S n =>
      exited ← mainContainerExited opts;
      match exited with
      | Err err => mret (Some (Err err))
      | Ok true => mret (Some (Ok tt))
      | Ok false =>
          now ← trigger SNow;
          if (deadline <? now)%Z then mret (Some (Err (timed_out opts)))
          else
            signalled ← trigger (Wait watching);
            if watching && signalled then
              exited ← mainContainerExited opts;
              match exited with
              | Err err => mret (Some (Err err))
              | Ok true => mret (Some (Ok tt))
              | Ok false => wait_loop n opts deadline false
              end
            else wait_loop n opts deadline watching
      end
  end.

Definition waitForMainContainerExit (n : nat) (opts : Options) : SOp (option (result unit)) :=
  now ← trigger SNow; wait_loop n opts (now + maxWait) true.

(** ** The result file *)

Record freqtradeStrategyStats := {
  fs_TotalTrades : Z; fs_ProfitTotalAbs : float64; fs_ProfitTotal : float64; fs_Winrate : float64;
  fs_MaxDrawdownAccount : float64; fs_Sharpe : float64; fs_Sortino : float64; fs_CAGR : float64;
  fs_BestPair : option string; fs_WorstPair : option string      (* the pair's key *)
}.

(** Members matched to one field, each decoded over the value so far. *)
Definition decode_over {A} (step : A → json → option A) (tag : string) (zero : A) (j : json) : option A :=
  match j with
  | JNull => Some zero
  | JObj m =>
      foldl (fun acc kv => a ← acc; if (ToLower kv.1 =? ToLower tag)%string then step a kv.2 else Some a)
        (Some zero) m
  | _ => None
  end.

(** A pointer to a struct with one field: null makes it nil, an object
    allocates it. *)
Definition decode_pair (prev : option string) (j : json) : option (option string) :=
  match j with
  | JNull => Some None
  | _ => Some <$> decode_member decode_string "key" (default "" prev) j
  end.

Definition zero_stats : freqtradeStrategyStats :=
  {| fs_TotalTrades := 0; fs_ProfitTotalAbs := S754_zero false; fs_ProfitTotal := S754_zero false;
     fs_Winrate := S754_zero false; fs_MaxDrawdownAccount := S754_zero false; fs_Sharpe := S754_zero false;
     fs_Sortino := S754_zero false; fs_CAGR := S754_zero false; fs_BestPair := None; fs_WorstPair := None |}.

Definition decode_stats (j : json) : option freqtradeStrategyStats :=
  let float tag := decode_member decode_float tag (S754_zero false) j in
  total ← decode_member decode_int "total_trades" 0%Z j;
  profitAbs ← float "profit_total_abs";
  profit ← float "profit_total";
  winrate ← float "winrate";
  drawdown ← float "max_drawdown_account";
  sharpe ← float "sharpe";
  sortino ← float "sortino";
  cagr ← float "cagr";
  best ← decode_over decode_pair "best_pair" None j;
  worst ← decode_over decode_pair "worst_pair" None j;
  Some {| fs_TotalTrades := total; fs_ProfitTotalAbs := profitAbs; fs_ProfitTotal := profit;
          fs_Winrate := winrate; fs_MaxDrawdownAccount := drawdown; fs_Sharpe := sharpe;
          fs_Sortino := sortino; fs_CAGR := cagr; fs_BestPair := best; fs_WorstPair := worst |}.

(** A Go map of structs: null empties it, an object adds its members. *)
Definition decode_strategies (m : gmap string freqtradeStrategyStats) (j : json)
    : option (gmap string freqtradeStrategyStats) :=
  match j with
  | JNull => Some ∅
  | JObj ms => foldl (fun acc kv => m ← acc; s ← decode_stats kv.2; Some (<[kv.1 := s]> m)) (Some m) ms
  | _ => None
  end.

Definition decode_result_file : json → option (gmap string freqtradeStrategyStats) :=
  decode_over decode_strategies "strategy" ∅.

Definition readResultBytes (path : string) : SOp (result string) :=
  if negb (HasSuffix path ".zip") then wrapping ("reading " ^^ path) (trigger (ReadFile path))
  else
    zip ← trigger (OpenZip path);
    let entryName := TrimSuffix (filepath_Base path) ".zip" ^^ ".json" in
    mret match zip with
         | Err err => Err (Wrap ("opening " ^^ path ^^ " as a zip") err)
         | Ok files =>
             match List.find (fun f => (f.1 =? entryName)%string) files with
             | None => Err (Errorf (path ^^ " has no " ^^ entryName ^^ " entry"))
             | Some (_, Err err) => Err (Wrap ("opening " ^^ entryName ^^ " inside " ^^ path) err)
             | Some (_, Ok (Err err)) => Err (Wrap ("reading " ^^ entryName ^^ " inside " ^^ path) err)
             | Some (_, Ok (Ok raw)) => Ok raw
             end
         end.

Definition formatFloat (f : float64) : string := FormatFloat f.

Definition formatPercent (ratio : float64) : string :=
  let decimalPlaces := float_of_Z 10000 in
  formatFloat (float_div (Round (float_mul (float_mul ratio (float_of_Z 100)) decimalPlaces)) decimalPlaces).

(** The summary of one strategy. *)
Definition summary (path : string) (stats : freqtradeStrategyStats) : BacktestResults :=
  {| br_TotalTrades := fs_TotalTrades stats;
     br_ProfitAbs := formatFloat (fs_ProfitTotalAbs stats);
     br_ProfitPct := formatPercent (fs_ProfitTotal stats);
     br_WinRatePct := formatPercent (fs_Winrate stats);
     br_MaxDrawdownPct := formatPercent (fs_MaxDrawdownAccount stats);
     br_SharpeRatio := formatFloat (fs_Sharpe stats);
     br_SortinoRatio := formatFloat (fs_Sortino stats);
     br_CAGRPct := formatPercent (fs_CAGR stats);
     br_BestPair := default "" (fs_BestPair stats);
     br_WorstPair := default "" (fs_WorstPair stats);
     br_ResultFile := path |}.

Definition parseResultFile (path strategyName : string) : SOp (result BacktestResults) :=
  raw <-? readResultBytes path;
  mret (parsed ← wrap_err ("parsing " ^^ path) (unmarshal decode_result_file raw);
        match parsed !! strategyName with
        | None => Err (Errorf (path ^^ " has no results for strategy " ^^ Quote strategyName))
        | Some stats => Ok (summary path stats)
        end).

Definition latestResultFile (resultsDir : string) : SOp (result string) :=
  let pointerPath := filepath_Join resultsDir ".last_result.json" in
  raw <-? wrapping ("reading " ^^ pointerPath) (trigger (ReadFile pointerPath));
  mret (latest ← wrap_err ("parsing " ^^ pointerPath) (unmarshal (decode_member decode_string "latest_backtest" "") raw);
        if nonempty latest then Ok (filepath_Join resultsDir latest)
        else Err (Errorf (pointerPath ^^ " has no latest_backtest entry"))).

(** Best-effort: errors are only logged. *)
Definition copyResultFileToPVC (opts : Options) : SOp unit :=
  resultFile ← latestResultFile (ResultsDir opts);
  match resultFile with
  | Err _ => mret tt
  | Ok resultFile =>
      raw ← trigger (ReadFile resultFile);
      match raw with
      | Err _ => mret tt
      | Ok raw => _ ← trigger (WriteFile (filepath_Join (ResultsPVCDir opts) (filepath_Base resultFile)) raw); mret tt
      end
  end.

(** json.Marshal of a BacktestResults: every field is omitempty. *)
Definition results_members (r : BacktestResults) : list (string * option json) :=
  let str s := if nonempty s then Some (JString s) else None in
  [ ("totalTrades", if (br_TotalTrades r =? 0)%Z then None else Some (JInt (br_TotalTrades r)));
    ("profitAbs", str (br_ProfitAbs r)); ("profitPct", str (br_ProfitPct r));
    ("winRatePct", str (br_WinRatePct r)); ("maxDrawdownPct", str (br_MaxDrawdownPct r));
    ("sharpeRatio", str (br_SharpeRatio r)); ("sortinoRatio", str (br_SortinoRatio r));
    ("cagrPct", str (br_CAGRPct r)); ("bestPair", str (br_BestPair r)); ("worstPair", str (br_WorstPair r));
    ("resultFile", str (br_ResultFile r)) ].

Definition present {A} (l : list (string * option A)) : list (string * A) :=
  omap (fun kv => (fun v => (kv.1, v)) <$> kv.2) l.

Definition json_of_results (r : BacktestResults) : json := JObj (present (results_members r)).

(** Marshalling strings and an int cannot fail. *)
Definition extract (opts : Options) : SOp (gmap string string) :=
  results ← (resultFile <-? latestResultFile (ResultsDir opts); parseResultFile resultFile (StrategyName opts));
  mret match results with
       | Err err => {[ errorConfigMapDataKey := Error err ]}
       | Ok results => {[ resultsConfigMapDataKey := json_Marshal (json_of_results results) ]}
       end.

(** ** Run *)

Definition results_ConfigMap (opts : Options) (data : gmap string string) : ConfigMap :=
  {| cm_Meta := NewMeta (BacktestName opts ^^ "-results") (opt_Namespace opts) ∅ ∅; cm_Data := data |}.

Definition Run (n : nat) (opts : Options) : SOp (option (result unit)) :=
  config ← trigger InClusterConfig;
  match config with
  | Err err => mret (Some (Err (Wrap "failed to build in-cluster config" err)))
  | Ok _ =>
      c ← trigger NewClient;
      match c with
      | Err err => mret (Some (Err (Wrap "failed to build Kubernetes client" err)))
      | Ok _ =>
          waited ← waitForMainContainerExit n opts;
          match waited with
          | None => mret None
          | Some (Err err) => mret (Some (Err err))
          | Some (Ok _) =>
              _ ← copyResultFileToPVC opts;
              data ← extract opts;
              created ← trigger (CreateConfigMap (results_ConfigMap opts data));
              mret (Some (wrap_err "failed to create results ConfigMap" created))
          end
      end
  end.
End Collect.

(** ** Reading back what was marshalled *)

Section Decode.
Context {A : Type} (dec : json → option A) (tag : string) (zero : A).
#[local] Abbreviation step := (fun (acc : option A) (kv : string * json) => a ← acc;
   if (ToLower kv.1 =? ToLower tag)%string then match kv.2 with JNull => Some a | v => dec v end else Some a).

Lemma fold_other (l : list (string * option json)) acc :
  ToLower tag ∉ map (fun kv => ToLower kv.1) l → foldl step acc (present l) = acc.
Proof.
  induction l as [|[k v] l IH] in acc |- *; intros Hnin; [done|]. cbn in Hnin. apply not_elem_of_cons in Hnin as [Hk Hl].
  destruct v as [v|]; cbn; [|by apply IH]. rewrite IH by done. destruct acc as [a|]; cbn; [|done].
  destruct (String.eqb_spec (ToLower k) (ToLower tag)); [congruence|done].
Qed.

(** A field of a struct, written unless it is empty. *)
Lemma decode_member_present (l : list (string * option json)) v :
  NoDup (map (fun kv => ToLower kv.1) l) → (tag, v) ∈ l → v ≠ Some JNull →
  decode_member dec tag zero (JObj (present l)) = match v with Some j => dec j | None => Some zero end.
Proof.
  intros Hnd Hin Hv. cbn. apply list_elem_of_split in Hin as (l1 & l2 & ->).
  rewrite map_app in Hnd. cbn in Hnd. apply NoDup_app in Hnd as (_ & Hd & Hnd%NoDup_cons).
  assert (present (l1 ++ (tag, v) :: l2) = present l1 ++ present [(tag, v)] ++ present l2) as ->.
  { unfold present. change ((tag, v) :: l2) with ([(tag, v)] ++ l2). by rewrite !omap_app. }
  rewrite !foldl_app, (fold_other l1).
  2: { intros Hin. apply (Hd _ Hin). by left. }
  rewrite fold_other by apply Hnd. destruct v as [v|]; cbn; [|done]. rewrite String.eqb_refl. by destruct v.
Qed.

(** What holds of every decoded value holds of the field. *)
Lemma decode_member_inv (P : A → Prop) j a :
  P zero → (∀ m k v b, j = JObj m → (k, v) ∈ m → dec v = Some b → P b) → decode_member dec tag zero j = Some a → P a.
Proof.
  intros Hz Hd. destruct j as [| | | | | |m0]; cbn; [by intros [= <-]|done..|].
  assert (∀ k v b, (k, v) ∈ m0 → dec v = Some b → P b) as Hd' by (intros; by eapply Hd). clear Hd.
  assert (∀ acc, (∀ b, acc = Some b → P b) → ∀ b, foldl step acc m0 = Some b → P b) as Hf; [|apply Hf; by intros ? [= <-]].
  induction m0 as [|[k v] m IH]; intros acc Hacc; cbn; [done|].
  apply IH; [intros k' v' b' Hin; apply (Hd' k'); by right|].
  destruct acc as [b|]; cbn; [|done]. case_match; [|by intros ? [= <-]; apply Hacc].
  destruct v; try (intros ? Hb; eapply Hd'; [by left|exact Hb]). intros ? [= <-]. by apply Hacc.
Qed.
End Decode.

(** Likewise for the fields decoded over the value so far. *)
Lemma decode_over_inv {A} (step : A → json → option A) tag zero (P : A → Prop) j a :
  P zero →
  (∀ m k v b b', j = JObj m → (k, v) ∈ m → ToLower k = ToLower tag → P b → step b v = Some b' → P b') →
  decode_over step tag zero j = Some a → P a.
Proof.
  intros Hz Hs. destruct j as [| | | | | |m0]; cbn; [by intros [= <-]|done..|].
  assert (∀ k v b b', (k, v) ∈ m0 → ToLower k = ToLower tag → P b → step b v = Some b' → P b') as Hs'
    by (intros; by eapply Hs). clear Hs.
  enough (∀ acc, (∀ b, acc = Some b → P b) →
    ∀ b, foldl (fun acc kv => a ← acc; if (ToLower kv.1 =? ToLower tag)%string then step a kv.2 else Some a) acc m0 = Some b → P b)
    as Hf by (apply Hf; by intros ? [= <-]).
  induction m0 as [|[k v] m IH]; intros acc Hacc; cbn; [done|].
  apply IH; [intros k' v' b b' Hin; apply (Hs' k'); by right|].
  destruct acc as [b|]; cbn; [|done]. destruct (String.eqb_spec (ToLower k) (ToLower tag)); [|by intros ? [= <-]; apply Hacc].
  intros ? Hb. eapply Hs'; [by left|done| |exact Hb]. by apply Hacc.
Qed.

(** One member matches: the others do not count. *)
Lemma decode_over_single {A} (step : A → json → option A) tag zero m1 k v m2 :
  ToLower k = ToLower tag → (∀ k' v', (k', v') ∈ m1 ++ m2 → ToLower k' ≠ ToLower tag) →
  decode_over step tag zero (JObj (m1 ++ (k, v) :: m2)) = step zero v.
Proof.
  intros Hk Hother. cbn. set (f := fun acc kv => _).
  assert (∀ m acc, (∀ k' v', (k', v') ∈ m → ToLower k' ≠ ToLower tag) → foldl f acc m = acc) as Hskip.
  { clear. induction m as [|[k' v'] m IH]; intros acc Hm; [done|]. cbn. rewrite IH by (intros; eapply Hm; by right).
    unfold f. destruct acc as [b|]; [|done]. cbn.
    destruct (String.eqb_spec (ToLower k') (ToLower tag)) as [E|_]; [|done]. destruct (Hm k' v'); [by left|done]. }
  rewrite foldl_app, (Hskip m1) by (intros; eapply Hother, elem_of_app; by left). cbn.
  rewrite Hskip by (intros; eapply Hother, elem_of_app; by right). unfold f. cbn. by rewrite Hk, String.eqb_refl.
Qed.

Section RoundTrip.
Context `{KubeLib} `{GoLib}.

Lemma results_members_NoDup r : NoDup (map (fun kv => ToLower kv.1) (results_members r)).
Proof. apply (bool_decide_unpack _). vm_compute. exact I. Qed.

Lemma read_string r tag s :
  (tag, if nonempty s then Some (JString s) else None) ∈ results_members r →
  decode_member decode_string tag "" (json_of_results r) = Some s.
Proof.
  intros Hin. unfold json_of_results.
  rewrite (decode_member_present decode_string tag "" _ _ (results_members_NoDup r) Hin) by (by case_match).
  destruct (nonempty s) eqn:Hs; [done|]. unfold nonempty in Hs. apply negb_false_iff, String.eqb_eq in Hs. by subst.
Qed.

Lemma read_total r :
  int64 (br_TotalTrades r) = br_TotalTrades r →
  decode_member decode_int "totalTrades" 0%Z (json_of_results r) = Some (br_TotalTrades r).
Proof.
  intros Ht. unfold json_of_results.
  rewrite (decode_member_present decode_int "totalTrades" 0%Z _
    (if (br_TotalTrades r =? 0)%Z then None else Some (JInt (br_TotalTrades r))) (results_members_NoDup r));
    [|by left|by case_match].
  destruct (Z.eqb_spec (br_TotalTrades r) 0) as [->|_]; [done|]. cbn. by rewrite decide_True.
Qed.

Lemma decode_json_of_results r :
  int64 (br_TotalTrades r) = br_TotalTrades r → decode_results (json_of_results r) = Some r.
Proof.
  intros Ht. unfold decode_results. rewrite (read_total r Ht). cbn [mbind option_bind].
  repeat (erewrite read_string by (unfold results_members; repeat first [by left|right]); cbn [mbind option_bind]).
  by destruct r.
Qed.

Lemma json_of_results_no_float r : json_no_float (json_of_results r) = true.
Proof.
  unfold json_of_results. cbn [json_no_float]. apply forallb_forall. intros [k v] Hin%list_elem_of_In.
  unfold present in Hin. apply list_elem_of_omap in Hin as ([k' v'] & Hin & Hv). cbn in Hv.
  destruct v' as [v'|]; [|done]. injection Hv as -> ->.
  assert (Forall (fun kv => match kv.2 with Some v => json_no_float v = true | None => True end) (results_members r)) as Hall.
  { unfold results_members. repeat first [apply Forall_nil_2|apply Forall_cons_2; [cbn; try destruct (nonempty _); try destruct (_ =? 0)%Z; done|]]. }
  rewrite Forall_forall in Hall. exact (Hall _ Hin).
Qed.

(** The results with their strings as UTF-8. *)
Definition coerce_results (r : BacktestResults) : BacktestResults :=
  {| br_TotalTrades := br_TotalTrades r; br_ProfitAbs := coerce_utf8 (br_ProfitAbs r);
     br_ProfitPct := coerce_utf8 (br_ProfitPct r); br_WinRatePct := coerce_utf8 (br_WinRatePct r);
     br_MaxDrawdownPct := coerce_utf8 (br_MaxDrawdownPct r); br_SharpeRatio := coerce_utf8 (br_SharpeRatio r);
     br_SortinoRatio := coerce_utf8 (br_SortinoRatio r); br_CAGRPct := coerce_utf8 (br_CAGRPct r);
     br_BestPair := coerce_utf8 (br_BestPair r); br_WorstPair := coerce_utf8 (br_WorstPair r);
     br_ResultFile := coerce_utf8 (br_ResultFile r) |}.

Lemma coerce_present l :
  json_coerce (JObj (present l)) = JObj (present (map (fun kv => (coerce_utf8 kv.1, json_coerce <$> kv.2)) l)).
Proof. cbn. f_equal. induction l as [|[k [v|]] l IH]; [done|..]; cbn; [f_equal|]; exact IH. Qed.

Lemma coerce_field s :
  json_coerce <$> (if nonempty s then Some (JString s) else None) =
  if nonempty (coerce_utf8 s) then Some (JString (coerce_utf8 s)) else None.
Proof.
  destruct (String.eqb_spec s "") as [->|Hs]; [done|]. rewrite (proj2 (nonempty_spec s) Hs).
  assert (coerce_utf8 s ≠ "") as Hc%nonempty_spec; [|by rewrite Hc].
  intros E. pose proof (coerce_utf8_length s) as Hl. rewrite E in Hl. destruct s; [done|cbn in Hl; lia].
Qed.

Lemma coerce_json_of_results r : json_coerce (json_of_results r) = json_of_results (coerce_results r).
Proof.
  unfold json_of_results. rewrite coerce_present. do 2 f_equal. unfold results_members. cbn [map fst snd].
  rewrite !coerce_field. cbn [br_TotalTrades coerce_results]. by destruct (br_TotalTrades r =? 0)%Z.
Qed.

(** What the sidecar writes, the reconciler reads. *)
Lemma parse_marshalled r meta gen :
  int64 (br_TotalTrades r) = br_TotalTrades r →
  parse_results {| cm_Meta := meta; cm_Data := {[ resultsConfigMapDataKey := json_Marshal (json_of_results r) ]} |} gen
  = (Some (coerce_results r), availableCondition gen).
Proof.
  intros Ht. unfold parse_results. cbn [cm_Data]. rewrite lookup_singleton_ne by done.
  change resultsDataKey with resultsConfigMapDataKey. rewrite lookup_singleton_eq.
  unfold unmarshal. rewrite unmarshal_marshal_exact by apply json_of_results_no_float. cbn [mbind option_bind].
  by rewrite coerce_json_of_results, decode_json_of_results.
Qed.
End RoundTrip.

(** ** What was extracted

    The specification of a summary, apart from the code that computes it. *)

Section Extracted.
Context `{GoLib}.

(** A ratio as a percentage, to four decimals. *)
Definition percent_text (ratio : float64) : string :=
  FormatFloat (float_div (Round (float_mul (float_mul ratio (float_of_Z 100)) (float_of_Z 10000))) (float_of_Z 10000)).

Definition states (s : json) (tag : string) (text : float64 → string) (field : string) : Prop :=
  ∃ f, decode_member decode_float tag (S754_zero false) s = Some f ∧ field = text f.

Definition names_pair (s : json) (tag : string) (field : string) : Prop :=
  ∃ key, decode_over decode_pair tag None s = Some key ∧ field = default "" key.

(** [r] is what the statistics [s] of a strategy in the file [path] say. *)
Definition reports (path : string) (s : json) (r : BacktestResults) : Prop :=
  decode_member decode_int "total_trades" 0%Z s = Some (br_TotalTrades r) ∧
  states s "profit_total_abs" FormatFloat (br_ProfitAbs r) ∧
  states s "profit_total" percent_text (br_ProfitPct r) ∧
  states s "winrate" percent_text (br_WinRatePct r) ∧
  states s "max_drawdown_account" percent_text (br_MaxDrawdownPct r) ∧
  states s "sharpe" FormatFloat (br_SharpeRatio r) ∧
  states s "sortino" FormatFloat (br_SortinoRatio r) ∧
  states s "cagr" percent_text (br_CAGRPct r) ∧
  names_pair s "best_pair" (br_BestPair r) ∧
  names_pair s "worst_pair" (br_WorstPair r) ∧
  br_ResultFile r = coerce_utf8 path.

(** [s] are the statistics of the strategy [name] in the document [j]. *)
Definition strategy_entry (j : json) (name : string) (s : json) : Prop :=
  ∃ m k ms, j = JObj m ∧ (k, JObj ms) ∈ m ∧ ToLower k = "strategy" ∧ (name, s) ∈ ms.

(** A document with one member "strategy", an object with an entry for
    [name], each entry holding statistics. *)
Definition well_formed (j : json) (name : string) : Prop :=
  ∃ m1 k ms m2, j = JObj (m1 ++ (k, JObj ms) :: m2) ∧ ToLower k = "strategy" ∧
    (∀ k' v, (k', v) ∈ m1 ++ m2 → ToLower k' ≠ "strategy") ∧
    (∀ k' s, (k', s) ∈ ms → ∃ path r, reports path s r) ∧ ∃ s, (name, s) ∈ ms.

(** *** The files read *)

Definition file_answer (e : event SideCall) : option (string * result string) :=
  match e with
  | @Ev _ X c x => match c in SideCall X return X → option (string * result string) with
                   | ReadFile path => fun x => Some (path, x)
                   | _ => fun _ => None
                   end x
  end.

Definition zip_answer (e : event SideCall) : option (string * result (list (string * result (result string)))) :=
  match e with
  | @Ev _ X c x =>
      match c in SideCall X return X → option (string * result (list (string * result (result string)))) with
      | OpenZip path => fun x => Some (path, x)
      | _ => fun _ => None
      end x
  end.

(** freqtrade's pointer names [path] as its latest result. *)
Definition points_to (opts : Options) (e : event SideCall) (path : string) : Prop :=
  ∃ text j latest,
    file_answer e = Some (filepath_Join (ResultsDir opts) ".last_result.json", Ok text) ∧
    json_Unmarshal text = Some j ∧ decode_member decode_string "latest_backtest" "" j = Some latest ∧
    latest ≠ "" ∧ path = filepath_Join (ResultsDir opts) latest.

(** The document in [path]: the file, or of a zip the entry named like it. *)
Definition holds_text (path : string) (e : event SideCall) (raw : string) : Prop :=
  if HasSuffix path ".zip" then
    ∃ l1 l2, let entry := TrimSuffix (filepath_Base path) ".zip" ^^ ".json" in
      (entry ∉ map fst l1) ∧ zip_answer e = Some (path, Ok (l1 ++ (entry, Ok (Ok raw)) :: l2))
  else file_answer e = Some (path, Ok raw).

(** The two reads of an extraction that found the document [j]. *)
Definition found_document (opts : Options) (h : history SideCall) (path : string) (j : json) : Prop :=
  ∃ e1 e2 raw, h = [e1; e2] ∧ points_to opts e1 path ∧ holds_text path e2 raw ∧ json_Unmarshal raw = Some j.

Lemma points_to_fun opts e path path' : points_to opts e path → points_to opts e path' → path' = path.
Proof. intros (t & j & l & Ht & Hj & Hl & _ & ->) (t' & j' & l' & Ht' & Hj' & Hl' & _ & ->). congruence. Qed.

Lemma find_first {A} (name : string) (l : list (string * A)) v :
  List.find (fun f => (f.1 =? name)%string) l = Some v ↔
  ∃ l1 l2, l = l1 ++ v :: l2 ∧ (name ∉ map fst l1) ∧ v.1 = name.
Proof.
  induction l as [|[k x] l IH]; cbn; [split; [done|by intros ([|? ?] & l2 & ? & _)]|].
  destruct (String.eqb_spec k name) as [->|Hne].
  - split; [intros [= <-]; exists [], l; split_and!; [done|by apply not_elem_of_nil|done]|].
    intros ([|[k' x'] l1] & l2 & E & Hn & Hv); [by injection E as <-|]. injection E as -> -> ->.
    destruct Hn. by left.
  - rewrite IH. split.
    + intros (l1 & l2 & -> & Hn & Hv). exists ((k, x) :: l1), l2. split_and!; [done| |done]. cbn.
      apply not_elem_of_cons. split; [congruence|done].
    + intros ([|[k' x'] l1] & l2 & E & Hn & Hv); [injection E as <- <-; by destruct Hne|].
      injection E as -> -> ->. exists l1, l2. split_and!; [done| |done]. cbn in Hn. by apply not_elem_of_cons in Hn as [_ ?].
Qed.

(** An event and what became of it. *)
Definition read_once {A} (ok : event SideCall → A → Prop) (h : history SideCall) (res : result A) : Prop :=
  ∃ e, h = [e] ∧ match res with Ok a => ok e a | Err _ => ∀ a, ¬ ok e a end.

Lemma latest_spec opts : wp (latestResultFile (ResultsDir opts)) [] (read_once (points_to opts)).
Proof.
  intros [text|e]; cbn -[read_once].
  2: { eexists. split; [done|]. intros path (t & j & l & [=] & _). }
  unfold unmarshal. destruct (json_Unmarshal text) as [j|] eqn:Hj; cbn -[read_once].
  2: { eexists. split; [done|]. intros path (t & j & l & [= <-] & Hj' & _). congruence. }
  destruct (decode_member decode_string "latest_backtest" "" j) as [l|] eqn:Hl; cbn -[read_once].
  2: { eexists. split; [done|]. intros path (t & j' & l & [= <-] & Hj' & Hl' & _). congruence. }
  eexists. split; [done|]. destruct (nonempty l) eqn:Hn.
  - exists text, j, l. split_and!; [done..|by apply nonempty_spec|done].
  - intros path (t & j' & l' & [= <-] & Hj' & Hl' & Hne%nonempty_spec & _). congruence.
Qed.

(** The entry of a zip, if it can be read. *)
Lemma zip_entry_spec (entry : string) files :
  match List.find (fun f => (f.1 =? entry)%string) files with
  | Some (_, Ok (Ok raw)) => ∃ l1 l2, (entry ∉ map fst l1) ∧ files = l1 ++ (entry, Ok (Ok raw)) :: l2
  | _ => ∀ (raw : string) l1 l2, (entry ∉ map fst l1) → files ≠ l1 ++ (entry, Ok (Ok raw) : result (result string)) :: l2
  end.
Proof.
  assert (∀ (raw : string) l1 l2, (entry ∉ map fst l1) → files = l1 ++ (entry, Ok (Ok raw) : result (result string)) :: l2 →
    List.find (fun f => (f.1 =? entry)%string) files = Some (entry, Ok (Ok raw))) as Hu.
  { intros raw l1 l2 Hn ->. apply find_first. by exists l1, l2. }
  destruct (List.find _ files) as [[k v]|] eqn:Hf.
  - apply find_first in Hf as (l1 & l2 & -> & Hn & Hk). cbn in Hk. subst k.
    destruct v as [[raw|e]|e]; [by exists l1, l2|..]; intros raw l1' l2' Hn' E; apply (Hu raw l1' l2') in E; [|done|..|done]; discriminate E.
  - intros raw l1 l2 Hn E. apply (Hu raw l1 l2) in E; done.
Qed.

Lemma bytes_spec path : wp (readResultBytes path) [] (read_once (holds_text path)).
Proof.
  unfold readResultBytes, read_once, holds_text. destruct (HasSuffix path ".zip") eqn:Hz; cbn [negb].
  - intros x. cbn. eexists. split; [done|]. destruct x as [files|e]; cbn; [|by intros raw (l1 & l2 & _ & [=])].
    pose proof (zip_entry_spec (TrimSuffix (filepath_Base path) ".zip" ^^ ".json") files) as Hs.
    destruct (List.find _ files) as [[k [[raw|e]|e]]|].
    + destruct Hs as (l1 & l2 & Hn & ->). by exists l1, l2.
    + intros raw (l1 & l2 & Hn & [= E]). by eapply Hs.
    + intros raw (l1 & l2 & Hn & [= E]). by eapply Hs.
    + intros raw (l1 & l2 & Hn & [= E]). by eapply Hs.
  - intros x. cbn. eexists. split; [done|]. destruct x as [raw|e]; cbn; [done|by intros raw [=]].
Qed.

Lemma holds_text_fun path e raw raw' : holds_text path e raw → holds_text path e raw' → raw' = raw.
Proof.
  unfold holds_text. destruct (HasSuffix path ".zip"); [|congruence].
  intros (l1 & l2 & Hn & E) (l1' & l2' & Hn' & E'). rewrite E in E'. injection E' as E'.
  set (entry := TrimSuffix _ _ ^^ ".json") in *.
  assert (Some (entry, Ok (Ok raw) : result (result string)) = Some (entry, Ok (Ok raw'))) as Hs; [|by injection Hs].
  trans (List.find (fun f => (f.1 =? entry)%string) (l1 ++ (entry, Ok (Ok raw)) :: l2)).
  - symmetry. apply find_first. by exists l1, l2.
  - rewrite E'. apply find_first. by exists l1', l2'.
Qed.
End Extracted.

(** ** The extracted data *)

Section Extract.
Context `{KubeLib} `{GoLib}.

(** A summary whose count is an int and whose pairs are UTF-8. *)
Definition sound_stats (s : freqtradeStrategyStats) : Prop :=
  int64 (fs_TotalTrades s) = fs_TotalTrades s ∧
  coerce_utf8 (default "" (fs_BestPair s)) = default "" (fs_BestPair s) ∧
  coerce_utf8 (default "" (fs_WorstPair s)) = default "" (fs_WorstPair s).

Lemma decoded_pair_text j tag p :
  json_coerce j = j → decode_over decode_pair tag None j = Some p → coerce_utf8 (default "" p) = default "" p.
Proof.
  intros Hj. apply (decode_over_inv decode_pair tag None (fun p => coerce_utf8 (default "" p) = default "" p) j p); [done|].
  intros m k v b b' -> Hin _ Hb Hd. destruct (json_coerce_member m k v Hj Hin) as [_ Hv].
  unfold decode_pair in Hd. assert (v = JNull ∨ Some <$> decode_member decode_string "key" (default "" b) v = Some b') as [->|Hm].
  { destruct v; auto. }
  { by injection Hd as <-. }
  apply fmap_Some in Hm as (key & Hm & ->). cbn. revert Hm.
  apply (decode_member_inv decode_string "key" (default "" b) (fun s => coerce_utf8 s = s) v key); [done|].
  intros m' k' v' s -> Hin' Hs. destruct (json_coerce_member m' k' v' Hv Hin') as [_ Hv'].
  destruct v'; try discriminate Hs. injection Hs as <-. by injection Hv'.
Qed.

Lemma decoded_int j tag n : decode_member decode_int tag 0%Z j = Some n → int64 n = n.
Proof.
  apply (decode_member_inv decode_int tag 0%Z (fun z => int64 z = z) j n); [done|].
  intros _ _ v z _ _. unfold decode_int. case_match; try done. case_decide; [|done]. by intros [= <-].
Qed.

(** The decoded statistics are those of the specification. *)
Lemma decode_stats_reports path s st :
  json_coerce s = s → decode_stats s = Some st →
  sound_stats st ∧ reports path s (summary (coerce_utf8 path) st).
Proof.
  unfold decode_stats. cbv zeta. intros Hs Hd.
  repeat match type of Hd with
         | (?x ≫= _) = Some _ => let E := fresh "E" in destruct x eqn:E; cbn [mbind option_bind] in Hd; [|discriminate Hd]
         end.
  injection Hd as <-. split.
  - split_and!; cbn; first [by eapply decoded_int|by eapply decoded_pair_text].
  - unfold reports, states, names_pair. cbn. split_and!; eauto.
Qed.

Lemma reports_decode path s r : reports path s r → is_Some (decode_stats s).
Proof.
  unfold reports, states, names_pair.
  intros (Ht & (? & H1 & _) & (? & H2 & _) & (? & H3 & _) & (? & H4 & _) & (? & H5 & _) & (? & H6 & _) & (? & H7 & _) &
          (? & H8 & _) & (? & H9 & _) & _).
  unfold decode_stats. cbv zeta. rewrite Ht, H1, H2, H3, H4, H5, H6, H7, H8, H9. by eexists.
Qed.

Lemma coerce_summary path st :
  sound_stats st → coerce_results (summary path st) = summary (coerce_utf8 path) st.
Proof.
  intros (_ & Hb & Hw). unfold coerce_results, summary, formatPercent, formatFloat. cbn.
  by rewrite !(coerce_utf8_fixed (FormatFloat _)) by apply FormatFloat_text; rewrite Hb, Hw.
Qed.

(** Every decoded entry is one of the document. *)
Lemma decode_file_entry j m name st :
  decode_result_file j = Some m → m !! name = Some st →
  ∃ s, strategy_entry j name s ∧ decode_stats s = Some st.
Proof.
  intros Hd. set (P := fun m : gmap string freqtradeStrategyStats =>
    ∀ st, m !! name = Some st → ∃ s, strategy_entry j name s ∧ decode_stats s = Some st).
  revert st. change (P m). revert Hd.
  apply (decode_over_inv decode_strategies "strategy" ∅ P j m); [by intros st|].
  intros ms k v b b' -> Hin Hk Hb Hv. change (ToLower "strategy") with "strategy" in Hk.
  destruct v as [| | | | | |l]; try discriminate Hv; [by injection Hv as <-|]. cbn in Hv.
  assert (∀ k' s, (k', s) ∈ l → k' = name → strategy_entry (JObj ms) name s) as Hentry.
  { intros k' s Hs ->. by exists ms, k, l. }
  clear Hin. revert Hv. assert (∀ b0, Some b = Some b0 → P b0) as Hacc by (by intros b0 [= <-]).
  revert Hacc. generalize (Some b) as acc. clear Hb.
  induction l as [|[k' s'] l IH]; intros acc Hacc; cbn; [by apply Hacc|].
  apply IH; [intros k2 s2 Hin; apply (Hentry k2); by right|].
  destruct acc as [b0|]; cbn; [|done]. destruct (decode_stats s') as [st'|] eqn:Hs'; cbn; [|done].
  intros b1 [= <-] st. destruct (decide (k' = name)) as [->|Hne].
  - rewrite lookup_insert_eq. intros [= <-]. exists s'. split; [|done]. apply (Hentry name); [by left|done].
  - rewrite lookup_insert_ne by done. by apply Hacc.
Qed.

(** A well-formed document decodes. *)
Lemma decode_file_complete j name :
  well_formed j name → ∃ m st, decode_result_file j = Some m ∧ m !! name = Some st.
Proof.
  intros (m1 & k & ms & m2 & -> & Hk & Hother & Hall & s & Hs).
  unfold decode_result_file. rewrite decode_over_single by (done || by rewrite Hk). cbn.
  assert (∀ (m : gmap string freqtradeStrategyStats) l, (∀ k' s, (k', s) ∈ l → is_Some (decode_stats s)) →
    ∃ m', foldl (fun acc (kv : string * json) => m ← acc; s ← decode_stats kv.2; Some (<[kv.1 := s]> m)) (Some m) l = Some m' ∧
      ∀ k', (is_Some (m !! k') ∨ ∃ s, (k', s) ∈ l) → is_Some (m' !! k')) as Hf.
  { intros m l. revert m. induction l as [|[k' s'] l IH]; intros m Hl.
    - exists m. split; [done|]. by intros k' [?|[s0 []%elem_of_nil]].
    - destruct (Hl k' s') as [st Hst]; [by left|]. cbn. rewrite Hst. cbn.
      destruct (IH (<[k' := st]> m)) as (m' & Hm' & Hk'); [intros; eapply Hl; by right|].
      exists m'. split; [done|]. intros k2 Hk2. apply Hk'. destruct (decide (k2 = k')) as [->|Hne].
      + left. by rewrite lookup_insert_eq.
      + rewrite lookup_insert_ne by done. destruct Hk2 as [?|[s2 [[= -> ->]|Hin]%elem_of_cons]]; [by left|done|].
        right. by exists s2. }
  destruct (Hf ∅ ms) as (m & Hm & Hin).
  - intros k' s' Hin. destruct (Hall _ _ Hin) as (path & r & Hr). by eapply reports_decode.
  - destruct (Hin name) as [st Hst]; [right; by exists s|]. by exists m, st.
Qed.

(** What the extraction of a summary comes to. *)
Definition extracted (opts : Options) (h : history SideCall) (res : result BacktestResults) : Prop :=
  match res with
  | Ok r => ∃ path j s st, found_document opts h path j ∧ strategy_entry j (StrategyName opts) s ∧
      sound_stats st ∧ reports path s (summary (coerce_utf8 path) st) ∧ r = summary path st
  | Err _ => ∀ path j, found_document opts h path j → ¬ well_formed j (StrategyName opts)
  end.

Lemma extract_spec opts :
  wp (resultFile <-? latestResultFile (ResultsDir opts); parseResultFile resultFile (StrategyName opts)) []
    (extracted opts).
Proof.
  apply wp_bind_ok. eapply wp_mono; [|apply latest_spec]. intros h [path|e] (e1 & -> & Hp).
  2: { intros path j (e1' & e2 & raw & [=] & _). }
  apply wp_bind_ok, wp_frame. eapply wp_mono; [|apply bytes_spec]. intros h [raw|e] (e2 & -> & Hr).
  2: { intros path' j (e1' & e2' & raw & [= <- <-] & Hp' & Hr' & _).
       rewrite (points_to_fun _ _ _ _ Hp Hp') in Hr'. by apply Hr in Hr'. }
  assert (∀ path' j, found_document opts [e1; e2] path' j → json_Unmarshal raw = Some j) as Hfound.
  { intros path' j (e1' & e2' & raw' & [= <- <-] & Hp' & Hr' & Hj). rewrite (points_to_fun _ _ _ _ Hp Hp') in Hr'.
    by rewrite <- (holds_text_fun _ _ _ _ Hr Hr'). }
  unfold unmarshal. destruct (json_Unmarshal raw) as [j|] eqn:Hj; cbn.
  2: { intros path' j Hd%Hfound. discriminate. }
  assert (∀ path' j', found_document opts [e1; e2] path' j' → well_formed j' (StrategyName opts) →
    ∃ m st, decode_result_file j = Some m ∧ m !! StrategyName opts = Some st) as Hwf.
  { intros path' j' [= <-]%Hfound. apply decode_file_complete. }
  destruct (decode_result_file j) as [m|] eqn:Hm; cbn.
  2: { intros path' j' Hd Hw. by destruct (Hwf _ _ Hd Hw) as (m & st & [=] & _). }
  destruct (m !! StrategyName opts) as [st|] eqn:Hst; cbn.
  2: { intros path' j' Hd Hw. destruct (Hwf _ _ Hd Hw) as (m' & st & [= <-] & Hs). congruence. }
  destruct (decode_file_entry j m _ st Hm Hst) as (s & Hs & Hds).
  assert (json_coerce s = s) as Hc.
  { destruct Hs as (ms & k & l & -> & Hk & _ & Hl). apply unmarshal_text in Hj.
    destruct (json_coerce_member _ _ _ Hj Hk) as [_ Hl']. by eapply json_coerce_member. }
  destruct (decode_stats_reports path s st Hc Hds) as [Hsound Hrep].
  exists path, j, s, st. split_and!; [|done..]. by exists e1, e2, raw.
Qed.


(** ** Waiting ends *)

(** The clock of a history: monotone, and a poll interval passes at each
    tick of the timer; [last] is the last reading if any, [ticked] whether the timer
    has fired since. *)
Fixpoint clock_ok (last : option Z) (ticked : bool) (h : history SideCall) : Prop :=
  match h with
  | [] => True
  | e :: h =>
      match e with
      | @Ev _ X c x =>
          match c in SideCall X return X → Prop with
          | SNow => fun t =>
              match last with Some t0 => (t0 + (if ticked then pollInterval else 0) <= t)%Z | None => True end ∧
              clock_ok (Some t) false h
          | Wait watching => fun signalled =>
              clock_ok last (ticked || negb (watching && signalled)) h
          | _ => fun _ => clock_ok last ticked h
          end x
      end
  end.

(** Iterations left are enough for the time left. *)
Definition enough_fuel (n : nat) (time : Z) (watching : bool) : Prop :=
  (time < (Z.of_nat n - (if watching then 2 else 1)) * pollInterval)%Z.

Lemma wait_loop_ends n opts deadline (watching : bool) (last : Z) (ticked : bool) :
  enough_fuel n (deadline - last - (if ticked then pollInterval else 0)) watching → n ≠ 0 →
  wp (wait_loop n opts deadline watching) [] (fun h res => clock_ok (Some last) ticked h → res ≠ None).
Proof.
  assert (0 < pollInterval)%Z as HI by done. unfold enough_fuel.
  revert watching last ticked. induction n as [|n IH]; intros watching last ticked Hn Hpos; [done|]. clear Hpos.
  intros [statuses|e]; [|done]. cbn -[wp wait_loop existsb].
  destruct (existsb _ statuses); [done|]. intros now. cbn -[wp wait_loop existsb].
  destruct (Z.ltb_spec deadline now) as [|Hdl]; [done|]. intros signalled. cbn -[wp wait_loop existsb].
  set (tick := if ticked then pollInterval else 0%Z) in *.
  assert (∀ (w' t' : bool) pre,
    (deadline - now - (if t' then pollInterval else 0) < (Z.of_nat n - (if w' then 2 else 1)) * pollInterval)%Z → n ≠ 0 →
    (∀ h', clock_ok (Some last) ticked (pre ++ h') → (last + tick <= now)%Z ∧ clock_ok (Some now) t' h') →
    wp (wait_loop n opts deadline w') pre (fun h res => clock_ok (Some last) ticked h → res ≠ None)) as Hnext.
  { intros w' t' pre Hf Hpos Hclock. apply wp_frame. eapply wp_mono; [|by apply (IH w' now t')].
    intros h' res Hh' Hc. by apply Hh', Hclock. }
  destruct (Z.leb_spec (last + tick) now) as [Hle|Hgt].
  2: { destruct (watching && signalled); [intros [statuses'|e]; [|done]; cbn -[wp wait_loop existsb];
         destruct (existsb _ statuses'); [done|]|];
       (eapply wp_mono; [|apply wp_extends]); intros h' res Hpre Hc; exfalso;
       destruct Hpre as [h1 ->]; cbn in Hc; fold tick in Hc; lia. }
  destruct (watching && signalled) eqn:Hsig.
  - apply andb_true_iff in Hsig as [-> ->]. intros [statuses'|e]; [|done]. cbn -[wp wait_loop existsb].
    destruct (existsb _ statuses'); [done|]. apply (Hnext false false); [nia|nia|]. intros h' Hc. exact Hc.
  - apply (Hnext watching true); [nia|destruct watching; nia|]. intros h' Hc. cbn in Hc. by rewrite Hsig in Hc.
Qed.

(** Iterations that are always enough. *)
Definition wait_iterations : nat := Z.to_nat (maxWait / pollInterval + 3).

(** The sidecar does not wait for ever: on any clock that advances by the
    poll interval at each tick, waitForMainContainerExit returns within
    maxWait/pollInterval + 3 iterations, whatever the API server answers and
    whenever SIGTERM arrives - by the exit, an error or the timeout. *)
Theorem wait_ends opts :
  wp (waitForMainContainerExit wait_iterations opts) [] (fun h res => clock_ok None false h → res ≠ None).
Proof.
  intros now. cbn -[wp wait_loop]. apply wp_frame. eapply wp_mono; [|apply (wait_loop_ends _ _ _ true now false)].
  - intros h res Hh [_ Hc]. by apply Hh.
  - unfold enough_fuel, wait_iterations. rewrite Z2Nat.id by done.
    replace (now + maxWait - now - 0)%Z with maxWait by lia. reflexivity.
  - unfold wait_iterations. intros Hz%(f_equal Z.of_nat). rewrite Z2Nat.id in Hz by done. discriminate Hz.
Qed.

(** ** Nothing before the exit *)

Definition pod_key (opts : Options) : NamespacedName :=
  {| nn_Name := PodName opts; nn_Namespace := opt_Namespace opts |}.

Definition no_create {X} (c : SideCall X) : Prop := match c with CreateConfigMap _ => False | _ => True end.

Lemma exited_spec opts h :
  wp (mainContainerExited opts) h (fun h' res => res = Ok true →
    ∃ statuses, Ev (GetPod (pod_key opts)) (Ok statuses) ∈ h' ∧ (MainContainerName opts, true) ∈ statuses).
Proof.
  intros [statuses|e]; [|done]. intros [= Hex]. exists statuses. split; [set_solver|].
  apply existsb_exists in Hex as ([name b] & Hin%list_elem_of_In & Hb). cbn in Hb.
  apply andb_true_iff in Hb as [->%String.eqb_eq ->]. done.
Qed.

Definition seen_exited (opts : Options) (h : history SideCall) : Prop :=
  ∃ statuses, Ev (GetPod (pod_key opts)) (Ok statuses) ∈ h ∧ (MainContainerName opts, true) ∈ statuses.

Lemma wait_exit n opts h :
  wp (waitForMainContainerExit n opts) h (fun h' res => res = Some (Ok tt) → seen_exited opts h').
Proof.
  intros now. generalize (h ++ [Ev SNow now]) as h0. cbn -[wp wait_loop]. generalize (now + maxWait)%Z as deadline.
  intros deadline. generalize true as watching. induction n as [|n IH]; intros watching h0; [done|].
  cbn [wait_loop]. apply wp_bind. eapply wp_mono; [|apply exited_spec]. intros h1 [[|]|e] Hx; [by intros _; apply Hx| |done].
  intros t. cbn -[wp wait_loop mainContainerExited]. destruct (deadline <? t)%Z; [done|]. intros signalled. cbn -[wp wait_loop mainContainerExited].
  destruct (watching && signalled); [|apply IH]. apply wp_bind. eapply wp_mono; [|apply exited_spec].
  intros h2 [[|]|e] Hx2; [by intros _; apply Hx2|apply IH|done].
Qed.

Lemma exited_no_create opts : emits (@no_create) (mainContainerExited opts).
Proof. done. Qed.

Lemma wait_no_create n opts : emits (@no_create) (waitForMainContainerExit n opts).
Proof.
  split; [done|]. intros now. cbn -[wait_loop]. generalize (now + maxWait)%Z as deadline. generalize true as watching.
  induction n as [|n IH]; intros watching deadline; [done|]. cbn [wait_loop].
  apply emits_bind; [apply exited_no_create|]. intros [[|]|e]; [done| |done]. split; [done|]. intros t.
  cbn -[wait_loop mainContainerExited]. destruct (deadline <? t)%Z; [done|]. split; [done|]. intros signalled. cbn -[wait_loop mainContainerExited].
  destruct (watching && signalled); [|apply IH]. apply emits_bind; [apply exited_no_create|].
  intros [[|]|e]; [done|apply IH|done].
Qed.

Lemma latest_no_create dir : emits (@no_create) (latestResultFile dir).
Proof. apply emits_bind_ok; [by apply emits_wrapping|done]. Qed.

Lemma copy_no_create opts : emits (@no_create) (copyResultFileToPVC opts).
Proof.
  apply emits_bind; [apply latest_no_create|]. intros [f|e]; [|done]. split; [done|]. intros [raw|e]; [|done].
  by split.
Qed.

Lemma extract_no_create opts : emits (@no_create) (extract opts).
Proof.
  apply emits_bind; [|done]. apply emits_bind_ok; [apply latest_no_create|]. intros f.
  apply emits_bind_ok; [|done]. unfold readResultBytes. case_match; [by apply emits_wrapping|by split].
Qed.

Definition created_cm (e : event SideCall) : option ConfigMap :=
  match e with Ev c _ => match c with CreateConfigMap cm => Some cm | _ => None end end.

(** The results ConfigMap is created at most as the last step, after the
    freqtrade container was seen terminated, under the name the reconciler
    looks up and in the run's namespace. *)
Theorem results_after_exit n opts :
  wp (Run n opts) [] (fun h _ => ∀ cm x, Ev (CreateConfigMap cm) x ∈ h →
    Name (cm_Meta cm) = ResultsConfigMapName (BacktestName opts) ∧ Namespace (cm_Meta cm) = opt_Namespace opts ∧
    ∃ h', h = h' ++ [Ev (CreateConfigMap cm) x] ∧ seen_exited opts h').
Proof.
  assert (∀ h, Forall (ev_sat (@no_create)) h → ∀ cm x, Ev (CreateConfigMap cm) x ∉ h) as Hno.
  { intros h Hh cm x Hin. rewrite Forall_forall in Hh. by apply Hh in Hin. }
  intros [u|e]; cbn -[wp waitForMainContainerExit copyResultFileToPVC extract]; [|intros cm x Hin; by apply Hno in Hin; [|repeat constructor]].
  intros [u'|e]; cbn -[wp waitForMainContainerExit copyResultFileToPVC extract]; [|intros cm x Hin; by apply Hno in Hin; [|repeat constructor]].
  apply (wp_bind (waitForMainContainerExit n opts)). eapply wp_mono; [|apply (wp_conj _ _ _ _ (wait_exit n opts _) (emits_wp_app _ _ _ (wait_no_create n opts)))].
  intros h [[[]|e]|] [Hx (h1 & -> & Hh1)].
  2,3: intros cm x Hin; apply Hno in Hin; [done|]; apply Forall_app; split; [repeat constructor|done].
  specialize (Hx eq_refl). apply (wp_bind (copyResultFileToPVC opts)).
  eapply wp_mono; [|apply (emits_wp_app (@no_create)), copy_no_create].
  intros h ? (h2 & -> & Hh2). apply (wp_bind (extract opts)).
  eapply wp_mono; [|apply (emits_wp_app (@no_create)), extract_no_create].
  intros h data (h3 & -> & Hh3) created cm x Hcm.
  apply elem_of_app in Hcm as [Hcm|Hcm%list_elem_of_singleton].
  { apply Hno in Hcm; [done|]. repeat (apply Forall_app; split); try done. repeat constructor. }
  pose proof (f_equal created_cm Hcm) as E. cbn in E. injection E as ->. split_and!; [done..|].
  eexists. rewrite Hcm. split; [done|]. destruct Hx as (statuses & Hin & Hs). exists statuses.
  split; [|done]. do 2 (apply elem_of_app; left). exact Hin.
Qed.
End Extract.
