(* ===== verification/Manager.v ===== *)
(** * cmd/main.go: the binary's two commands

    The operator's image runs as the manager and as the sidecar of a Backtest
    run, told apart by the first argument.  The sidecar's command line is
    parsed with Go's flag package, so its rules are here as well: this file
    ties the container the Backtest reconciler builds to the process that
    runs in it.  The detection of the manager's own image and of the Gateway
    API are here, its set-up is in ManagerSetup.v. *)

From S2P Require Import Prelude Prog GoLib Kube Types Client BacktestResources Backtest CollectResults.

(** ** flag.FlagSet with string flags *)

(** The name and the value of [name=value]. *)
Fixpoint cut_equals (s : string) : string * option string :=
  match s with
  | EmptyString => (EmptyString, None)
  | String c s' =>
      if Ascii.eqb c "="%char then (EmptyString, Some s')
      else let r := cut_equals s' in (String c r.1, r.2)
  end.

Inductive flag_arg :=
  | NotAFlag
  | EndOfFlags
  | BadSyntax
  | Flag (name : string) (value : option string).

(** parseOne up to the lookup of the flag: one or two dashes. *)
Definition read_flag (s : string) : flag_arg :=
  match s with
  | String "-"%char (String c rest) =>
      if (s =? "--")%string then EndOfFlags
      else
        match (if Ascii.eqb c "-"%char then rest else String c rest) with
        | EmptyString => BadSyntax
        | String d _ as name =>
            if Ascii.eqb d "-"%char || Ascii.eqb d "="%char then BadSyntax
            else let r := cut_equals name in Flag r.1 r.2
        end
  | _ => NotAFlag
  end.

Inductive parsed :=
  | Parsed (values : gmap string string)
  | ErrHelp
  | ParseError (message : string).

(** FlagSet.Parse; [values] has an entry for every flag that is defined. *)
Fixpoint Parse (values : gmap string string) (args : list string) : parsed :=
  match args with
  | [] => Parsed values
  | s :: rest =>
      match read_flag s with
      | NotAFlag | EndOfFlags => Parsed values
      | BadSyntax => ParseError ("bad flag syntax: " ^^ s)
      | Flag name value =>
          match values !! name with
          | None =>
              if (name =? "help")%string || (name =? "h")%string then ErrHelp
              else ParseError ("flag provided but not defined: -" ^^ name)
          | Some _ =>
              match value, rest with
              | Some v, _ => Parse (<[name := v]> values) rest
              | None, v :: rest' => Parse (<[name := v]> values) rest'
              | None, [] => ParseError ("flag needs an argument: -" ^^ name)
              end
          end
      end
  end.

(** ** main *)

Inductive command := RunManager | RunCollectResults (args : list string).

Definition main (osArgs : list string) : command :=
  match osArgs with
  | _ :: sub :: args => if (sub =? "collect-results")%string then RunCollectResults args else RunManager
  | _ => RunManager
  end.

(** ** runCollectResults *)

Definition collect_flags : gmap string string :=
  list_to_map
    [ ("backtest-name", ""); ("strategy-name", "");
      ("results-dir", "/freqtrade/user_data/backtest_results");
      ("results-pvc-dir", ResultsPVCMountPath);
      ("main-container", "freqtrade") ].

(** The process exits while it parses ([flag.ExitOnError]), or the function
    returns. *)
Inductive outcome := Exits (code : Z) | Returns (r : result unit).

Section Collect.
Context `{GoLib} (Getenv : string → string).

Definition collect_Options (values : gmap string string) : Options :=
  let flag name := default "" (values !! name) in
  {| BacktestName := flag "backtest-name"; StrategyName := flag "strategy-name";
     PodName := Getenv "POD_NAME"; opt_Namespace := Getenv "POD_NAMESPACE";
     MainContainerName := flag "main-container"; ResultsDir := flag "results-dir";
     ResultsPVCDir := flag "results-pvc-dir" |}.

(** [None] is the fuel of the wait running out, see [wait_ends]. *)
Definition runCollectResults (n : nat) (args : list string) : SOp (option outcome) :=
  match Parse collect_flags args with
  | ErrHelp => mret (Some (Exits 0))
  | ParseError _ => mret (Some (Exits 2))
  | Parsed values =>
      let opts := collect_Options values in
      if (BacktestName opts =? "")%string || (StrategyName opts =? "")%string then
        mret (Some (Returns (Err (Errorf "--backtest-name and --strategy-name are both required"))))
      else
        ran ← CollectResults.Run n opts;
        mret (option_map Returns ran)
  end.

(** ** resolveOwnImage *)

(** [reader] is the manager's uncached API reader. *)
Definition resolveOwnImage (reader : NamespacedName → result PodSpec) : string :=
  let podName := Getenv "POD_NAME" in
  let podNamespace := Getenv "POD_NAMESPACE" in
  if (podName =? "")%string || (podNamespace =? "")%string then ""
  else
    match reader {| nn_Name := podName; nn_Namespace := podNamespace |} with
    | Err _ => ""
    | Ok pod =>
        match List.find (fun c => (c_Name c =? "manager")%string) (ps_Containers pod) with
        | Some c => c_Image c
        | None => ""
        end
    end.
End Collect.

(** ** controllers/shared/apiavailability.go *)

Definition gatewayAPIGroupVersion : string := "gateway.networking.k8s.io/v1".
Definition gatewayAPIHTTPRouteResource : string := "httproutes".

(** The discovery client's answer, the names of the resources it lists, and
    [discovery.IsGroupDiscoveryFailedError]. *)
Definition gatewayAPIAvailable (ServerResourcesForGroupVersion : string → result (list string))
    (IsGroupDiscoveryFailedError : error → bool) : bool * option error :=
  match ServerResourcesForGroupVersion gatewayAPIGroupVersion with
  | Err err => if IsNotFound err || IsGroupDiscoveryFailedError err then (false, None) else (false, Some err)
  | Ok resources => (existsb (fun name => (name =? gatewayAPIHTTPRouteResource)%string) resources, None)
  end.

(** ** The sidecar a Job runs *)

Section Sidecar.
Context `{GoLib}.

(** A role's rules grant a verb on a resource of the core group. *)
Definition grants (role : Role) (resource verb : string) : bool :=
  existsb (fun rule => existsb (String.eqb "") (rule_APIGroups rule) &&
    existsb (String.eqb resource) (rule_Resources rule) && existsb (String.eqb verb) (rule_Verbs rule)) (role_Rules role).

(** The calls of the sidecar that the API server authorizes. *)
Definition authorized {X} (role : Role) (c : SideCall X) : Prop :=
  match c with
  | GetPod _ => grants role "pods" "get" = true
  | CreateConfigMap _ => grants role "configmaps" "create" = true
  | _ => True
  end.

(** What the command line of the container is parsed into. *)
Definition sidecar_Options (Getenv : string → string) (backtestName strategyName : string) : Options :=
  {| BacktestName := backtestName; StrategyName := strategyName;
     PodName := Getenv "POD_NAME"; opt_Namespace := Getenv "POD_NAMESPACE";
     MainContainerName := freqtradeContainerName; ResultsDir := userDataMountPath ^^ "/backtest_results";
     ResultsPVCDir := ResultsPVCMountPath |}.

Lemma sidecar_parsed Getenv n image backtestName strategyName a0 :
  backtestName ≠ "" → strategyName ≠ "" →
  ∃ args, main (a0 :: c_Args (buildSidecarContainer image backtestName strategyName)) = RunCollectResults args ∧
    runCollectResults Getenv n args =
      (ran ← CollectResults.Run n (sidecar_Options Getenv backtestName strategyName); mret (option_map Returns ran)).
Proof.
  intros Hb Hs. eexists. split; [reflexivity|]. unfold runCollectResults.
  set (opts := sidecar_Options _ _ _).
  assert (∃ values, Parse collect_flags ["--backtest-name"; backtestName; "--strategy-name"; strategyName;
            "--results-pvc-dir"; ResultsPVCMountPath] = Parsed values ∧ collect_Options Getenv values = opts)
    as (values & -> & ->).
  { eexists. split; [reflexivity|]. reflexivity. }
  cbn. apply String.eqb_neq in Hb as ->. by apply String.eqb_neq in Hs as ->.
Qed.

(** The environment the kubelet gives a container of a pod. *)
Definition container_env (pod : ObjectMeta) (c : Container) (name : string) : string :=
  match List.find (fun e => (ev_Name e =? name)%string) (c_Env c) with
  | Some e =>
      if (ev_FieldPath e =? "metadata.name")%string then Name pod
      else if (ev_FieldPath e =? "metadata.namespace")%string then Namespace pod
      else ev_Value e
  | None => ""
  end.

Lemma sidecar_authorized {A} ns (p : SOp A) : emits (fun _ c => authorized (BuildSidecarRole ns) c) p.
Proof. induction p as [a|X c kont IH]; [done|]. split; [by destruct c|done]. Qed.

Lemma init_containers_kept backtest image operatorImage strategyName secret cm :
  from_option bp_InitContainers [] (run_Pod (bt_RunSpec (bt_Spec backtest))) = [] →
  buildSidecarContainer operatorImage (Name (bt_Meta backtest)) strategyName
    ∈ ps_InitContainers (BuildPod backtest image operatorImage strategyName secret cm).
Proof.
  intros Hinit. unfold BuildPod.
  destruct (run_Pod _) as [o|]; cbn in Hinit |- *; [rewrite Hinit; cbn|]; right; apply elem_of_app; right; by left.
Qed.

Lemma main_container_kept backtest image operatorImage strategyName secret cm :
  map c_Name (ps_Containers (BuildPod backtest image operatorImage strategyName secret cm)) = [freqtradeContainerName].
Proof. unfold BuildPod. by destruct (run_Pod _). Qed.

Lemma service_account_kept backtest image operatorImage strategyName secret cm :
  ps_ServiceAccountName (BuildPod backtest image operatorImage strategyName secret cm) = SidecarServiceAccountName.
Proof. unfold BuildPod. by destruct (run_Pod _). Qed.

(** C34: the sidecar finds its run and the reconciler finds the sidecar: the
    Job built for a Backtest - its init containers not replaced - holds a
    container whose command line and environment make the binary wait for the
    freqtrade container of its own pod, look for the strategy's results in the
    volume freqtrade writes and copy them to the results PVC, create no
    ConfigMap but the one the reconciler looks up, and call nothing that the
    role bound to the pod's service account does not grant. *)
Theorem sidecar_invocation backtest image operatorImage strategyName secret cm (podMeta : ObjectMeta) n a0 :
  Name (bt_Meta backtest) ≠ "" → strategyName ≠ "" →
  from_option bp_InitContainers [] (run_Pod (bt_RunSpec (bt_Spec backtest))) = [] →
  Namespace podMeta = Namespace (bt_Meta backtest) →
  let pod := pt_Spec (job_Template (BuildJob backtest image operatorImage strategyName secret cm)) in
  let ns := Namespace (bt_Meta backtest) in
  ∃ c args opts,
    c ∈ ps_InitContainers pod ∧ c_Image c = operatorImage ∧ c_RestartPolicy c = Some "Always" ∧
    main (a0 :: c_Args c) = RunCollectResults args ∧
    let process := runCollectResults (container_env podMeta c) n args in
    process = (ran ← CollectResults.Run n opts; mret (option_map Returns ran)) ∧
    pod_key opts = ObjectKeyFromMeta podMeta ∧ StrategyName opts = strategyName ∧
    map c_Name (ps_Containers pod) = [MainContainerName opts] ∧
    (∃ m, m ∈ c_VolumeMounts c ∧ vm_Name m = userDataVolumeName ∧
       HasPrefix (ResultsDir opts) (vm_MountPath m ^^ "/") = true) ∧
    (∃ m, m ∈ c_VolumeMounts c ∧ vm_Name m = "results" ∧ vm_MountPath m = ResultsPVCDir opts ∧ vm_ReadOnly m = false) ∧
    wp process [] (fun h _ => ∀ o x, Ev (CreateConfigMap o) x ∈ h → ObjectKeyFromMeta (cm_Meta o) = results_cm_key backtest) ∧
    emits (fun _ c => authorized (BuildSidecarRole ns) c) process ∧
    rb_RoleRef (BuildSidecarRoleBinding ns) = Name (role_Meta (BuildSidecarRole ns)) ∧
    {| nn_Namespace := ns; nn_Name := ps_ServiceAccountName pod |} ∈ rb_Subjects (BuildSidecarRoleBinding ns).
Proof.
  intros Hname Hstrat Hinit Hns. cbv zeta. cbn [job_Template pt_Spec BuildJob].
  set (c := buildSidecarContainer operatorImage (Name (bt_Meta backtest)) strategyName).
  destruct (sidecar_parsed (container_env podMeta c) n operatorImage _ _ a0 Hname Hstrat) as (args & Hmain & Hrun).
  exists c, args, (sidecar_Options (container_env podMeta c) (Name (bt_Meta backtest)) strategyName).
  split_and!; try done.
  - by apply init_containers_kept.
  - by rewrite main_container_kept.
  - exists (mount userDataVolumeName userDataMountPath true). split_and!; [by left|done..].
  - exists (mount "results" ResultsPVCMountPath false). split_and!; [do 2 right; by left|done..].
  - rewrite Hrun. apply wp_bind. eapply wp_mono; [|apply results_after_exit].
    intros h res Hcreated o x Hin. destruct (Hcreated o x Hin) as (Ho & Hons & _).
    unfold ObjectKeyFromMeta, results_cm_key. rewrite Ho, Hons, <- Hns. done.
  - apply sidecar_authorized.
  - rewrite service_account_kept. by left.
Qed.
End Sidecar.

Module Example.
#[local] Existing Instance golib_instance.

Definition weekly : Backtest :=
  {| bt_Meta := NewMeta "weekly" "trading" ∅ ∅;
     bt_Spec :=
       {| bt_RunSpec := {| run_ConfigRef := {| lor_Name := "cfg" |}; run_StrategyRef := {| lor_Name := "strat" |};
                           run_Timerange := ""; run_Timeframe := ""; run_Pairs := []; run_Data := None;
                           run_Results := None; run_Pod := None; run_TTLSecondsAfterFinished := None;
                           run_ExtraArgs := [] |};
          bt_TimeframeDetail := ""; bt_MaxOpenTrades := None; bt_StakeAmount := ""; bt_DryRunWallet := None;
          bt_Fee := None; bt_EnableProtections := None; bt_Breakdown := []; bt_Cache := "" |};
     bt_Status :=
       {| bst_Phase := ""; bst_Message := ""; bst_Conditions := []; bst_ObservedGeneration := 0; bst_JobName := "";
          bst_ResultsPVCName := ""; bst_StartTime := None; bst_CompletionTime := None; bst_Results := None |} |}.

Lemma sidecar_invocation_witness :
  ∃ c args, c ∈ ps_InitContainers (BuildPod weekly "freqtrade" "operator" "MyStrategy" "cfg" "strat") ∧
    main ("/manager" :: c_Args c) = RunCollectResults args.
Proof.
  destruct (sidecar_invocation weekly "freqtrade" "operator" "MyStrategy" "cfg" "strat"
              (NewMeta "weekly-x7k2p" "trading" ∅ ∅) wait_iterations "/manager") as (c & args & opts & Hc & _ & _ & Hmain & _);
    [discriminate|discriminate|reflexivity|reflexivity|].
  by exists c, args.
Defined.

(** A manager's own flags, and a flag without its value. *)
Example manager_runs : main ["/manager"; "--leader-elect"; "collect-results"] = RunManager.
Proof. reflexivity. Qed.
Example missing_value : Parse collect_flags ["--backtest-name=weekly"; "-strategy-name"] =
  ParseError "flag needs an argument: -strategy-name".
Proof. vm_compute. reflexivity. Qed.
End Example.
