(* ===== verification/ManagerSetup.v ===== *)
(** * cmd/main.go: runManager

    The manager's flags, the order it is set up in and what its controllers
    are given: a program over the calls that can fail or answer ([MCall]),
    where every failure but that of a discovery ends the process before
    anything runs.  Logging is left out. *)

From S2P Require Import Prelude Prog GoLib Kube Types Client Shared PollerShutdown Manager.
From S2P Require TradeBot FreqUI SpecControllers Backtest.

(** ** Go's flag package, with typed flags

    strconv.ParseInt(s, 0, 64) and time.ParseDuration: [None] is an error. *)
Class FlagLib := {
  ParseInt : string → option Z;
  ParseDuration : string → option Z;
  ParseInt_int64 s z : ParseInt s = Some z → (- 2 ^ 63 <= z < 2 ^ 63)%Z;
  ParseDuration_int64 s z : ParseDuration s = Some z → (- 2 ^ 63 <= z < 2 ^ 63)%Z
}.

(** A flag's value; a flag that another package defines is whether it is
    boolean and what it accepts. *)
Inductive flag_value :=
  | StringVar (s : string) | BoolVar (b : bool) | IntVar (z : Z) | DurationVar (z : Z)
  | OtherVar (isBool : bool) (accepted : string → bool).

Abbreviation flag_set := (gmap string flag_value).

(** strconv.ParseBool *)
Definition ParseBool (s : string) : option bool :=
  if existsb (String.eqb s) ["1"; "t"; "T"; "TRUE"; "true"; "True"] then Some true
  else if existsb (String.eqb s) ["0"; "f"; "F"; "FALSE"; "false"; "False"] then Some false
  else None.

Definition IsBoolFlag (v : flag_value) : bool :=
  match v with BoolVar _ => true | OtherVar b _ => b | _ => false end.

Section Flags.
Context `{FlagLib}.

Definition Set_ (v : flag_value) (s : string) : option flag_value :=
  match v with
  | StringVar _ => Some (StringVar s)
  | BoolVar _ => BoolVar <$> ParseBool s
  | IntVar _ => IntVar <$> ParseInt s
  | DurationVar _ => DurationVar <$> ParseDuration s
  | OtherVar _ accepted => if accepted s then Some v else None
  end.

Inductive flags_parsed := FlagsParsed (fs : flag_set) | FlagsHelp | FlagsError (message : string).

(** flag.Parse: a boolean flag never takes the next argument. *)
Fixpoint ParseFlags (fs : flag_set) (args : list string) : flags_parsed :=
  match args with
  | [] => FlagsParsed fs
  | s :: rest =>
      match read_flag s with
      | NotAFlag | EndOfFlags => FlagsParsed fs
      | BadSyntax => FlagsError ("bad flag syntax: " ^^ s)
      | Flag name value =>
          match fs !! name with
          | None =>
              if (name =? "help")%string || (name =? "h")%string then FlagsHelp
              else FlagsError ("flag provided but not defined: -" ^^ name)
          | Some v =>
              let set_to text rest :=
                match Set_ v text with
                | Some v' => ParseFlags (<[name := v']> fs) rest
                | None => FlagsError ("invalid value " ^^ Quote text ^^ " for flag -" ^^ name)
                end in
              if IsBoolFlag v then
                match value with Some text => set_to text rest | None => set_to "true" rest end
              else
                match value, rest with
                | Some text, _ => set_to text rest
                | None, text :: rest' => set_to text rest'
                | None, [] => FlagsError ("flag needs an argument: -" ^^ name)
                end
          end
      end
  end.

(** *** The manager's flags *)

Definition manager_flags : flag_set :=
  list_to_map
    [ ("tradebot-finalizer-grace-period", DurationVar (2 * Minute));
      ("tradebot-max-concurrent-reconciles", IntVar 4);
      ("default-freqtrade-image", StringVar DefaultFreqtradeImage);
      ("bot-poll-workers", IntVar 4);
      ("operator-image", StringVar "");
      ("metrics-bind-address", StringVar "0");
      ("health-probe-bind-address", StringVar ":8081");
      ("leader-elect", BoolVar false);
      ("metrics-secure", BoolVar true);
      ("webhook-cert-path", StringVar "");
      ("webhook-cert-name", StringVar "tls.crt");
      ("webhook-cert-key", StringVar "tls.key");
      ("metrics-cert-path", StringVar "");
      ("metrics-cert-name", StringVar "tls.crt");
      ("metrics-cert-key", StringVar "tls.key");
      ("enable-http2", BoolVar false) ].

(** The value behind the pointer a flag was defined with. *)
Definition string_flag (fs : flag_set) (name : string) : string :=
  match fs !! name with Some (StringVar s) => s | _ => "" end.
Definition bool_flag (fs : flag_set) (name : string) : bool :=
  match fs !! name with Some (BoolVar b) => b | _ => false end.
Definition int_flag (fs : flag_set) (name : string) : Z :=
  match fs !! name with Some (IntVar z) => z | _ => 0%Z end.
Definition duration_flag (fs : flag_set) (name : string) : Z :=
  match fs !! name with Some (DurationVar z) => z | _ => 0%Z end.
End Flags.

(** ** The calls of the set-up *)

Inductive tls_option := DisableHTTP2 | GetCertificate (cert key : string).

Record ManagerOptions := {
  MetricsBindAddress : string;
  SecureServing : bool;
  AuthFilter : bool;                      (* FilterProvider: authentication and authorization *)
  MetricsTLSOpts : list tls_option;
  WebhookTLSOpts : list tls_option;
  HealthProbeBindAddress : string;
  LeaderElection : bool;
  LeaderElectionID : string
}.

Inductive controller :=
  | TradeBotC (r : TradeBot.Reconciler) (MaxConcurrentReconciles : Z)
  | FreqUIC (r : FreqUI.Reconciler)
  | StrategyC (r : SpecControllers.Reconciler)
  | TradeBotConfigC (r : SpecControllers.Reconciler)
  | BacktestC (r : Backtest.Reconciler).

Inductive webhook :=
  | TradeBotW | TradeBotConfigAlphaW | TradeBotConfigBetaW | StrategyW | FreqUIW | BacktestW.

Inductive runnable := CertWatcherR (cert key : string) | BotPollerR (p : BotPoller).

Inductive MCall : Type → Type :=
  | CertwatcherNew (cert key : string) : MCall (result unit)
  | GetConfigOrDie : MCall (result unit)
  | NewManager (o : ManagerOptions) : MCall (result unit)
  | MustRegisterCollector : MCall unit
  | NewDiscoveryClient : MCall (result unit)
  | ServerResources (groupVersion : string) : MCall (result (list string))
  | GetOwnPod (key : NamespacedName) : MCall (result PodSpec)
  | SetupController (c : controller) : MCall (result unit)
  | SetupWebhook (w : webhook) : MCall (result unit)
  | Add (x : runnable) : MCall (result unit)
  | AddHealthzCheck : MCall (result unit)
  | AddReadyzCheck : MCall (result unit)
  | Start : MCall (result unit).

Abbreviation MOp := (Prog MCall).

(** [if err := <call>; err != nil { ...; os.Exit(1) }]; the result is the exit
    code. *)
Definition or_exit (c : MCall (result unit)) (rest : MOp Z) : MOp Z :=
  x ← trigger c; match x with Ok _ => rest | Err _ => mret 1%Z end.

Notation "c ;! q" := (or_exit c q) (at level 100, q at level 200, right associativity) : go_scope.

(** ** runManager *)

Section Run.
Context `{GoLib} `{FlagLib} (Getenv : string → string) (IsGroupDiscoveryFailedError : error → bool).
(** The flags that imported packages define: zap's, controller-runtime's. *)
Context (other_flags : flag_set).

Definition tls_options (fs : flag_set) : list tls_option :=
  if bool_flag fs "enable-http2" then [] else [DisableHTTP2].

(** The files of the webhook's ("webhook") or the metrics ("metrics")
    certificate, when a directory is given. *)
Definition cert_files (fs : flag_set) (server : string) : option (string * string) :=
  let path := string_flag fs (server ^^ "-cert-path") in
  if nonempty path
  then Some (filepath_Join path (string_flag fs (server ^^ "-cert-name")),
             filepath_Join path (string_flag fs (server ^^ "-cert-key")))
  else None.

(** Its watcher, created if there are such files. *)
Definition with_watcher (files : option (string * string)) (rest : MOp Z) : MOp Z :=
  match files with Some (cert, key) => CertwatcherNew cert key ;! rest | None => rest end.

Definition watched (files : option (string * string)) : list tls_option :=
  match files with Some (cert, key) => [GetCertificate cert key] | None => [] end.

Definition manager_options (fs : flag_set) : ManagerOptions :=
  {| MetricsBindAddress := string_flag fs "metrics-bind-address";
     SecureServing := bool_flag fs "metrics-secure"; AuthFilter := bool_flag fs "metrics-secure";
     MetricsTLSOpts := tls_options fs ++ watched (cert_files fs "metrics");
     WebhookTLSOpts := tls_options fs ++ watched (cert_files fs "webhook");
     HealthProbeBindAddress := string_flag fs "health-probe-bind-address";
     LeaderElection := bool_flag fs "leader-elect"; LeaderElectionID := "bca373d0.freqtrade.io" |}.

(** shared.GatewayAPIAvailable; an error counts as unavailable. *)
Definition detect_gateway : MOp bool :=
  dc ← trigger NewDiscoveryClient;
  match dc with
  | Err _ => mret false
  | Ok _ =>
      resources ← trigger (ServerResources gatewayAPIGroupVersion);
      let '(available, err) := gatewayAPIAvailable (fun _ => resources) IsGroupDiscoveryFailedError in
      mret match err with Some _ => false | None => available end
  end.

(** resolveOwnImage over the manager's API reader. *)
Definition own_image : MOp string :=
  let podName := Getenv "POD_NAME" in
  let podNamespace := Getenv "POD_NAMESPACE" in
  if (podName =? "")%string || (podNamespace =? "")%string then mret ""
  else
    pod ← trigger (GetOwnPod {| nn_Name := podName; nn_Namespace := podNamespace |});
    mret (resolveOwnImage Getenv (fun _ => pod)).

Definition operator_image (fs : flag_set) : MOp string :=
  let operatorImage := string_flag fs "operator-image" in
  if (operatorImage =? "")%string then own_image else mret operatorImage.

Definition tradebot_reconciler (fs : flag_set) : TradeBot.Reconciler :=
  {| TradeBot.FinalizerGracePeriod := duration_flag fs "tradebot-finalizer-grace-period";
     TradeBot.hasRecorder := true; TradeBot.DefaultImage := string_flag fs "default-freqtrade-image";
     TradeBot.OperatorNamespace := Getenv "POD_NAMESPACE" |}.

Definition backtest_reconciler (fs : flag_set) (image : string) : Backtest.Reconciler :=
  {| Backtest.hasRecorder := true; Backtest.DefaultImage := string_flag fs "default-freqtrade-image";
     Backtest.OperatorImage := image |}.

(** The manager's Runnables, the health checks and mgr.Start. *)
Definition start_manager (fs : flag_set) : MOp Z :=
  let add_watcher files rest :=
    match files with Some (cert, key) => Add (CertWatcherR cert key) ;! rest | None => rest end in
  add_watcher (cert_files fs "metrics") (
  add_watcher (cert_files fs "webhook") (
  Add (BotPollerR {| Workers := int_flag fs "bot-poll-workers" |}) ;!
  AddHealthzCheck ;!
  AddReadyzCheck ;!
  Start ;!
  mret 0%Z)).

Definition setup_webhooks (rest : MOp Z) : MOp Z :=
  SetupWebhook TradeBotW ;!
  SetupWebhook TradeBotConfigAlphaW ;!
  SetupWebhook TradeBotConfigBetaW ;!
  SetupWebhook StrategyW ;!
  SetupWebhook FreqUIW ;!
  SetupWebhook BacktestW ;!
  rest.

Definition setup_controllers (fs : flag_set) (available : bool) (image : string) (rest : MOp Z) : MOp Z :=
  SetupController (TradeBotC (tradebot_reconciler fs) (int_flag fs "tradebot-max-concurrent-reconciles")) ;!
  SetupController (FreqUIC {| FreqUI.hasRecorder := true; FreqUI.GatewayAPIAvailable := available |}) ;!
  SetupController (StrategyC {| SpecControllers.hasRecorder := true |}) ;!
  SetupController (TradeBotConfigC {| SpecControllers.hasRecorder := true |}) ;!
  SetupController (BacktestC (backtest_reconciler fs image)) ;!
  rest.

(** [args] is os.Args without the program; flag.CommandLine exits on its own
    with 2, or 0 after a request for help. *)
Definition runManager (args : list string) : MOp Z :=
  match ParseFlags (manager_flags ∪ other_flags) args with
  | FlagsHelp => mret 0%Z
  | FlagsError _ => mret 2%Z
  | FlagsParsed fs =>
      with_watcher (cert_files fs "webhook") (
      with_watcher (cert_files fs "metrics") (
      GetConfigOrDie ;!
      NewManager (manager_options fs) ;!
      (_ ← trigger MustRegisterCollector;
       available ← detect_gateway;
       image ← operator_image fs;
       setup_controllers fs available image (setup_webhooks (start_manager fs)))))
  end.

(** ** What has been set up *)

(** The steps of a set-up that took effect. *)
Inductive step :=
  | Manager (o : ManagerOptions) | Collector | Controller (c : controller) | Webhook (w : webhook)
  | Runnable (x : runnable) | Healthz | Readyz | Started.

Definition done_step (e : event MCall) : option step :=
  match e with
  | @Ev _ _ c x =>
      match c in MCall X return X → option step with
      | NewManager o => fun x => if is_ok x then Some (Manager o) else None
      | MustRegisterCollector => fun _ => Some Collector
      | SetupController c => fun x => if is_ok x then Some (Controller c) else None
      | SetupWebhook w => fun x => if is_ok x then Some (Webhook w) else None
      | Add r => fun x => if is_ok x then Some (Runnable r) else None
      | AddHealthzCheck => fun x => if is_ok x then Some Healthz else None
      | AddReadyzCheck => fun x => if is_ok x then Some Readyz else None
      | Start => fun x => if is_ok x then Some Started else None
      | _ => fun _ => None
      end x
  end.

Definition done_steps (h : history MCall) : list step := omap done_step h.

Definition cert_runnables (fs : flag_set) : list step :=
  match cert_files fs "metrics" with Some (c, k) => [Runnable (CertWatcherR c k)] | None => [] end
  ++ match cert_files fs "webhook" with Some (c, k) => [Runnable (CertWatcherR c k)] | None => [] end.

(** What a server's TLS options are to be: without HTTP/2 unless it is asked
    for, and with the certificate in the directory of the server's flags, kept
    up to date by a watcher among the steps. *)
Definition tls_as_asked (fs : flag_set) (server : string) (opts : list tls_option) (steps : list step) : Prop :=
  (DisableHTTP2 ∈ opts ↔ bool_flag fs "enable-http2" = false) ∧
  (∀ cert key, GetCertificate cert key ∈ opts ↔
     string_flag fs (server ^^ "-cert-path") ≠ "" ∧
     cert = filepath_Join (string_flag fs (server ^^ "-cert-path")) (string_flag fs (server ^^ "-cert-name")) ∧
     key = filepath_Join (string_flag fs (server ^^ "-cert-path")) (string_flag fs (server ^^ "-cert-key"))) ∧
  (∀ cert key, GetCertificate cert key ∈ opts → Runnable (CertWatcherR cert key) ∈ steps).

(** What the manager's options are to be: the metrics behind TLS and behind
    authentication together, the addresses and the election as the flags say. *)
Definition options_as_asked (fs : flag_set) (o : ManagerOptions) (steps : list step) : Prop :=
  MetricsBindAddress o = string_flag fs "metrics-bind-address" ∧
  HealthProbeBindAddress o = string_flag fs "health-probe-bind-address" ∧
  SecureServing o = bool_flag fs "metrics-secure" ∧
  AuthFilter o = bool_flag fs "metrics-secure" ∧
  LeaderElection o = bool_flag fs "leader-elect" ∧
  LeaderElectionID o = "bca373d0.freqtrade.io" ∧
  tls_as_asked fs "metrics" (MetricsTLSOpts o) steps ∧
  tls_as_asked fs "webhook" (WebhookTLSOpts o) steps.

(** The whole set-up, in order. *)
Definition set_up (fs : flag_set) (available : bool) (image : string) : list step :=
  [ Manager (manager_options fs); Collector;
    Controller (TradeBotC
      {| TradeBot.FinalizerGracePeriod := duration_flag fs "tradebot-finalizer-grace-period";
         TradeBot.hasRecorder := true; TradeBot.DefaultImage := string_flag fs "default-freqtrade-image";
         TradeBot.OperatorNamespace := Getenv "POD_NAMESPACE" |}
      (int_flag fs "tradebot-max-concurrent-reconciles"));
    Controller (FreqUIC {| FreqUI.hasRecorder := true; FreqUI.GatewayAPIAvailable := available |});
    Controller (StrategyC {| SpecControllers.hasRecorder := true |});
    Controller (TradeBotConfigC {| SpecControllers.hasRecorder := true |});
    Controller (BacktestC
      {| Backtest.hasRecorder := true; Backtest.DefaultImage := string_flag fs "default-freqtrade-image";
         Backtest.OperatorImage := image |});
    Webhook TradeBotW; Webhook TradeBotConfigAlphaW; Webhook TradeBotConfigBetaW; Webhook StrategyW;
    Webhook FreqUIW; Webhook BacktestW ]
  ++ cert_runnables fs
  ++ [Runnable (BotPollerR {| Workers := int_flag fs "bot-poll-workers" |}); Healthz; Readyz].

(** *** What the discoveries have answered *)

Definition resources_answer (e : event MCall) : option (result (list string)) :=
  match e with
  | @Ev _ _ c x =>
      match c in MCall X return X → option (result (list string)) with
      | ServerResources _ => fun r => Some r
      | _ => fun _ => None
      end x
  end.

Definition pod_answer (e : event MCall) : option (result PodSpec) :=
  match e with
  | @Ev _ _ c x =>
      match c in MCall X return X → option (result PodSpec) with GetOwnPod _ => fun r => Some r | _ => fun _ => None end x
  end.

Definition resources_answers (h : history MCall) : list (result (list string)) := omap resources_answer h.
Definition pod_answers (h : history MCall) : list (result PodSpec) := omap pod_answer h.

(** The cluster has answered that it serves HTTPRoutes. *)
Definition gateway_seen (answers : list (result (list string))) : bool :=
  existsb (fun r => match r with
                    | Ok l => existsb (fun name => (name =? gatewayAPIHTTPRouteResource)%string) l
                    | Err _ => false
                    end) answers.

(** The flag, or the image of the manager's own pod as it was read. *)
Definition image_seen (fs : flag_set) (answers : list (result PodSpec)) : string :=
  let operatorImage := string_flag fs "operator-image" in
  if (operatorImage =? "")%string
  then match answers with r :: _ => resolveOwnImage Getenv (fun _ => r) | [] => "" end
  else operatorImage.

(** Everything has been set up, with what was discovered, around a manager
    with the options the flags ask for. *)
Definition ready_to_start (fs : flag_set) (h : history MCall) : Prop :=
  done_steps h = set_up fs (gateway_seen (resources_answers h)) (image_seen fs (pod_answers h)) ∧
  (∀ o, Manager o ∈ done_steps h → options_as_asked fs o (done_steps h)).

Definition starts_ready (args : list string) (h : history MCall) (X : Type) (c : MCall X) : Prop :=
  match c with
  | Start => ∃ fs, ParseFlags (manager_flags ∪ other_flags) args = FlagsParsed fs ∧ ready_to_start fs h
  | _ => True
  end.

Lemma tls_asked fs server steps :
  server = "metrics" ∨ server = "webhook" →
  (∀ x, x ∈ cert_runnables fs → x ∈ steps) →
  tls_as_asked fs server (tls_options fs ++ watched (cert_files fs server)) steps.
Proof.
  intros Hserver Hsteps.
  assert (∀ cert key, GetCertificate cert key ∈ tls_options fs ++ watched (cert_files fs server) ↔
    cert_files fs server = Some (cert, key)) as Hcert.
  { intros cert key. unfold tls_options, watched. destruct (bool_flag fs "enable-http2"), (cert_files fs server) as [[c k]|];
      cbn; set_unfold; naive_solver. }
  split_and!.
  - unfold tls_options, watched. destruct (bool_flag fs "enable-http2"), (cert_files fs server) as [[c k]|]; cbn; set_solver.
  - intros cert key. rewrite Hcert. unfold cert_files.
    pose proof (nonempty_spec (string_flag fs (server ^^ "-cert-path"))) as Hpath.
    destruct (nonempty _); naive_solver.
  - intros cert key Hin. apply Hcert in Hin. apply Hsteps. unfold cert_runnables. rewrite elem_of_app.
    destruct Hserver as [-> | ->]; rewrite Hin; set_solver.
Qed.

Lemma options_asked fs steps :
  (∀ x, x ∈ cert_runnables fs → x ∈ steps) → options_as_asked fs (manager_options fs) steps.
Proof. intros Hsteps. do 6 (split; [done|]). split; apply tls_asked; auto. Qed.

Lemma set_up_options fs available image o :
  Manager o ∈ set_up fs available image → options_as_asked fs o (set_up fs available image).
Proof.
  intros Hin. assert (o = manager_options fs) as ->.
  { unfold set_up, cert_runnables in Hin. destruct (cert_files fs "metrics") as [[??]|], (cert_files fs "webhook") as [[??]|];
      cbn in Hin; set_unfold in Hin; naive_solver. }
  apply options_asked. intros x Hx. unfold set_up. rewrite !elem_of_app. by right; left.
Qed.

Lemma emits_after_or_exit (P : history MCall → ∀ X, MCall X → Prop) (c : MCall (result unit)) (rest : MOp Z) h :
  P h _ c → emits_after P rest (h ++ [Ev c (Ok tt)]) → emits_after P (or_exit c rest) h.
Proof. intros Hc Hr. split; [exact Hc|]. intros [[]|e]; [exact Hr|exact I]. Qed.

(** The steps done and the answers to the discoveries. *)
Record seen (steps : list step) (rs : list (result (list string))) (ps : list (result PodSpec)) (h : history MCall) : Prop := {
  seen_steps : done_steps h = steps;
  seen_resources : resources_answers h = rs;
  seen_pods : pod_answers h = ps
}.

Lemma omap_snoc {A B} (f : A → option B) l x : omap f (l ++ [x]) = omap f l ++ option_list (f x).
Proof. by rewrite omap_app. Qed.

Lemma seen_next steps rs ps h {X} (c : MCall X) x :
  seen steps rs ps h →
  seen (steps ++ option_list (done_step (Ev c x))) (rs ++ option_list (resources_answer (Ev c x)))
    (ps ++ option_list (pod_answer (Ev c x))) (h ++ [Ev c x]).
Proof. intros [<- <- <-]. split; apply omap_snoc. Qed.

Lemma seen_then args steps rs ps h c rest :
  match c with Start => False | _ => True end →
  resources_answer (Ev c (Ok tt)) = None → pod_answer (Ev c (Ok tt)) = None → seen steps rs ps h →
  (∀ h', seen (steps ++ option_list (done_step (Ev c (Ok tt)))) rs ps h' → emits_after (starts_ready args) rest h') →
  emits_after (starts_ready args) (or_exit c rest) h.
Proof.
  intros Hc Hr Hp Hs Hrest. apply emits_after_or_exit.
  - revert Hc. generalize (result unit) c. intros X c0. by destruct c0.
  - apply Hrest. apply (seen_next _ _ _ _ c (Ok tt)) in Hs. rewrite Hr, Hp in Hs. cbn in Hs. by rewrite !app_nil_r in Hs.
Qed.

Ltac next_step H :=
  eapply seen_then; [exact I|reflexivity|reflexivity|exact H|]; clear H; intros ? H;
  cbn [done_step is_ok option_list] in H; rewrite <- ?app_assoc in H.

Lemma start_manager_ready args fs steps rs ps h :
  ParseFlags (manager_flags ∪ other_flags) args = FlagsParsed fs →
  steps ++ cert_runnables fs ++ [Runnable (BotPollerR {| Workers := int_flag fs "bot-poll-workers" |}); Healthz; Readyz]
    = set_up fs (gateway_seen rs) (image_seen fs ps) →
  seen steps rs ps h → emits_after (starts_ready args) (start_manager fs) h.
Proof.
  intros Hfs Hall Hseen. unfold start_manager, cert_runnables in *.
  assert (∀ steps h, steps ++ [Runnable (BotPollerR {| Workers := int_flag fs "bot-poll-workers" |}); Healthz; Readyz]
      = set_up fs (gateway_seen rs) (image_seen fs ps) → seen steps rs ps h →
    emits_after (starts_ready args) (Add (BotPollerR {| Workers := int_flag fs "bot-poll-workers" |}) ;!
      AddHealthzCheck ;! AddReadyzCheck ;! Start ;! mret 0%Z) h) as Hlast.
  { clear -Hfs. intros steps h Hall H2. do 3 next_step H2. apply emits_after_or_exit; [|done].
    exists fs. split; [exact Hfs|]. destruct H2 as [Hs Hg Hi]. unfold ready_to_start. rewrite Hs, Hg, Hi.
    cbv beta iota. refine (eq_ind_r (λ l, l = _ ∧ ∀ o, _ ∈ l → options_as_asked _ o l) _ Hall).
    split; [done|]. intros o. apply set_up_options. }
  destruct (cert_files fs "metrics") as [[mc mk]|], (cert_files fs "webhook") as [[wc wk]|]; cbn [app] in Hall.
  1: do 2 next_step Hseen. 2, 3: next_step Hseen.
  all: eapply Hlast; [|exact Hseen]; rewrite <- ?app_assoc; exact Hall.
Qed.

Lemma setup_ready args fs rs ps h :
  ParseFlags (manager_flags ∪ other_flags) args = FlagsParsed fs →
  seen [Manager (manager_options fs); Collector] rs ps h →
  emits_after (starts_ready args)
    (setup_controllers fs (gateway_seen rs) (image_seen fs ps) (setup_webhooks (start_manager fs))) h.
Proof.
  intros Hfs Hseen. unfold setup_controllers, setup_webhooks. do 11 next_step Hseen.
  eapply start_manager_ready; [exact Hfs| |exact Hseen]. reflexivity.
Qed.

(** The discoveries do not set anything up, and never fail. *)
Definition discovers {A} (p : MOp A) : Prop :=
  emits (fun _ c => match c with NewDiscoveryClient | ServerResources _ | GetOwnPod _ => True | _ => False end) p.

Lemma discovers_starts {A} args (p : MOp A) h : discovers p → emits_after (starts_ready args) p h.
Proof.
  revert h; induction p as [a|X c k IH]; intros h Hp; [done|]. destruct Hp as [Hc Hk].
  split; [clear -Hc; by destruct c|]. intros x. apply IH, Hk.
Qed.

Lemma gateway_detected h steps ps :
  seen steps [] ps h → wp detect_gateway h (fun h' a => ∃ rs, seen steps rs ps h' ∧ gateway_seen rs = a).
Proof.
  intros Hs. unfold detect_gateway. intros dc. apply (seen_next _ _ _ _ NewDiscoveryClient dc) in Hs.
  cbn in Hs. rewrite ?app_nil_r in Hs. destruct dc as [u|e]; [|by exists []].
  intros res. apply (seen_next _ _ _ _ (ServerResources gatewayAPIGroupVersion) res) in Hs. cbn in Hs.
  rewrite ?app_nil_r in Hs. unfold gatewayAPIAvailable. destruct res as [l|e].
  - exists [Ok l]. split; [done|]. cbn. by rewrite orb_false_r.
  - unfold prog_mbind. cbn [prog_bind]. destruct (IsNotFound e || IsGroupDiscoveryFailedError e); by exists [Err e].
Qed.

Lemma image_found fs h steps rs :
  seen steps rs [] h → wp (operator_image fs) h (fun h' i => ∃ ps, seen steps rs ps h' ∧ image_seen fs ps = i).
Proof.
  intros Hs. unfold operator_image, image_seen. destruct (string_flag fs "operator-image" =? "")%string; [|by exists []].
  unfold own_image. destruct (_ || _) eqn:E; [by exists []|]. intros pod.
  apply (seen_next _ _ _ _ (GetOwnPod {| nn_Name := Getenv "POD_NAME"; nn_Namespace := Getenv "POD_NAMESPACE" |}) pod) in Hs.
  cbn in Hs. rewrite ?app_nil_r in Hs. by exists [pod].
Qed.

Lemma emits_after_seq {A B} (P : history MCall → ∀ X, MCall X → Prop) R (p : MOp A) (f : A → MOp B) h :
  emits_after P p h → wp p h R → (∀ h' a, R h' a → emits_after P (f a) h') → emits_after P (p ≫= f) h.
Proof. intros Hp HR Hf. apply emits_after_bind; [done|]. eapply wp_mono; [|exact HR]. exact Hf. Qed.

(** ** Theorems *)

(** C35: the manager only starts completely set up: whenever mgr.Start is
    called, everything before it has succeeded, each once and in order - the
    manager, its metrics behind authentication exactly when they are behind
    TLS, without HTTP/2 unless asked for and with the certificates of its
    flags, each kept up to date by a watcher; the collector, the five controllers with the
    flags' values and what was discovered of the Gateway API and of the
    operator's own image, the six webhooks, the certificate watchers there
    are files for, the poller and both health checks. *)
Theorem starts_when_set_up args : emits_after (starts_ready args) (runManager args) [].
Proof.
  unfold runManager. destruct (ParseFlags _ args) as [fs| |] eqn:Hfs; [|done..].
  assert (seen [] [] [] []) as Hseen by done.
  assert (∀ h, seen [] [] [] h → emits_after (starts_ready args)
    (GetConfigOrDie ;! NewManager (manager_options fs) ;!
      (_ ← trigger MustRegisterCollector; available ← detect_gateway; image ← operator_image fs;
       setup_controllers fs available image (setup_webhooks (start_manager fs)))) h) as Hmain.
  { clear Hseen. intros h Hseen. do 2 next_step Hseen. split; [done|]. intros u.
    apply (seen_next _ _ _ _ MustRegisterCollector u) in Hseen. cbn in Hseen.
    eapply emits_after_seq; [apply discovers_starts|by apply gateway_detected|].
    { split; [done|]. intros [?|?]; [|done]. split; [done|]. intros res.
      unfold prog_mbind. cbn [prog_bind]. by destruct (gatewayAPIAvailable (fun _ => res) IsGroupDiscoveryFailedError). }
    intros h2 available (rs & Hs2 & <-). eapply emits_after_seq; [apply discovers_starts|by apply image_found|].
    { unfold operator_image, own_image. destruct (_ =? _)%string; [|done]. destruct (_ || _); [done|]. by split. }
    intros h3 image (ps & Hs3 & <-). by apply setup_ready. }
  unfold with_watcher. destruct (cert_files fs "webhook") as [[wc wk]|], (cert_files fs "metrics") as [[mc mk]|].
  1: do 2 next_step Hseen. 2, 3: next_step Hseen. all: by apply Hmain.
Qed.

(** The exit status: 0 only after a request for help or a manager that ran
    and stopped without error, 2 exactly for a bad command line, 1 for
    everything else. *)
Theorem exit_status args :
  wp (runManager args) [] (fun h code =>
    match ParseFlags (manager_flags ∪ other_flags) args with
    | FlagsHelp => code = 0%Z
    | FlagsError _ => code = 2%Z
    | FlagsParsed _ => code = 1%Z ∨ code = 0%Z ∧ Started ∈ done_steps h
    end).
Proof.
  unfold runManager. destruct (ParseFlags _ args) as [fs| |]; [|done..].
  set (Q := fun h code => _).
  assert (∀ c rest h, (∀ h', wp rest h' Q) → wp (or_exit c rest) h Q) as Hexit.
  { intros c rest h Hr [u|e]; [apply Hr|by left]. }
  assert (∀ (files : option (string * string)) (c : string → string → MCall (result unit)) rest, (∀ h, wp rest h Q) →
    ∀ h, wp (match files with Some (cert, key) => or_exit (c cert key) rest | None => rest end) h Q) as Hfiles.
  { intros [[cert key]|] c rest Hr h; [by apply Hexit|apply Hr]. }
  assert (∀ h, wp (Start ;! mret 0%Z) h Q) as Hstart.
  { intros h [u|e]; [|by left]. right. split; [done|]. unfold done_steps. rewrite omap_snoc. cbn. set_solver. }
  assert (∀ h, wp (start_manager fs) h Q) as Hrun.
  { apply (Hfiles _ (fun c k => Add (CertWatcherR c k))). apply (Hfiles _ (fun c k => Add (CertWatcherR c k))).
    intros h. do 3 (apply Hexit; intros ?). apply Hstart. }
  apply (Hfiles _ CertwatcherNew). apply (Hfiles _ CertwatcherNew). intros h. do 2 (apply Hexit; intros ?).
  intros u. apply wp_bind. eapply wp_mono; [|apply wp_extends]. intros h1 available _.
  apply wp_bind. eapply wp_mono; [|apply wp_extends]. intros h2 image _.
  unfold setup_controllers, setup_webhooks. do 11 (apply Hexit; intros ?). apply Hrun.
Qed.
End Run.

(** ** A start with flags *)

Module SetupExample.
#[local] Existing Instance golib_instance.

(** Decimal digits only, whole seconds only. *)
Fixpoint decimal (acc : Z) (s : string) : option Z :=
  match s with
  | EmptyString => Some acc
  | String c s =>
      let d := (Z.of_nat (Ascii.nat_of_ascii c) - 48)%Z in
      if (0 <=? d)%Z && (d <=? 9)%Z && (acc <? 2 ^ 50)%Z then decimal (acc * 10 + d) s else None
  end.
Definition in_int64 (o : option Z) : option Z :=
  o ≫= fun z => if (- 2 ^ 63 <=? z)%Z && (z <? 2 ^ 63)%Z then Some z else None.

Lemma in_int64_range o z : in_int64 o = Some z → (- 2 ^ 63 <= z < 2 ^ 63)%Z.
Proof. destruct o as [z0|]; cbn -[Z.pow]; [|done]. destruct (_ && _) eqn:E; [|done]. intros [= <-]. lia. Qed.

#[local] Instance flaglib_instance : FlagLib := {
  ParseInt s := in_int64 (decimal 0 s);
  ParseDuration s := in_int64 (Z.mul Second <$> decimal 0 s);
  ParseInt_int64 s := in_int64_range _;
  ParseDuration_int64 s := in_int64_range _
}.

Definition Getenv (name : string) : string := if (name =? "POD_NAMESPACE")%string then "freqtrade" else "".

Definition parsed (args : list string) : option flag_set :=
  match ParseFlags manager_flags args with FlagsParsed fs => Some fs | _ => None end.

(** Without flags the reconcilers get the values they would fall back to. *)
Example default_flags :
  (tradebot_reconciler Getenv <$> parsed []) = Some
    {| TradeBot.FinalizerGracePeriod := TradeBot.defaultFinalizerGracePeriod; TradeBot.hasRecorder := true;
       TradeBot.DefaultImage := DefaultFreqtradeImage; TradeBot.OperatorNamespace := "freqtrade" |} ∧
  ((fun fs => workers {| Workers := int_flag fs "bot-poll-workers" |}) <$> parsed []) = Some Poller.defaultPollWorkers ∧
  ((fun fs => MetricsTLSOpts (manager_options fs)) <$> parsed []) = Some [DisableHTTP2].
Proof. split_and!; vm_compute; reflexivity. Qed.

Example some_flags :
  ((fun fs => (int_flag fs "bot-poll-workers", bool_flag fs "leader-elect", string_flag fs "operator-image")) <$>
     parsed ["--leader-elect"; "-bot-poll-workers=8"; "--operator-image"; "op:v1"; "rest"])
  = Some (8%Z, true, "op:v1").
Proof. vm_compute. reflexivity. Qed.

Example not_an_int : ParseFlags manager_flags ["--bot-poll-workers"; "many"]
  = FlagsError ("invalid value " ^^ Quote "many" ^^ " for flag -bot-poll-workers").
Proof. vm_compute. reflexivity. Qed.
End SetupExample.
