(* ===== verification/Wiring.v ===== *)
(** * The watches of the controllers

    controllers/*/setup.go: which change of which object reconciles what, and
    the field indexes behind the mappers of controllers/shared.  A reconcile
    renders more than its own object - a bot's config.json and NetworkPolicy
    depend on its TradeBotConfig, its Strategy and the FreqUIs that name it -,
    so the theorems say that every edit that changes what is rendered reaches
    the bots it concerns. *)

From S2P Require Import Prelude Prog GoLib Kube Types ConfigTypes Conversion Client Shared TradeBot.

(** What an informer tells a controller. *)
Inductive watch_event (A : Type) := Created (o : A) | Updated (old new : A) | Deleted (o : A).
Arguments Created {A}.
Arguments Updated {A}.
Arguments Deleted {A}.

Definition objects {A} (e : watch_event A) : list A :=
  match e with Created o | Deleted o => [o] | Updated old new => [old; new] end.

(** Whether an update changed a field; other events always count. *)
Definition changed {A B} `{EqDecision B} (field : A → B) (e : watch_event A) : bool :=
  match e with Updated old new => negb (bool_decide (field old = field new)) | _ => true end.

(** controller-runtime's predicates and handlers, as documented:
    - GenerationChangedPredicate, AnnotationChangedPredicate and
      ResourceVersionChangedPredicate drop the updates that leave the field
      as it was, and no other event; predicate.Or passes what one passes;
    - EnqueueRequestsFromMapFunc enqueues what the function makes of the
      object of the event, of both objects of an update; the handlers of For
      and Owns are such functions, of the object's own key and of its
      controller owner's. *)
Class WatchLib := {
  GenerationChangedPredicate {A} : (A → ObjectMeta) → watch_event A → bool;
  AnnotationChangedPredicate {A} : (A → ObjectMeta) → watch_event A → bool;
  ResourceVersionChangedPredicate {A} : (A → ObjectMeta) → watch_event A → bool;
  EnqueueRequestsFromMapFunc {A} : (A → Op (list reconcile_Request)) → watch_event A → Op (list reconcile_Request);

  generation_changed {A} (meta : A → ObjectMeta) e :
    GenerationChangedPredicate meta e = changed (fun o => Generation (meta o)) e;
  annotation_changed {A} (meta : A → ObjectMeta) e :
    AnnotationChangedPredicate meta e = changed (fun o => Annotations (meta o)) e;
  resource_version_changed {A} (meta : A → ObjectMeta) e :
    ResourceVersionChangedPredicate meta e = changed (fun o => ResourceVersion (meta o)) e;
  enqueued {A} (f : A → Op (list reconcile_Request)) e o h (P : history Call → Prop) req :
    o ∈ objects e →
    (∀ h0, wp (f o) h0 (fun h' rs => ∃ h1, h' = h0 ++ h1 ∧ (P h1 → req ∈ rs))) →
    wp (EnqueueRequestsFromMapFunc f e) h (fun h' rs =>
      ∃ h1 h2 h3, h' = h ++ h1 ++ h2 ++ h3 ∧ (P h2 → req ∈ rs))
}.

(** ** A controller's sources *)

Record source (A : Type) := { accepts : watch_event A → bool; requests : watch_event A → Op (list reconcile_Request) }.
Arguments accepts {A}.
Arguments requests {A}.

Definition deliver {A} (s : source A) (e : watch_event A) : Op (list reconcile_Request) :=
  if accepts s e then requests s e else mret [].

Section Builder.
Context `{KubeLib} `{WatchLib}.

(** builder.For. *)
Definition For {A} (meta : A → ObjectMeta) (accepts : watch_event A → bool) : source A :=
  {| accepts := accepts; requests := EnqueueRequestsFromMapFunc (fun o => mret [ObjectKeyFromMeta (meta o)]) |}.

(** builder.Watches with a mapper. *)
Definition Watches {A} (accepts : watch_event A → bool) (map : A → Op (list reconcile_Request)) : source A :=
  {| accepts := accepts; requests := EnqueueRequestsFromMapFunc map |}.

(** builder.Owns: the controller owner of the given kind. *)
Definition owner_request (ownerKind : string) (m : ObjectMeta) : list reconcile_Request :=
  match GetControllerOf (OwnerReferences m) with
  | Some owner =>
      if (or_Kind owner =? ownerKind)%string
      then [ {| nn_Namespace := Namespace m; nn_Name := or_Name owner |} ] else []
  | None => []
  end.

Definition Owns {A} (ownerKind : string) (meta : A → ObjectMeta) (accepts : watch_event A → bool) : source A :=
  {| accepts := accepts; requests := EnqueueRequestsFromMapFunc (fun o => mret (owner_request ownerKind (meta o))) |}.

End Builder.

(** ** controllers/tradebot/setup.go *)

Module TradeBotSetup.

Definition configRefField : string := "spec.config".
Definition strategyRefField : string := "spec.strategy".
Definition defaultMaxConcurrentReconciles : Z := 4.

(** The values a bot is found under. *)
Definition indexTradeBotRef (get : V1alpha1.TradeBot → string) (t : V1alpha1.TradeBot) : list string :=
  let v := get t in if nonempty v then [v] else [].

(** The registered indexes. *)
Definition tradeBotIndexes : gmap string (V1alpha1.TradeBot → list string) :=
  {[ configRefField := indexTradeBotRef (fun t => V1alpha1.Config (V1alpha1.Spec t));
     strategyRefField := indexTradeBotRef (fun t => V1alpha1.StrategyName (V1alpha1.Spec t)) ]}.

Section Setup.
Context `{KubeLib} `{WatchLib}.

Definition tradeBotChanged (e : watch_event V1alpha1.TradeBot) : bool :=
  GenerationChangedPredicate V1alpha1.Meta e || AnnotationChangedPredicate V1alpha1.Meta e.

Record TradeBotController := {
  For_TradeBot : source V1alpha1.TradeBot;
  Watches_FreqUI : source V1alpha1.FreqUI;
  Watches_TradeBotConfig : source ConfigV1alpha1.TradeBotConfig;
  Watches_Strategy : source Strategy;
  Owns_Secret : source Secret;
  Owns_ConfigMap : source ConfigMap;
  Owns_Service : source Service;
  Owns_PersistentVolumeClaim : source PersistentVolumeClaim;
  Owns_StatefulSet : source StatefulSet;
  MaxConcurrentReconciles : Z
}.

Definition owned_by_bot {A} (meta : A → ObjectMeta) : source A :=
  Owns "TradeBot" meta (ResourceVersionChangedPredicate meta).

(** [configured] is r.MaxConcurrentReconciles. *)
Definition SetupWithManager (configured : Z) : TradeBotController :=
  {| For_TradeBot := For V1alpha1.Meta tradeBotChanged;
     Watches_FreqUI := Watches (GenerationChangedPredicate V1alpha1.fu_Meta)
                         (fun frequi => mret (EnqueueTradeBotsByFreqUIRef frequi));
     Watches_TradeBotConfig := Watches (GenerationChangedPredicate ConfigV1alpha1.Meta)
                         (fun c => EnqueueTradeBotsByConfigRef configRefField (ConfigV1alpha1.Meta c));
     Watches_Strategy := Watches (GenerationChangedPredicate str_Meta)
                         (fun s => EnqueueTradeBotsByConfigRef strategyRefField (str_Meta s));
     Owns_Secret := owned_by_bot secret_Meta; Owns_ConfigMap := owned_by_bot cm_Meta;
     Owns_Service := owned_by_bot svc_Meta; Owns_PersistentVolumeClaim := owned_by_bot pvc_Meta;
     Owns_StatefulSet := owned_by_bot sts_Meta;
     MaxConcurrentReconciles := if (0 <? configured)%Z then configured else defaultMaxConcurrentReconciles |}.
End Setup.
End TradeBotSetup.

(** ** controllers/frequi/setup.go *)

Module FreqUISetup.
Record FreqUIController := {
  For_FreqUI : source V1beta1.FreqUI;
  Owns_Deployment : source Deployment;
  Owns_Service : source Service;
  Owns_Ingress : source Ingress;
  Owns_HTTPRoute : option (source HTTPRoute);
  MaxConcurrentReconciles : Z
}.

Section Setup.
Context `{KubeLib} `{WatchLib}.

Definition owned_by_frequi {A} (meta : A → ObjectMeta) : source A :=
  Owns "FreqUI" meta (ResourceVersionChangedPredicate meta).

(** [gatewayAPIAvailable] is r.GatewayAPIAvailable. *)
Definition SetupWithManager (gatewayAPIAvailable : bool) : FreqUIController :=
  {| For_FreqUI := For V1beta1.fu_Meta (GenerationChangedPredicate V1beta1.fu_Meta);
     Owns_Deployment := owned_by_frequi dep_Meta; Owns_Service := owned_by_frequi svc_Meta;
     Owns_Ingress := owned_by_frequi ing_Meta;
     Owns_HTTPRoute := if gatewayAPIAvailable then Some (owned_by_frequi hr_Meta) else None;
     MaxConcurrentReconciles := 1 |}.
End Setup.
End FreqUISetup.

(** ** controllers/backtest/setup.go *)

Module BacktestSetup.
Definition defaultMaxConcurrentReconciles : Z := 4.

Record BacktestController := {
  For_Backtest : source Backtest;
  Owns_Secret : source Secret;
  Owns_ConfigMap : source ConfigMap;
  Owns_PersistentVolumeClaim : source PersistentVolumeClaim;
  Owns_Job : source Job;
  MaxConcurrentReconciles : Z
}.

Section Setup.
Context `{KubeLib} `{WatchLib}.

Definition owned_by_backtest {A} (meta : A → ObjectMeta) : source A :=
  Owns "Backtest" meta (ResourceVersionChangedPredicate meta).

Definition SetupWithManager : BacktestController :=
  {| For_Backtest := For bt_Meta (GenerationChangedPredicate bt_Meta);
     Owns_Secret := owned_by_backtest secret_Meta; Owns_ConfigMap := owned_by_backtest cm_Meta;
     Owns_PersistentVolumeClaim := owned_by_backtest pvc_Meta; Owns_Job := owned_by_backtest job_Meta;
     MaxConcurrentReconciles := defaultMaxConcurrentReconciles |}.
End Setup.
End BacktestSetup.

(** ** controllers/strategy/setup.go and controllers/tradebotconfig/setup.go *)

Record SpecController (A : Type) := { For_Spec : source A; MaxConcurrentReconciles : Z }.

Definition StrategySetup `{WatchLib} : SpecController Strategy :=
  {| For_Spec := For str_Meta (GenerationChangedPredicate str_Meta); MaxConcurrentReconciles := 2 |}.

Definition TradeBotConfigSetup `{WatchLib} : SpecController ConfigV1alpha1.TradeBotConfig :=
  {| For_Spec := For ConfigV1alpha1.Meta (GenerationChangedPredicate ConfigV1alpha1.Meta);
     MaxConcurrentReconciles := 2 |}.

(** ** What reaches a bot *)

Section Reach.
Context `{KubeLib} `{GoLib} `{WatchLib}.
Import TradeBotSetup.

Lemma deliver_pure {A} accepted (f : A → list reconcile_Request) e o req (h : history Call) :
  accepted e = true → o ∈ objects e → req ∈ f o →
  wp (deliver {| accepts := accepted; requests := EnqueueRequestsFromMapFunc (fun o => mret (f o)) |} e) h
    (fun _ rs => req ∈ rs).
Proof.
  intros Ha Ho Hreq. unfold deliver. cbn. rewrite Ha. eapply wp_mono; [|eapply (enqueued _ e o h (fun _ => True)); [done|]].
  - intros h' rs (h1 & h2 & h3 & _ & Hin). by apply Hin.
  - intros h0. exists []. by rewrite app_nil_r.
Qed.

(** *** Edits of a FreqUI *)

(** What a bot's objects show of the FreqUIs of its namespace. *)
Definition rendered (t : V1alpha1.TradeBot) (frequis : list V1beta1.FreqUI) : list string * list string :=
  (collectCORSHostsForTradeBot t frequis, referencingFreqUINames t frequis).

(** The FreqUI before and after an event, and the event as the watch of
    v1alpha1 sees it. *)
Definition before {A} (e : watch_event A) : list A :=
  match e with Created _ => [] | Updated old _ => [old] | Deleted o => [o] end.
Definition after {A} (e : watch_event A) : list A :=
  match e with Created o => [o] | Updated _ new => [new] | Deleted _ => [] end.

Definition read_as (f : V1beta1.FreqUI) (a : V1alpha1.FreqUI) : Prop :=
  FreqUIConversion.ConvertFrom f FreqUIConversion.ZeroAlpha = Ok a.

Inductive seen_as : watch_event V1beta1.FreqUI → watch_event V1alpha1.FreqUI → Prop :=
  | seen_created f a : read_as f a → seen_as (Created f) (Created a)
  | seen_updated f f' a a' : read_as f a → read_as f' a' → seen_as (Updated f f') (Updated a a')
  | seen_deleted f a : read_as f a → seen_as (Deleted f) (Deleted a).

(** The API server: a name and namespace never change, and a spec changes
    with its generation only. *)
Definition legal (e : watch_event V1beta1.FreqUI) : Prop :=
  match e with
  | Updated old new =>
      ObjectKeyFromMeta (V1beta1.fu_Meta old) = ObjectKeyFromMeta (V1beta1.fu_Meta new) ∧
      (Generation (V1beta1.fu_Meta old) = Generation (V1beta1.fu_Meta new) → V1beta1.fu_Spec old = V1beta1.fu_Spec new)
  | _ => True
  end.

Lemma read_as_meta f a : read_as f a → V1alpha1.fu_Meta a = V1beta1.fu_Meta f.
Proof.
  unfold read_as, FreqUIConversion.ConvertFrom. intros Hc. apply result_bind_ok in Hc as (app & _ & Hc).
  apply result_bind_ok in Hc as (gw & _ & Hc). by injection Hc as <-.
Qed.

Lemma read_as_refs f a name :
  read_as f a → references f name = true → name ∈ V1alpha1.TradeBotRefs (V1alpha1.fu_Spec a).
Proof.
  unfold read_as, FreqUIConversion.ConvertFrom, references. intros Hc.
  apply result_bind_ok in Hc as (app & _ & Hc). apply result_bind_ok in Hc as (gw & _ & Hc). injection Hc as <-. cbn.
  intros (ref & Hin & <-%String.eqb_eq)%existsb_iff. destruct (V1beta1.TradeBotRefs _); [by apply elem_of_nil in Hin|].
  exact (list_elem_of_fmap_2 lor_Name _ _ Hin).
Qed.

Lemma seen_requests f a ref :
  read_as f a → references f ref = true →
  {| nn_Namespace := Namespace (V1beta1.fu_Meta f); nn_Name := ref |} ∈ EnqueueTradeBotsByFreqUIRef a.
Proof.
  intros Ha Href. apply list_elem_of_fmap. exists ref. rewrite (read_as_meta _ _ Ha).
  split; [done|by eapply read_as_refs].
Qed.

(** A FreqUI that does not name the bot shows nowhere in it. *)
Lemma rendered_ignores t l1 l l2 :
  Forall (fun f => references f (Name (V1alpha1.Meta t)) = false) l →
  rendered t (l1 ++ l ++ l2) = rendered t (l1 ++ l2).
Proof.
  intros Hl. unfold rendered, collectCORSHostsForTradeBot, referencingFreqUINames. rewrite !foldl_app.
  assert (∀ A (step : A → V1beta1.FreqUI → A) (acc : A),
    foldl (fun acc f => if references f (Name (V1alpha1.Meta t)) then step acc f else acc) acc l = acc) as Hskip.
  { intros A step. induction Hl as [|f l Hf _ IH]; intros acc; cbn; [done|]. rewrite Hf. apply IH. }
  by rewrite !Hskip.
Qed.

(** What a bot renders of a FreqUI is its spec and its name. *)
Lemma rendered_same_spec t l1 f f' l2 :
  V1beta1.fu_Spec f = V1beta1.fu_Spec f' →
  ObjectKeyFromMeta (V1beta1.fu_Meta f) = ObjectKeyFromMeta (V1beta1.fu_Meta f') →
  rendered t (l1 ++ [f] ++ l2) = rendered t (l1 ++ [f'] ++ l2).
Proof.
  intros Hspec [= Hns Hname]. unfold rendered, collectCORSHostsForTradeBot, referencingFreqUINames. rewrite !foldl_app. cbn.
  unfold references, cors_candidates. by rewrite Hspec, Hns, Hname.
Qed.

Lemma references_dec t l :
  {f | f ∈ l ∧ references f (Name (V1alpha1.Meta t)) = true} +
  {Forall (fun f => references f (Name (V1alpha1.Meta t)) = false) l}.
Proof.
  induction l as [|f l [[g [Hg Hr]]|IH]]; [by right|by left; exists g; split; [right|]|].
  destruct (references f (Name (V1alpha1.Meta t))) eqn:E; [left; exists f; split; [left|done]|right; by constructor].
Qed.

(** C16: an edit of a FreqUI reaches every bot it shows in: when creating,
    changing or deleting a FreqUI changes the CORS origins or the NetworkPolicy
    peers that a bot of its namespace renders, the watch of the TradeBot
    controller - on the converted objects, behind its predicate - enqueues
    that bot. *)
Theorem frequi_edit_reaches_bots n t l1 l2 e ev :
  legal e → seen_as e ev →
  (∀ f, f ∈ objects e → Namespace (V1beta1.fu_Meta f) = Namespace (V1alpha1.Meta t)) →
  rendered t (l1 ++ before e ++ l2) ≠ rendered t (l1 ++ after e ++ l2) →
  wp (deliver (Watches_FreqUI (SetupWithManager n)) ev) [] (fun _ rs => bot_key t ∈ rs).
Proof.
  intros Hlegal Hseen Hns Hdiff.
  assert (∃ f a, f ∈ objects e ∧ a ∈ objects ev ∧ read_as f a ∧ references f (Name (V1alpha1.Meta t)) = true)
    as (f & a & Hf & Ha & Hread & Href).
  { destruct (references_dec t (objects e)) as [(f & Hf & Href)|Hnone].
    - destruct Hseen as [f0 a Hread|f0 f0' a a' Hread Hread'|f0 a Hread]; cbn in Hf |- *.
      + apply list_elem_of_singleton in Hf as ->. exists f0, a. by split_and!; [left|left|..].
      + apply elem_of_cons in Hf as [->|Hf%list_elem_of_singleton]; [|subst f].
        * exists f0, a. by split_and!; [left|left|..].
        * exists f0', a'. by split_and!; [right; left|right; left|..].
      + apply list_elem_of_singleton in Hf as ->. exists f0, a. by split_and!; [left|left|..].
    - destruct Hdiff. rewrite !rendered_ignores; [done|..]; rewrite Forall_forall in Hnone |- *; intros f Hf; apply Hnone; by destruct e; set_solver. }
  apply (deliver_pure _ _ _ a).
  - cbn. rewrite generation_changed. destruct Hseen as [|f0 f0' a0 a0' Hread0 Hread0'|]; [done| |done]. cbn.
    rewrite (read_as_meta _ _ Hread0), (read_as_meta _ _ Hread0'). destruct Hlegal as [Hkey Hgen].
    case_bool_decide as Hg; [|done]. destruct Hdiff. by apply rendered_same_spec; [apply Hgen|].
  - done.
  - unfold bot_key, ObjectKeyFromMeta. rewrite <- (Hns f Hf). by apply seen_requests.
Qed.

(** *** Edits of a TradeBotConfig or Strategy *)

(** The List of an indexed field, on a cluster. *)
Definition indexed (cluster : list V1alpha1.TradeBot) (ns field name : string) : list V1alpha1.TradeBot :=
  filter (fun t => Namespace (V1alpha1.Meta t) = ns ∧ name ∈ default (fun _ => []) (tradeBotIndexes !! field) t) cluster.

(** Every List by this field was answered, from this cluster. *)
Definition lists_answered (cluster : list V1alpha1.TradeBot) (ns field name : string) (h : history Call) : Prop :=
  ∀ x, Ev (ListAll KTradeBot (Some ns) (Some (field, name))) x ∈ h → x = Ok (indexed cluster ns field name).

Lemma mapper_reaches cluster field m t h0 :
  t ∈ indexed cluster (Namespace m) field (Name m) →
  wp (EnqueueTradeBotsByConfigRef field m) h0 (fun h' rs => ∃ h1, h' = h0 ++ h1 ∧
    (lists_answered cluster (Namespace m) field (Name m) h1 → bot_key t ∈ rs)).
Proof.
  intros Ht x. cbn. eexists. split; [done|]. intros Hall. specialize (Hall x ltac:(by left)) as ->.
  apply list_elem_of_fmap. by exists t.
Qed.

Lemma config_source_reaches {A} (meta : A → ObjectMeta) field cluster e o t :
  changed (fun o => Generation (meta o)) e = true → o ∈ objects e →
  t ∈ indexed cluster (Namespace (meta o)) field (Name (meta o)) →
  wp (deliver (Watches (GenerationChangedPredicate meta) (fun o => EnqueueTradeBotsByConfigRef field (meta o))) e) []
    (fun h rs => lists_answered cluster (Namespace (meta o)) field (Name (meta o)) h → bot_key t ∈ rs).
Proof.
  intros Hgen Ho Ht. unfold deliver, Watches. cbn [accepts requests]. rewrite generation_changed, Hgen.
  eapply wp_mono; [|apply (enqueued _ e o [] (lists_answered cluster (Namespace (meta o)) field (Name (meta o))) (bot_key t) Ho)].
  - intros h rs (h1 & h2 & h3 & -> & Hin) Hall. rewrite app_nil_l in Hall. apply Hin. intros x Hx. apply Hall.
    apply elem_of_app; right. apply elem_of_app; left. exact Hx.
  - intros h0. by apply mapper_reaches.
Qed.

(** An edit of a TradeBotConfig or Strategy reaches every bot whose spec names
    it, through the index of that field - as long as the List is answered: on
    an error the mapper enqueues nothing. *)
Theorem config_edit_reaches_bots n cluster t :
  t ∈ cluster →
  (∀ e c, changed (fun c => Generation (ConfigV1alpha1.Meta c)) e = true → c ∈ objects e →
     ObjectKeyFromMeta (ConfigV1alpha1.Meta c) =
       {| nn_Namespace := Namespace (V1alpha1.Meta t); nn_Name := V1alpha1.Config (V1alpha1.Spec t) |} →
     V1alpha1.Config (V1alpha1.Spec t) ≠ "" →
     wp (deliver (Watches_TradeBotConfig (SetupWithManager n)) e) [] (fun h rs =>
       lists_answered cluster (Namespace (ConfigV1alpha1.Meta c)) configRefField (Name (ConfigV1alpha1.Meta c)) h →
       bot_key t ∈ rs)) ∧
  (∀ e s, changed (fun s => Generation (str_Meta s)) e = true → s ∈ objects e →
     ObjectKeyFromMeta (str_Meta s) =
       {| nn_Namespace := Namespace (V1alpha1.Meta t); nn_Name := V1alpha1.StrategyName (V1alpha1.Spec t) |} →
     V1alpha1.StrategyName (V1alpha1.Spec t) ≠ "" →
     wp (deliver (Watches_Strategy (SetupWithManager n)) e) [] (fun h rs =>
       lists_answered cluster (Namespace (str_Meta s)) strategyRefField (Name (str_Meta s)) h → bot_key t ∈ rs)).
Proof.
  intros Ht. split; intros e o Hgen Ho [= Hns Hname] Hne.
  - apply (config_source_reaches ConfigV1alpha1.Meta); [done..|]. unfold indexed. apply list_elem_of_filter.
    split; [|done]. split; [done|]. change (Name (ConfigV1alpha1.Meta o) ∈ indexTradeBotRef (fun t => V1alpha1.Config (V1alpha1.Spec t)) t).
    unfold indexTradeBotRef. apply nonempty_spec in Hne as ->. rewrite Hname. by left.
  - apply (config_source_reaches str_Meta); [done..|]. unfold indexed. apply list_elem_of_filter.
    split; [|done]. split; [done|]. change (Name (str_Meta o) ∈ indexTradeBotRef (fun t => V1alpha1.StrategyName (V1alpha1.Spec t)) t).
    unfold indexTradeBotRef. apply nonempty_spec in Hne as ->. rewrite Hname. by left.
Qed.

(** *** Changes of the objects a bot owns *)

(** A change of an object that carries the bot as its controller, its deletion
    included, reconciles the bot. *)
Theorem owned_change_reaches_bot {A} (meta : A → ObjectMeta) e o t :
  GetControllerOf (OwnerReferences (meta o)) = Some (ControllerRef "TradeBot" (Name (V1alpha1.Meta t)) (UID (V1alpha1.Meta t))) →
  Namespace (meta o) = Namespace (V1alpha1.Meta t) → o ∈ objects e →
  changed (fun o => ResourceVersion (meta o)) e = true →
  wp (deliver (owned_by_bot meta) e) [] (fun _ rs => bot_key t ∈ rs).
Proof.
  intros Hc Hns Ho Hrv. apply (deliver_pure _ _ _ o); [by rewrite resource_version_changed|done|].
  unfold owner_request. rewrite Hc. cbn. rewrite Hns. by left.
Qed.
End Reach.

(** ** An instance, and a FreqUI that drops a bot *)

Module WatchImpl.
Definition map_event {A} (f : A → Op (list reconcile_Request)) (e : watch_event A) : Op (list reconcile_Request) :=
  match e with
  | Created o | Deleted o => f o
  | Updated old new => rs ← f old; rs' ← f new; mret (remove_dups (rs ++ rs'))
  end.

Lemma map_event_reaches {A} (f : A → Op (list reconcile_Request)) e o h (P : history Call → Prop) req :
  o ∈ objects e →
  (∀ h0, wp (f o) h0 (fun h' rs => ∃ h1, h' = h0 ++ h1 ∧ (P h1 → req ∈ rs))) →
  wp (map_event f e) h (fun h' rs => ∃ h1 h2 h3, h' = h ++ h1 ++ h2 ++ h3 ∧ (P h2 → req ∈ rs)).
Proof.
  intros Ho Hf.
  assert (∀ o', o' ∈ [o] → wp (f o') h (fun h' rs => ∃ h1 h2 h3, h' = h ++ h1 ++ h2 ++ h3 ∧ (P h2 → req ∈ rs))) as Hone.
  { intros o' ->%list_elem_of_singleton. eapply wp_mono; [|apply Hf]. intros h' rs (h1 & -> & Hin).
    exists [], h1, []. by rewrite app_nil_r. }
  destruct e as [c|old new|c]; cbn in Ho |- *.
  - apply Hone. apply list_elem_of_singleton in Ho as ->. by left.
  - apply elem_of_cons in Ho as [->|Ho%list_elem_of_singleton]; [|subst o]; apply wp_bind.
    + eapply wp_mono; [|apply Hf]. intros h' rs (h1 & -> & Hin). apply wp_bind.
      eapply wp_mono; [|apply wp_extends]. intros h'' rs' [h2 ->]. exists [], h1, h2. rewrite app_nil_l, app_assoc.
      split; [done|]. intros Hp. apply elem_of_remove_dups, elem_of_app. left. by apply Hin.
    + eapply wp_mono; [|apply wp_extends]. intros h' rs [h1 ->]. apply wp_bind.
      eapply wp_mono; [|apply Hf]. intros h'' rs' (h2 & -> & Hin). exists h1, h2, []. rewrite app_nil_r, app_assoc.
      split; [done|]. intros Hp. apply elem_of_remove_dups, elem_of_app. right. by apply Hin.
  - apply Hone. apply list_elem_of_singleton in Ho as ->. by left.
Qed.
End WatchImpl.

#[export] Instance watchlib_instance : WatchLib := {|
  GenerationChangedPredicate A meta e := changed (fun o => Generation (meta o)) e;
  AnnotationChangedPredicate A meta e := changed (fun o => Annotations (meta o)) e;
  ResourceVersionChangedPredicate A meta e := changed (fun o => ResourceVersion (meta o)) e;
  EnqueueRequestsFromMapFunc A f e := WatchImpl.map_event f e;
  generation_changed A meta e := eq_refl;
  annotation_changed A meta e := eq_refl;
  resource_version_changed A meta e := eq_refl;
  enqueued A f e o h P req := WatchImpl.map_event_reaches f e o h P req
|}.

Module Example.
#[local] Existing Instance kubelib_instance.
#[local] Existing Instance golib_instance.

Definition ui (generation : Z) (refs : list string) : V1beta1.FreqUI :=
  {| V1beta1.fu_Meta :=
       {| Name := "ui"; Namespace := "trading"; UID := "u-1"; Generation := generation; ResourceVersion := "";
          DeletionTimestamp := None; Finalizers := []; Labels := ∅; Annotations := ∅; OwnerReferences := [] |};
     V1beta1.fu_Spec :=
       {| V1beta1.Host := "ui.example.org"; V1beta1.TLS := []; V1beta1.IngressAnnotations := ∅; V1beta1.FUApp := None;
          V1beta1.TradeBotRefs := map Build_LocalObjectReference refs; V1beta1.Exposure := FUExposureIngress;
          V1beta1.Gateway := None |};
     V1beta1.fu_Status := ZeroFreqUIStatus |}.

Definition bot : V1alpha1.TradeBot :=
  {| V1alpha1.Meta := NewMeta "bot" "trading" ∅ ∅; V1alpha1.Spec := V1alpha1.Spec TradeBotConversion.ZeroAlpha;
     V1alpha1.Status := ZeroTradeBotStatus |}.

(** The bot dropped from spec.tradeBotRefs is reconciled, and loses its origin. *)
Lemma frequi_edit_reaches_bots_witness :
  ∃ a a', read_as (ui 1 ["bot"]) a ∧ read_as (ui 2 []) a' ∧
    wp (deliver (TradeBotSetup.Watches_FreqUI (TradeBotSetup.SetupWithManager 0)) (Updated a a')) []
      (fun _ rs => bot_key bot ∈ rs).
Proof.
  do 2 eexists. split; [reflexivity|]. split; [reflexivity|].
  apply (frequi_edit_reaches_bots 0 bot [] [] (Updated (ui 1 ["bot"]) (ui 2 []))).
  - split; [reflexivity|discriminate].
  - apply seen_updated; reflexivity.
  - intros f [->|Hf%list_elem_of_singleton]%elem_of_cons; [reflexivity|by subst f].
  - vm_compute. discriminate.
Defined.
End Example.
